(* ===== verification/_CoqProject ===== *)
-Q . S2P
Prelude.v
CMem.v
CStruct.v
CMonad.v
OpenFlow.v
Checksum.v
IpText.v
Chain.v
CSteps.v
Agent.v
AgentProps.v
NatTable.v
Packet.v
Headers.v
Gateway.v
GatewayProps.v
ApData.v
Station.v
StationProps.v
StationMap.v
ApState.v
ApNat.v
ApNatProps.v
ApAgent.v
ApAgentProps.v
ApStaProps.v
Java.v
FlMessages.v
FlController.v
FlProps.v
FlHandover.v
FlPorts.v
FlWire.v
System.v
Signal.v
Elements.v
ElemProps.v
StaMlme.v
MlmeProps.v
MlmeCount.v
Mgmt.v
Eapol.v
MgmtCount.v
MgmtProps.v
FrameProps.v
StaLife.v
Handover.v
