(* ===== verification/Prelude.v ===== *)
(** * SDN-controlled Wi-Fi handover: a verification library

    ** The system

    Several access points offer one Wi-Fi network; a controller decides which of
    them serves a station and hands the station over to the access point that
    hears it best, without the station noticing.  Connections survive because
    translated addresses and ports move along.  The programs are

    - the gateway, [src/Gateway/gatewayNAT.c]: address translation between the
      access points' network and the outside, on packets from netfilter queues,
      and an OpenFlow agent that takes entries from the controller;
    - the access point, [src/hostapd-2.8]: hostapd with a controller interface
      ([src/ofSwitchAP/controller_interface.c], [.h], [ofSwitchAP.h]) that reports
      stations, executes the controller's orders on hostapd's station table
      ([src/ap/ieee802_11.c] [add_STA], [remove_STA]; [src/ap/sta_info.c]) and
      translates addresses and ports; hostapd's handlers of frames
      ([src/ap/ieee802_11.c], [ieee802_1x.c]) ask the interface whether the station
      may send the frame and have the interface report it;
    - the controller, [src/Floodlightv0.90/floodlight]: Floodlight with the module
      [net/floodlightcontroller/ofSwitchAP] and additions to its framing of
      OpenFlow messages;
    - Click on the access point, [src/click]: the element [PrintSignalStrength]
      passes signal strengths to the interface through files.

    They interact through octets: OpenFlow 1.0 with vendor messages between the
    controller and its switches, packets between the translators, files and
    inotify events between Click and the interface.

    ** The files

    Foundations.
    - [Prelude]: notations, tactics, hint databases, generic lemmas.
    - [CMem], [CStruct]: C objects as lists of bytes with loads and stores that
      fail out of bounds, host byte order as the class [Platform], structures laid
      out by the rules of the ABI.
    - [CMonad], [CSteps]: executions of C code ([Ret], [Crash] for undefined
      behaviour, [Exit], [Hang]), answers of libc and the kernel as the class
      [Env], effects as events; step lemmas, and [keeps] for invariants.
    - [Chain], [NatTable]: arrays of linked lists on the heap, and the finite map
      that a locked table of them implements ([map_rep]).
    - [Java]: the controller's integers, exceptions, buffers and writes.

    Wire formats and shared code.
    - [OpenFlow]: structures and enumerations of [openflow.h], [nicira-ext.h],
      [nicira-new.h], [ofSwitchAP.h].
    - [Checksum], [Packet], [Headers], [IpText]: [calculateCheckSum], the end of
      [handle_pkt], header fields, the textual subnet test.  Both translators
      contain this code.
    - [Agent]: the OpenFlow agent, the same text in both C programs, written once
      for any state with a [controller_connection] (class [HasConn]).

    Gateway.
    - [Gateway]: globals as [gw_state]; [lookupNatMap], [addEntry], [handle_pkt],
      [cb], [recvPkt], [handle_vendor], [handle_flow_mod], [controller_run],
      [main].

    Access point.
    - [ApData], [ApState]: the heap structures and the globals, [ap_state]; the
      threads that have been started and wait to run.
    - [ApNat]: translation with ports that the controller assigns.
    - [ApAgent]: messages to and from the controller, start and end.
    - [Station]: hostapd's stations, [add_STA] and [remove_STA].
    - [Elements]: the parser of information elements,
      [src/common/ieee802_11_common.c].
    - [StaMlme]: what the handlers of frames are made of: rates, capabilities,
      shared keys, association identifiers, the checks of a request, answers, SA
      queries, disconnecting ([src/ap/sta_info.c]) and the timers of a station.
    - [Mgmt], [Eapol]: the handlers of management frames, of the driver's reports
      that a frame was sent, and of EAPOL frames; each is split where the source
      has its labels and switches.
    - [Signal]: Click's [simple_action] and the interface's [data_frames_rssi].

    Controller.
    - [FlMessages]: the message classes, their registration, parsing and encoding.
    - [FlController]: the module [OFSwitchAP.java], one definition per handler.

    Proofs about a component are in the file with the suffix [Props]; [StationMap] is
    about [Station], [MlmeCount] and [MgmtCount] about the counters of the interface,
    [FrameProps] about sequences of frames, timers and orders of the controller, and
    [StaLife] follows one station; [FlHandover], [FlPorts] and [FlWire] are about the
    controller, and [System] and [Handover] compose the programs.

    ** What is shown

    - Agent ([AgentProps]): every request is answered with the octets the protocol
      demands, on either byte order; ten failures close the connection; what is
      received never leaves the connection's data ill-formed.
    - Translation ([GatewayProps], [ApNatProps], [ApAgentProps]): the gateway
      refines a finite map from flows to stations for any sequence of packets;
      rewritten packets carry valid checksums; answers reach the station that
      asked; at the access point a packet without a port is held and released
      exactly once, with the assigned port.
    - Stations ([StationProps], [StationMap], [ApStaProps]): hostapd's table, list
      and number of stations are one finite map, its six counters the numbers of
      stations they count; [add_STA] and [remove_STA] return and admit or remove
      exactly the station they are called for; the interface's list stays within
      its capacity and strengths are reported exactly when they improve.
    - Elements ([ElemProps]): the parser reads nothing but the bytes it is given, and
      finds exactly what a reference definition says on well-formed elements.
    - Frames of stations ([MlmeProps], [MgmtProps], [FrameProps], [StaLife]): for any
      sequence of frames, reports, timers and orders the handlers come to an end and
      keep hostapd's and the interface's lists, the counters and the association
      identifiers in order, whatever the environment answers; a frame that is out of
      state changes nothing; a station that the controller selects and that asks to
      get in gets in; one that leaves is gone.  The triples [total] and [runs] say
      what a handler does to the station it is about and nothing else.
    - Signal strengths ([Signal]): what Click writes is what the interface reports.
    - Controller ([FlProps], [FlHandover], [FlPorts]): an invariant of every
      reachable state, whatever bytes arrive and whichever writes fail; the
      handover goes to the access point that reported best, and sends exactly the
      messages it must; connections to a service get different ports.
    - Composition ([FlWire], [System], [Handover]): the controller's Java code parses what the
      access point's C code builds, and the other way round; the assignment of a
      port is followed through all three programs; a handover is followed from the
      table of one hostapd, through the controller, to the table of the other.
    - Deviations: theorems at the end of the component files give inputs on which
      the code does not do what it is meant to (second carry of a checksum, text
      prefix taken for a subnet, table index 255, reassociation, the answer to a
      request that is lost, and others).

    ** Bounds and fuel

    Integers have the width of the source: C unsigned values are reduced modulo
    2^8, 2^16, 2^32 where they are stored, Java values by [signed].  Loops that
    end have fuel that is enough: the size of the heap for a walk along a chain
    ([Chain]), the number of held packets ([ApNat.reinject_pkt]), the number of
    readable bytes for the parsers ([FlMessages.parseMessage],
    [Elements.ieee802_11_parse_elems]) and for the buffer
    of notifications ([Signal.event_loop]); the theorems that use them show that
    the code returns.  The endless loops of the programs ([controller_run],
    [recv_loop], [rssi_rounds]) take the number of rounds.  A loop of the code
    that need not end is [Hang] when its fuel is used up
    ([ApAgentProps.zero_length_action_spins]).

    ** Not modelled

    - Threads of one program run one after the other, each to its end; locks are
      taken and released but there is no interleaving within a handler.
    - libc, the kernel, libnetfilter_queue and Netty are parameters ([Env],
      [JavaEnv]) as far as results matter; printing is left out.
    - hostapd apart from the functions above: driver, accounting, access lists,
      RADIUS, the WPA and EAPOL state machines, WMM and radio measurements are calls
      that are recorded as events and answered by the environment; what those state
      machines later do to a station is not followed.  The EAPOL frame that was
      kept while a station associated is such a call.  The build is the one of
      hostapd's [.config] (802.11w, no 802.11n, r, SAE, FILS, WPS, mesh, P2P), with
      one BSS; code that this build leaves out has no definition.
    - Floodlight and Click as they are distributed, and shell scripts. *)

From Stdlib Require Import ZArith Lia.
From stdpp Require Export base tactics numbers list gmap strings.
#[global] Open Scope Z_scope.

(** ** Notation, tactics and hint databases of the development *)

(** [layout]: closed facts about C layouts; [cmem]: loads and stores;
    [cstep]: evaluation steps of the C monad. *)
Create HintDb cmem.
Create Rewrite HintDb cmem.
Create HintDb cstep.
Create Rewrite HintDb cstep.
Create HintDb conn.

(** Length of a buffer as an integer, the way the C code counts. *)
Definition zlen {A} (m : list A) : Z := Z.of_nat (length m).

(** Destructs the boolean guard in the goal or a hypothesis and turns it into a
    proposition. *)
Ltac case_if :=
  match goal with
  | |- context [if ?b then _ else _] =>
      match type of b with bool => destruct b eqn:? end
  | H : context [if ?b then _ else _] |- _ =>
      match type of b with bool => destruct b eqn:? end
  end.

(** Reflects boolean integer tests of the context. *)
Ltac zbool :=
  repeat match goal with
  | H : _ && _ = true |- _ => apply andb_true_iff in H as [? ?]
  | H : _ || _ = false |- _ => apply orb_false_iff in H as [? ?]
  | H : negb _ = true |- _ => apply negb_true_iff in H
  | H : negb _ = false |- _ => apply negb_false_iff in H
  | H : (_ =? _) = true |- _ => apply Z.eqb_eq in H
  | H : (_ =? _) = false |- _ => apply Z.eqb_neq in H
  | H : (_ <=? _) = true |- _ => apply Z.leb_le in H
  | H : (_ <=? _) = false |- _ => apply Z.leb_gt in H
  | H : (_ <? _) = true |- _ => apply Z.ltb_lt in H
  | H : (_ <? _) = false |- _ => apply Z.ltb_ge in H
  end.

(** Rewrites a boolean guard of the goal to the value [lia] gives it. *)
Ltac guard_true :=
  match goal with
  | |- context [if ?b then _ else _] => replace b with true by lia
  end.
Ltac guard_false :=
  match goal with
  | |- context [if ?b then _ else _] => replace b with false by lia
  end.

(** ** Option helpers *)

Lemma bind_Some_inv {A B} (f : A → option B) (o : option A) (b : B) :
  (x ← o; f x) = Some b → ∃ a, o = Some a ∧ f a = Some b.
Proof. destruct o; naive_solver. Qed.

(** Opens every successful [option] bind of the context. *)
Ltac inv_bind :=
  repeat match goal with
  | H : mbind _ _ = Some _ |- _ =>
      let E := fresh "E" in apply bind_Some_inv in H as (? & E & H)
  end.

(** ** Lists *)

Lemma zlen_app {A} (l k : list A) : zlen (l ++ k) = zlen l + zlen k.
Proof. unfold zlen. rewrite length_app. lia. Qed.

Lemma zlen_nonneg {A} (l : list A) : 0 ≤ zlen l.
Proof. unfold zlen. lia. Qed.

Lemma zlen_replicate {A} n (x : A) : zlen (replicate n x) = Z.of_nat n.
Proof. unfold zlen. by rewrite length_replicate. Qed.

Lemma zlen_cons {A} (x : A) l : zlen (x :: l) = 1 + zlen l.
Proof. unfold zlen. simpl. lia. Qed.

#[export] Hint Rewrite @zlen_app @zlen_replicate @zlen_cons : cmem.

(** ** Words *)

Lemma testbit_land_ones (a n : Z) : 0 ≤ n → Z.land a (Z.ones n) = a mod 2 ^ n.
Proof. apply Z.land_ones. Qed.

Lemma land_ffff a : Z.land a 0xffff = a mod 65536.
Proof. change 0xffff with (Z.ones 16). rewrite Z.land_ones; [done|lia]. Qed.

Lemma land_0f a : Z.land a 0x0f = a mod 16.
Proof. change 0x0f with (Z.ones 4). rewrite Z.land_ones; [done|lia]. Qed.

Lemma land_ff a : Z.land a 0xff = a mod 256.
Proof. change 0xff with (Z.ones 8). rewrite Z.land_ones; [done|lia]. Qed.

(** Clearing the low byte of a 16-bit word. *)
Lemma land_ff00 a : 0 ≤ a < 65536 → Z.land a 0xff00 = 256 * (a / 256).
Proof.
  intros Ha.
  replace (256 * (a / 256)) with (Z.shiftl (Z.shiftr a 8) 8)
    by (rewrite Z.shiftl_mul_pow2, Z.shiftr_div_pow2 by lia;
        rewrite Z.mul_comm; reflexivity).
  change 0xff00 with (Z.shiftl (Z.ones 8) 8).
  apply Z.bits_inj'. intros n Hn. rewrite Z.land_spec, !Z.shiftl_spec by lia.
  destruct (Z.lt_ge_cases n 8).
  { rewrite !(Z.testbit_neg_r _ (n - 8)) by lia. apply andb_false_r. }
  rewrite Z.shiftr_spec by lia. replace (n - 8 + 8) with n by lia.
  destruct (Z.lt_ge_cases n 16).
  { rewrite Z.ones_spec_low by lia. apply andb_true_r. }
  rewrite (Z.bits_above_log2 a n); [done|lia|].
  destruct (decide (a = 0)) as [->|]; [simpl; lia|].
  apply Z.log2_lt_pow2; [lia|]. apply Z.lt_le_trans with (2 ^ 16); [lia|].
  apply Z.pow_le_mono_r; lia.
Qed.

(** [~x & 0xffff] is the one's complement of a 16-bit word. *)
Lemma lnot_ffff a : 0 ≤ a < 65536 → Z.land (Z.lnot a) 0xffff = 65535 - a.
Proof.
  intros Ha. rewrite land_ffff. unfold Z.lnot.
  symmetry. apply (Z.mod_unique_pos _ _ (-1)); lia.
Qed.

(** [hi << n | lo] for a low part of [n] bits. *)
Lemma lor_shiftl a b n : 0 ≤ n → 0 ≤ b < 2 ^ n → Z.lor (Z.shiftl a n) b = a * 2 ^ n + b.
Proof.
  intros Hn Hb. rewrite <- Z.shiftl_mul_pow2 by lia. symmetry.
  apply Z.add_nocarry_lor. apply Z.bits_inj'. intros i Hi.
  rewrite Z.land_spec, Z.bits_0. destruct (Z.lt_ge_cases i n).
  - by rewrite Z.shiftl_spec_low by lia.
  - destruct (decide (b = 0)) as [->|]; [by rewrite Z.bits_0, andb_false_r|].
    rewrite (Z.bits_above_log2 b i); [apply andb_false_r|lia|].
    apply Z.log2_lt_pow2; [lia|]. apply Z.lt_le_trans with (2 ^ n); [lia|].
    apply Z.pow_le_mono_r; lia.
Qed.

(** Filtering, and filtering a table of lists when only one holds matches. *)
Lemma filter_none {B} (P : B → Prop) `{∀ x, Decision (P x)} (l : list B) :
  (∀ x, x ∈ l → ¬ P x) → filter P l = [].
Proof.
  induction l as [|x l IH]; intros Hn; [done|].
  rewrite filter_cons_False by (apply Hn; left). apply IH. intros y Hy. apply Hn. by right.
Qed.

Lemma filter_all {B} (P : B → Prop) `{∀ x, Decision (P x)} (l : list B) :
  (∀ x, x ∈ l → P x) → filter P l = l.
Proof.
  induction l as [|x l IH]; intros Hn; [done|].
  rewrite filter_cons_True by (apply Hn; left). f_equal. apply IH. intros y Hy.
  apply Hn. by right.
Qed.

Lemma filter_one_bucket {B} (P : B → Prop) `{∀ x, Decision (P x)} (bs : list (list B)) i ns :
  bs !! i = Some ns → (∀ j ms x, bs !! j = Some ms → x ∈ ms → P x → j = i) →
  filter P (concat bs) = filter P ns ∧
  (filter (λ x, ¬ P x) <$> bs) = <[i := filter (λ x, ¬ P x) ns]> bs.
Proof.
  revert i. induction bs as [|ms bs IH]; intros i Hi HP; [done|].
  assert (Ht : ∀ j ms' x, bs !! j = Some ms' → x ∈ ms' → P x → S j = i)
    by (intros j ms' x Hj; apply (HP (S j) ms' x Hj)).
  destruct i as [|i]; simpl in *.
  - injection Hi as ->. rewrite filter_app, (filter_none P (concat bs)), app_nil_r.
    + split; [done|]. f_equal. etrans; [|apply list_fmap_id].
      apply list_fmap_ext. intros j ms' Hj. apply filter_all. intros x Hx Px.
      by specialize (Ht j ms' x Hj Hx Px).
    + intros x (ms' & Hm & Hx)%list_elem_of_In%in_concat Px.
      apply list_elem_of_In in Hx. apply list_elem_of_In, list_elem_of_lookup in Hm as [j Hj]. by specialize (Ht j ms' x Hj Hx Px).
  - destruct (IH i Hi) as [E1 E2].
    { intros j ms' x Hj Hx Px. by injection (Ht j ms' x Hj Hx Px). }
    assert (Hno : ∀ x, x ∈ ms → ¬ P x)
      by (intros x Hx Px; by specialize (HP 0%nat ms x eq_refl Hx Px)).
    rewrite filter_app, (filter_none P ms), E1 by done. split; [done|].
    f_equal; [by apply filter_all|exact E2].
Qed.
