(* ===== verification/CMem.v ===== *)
(** * C memory: byte buffers, integers of a given width, byte order

    A C object is a list of bytes; a pointer into it is an integer offset.  An
    access outside the object has no defined behaviour, so loads and stores
    return an [option].  The host's byte order and pointer size are a
    [Platform]: everything said about messages on the wire holds for both byte
    orders. *)

From Stdlib Require Import ZArith Lia.
From S2P Require Import Prelude.

(** The machine the C code is compiled for. *)
Class Platform := {
  big_endian : bool;
  sizeof_ptr : Z;
}.

Definition lp64_le : Platform := {| big_endian := false; sizeof_ptr := 8 |}.
Definition lp64_be : Platform := {| big_endian := true; sizeof_ptr := 8 |}.
Definition ilp32_le : Platform := {| big_endian := false; sizeof_ptr := 4 |}.

Abbreviation bytes := (list Z).

Definition byte_ok (b : Z) : Prop := 0 ≤ b < 256.
Definition bytes_ok (m : bytes) : Prop := Forall byte_ok m.

#[global] Instance byte_ok_dec b : Decision (byte_ok b).
Proof. unfold byte_ok. apply _. Defined.
#[global] Instance bytes_ok_dec m : Decision (bytes_ok m).
Proof. unfold bytes_ok. apply _. Defined.

(** ** Loads and stores *)

(** Is [off, off + n) inside the object? *)
Definition in_range (m : bytes) (off n : Z) : bool :=
  (0 <=? off) && (0 <=? n) && (off + n <=? zlen m).

(** [n] bytes read at [off] ([memcpy] out of the object). *)
Definition ldn (m : bytes) (off n : Z) : option bytes :=
  if in_range m off n
  then Some (take (Z.to_nat n) (drop (Z.to_nat off) m)) else None.

(** [bs] written at [off] ([memcpy] into the object). *)
Definition stn (m : bytes) (off : Z) (bs : bytes) : option bytes :=
  if in_range m off (zlen bs)
  then Some (take (Z.to_nat off) m ++ bs ++ drop (Z.to_nat off + length bs) m)
  else None.

Definition ld8 (m : bytes) (off : Z) : option Z :=
  if 0 <=? off then m !! Z.to_nat off else None.

(** ** Byte orders *)

Fixpoint le_enc (n : nat) (v : Z) : bytes :=
  match n with
  | O => []
  | S n => v mod 256 :: le_enc n (v / 256)
  end.

Fixpoint le_dec (l : bytes) : Z :=
  match l with
  | [] => 0
  | b :: l => b + 256 * le_dec l
  end.

Definition be_enc (n : nat) (v : Z) : bytes := reverse (le_enc n v).
Definition be_dec (l : bytes) : Z := le_dec (reverse l).

Section Native.
  Context `{Platform}.

(** An integer object in the host's byte order. *)
Definition nat_enc (n : nat) (v : Z) : bytes :=
  if big_endian then be_enc n v else le_enc n v.
Definition nat_dec (l : bytes) : Z :=
  if big_endian then be_dec l else le_dec l.

Definition ldint (n : nat) (m : bytes) (off : Z) : option Z :=
  nat_dec <$> ldn m off (Z.of_nat n).
Definition stint (n : nat) (m : bytes) (off v : Z) : option bytes :=
  stn m off (nat_enc n v).

(** [hton]: the byte swap of [htons], [htonl] (and of [ntohs], [ntohl]) on a
    little-endian host, truncation to the width on a big-endian one. *)
Definition hton (n : nat) (v : Z) : Z :=
  if big_endian then v mod 256 ^ Z.of_nat n else le_dec (reverse (le_enc n v)).

Definition htons : Z → Z := hton 2.
Definition ntohs : Z → Z := hton 2.
Definition htonl : Z → Z := hton 4.
Definition ntohl : Z → Z := hton 4.

End Native.

(** ** Encoding and decoding *)

Lemma length_le_enc n v : length (le_enc n v) = n.
Proof. revert v. induction n; intros; simpl; auto. Qed.

Lemma length_be_enc n v : length (be_enc n v) = n.
Proof. unfold be_enc. by rewrite length_reverse, length_le_enc. Qed.

Lemma length_nat_enc `{Platform} n v : length (nat_enc n v) = n.
Proof. unfold nat_enc. case_if; auto using length_be_enc, length_le_enc. Qed.

Lemma zlen_nat_enc `{Platform} n v : zlen (nat_enc n v) = Z.of_nat n.
Proof. unfold zlen. by rewrite length_nat_enc. Qed.

Lemma zlen_be_enc n v : zlen (be_enc n v) = Z.of_nat n.
Proof. unfold zlen. by rewrite length_be_enc. Qed.

Lemma le_enc_ok n v : bytes_ok (le_enc n v).
Proof.
  revert v. induction n; intros; simpl; constructor; [|apply IHn].
  unfold byte_ok. apply Z.mod_pos_bound. lia.
Qed.

Lemma be_enc_ok n v : bytes_ok (be_enc n v).
Proof. apply Forall_reverse, le_enc_ok. Qed.

Lemma nat_enc_ok `{Platform} n v : bytes_ok (nat_enc n v).
Proof. unfold nat_enc. case_if; auto using be_enc_ok, le_enc_ok. Qed.

#[export] Hint Resolve le_enc_ok be_enc_ok nat_enc_ok : cmem.

Lemma pow256_S n : 256 ^ Z.of_nat (S n) = 256 * 256 ^ Z.of_nat n.
Proof. rewrite Nat2Z.inj_succ, Z.pow_succ_r; lia. Qed.

Lemma pow256_pos n : 0 < 256 ^ Z.of_nat n.
Proof. apply Z.pow_pos_nonneg; lia. Qed.

Lemma le_dec_bound l : bytes_ok l → 0 ≤ le_dec l < 256 ^ zlen l.
Proof.
  induction 1 as [|b l [Hb Hb'] _ IH]; [done|].
  unfold zlen in *. cbn [length le_dec]. rewrite pow256_S. lia.
Qed.

Lemma le_dec_enc n v : le_dec (le_enc n v) = v mod 256 ^ Z.of_nat n.
Proof.
  revert v. induction n; intros; [by rewrite Z.mod_1_r|].
  cbn [le_enc le_dec]. rewrite IHn, pow256_S.
  rewrite Z.rem_mul_r by (pose proof (pow256_pos n); lia). lia.
Qed.

Lemma le_enc_dec l : bytes_ok l → le_enc (length l) (le_dec l) = l.
Proof.
  induction 1 as [|b l [Hb Hb'] _ IH]; [done|].
  cbn [length le_enc le_dec]. f_equal.
  - rewrite Z.mul_comm, Z.mod_add by lia. apply Z.mod_small. lia.
  - rewrite Z.mul_comm, Z.div_add by lia. rewrite Z.div_small by lia. done.
Qed.

Lemma le_enc_mod n v : le_enc n (v mod 256 ^ Z.of_nat n) = le_enc n v.
Proof.
  rewrite <- le_dec_enc. rewrite <- (length_le_enc n v) at 1.
  apply le_enc_dec, le_enc_ok.
Qed.

Lemma be_dec_enc n v : be_dec (be_enc n v) = v mod 256 ^ Z.of_nat n.
Proof. unfold be_dec, be_enc. rewrite reverse_involutive. apply le_dec_enc. Qed.

Lemma be_enc_dec l : bytes_ok l → be_enc (length l) (be_dec l) = l.
Proof.
  intros Hl. unfold be_dec, be_enc. rewrite <- length_reverse.
  rewrite le_enc_dec by by apply Forall_reverse. apply reverse_involutive.
Qed.

Lemma be_dec_bound l : bytes_ok l → 0 ≤ be_dec l < 256 ^ zlen l.
Proof.
  intros Hl. unfold be_dec. pose proof (le_dec_bound (reverse l)) as B.
  unfold zlen in *. rewrite length_reverse in B. by apply B, Forall_reverse.
Qed.

Section NativeFacts.
  Context `{Platform}.

Lemma nat_dec_enc n v : nat_dec (nat_enc n v) = v mod 256 ^ Z.of_nat n.
Proof. unfold nat_dec, nat_enc. case_if; auto using be_dec_enc, le_dec_enc. Qed.

Lemma nat_enc_dec l : bytes_ok l → nat_enc (length l) (nat_dec l) = l.
Proof. unfold nat_dec, nat_enc. case_if; auto using be_enc_dec, le_enc_dec. Qed.

(** Storing [htons(v)] puts the big-endian bytes of [v] in memory, whatever
    the host. *)
Lemma nat_enc_hton n v : nat_enc n (hton n v) = be_enc n v.
Proof.
  unfold nat_enc, hton. case_if.
  - unfold be_enc. f_equal. apply le_enc_mod.
  - fold (be_enc n v). rewrite <- (length_be_enc n v) at 1.
    apply le_enc_dec, be_enc_ok.
Qed.

(** [ntohs] of a loaded word is the big-endian value of its bytes. *)
Lemma hton_nat_dec l n :
  bytes_ok l → length l = n → hton n (nat_dec l) = be_dec l.
Proof.
  intros Hl <-. unfold hton, nat_dec. case_if.
  - apply Z.mod_small. apply (be_dec_bound l Hl).
  - by rewrite le_enc_dec.
Qed.

Lemma hton_bound n v : 0 ≤ hton n v < 256 ^ Z.of_nat n.
Proof.
  unfold hton. case_if; [apply Z.mod_pos_bound, pow256_pos|].
  pose proof (be_dec_bound (le_enc n v) (le_enc_ok n v)) as B.
  unfold zlen in B. by rewrite length_le_enc in B.
Qed.

(** [htons] and [ntohs] are inverse to each other. *)
Lemma hton_hton n v : hton n (hton n v) = v mod 256 ^ Z.of_nat n.
Proof.
  unfold hton. case_if.
  - by rewrite Z.mod_mod by (pose proof (pow256_pos n); lia).
  - fold (be_enc n v). rewrite <- (length_be_enc n v) at 1.
    rewrite le_enc_dec by apply be_enc_ok. apply be_dec_enc.
Qed.

End NativeFacts.

(** ** Reading back what was written *)

Lemma in_range_iff m off n :
  in_range m off n = true ↔ 0 ≤ off ∧ 0 ≤ n ∧ off + n ≤ zlen m.
Proof. unfold in_range. rewrite !andb_true_iff, !Z.leb_le. tauto. Qed.

Lemma ldn_ok m off n :
  0 ≤ off → 0 ≤ n → off + n ≤ zlen m →
  ldn m off n = Some (take (Z.to_nat n) (drop (Z.to_nat off) m)).
Proof.
  intros. unfold ldn. by rewrite (proj2 (in_range_iff m off n)) by lia.
Qed.

Lemma ldn_Some m off n l :
  ldn m off n = Some l →
  0 ≤ off ∧ 0 ≤ n ∧ off + n ≤ zlen m ∧ zlen l = n ∧
  l = take (Z.to_nat n) (drop (Z.to_nat off) m).
Proof.
  unfold ldn. destruct (in_range m off n) eqn:E; [|done].
  apply in_range_iff in E. intros [= <-].
  split_and!; [lia..| |done].
  unfold zlen in *. rewrite length_take, length_drop. lia.
Qed.

Lemma ldn_None m off n :
  ldn m off n = None ↔ ¬ (0 ≤ off ∧ 0 ≤ n ∧ off + n ≤ zlen m).
Proof.
  rewrite <- in_range_iff. unfold ldn.
  destruct (in_range m off n); split; try done; by intros [].
Qed.

Lemma ldn_bytes_ok m off n l : bytes_ok m → ldn m off n = Some l → bytes_ok l.
Proof.
  intros Hm (_ & _ & _ & _ & ->)%ldn_Some. by apply Forall_take, Forall_drop.
Qed.

Lemma stn_ok m off bs :
  0 ≤ off → off + zlen bs ≤ zlen m → ∃ m', stn m off bs = Some m'.
Proof.
  intros. unfold stn.
  rewrite (proj2 (in_range_iff m off (zlen bs)));
    eauto using zlen_nonneg.
Qed.

Lemma stn_Some m off bs m' :
  stn m off bs = Some m' →
  0 ≤ off ∧ off + zlen bs ≤ zlen m ∧
  m' = take (Z.to_nat off) m ++ bs ++ drop (Z.to_nat off + length bs) m.
Proof.
  unfold stn. destruct (in_range m off (zlen bs)) eqn:E; [|done].
  apply in_range_iff in E. intros [= <-]. split_and!; [lia..|done].
Qed.

Lemma stn_length m off bs m' : stn m off bs = Some m' → length m' = length m.
Proof.
  intros (? & ? & ->)%stn_Some. unfold zlen in *.
  rewrite !length_app, length_take, length_drop. lia.
Qed.

Lemma stn_zlen m off bs m' : stn m off bs = Some m' → zlen m' = zlen m.
Proof. intros E%stn_length. unfold zlen. lia. Qed.

Lemma stn_bytes_ok m off bs m' :
  bytes_ok m → bytes_ok bs → stn m off bs = Some m' → bytes_ok m'.
Proof.
  intros Hm Hb (_ & _ & ->)%stn_Some.
  apply Forall_app; split; [by apply Forall_take|].
  apply Forall_app; split; [done|]. by apply Forall_drop.
Qed.

(** A store changes the bytes it covers and no others. *)
Lemma stn_lookup m off bs m' i :
  stn m off bs = Some m' →
  m' !! i = if decide (off ≤ Z.of_nat i < off + zlen bs)
            then bs !! (i - Z.to_nat off)%nat else m !! i.
Proof.
  intros (Ho & Hl & ->)%stn_Some. unfold zlen in *.
  case_decide as D.
  - rewrite lookup_app_r by (rewrite length_take; lia).
    rewrite length_take, lookup_app_l by lia. f_equal. lia.
  - destruct (decide (Z.of_nat i < off)).
    + rewrite lookup_app_l by (rewrite length_take; lia).
      rewrite lookup_take_lt by lia. done.
    + rewrite lookup_app_r by (rewrite length_take; lia).
      rewrite lookup_app_r by (rewrite length_take; lia).
      rewrite lookup_drop, length_take. f_equal. lia.
Qed.

Lemma ldn_lookup m off n l i :
  ldn m off n = Some l →
  l !! i = if decide (Z.of_nat i < n) then m !! (Z.to_nat off + i)%nat else None.
Proof.
  intros (? & ? & ? & ? & ->)%ldn_Some. case_decide.
  - rewrite lookup_take_lt by lia. apply lookup_drop.
  - apply lookup_take_ge. lia.
Qed.

(** Equal bytes, equal loads. *)
Lemma ldn_ext m m' off n :
  zlen m' = zlen m →
  (∀ i, off ≤ Z.of_nat i < off + n → m' !! i = m !! i) →
  ldn m' off n = ldn m off n.
Proof.
  intros Hl Hi. destruct (ldn m off n) as [l|] eqn:E.
  - pose proof (ldn_Some _ _ _ _ E) as (? & ? & ? & ? & _).
    destruct (ldn m' off n) as [l'|] eqn:E'.
    2: { apply ldn_None in E'. lia. }
    f_equal. apply list_eq. intros i.
    rewrite (ldn_lookup _ _ _ _ _ E), (ldn_lookup _ _ _ _ _ E').
    case_decide; [|done]. apply Hi. lia.
  - apply ldn_None in E. apply ldn_None. lia.
Qed.

Lemma ldn_stn_same m off bs m' :
  stn m off bs = Some m' → ldn m' off (zlen bs) = Some bs.
Proof.
  intros E. pose proof (stn_Some _ _ _ _ E) as (? & ? & _).
  rewrite ldn_ok by (try rewrite (stn_zlen _ _ _ _ E); unfold zlen in *; lia).
  f_equal. apply list_eq. intros i. unfold zlen in *.
  destruct (decide (i < length bs)%nat).
  - rewrite lookup_take_lt, lookup_drop by lia.
    rewrite (stn_lookup _ _ _ _ _ E). unfold zlen.
    rewrite decide_True by lia. f_equal. lia.
  - rewrite lookup_take_ge by lia. symmetry. apply lookup_ge_None_2. lia.
Qed.

Lemma ldn_stn_other m off bs m' off' n :
  stn m off bs = Some m' → off' + n ≤ off ∨ off + zlen bs ≤ off' →
  ldn m' off' n = ldn m off' n.
Proof.
  intros E D. apply ldn_ext; [by eapply stn_zlen|].
  intros i Hi. rewrite (stn_lookup _ _ _ _ _ E). rewrite decide_False by lia. done.
Qed.

(** Writing back the bytes that are there changes nothing. *)
Lemma stn_id m off n l : ldn m off n = Some l → stn m off l = Some m.
Proof.
  intros E. pose proof (ldn_Some _ _ _ _ E) as (? & ? & ? & ? & Hl).
  destruct (stn_ok m off l) as [m' E']; [lia..|].
  rewrite E'. f_equal. apply list_eq. intros i.
  rewrite (stn_lookup _ _ _ _ _ E'). case_decide; [|done].
  rewrite (ldn_lookup _ _ _ _ _ E), decide_True by lia. f_equal. lia.
Qed.

Lemma ld8_ok m off : 0 ≤ off < zlen m → ∃ b, ld8 m off = Some b.
Proof.
  intros. unfold ld8, zlen in *. guard_true.
  apply lookup_lt_is_Some_2. lia.
Qed.

Lemma ld8_byte m off b : bytes_ok m → ld8 m off = Some b → byte_ok b.
Proof.
  intros Hm. unfold ld8. case_if; [|done]. intros E.
  by eapply Forall_lookup_1 in E.
Qed.

Lemma ld8_stn_other m off bs m' i :
  stn m off bs = Some m' → i < off ∨ off + zlen bs ≤ i → ld8 m' i = ld8 m i.
Proof.
  intros E D. unfold ld8. case_if; [|done]. zbool.
  rewrite (stn_lookup _ _ _ _ _ E). rewrite decide_False by lia. done.
Qed.

#[export] Hint Resolve ldn_bytes_ok stn_bytes_ok ld8_byte : cmem.

(** *** Integers on the wire *)

Section Wire.
  Context `{Platform}.

(** The big-endian number the [n] bytes at [off] encode. *)
Definition be_at (n : nat) (m : bytes) (off : Z) : option Z :=
  be_dec <$> ldn m off (Z.of_nat n).

Lemma ntoh_ldint n m off :
  bytes_ok m → hton n <$> ldint n m off = be_at n m off.
Proof.
  intros Hm. unfold ldint, be_at.
  destruct (ldn m off (Z.of_nat n)) as [l|] eqn:E; simpl; [|done].
  f_equal. apply hton_nat_dec; [by eapply ldn_bytes_ok|].
  apply ldn_Some in E. unfold zlen in E. lia.
Qed.

Lemma stint_hton n m off v : stint n m off (hton n v) = stn m off (be_enc n v).
Proof. unfold stint. by rewrite nat_enc_hton. Qed.

Lemma be_at_stn_same n m off v m' :
  stn m off (be_enc n v) = Some m' → be_at n m' off = Some (v mod 256 ^ Z.of_nat n).
Proof.
  intros E%ldn_stn_same. rewrite zlen_be_enc in E. unfold be_at. rewrite E.
  simpl. by rewrite be_dec_enc.
Qed.

Lemma be_at_bound n m off v :
  bytes_ok m → be_at n m off = Some v → 0 ≤ v < 256 ^ Z.of_nat n.
Proof.
  intros Hm. unfold be_at. destruct (ldn _ _ _) as [l|] eqn:E; [|done].
  intros [= <-]. pose proof (ldn_Some _ _ _ _ E) as (_ & _ & _ & <- & _).
  apply be_dec_bound. by eapply ldn_bytes_ok.
Qed.

(** [if(ntohs(x) != v) x = htons(v)]: the guard only skips a store that would
    change nothing. *)
Lemma store_if_differs m off w v :
  bytes_ok m → ldint 2 m off = Some w → 0 ≤ v < 65536 →
  (if negb (ntohs w =? v) then stint 2 m off (htons v) else Some m)
  = stn m off (be_enc 2 v).
Proof.
  intros Hm Hw Hv. unfold htons. rewrite stint_hton.
  case_if; [done|]. zbool. subst v. symmetry.
  unfold ldint in Hw. destruct (ldn m off (Z.of_nat 2)) as [l|] eqn:E; [|done].
  injection Hw as <-.
  assert (Hl : length l = 2%nat) by (apply ldn_Some in E; unfold zlen in E; lia).
  unfold ntohs. rewrite hton_nat_dec by (eauto with cmem).
  rewrite <- Hl, be_enc_dec by eauto with cmem. by eapply stn_id.
Qed.

End Wire.
