(* ===== verification/CStruct.v ===== *)
(** * C structures: sizes, alignment, field offsets and field access

    The layout rules of the System V and ARM ABIs for the fixed-width types the
    wire structures are made of: every member is placed at the next multiple of
    its alignment, and the size is rounded up to the alignment of the
    structure.  Field accesses of the model name the structure and the path of
    members, as the C code does. *)

From Stdlib Require Import ZArith Lia.
From S2P Require Import Prelude CMem.

Inductive ctype :=
| U8 | U16 | U32 | U64
| Arr (t : ctype) (n : Z)
| Struct (fields : list (string * ctype)).

Definition align_up (off a : Z) : Z := (off + a - 1) / a * a.

Fixpoint alignof (t : ctype) : Z :=
  match t with
  | U8 => 1 | U16 => 2 | U32 => 4 | U64 => 8
  | Arr t _ => alignof t
  | Struct fs => foldr (λ '(_, t) a, Z.max (alignof t) a) 1 fs
  end.

Fixpoint sizeof (t : ctype) : Z :=
  match t with
  | U8 => 1 | U16 => 2 | U32 => 4 | U64 => 8
  | Arr t n => n * sizeof t
  | Struct fs =>
      align_up
        (foldl (λ off '(_, t), align_up off (alignof t) + sizeof t) 0 fs)
        (foldr (λ '(_, t) a, Z.max (alignof t) a) 1 fs)
  end.

(** Offset and type of the member called [f], the members before it laid out
    from [off] on. *)
Fixpoint member (fs : list (string * ctype)) (off : Z) (f : string)
    : option (Z * ctype) :=
  match fs with
  | [] => None
  | (g, t) :: fs =>
      let o := align_up off (alignof t) in
      if String.eqb f g then Some (o, t) else member fs (o + sizeof t) f
  end.

Fixpoint field_at (t : ctype) (path : list string) : option (Z * ctype) :=
  match path with
  | [] => Some (0, t)
  | f :: path =>
      match t with
      | Struct fs =>
          '(o, t') ← member fs 0 f; '(o', t'') ← field_at t' path;
          Some (o + o', t'')
      | _ => None
      end
  end.

Definition offsetof (t : ctype) (path : list string) : Z :=
  match field_at t path with Some (o, _) => o | None => -1 end.

Definition int_width (t : ctype) : option nat :=
  match t with
  | U8 => Some 1 | U16 => Some 2 | U32 => Some 4 | U64 => Some 8
  | _ => None
  end%nat.

Section Fields.
  Context `{Platform}.

(** [((struct t * )(m + b))->path] as an rvalue of integer type. *)
Definition ldf (t : ctype) (b : Z) (path : list string) (m : bytes) : option Z :=
  '(o, ft) ← field_at t path; n ← int_width ft; ldint n m (b + o).

(** [((struct t * )(m + b))->path = v]. *)
Definition stf (t : ctype) (b : Z) (path : list string) (v : Z) (m : bytes)
    : option bytes :=
  '(o, ft) ← field_at t path; n ← int_width ft; stint n m (b + o) v.

(** [memcpy(dst, ((struct t * )(m + b))->path, n)] and the other direction. *)
Definition ldf_bytes (t : ctype) (b : Z) (path : list string) (n : Z) (m : bytes)
    : option bytes :=
  '(o, _) ← field_at t path; ldn m (b + o) n.
Definition stf_bytes (t : ctype) (b : Z) (path : list string) (bs m : bytes)
    : option bytes :=
  '(o, _) ← field_at t path; stn m (b + o) bs.

Lemma ldf_eq t b path m o ft n :
  field_at t path = Some (o, ft) → int_width ft = Some n →
  ldf t b path m = ldint n m (b + o).
Proof. intros E1 E2. unfold ldf. rewrite E1. simpl. by rewrite E2. Qed.

Lemma stf_eq t b path v m o ft n :
  field_at t path = Some (o, ft) → int_width ft = Some n →
  stf t b path v m = stint n m (b + o) v.
Proof. intros E1 E2. unfold stf. rewrite E1. simpl. by rewrite E2. Qed.

End Fields.

(** Evaluates the field accesses of the goal to loads and stores at numeric
    offsets. *)
Ltac fields :=
  repeat match goal with
  | |- context [field_at ?T ?p] =>
      let v := eval vm_compute in (field_at T p) in
      change (field_at T p) with v
  end.

Ltac open_fields :=
  unfold ldf, stf, ldf_bytes, stf_bytes; fields;
  cbn [mbind option_bind int_width].

(** The members of a structure do not overlap and lie inside it. *)
Fixpoint layout (fs : list (string * ctype)) (off : Z) : list (Z * Z) :=
  match fs with
  | [] => []
  | (_, t) :: fs =>
      let o := align_up off (alignof t) in (o, o + sizeof t) :: layout fs (o + sizeof t)
  end.

Lemma align_up_le off a : 0 < a → off ≤ align_up off a < off + a.
Proof.
  intros Ha. unfold align_up.
  pose proof (Z.div_mod (off + a - 1) a). pose proof (Z.mod_pos_bound (off + a - 1) a).
  nia.
Qed.

Lemma align_up_divide off a : 0 < a → (a | align_up off a).
Proof. intros Ha. exists ((off + a - 1) / a). unfold align_up. lia. Qed.
