(* ===== verification/CMonad.v ===== *)
(** * Executions of C code: state, exit, undefined behaviour, divergence

    A C function is a function from the program's state to an [outcome].  What
    the program asks of libc and the kernel is answered by an environment
    [Env]; the [n]th call is answered by the environment at time [n], and the
    calls that have an effect outside the process are recorded as events. *)

From Stdlib Require Import ZArith Lia.
From S2P Require Import Prelude CMem.

(** Outcome of running a piece of code.  [Crash]: an access outside an object
    or through a null pointer, undefined in C.  [Exit]: [exit(code)].  [Hang]:
    the fuel of a loop ran out, or a thread locks a mutex it already holds. *)
Inductive outcome (S A : Type) :=
| Ret (a : A) (s : S)
| Crash
| Exit (code : Z) (s : S)
| Hang.
Arguments Ret {S A} a s.
Arguments Crash {S A}.
Arguments Exit {S A} code s.
Arguments Hang {S A}.

Definition M (S A : Type) : Type := S → outcome S A.

#[global] Instance M_ret S : MRet (M S) := λ A a s, Ret a s.
#[global] Instance M_bind S : MBind (M S) := λ A B k m s,
  match m s with
  | Ret a s' => k a s'
  | Crash => Crash
  | Exit c s' => Exit c s'
  | Hang => Hang
  end.

Section Basic.
  Context {S : Type}.

Definition skip : M S unit := mret ().
Definition crash {A} : M S A := λ _, Crash.
Definition exit {A} (code : Z) : M S A := λ s, Exit code s.
Definition hang {A} : M S A := λ _, Hang.

Definition get : M S S := λ s, Ret s s.
Definition gets {A} (f : S → A) : M S A := λ s, Ret (f s) s.
Definition modify (f : S → S) : M S unit := λ s, Ret () (f s).

(** A load or store: [None] is an access that is not allowed. *)
Definition lift_opt {A} (o : option A) : M S A :=
  match o with Some a => mret a | None => crash end.

Lemma bind_ret {A B} (a : A) (k : A → M S B) s : (mret a ≫= k) s = k a s.
Proof. done. Qed.

Lemma lift_opt_Some {A B} (a : A) (k : A → M S B) s :
  (lift_opt (Some a) ≫= k) s = k a s.
Proof. done. Qed.

Lemma lift_opt_None {A B} (k : A → M S B) s : (lift_opt None ≫= k) s = Crash.
Proof. done. Qed.

Lemma bind_assoc {A B C} (m : M S A) (f : A → M S B) (g : B → M S C) s :
  ((m ≫= f) ≫= g) s = (m ≫= (λ a, f a ≫= g)) s.
Proof. unfold mbind, M_bind. by destruct (m s). Qed.

Lemma bind_mret {A} (m : M S A) s : (m ≫= mret) s = m s.
Proof. unfold mbind, M_bind. by destruct (m s). Qed.

Lemma bind_ext {A B} (m : M S A) (k k' : A → M S B) s :
  (∀ a s', k a s' = k' a s') → (m ≫= k) s = (m ≫= k') s.
Proof. intros E. unfold mbind, M_bind. by destruct (m s). Qed.

(** What the first part returns can be plugged into the rest. *)
Lemma bind_Ret {A B} (m : M S A) (k : A → M S B) s a s' :
  m s = Ret a s' → (m ≫= k) s = k a s'.
Proof. unfold mbind, M_bind. by intros ->. Qed.

(** A bind that returns is a first part that returns and a rest that returns. *)
Lemma bind_Ret_inv {A B} (m : M S A) (k : A → M S B) s b s' :
  (m ≫= k) s = Ret b s' → ∃ a s1, m s = Ret a s1 ∧ k a s1 = Ret b s'.
Proof. unfold mbind, M_bind. destruct (m s); naive_solver. Qed.

End Basic.

Notation "'opt!' e" := (lift_opt e) (at level 20).

(** ** Events and the environment *)

(** Effects outside the process and calls of other parts of hostapd, in the
    order they happen.  [EvBeacons]: [ieee802_11_set_beacons]. *)
Inductive event :=
| EvSend (sock : Z) (data : bytes) (result : Z)
| EvVerdict (qh id verdict data_len : Z) (data : bytes)
| EvClose (sock : Z)
| EvSystem (command : bytes)
| EvBeacons
| EvCall (function : string) (addr : bytes).

#[global] Instance event_eq_dec : EqDecision event.
Proof. solve_decision. Defined.

(** Answers of libc and the kernel, indexed by the time of the call.
    - [env_calloc]: whether an allocation succeeds;
    - [env_send], [env_recv]: result of [send] on the given bytes; bytes
      delivered by [recv] with the given limit, [None] for the result -1;
    - [env_select]: result of [select] and whether the descriptor is in the
      set it returns;
    - [env_socket], [env_fcntl], [env_setsockopt], [env_connect], [env_errno],
      [env_so_error]: results of the calls that open a connection, the value
      of [errno] after [connect] and the one [getsockopt(SO_ERROR)] stores;
    - [env_permaddr]: result of the [SIOCETHTOOL] ioctl and the bytes it
      stores in the address buffer;
    - [env_rand]: result of [rand] after [srand(time)];
    - [env_stack]: what an uninitialised local array holds;
    - [env_verdict]: result of [nfq_set_verdict];
    - [env_thread]: result of [pthread_create];
    - [env_system]: result of [system];
    - [env_call]: result of a call to another part of hostapd;
    - [env_bytes]: bytes that another part of hostapd stores. *)
Class Env := {
  env_calloc : nat → Z → bool;
  env_send : nat → bytes → Z;
  env_recv : nat → Z → option bytes;
  env_select : nat → Z * bool;
  env_socket : nat → Z;
  env_fcntl : nat → Z;
  env_setsockopt : nat → Z;
  env_connect : nat → Z;
  env_errno : nat → Z;
  env_so_error : nat → Z;
  env_permaddr : nat → Z * bytes;
  env_rand : nat → Z;
  env_stack : nat → Z → bytes;
  env_verdict : nat → Z;
  env_thread : nat → Z;
  env_system : nat → bytes → Z;
  env_call : nat → string → Z;
  env_bytes : nat → string → bytes;
}.

(** The part of a program's state that the environment sees: how many calls
    were made, and the events, latest first. *)
Record sys := Sys { clock : nat; events : list event }.

(** A program state that has such a part. *)
Class HasSys (S : Type) := {
  get_sys : S → sys;
  set_sys : sys → S → S;
  get_set_sys : ∀ w s, get_sys (set_sys w s) = w;
  set_get_sys : ∀ s, set_sys (get_sys s) s = s;
  set_set_sys : ∀ w w' s, set_sys w (set_sys w' s) = set_sys w s;
}.

Section Calls.
  Context `{Env} {S : Type} `{HasSys S}.

(** A call answered by [f]: time passes. *)
Definition ask {A} (f : nat → A) : M S A := λ s,
  let w := get_sys s in
  Ret (f (clock w)) (set_sys (Sys (Datatypes.S (clock w)) (events w)) s).

Definition emit (e : event) : M S unit := λ s,
  let w := get_sys s in Ret () (set_sys (Sys (clock w) (e :: events w)) s).

(** [calloc(1, n)]: a zeroed object, or [None] for NULL.  [calloc(1, 0)]
    returns a pointer to an object of no bytes. *)
Definition calloc (n : Z) : M S (option bytes) :=
  ok ← ask (λ t, env_calloc t n);
  mret (if ok : bool then Some (replicate (Z.to_nat n) 0) else None).

Definition nfq_set_verdict (qh id verdict data_len : Z) (data : bytes) : M S Z :=
  data ← opt! ldn data 0 data_len;
  emit (EvVerdict qh id verdict data_len data);;
  ask env_verdict.

Definition system (command : bytes) : M S Z :=
  emit (EvSystem command);; ask (λ t, env_system t command).

(** A call of a function of hostapd that is not modelled, about the station
    with the address [addr]. *)
Definition hostapd_call (function : string) (addr : bytes) : M S Z :=
  emit (EvCall function addr);; ask (λ t, env_call t function).

End Calls.

(** Runs the next step of a bind whose outcome is known. *)
Ltac cbind E := rewrite (bind_Ret _ _ _ _ _ E).

Lemma mret_bind {S A B} (a : A) (k : A → M S B) : mret a ≫= k = k a.
Proof. done. Qed.

(** An environment in which every call succeeds; [recv] and [send] are given.
    [connect] is in progress first, then writable, and the interface has the
    address 02:00:00:00:00:01. *)
Definition env_with (recv : nat → Z → option bytes) (send : nat → bytes → Z) : Env := {|
  env_calloc _ _ := true;
  env_send := send;
  env_recv := recv;
  env_select _ := (1, true);
  env_socket _ := 3;
  env_fcntl _ := 0;
  env_setsockopt _ := 0;
  env_connect _ := -1;
  env_errno _ := 115;
  env_so_error _ := 0;
  env_permaddr _ := (0, [2; 0; 0; 0; 0; 1] ++ replicate 26 0);
  env_rand _ := 7;
  env_stack _ n := replicate (Z.to_nat n) 0;
  env_verdict _ := 0;
  env_thread _ := 0;
  env_system _ _ := 0;
  env_call _ _ := 0;
  env_bytes _ _ := [];
|}.
