(* ===== verification/OpenFlow.v ===== *)
(** * The wire formats: OpenFlow 1.0, the Nicira role messages and the SDEW
    vendor messages

    Structures of [Gateway/openflow.h], [nicira-ext.h], [nicira-new.h] (the
    copies under [hostapd-2.8/src/ofSwitchAP] are the same files) and
    [ofSwitchAP.h], with the enumerations that the message handlers dispatch
    on.  The build assertions [OFP_ASSERT] of the headers are checked against
    the layout rules of [CStruct]. *)

From Stdlib Require Import ZArith Lia.
From S2P Require Import Prelude CMem CStruct.

(** ** Enumerations *)

(** A C enumeration: its members and their values. *)
Class CEnum (T : Type) := {
  enum_val : T → Z;
  enum_all : list T;
  enum_inj : Inj (=) (=) enum_val;
  enum_complete : ∀ t, t ∈ enum_all;
}.
#[global] Existing Instance enum_inj.

(** The member a number stands for: the [case] that a [switch] takes. *)
Definition enum_of `{CEnum T} (z : Z) : option T :=
  head (filter (λ t, enum_val t = z) enum_all).

Lemma enum_of_Some `{CEnum T} z t : enum_of z = Some t ↔ enum_val t = z.
Proof.
  unfold enum_of. split.
  - intros E. destruct (filter _ _) as [|u l] eqn:F; [done|]. injection E as ->.
    assert (Hin : t ∈ filter (λ t, enum_val t = z) enum_all) by (rewrite F; left).
    by apply list_elem_of_filter in Hin as [? _].
  - intros <-. destruct (filter _ _) as [|u l] eqn:F.
    + assert (Hin : t ∈ filter (λ u, enum_val u = enum_val t) enum_all)
        by (apply list_elem_of_filter; auto using enum_complete).
      rewrite F in Hin. by apply not_elem_of_nil in Hin.
    + assert (Hin : u ∈ filter (λ u, enum_val u = enum_val t) enum_all)
        by (rewrite F; left).
      apply list_elem_of_filter in Hin as [Hu _]. simpl. f_equal. by apply (inj _).
Qed.

Lemma enum_of_val `{CEnum T} (t : T) : enum_of (enum_val t) = Some t.
Proof. by apply enum_of_Some. Qed.

(** Members are compared by their values. *)
#[global] Instance enum_eq_dec `{CEnum T} : EqDecision T.
Proof.
  intros a b. destruct (decide (enum_val a = enum_val b)) as [E|E].
  - left. by apply (inj enum_val).
  - right. congruence.
Defined.

(** Closes the two obligations of an enumeration: distinct members have
    distinct values, and the list names every member. *)
Ltac enum_tac :=
  first [intros [] [] E; (reflexivity || discriminate E)
        |intros []; repeat (left || right)].

Inductive ofp_type :=
| OFPT_HELLO | OFPT_ERROR | OFPT_ECHO_REQUEST | OFPT_ECHO_REPLY | OFPT_VENDOR
| OFPT_FEATURES_REQUEST | OFPT_FEATURES_REPLY
| OFPT_GET_CONFIG_REQUEST | OFPT_GET_CONFIG_REPLY | OFPT_SET_CONFIG
| OFPT_PACKET_IN | OFPT_FLOW_REMOVED | OFPT_PORT_STATUS
| OFPT_PACKET_OUT | OFPT_FLOW_MOD | OFPT_PORT_MOD
| OFPT_STATS_REQUEST | OFPT_STATS_REPLY
| OFPT_BARRIER_REQUEST | OFPT_BARRIER_REPLY
| OFPT_QUEUE_GET_CONFIG_REQUEST | OFPT_QUEUE_GET_CONFIG_REPLY.

#[global, refine] Instance ofp_type_enum : CEnum ofp_type := {|
  enum_val t := match t with
    | OFPT_HELLO => 0 | OFPT_ERROR => 1 | OFPT_ECHO_REQUEST => 2
    | OFPT_ECHO_REPLY => 3 | OFPT_VENDOR => 4
    | OFPT_FEATURES_REQUEST => 5 | OFPT_FEATURES_REPLY => 6
    | OFPT_GET_CONFIG_REQUEST => 7 | OFPT_GET_CONFIG_REPLY => 8
    | OFPT_SET_CONFIG => 9
    | OFPT_PACKET_IN => 10 | OFPT_FLOW_REMOVED => 11 | OFPT_PORT_STATUS => 12
    | OFPT_PACKET_OUT => 13 | OFPT_FLOW_MOD => 14 | OFPT_PORT_MOD => 15
    | OFPT_STATS_REQUEST => 16 | OFPT_STATS_REPLY => 17
    | OFPT_BARRIER_REQUEST => 18 | OFPT_BARRIER_REPLY => 19
    | OFPT_QUEUE_GET_CONFIG_REQUEST => 20 | OFPT_QUEUE_GET_CONFIG_REPLY => 21
    end;
  enum_all :=
    [OFPT_HELLO; OFPT_ERROR; OFPT_ECHO_REQUEST; OFPT_ECHO_REPLY; OFPT_VENDOR;
     OFPT_FEATURES_REQUEST; OFPT_FEATURES_REPLY;
     OFPT_GET_CONFIG_REQUEST; OFPT_GET_CONFIG_REPLY; OFPT_SET_CONFIG;
     OFPT_PACKET_IN; OFPT_FLOW_REMOVED; OFPT_PORT_STATUS;
     OFPT_PACKET_OUT; OFPT_FLOW_MOD; OFPT_PORT_MOD;
     OFPT_STATS_REQUEST; OFPT_STATS_REPLY;
     OFPT_BARRIER_REQUEST; OFPT_BARRIER_REPLY;
     OFPT_QUEUE_GET_CONFIG_REQUEST; OFPT_QUEUE_GET_CONFIG_REPLY] |}.
Proof. all: enum_tac. Defined.

Inductive ofp_stats_types :=
| OFPST_DESC | OFPST_FLOW | OFPST_AGGREGATE | OFPST_TABLE | OFPST_PORT
| OFPST_QUEUE | OFPST_VENDOR.

#[global, refine] Instance ofp_stats_types_enum : CEnum ofp_stats_types := {|
  enum_val t := match t with
    | OFPST_DESC => 0 | OFPST_FLOW => 1 | OFPST_AGGREGATE => 2
    | OFPST_TABLE => 3 | OFPST_PORT => 4 | OFPST_QUEUE => 5
    | OFPST_VENDOR => 0xffff
    end;
  enum_all := [OFPST_DESC; OFPST_FLOW; OFPST_AGGREGATE; OFPST_TABLE; OFPST_PORT;
               OFPST_QUEUE; OFPST_VENDOR] |}.
Proof. all: enum_tac. Defined.

Inductive ofp_flow_mod_command :=
| OFPFC_ADD | OFPFC_MODIFY | OFPFC_MODIFY_STRICT | OFPFC_DELETE
| OFPFC_DELETE_STRICT.

#[global, refine] Instance ofp_flow_mod_command_enum : CEnum ofp_flow_mod_command := {|
  enum_val t := match t with
    | OFPFC_ADD => 0 | OFPFC_MODIFY => 1 | OFPFC_MODIFY_STRICT => 2
    | OFPFC_DELETE => 3 | OFPFC_DELETE_STRICT => 4
    end;
  enum_all := [OFPFC_ADD; OFPFC_MODIFY; OFPFC_MODIFY_STRICT; OFPFC_DELETE;
               OFPFC_DELETE_STRICT] |}.
Proof. all: enum_tac. Defined.

(** Only the vendor action is interpreted; the other members of
    [enum ofp_action_type] all take the [default] branch. *)
Definition OFPAT_VENDOR : Z := 0xffff.

(** Members of [enum nx_subtype]. *)
Inductive nx_subtype := NXT_ROLE_REQUEST | NXT_ROLE_REPLY.

#[global, refine] Instance nx_subtype_enum : CEnum nx_subtype := {|
  enum_val t := match t with NXT_ROLE_REQUEST => 10 | NXT_ROLE_REPLY => 11 end;
  enum_all := [NXT_ROLE_REQUEST; NXT_ROLE_REPLY] |}.
Proof. all: enum_tac. Defined.

(** [enum exp_type] of [ofSwitchAP.h]: the vendor messages of the access
    points. *)
Inductive exp_type :=
| WLAN_AUTH_REQ | WLAN_AUTH_RESP | WLAN_AUTH_ERROR | WLAN_DEAUTH_REQ
| WLAN_ASSOC_REQ | WLAN_ASSOC_RESP | WLAN_ASSOC_ERROR
| WLAN_REASSOC_REQ | WLAN_REASSOC_RESP | WLAN_REASSOC_ERROR
| WLAN_DISASSOC_REQ | WLAN_BSSID | WLAN_PROBE | WLAN_ADD_STA | WLAN_REC_POW
| WLAN_LAST_REC_POW | WLAN_AP_REC_POW | WLAN_UPDATE_STA_ADD | WLAN_REMOVE_STA
| WLAN_NAT_UPDATE | WLAN_NAT_ADD | WLAN_PORT_TRANSLATION.

#[global, refine] Instance exp_type_enum : CEnum exp_type := {|
  enum_val t := match t with
    | WLAN_AUTH_REQ => 0 | WLAN_AUTH_RESP => 1 | WLAN_AUTH_ERROR => 2
    | WLAN_DEAUTH_REQ => 3
    | WLAN_ASSOC_REQ => 4 | WLAN_ASSOC_RESP => 5 | WLAN_ASSOC_ERROR => 6
    | WLAN_REASSOC_REQ => 7 | WLAN_REASSOC_RESP => 8 | WLAN_REASSOC_ERROR => 9
    | WLAN_DISASSOC_REQ => 10 | WLAN_BSSID => 11 | WLAN_PROBE => 12
    | WLAN_ADD_STA => 13 | WLAN_REC_POW => 14 | WLAN_LAST_REC_POW => 15
    | WLAN_AP_REC_POW => 16 | WLAN_UPDATE_STA_ADD => 17 | WLAN_REMOVE_STA => 18
    | WLAN_NAT_UPDATE => 19 | WLAN_NAT_ADD => 20 | WLAN_PORT_TRANSLATION => 21
    end;
  enum_all :=
    [WLAN_AUTH_REQ; WLAN_AUTH_RESP; WLAN_AUTH_ERROR; WLAN_DEAUTH_REQ;
     WLAN_ASSOC_REQ; WLAN_ASSOC_RESP; WLAN_ASSOC_ERROR;
     WLAN_REASSOC_REQ; WLAN_REASSOC_RESP; WLAN_REASSOC_ERROR;
     WLAN_DISASSOC_REQ; WLAN_BSSID; WLAN_PROBE; WLAN_ADD_STA; WLAN_REC_POW;
     WLAN_LAST_REC_POW; WLAN_AP_REC_POW; WLAN_UPDATE_STA_ADD; WLAN_REMOVE_STA;
     WLAN_NAT_UPDATE; WLAN_NAT_ADD; WLAN_PORT_TRANSLATION] |}.
Proof. all: enum_tac. Defined.

(** [enum gw_subtype] of [gatewayNAT.c]. *)
Inductive gw_subtype := GW_WLAN_NAT_ADD | GW_CONNECT.

#[global, refine] Instance gw_subtype_enum : CEnum gw_subtype := {|
  enum_val t := match t with GW_WLAN_NAT_ADD => 20 | GW_CONNECT => 100 end;
  enum_all := [GW_WLAN_NAT_ADD; GW_CONNECT] |}.
Proof. all: enum_tac. Defined.

Definition OFP_VERSION : Z := 1.
Definition OFP_ETH_ALEN : Z := 6.
Definition OFPC_FRAG_NORMAL : Z := 0.
Definition DESC_STR_LEN : Z := 256.
Definition SERIAL_NUM_LEN : Z := 32.
Definition NX_VENDOR_ID : Z := 0x2320.
Definition AP_EXPERIMENTER_ID : Z := 1.

(** ** Structures *)

(** *** openflow.h *)

Definition ofp_header : ctype := Struct
  [("version", U8);
   ("type", U8);
   ("length", U16);
   ("xid", U32)].

Definition ofp_hello : ctype := Struct
  [("header", ofp_header)].

Definition ofp_switch_config : ctype := Struct
  [("header", ofp_header);
   ("flags", U16);
   ("miss_send_len", U16)].

Definition ofp_phy_port : ctype := Struct
  [("port_no", U16);
   ("hw_addr", Arr U8 6);
   ("name", Arr U8 16);
   ("config", U32);
   ("state", U32);
   ("curr", U32);
   ("advertised", U32);
   ("supported", U32);
   ("peer", U32)].

Definition ofp_switch_features : ctype := Struct
  [("header", ofp_header);
   ("datapath_id", U64);
   ("n_buffers", U32);
   ("n_tables", U8);
   ("pad", Arr U8 3);
   ("capabilities", U32);
   ("actions", U32);
   ("ports", Arr ofp_phy_port 0)].

Definition ofp_port_status : ctype := Struct
  [("header", ofp_header);
   ("reason", U8);
   ("pad", Arr U8 7);
   ("desc", ofp_phy_port)].

Definition ofp_port_mod : ctype := Struct
  [("header", ofp_header);
   ("port_no", U16);
   ("hw_addr", Arr U8 6);
   ("config", U32);
   ("mask", U32);
   ("advertise", U32);
   ("pad", Arr U8 4)].

Definition ofp_packet_in : ctype := Struct
  [("header", ofp_header);
   ("buffer_id", U32);
   ("total_len", U16);
   ("in_port", U16);
   ("reason", U8);
   ("pad", U8);
   ("data", Arr U8 0)].

Definition ofp_action_output : ctype := Struct
  [("type", U16);
   ("len", U16);
   ("port", U16);
   ("max_len", U16)].

Definition ofp_action_vlan_vid : ctype := Struct
  [("type", U16);
   ("len", U16);
   ("vlan_vid", U16);
   ("pad", Arr U8 2)].

Definition ofp_action_vlan_pcp : ctype := Struct
  [("type", U16);
   ("len", U16);
   ("vlan_pcp", U8);
   ("pad", Arr U8 3)].

Definition ofp_action_dl_addr : ctype := Struct
  [("type", U16);
   ("len", U16);
   ("dl_addr", Arr U8 6);
   ("pad", Arr U8 6)].

Definition ofp_action_nw_addr : ctype := Struct
  [("type", U16);
   ("len", U16);
   ("nw_addr", U32)].

Definition ofp_action_tp_port : ctype := Struct
  [("type", U16);
   ("len", U16);
   ("tp_port", U16);
   ("pad", Arr U8 2)].

Definition ofp_action_nw_tos : ctype := Struct
  [("type", U16);
   ("len", U16);
   ("nw_tos", U8);
   ("pad", Arr U8 3)].

Definition ofp_action_vendor_header : ctype := Struct
  [("type", U16);
   ("len", U16);
   ("vendor", U32)].

Definition ofp_action_header : ctype := Struct
  [("type", U16);
   ("len", U16);
   ("pad", Arr U8 4)].

Definition ofp_packet_out : ctype := Struct
  [("header", ofp_header);
   ("buffer_id", U32);
   ("in_port", U16);
   ("actions_len", U16);
   ("actions", Arr ofp_action_header 0)].

Definition ofp_match : ctype := Struct
  [("wildcards", U32);
   ("in_port", U16);
   ("dl_src", Arr U8 6);
   ("dl_dst", Arr U8 6);
   ("dl_vlan", U16);
   ("dl_vlan_pcp", U8);
   ("pad1", Arr U8 1);
   ("dl_type", U16);
   ("nw_tos", U8);
   ("nw_proto", U8);
   ("pad2", Arr U8 2);
   ("nw_src", U32);
   ("nw_dst", U32);
   ("tp_src", U16);
   ("tp_dst", U16)].

Definition ofp_flow_mod : ctype := Struct
  [("header", ofp_header);
   ("match", ofp_match);
   ("cookie", U64);
   ("command", U16);
   ("idle_timeout", U16);
   ("hard_timeout", U16);
   ("priority", U16);
   ("buffer_id", U32);
   ("out_port", U16);
   ("flags", U16);
   ("actions", Arr ofp_action_header 0)].

Definition ofp_flow_removed : ctype := Struct
  [("header", ofp_header);
   ("match", ofp_match);
   ("cookie", U64);
   ("priority", U16);
   ("reason", U8);
   ("pad", Arr U8 1);
   ("duration_sec", U32);
   ("duration_nsec", U32);
   ("idle_timeout", U16);
   ("pad2", Arr U8 2);
   ("packet_count", U64);
   ("byte_count", U64)].

Definition ofp_error_msg : ctype := Struct
  [("header", ofp_header);
   ("type", U16);
   ("code", U16);
   ("data", Arr U8 0)].

Definition ofp_stats_request : ctype := Struct
  [("header", ofp_header);
   ("type", U16);
   ("flags", U16);
   ("body", Arr U8 0)].

Definition ofp_stats_reply : ctype := Struct
  [("header", ofp_header);
   ("type", U16);
   ("flags", U16);
   ("body", Arr U8 0)].

Definition ofp_desc_stats : ctype := Struct
  [("mfr_desc", Arr U8 256);
   ("hw_desc", Arr U8 256);
   ("sw_desc", Arr U8 256);
   ("serial_num", Arr U8 32);
   ("dp_desc", Arr U8 256)].

Definition ofp_flow_stats_request : ctype := Struct
  [("match", ofp_match);
   ("table_id", U8);
   ("pad", U8);
   ("out_port", U16)].

Definition ofp_flow_stats : ctype := Struct
  [("length", U16);
   ("table_id", U8);
   ("pad", U8);
   ("match", ofp_match);
   ("duration_sec", U32);
   ("duration_nsec", U32);
   ("priority", U16);
   ("idle_timeout", U16);
   ("hard_timeout", U16);
   ("pad2", Arr U8 6);
   ("cookie", U64);
   ("packet_count", U64);
   ("byte_count", U64);
   ("actions", Arr ofp_action_header 0)].

Definition ofp_aggregate_stats_request : ctype := Struct
  [("match", ofp_match);
   ("table_id", U8);
   ("pad", U8);
   ("out_port", U16)].

Definition ofp_aggregate_stats_reply : ctype := Struct
  [("packet_count", U64);
   ("byte_count", U64);
   ("flow_count", U32);
   ("pad", Arr U8 4)].

Definition ofp_table_stats : ctype := Struct
  [("table_id", U8);
   ("pad", Arr U8 3);
   ("name", Arr U8 32);
   ("wildcards", U32);
   ("max_entries", U32);
   ("active_count", U32);
   ("lookup_count", U64);
   ("matched_count", U64)].

Definition ofp_port_stats_request : ctype := Struct
  [("port_no", U16);
   ("pad", Arr U8 6)].

Definition ofp_port_stats : ctype := Struct
  [("port_no", U16);
   ("pad", Arr U8 6);
   ("rx_packets", U64);
   ("tx_packets", U64);
   ("rx_bytes", U64);
   ("tx_bytes", U64);
   ("rx_dropped", U64);
   ("tx_dropped", U64);
   ("rx_errors", U64);
   ("tx_errors", U64);
   ("rx_frame_err", U64);
   ("rx_over_err", U64);
   ("rx_crc_err", U64);
   ("collisions", U64)].

Definition ofp_vendor_header : ctype := Struct
  [("header", ofp_header);
   ("vendor", U32)].

Definition ofp_queue_prop_header : ctype := Struct
  [("property", U16);
   ("len", U16);
   ("pad", Arr U8 4)].

Definition ofp_queue_prop_min_rate : ctype := Struct
  [("prop_header", ofp_queue_prop_header);
   ("rate", U16);
   ("pad", Arr U8 6)].

Definition ofp_packet_queue : ctype := Struct
  [("queue_id", U32);
   ("len", U16);
   ("pad", Arr U8 2);
   ("properties", Arr ofp_queue_prop_header 0)].

Definition ofp_queue_get_config_request : ctype := Struct
  [("header", ofp_header);
   ("port", U16);
   ("pad", Arr U8 2)].

Definition ofp_queue_get_config_reply : ctype := Struct
  [("header", ofp_header);
   ("port", U16);
   ("pad", Arr U8 6);
   ("queues", Arr ofp_packet_queue 0)].

Definition ofp_action_enqueue : ctype := Struct
  [("type", U16);
   ("len", U16);
   ("port", U16);
   ("pad", Arr U8 6);
   ("queue_id", U32)].

Definition ofp_queue_stats_request : ctype := Struct
  [("port_no", U16);
   ("pad", Arr U8 2);
   ("queue_id", U32)].

Definition ofp_queue_stats : ctype := Struct
  [("port_no", U16);
   ("pad", Arr U8 2);
   ("queue_id", U32);
   ("tx_bytes", U64);
   ("tx_packets", U64);
   ("tx_errors", U64)].

(** *** nicira-ext.h, nicira-new.h *)

Definition nicira_header : ctype := Struct
  [("header", ofp_header);
   ("vendor", U32);
   ("subtype", U32)].

Definition nx_snat_config : ctype := Struct
  [("command", U8);
   ("pad", Arr U8 3);
   ("port", U16);
   ("mac_timeout", U16);
   ("ip_addr_start", U32);
   ("ip_addr_end", U32);
   ("tcp_start", U16);
   ("tcp_end", U16);
   ("udp_start", U16);
   ("udp_end", U16);
   ("mac_addr", Arr U8 6);
   ("pad2", Arr U8 2)].

Definition nx_action_snat : ctype := Struct
  [("type", U16);
   ("len", U16);
   ("vendor", U32);
   ("subtype", U16);
   ("port", U16);
   ("pad", Arr U8 4)].

Definition nx_action_header : ctype := Struct
  [("type", U16);
   ("len", U16);
   ("vendor", U32);
   ("subtype", U16);
   ("pad", Arr U8 6)].

Definition nx_command_reply : ctype := Struct
  [("nxh", nicira_header);
   ("status", U32)].

Definition nx_flow_end_config : ctype := Struct
  [("header", nicira_header);
   ("enable", U8);
   ("pad", Arr U8 3)].

Definition nx_flow_end : ctype := Struct
  [("header", nicira_header);
   ("match", ofp_match);
   ("cookie", U64);
   ("priority", U16);
   ("reason", U8);
   ("tcp_flags", U8);
   ("ip_tos", U8);
   ("send_flow_exp", U8);
   ("idle_timeout", U16);
   ("init_time", U64);
   ("used_time", U64);
   ("end_time", U64);
   ("packet_count", U64);
   ("byte_count", U64)].

Definition nx_role_request : ctype := Struct
  [("role", U32)].

(** *** ofSwitchAP.h: the messages of the SDEW extension *)

Definition ofp_wlan_header : ctype := Struct
  [("header", ofp_header);
   ("vendor", U32);
   ("subtype", U32)].

Definition ofp_wlan_msg : ctype := Struct
  [("staMacAddress", Arr U8 6);
   ("apMacAddress", Arr U8 6)].

Definition ofp_wlan_auth_msg : ctype := Struct
  [("staMacAddress", Arr U8 6);
   ("apMacAddress", Arr U8 6);
   ("auth_alg", U16)].

Definition ofp_wlan_assoc_msg : ctype := Struct
  [("staMacAddress", Arr U8 6);
   ("apMacAddress", Arr U8 6);
   ("aid", U16);
   ("capability", U16);
   ("listen_interval", U16);
   ("pad1", Arr U8 2);
   ("supported_rates", Arr U8 32);
   ("supported_rates_len", U32);
   ("qosinfo", U8);
   ("pad2", Arr U8 3)].

Definition ofp_wlan_sta : ctype := Struct
  [("staMacAddress", Arr U8 6)].

Definition ofp_wlan_add_update_msg : ctype := Struct
  [("staMacAddress", Arr U8 6);
   ("auth_alg", U16);
   ("aid", U16);
   ("capability", U16);
   ("listen_interval", U16);
   ("pad1", Arr U8 2);
   ("supported_rates", Arr U8 32);
   ("supported_rates_len", U32);
   ("qosinfo", U8);
   ("pad2", Arr U8 3)].

Definition ofp_wlan_rssi : ctype := Struct
  [("staMacAddress", Arr U8 6);
   ("apMacAddress", Arr U8 6);
   ("rssi", U8)].

Definition ofp_action_iph : ctype := Struct
  [("subtype", U32);
   ("tunnelEntry", U32);
   ("tunnelExit", U32)].

Definition ofp_nat_entry : ctype := Struct
  [("staMacAddress", Arr U8 6);
   ("pad", Arr U8 2);
   ("nw_src", U32);
   ("nw_dst", U32);
   ("tp_src", U16);
   ("tp_dst", U16)].

Definition ofp_nat_port_entry : ctype := Struct
  [("staMacAddress", Arr U8 6);
   ("pad", Arr U8 2);
   ("nw_src", U32);
   ("nw_dst", U32);
   ("tp_src", U16);
   ("tp_dst", U16);
   ("tp_new", U16);
   ("pad2", Arr U8 2)].

(** *** IP and transport headers of [gatewayNAT.c] and of the C library *)

Definition ip_header_t : ctype := Struct
  [("ver_ihl", U8); ("tos", U8); ("total_length", U16); ("id", U16);
   ("flags_fo", U16); ("ttl", U8); ("protocol", U8); ("checksum", U16);
   ("src_addr", Arr U8 4); ("dst_addr", Arr U8 4)].

Definition transport_header : ctype := Struct [("src_port", U16); ("dst_port", U16)].

Definition pseudo_header : ctype := Struct
  [("src_addr", Arr U8 4); ("dst_addr", Arr U8 4); ("zeroes", U8);
   ("protocol", U8); ("length", U16)].

(** [struct udphdr] and [struct tcphdr] of [<netinet/udp.h>], [<netinet/tcp.h>]. *)
Definition udphdr : ctype := Struct
  [("uh_sport", U16); ("uh_dport", U16); ("uh_ulen", U16); ("uh_sum", U16)].

Definition tcphdr : ctype := Struct
  [("th_sport", U16); ("th_dport", U16); ("th_seq", U32); ("th_ack", U32);
   ("th_off", U8); ("th_flags", U8); ("th_win", U16); ("th_sum", U16);
   ("th_urp", U16)].

(** ** The build assertions *)

(** Bytes of the members without any padding the compiler inserts. *)
Fixpoint packed_size (t : ctype) : Z :=
  match t with
  | U8 => 1 | U16 => 2 | U32 => 4 | U64 => 8
  | Arr t n => n * packed_size t
  | Struct fs => foldr (λ '(_, t) n, packed_size t + n) 0 fs
  end.

(** Every [OFP_ASSERT(sizeof(struct x) == n)] of the headers. *)
Definition ofp_asserts : list (string * ctype * Z) :=
  [("ofp_header", ofp_header, 8);
   ("ofp_switch_config", ofp_switch_config, 12);
   ("ofp_phy_port", ofp_phy_port, 48);
   ("ofp_switch_features", ofp_switch_features, 32);
   ("ofp_port_status", ofp_port_status, 64);
   ("ofp_port_mod", ofp_port_mod, 32);
   ("ofp_packet_in", ofp_packet_in, 20);
   ("ofp_action_output", ofp_action_output, 8);
   ("ofp_action_vlan_vid", ofp_action_vlan_vid, 8);
   ("ofp_action_vlan_pcp", ofp_action_vlan_pcp, 8);
   ("ofp_action_dl_addr", ofp_action_dl_addr, 16);
   ("ofp_action_nw_addr", ofp_action_nw_addr, 8);
   ("ofp_action_tp_port", ofp_action_tp_port, 8);
   ("ofp_action_nw_tos", ofp_action_nw_tos, 8);
   ("ofp_action_vendor_header", ofp_action_vendor_header, 8);
   ("ofp_action_header", ofp_action_header, 8);
   ("ofp_packet_out", ofp_packet_out, 16);
   ("ofp_match", ofp_match, 40);
   ("ofp_flow_mod", ofp_flow_mod, 72);
   ("ofp_flow_removed", ofp_flow_removed, 88);
   ("ofp_error_msg", ofp_error_msg, 12);
   ("ofp_stats_request", ofp_stats_request, 12);
   ("ofp_stats_reply", ofp_stats_reply, 12);
   ("ofp_desc_stats", ofp_desc_stats, 1056);
   ("ofp_flow_stats_request", ofp_flow_stats_request, 44);
   ("ofp_flow_stats", ofp_flow_stats, 88);
   ("ofp_aggregate_stats_request", ofp_aggregate_stats_request, 44);
   ("ofp_aggregate_stats_reply", ofp_aggregate_stats_reply, 24);
   ("ofp_table_stats", ofp_table_stats, 64);
   ("ofp_port_stats_request", ofp_port_stats_request, 8);
   ("ofp_port_stats", ofp_port_stats, 104);
   ("ofp_vendor_header", ofp_vendor_header, 12);
   ("ofp_queue_prop_header", ofp_queue_prop_header, 8);
   ("ofp_queue_prop_min_rate", ofp_queue_prop_min_rate, 16);
   ("ofp_packet_queue", ofp_packet_queue, 8);
   ("ofp_queue_get_config_request", ofp_queue_get_config_request, 12);
   ("ofp_queue_get_config_reply", ofp_queue_get_config_reply, 16);
   ("ofp_action_enqueue", ofp_action_enqueue, 16);
   ("ofp_queue_stats_request", ofp_queue_stats_request, 8);
   ("ofp_queue_stats", ofp_queue_stats, 32);
   ("nicira_header", nicira_header, 16);
   ("nx_snat_config", nx_snat_config, 32);
   ("nx_action_snat", nx_action_snat, 16);
   ("nx_action_header", nx_action_header, 16);
   ("nx_command_reply", nx_command_reply, 20);
   ("nx_flow_end_config", nx_flow_end_config, 20);
   ("nx_flow_end", nx_flow_end, 112);
   ("nx_role_request", nx_role_request, 4);
   ("ofp_wlan_header", ofp_wlan_header, 16);
   ("ofp_wlan_msg", ofp_wlan_msg, 12);
   ("ofp_wlan_auth_msg", ofp_wlan_auth_msg, 14);
   ("ofp_wlan_assoc_msg", ofp_wlan_assoc_msg, 60);
   ("ofp_wlan_sta", ofp_wlan_sta, 6);
   ("ofp_wlan_add_update_msg", ofp_wlan_add_update_msg, 56);
   ("ofp_wlan_rssi", ofp_wlan_rssi, 13);
   ("ofp_action_iph", ofp_action_iph, 12);
   ("ofp_nat_entry", ofp_nat_entry, 20);
   ("ofp_nat_port_entry", ofp_nat_port_entry, 24)].

