(* ===== verification/Checksum.v ===== *)
(** * The Internet checksum of rewritten packets

    [calculateCheckSum] of [gatewayNAT.c] (the copy in
    [controller_interface.c] is the same text) against the one's complement
    checksum of RFC 1071.  The code folds the carries of the 32-bit sum once;
    the theorems say exactly when that is enough and what is wrong when it is
    not. *)

From Stdlib Require Import ZArith Lia.
From S2P Require Import Prelude CMem.

Definition INT_MAX : Z := 2147483647.
Definition INT_MIN : Z := -2147483648.

(** Signed addition: overflow of an [int] has no defined behaviour. *)
Definition int_add (a b : Z) : option Z :=
  if (INT_MIN <=? a + b) && (a + b <=? INT_MAX) then Some (a + b) else None.

Lemma int_add_ok a b : 0 ≤ a → 0 ≤ b → a + b ≤ INT_MAX → int_add a b = Some (a + b).
Proof.
  unfold int_add, INT_MIN, INT_MAX. intros. by guard_true.
Qed.

Section Code.
  Context `{Platform}.

(** The loop [for(num = 0; num < last; num++) if(num != skip) headerSum +=
    ntohs(pseudoH[num])], with [k] iterations left. *)
Fixpoint checksum_loop (k : nat) (m : bytes) (base num skip headerSum : Z)
    : option Z :=
  match k with
  | O => Some headerSum
  | S k =>
      headerSum ← (if negb (num =? skip)
                   then w ← ldint 2 m (base + 2 * num); int_add headerSum (ntohs w)
                   else Some headerSum);
      checksum_loop k m base (num + 1) skip headerSum
  end.

(** [data] is the offset [base] of the object [m]. *)
Definition calculateCheckSum (m : bytes) (base last headerSum skip odd : Z)
    : option Z :=
  headerSum ← checksum_loop (Z.to_nat last) m base 0 skip headerSum;
  let num := Z.max 0 last in
  headerSum ← (if negb (odd =? 0)
               then w ← ldint 2 m (base + 2 * num);
                    int_add headerSum (Z.land (ntohs w) 0xff00)
               else Some headerSum);
  let carry := Z.shiftr headerSum 16 in
  let headerSum := Z.land headerSum 0xffff in
  Some (Z.land (Z.lnot (headerSum + carry)) 0xffff).

End Code.

(** ** Reference definition *)

(** One's complement addition of 16-bit words, with end-around carry. *)
Definition oc_add (a b : Z) : Z :=
  let s := a + b in if s <? 65536 then s else s - 65535.

Definition oc_sum (ws : list Z) : Z := foldl oc_add 0 ws.

Definition rfc1071 (ws : list Z) : Z := 65535 - oc_sum ws.

Definition word_ok (w : Z) : Prop := 0 ≤ w < 65536.

Definition zsum (ws : list Z) : Z := foldr Z.add 0 ws.

(** The 16-bit words from word [num] on, the word [skip] left out. *)
Fixpoint words (k : nat) (m : bytes) (base num skip : Z) : list Z :=
  match k with
  | O => []
  | S k =>
      (if num =? skip then [] else [default 0 (be_at 2 m (base + 2 * num))])
      ++ words k m base (num + 1) skip
  end.

(** The last byte of an object of odd length, padded with a zero byte. *)
Definition odd_word (m : bytes) (off : Z) : Z := 256 * default 0 (ld8 m off).

(** Does folding the 32-bit sum [s] once leave a carry? *)
Definition second_carry (s : Z) : bool := 65536 <=? s mod 65536 + s / 65536.

(** ** Facts *)

Lemma zsum_app a b : zsum (a ++ b) = zsum a + zsum b.
Proof. induction a; simpl; [done|]. unfold zsum in *. lia. Qed.

Lemma zsum_single a : zsum [a] = a.
Proof. unfold zsum. simpl. lia. Qed.

Lemma zsum_bound ws : Forall word_ok ws → 0 ≤ zsum ws ≤ 65535 * zlen ws.
Proof.
  induction 1 as [|w ws [] _ IH]; [done|].
  rewrite zlen_cons. cbn [zsum foldr]. fold (zsum ws). lia.
Qed.

(** One's complement sums are the sum modulo 65535, with the two zeros kept
    apart. *)
Lemma oc_fold ws : ∀ a, word_ok a → Forall word_ok ws →
  ∃ k, 0 ≤ k ∧ foldl oc_add a ws = a + zsum ws - 65535 * k ∧
       word_ok (foldl oc_add a ws) ∧
       (foldl oc_add a ws = 0 → a + zsum ws = 0).
Proof.
  induction ws as [|w ws IH]; intros a [Ha Ha'] Hws.
  { exists 0. cbn. unfold word_ok. lia. }
  inversion Hws as [|? ? [Hw Hw'] Hws']; subst.
  assert (Hs : word_ok (oc_add a w)).
  { unfold oc_add, word_ok. case_if; lia. }
  destruct (IH (oc_add a w) Hs Hws') as (k & Hk & E & B & Z0).
  pose proof (zsum_bound ws Hws'). cbn [foldl zsum foldr]. fold (zsum ws).
  assert (Hoc : oc_add a w = a + w ∨ (oc_add a w = a + w - 65535 ∧ 65536 ≤ a + w))
    by (unfold oc_add; case_if; zbool; lia).
  destruct Hoc as [Ho|[Ho ?]].
  - exists k. split_and!; [done|lia|done|lia].
  - exists (k + 1). split_and!; [lia|lia|done|lia].
Qed.

Lemma oc_sum_spec ws : Forall word_ok ws →
  ∃ k, 0 ≤ k ∧ oc_sum ws = zsum ws - 65535 * k ∧ word_ok (oc_sum ws) ∧
       (oc_sum ws = 0 → zsum ws = 0).
Proof.
  intros Hws. destruct (oc_fold ws 0) as (k & ? & ? & ? & ?); [done..|].
  exists k. unfold oc_sum. split_and!; [done|lia|done|lia].
Qed.

(** A receiver that adds up the words and the checksum gets minus zero. *)
Lemma rfc1071_verifies ws : Forall word_ok ws → oc_sum (ws ++ [rfc1071 ws]) = 65535.
Proof.
  intros Hws. destruct (oc_sum_spec ws Hws) as (k & _ & _ & [? ?] & _).
  unfold oc_sum in *. rewrite foldl_app. cbn [foldl].
  unfold rfc1071, oc_sum, oc_add. case_if; lia.
Qed.

(** Folding once, against the reference. *)
Lemma fold_once s ws :
  Forall word_ok ws → zsum ws = s → s ≤ INT_MAX →
  Z.land (Z.lnot (Z.land s 0xffff + Z.shiftr s 16)) 0xffff
  = rfc1071 ws + (if second_carry s then 1 else 0).
Proof.
  intros Hws Hs Hmax. pose proof (zsum_bound ws Hws) as [Hs0 _].
  destruct (oc_sum_spec ws Hws) as (k & Hk & E & [B1 B2] & Z0).
  unfold INT_MAX in Hmax. unfold rfc1071. rewrite land_ffff.
  rewrite Z.shiftr_div_pow2 by lia. change (2 ^ 16) with 65536.
  unfold second_carry.
  pose proof (Z.div_mod s 65536). pose proof (Z.mod_pos_bound s 65536).
  set (lo := s mod 65536) in *. set (c := s / 65536) in *.
  rewrite land_ffff. unfold Z.lnot.
  case_if; zbool; symmetry;
    [apply (Z.mod_unique_pos _ _ (-2))|apply (Z.mod_unique_pos _ _ (-1))]; lia.
Qed.

Section CodeFacts.
  Context `{Platform}.

Lemma be_at_word m off :
  bytes_ok m → 0 ≤ off → off + 2 ≤ zlen m →
  ∃ w, ldint 2 m off = Some w ∧ be_at 2 m off = Some (ntohs w) ∧ word_ok (ntohs w).
Proof.
  intros Hm H0 Hl. destruct (ldint 2 m off) as [w|] eqn:E.
  - exists w. pose proof (ntoh_ldint 2 m off Hm) as N. rewrite E in N.
    split_and!; [done|done|]. apply (hton_bound 2).
  - unfold ldint in E. apply fmap_None, ldn_None in E. lia.
Qed.

Lemma words_ok k m base num skip :
  bytes_ok m → Forall word_ok (words k m base num skip).
Proof.
  intros Hm. revert num. induction k as [|k IH]; intros num; [constructor|].
  cbn [words]. apply Forall_app. split; [|apply IH].
  case_if; [constructor|]. constructor; [|constructor].
  destruct (be_at 2 m (base + 2 * num)) as [w|] eqn:E; simpl.
  - apply (be_at_bound 2 m _ w Hm E).
  - unfold word_ok. lia.
Qed.

Lemma words_length k m base num skip : zlen (words k m base num skip) ≤ Z.of_nat k.
Proof.
  revert num. induction k as [|k IH]; intros num; [done|]. cbn [words].
  rewrite zlen_app. specialize (IH (num + 1)). case_if; unfold zlen in *; simpl; lia.
Qed.

(** The loop adds up the words. *)
Lemma checksum_loop_words k m base num skip acc :
  bytes_ok m → 0 ≤ base → 0 ≤ num → base + 2 * (num + Z.of_nat k) ≤ zlen m →
  0 ≤ acc → acc + zsum (words k m base num skip) ≤ INT_MAX →
  checksum_loop k m base num skip acc = Some (acc + zsum (words k m base num skip)).
Proof.
  intros Hm Hb. revert num acc. induction k as [|k IH]; intros num acc Hn Hl Ha Hs.
  { cbn. f_equal. lia. }
  cbn [checksum_loop words] in *. rewrite zsum_app in *.
  pose proof (zsum_bound _ (words_ok k m base (num + 1) skip Hm)) as [? _].
  destruct (num =? skip); cbn [negb mbind option_bind].
  - rewrite IH by (cbn in *; lia). f_equal; cbn; lia.
  - destruct (be_at_word m (base + 2 * num)) as (w & E1 & E2 & [? ?]); [done|lia..|].
    rewrite zsum_single, E2 in *. cbn [from_option id] in *.
    rewrite E1. cbn [mbind option_bind].
    rewrite int_add_ok by lia. cbn [mbind option_bind].
    rewrite IH by lia. f_equal. lia.
Qed.

Lemma odd_word_land m off w :
  bytes_ok m → be_at 2 m off = Some w → Z.land w 0xff00 = odd_word m off.
Proof.
  intros Hm E. pose proof (be_at_bound 2 m off w Hm E) as B.
  rewrite land_ff00 by exact B. unfold odd_word. f_equal.
  unfold be_at in E. destruct (ldn m off (Z.of_nat 2)) as [l|] eqn:L; [|done].
  injection E as <-. pose proof (ldn_Some _ _ _ _ L) as (? & _ & ? & Hl & _).
  pose proof (ldn_bytes_ok _ _ _ _ Hm L) as Hok.
  destruct l as [|a [|b [|c l]]]; [done|done| |unfold zlen in Hl; simpl in Hl; lia].
  pose proof (ldn_lookup _ _ _ _ 0 L) as L0. rewrite decide_True in L0 by lia.
  unfold ld8. guard_true. rewrite Nat.add_0_r in L0. rewrite <- L0. simpl.
  inversion_clear Hok as [|? ? Ha Hok']. inversion_clear Hok' as [|? ? Hb' _].
  unfold be_dec. simpl. unfold byte_ok in *.
  rewrite Z.mul_0_r, Z.add_0_r, Z.add_comm, Z.mul_comm, Z.div_add_l by lia.
  rewrite Z.div_small by lia. lia.
Qed.

Lemma odd_word_ok m off : bytes_ok m → word_ok (odd_word m off).
Proof.
  intros Hm. unfold odd_word, word_ok. destruct (ld8 m off) as [b|] eqn:E; simpl; [|lia].
  apply ld8_byte in E as []; [lia|done].
Qed.

(** The words that a call of [calculateCheckSum] sums up: the seed, the words
    of the data but one, and the padded last byte. *)
Definition checksum_words (seed : list Z) (m : bytes) (base last skip odd : Z)
    : list Z :=
  seed ++ words (Z.to_nat last) m base 0 skip
       ++ (if odd =? 0 then [] else [odd_word m (base + 2 * last)]).

Lemma checksum_words_ok seed m base last skip odd :
  bytes_ok m → Forall word_ok seed →
  Forall word_ok (checksum_words seed m base last skip odd).
Proof.
  intros Hm Hs. unfold checksum_words. rewrite !Forall_app. split_and!; [done| |].
  - by apply words_ok.
  - case_if; [constructor|]. constructor; [by apply odd_word_ok|constructor].
Qed.

Lemma calculateCheckSum_value m base last seed skip odd :
  bytes_ok m → Forall word_ok seed → 0 ≤ base → 0 ≤ last →
  base + 2 * (last + (if odd =? 0 then 0 else 1)) ≤ zlen m →
  zsum (checksum_words seed m base last skip odd) ≤ INT_MAX →
  calculateCheckSum m base last (zsum seed) skip odd
  = Some (rfc1071 (checksum_words seed m base last skip odd)
          + (if second_carry (zsum (checksum_words seed m base last skip odd))
             then 1 else 0)).
Proof.
  intros Hm Hseed Hb Hla Hlen Hmax.
  set (W := checksum_words seed m base last skip odd) in *.
  rewrite <- (fold_once (zsum W) W); [|by apply checksum_words_ok|done|done].
  pose proof (zsum_bound _ (words_ok (Z.to_nat last) m base 0 skip Hm)) as [? _].
  pose proof (zsum_bound _ Hseed) as [? _].
  assert (HW : zsum W = zsum seed + (zsum (words (Z.to_nat last) m base 0 skip)
     + zsum (if odd =? 0 then [] else [odd_word m (base + 2 * last)]))).
  { unfold W, checksum_words. by rewrite !zsum_app. }
  pose proof (odd_word_ok m (base + 2 * last) Hm) as [? ?].
  unfold calculateCheckSum. rewrite Z.max_r by lia.
  destruct (odd =? 0) eqn:Eo; cbn [zsum foldr] in HW; fold (zsum seed) in HW.
  - rewrite checksum_loop_words by (try done; unfold zsum in *; lia).
    cbn [mbind option_bind negb]. f_equal. rewrite HW.
    replace (zsum seed + (zsum (words (Z.to_nat last) m base 0 skip) + 0))
      with (zsum seed + zsum (words (Z.to_nat last) m base 0 skip)) by lia. done.
  - rewrite checksum_loop_words by (try done; unfold zsum in *; lia).
    cbn [mbind option_bind negb].
    destruct (be_at_word m (base + 2 * last)) as (w & E1 & E2 & _); [done|lia..|].
    rewrite E1. cbn [mbind option_bind].
    rewrite (odd_word_land m _ _ Hm E2).
    rewrite int_add_ok by (unfold zsum in *; lia). cbn [mbind option_bind].
    f_equal. rewrite HW.
    replace (zsum seed + zsum (words (Z.to_nat last) m base 0 skip)
             + odd_word m (base + 2 * last))
      with (zsum seed + (zsum (words (Z.to_nat last) m base 0 skip)
             + (odd_word m (base + 2 * last) + 0))) by lia. done.
Qed.

End CodeFacts.

(** ** Theorems *)

(** C24. [calculateCheckSum] on a buffer of at most 32767 words returns, the
    32-bit accumulator never overflows, and the result is the RFC 1071
    checksum of the words it covers, except that it is one too large when
    adding the carries to the low half carries again; without that second
    carry, a receiver that sums the words and the result gets 0xffff. *)
Theorem calculateCheckSum_rfc1071 `{Platform} m base last seed skip odd :
  bytes_ok m → Forall word_ok seed → 0 ≤ base → 0 ≤ last →
  base + 2 * (last + (if odd =? 0 then 0 else 1)) ≤ zlen m →
  zlen seed + last + 1 ≤ 32768 →
  let ws := checksum_words seed m base last skip odd in
  ∃ c, calculateCheckSum m base last (zsum seed) skip odd = Some c ∧
       c = rfc1071 ws + (if second_carry (zsum ws) then 1 else 0) ∧
       (second_carry (zsum ws) = false → oc_sum (ws ++ [c]) = 65535).
Proof.
  intros Hm Hs Hb Hl Hlen Hn ws.
  assert (Hws : Forall word_ok ws) by by apply checksum_words_ok.
  eexists. split_and!; [|done|].
  - apply calculateCheckSum_value; try done. fold ws.
    pose proof (zsum_bound ws Hws).
    pose proof (words_length (Z.to_nat last) m base 0 skip).
    assert (zlen ws ≤ 32768).
    { unfold ws, checksum_words. rewrite !zlen_app. case_if; unfold zlen in *; simpl; lia. }
    unfold INT_MAX. lia.
  - intros ->. rewrite Z.add_0_r. by apply rfc1071_verifies.
Qed.

(** The header used by the witnesses: 192.168.100.7 to 10.6.21.107, UDP. *)
Definition sample_header : bytes :=
  [69; 0; 0; 29; 0; 7; 64; 0; 64; 17; 0; 0; 192; 168; 100; 7; 10; 6; 21; 107].

Lemma calculateCheckSum_rfc1071_witness :
  bytes_ok sample_header ∧
  ∃ c, @calculateCheckSum lp64_le sample_header 0 10 (zsum []) 5 0 = Some c ∧
       oc_sum (checksum_words [] sample_header 0 10 5 0 ++ [c]) = 65535.
Proof.
  split; [by apply (bool_decide_unpack _)|].
  destruct (@calculateCheckSum_rfc1071 lp64_le sample_header 0 10 [] 5 0)
    as (c & E & _ & V).
  - by apply (bool_decide_unpack _).
  - constructor.
  - lia.
  - lia.
  - vm_compute. congruence.
  - vm_compute. congruence.
  - exists c. split; [exact E|]. apply V. vm_compute. reflexivity.
Defined.

(** A TCP header 192.168.100.7 to 10.6.21.107 with identification 0xf69c. *)
Definition carry_header : bytes :=
  [69; 0; 0; 60; 246; 156; 64; 0; 64; 6; 0; 0; 192; 168; 100; 7; 10; 6; 21; 107].

(** The second carry occurs on ordinary IP headers: on this one the code
    computes a checksum that is one more than the RFC 1071 checksum, and the
    next router's verification of the header fails. *)
Theorem calculateCheckSum_second_carry `{Platform} :
  let ws := checksum_words [] carry_header 0 10 5 0 in
  calculateCheckSum carry_header 0 10 0 5 0 = Some (rfc1071 ws + 1) ∧
  oc_sum (ws ++ [rfc1071 ws + 1]) ≠ 65535 ∧
  oc_sum (ws ++ [rfc1071 ws]) = 65535.
Proof.
  destruct H as [[] p]; split_and!; vm_compute; congruence.
Qed.
