(* ===== verification/IpText.v ===== *)
(** * Dotted-quad text and the subnet test

    [handle_pkt] decides whether a packet comes from the network behind the
    translator by printing the source address and comparing the text with the
    prefix ["a.b.c"] built at start-up.  C strings are lists of character
    codes. *)

From Stdlib Require Import ZArith Lia.
From S2P Require Import Prelude CMem.

(** The characters of a string literal. *)
Fixpoint cstr (s : string) : bytes :=
  match s with
  | EmptyString => []
  | String c s => Z.of_N (Ascii.N_of_ascii c) :: cstr s
  end.

Definition dot : Z := 46.

(** Conversion [%hhu]: the argument converted to [unsigned char], in decimal. *)
Definition fmt_hhu (x : Z) : bytes :=
  let b := x mod 256 in
  if b <? 10 then [48 + b]
  else if b <? 100 then [48 + b / 10; 48 + b mod 10]
  else [48 + b / 100; 48 + b / 10 mod 10; 48 + b mod 10].

(** [sprintf(s, "%hhu.%hhu.%hhu.%hhu", a[0], a[1], a[2], a[3])]. *)
Definition fmt_ip (a b c d : Z) : bytes :=
  fmt_hhu a ++ dot :: fmt_hhu b ++ dot :: fmt_hhu c ++ dot :: fmt_hhu d.

(** [sprintf(subnet, "%hhu.%hhu.%hhu", caddr[0], caddr[1], caddr[2])]. *)
Definition fmt_subnet (a b c : Z) : bytes :=
  fmt_hhu a ++ dot :: fmt_hhu b ++ dot :: fmt_hhu c.

(** [MACSTR]: bytes in hexadecimal, with colons. *)
Definition hex_digit (x : Z) : Z := if x <? 10 then 48 + x else 87 + x.
Definition fmt_hex (x : Z) : bytes := [hex_digit (x / 16); hex_digit (x mod 16)].
Fixpoint fmt_mac (m : bytes) : bytes :=
  match m with
  | [] => []
  | [x] => fmt_hex x
  | x :: m => fmt_hex x ++ [58] ++ fmt_mac m
  end.

(** [strncmp(s, t, n) == 0] on strings without a null character. *)
Fixpoint strncmp_eq (n : nat) (s t : bytes) : bool :=
  match n with
  | O => true
  | S n =>
      match s, t with
      | [], [] => true
      | a :: s, b :: t => (a =? b) && strncmp_eq n s t
      | _, _ => false
      end
  end.

(** [strncmp(srcIP, subnet, strlen(subnet)) == 0] for the address [addr]. *)
Definition in_subnet (addr subnet : bytes) : option bool :=
  match addr with
  | [a; b; c; d] => Some (strncmp_eq (length subnet) (fmt_ip a b c d) subnet)
  | _ => None
  end.

(** ** Facts *)

Definition digit (x : Z) : Prop := 48 ≤ x < 58.

Lemma fmt_hex_inj x y : byte_ok x → byte_ok y → fmt_hex x = fmt_hex y → x = y.
Proof.
  unfold byte_ok. intros Hx Hy [= E1 E2]. unfold hex_digit in *.
  pose proof (Z.mod_pos_bound x 16). pose proof (Z.mod_pos_bound y 16).
  pose proof (Z.div_mod x 16). pose proof (Z.div_mod y 16).
  repeat case_match; zbool; lia.
Qed.

Lemma fmt_hhu_digits x : Forall digit (fmt_hhu x).
Proof.
  unfold fmt_hhu, digit. pose proof (Z.mod_pos_bound x 256).
  set (b := x mod 256) in *. clearbody b.
  repeat case_if; zbool; repeat constructor;
    pose proof (Z.div_mod b 10); pose proof (Z.mod_pos_bound b 10);
    pose proof (Z.div_mod b 100); pose proof (Z.mod_pos_bound b 100);
    pose proof (Z.mod_pos_bound (b / 10) 10); lia.
Qed.

(** Distinct bytes print differently. *)
Lemma fmt_hhu_inj a b : byte_ok a → byte_ok b → fmt_hhu a = fmt_hhu b → a = b.
Proof.
  intros [Ha Ha'] [Hb Hb']. unfold fmt_hhu.
  rewrite (Z.mod_small a), (Z.mod_small b) by lia.
  pose proof (Z.div_mod a 10); pose proof (Z.div_mod b 10).
  pose proof (Z.div_mod (a / 10) 10); pose proof (Z.div_mod (b / 10) 10).
  assert (Da : a / 10 / 10 = a / 100) by (apply Z.div_div; lia).
  assert (Db : b / 10 / 10 = b / 100) by (apply Z.div_div; lia).
  repeat case_if; intros [=]; zbool; lia.
Qed.

Lemma strncmp_eq_prefix s t : strncmp_eq (length t) s t = true ↔ t `prefix_of` s.
Proof.
  revert s. induction t as [|b t IH]; intros s; simpl.
  { split; [|done]. intros _. apply prefix_nil. }
  destruct s as [|a s].
  { split; [done|]. intros []%prefix_nil_not. }
  rewrite andb_true_iff, Z.eqb_eq, IH. split.
  - intros [-> Hp]. by apply prefix_cons.
  - intros Hp. split; [by apply prefix_cons_inv_1 in Hp|by eapply prefix_cons_inv_2].
Qed.

(** The text up to the first dot is determined by a prefix that reaches past
    the dot. *)
Lemma prefix_until_dot x y p s :
  Forall digit x → Forall digit y →
  (x ++ dot :: p) `prefix_of` (y ++ dot :: s) ↔ x = y ∧ p `prefix_of` s.
Proof.
  intros Hx. revert y. induction Hx as [|a x Ha Hx IH]; intros y Hy.
  - destruct Hy as [|b y Hb Hy]; simpl.
    + split; [intros Hp|intros [_ Hp]; by apply prefix_cons].
      split; [done|]. by eapply prefix_cons_inv_2.
    + split; [|by intros [? _]]. intros Hp%prefix_cons_inv_1.
      unfold digit, dot in *. lia.
  - destruct Hy as [|b y Hb Hy]; simpl.
    + split; [|by intros [? _]]. intros Hp%prefix_cons_inv_1.
      unfold digit, dot in *. lia.
    + split.
      * intros Hp. pose proof (prefix_cons_inv_1 _ _ _ _ Hp) as ->.
        apply prefix_cons_inv_2 in Hp. apply IH in Hp as [-> ?]; auto.
      * intros [[= -> ->] Hp]. apply prefix_cons. by apply IH.
Qed.

(** A text of digits is a prefix of what comes before the dot. *)
Lemma prefix_digits x y s :
  Forall digit x → Forall digit y →
  x `prefix_of` (y ++ dot :: s) ↔ x `prefix_of` y.
Proof.
  intros Hx. revert y. induction Hx as [|a x Ha Hx IH]; intros y Hy.
  { split; intros _; apply prefix_nil. }
  destruct Hy as [|b y Hb Hy]; simpl.
  - split; intros Hp; [|by apply prefix_nil_not in Hp].
    apply prefix_cons_inv_1 in Hp. unfold digit, dot in *. lia.
  - split; intros Hp; pose proof (prefix_cons_inv_1 _ _ _ _ Hp) as ->;
      apply prefix_cons_inv_2 in Hp; apply prefix_cons, (IH y Hy), Hp.
Qed.

Lemma in_subnet_spec w x y z a b c :
  Forall byte_ok [w; x; y; z; a; b; c] →
  in_subnet [w; x; y; z] (fmt_subnet a b c) = Some true ↔
  w = a ∧ x = b ∧ fmt_hhu c `prefix_of` fmt_hhu y.
Proof.
  rewrite !Forall_cons. intros (? & ? & ? & ? & ? & ? & ? & _).
  unfold in_subnet. rewrite (inj_iff Some), strncmp_eq_prefix. unfold fmt_subnet, fmt_ip.
  rewrite !prefix_until_dot, prefix_digits by apply fmt_hhu_digits.
  split.
  - intros (E1%fmt_hhu_inj & E2%fmt_hhu_inj & Hp); auto.
  - intros (-> & -> & Hp). auto.
Qed.

(** Every address of the /24 network passes the test. *)
Lemma in_subnet_same_net a b c d :
  Forall byte_ok [a; b; c; d] → in_subnet [a; b; c; d] (fmt_subnet a b c) = Some true.
Proof.
  rewrite !Forall_cons. intros (? & ? & ? & ? & _).
  apply in_subnet_spec; [by rewrite !Forall_cons|]. done.
Qed.

(** ** Theorems *)

(** C32. The subnet test accepts an address exactly when its first two bytes are
    those of the subnet and the decimal text of the subnet's third byte is a
    prefix of the text of the address's third byte. *)
Theorem in_subnet_iff w x y z a b c :
  Forall byte_ok [w; x; y; z; a; b; c] →
  in_subnet [w; x; y; z] (fmt_subnet a b c) = Some true ↔
  w = a ∧ x = b ∧ fmt_hhu c `prefix_of` fmt_hhu y.
Proof. apply in_subnet_spec. Qed.

Lemma in_subnet_iff_witness :
  Forall byte_ok [192; 168; 5; 9; 192; 168; 5] ∧
  in_subnet [192; 168; 5; 9] (fmt_subnet 192 168 5) = Some true.
Proof.
  assert (Hok : Forall byte_ok [192; 168; 5; 9; 192; 168; 5])
    by by apply (bool_decide_unpack _).
  split; [exact Hok|].
  apply (in_subnet_iff 192 168 5 9 192 168 5 Hok).
  split_and!; [reflexivity|reflexivity|exists []; reflexivity].
Defined.

(** Addresses outside the /24 network pass the test too: with the subnet
    192.168.1 the translator also captures 192.168.10.x to 192.168.19.x and
    192.168.100.x to 192.168.199.x. *)
Theorem in_subnet_other_net y d :
  byte_ok d → 10 ≤ y < 20 ∨ 100 ≤ y < 200 →
  in_subnet [192; 168; y; d] (fmt_subnet 192 168 1) = Some true.
Proof.
  intros Hd Hy. apply in_subnet_spec.
  { rewrite !Forall_cons. unfold byte_ok in *. split_and!; try lia. constructor. }
  split_and!; [done|done|]. unfold fmt_hhu. rewrite !(Z.mod_small _ 256) by lia.
  destruct Hy.
  - replace (y <? 10) with false by lia. replace (y <? 100) with true by lia.
    replace (y / 10) with 1 by (pose proof (Z.div_mod y 10); pose proof (Z.mod_pos_bound y 10); lia).
    by exists [48 + y mod 10].
  - replace (y <? 10) with false by lia. replace (y <? 100) with false by lia.
    replace (y / 100) with 1 by (pose proof (Z.div_mod y 100); pose proof (Z.mod_pos_bound y 100); lia).
    by eexists.
Qed.

Lemma in_subnet_other_net_witness :
  byte_ok 3 ∧ in_subnet [192; 168; 17; 3] (fmt_subnet 192 168 1) = Some true.
Proof.
  split; [unfold byte_ok; lia|].
  apply (in_subnet_other_net 17 3); [unfold byte_ok; lia|lia].
Defined.
