(* ===== verification/Chain.v ===== *)
(** * Hash tables with chaining, as heap structures

    The translation tables ([struct natList]), the queue of held packets
    ([struct PortQueue]) and the station table ([struct STAList]) are all
    arrays of singly linked lists whose nodes live on the C heap.  This file
    models nodes, pointers and the array, gives the code's elementary steps
    (index the array, follow [next], link a new node in front, write through a
    pointer) and relates them to lists: the abstract state is the list of
    buckets, each the list of its nodes. *)

From Stdlib Require Import ZArith Lia.
From S2P Require Import Prelude CMem CMonad.

Abbreviation loc := positive.

Record node (A : Type) := Node { node_val : A; node_next : option loc }.
Arguments Node {A}.
Arguments node_val {A}.
Arguments node_next {A}.

Record htab (A : Type) := HTab {
  tab_heap : gmap loc (node A);
  tab_heads : list (option loc);
}.
Arguments HTab {A}.
Arguments tab_heap {A}.
Arguments tab_heads {A}.

(** Result of following a chain: a node or the end, a dangling pointer, or out
    of fuel. *)
Inductive walked := Stopped (p : option loc) | Dangling | Looping.

Section Table.
  Context {A : Type}.
  Implicit Types (t : htab A) (h : gmap loc (node A)) (p : option loc) (l : loc).

(** [while (n != NULL && !stop(n)) n = n->next]. *)
Fixpoint walk (fuel : nat) h (stop : A → bool) p : walked :=
  match p with
  | None => Stopped None
  | Some l =>
      match h !! l with
      | None => Dangling
      | Some n =>
          if stop (node_val n) then Stopped (Some l)
          else match fuel with
               | O => Looping
               | S fuel => walk fuel h stop (node_next n)
               end
      end
  end.

(** [table[i]], if the index is inside the array. *)
Definition head_at t (i : Z) : option (option loc) :=
  if 0 <=? i then tab_heads t !! Z.to_nat i else None.

(** A new node with value [a], linked in front of bucket [i]. *)
Definition push t (i : Z) (a : A) : option (loc * htab A) :=
  p ← head_at t i;
  let l := fresh (dom (tab_heap t)) in
  Some (l, HTab (<[l := Node a p]> (tab_heap t))
                (<[Z.to_nat i := Some l]> (tab_heads t))).

(** The node a pointer points to, and a write through the pointer. *)
Definition deref t l : option A := node_val <$> tab_heap t !! l.
Definition assign t l (f : A → A) : option (htab A) :=
  n ← tab_heap t !! l;
  Some (HTab (<[l := Node (f (node_val n)) (node_next n)]> (tab_heap t)) (tab_heads t)).

(** [n->next], and the assignments that unlink a node: [table[i] = p],
    [n->next = p], [free(n)]. *)
Definition next_of t l : option (option loc) := node_next <$> tab_heap t !! l.
Definition set_head t (i : Z) p : option (htab A) :=
  _ ← head_at t i; Some (HTab (tab_heap t) (<[Z.to_nat i := p]> (tab_heads t))).
Definition set_next t l p : option (htab A) :=
  n ← tab_heap t !! l; Some (HTab (<[l := Node (node_val n) p]> (tab_heap t)) (tab_heads t)).
Definition free_node t l : option (htab A) :=
  _ ← tab_heap t !! l; Some (HTab (delete l (tab_heap t)) (tab_heads t)).

Definition empty_tab (size : nat) : htab A := HTab ∅ (replicate size None).

(** ** Lists of nodes *)

(** The chain that starts at [p] has the nodes [ns], in order. *)
Fixpoint chain h p (ns : list (loc * A)) : Prop :=
  match ns with
  | [] => p = None
  | (l, a) :: ns =>
      p = Some l ∧ ∃ q, h !! l = Some (Node a q) ∧ chain h q ns
  end.

Abbreviation buckets := (list (list (loc * A))).

(** The table holds exactly the buckets [bs]: bucket [i] is the chain at
    [table[i]], no node is in two places, and [hash] sends every node of
    bucket [i] to [i]. *)
Record tab_rep (hash : A → Z) t (bs : buckets) : Prop := {
  rep_chain : Forall2 (chain (tab_heap t)) (tab_heads t) bs;
  rep_nodup : NoDup (concat bs).*1;
  rep_hash : ∀ i ns, bs !! i = Some ns → Forall (λ '(_, a), hash a = Z.of_nat i) ns;
}.

(** Abstract operations. *)
Fixpoint find_in (stop : A → bool) (ns : list (loc * A)) : option (loc * A) :=
  match ns with
  | [] => None
  | (l, a) :: ns => if stop a then Some (l, a) else find_in stop ns
  end.
Definition bucket (bs : buckets) (i : Z) : list (loc * A) :=
  if 0 <=? i then default [] (bs !! Z.to_nat i) else [].
Definition find_bucket (stop : A → bool) (bs : buckets) (i : Z) :=
  find_in stop (bucket bs i).
Definition assign_in l (f : A → A) (ns : list (loc * A)) : list (loc * A) :=
  (λ '(x, a), (x, if decide (x = l) then f a else a)) <$> ns.

(** ** Facts *)

Lemma find_in_Some stop ns l a :
  find_in stop ns = Some (l, a) → (l, a) ∈ ns ∧ stop a = true.
Proof.
  induction ns as [|[x b] ns IH]; [done|]. simpl. destruct (stop b) eqn:E.
  - intros [= -> ->]. split; [left|done].
  - intros [? ?]%IH. split; [by right|done].
Qed.

Lemma find_in_None stop ns :
  find_in stop ns = None ↔ Forall (λ '(_, a), stop a = false) ns.
Proof.
  induction ns as [|[l a] ns IH]; [split; [constructor|done]|].
  simpl. rewrite Forall_cons. destruct (stop a) eqn:E; rewrite ?IH; naive_solver.
Qed.

(** With enough fuel the loop stops at the first node that satisfies the
    test. *)
Lemma walk_chain fuel h stop p ns :
  chain h p ns → (length ns ≤ fuel)%nat →
  walk fuel h stop p = Stopped (fst <$> find_in stop ns).
Proof.
  revert fuel p. induction ns as [|[l a] ns IH]; intros fuel p Hc Hf.
  { simpl in Hc. subst p. by destruct fuel. }
  destruct Hc as (-> & q & Hl & Hc). cbn [find_in].
  destruct fuel as [|fuel]; [simpl in Hf; lia|].
  cbn [walk]. rewrite Hl. cbn [node_val node_next].
  destruct (stop a); [done|]. apply IH; [done|]. simpl in Hf. lia.
Qed.

Lemma chain_dom h p ns : chain h p ns → Forall (λ x, x.1 ∈ dom h) ns.
Proof.
  revert p. induction ns as [|[l a] ns IH]; intros p Hc; [constructor|].
  destruct Hc as (-> & q & Hl & Hc). constructor; [|by eapply IH].
  simpl. apply elem_of_dom. eauto.
Qed.

(** A chain without repeated nodes is no longer than the heap. *)
Lemma chain_length h p ns :
  chain h p ns → NoDup ns.*1 → (length ns ≤ size h)%nat.
Proof.
  intros Hc Hn. rewrite <- (length_fmap fst ns), <- size_dom.
  rewrite <- (size_list_to_set (C:=gset loc) ns.*1 Hn).
  apply subseteq_size. intros x Hx. apply elem_of_list_to_set in Hx.
  apply list_elem_of_fmap in Hx as (y & -> & Hy).
  pose proof (chain_dom h p ns Hc) as HF. rewrite Forall_forall in HF. by apply HF.
Qed.

Lemma chain_insert_fresh h p ns l n :
  chain h p ns → h !! l = None → chain (<[l := n]> h) p ns.
Proof.
  revert p. induction ns as [|[x a] ns IH]; intros p Hc Hl; [done|].
  destruct Hc as (-> & q & Hx & Hc). split; [done|]. exists q.
  split; [|by apply IH]. rewrite lookup_insert_ne; [done|congruence].
Qed.

(** Writing through a pointer changes the value of that node only. *)
Lemma chain_assign h p ns l f n :
  chain h p ns → h !! l = Some n →
  chain (<[l := Node (f (node_val n)) (node_next n)]> h) p (assign_in l f ns).
Proof.
  revert p. induction ns as [|[x a] ns IH]; intros p Hc Hl; [done|].
  destruct Hc as (-> & q & Hx & Hc). split; [done|]. exists q.
  split; [|by apply IH]. destruct (decide (x = l)) as [->|].
  - rewrite lookup_insert_eq. rewrite Hx in Hl. by injection Hl as <-.
  - by rewrite lookup_insert_ne.
Qed.

Lemma fst_assign_in l f ns : (assign_in l f ns).*1 = ns.*1.
Proof. induction ns as [|[x a] ns IH]; [done|]. simpl. f_equal. apply IH. Qed.

Lemma assign_in_not_in l f ns : l ∉ ns.*1 → assign_in l f ns = ns.
Proof.
  induction ns as [|[x a] ns IH]; [done|]. intros Hl. simpl in *.
  apply not_elem_of_cons in Hl as [? ?]. rewrite decide_False by done.
  f_equal. by apply IH.
Qed.

Lemma concat_assign_fst l f (bs : buckets) :
  (concat (assign_in l f <$> bs)).*1 = (concat bs).*1.
Proof.
  induction bs as [|ns bs IH]; [done|]. simpl. rewrite !fmap_app, fst_assign_in. by f_equal.
Qed.

End Table.

(** ** The table refines its buckets *)

Section Refinement.
  Context {A : Type} (hash : A → Z).
  Implicit Types (t : htab A) (bs : list (list (loc * A))).

Lemma rep_length t bs : tab_rep hash t bs → length bs = length (tab_heads t).
Proof. intros [Hc _ _]. symmetry. by eapply Forall2_length. Qed.

Lemma nodup_bucket bs i ns :
  NoDup (concat bs).*1 → bs !! i = Some ns → NoDup ns.*1.
Proof.
  revert i. induction bs as [|b bs IH]; intros i Hn Hi; [done|].
  simpl in Hn. rewrite fmap_app in Hn. apply NoDup_app in Hn as (H1 & _ & H2).
  destruct i; simpl in Hi; [by injection Hi as ->|by eapply IH].
Qed.

(** Indexing the array: defined exactly inside it. *)
Lemma rep_head t bs i :
  tab_rep hash t bs → 0 ≤ i < zlen (tab_heads t) →
  ∃ p, head_at t i = Some p ∧ chain (tab_heap t) p (bucket bs i) ∧
       NoDup (bucket bs i).*1.
Proof.
  intros R Hi. unfold head_at, bucket. guard_true.
  replace (0 <=? i) with true by lia.
  destruct (lookup_lt_is_Some_2 (tab_heads t) (Z.to_nat i)) as [p Hp];
    [unfold zlen in Hi; lia|].
  destruct (Forall2_lookup_l _ _ _ _ _ (rep_chain _ _ _ R) Hp) as (ns & Hns & Hc).
  exists p. rewrite Hns. simpl. split_and!; [done|done|].
  by eapply nodup_bucket; [eapply rep_nodup|].
Qed.

Lemma rep_head_oob t i : ¬ (0 ≤ i < zlen (tab_heads t)) → head_at t i = None.
Proof.
  intros Hi. unfold head_at. case_if; [|done]. zbool.
  apply lookup_ge_None_2. unfold zlen in Hi. lia.
Qed.

(** Searching a bucket: the size of the heap is enough fuel. *)
Lemma rep_walk t bs i p stop :
  tab_rep hash t bs → head_at t i = Some p →
  walk (size (tab_heap t)) (tab_heap t) stop p
  = Stopped (fst <$> find_bucket stop bs i).
Proof.
  intros R Hp. assert (Hi : 0 ≤ i < zlen (tab_heads t)).
  { destruct (decide (0 ≤ i < zlen (tab_heads t))) as [|Hi]; [done|].
    by rewrite (rep_head_oob t i Hi) in Hp. }
  destruct (rep_head t bs i R Hi) as (p' & Hp' & Hc & Hn).
  rewrite Hp in Hp'. injection Hp' as <-.
  unfold find_bucket. apply walk_chain; [done|]. by eapply chain_length.
Qed.

Lemma bucket_elem bs i x : x ∈ bucket bs i → x ∈ concat bs.
Proof.
  unfold bucket. case_if; [|by intros ?%not_elem_of_nil].
  destruct (bs !! Z.to_nat i) as [ns|] eqn:E; simpl; [|by intros ?%not_elem_of_nil].
  intros Hx. apply list_elem_of_In, in_concat. exists ns.
  split; apply list_elem_of_In; [by eapply list_elem_of_lookup_2|done].
Qed.

Lemma rep_lookup t bs l a :
  tab_rep hash t bs → (l, a) ∈ concat bs →
  ∃ q, tab_heap t !! l = Some (Node a q).
Proof.
  intros [Hc _ _] Hin. apply list_elem_of_In, in_concat in Hin as (ns & Hns & Hin).
  apply list_elem_of_In, list_elem_of_lookup in Hns as [i Hi].
  destruct (Forall2_lookup_r _ _ _ _ _ Hc Hi) as (p & _ & Hch).
  apply list_elem_of_In in Hin. clear -Hch Hin. revert p Hch.
  induction ns as [|[x b] ns IH]; intros p Hch; [by apply not_elem_of_nil in Hin|].
  destruct Hch as (-> & q & Hx & Hch).
  apply elem_of_cons in Hin as [[= -> ->]|Hin]; eauto.
Qed.

(** A pointer that a search returned can be followed. *)
Lemma rep_deref t bs l a :
  tab_rep hash t bs → (l, a) ∈ concat bs → deref t l = Some a.
Proof.
  intros R Hin. destruct (rep_lookup t bs l a R Hin) as [q E].
  unfold deref. by rewrite E.
Qed.

Lemma concat_insert_perm bs i ns (x : loc * A) :
  bs !! i = Some ns → concat (<[i := x :: ns]> bs) ≡ₚ x :: concat bs.
Proof.
  revert i. induction bs as [|b bs IH]; intros i Hi; [done|].
  destruct i; simpl in *; [by injection Hi as ->|].
  rewrite (IH _ Hi). by rewrite Permutation_middle.
Qed.

(** Linking a new node in front of bucket [i]. *)
Lemma rep_push t bs i a :
  tab_rep hash t bs → 0 ≤ i < zlen (tab_heads t) → hash a = i →
  ∃ l t', push t i a = Some (l, t') ∧ (l ∉ (concat bs).*1) ∧
    zlen (tab_heads t') = zlen (tab_heads t) ∧
    tab_rep hash t' (<[Z.to_nat i := (l, a) :: bucket bs i]> bs).
Proof.
  intros R Hi Ha. destruct (rep_head t bs i R Hi) as (p & Hp & Hc & Hn).
  unfold push. rewrite Hp. cbn [mbind option_bind].
  set (l := fresh (dom (tab_heap t))).
  assert (Hl : tab_heap t !! l = None).
  { apply not_elem_of_dom. apply is_fresh. }
  assert (Hnot : l ∉ (concat bs).*1).
  { intros ([? b] & -> & Hx)%list_elem_of_fmap.
    destruct (rep_lookup t bs _ b R Hx) as [q E]. simpl in Hl. congruence. }
  eexists l, _. split_and!; [done|done|by unfold zlen; simpl; rewrite length_insert|].
  destruct R as [RC RN RH].
  assert (Hlen : (Z.to_nat i < length bs)%nat).
  { erewrite <- Forall2_length by exact RC. unfold zlen in Hi. lia. }
  destruct (lookup_lt_is_Some_2 bs (Z.to_nat i) Hlen) as [ns Hns].
  assert (Hb : bucket bs i = ns).
  { unfold bucket. replace (0 <=? i) with true by lia. by rewrite Hns. }
  rewrite Hb in *. constructor; simpl.
  - apply Forall2_insert.
    + eapply Forall2_impl; [exact RC|]. intros. by apply chain_insert_fresh.
    + split; [done|]. exists p. rewrite lookup_insert_eq. split; [done|].
      by apply chain_insert_fresh.
  - rewrite (concat_insert_perm bs _ ns) by done. simpl. by constructor.
  - intros j ns' Hj. destruct (decide (j = Z.to_nat i)) as [->|].
    + rewrite list_lookup_insert_eq in Hj by done. injection Hj as <-.
      constructor; [lia|]. by apply RH.
    + rewrite list_lookup_insert_ne in Hj by done. by apply RH.
Qed.

(** Writing through a pointer to a node, the hash of its value kept. *)
Lemma rep_assign t bs l a f :
  tab_rep hash t bs → (l, a) ∈ concat bs → (∀ a, hash (f a) = hash a) →
  ∃ t', assign t l f = Some t' ∧ tab_heads t' = tab_heads t ∧
        tab_rep hash t' (assign_in l f <$> bs).
Proof.
  intros R Hin Hf. destruct (rep_lookup t bs l a R Hin) as [q E].
  unfold assign. rewrite E. cbn [mbind option_bind].
  eexists. split_and!; [done|done|]. destruct R as [RC RN RH]. constructor; simpl.
  - apply Forall2_fmap_r. eapply Forall2_impl; [exact RC|].
    intros p ns Hc. by apply (chain_assign _ _ _ _ f (Node a q)).
  - by rewrite concat_assign_fst.
  - intros i ns Hi. rewrite list_lookup_fmap in Hi.
    destruct (bs !! i) as [ns0|] eqn:E0; [|done]. injection Hi as <-.
    specialize (RH i ns0 E0). apply Forall_fmap.
    eapply Forall_impl; [exact RH|]. intros [x b] Hb. simpl.
    case_decide; [by rewrite Hf|done].
Qed.

(** *** Unlinking *)

(** The nodes [ns] lead from [p] to [q]. *)
Fixpoint path (h : gmap loc (node A)) (p : option loc) (ns : list (loc * A))
    (q : option loc) : Prop :=
  match ns with
  | [] => p = q
  | (l, a) :: ns => p = Some l ∧ ∃ r, h !! l = Some (Node a r) ∧ path h r ns q
  end.

Lemma chain_app (h : gmap loc (node A)) p (pre ns : list (loc * A)) :
  chain h p (pre ++ ns) ↔ ∃ q, path h p pre q ∧ chain h q ns.
Proof.
  revert p. induction pre as [|[l a] pre IH]; intros p; simpl.
  { split; [by exists p|by intros (q & -> & ?)]. }
  split.
  - intros (-> & r & Hl & (q & Hp & Hc)%IH). exists q. eauto.
  - intros (q & (-> & r & Hl & Hp) & Hc). split; [done|]. exists r. split; [done|].
    apply IH. eauto.
Qed.

(** Chains do not see changes to nodes they do not contain. *)
Lemma chain_frame (h h' : gmap loc (node A)) p ns :
  chain h p ns → (∀ l, l ∈ ns.*1 → h' !! l = h !! l) → chain h' p ns.
Proof.
  revert p. induction ns as [|[l a] ns IH]; intros p Hc E; [done|].
  destruct Hc as (-> & q & Hl & Hc). split; [done|]. exists q. split.
  - rewrite E; [done|]. left.
  - apply IH; [done|]. intros x Hx. apply E. by right.
Qed.

Lemma path_frame h h' p ns q :
  path h p ns q → (∀ l, l ∈ ns.*1 → h' !! l = h !! l) → path h' p ns q.
Proof.
  revert p. induction ns as [|[l a] ns IH]; intros p Hc E; [done|].
  destruct Hc as (-> & r & Hl & Hc). split; [done|]. exists r. split.
  - rewrite E; [done|]. left.
  - apply IH; [done|]. intros x Hx. apply E. by right.
Qed.

Lemma nodup_disjoint bs i j ns ms l :
  NoDup (concat bs).*1 → bs !! i = Some ns → bs !! j = Some ms → i ≠ j →
  l ∈ ms.*1 → l ∉ ns.*1.
Proof.
  revert i j. induction bs as [|b bs IH]; intros i j Hn Hi Hj Hij Hl; [done|].
  simpl in Hn. rewrite fmap_app in Hn. apply NoDup_app in Hn as (_ & Hd & Hn).
  assert (G : ∀ k ks, bs !! k = Some ks → ∀ x, x ∈ ks.*1 → x ∈ (concat bs).*1).
  { intros k ks Hk x (y & -> & Hy)%list_elem_of_fmap. apply list_elem_of_fmap.
    exists y. split; [done|]. apply list_elem_of_In, in_concat. exists ks.
    split; apply list_elem_of_In; [by eapply list_elem_of_lookup_2|done]. }
  destruct i, j; simpl in Hi, Hj; [done|..].
  - injection Hi as ->. intros Hl'. exact (Hd l Hl' (G _ _ Hj l Hl)).
  - injection Hj as ->. intros Hl'. exact (Hd l Hl (G _ _ Hi l Hl')).
  - by apply (IH i j Hn Hi Hj); [lia|].
Qed.

Lemma concat_submseteq bs i ns ns' :
  bs !! i = Some ns → ns' ⊆+ ns → concat (<[i := ns']> bs) ⊆+ concat bs.
Proof.
  revert i. induction bs as [|b bs IH]; intros i Hi Hs; [done|].
  destruct i; simpl in *; [injection Hi as ->|].
  - by apply submseteq_skips_r.
  - by apply submseteq_skips_l, IH.
Qed.

Lemma nodup_submseteq {B} (l k : list B) : l ⊆+ k → NoDup k → NoDup l.
Proof.
  intros (m & ->)%submseteq_Permutation Hn. by apply NoDup_app in Hn as [? _].
Qed.

(** The rest of the table when one bucket loses nodes. *)
Lemma rep_bucket_change t bs i ns ns' h' p' :
  tab_rep hash t bs → bs !! i = Some ns → ns' ⊆+ ns →
  (∀ l, l ∉ ns.*1 → h' !! l = tab_heap t !! l) →
  chain h' p' ns' →
  tab_rep hash (HTab h' (<[i := p']> (tab_heads t))) (<[i := ns']> bs).
Proof.
  intros [RC RN RH] Hi Hsub Hfr Hc. pose proof (lookup_lt_Some _ _ _ Hi) as Hlt.
  pose proof (Forall2_length _ _ _ RC) as HL. constructor; cbn.
  - apply Forall2_lookup. intros j. destruct (decide (j = i)) as [->|Hj].
    + rewrite !list_lookup_insert_eq by lia. by constructor.
    + rewrite !list_lookup_insert_ne by done.
      pose proof (proj1 (Forall2_lookup _ _ _) RC j) as RJ.
      destruct (bs !! j) as [ms|] eqn:Ej; inversion RJ as [p ms' Hp E1 E2|E1 E2]; subst;
        constructor.
      apply (chain_frame (tab_heap t)); [done|]. intros l Hl. apply Hfr.
      by eapply nodup_disjoint.
  - eapply nodup_submseteq; [|exact RN]. apply fmap_submseteq. by eapply concat_submseteq.
  - intros j ms Hj. destruct (decide (j = i)) as [->|].
    + rewrite list_lookup_insert_eq in Hj by done. injection Hj as <-.
      apply submseteq_Permutation in Hsub as (k & Hk). specialize (RH i ns Hi).
      rewrite Hk in RH. by apply Forall_app in RH as [? _].
    + rewrite list_lookup_insert_ne in Hj by done. by apply RH.
Qed.

(** Changes to nodes outside the table. *)
Lemma rep_frame t bs h' :
  tab_rep hash t bs → (∀ l, l ∈ (concat bs).*1 → h' !! l = tab_heap t !! l) →
  tab_rep hash (HTab h' (tab_heads t)) bs.
Proof.
  intros [RC RN RH] Hfr. constructor; cbn; [|done|done].
  apply Forall2_lookup. intros j. pose proof (proj1 (Forall2_lookup _ _ _) RC j) as RJ.
  destruct (bs !! j) as [ms|] eqn:Ej; inversion RJ as [p ms' Hp E1 E2|E1 E2]; subst; constructor.
  apply (chain_frame (tab_heap t)); [done|]. intros l (x & -> & Hx)%list_elem_of_fmap.
  apply Hfr, list_elem_of_fmap. exists x. split; [done|]. apply list_elem_of_In, in_concat.
  exists ms. split; apply list_elem_of_In; [by eapply list_elem_of_lookup_2|done].
Qed.

Lemma concat_remove_perm bs i pre (x : loc * A) post :
  bs !! i = Some (pre ++ x :: post) → concat bs ≡ₚ x :: concat (<[i := pre ++ post]> bs).
Proof.
  revert i. induction bs as [|b bs IH]; intros i Hi; [done|].
  destruct i; simpl in *.
  - injection Hi as ->. rewrite <- !app_assoc. cbn [app].
    symmetry. apply Permutation_middle.
  - rewrite (IH _ Hi). by rewrite Permutation_middle.
Qed.

Lemma removed_not_in bs i pre l a post :
  NoDup (concat bs).*1 → bs !! i = Some (pre ++ (l, a) :: post) →
  l ∉ (concat (<[i := pre ++ post]> bs)).*1.
Proof.
  intros Hn Hi. rewrite (concat_remove_perm _ _ _ _ _ Hi) in Hn. by apply NoDup_cons in Hn as [? _].
Qed.

(** [table[i] = n->next] for the first node of a bucket. *)
Lemma rep_unhook_first t bs i l a post :
  tab_rep hash t bs → bs !! Z.to_nat i = Some ((l, a) :: post) → 0 ≤ i →
  ∃ q t1, head_at t i = Some (Some l) ∧ next_of t l = Some q ∧
    set_head t i q = Some t1 ∧ tab_heap t1 = tab_heap t ∧ head_at t1 i = Some q ∧
    q = fst <$> head post ∧ length (tab_heads t1) = length (tab_heads t) ∧
    tab_rep hash t1 (<[Z.to_nat i := post]> bs).
Proof.
  intros R Hi Hi0. pose proof R as [RC RN _].
  destruct (Forall2_lookup_r _ _ _ _ _ RC Hi) as (p & Hp & -> & q & Hl & Hc).
  assert (Hh : head_at t i = Some (Some l)) by (unfold head_at; by guard_true).
  assert (Hq : q = fst <$> head post).
  { destruct post as [|[x b] post]; [done|]. by destruct Hc as (-> & _). }
  exists q, (HTab (tab_heap t) (<[Z.to_nat i := q]> (tab_heads t))).
  unfold next_of, set_head. rewrite Hl, Hh.
  split_and!; try done; cbn [tab_heap tab_heads].
  - unfold head_at. cbn [tab_heads]. guard_true. apply list_lookup_insert_eq.
    apply lookup_lt_Some in Hp. done.
  - by rewrite length_insert.
  - eapply rep_bucket_change; [exact R|exact Hi|by apply submseteq_cons|done|done].
Qed.

(** [prev->next = n->next] for a node behind [prev]. *)
Lemma rep_unhook_next t bs i pre prev b l a post :
  tab_rep hash t bs → bs !! Z.to_nat i = Some (pre ++ (prev, b) :: (l, a) :: post) → 0 ≤ i →
  ∃ q t1, next_of t prev = Some (Some l) ∧ next_of t l = Some q ∧
    set_next t prev q = Some t1 ∧ tab_heap t1 !! l = tab_heap t !! l ∧
    next_of t1 prev = Some q ∧ prev ≠ l ∧ q = fst <$> head post ∧ tab_heads t1 = tab_heads t ∧
    tab_rep hash t1 (<[Z.to_nat i := pre ++ (prev, b) :: post]> bs).
Proof.
  intros R Hi Hi0. pose proof R as [RC RN _].
  destruct (Forall2_lookup_r _ _ _ _ _ RC Hi) as (p & Hp & Hc).
  apply chain_app in Hc as (r & Hpath & -> & q' & Hprev & -> & q & Hl & Hc).
  pose proof (nodup_bucket bs _ _ RN Hi) as Hn.
  rewrite fmap_app in Hn. apply NoDup_app in Hn as (Hnp & Hd & Hn). cbn in Hd, Hn.
  apply NoDup_cons in Hn as [Hnl Hn]. apply NoDup_cons in Hn as [Hnl2 Hn].
  apply not_elem_of_cons in Hnl as [Hne Hnl].
  assert (Hq : q = fst <$> head post).
  { destruct post as [|[x c] post]; [done|]. by destruct Hc as (-> & _). }
  exists q, (HTab (<[prev := Node b q]> (tab_heap t)) (tab_heads t)).
  unfold next_of, set_next. rewrite Hl, Hprev.
  split_and!; try done; cbn [tab_heap tab_heads].
  - by rewrite lookup_insert_ne, Hl.
  - by rewrite lookup_insert_eq.
  - rewrite <- (list_insert_id (tab_heads t) (Z.to_nat i) p) by done.
    eapply rep_bucket_change; [exact R|exact Hi| | |].
    + apply submseteq_skips_l, submseteq_skip, submseteq_cons. done.
    + intros x Hx. rewrite fmap_app in Hx. cbn in Hx.
      apply not_elem_of_app in Hx as [_ [Hx1 _]%not_elem_of_cons].
      by rewrite lookup_insert_ne.
    + apply chain_app. exists (Some prev). split.
      * apply (path_frame (tab_heap t)); [done|]. intros x Hx.
        specialize (Hd x Hx). apply not_elem_of_cons in Hd as [? _].
        by rewrite lookup_insert_ne.
      * split; [done|]. exists q. rewrite lookup_insert_eq. split; [done|].
        apply (chain_frame (tab_heap t)); [done|]. intros x Hx.
        rewrite lookup_insert_ne; [done|by intros ->].
Qed.

(** [free(n)] of a node that is not in the table. *)
Lemma rep_free t bs l n :
  tab_rep hash t bs → tab_heap t !! l = Some n → l ∉ (concat bs).*1 →
  free_node t l = Some (HTab (delete l (tab_heap t)) (tab_heads t)) ∧
  tab_rep hash (HTab (delete l (tab_heap t)) (tab_heads t)) bs.
Proof.
  intros R Hl Hn. split; [unfold free_node; by rewrite Hl|].
  apply rep_frame; [done|]. intros x Hx. apply lookup_delete_ne. by intros ->.
Qed.

(** [table[i] = n->next; free(n)] for the first node of a bucket. *)
Lemma rep_unlink_first t bs i l a post :
  tab_rep hash t bs → bs !! Z.to_nat i = Some ((l, a) :: post) → 0 ≤ i →
  ∃ q t1 t2, head_at t i = Some (Some l) ∧ next_of t l = Some q ∧
    set_head t i q = Some t1 ∧ tab_heap t1 = tab_heap t ∧
    free_node t1 l = Some t2 ∧ head_at t2 i = Some q ∧ q = fst <$> head post ∧
    length (tab_heads t2) = length (tab_heads t) ∧
    tab_rep hash t2 (<[Z.to_nat i := post]> bs).
Proof.
  intros R Hi Hi0. pose proof (removed_not_in bs _ [] l a post (rep_nodup _ _ _ R) Hi) as Hn.
  destruct (rep_unhook_first t bs i l a post R Hi Hi0)
    as (q & t1 & Hh & Hx & E & Eh & Hh1 & Hq & HL & R1).
  destruct (rep_free t1 _ l (Node a q) R1) as [F R2]; [|done|].
  { rewrite Eh. unfold next_of in Hx. destruct (rep_lookup t bs l a R) as [q' El].
    - rewrite (concat_remove_perm bs _ [] (l, a) post Hi). left.
    - rewrite El in Hx |- *. by injection Hx as ->. }
  eexists q, t1, _. split_and!; [done..|exact F|exact Hh1|done|exact HL|exact R2].
Qed.

(** [prev->next = n->next; free(n)] for a node behind [prev]. *)
Lemma rep_unlink_next t bs i pre prev b l a post :
  tab_rep hash t bs → bs !! Z.to_nat i = Some (pre ++ (prev, b) :: (l, a) :: post) → 0 ≤ i →
  ∃ q t1 t2, next_of t prev = Some (Some l) ∧ next_of t l = Some q ∧
    set_next t prev q = Some t1 ∧ tab_heap t1 !! l = tab_heap t !! l ∧
    free_node t1 l = Some t2 ∧ next_of t2 prev = Some q ∧ q = fst <$> head post ∧
    length (tab_heads t2) = length (tab_heads t) ∧
    tab_rep hash t2 (<[Z.to_nat i := pre ++ (prev, b) :: post]> bs).
Proof.
  intros R Hi Hi0.
  assert (Hi' : bs !! Z.to_nat i = Some ((pre ++ [(prev, b)]) ++ (l, a) :: post))
    by by rewrite <- app_assoc.
  pose proof (removed_not_in bs _ _ l a post (rep_nodup _ _ _ R) Hi') as Hn.
  rewrite <- app_assoc in Hn.
  destruct (rep_unhook_next t bs i pre prev b l a post R Hi Hi0)
    as (q & t1 & Hp & Hx & E & El & Hp1 & Hne & Hq & HL & R1).
  destruct (rep_lookup t bs l a R) as [q' Hl].
  { rewrite (concat_remove_perm bs _ _ (l, a) post Hi'). left. }
  destruct (rep_free t1 _ l (Node a q') R1) as [F R2]; [by rewrite El|done|].
  eexists q, t1, _. split_and!; [done..|exact F| |done| |exact R2].
  - unfold next_of in *. cbn. by rewrite lookup_delete_ne.
  - cbn. by rewrite HL.
Qed.

Lemma rep_empty n : tab_rep hash (empty_tab n) (replicate n []).
Proof.
  constructor.
  - unfold empty_tab. simpl. apply Forall2_replicate. done.
  - assert (E : concat (replicate n ([] : list (loc * A))) = [])
      by (induction n; [done|by simpl]).
    rewrite E. constructor.
  - intros i ns [-> _]%lookup_replicate. constructor.
Qed.

End Refinement.

(** ** Steps of the C code on a table of the program's state *)

Section Steps.
  Context {S A : Type} (get_tab : S → htab A) (set_tab : htab A → S → S).

Definition tab_head (i : Z) : M S (option loc) := λ s,
  (opt! head_at (get_tab s) i) s.

Definition tab_search (stop : A → bool) (p : option loc) : M S (option loc) := λ s,
  let h := tab_heap (get_tab s) in
  match walk (size h) h stop p with
  | Stopped q => Ret q s
  | Dangling => Crash
  | Looping => Hang
  end.

Definition tab_push (i : Z) (a : A) : M S loc := λ s,
  match push (get_tab s) i a with
  | Some (l, t) => Ret l (set_tab t s)
  | None => Crash
  end.

Definition tab_deref (l : loc) : M S A := λ s, (opt! deref (get_tab s) l) s.

(** A write through a pointer that may be null. *)
Definition tab_assign (p : option loc) (f : A → A) : M S unit := λ s,
  match (l ← p; assign (get_tab s) l f) with
  | Some t => Ret () (set_tab t s)
  | None => Crash
  end.

Definition tab_next (l : loc) : M S (option loc) := λ s, (opt! next_of (get_tab s) l) s.

(** An assignment to the array, to a [next] member, or [free]. *)
Definition tab_change (f : htab A → option (htab A)) : M S unit := λ s,
  match f (get_tab s) with
  | Some t => Ret () (set_tab t s)
  | None => Crash
  end.

End Steps.
