(* ===== verification/CSteps.v ===== *)
(** * Symbolic execution of the C code

    Step lemmas and tactics that run the monadic code of the handlers on
    buffers of known length: allocation, field stores in network order, field
    loads.  Values that stay symbolic (a datapath id, the transaction id of a
    request) are lists of byte variables. *)

From Stdlib Require Import ZArith Lia.
From S2P Require Import Prelude CMem CStruct CMonad.

(** State after one call answered by the environment. *)
Definition tick {S} `{HasSys S} (s : S) : S :=
  set_sys (Sys (Datatypes.S (clock (get_sys s))) (events (get_sys s))) s.

Section Steps.
  Context `{Platform} `{Env} {S : Type} `{HasSys S}.

Lemma ask_step {A B} (f : nat → A) (k : A → M S B) s :
  (ask f ≫= k) s = k (f (clock (get_sys s))) (tick s).
Proof. done. Qed.

Lemma calloc_step {B} n (k : option bytes → M S B) s :
  env_calloc (clock (get_sys s)) n = true →
  (calloc n ≫= k) s = k (Some (replicate (Z.to_nat n) 0)) (tick s).
Proof. intros E. unfold calloc, mbind, M_bind, ask. by rewrite E. Qed.

Lemma calloc_null_step {B} n (k : option bytes → M S B) s :
  env_calloc (clock (get_sys s)) n = false →
  (calloc n ≫= k) s = k None (tick s).
Proof. intros E. unfold calloc, mbind, M_bind, ask. by rewrite E. Qed.

Lemma gets_step {A B} (f : S → A) (k : A → M S B) s : (gets f ≫= k) s = k (f s) s.
Proof. done. Qed.

Lemma modify_step {B} (f : S → S) (k : unit → M S B) s : (modify f ≫= k) s = k () (f s).
Proof. done. Qed.

Lemma stf_step {B} T b path v m o ft n bs m' (k : bytes → M S B) s :
  field_at T path = Some (o, ft) → int_width ft = Some n →
  nat_enc n v = bs → stn m (b + o) bs = Some m' →
  (opt! stf T b path v m ≫= k) s = k m' s.
Proof.
  intros E1 E2 E3 E4. rewrite (stf_eq _ _ _ _ _ _ _ _ E1 E2).
  unfold stint. by rewrite E3, E4.
Qed.

Lemma stf_bytes_step {B} T b path bs m o ft m' (k : bytes → M S B) s :
  field_at T path = Some (o, ft) → stn m (b + o) bs = Some m' →
  (opt! stf_bytes T b path bs m ≫= k) s = k m' s.
Proof. intros E1 E2. unfold stf_bytes. rewrite E1. simpl. by rewrite E2. Qed.

Lemma ldf_step {B} T b path m o ft n bs (k : Z → M S B) s :
  field_at T path = Some (o, ft) → int_width ft = Some n →
  ldn m (b + o) (Z.of_nat n) = Some bs →
  (opt! ldf T b path m ≫= k) s = k (nat_dec bs) s.
Proof.
  intros E1 E2 E3. rewrite (ldf_eq _ _ _ _ _ _ _ E1 E2). unfold ldint. by rewrite E3.
Qed.

Lemma ldf_bytes_step {B} T b path len m o ft bs (k : bytes → M S B) s :
  field_at T path = Some (o, ft) → ldn m (b + o) len = Some bs →
  (opt! ldf_bytes T b path len m ≫= k) s = k bs s.
Proof. intros E1 E2. unfold ldf_bytes. rewrite E1. simpl. by rewrite E2. Qed.

Lemma opt_step {A B} (o : option A) a (k : A → M S B) s :
  o = Some a → (opt! o ≫= k) s = k a s.
Proof. by intros ->. Qed.

Lemma nat_enc_1 v : nat_enc 1 v = [v mod 256].
Proof. unfold nat_enc. by case_if. Qed.

Lemma nat_dec_1 b : nat_dec [b] = b.
Proof. unfold nat_dec, be_dec. case_if; simpl; lia. Qed.

Lemma nat_enc_0 n : nat_enc n 0 = replicate n 0.
Proof.
  assert (E : le_enc n 0 = replicate n 0) by (induction n; [done|simpl; by f_equal]).
  unfold nat_enc, be_enc. rewrite E. case_if; [apply reverse_replicate|done].
Qed.

(** Writes back a loaded integer. *)
Lemma nat_enc_dec_n l n : bytes_ok l → length l = n → nat_enc n (nat_dec l) = l.
Proof. intros ? <-. by apply nat_enc_dec. Qed.

(** [ntohs] and the like of a loaded integer. *)
Lemma hton_dec n l v :
  bytes_ok l → length l = n → be_dec l = v → hton n (nat_dec l) = v.
Proof. intros ? <- <-. by apply hton_nat_dec. Qed.

(** A buffer that starts with known bytes. *)
Lemma ntohl_dec l v :
  bytes_ok l → length l = 4%nat → be_dec l = v → ntohl (nat_dec l) = v.
Proof. intros. by apply hton_dec. Qed.

Lemma ldn_app_l (l r : bytes) off n x :
  ldn l off n = Some x → ldn (l ++ r) off n = Some x.
Proof.
  intros E. pose proof (ldn_Some _ _ _ _ E) as (? & ? & ? & _ & ->).
  rewrite ldn_ok by (rewrite ?zlen_app; pose proof (zlen_nonneg r); lia).
  f_equal. unfold zlen in *. rewrite drop_app_le by lia.
  rewrite take_app_le; [done|]. rewrite length_drop. lia.
Qed.

Lemma stn_app_l (l r : bytes) off bs x :
  stn l off bs = Some x → stn (l ++ r) off bs = Some (x ++ r).
Proof.
  intros E. pose proof (stn_Some _ _ _ _ E) as (? & ? & ->).
  unfold stn. rewrite (proj2 (in_range_iff _ _ _)).
  2: { rewrite zlen_app. pose proof (zlen_nonneg r). pose proof (zlen_nonneg bs). lia. }
  f_equal. unfold zlen in *. rewrite take_app_le, drop_app_le by lia.
  by rewrite <- !app_assoc.
Qed.

End Steps.

(** ** Invariants of programs *)

(** [m] keeps [P]: true before, true in the state it returns or exits with. *)
Definition keeps {S A} (P : S → Prop) (m : M S A) : Prop :=
  ∀ s, P s → match m s with Ret _ s' | Exit _ s' => P s' | Crash | Hang => True end.

Section Keeps.
  Context {S : Type} (P : S → Prop).

Lemma keeps_ret {A} (a : A) : keeps P (mret a).
Proof. intros s Hs. done. Qed.

Lemma keeps_bind {A B} (m : M S A) (k : A → M S B) :
  keeps P m → (∀ a, keeps P (k a)) → keeps P (m ≫= k).
Proof.
  intros Hm Hk s Hs. specialize (Hm s Hs). unfold mbind, M_bind.
  destruct (m s); try done. by apply Hk.
Qed.

(** The same when the rest of the program needs what the first part returns. *)
Lemma keeps_bind_ret {A B} (Q : A → Prop) (m : M S A) (k : A → M S B) :
  keeps P m → (∀ s a s', m s = Ret a s' → Q a) → (∀ a, Q a → keeps P (k a)) →
  keeps P (m ≫= k).
Proof.
  intros Hm HQ Hk s Hs. specialize (Hm s Hs). unfold mbind, M_bind.
  destruct (m s) eqn:E; try done. eapply Hk; eauto.
Qed.

Lemma keeps_opt {A} (o : option A) : keeps P (lift_opt o).
Proof. intros s Hs. by destruct o. Qed.

Lemma keeps_crash {A} : keeps P (crash (A:=A)).
Proof. done. Qed.

Lemma keeps_exit {A} code : keeps P (exit (A:=A) code).
Proof. intros s Hs. done. Qed.

Lemma keeps_hang {A} : keeps P (hang (A:=A)).
Proof. done. Qed.

Lemma keeps_gets {A} (f : S → A) : keeps P (gets f).
Proof. intros s Hs. done. Qed.

Lemma keeps_modify f : (∀ s, P s → P (f s)) → keeps P (modify f).
Proof. intros Hf s Hs. by apply Hf. Qed.

Section Sys.
  Context `{Env} `{HasSys S}.
  Hypothesis P_sys : ∀ w s, P s → P (set_sys w s).

Lemma keeps_ask {A} (f : nat → A) : keeps P (ask f).
Proof using P_sys. intros s Hs. by apply P_sys. Qed.

Lemma keeps_emit e : keeps P (emit e).
Proof using P_sys. intros s Hs. by apply P_sys. Qed.

Lemma keeps_calloc n : keeps P (calloc n).
Proof using P_sys.
  apply keeps_bind; [by apply keeps_ask|]. intros. apply keeps_ret.
Qed.

Lemma keeps_verdict qh id v n data : keeps P (nfq_set_verdict qh id v n data).
Proof using P_sys.
  apply keeps_bind; [apply keeps_opt|]. intros.
  apply keeps_bind; [by apply keeps_emit|]. intros. by apply keeps_ask.
Qed.

End Sys.
End Keeps.

(** Walks through a program, opening binds, tests and matches. *)
Ltac keeps_step :=
  lazymatch goal with
  | |- keeps _ (mbind _ _) => apply keeps_bind; [|intros ?]
  | |- keeps _ (mret _) => apply keeps_ret
  | |- keeps _ skip => apply keeps_ret
  | |- keeps _ (lift_opt _) => apply keeps_opt
  | |- keeps _ crash => apply keeps_crash
  | |- keeps _ (exit _) => apply keeps_exit
  | |- keeps _ hang => apply keeps_hang
  | |- keeps _ (gets _) => apply keeps_gets
  | |- keeps _ (ask _) => apply keeps_ask; solve [eauto with cstep]
  | |- keeps _ (emit _) => apply keeps_emit; solve [eauto with cstep]
  | |- keeps _ (calloc _) => apply keeps_calloc; solve [eauto with cstep]
  | |- keeps _ (nfq_set_verdict _ _ _ _ _) => apply keeps_verdict; solve [eauto with cstep]
  | |- keeps _ (match ?x with _ => _ end) => destruct x
  | |- keeps _ (let _ := _ in _) => cbv zeta
  | |- keeps _ _ => solve [eauto with cstep]
  end.
Ltac keeps := repeat keeps_step.

(** Evaluates a closed or partly symbolic load or store. *)
Ltac eval_mem :=
  match goal with
  | |- stn (?l ++ ?r) ?o ?b = Some _ => apply stn_app_l; eval_mem
  | |- ldn (?l ++ ?r) ?o ?n = Some _ => apply ldn_app_l; eval_mem
  | |- ?e = ?r => let v := eval vm_compute in e in change (v = r); reflexivity
  end.

(** Encodes the stored value: a constant or a value of known bytes. *)
Ltac enc :=
  first
    [ eassumption
    | rewrite nat_enc_0; reflexivity
    | rewrite nat_enc_1; reflexivity
    | apply nat_enc_dec_n; [eauto with cmem|reflexivity]
    | unfold htons, htonl; rewrite nat_enc_hton; (eassumption || reflexivity)
    ].

Ltac eval_field :=
  match goal with
  | |- field_at ?T ?p = ?r =>
      let v := eval vm_compute in (field_at T p) in change (v = r); reflexivity
  end.

(** Runs the next field store or load. *)
Ltac store := erewrite stf_step; [|eval_field|reflexivity|enc|eval_mem].
Ltac load := erewrite ldf_step; [|eval_field|reflexivity|eval_mem].
Ltac store_bytes := erewrite stf_bytes_step; [|eval_field|eval_mem].
Ltac load_bytes := erewrite ldf_bytes_step; [|eval_field|eval_mem].
Ltac crun := repeat first [store | load | store_bytes | load_bytes | rewrite gets_step; autorewrite with cstep].

(** Names the bytes of a list of known length. *)
Ltac explode l :=
  repeat (destruct l as [|? l]; [discriminate|]); destruct l; [|discriminate].

(** Closes the concrete side conditions of concrete inputs. *)
Ltac concrete :=
  first [ done | lia | solve [apply (bool_decide_unpack _); vm_compute; done]
        | solve [constructor; cbn; first [done | lia | split; [lia|done]]] ].
