(* ===== verification/Agent.v ===== *)
(** * The OpenFlow agent: connection to the controller and standard messages

    [gatewayNAT.c] and [controller_interface.c] contain the same agent: the
    functions modelled here are textually the same in both programs.  They are
    written once, for any program state that contains a
    [struct controller_connection]; [Gateway] and the access point instantiate
    them.

    The request is the buffer [oh] it was received into; replies are built in
    an object from [calloc], field by field, and handed to [controller_send]. *)

From Stdlib Require Import ZArith Lia.
From S2P Require Import Prelude CMem CStruct CMonad OpenFlow.

(** [struct controller_connection]; [mac] is [None] when the pointer is null. *)
Record controller_connection := Conn {
  sock : Z;
  error : Z;
  dpid : Z;
  miss_send_len : Z;
  mac : option bytes;
}.

Definition set_sock v c := Conn v (error c) (dpid c) (miss_send_len c) (mac c).
Definition set_error v c := Conn (sock c) v (dpid c) (miss_send_len c) (mac c).
Definition set_dpid v c := Conn (sock c) (error c) v (miss_send_len c) (mac c).
Definition set_miss_send_len v c := Conn (sock c) (error c) (dpid c) v (mac c).
Definition set_mac v c := Conn (sock c) (error c) (dpid c) (miss_send_len c) v.

(** A program state with a connection to the controller. *)
Class HasConn (S : Type) `{HasSys S} := {
  get_conn : S → controller_connection;
  set_conn : controller_connection → S → S;
  get_set_conn : ∀ c s, get_conn (set_conn c s) = c;
  set_get_conn : ∀ s, set_conn (get_conn s) s = s;
  set_set_conn : ∀ c c' s, set_conn c (set_conn c' s) = set_conn c s;
  get_conn_set_sys : ∀ w s, get_conn (set_sys w s) = get_conn s;
  get_sys_set_conn : ∀ c s, get_sys (set_conn c s) = get_sys s;
  set_conn_set_sys : ∀ c w s, set_conn c (set_sys w s) = set_sys w (set_conn c s);
}.

(** [htonll] of the headers: two swapped halves on a little-endian host. *)
Definition htonll `{Platform} (n : Z) : Z :=
  if htonl 1 =? 1 then n
  else Z.lor (Z.shiftl (htonl (n mod 2 ^ 32)) 32) (htonl (Z.shiftr n 32)).

(** [for(i = 0; i < 6; i++) dpid = mac[i] | dpid << 8], in 64 bits. *)
Definition dpid_of (mac : bytes) : Z :=
  foldl (λ d b, Z.lor b (Z.shiftl d 8 mod 2 ^ 64)) 0 mac.

Definition EINPROGRESS : Z := 115.
Definition ETH_ALEN : Z := 6.

(** [sizeof(struct ethtool_perm_addr) + MAX_ADDR_LEN]. *)
Definition perm_addr_size : Z := 8 + 32.

Section Agent.
  Context `{Platform} `{Env} {S : Type} `{HasConn S}.

Definition upd_conn (f : controller_connection → controller_connection) : M S unit :=
  modify (λ s, set_conn (f (get_conn s)) s).

(** *** Connection *)

Definition conn_open : M S Z :=
  s ← ask env_socket;
  upd_conn (set_sock s);;
  if s <? 0 then mret 1 else
  flags ← ask env_fcntl;
  (if 0 <=? flags then _ ← ask env_fcntl; skip else skip);;
  _ ← ask env_setsockopt;
  r ← ask env_connect;
  if r <? 0 then
    errno ← ask env_errno;
    if errno =? EINPROGRESS then
      '(t, writable) ← ask env_select;
      if t <? 0 then exit 1 else
      if writable : bool then
        errno ← ask env_so_error;
        if negb (errno =? 0) then emit (EvClose s);; mret 1
        else
          epaddr ← calloc perm_addr_size;
          match epaddr with
          | None => crash
          | Some _ =>
              '(err, data) ← ask env_permaddr;
              if err <? 0 then mret 1 else
              m ← calloc ETH_ALEN;
              match m with
              | None => upd_conn (set_mac None);; mret 1
              | Some _ =>
                  m ← opt! ldn data 0 ETH_ALEN;
                  upd_conn (set_mac (Some m));;
                  upd_conn (set_dpid (dpid_of m));;
                  _ ← ask env_setsockopt;
                  mret 0
              end
          end
      else mret 0
    else emit (EvClose s);; mret 1
  else mret 0.

Definition controller_conn_open : M S unit :=
  c ← gets get_conn;
  if sock c =? -1 then
    r ← conn_open;
    if negb (r =? 0) then upd_conn (set_sock (-1)) else skip
  else skip.

(** Sends the first [n] bytes of the object [msg]; ten failures close the
    connection.  ([free(msg)] ends the life of an object nobody uses again.) *)
Definition controller_send (msg : bytes) (n : Z) : M S unit :=
  c ← gets get_conn;
  if negb (sock c =? -1) then
    data ← opt! ldn msg 0 n;
    t ← ask (λ k, env_send k data);
    emit (EvSend (sock c) data t);;
    if t =? -1 then
      upd_conn (λ c, set_error (error c + 1) c);;
      c ← gets get_conn;
      if error c =? 10 then upd_conn (λ c, set_sock (-1) (set_error 0 c)) else skip
    else skip
  else skip.

(** [recv(sock, buf + off, n, 0)]: the buffer afterwards and the result. *)
Definition recv (buf : bytes) (off n : Z) : M S (bytes * Z) :=
  r ← ask (λ k, env_recv k n);
  match r with
  | None => mret (buf, -1)
  | Some bs => buf' ← opt! stn buf off bs; mret (buf', zlen bs)
  end.

(** [char str[100]], filled by at most two [recv] calls, then dispatched. *)
Definition controller_receive (process_controller_msg : bytes → M S unit) : M S unit :=
  c ← gets get_conn;
  if negb (sock c =? -1) then
    str ← ask (λ k, env_stack k 100);
    '(t, ready) ← ask env_select;
    if t <? 0 then exit 1 else
    if ready : bool then
      '(str, t) ← recv str 0 (sizeof ofp_header);
      if t <=? 0 then upd_conn (set_sock (-1)) else
      len ← opt! ldf ofp_header 0 ["length"] str;
      if sizeof ofp_header <? ntohs len then
        '(str, t) ← recv str (sizeof ofp_header) (ntohs len - sizeof ofp_header);
        if t <? 0 then exit 1 else process_controller_msg str
      else process_controller_msg str
    else skip
  else skip.

(** *** Message handlers *)

Definition handle_hello (oh : bytes) : M S unit :=
  msg ← calloc (sizeof ofp_hello);
  match msg with
  | None => skip
  | Some msg =>
      msg ← opt! stf ofp_hello 0 ["header"; "version"] OFP_VERSION msg;
      msg ← opt! stf ofp_hello 0 ["header"; "type"] (enum_val OFPT_HELLO) msg;
      msg ← opt! stf ofp_hello 0 ["header"; "length"] (htons sizeof_ptr) msg;
      xid ← opt! ldf ofp_header 0 ["xid"] oh;
      msg ← opt! stf ofp_hello 0 ["header"; "xid"] xid msg;
      controller_send msg (sizeof ofp_hello)
  end.

Definition handle_feature_request (oh : bytes) : M S unit :=
  msg ← calloc (sizeof ofp_switch_features);
  match msg with
  | None => skip
  | Some msg =>
      msg ← opt! stf ofp_switch_features 0 ["header"; "type"]
                   (enum_val OFPT_FEATURES_REPLY) msg;
      msg ← opt! stf ofp_switch_features 0 ["header"; "version"] OFP_VERSION msg;
      xid ← opt! ldf ofp_header 0 ["xid"] oh;
      msg ← opt! stf ofp_switch_features 0 ["header"; "xid"] xid msg;
      msg ← opt! stf ofp_switch_features 0 ["header"; "length"]
                   (htons (sizeof ofp_switch_features)) msg;
      c ← gets get_conn;
      msg ← opt! stf ofp_switch_features 0 ["datapath_id"] (htonll (dpid c)) msg;
      msg ← opt! stf ofp_switch_features 0 ["n_buffers"] (htonl 0) msg;
      msg ← opt! stf ofp_switch_features 0 ["n_tables"] 0 msg;
      msg ← opt! stf ofp_switch_features 0 ["capabilities"] (htonl 0) msg;
      msg ← opt! stf ofp_switch_features 0 ["actions"] (htonl 0) msg;
      len ← opt! ldf ofp_switch_features 0 ["header"; "length"] msg;
      controller_send msg (ntohs len)
  end.

Definition handle_set_config (oh : bytes) : M S unit :=
  v ← opt! ldf ofp_switch_config 0 ["miss_send_len"] oh;
  upd_conn (set_miss_send_len (ntohs v)).

Definition handle_barrier_request (oh : bytes) : M S unit :=
  msg ← calloc (sizeof ofp_header);
  match msg with
  | None => skip
  | Some msg =>
      msg ← opt! stf ofp_header 0 ["type"] (enum_val OFPT_BARRIER_REPLY) msg;
      msg ← opt! stf ofp_header 0 ["version"] OFP_VERSION msg;
      xid ← opt! ldf ofp_header 0 ["xid"] oh;
      msg ← opt! stf ofp_header 0 ["xid"] xid msg;
      msg ← opt! stf ofp_header 0 ["length"] (htons (sizeof ofp_header)) msg;
      len ← opt! ldf ofp_header 0 ["length"] msg;
      controller_send msg (ntohs len)
  end.

Definition handle_get_config_request (oh : bytes) : M S unit :=
  msg ← calloc (sizeof ofp_switch_config);
  match msg with
  | None => skip
  | Some msg =>
      msg ← opt! stf ofp_switch_config 0 ["header"; "type"]
                   (enum_val OFPT_GET_CONFIG_REPLY) msg;
      msg ← opt! stf ofp_switch_config 0 ["header"; "version"] OFP_VERSION msg;
      xid ← opt! ldf ofp_header 0 ["xid"] oh;
      msg ← opt! stf ofp_switch_config 0 ["header"; "xid"] xid msg;
      msg ← opt! stf ofp_switch_config 0 ["header"; "length"]
                   (htons (sizeof ofp_switch_config)) msg;
      msg ← opt! stf ofp_switch_config 0 ["flags"] (htons OFPC_FRAG_NORMAL) msg;
      c ← gets get_conn;
      msg ← opt! stf ofp_switch_config 0 ["miss_send_len"]
                   (htons (miss_send_len c)) msg;
      len ← opt! ldf ofp_switch_config 0 ["header"; "length"] msg;
      controller_send msg (ntohs len)
  end.

(** The body of the reply: the code takes the address of the body to be
    [msg + sizeof(struct ofp_header)], four bytes before the end of the reply
    header. *)
Definition handle_stats_request (oh : bytes) : M S unit :=
  type ← opt! ldf ofp_stats_request 0 ["type"] oh;
  match enum_of (T:=ofp_stats_types) type with
  | Some OFPST_DESC =>
      let size := sizeof ofp_stats_reply + sizeof ofp_desc_stats in
      msg ← calloc size;
      match msg with
      | None => skip
      | Some msg =>
          msg ← opt! stf ofp_stats_reply 0 ["header"; "type"]
                       (enum_val OFPT_STATS_REPLY) msg;
          msg ← opt! stf ofp_stats_reply 0 ["header"; "version"] OFP_VERSION msg;
          xid ← opt! ldf ofp_header 0 ["xid"] oh;
          msg ← opt! stf ofp_stats_reply 0 ["header"; "xid"] xid msg;
          msg ← opt! stf ofp_stats_reply 0 ["header"; "length"] (htons size) msg;
          msg ← opt! stf ofp_stats_reply 0 ["type"] (htons (enum_val OFPST_DESC)) msg;
          msg ← opt! stf ofp_stats_reply 0 ["flags"] 0 msg;
          let desc := sizeof ofp_header in
          let zeros n := replicate (Z.to_nat n) 0 in
          msg ← opt! stf_bytes ofp_desc_stats desc ["mfr_desc"] (zeros DESC_STR_LEN) msg;
          msg ← opt! stf_bytes ofp_desc_stats desc ["hw_desc"] (zeros DESC_STR_LEN) msg;
          msg ← opt! stf_bytes ofp_desc_stats desc ["sw_desc"] (zeros DESC_STR_LEN) msg;
          msg ← opt! stf_bytes ofp_desc_stats desc ["dp_desc"] (zeros DESC_STR_LEN) msg;
          msg ← opt! stf_bytes ofp_desc_stats desc ["serial_num"] (zeros SERIAL_NUM_LEN) msg;
          len ← opt! ldf ofp_stats_reply 0 ["header"; "length"] msg;
          controller_send msg (ntohs len)
      end
  | _ => skip
  end.

(** [case NX_VENDOR_ID] of [handle_vendor]. *)
Definition handle_nicira (oh : bytes) : M S unit :=
  subtype ← opt! ldf nicira_header 0 ["subtype"] oh;
  match enum_of (T:=nx_subtype) (ntohl subtype) with
  | Some NXT_ROLE_REQUEST =>
      let size := sizeof nicira_header + sizeof nx_role_request in
      msg ← calloc size;
      match msg with
      | None => skip
      | Some msg =>
          msg ← opt! stf nicira_header 0 ["header"; "version"] OFP_VERSION msg;
          msg ← opt! stf nicira_header 0 ["header"; "type"] (enum_val OFPT_VENDOR) msg;
          xid ← opt! ldf ofp_header 0 ["xid"] oh;
          msg ← opt! stf nicira_header 0 ["header"; "xid"] xid msg;
          msg ← opt! stf nicira_header 0 ["header"; "length"] (htons size) msg;
          msg ← opt! stf nicira_header 0 ["vendor"] (htonl NX_VENDOR_ID) msg;
          msg ← opt! stf nicira_header 0 ["subtype"] (htonl (enum_val NXT_ROLE_REPLY)) msg;
          role ← opt! ldf nx_role_request (sizeof nicira_header) ["role"] oh;
          msg ← opt! stf nx_role_request (sizeof nicira_header) ["role"] role msg;
          len ← opt! ldf nicira_header 0 ["header"; "length"] msg;
          controller_send msg (ntohs len)
      end
  | _ => skip
  end.

Definition handle_echo_request (oh : bytes) : M S unit :=
  oh ← opt! stf ofp_header 0 ["type"] (enum_val OFPT_ECHO_REPLY) oh;
  len ← opt! ldf ofp_header 0 ["length"] oh;
  msg ← calloc (ntohs len);
  match msg with
  | None => skip
  | Some msg =>
      bs ← opt! ldn oh 0 (ntohs len);
      msg ← opt! stn msg 0 bs;
      len ← opt! ldf ofp_header 0 ["length"] msg;
      controller_send msg (ntohs len)
  end.

(** The dispatcher, with the two handlers that differ between the programs. *)
Definition process_controller_msg (handle_flow_mod handle_vendor : bytes → M S unit)
    (oh : bytes) : M S unit :=
  type ← opt! ldf ofp_header 0 ["type"] oh;
  match enum_of (T:=ofp_type) type with
  | Some OFPT_HELLO => handle_hello oh
  | Some OFPT_ECHO_REQUEST => handle_echo_request oh
  | Some OFPT_FEATURES_REQUEST => handle_feature_request oh
  | Some OFPT_SET_CONFIG => handle_set_config oh
  | Some OFPT_BARRIER_REQUEST => handle_barrier_request oh
  | Some OFPT_GET_CONFIG_REQUEST => handle_get_config_request oh
  | Some OFPT_STATS_REQUEST => handle_stats_request oh
  | Some OFPT_FLOW_MOD => handle_flow_mod oh
  | Some OFPT_VENDOR => handle_vendor oh
  | _ => skip
  end.

End Agent.
