(* ===== verification/AgentProps.v ===== *)
(** * Correctness of the OpenFlow agent

    The agent's contract is written as a function from a request to the reply
    it must get ([answer]); the handlers of [Agent] are shown to send exactly
    that message, byte for byte, on hosts of either byte order.  Then the
    connection: error counting, reconnection, reception into the 100-byte
    buffer. *)

From Stdlib Require Import ZArith Lia.
From S2P Require Import Prelude CMem CStruct CMonad OpenFlow CSteps Agent.

(** ** The contract *)

(** An OpenFlow 1.0 message: version, type, length of the whole message,
    transaction id, body. *)
Definition ofp_msg (type : Z) (xid body : bytes) : bytes :=
  [OFP_VERSION; type] ++ be_enc 2 (8 + zlen body) ++ xid ++ body.

(** What OpenFlow 1.0 asks a switch without ports, tables or statistics to
    answer to a request of the given type. *)
Definition answer (c : controller_connection) (type : ofp_type) (body : bytes)
    : option (ofp_type * bytes) :=
  match type with
  | OFPT_HELLO => Some (OFPT_HELLO, [])
  | OFPT_ECHO_REQUEST => Some (OFPT_ECHO_REPLY, body)
  | OFPT_FEATURES_REQUEST =>
      Some (OFPT_FEATURES_REPLY, be_enc 8 (dpid c) ++ replicate 16 0)
  | OFPT_BARRIER_REQUEST => Some (OFPT_BARRIER_REPLY, [])
  | OFPT_GET_CONFIG_REQUEST =>
      Some (OFPT_GET_CONFIG_REPLY, be_enc 2 0 ++ be_enc 2 (miss_send_len c))
  | OFPT_STATS_REQUEST =>
      match body with
      | 0 :: 0 :: _ => Some (OFPT_STATS_REPLY, replicate 1060 0)
      | _ => None
      end
  | _ => None
  end.

(** The values of a connection fit their C types. *)
Record conn_ok (c : controller_connection) : Prop := {
  conn_error : 0 ≤ error c < 10;
  conn_dpid : 0 ≤ dpid c < 2 ^ 64;
  conn_miss : 0 ≤ miss_send_len c < 65536;
  conn_mac : match mac c with Some m => zlen m = 6 ∧ bytes_ok m | None => True end;
}.

(** ** [htonll] *)

Lemma le_enc_app n k v : le_enc (n + k) v = le_enc n v ++ le_enc k (v / 256 ^ Z.of_nat n).
Proof.
  revert v. induction n as [|n IH]; intros v; [by rewrite Z.div_1_r|].
  cbn [le_enc Nat.add app]. f_equal. rewrite IH, pow256_S.
  pose proof (pow256_pos n). by rewrite Z.div_div by lia.
Qed.

Lemma le_dec_app a b : le_dec (a ++ b) = le_dec a + 256 ^ zlen a * le_dec b.
Proof.
  induction a as [|x a IH]; [rewrite Z.mul_1_l; done|].
  unfold zlen in *. cbn [app le_dec length]. rewrite IH, pow256_S. lia.
Qed.

Section Facts.
  Context `{Platform} `{Env} {S : Type} `{HasConn S}.

Lemma htonl_1 : (htonl 1 =? 1) = big_endian.
Proof. unfold htonl, hton. by case_if. Qed.

Lemma htonll_hton v : 0 ≤ v < 2 ^ 64 → htonll v = hton 8 v.
Proof.
  intros Hv. unfold htonll. rewrite htonl_1. unfold htonl, hton. case_if.
  { symmetry. by apply Z.mod_small. }
  change 8%nat with (4 + 4)%nat. rewrite le_enc_app, reverse_app, le_dec_app.
  change (2 ^ 32) with (256 ^ Z.of_nat 4). rewrite le_enc_mod.
  rewrite Z.shiftr_div_pow2 by lia. change (2 ^ 32) with (256 ^ Z.of_nat 4).
  unfold zlen. rewrite length_reverse, length_le_enc.
  rewrite lor_shiftl; [change (2 ^ 32) with (256 ^ Z.of_nat 4); lia|lia|].
  pose proof (be_dec_bound (le_enc 4 (v / 256 ^ Z.of_nat 4)) (le_enc_ok _ _)) as B.
  unfold zlen in B. by rewrite length_le_enc in B.
Qed.

Lemma nat_enc_htonll v : 0 ≤ v < 2 ^ 64 → nat_enc 8 (htonll v) = be_enc 8 v.
Proof. intros. rewrite htonll_hton by done. apply nat_enc_hton. Qed.

(** ** Building replies *)

Lemma get_conn_tick s : get_conn (tick s) = get_conn s.
Proof. apply get_conn_set_sys. Qed.
#[local] Hint Rewrite get_conn_tick : cstep.

(** Sends a whole message. *)
Definition reply (type : ofp_type) (xid body : bytes) : M S unit :=
  controller_send (ofp_msg (enum_val type) xid body) (8 + zlen body).

(** The length field of a message whose bytes are known. *)
Lemma ntohs_dec a b : byte_ok a → byte_ok b → ntohs (nat_dec [a; b]) = 256 * a + b.
Proof.
  intros. unfold ntohs. rewrite hton_nat_dec; [|unfold bytes_ok; by rewrite !Forall_cons|done].
  unfold be_dec. simpl. lia.
Qed.

(** The handlers, on a request whose header is given byte by byte. *)
Section Requests.
  Context (s : S) (v t l0 l1 x0 x1 x2 x3 : Z) (body : bytes).
  Hypothesis Hxid : bytes_ok [x0; x1; x2; x3].
  Hypothesis alloc : ∀ n, env_calloc (clock (get_sys s)) n = true.

Abbreviation xid := [x0; x1; x2; x3].
Abbreviation request := ([v; t; l0; l1; x0; x1; x2; x3] ++ body).

Ltac run_handler :=
  rewrite calloc_step by apply alloc;
  match goal with
  | |- context [replicate (Z.to_nat ?n) 0] =>
      let r := eval vm_compute in (replicate (Z.to_nat n) 0) in
      change (replicate (Z.to_nat n) 0) with r
  end;
  crun;
  try (rewrite ntohs_dec by (split; lia)); try reflexivity.

Lemma handle_hello_reply :
  sizeof_ptr = 8 → handle_hello request s = reply OFPT_HELLO xid [] (tick s).
Proof using All. intros Hp. unfold handle_hello. rewrite Hp. run_handler. Qed.

Lemma handle_barrier_reply :
  handle_barrier_request request s = reply OFPT_BARRIER_REPLY xid [] (tick s).
Proof using All. unfold handle_barrier_request. run_handler. Qed.

Lemma handle_features_reply :
  0 ≤ dpid (get_conn s) < 2 ^ 64 →
  handle_feature_request request s
  = reply OFPT_FEATURES_REPLY xid (be_enc 8 (dpid (get_conn s)) ++ replicate 16 0) (tick s).
Proof using All.
  intros Hd. pose proof (nat_enc_htonll _ Hd) as E.
  pose proof (length_be_enc 8 (dpid (get_conn s))) as L.
  remember (be_enc 8 (dpid (get_conn s))) as d. clear Heqd. explode d.
  unfold handle_feature_request. run_handler.
Qed.

Lemma handle_get_config_reply :
  handle_get_config_request request s
  = reply OFPT_GET_CONFIG_REPLY xid (be_enc 2 0 ++ be_enc 2 (miss_send_len (get_conn s)))
      (tick s).
Proof using All.
  pose proof (nat_enc_hton 2 (miss_send_len (get_conn s))) as E.
  pose proof (length_be_enc 2 (miss_send_len (get_conn s))) as L.
  remember (be_enc 2 (miss_send_len (get_conn s))) as d. clear Heqd. explode d.
  unfold handle_get_config_request. run_handler.
Qed.

(** Only a description request ([type] 0) is answered. *)
Lemma handle_stats_desc_reply :
  handle_stats_request ([v; t; l0; l1; x0; x1; x2; x3; 0; 0] ++ body) s
  = reply OFPT_STATS_REPLY xid (replicate 1060 0) (tick s).
Proof using All.
  unfold handle_stats_request. load.
  replace (nat_dec [0; 0]) with 0 by (unfold nat_dec; by case_if).
  change (enum_of 0) with (Some OFPST_DESC). cbv iota zeta. run_handler.
Qed.

Lemma handle_stats_other b0 b1 :
  byte_ok b0 → byte_ok b1 → b0 ≠ 0 ∨ b1 ≠ 0 →
  handle_stats_request ([v; t; l0; l1; x0; x1; x2; x3; b0; b1] ++ body) s = Ret () s.
Proof using All.
  intros [] [] Hne. unfold handle_stats_request. load.
  destruct (enum_of (nat_dec [b0; b1])) as [[]|] eqn:E; try done.
  apply enum_of_Some in E. cbn in E. unfold nat_dec, be_dec in E.
  case_if; simpl in E; lia.
Qed.

(** A request whose length field counts its bytes. *)
Lemma handle_echo_reply rest :
  v = OFP_VERSION → bytes_ok body →
  be_enc 2 (8 + zlen body) = [l0; l1] → 8 + zlen body < 65536 →
  handle_echo_request (request ++ rest) s = reply OFPT_ECHO_REPLY xid body (tick s).
Proof using All.
  intros -> Hb El Hl. unfold handle_echo_request.
  assert (Hn : ntohs (nat_dec [l0; l1]) = 8 + zlen body).
  { rewrite <- El. unfold ntohs. rewrite hton_nat_dec by (eauto with cmem).
    rewrite be_dec_enc. apply Z.mod_small. pose proof (zlen_nonneg body). lia. }
  rewrite <- app_assoc. store. load. rewrite Hn.
  rewrite calloc_step by apply alloc.
  rewrite (opt_step _ ([OFP_VERSION; 3; l0; l1; x0; x1; x2; x3] ++ body)).
  2: { rewrite app_assoc. apply ldn_app_l. rewrite ldn_ok; unfold zlen in *; rewrite ?length_app; simpl; try lia.
       rewrite take_ge; [done|simpl; lia]. }
  rewrite (opt_step _ ([OFP_VERSION; 3; l0; l1; x0; x1; x2; x3] ++ body)).
  2: { unfold stn. rewrite (proj2 (in_range_iff _ _ _)).
       - rewrite drop_ge; [by rewrite app_nil_r|].
         rewrite length_replicate, length_app. unfold zlen. simpl. lia.
       - rewrite zlen_replicate. unfold zlen in *. rewrite length_app. simpl. lia. }
  load. rewrite Hn. unfold reply, ofp_msg. rewrite El. done.
Qed.

End Requests.

(** ** The dispatcher implements the contract *)

Lemma process_type_step fm hv type l0 l1 xid rest s :
  process_controller_msg fm hv (OFP_VERSION :: enum_val type :: l0 :: l1 :: xid ++ rest) s
  = (let oh := OFP_VERSION :: enum_val type :: l0 :: l1 :: xid ++ rest in
     match type with
     | OFPT_HELLO => handle_hello oh
     | OFPT_ECHO_REQUEST => handle_echo_request oh
     | OFPT_FEATURES_REQUEST => handle_feature_request oh
     | OFPT_SET_CONFIG => handle_set_config oh
     | OFPT_BARRIER_REQUEST => handle_barrier_request oh
     | OFPT_GET_CONFIG_REQUEST => handle_get_config_request oh
     | OFPT_STATS_REQUEST => handle_stats_request oh
     | OFPT_FLOW_MOD => fm oh
     | OFPT_VENDOR => hv oh
     | _ => skip
     end) s.
Proof.
  unfold process_controller_msg.
  change (OFP_VERSION :: enum_val type :: l0 :: l1 :: xid ++ rest)
    with ([OFP_VERSION; enum_val type; l0; l1] ++ xid ++ rest).
  remember (enum_val type) as k eqn:Ek. load.
  rewrite nat_dec_1, Ek, enum_of_val. by destruct type.
Qed.

Lemma process_answer fm hv s type xid body rest t' b' :
  sizeof_ptr = 8 → 0 ≤ dpid (get_conn s) < 2 ^ 64 →
  (∀ n, env_calloc (clock (get_sys s)) n = true) →
  length xid = 4%nat → bytes_ok xid → bytes_ok body → 8 + zlen body < 65536 →
  answer (get_conn s) type body = Some (t', b') →
  process_controller_msg fm hv (ofp_msg (enum_val type) xid body ++ rest) s
  = reply t' xid b' (tick s).
Proof.
  intros Hp Hd Ha Lx Hx Hb Hl HA.
  pose proof (length_be_enc 2 (8 + zlen body)) as Ll.
  unfold ofp_msg. remember (be_enc 2 (8 + zlen body)) as l eqn:El.
  explode l. explode xid. cbn [app].
  etrans; [apply (process_type_step fm hv type z z0 [z1; z2; z3; z4] (body ++ rest))|].
  destruct type; try discriminate HA; cbv zeta; cbn [app].
  - injection HA as <- <-. by apply (handle_hello_reply s _ _ _ _ _ _ _ _ (body ++ rest)).
  - injection HA as <- <-.
    pose proof (handle_echo_reply s OFP_VERSION 2 z z0 z1 z2 z3 z4 body) as E.
    cbn [app] in E. by apply E.
  - injection HA as <- <-.
    by apply (handle_features_reply s _ _ _ _ _ _ _ _ (body ++ rest)).
  - injection HA as <- <-.
    by apply (handle_get_config_reply s _ _ _ _ _ _ _ _ (body ++ rest)).
  - destruct body as [|[] [|[] body]]; try discriminate HA. injection HA as <- <-.
    by apply (handle_stats_desc_reply s _ _ _ _ _ _ _ _ (body ++ rest)).
  - injection HA as <- <-.
    by apply (handle_barrier_reply s _ _ _ _ _ _ _ _ (body ++ rest)).
Qed.

Lemma process_set_config fm hv s xid flags m rest :
  length xid = 4%nat → length flags = 2%nat → 0 ≤ m < 65536 →
  process_controller_msg fm hv
    (ofp_msg (enum_val OFPT_SET_CONFIG) xid (flags ++ be_enc 2 m) ++ rest) s
  = Ret () (set_conn (set_miss_send_len m (get_conn s)) s).
Proof.
  intros Lx Lf Hm. unfold ofp_msg.
  generalize (length_be_enc 2 (8 + zlen (flags ++ be_enc 2 m))).
  generalize (be_enc 2 (8 + zlen (flags ++ be_enc 2 m))). intros l Ll.
  pose proof (length_be_enc 2 m) as Lm. pose proof (be_enc_ok 2 m) as Om.
  pose proof (be_dec_enc 2 m) as Dm. rewrite Z.mod_small in Dm by done.
  explode l. explode xid. explode flags. remember (be_enc 2 m) as e. explode e. cbn [app].
  etrans; [apply (process_type_step fm hv OFPT_SET_CONFIG z z0 [z1; z2; z3; z4])|].
  cbv zeta. cbn [app]. unfold handle_set_config.
  change (?a :: ?b :: ?c :: ?d :: ?e :: ?f :: ?g :: ?h :: ?i :: ?j :: ?k :: ?l :: rest)
    with ([a; b; c; d; e; f; g; h; i; j; k; l] ++ rest).
  load. unfold ntohs. by rewrite (hton_dec 2 _ m).
Qed.

(** ** Sending *)

(** The connection after a [send] that returned [r]. *)
Definition after_send (c : controller_connection) (r : Z) : controller_connection :=
  if r =? -1 then
    if error c + 1 =? 10 then set_sock (-1) (set_error 0 c)
    else set_error (error c + 1) c
  else c.

(** The state after [data] was passed to [send] with result [r]. *)
Definition sent (data : bytes) (r : Z) (s : S) : S :=
  set_conn (after_send (get_conn s) r)
    (set_sys (Sys (Datatypes.S (clock (get_sys s)))
                (EvSend (sock (get_conn s)) data r :: events (get_sys s))) s).

Lemma controller_send_closed msg n s :
  sock (get_conn s) = -1 → controller_send msg n s = Ret () s.
Proof. intros E. unfold controller_send. rewrite gets_step, E. done. Qed.

Lemma controller_send_open msg n s :
  sock (get_conn s) ≠ -1 → 0 ≤ n ≤ zlen msg →
  let data := take (Z.to_nat n) msg in
  controller_send msg n s
  = Ret () (sent data (env_send (clock (get_sys s)) data) s).
Proof.
  intros Hs Hn data. unfold controller_send. rewrite gets_step. guard_true.
  rewrite (opt_step _ data) by (rewrite ldn_ok by lia; done).
  rewrite ask_step. set (r := env_send _ _).
  unfold sent, emit, tick, upd_conn, modify, gets, mbind, M_bind, after_send.
  rewrite get_set_sys, set_set_sys. cbn [clock events].
  case_if; [|by rewrite set_conn_set_sys, set_get_conn].
  rewrite get_set_conn, get_conn_set_sys. cbn [error set_error].
  case_if; [|done]. by rewrite get_set_conn, set_set_conn.
Qed.

Lemma controller_send_oob msg n s :
  sock (get_conn s) ≠ -1 → ¬ 0 ≤ n ≤ zlen msg → controller_send msg n s = Crash.
Proof.
  intros Hs Hn. unfold controller_send. rewrite gets_step. guard_true.
  rewrite (proj2 (ldn_None _ _ _)) by lia. done.
Qed.

(** Whole messages, one after the other. *)
Fixpoint send_all (msgs : list bytes) : M S unit :=
  match msgs with
  | [] => skip
  | m :: msgs => controller_send m (zlen m);; send_all msgs
  end.

(** How many of the next calls of [send] fail. *)
Fixpoint failures (k : nat) (msgs : list bytes) : Z :=
  match msgs with
  | [] => 0
  | m :: msgs => (if env_send k m =? -1 then 1 else 0) + failures (Datatypes.S k) msgs
  end.

Lemma failures_nonneg k msgs : 0 ≤ failures k msgs.
Proof. revert k. induction msgs as [|m msgs IH]; intros k; simpl; [lia|].
  specialize (IH (Datatypes.S k)). case_if; lia. Qed.

Lemma send_whole m s :
  sock (get_conn s) ≠ -1 →
  controller_send m (zlen m) s = Ret () (sent m (env_send (clock (get_sys s)) m) s).
Proof.
  intros Hs. rewrite controller_send_open by (try done; pose proof (zlen_nonneg m); lia).
  unfold zlen. by rewrite Nat2Z.id, take_ge by lia.
Qed.

Lemma get_conn_sent m r s : get_conn (sent m r s) = after_send (get_conn s) r.
Proof. unfold sent. apply get_set_conn. Qed.

Lemma get_sys_sent m r s :
  get_sys (sent m r s) = Sys (Datatypes.S (clock (get_sys s)))
    (EvSend (sock (get_conn s)) m r :: events (get_sys s)).
Proof. unfold sent. by rewrite get_sys_set_conn, get_set_sys. Qed.

(** As long as fewer than ten calls of [send] failed, the connection stays
    open, the counter counts the failures and every message is passed on. *)
Lemma send_all_counts msgs s :
  sock (get_conn s) ≠ -1 → 0 ≤ error (get_conn s) →
  error (get_conn s) + failures (clock (get_sys s)) msgs < 10 →
  ∃ s', send_all msgs s = Ret () s' ∧
    get_conn s' = set_error (error (get_conn s) + failures (clock (get_sys s)) msgs)
                    (get_conn s) ∧
    zlen (events (get_sys s')) = zlen (events (get_sys s)) + zlen msgs ∧
    clock (get_sys s') = (clock (get_sys s) + length msgs)%nat.
Proof.
  revert s. induction msgs as [|m msgs IH]; intros s Hs He Hf.
  { exists s. split_and!; [done| |unfold zlen; simpl; lia|simpl; lia].
    simpl. rewrite Z.add_0_r. by destruct (get_conn s). }
  cbn [send_all failures] in *. pose proof (send_whole m s Hs) as E.
  rewrite (bind_Ret _ _ _ _ _ E).
  set (r := env_send (clock (get_sys s)) m) in *.
  pose proof (failures_nonneg (Datatypes.S (clock (get_sys s))) msgs).
  assert (Hc : after_send (get_conn s) r
    = set_error (error (get_conn s) + (if r =? -1 then 1 else 0)) (get_conn s)).
  { unfold after_send. destruct (r =? -1).
    - by replace (error (get_conn s) + 1 =? 10) with false by lia.
    - rewrite Z.add_0_r. by destruct (get_conn s). }
  destruct (IH (sent m r s)) as (s' & E' & Ec & Ev & Ek).
  - rewrite get_conn_sent, Hc. done.
  - rewrite get_conn_sent, Hc. cbn. case_if; lia.
  - rewrite get_conn_sent, get_sys_sent, Hc. cbn. lia.
  - exists s'. split; [done|]. rewrite get_conn_sent, get_sys_sent, Hc in *.
    cbn [error clock events set_error length] in *. split_and!.
    + rewrite Ec. cbn. by rewrite Z.add_assoc.
    + rewrite Ev, !zlen_cons. lia.
    + lia.
Qed.

Lemma send_all_app l k s : send_all (l ++ k) s = (send_all l;; send_all k) s.
Proof.
  revert s. induction l as [|m l IH]; intros s; [done|].
  cbn [app send_all]. rewrite bind_assoc. apply bind_ext. intros _. apply IH.
Qed.

Lemma send_all_closed l s : sock (get_conn s) = -1 → send_all l s = Ret () s.
Proof.
  intros Hs. induction l as [|m l IH]; [done|].
  cbn [send_all]. by rewrite (bind_Ret _ _ _ _ _ (controller_send_closed _ _ _ Hs)).
Qed.

(** ** The connection stays well formed *)

Definition good (s : S) : Prop := conn_ok (get_conn s).

Lemma good_sys w s : good s → good (set_sys w s).
Proof. unfold good. by rewrite get_conn_set_sys. Qed.
#[local] Hint Resolve good_sys : cstep.

Lemma keeps_upd_conn f :
  (∀ c, conn_ok c → conn_ok (f c)) → keeps good (upd_conn f).
Proof. intros Hf. apply keeps_modify. intros s Hs. unfold good. rewrite get_set_conn. auto. Qed.

Lemma controller_send_good msg n : keeps good (controller_send msg n).
Proof.
  intros s Hs. destruct (decide (sock (get_conn s) = -1)).
  { by rewrite controller_send_closed. }
  destruct (decide (0 ≤ n ≤ zlen msg)); [|by rewrite controller_send_oob].
  rewrite controller_send_open by done. unfold good. rewrite get_conn_sent. unfold after_send.
  destruct Hs. repeat case_if; constructor; cbn; try done; lia.
Qed.
#[local] Hint Resolve controller_send_good : cstep.

Lemma set_config_good oh : keeps good (handle_set_config oh).
Proof.
  apply keeps_bind; [apply keeps_opt|]. intros v. apply keeps_upd_conn.
  intros c []. constructor; try done. apply (hton_bound 2 v).
Qed.
#[local] Hint Resolve set_config_good : cstep.

Lemma process_good fm hv oh :
  (∀ oh, keeps good (fm oh)) → (∀ oh, keeps good (hv oh)) →
  keeps good (process_controller_msg fm hv oh).
Proof.
  intros Hf Hv. unfold process_controller_msg.
  apply keeps_bind; [apply keeps_opt|]. intros t.
  unfold handle_hello, handle_echo_request, handle_feature_request,
    handle_barrier_request, handle_get_config_request, handle_stats_request.
  destruct (enum_of t) as [[]|]; keeps.
Qed.

(** ** Opening the connection *)

Lemma be_dec_snoc l b : be_dec (l ++ [b]) = be_dec l * 256 + b.
Proof. unfold be_dec. rewrite reverse_app. simpl. lia. Qed.

(** The loop over the bytes of the address computes the number they write in
    network order. *)
Lemma dpid_of_be_dec m : bytes_ok m → zlen m ≤ 8 → dpid_of m = be_dec m.
Proof.
  intros Hm Hl. induction m as [|b m IH] using rev_ind; [done|].
  unfold bytes_ok in Hm. rewrite Forall_app, Forall_singleton in Hm. destruct Hm as [Hm Hb].
  rewrite zlen_app in Hl. unfold dpid_of. rewrite foldl_app. fold (dpid_of m).
  cbn [foldl]. rewrite IH by (done || (unfold zlen in *; simpl in Hl; lia)).
  pose proof (be_dec_bound m Hm) as B.
  assert (256 ^ zlen m ≤ 256 ^ 7).
  { apply Z.pow_le_mono_r; [lia|]. unfold zlen in *. simpl in Hl. lia. }
  rewrite Z.lor_comm, be_dec_snoc. rewrite Z.mod_small.
  - by apply (lor_shiftl _ _ 8).
  - rewrite Z.shiftl_mul_pow2 by lia. lia.
Qed.

Lemma upd_conn_mac_good m :
  match m with Some m => zlen m = 6 ∧ bytes_ok m | None => True end →
  keeps good (upd_conn (set_mac m)).
Proof. intros Hm. apply keeps_upd_conn. intros c []. by constructor. Qed.

Lemma upd_conn_dpid_good m :
  zlen m = 6 → bytes_ok m → keeps good (upd_conn (set_dpid (dpid_of m))).
Proof.
  intros Lm Hm. apply keeps_upd_conn. intros c []. constructor; try done.
  cbn. rewrite dpid_of_be_dec by (done || lia).
  pose proof (be_dec_bound m Hm) as B. rewrite Lm in B. lia.
Qed.

Lemma upd_conn_sock_good v : keeps good (upd_conn (set_sock v)).
Proof. apply keeps_upd_conn. intros c []. by constructor. Qed.
#[local] Hint Resolve upd_conn_sock_good : cstep.

(** The permanent address, once it is known. *)
Lemma permaddr_good (k : Z * bytes → M S Z) :
  (∀ k, bytes_ok (snd (env_permaddr k))) →
  (∀ p, bytes_ok (snd p) → keeps good (k p)) →
  keeps good (ask env_permaddr ≫= k).
Proof.
  intros Hp Hk. apply (keeps_bind_ret _ (λ p, bytes_ok (snd p))); [keeps| |done].
  intros s p s' [= <- _]. apply Hp.
Qed.

Lemma load_mac_good data (k : bytes → M S Z) :
  bytes_ok data →
  (∀ m, zlen m = 6 → bytes_ok m → keeps good (k m)) →
  keeps good (opt! ldn data 0 ETH_ALEN ≫= k).
Proof.
  intros Hd Hk.
  apply (keeps_bind_ret _ (λ m, zlen m = 6 ∧ bytes_ok m)); [keeps| |naive_solver].
  intros s m s' E. destruct (ldn data 0 ETH_ALEN) as [l|] eqn:El; [|done].
  injection E as -> _. split; [by apply ldn_Some in El as (?&?&?&?&?)|by eapply ldn_bytes_ok].
Qed.

Lemma conn_open_good :
  (∀ k, bytes_ok (snd (env_permaddr k))) → keeps good conn_open.
Proof.
  intros Hp. unfold conn_open.
  repeat first
    [ apply permaddr_good; [done|intros [? ?] ?]
    | apply load_mac_good; [done|intros ? ? ?]
    | apply upd_conn_mac_good; done
    | apply upd_conn_dpid_good; done
    | keeps_step ].
Qed.
#[local] Hint Resolve conn_open_good : cstep.

Lemma controller_conn_open_good :
  (∀ k, bytes_ok (snd (env_permaddr k))) → keeps good controller_conn_open.
Proof. intros. unfold controller_conn_open. keeps. Qed.

Lemma controller_receive_good process :
  (∀ oh, keeps good (process oh)) → keeps good (controller_receive process).
Proof. intros. unfold controller_receive, recv. keeps. Qed.

(** ** Receiving *)

(** The state after [n] calls that only consume time. *)
Fixpoint ticks (n : nat) (s : S) : S :=
  match n with O => s | Datatypes.S n => tick (ticks n s) end.

Lemma clock_tick s : clock (get_sys (tick s)) = Datatypes.S (clock (get_sys s)).
Proof. unfold tick. by rewrite get_set_sys. Qed.

Lemma clock_ticks n s : clock (get_sys (ticks n s)) = (n + clock (get_sys s))%nat.
Proof. induction n; [done|]. cbn [ticks]. rewrite clock_tick. lia. Qed.

Lemma get_conn_ticks n s : get_conn (ticks n s) = get_conn s.
Proof. induction n; [done|]. cbn [ticks]. rewrite get_conn_tick. done. Qed.

Lemma recv_step {B} buf off n bs buf' (k : bytes * Z → M S B) s :
  env_recv (clock (get_sys s)) n = Some bs → stn buf off bs = Some buf' →
  (recv buf off n ≫= k) s = k (buf', zlen bs) (tick s).
Proof.
  intros E1 E2. unfold recv. rewrite bind_assoc, ask_step, E1. by rewrite E2.
Qed.

(** What the kernel has for a thread that calls [controller_receive]: the
    message [msg] is readable, its header with the first [recv], the rest with
    the second one. *)
Record delivers (s : S) (msg : bytes) : Prop := {
  dl_open : sock (get_conn s) ≠ -1;
  dl_stack : zlen (env_stack (clock (get_sys s)) 100) = 100;
  dl_ready : 0 ≤ fst (env_select (1 + clock (get_sys s))) ∧
             snd (env_select (1 + clock (get_sys s))) = true;
  dl_header : env_recv (2 + clock (get_sys s)) 8 = Some (take 8 msg);
  dl_body : env_recv (3 + clock (get_sys s)) (zlen msg - 8) = Some (drop 8 msg);
}.

Lemma stn_prefix stack bs :
  zlen bs ≤ zlen stack → stn stack 0 bs = Some (bs ++ drop (length bs) stack).
Proof.
  intros. unfold stn. rewrite (proj2 (in_range_iff _ _ _)); [done|].
  pose proof (zlen_nonneg bs). lia.
Qed.

Lemma stn_append (hd bs stack : bytes) :
  zlen hd + zlen bs ≤ zlen stack →
  stn (hd ++ drop (length hd) stack) (zlen hd) bs
  = Some ((hd ++ bs) ++ drop (length (hd ++ bs)) stack).
Proof.
  intros Hl. unfold stn. rewrite (proj2 (in_range_iff _ _ _)).
  2: { rewrite zlen_app. unfold zlen in *. rewrite length_drop. lia. }
  f_equal. unfold zlen. rewrite Nat2Z.id, take_app_length, <- app_assoc.
  do 2 f_equal. rewrite drop_app_ge by lia. rewrite drop_drop, length_app. f_equal. lia.
Qed.

(** The header of a message, in the buffer. *)
Lemma length_of_header type (xid body rest : bytes) :
  length xid = 4%nat → 8 + zlen body < 65536 →
  ∃ l, ldf ofp_header 0 ["length"]
         (([OFP_VERSION; type] ++ be_enc 2 (8 + zlen body) ++ xid) ++ rest) = Some l ∧ ntohs l = 8 + zlen body.
Proof.
  intros Lx Hl. pose proof (be_enc_ok 2 (8 + zlen body)) as Ol.
  pose proof (length_be_enc 2 (8 + zlen body)) as Ll.
  pose proof (be_dec_enc 2 (8 + zlen body)) as Dl.
  rewrite Z.mod_small in Dl by (pose proof (zlen_nonneg body); lia).
  remember (be_enc 2 (8 + zlen body)) as l. explode l. explode xid.
  exists (nat_dec [z; z0]). split; [|unfold ntohs; by apply hton_dec].
  unfold ldf. fields. cbn [mbind option_bind int_width]. unfold ldint.
  rewrite (ldn_app_l [OFP_VERSION; type; z; z0; z1; z2; z3; z4] rest _ _ [z; z0]); [done|].
  eval_mem.
Qed.

(** A message that fits the buffer reaches the dispatcher whole. *)
Lemma receive_dispatch process s type (xid body : bytes) :
  length xid = 4%nat → 8 + zlen body ≤ 100 →
  let msg := ofp_msg type xid body in
  delivers s msg →
  controller_receive process s
  = process (msg ++ drop (length msg) (env_stack (clock (get_sys s)) 100))
      (ticks (if decide (body = []) then 3 else 4) s).
Proof.
  intros Lx Hl msg []. set (stack := env_stack _ _) in *.
  assert (Hd : take 8 msg = [OFP_VERSION; type] ++ be_enc 2 (8 + zlen body) ++ xid ∧
               drop 8 msg = body).
  { unfold msg, ofp_msg. pose proof (length_be_enc 2 (8 + zlen body)) as Ll.
    remember (be_enc 2 (8 + zlen body)) as l. explode l. explode xid. cbn [app take drop]. by rewrite take_0, drop_0. }
  destruct Hd as [Hh Hb]. rewrite Hh in dl_header0. rewrite Hb in dl_body0.
  set (hd := [OFP_VERSION; type] ++ be_enc 2 (8 + zlen body) ++ xid) in *.
  assert (Lh : length hd = 8%nat)
    by (unfold hd; rewrite !length_app, length_be_enc, Lx; done).
  assert (Em : msg = hd ++ body) by (unfold msg, ofp_msg, hd; by rewrite <- !app_assoc).
  assert (Lm : zlen msg = 8 + zlen body) by (rewrite Em; unfold zlen; rewrite length_app; lia).
  unfold controller_receive. rewrite gets_step. guard_true.
  rewrite ask_step. fold stack. rewrite ask_step, clock_tick. cbn [Nat.add] in *.
  destruct (env_select _) as [t ready]. cbn [fst snd] in dl_ready0.
  destruct dl_ready0 as [Ht ->]. guard_false.
  rewrite (recv_step _ _ _ hd (hd ++ drop (length hd) stack)).
  2: { by rewrite !clock_tick. }
  2: { apply stn_prefix. unfold zlen in *. lia. }
  cbv iota. replace (zlen hd <=? 0) with false by (unfold zlen; lia).
  destruct (length_of_header type xid body (drop (length hd) stack)) as (l & El & Ln);
    [done|lia|].
  fold hd in El. rewrite (opt_step _ _ _ _ El), Ln.
  change (sizeof ofp_header) with 8. destruct (decide (body = [])) as [->|Hne].
  { rewrite app_nil_r in Em. rewrite Em. done. }
  assert (0 < zlen body) by (destruct body; [done|unfold zlen; simpl; lia]).
  guard_true. replace (8 + zlen body - 8) with (zlen body) by lia.
  rewrite (recv_step _ _ _ body (msg ++ drop (length msg) stack)).
  - cbv iota. guard_false. done.
  - rewrite !clock_tick, <- dl_body0. f_equal. lia.
  - rewrite Em. replace 8 with (zlen hd) by (unfold zlen; lia).
    apply stn_append. unfold zlen in *. lia.
Qed.

(** A header that announces more than the buffer holds. *)
Record delivers_long (s : S) (type l0 l1 : Z) (xid more : bytes) : Prop := {
  ll_open : sock (get_conn s) ≠ -1;
  ll_stack : zlen (env_stack (clock (get_sys s)) 100) = 100;
  ll_ready : 0 ≤ fst (env_select (1 + clock (get_sys s))) ∧
             snd (env_select (1 + clock (get_sys s))) = true;
  ll_xid : length xid = 4%nat;
  ll_bytes : byte_ok l0 ∧ byte_ok l1;
  ll_length : 100 < 256 * l0 + l1;
  ll_header : env_recv (2 + clock (get_sys s)) 8 = Some ([OFP_VERSION; type; l0; l1] ++ xid);
  ll_more : env_recv (3 + clock (get_sys s)) (256 * l0 + l1 - 8) = Some more;
  ll_overflow : 92 < zlen more;
}.

Lemma get_sys_tick_events s : events (get_sys (tick s)) = events (get_sys s).
Proof. unfold tick. by rewrite get_set_sys. Qed.

Lemma events_ticks n s : events (get_sys (ticks n s)) = events (get_sys s).
Proof. induction n; [done|]. cbn [ticks]. by rewrite get_sys_tick_events. Qed.

Lemma length_ofp_msg t xid body :
  length xid = 4%nat → zlen (ofp_msg t xid body) = 8 + zlen body.
Proof.
  intros Lx. unfold ofp_msg, zlen. rewrite !length_app, length_be_enc, Lx. simpl. lia.
Qed.

(** A reply on an open connection is one event. *)
Lemma reply_sent t xid body s :
  sock (get_conn s) ≠ -1 → length xid = 4%nat →
  let msg := ofp_msg (enum_val t) xid body in
  reply t xid body s = Ret () (sent msg (env_send (clock (get_sys s)) msg) s).
Proof.
  intros Hs Lx msg. unfold reply. fold msg. rewrite <- (length_ofp_msg (enum_val t) xid) by done.
  by apply send_whole.
Qed.

End Facts.

(** ** Properties *)

Section Properties.
  Context `{Platform} `{Env} {S : Type} `{HasConn S}.

(** C6. Requests get the reply the protocol asks for: when the kernel delivers
    a well-formed HELLO, ECHO, FEATURES, BARRIER, GET_CONFIG or description
    STATS request of at most 100 bytes, the agent sends on its connection
    exactly the bytes of the OpenFlow 1.0 reply, with the transaction id of the
    request, and nothing else; on hosts of either byte order with 8-byte
    pointers. *)
Theorem agent_answers fm hv (s : S) type xid body t' b' :
  sizeof_ptr = 8 → conn_ok (get_conn s) → (∀ k n, env_calloc k n = true) →
  length xid = 4%nat → bytes_ok xid → bytes_ok body → 8 + zlen body ≤ 100 →
  delivers s (ofp_msg (enum_val type) xid body) →
  answer (get_conn s) type body = Some (t', b') →
  ∃ r s',
    controller_receive (process_controller_msg fm hv) s = Ret () s' ∧
    events (get_sys s') =
      EvSend (sock (get_conn s)) (ofp_msg (enum_val t') xid b') r :: events (get_sys s).
Proof.
  intros Hp [] Ha Lx Hx Hb Hl Hd HA. rewrite (receive_dispatch _ s (enum_val type) xid body) by done.
  set (s1 := ticks _ s). rewrite (process_answer fm hv s1 type xid body _ t' b'); try done.
  - rewrite reply_sent; [|rewrite get_conn_tick; unfold s1; rewrite get_conn_ticks; by destruct Hd|done].
    do 2 eexists. split; [done|]. rewrite get_sys_sent, get_conn_tick. cbn [events].
    rewrite get_sys_tick_events. unfold s1. by rewrite get_conn_ticks, events_ticks.
  - unfold s1. by rewrite get_conn_ticks.
  - lia.
  - unfold s1. by rewrite get_conn_ticks.
Qed.

(** C29. Configuration round trip: after SET_CONFIG with a given
    [miss_send_len], a GET_CONFIG request is answered with that value, in
    network order, and fragment flags 0. *)
Theorem set_get_config fm hv (s : S) xid1 flags m rest1 xid2 body2 rest2 :
  sizeof_ptr = 8 → conn_ok (get_conn s) → (∀ k n, env_calloc k n = true) →
  length xid1 = 4%nat → length flags = 2%nat → 0 ≤ m < 65536 →
  length xid2 = 4%nat → bytes_ok xid2 → bytes_ok body2 → 8 + zlen body2 < 65536 →
  let set := ofp_msg (enum_val OFPT_SET_CONFIG) xid1 (flags ++ be_enc 2 m) in
  let get := ofp_msg (enum_val OFPT_GET_CONFIG_REQUEST) xid2 body2 in
  ∃ s1,
    process_controller_msg fm hv (set ++ rest1) s = Ret () s1 ∧
    process_controller_msg fm hv (get ++ rest2) s1
    = reply OFPT_GET_CONFIG_REPLY xid2 (be_enc 2 0 ++ be_enc 2 m) (tick s1).
Proof.
  intros Hp [] Ha L1 Lf Hm L2 Hx2 Hb2 Hl2 set get. eexists. split.
  { by apply process_set_config. }
  apply process_answer; try done; by rewrite get_set_conn.
Qed.

(** C28. Only the tenth failed [send] closes the connection: messages before it
    are all passed to the socket, the failures need not be consecutive, the
    tenth resets the counter and marks the connection closed, and what is sent
    later is dropped without touching the socket. *)
Theorem ten_failures_close (s : S) msgs m later :
  sock (get_conn s) ≠ -1 → error (get_conn s) = 0 →
  failures (clock (get_sys s)) msgs = 9 →
  env_send (clock (get_sys s) + length msgs) m = -1 →
  ∃ s',
    send_all (msgs ++ m :: later) s = Ret () s' ∧
    get_conn s' = set_sock (-1) (set_error 0 (get_conn s)) ∧
    zlen (events (get_sys s')) = zlen (events (get_sys s)) + zlen msgs + 1.
Proof.
  intros Hs He Hf Hm.
  destruct (send_all_counts msgs s) as (s1 & E1 & Ec & Ev & Ek); [done|lia|lia|].
  rewrite send_all_app, (bind_Ret _ _ _ _ _ E1). cbn [send_all].
  assert (Hs1 : sock (get_conn s1) ≠ -1) by (rewrite Ec; done).
  rewrite (bind_Ret _ _ _ _ _ (send_whole m s1 Hs1)), Ek, Hm.
  assert (Hc : get_conn (sent m (-1) s1) = set_sock (-1) (set_error 0 (get_conn s))).
  { rewrite get_conn_sent, Ec, He, Hf. done. }
  eexists. split; [apply send_all_closed; by rewrite Hc|]. split; [done|].
  rewrite get_sys_sent. cbn [events]. rewrite zlen_cons, Ev. lia.
Qed.


(** C34. Reception overruns its buffer: when a header announces more than 100
    bytes and the socket has more than 92 bytes to follow, the second [recv]
    writes past the end of [str], whatever the dispatcher would do. *)
Theorem receive_overflow process (s : S) type l0 l1 xid more :
  delivers_long s type l0 l1 xid more → controller_receive process s = Crash.
Proof.
  intros []. set (stack := env_stack _ _) in *. explode xid. cbn [app] in *.
  unfold controller_receive. rewrite gets_step. guard_true.
  rewrite ask_step. fold stack. rewrite ask_step, clock_tick. cbn [Nat.add] in *.
  destruct (env_select _) as [t ready]. cbn [fst snd] in ll_ready0.
  destruct ll_ready0 as [Ht ->]. guard_false.
  erewrite recv_step; [|by rewrite !clock_tick|apply stn_prefix; unfold zlen in *; simpl; lia].
  cbv iota. replace (zlen _ <=? 0) with false by done. load.
  destruct ll_bytes0. rewrite ntohs_dec by done. change (sizeof ofp_header) with 8.
  guard_true. unfold recv. rewrite bind_assoc, ask_step, !clock_tick, ll_more0.
  unfold stn. destruct (in_range _ _ _) eqn:E; [|done]. exfalso.
  apply in_range_iff in E. unfold zlen in *. rewrite length_app, length_drop in E.
  simpl in E. lia.
Qed.

End Properties.

(** ** Examples *)

(** A program state with nothing but the connection. *)
Record agent_state := AgentState { as_conn : controller_connection; as_sys : sys }.

#[global, refine] Instance agent_state_sys : HasSys agent_state := {|
  get_sys := as_sys; set_sys w s := AgentState (as_conn s) w |}.
Proof. all: by intros; repeat match goal with s : agent_state |- _ => destruct s end. Defined.

#[global, refine] Instance agent_state_conn : HasConn agent_state := {|
  get_conn := as_conn; set_conn c s := AgentState c (as_sys s) |}.
Proof. all: by intros; repeat match goal with s : agent_state |- _ => destruct s end. Defined.

Definition agent_start : agent_state :=
  AgentState (Conn 3 0 0x020000000001 128 None) (Sys 0 []).

(** The controller sends one message; every [send] succeeds. *)
Definition env_message (msg : bytes) : Env :=
  env_with (λ k n, if (k =? 2)%nat then Some (take 8 msg) else Some (drop 8 msg))
           (λ _ data, zlen data).

Definition no_handler (oh : bytes) : M agent_state unit := skip.

Lemma agent_answers_witness :
  ∃ r s',
    @controller_receive lp64_le
        (env_message (ofp_msg 2 [0; 0; 0; 7] [1; 2; 3])) agent_state _ _
        (@process_controller_msg lp64_le
           (env_message (ofp_msg 2 [0; 0; 0; 7] [1; 2; 3])) agent_state _ _
           no_handler no_handler) agent_start
    = Ret () s' ∧
    events (get_sys s') = [EvSend 3 (ofp_msg 3 [0; 0; 0; 7] [1; 2; 3]) r].
Proof.
  refine (@agent_answers lp64_le (env_message (ofp_msg 2 [0; 0; 0; 7] [1; 2; 3]))
           agent_state _ _ no_handler no_handler agent_start OFPT_ECHO_REQUEST
           [0; 0; 0; 7] [1; 2; 3] OFPT_ECHO_REPLY [1; 2; 3] _ _ _ _ _ _ _ _ _); concrete.
Defined.

Lemma set_get_config_witness :
  let E := env_message [] in
  ∃ s1,
    @process_controller_msg lp64_be E agent_state _ _ no_handler no_handler
      (ofp_msg 9 [0; 0; 0; 1] ([0; 0] ++ be_enc 2 1500) ++ []) agent_start = Ret () s1 ∧
    @process_controller_msg lp64_be E agent_state _ _ no_handler no_handler
      (ofp_msg 7 [0; 0; 0; 2] [] ++ [9; 9]) s1
    = @reply E agent_state _ _ OFPT_GET_CONFIG_REPLY [0; 0; 0; 2]
        (be_enc 2 0 ++ be_enc 2 1500) (tick s1).
Proof.
  intros E.
  apply (@set_get_config lp64_be E agent_state _ _ no_handler no_handler agent_start
           [0; 0; 0; 1] [0; 0] 1500 [] [0; 0; 0; 2] [] [9; 9]); concrete.
Defined.

(** Nine failures spread over twelve messages, then a tenth. *)
Lemma ten_failures_close_witness :
  let E := env_with (λ _ _, None)
             (λ k m, if (3 <=? k)%nat && (k <=? 12)%nat then -1 else zlen m) in
  ∃ s',
    @send_all E agent_state _ _ (replicate 12 [1; 2] ++ [7] :: [[8]; [9]]) agent_start
    = Ret () s' ∧
    as_conn s' = set_sock (-1) (set_error 0 (as_conn agent_start)) ∧
    zlen (events (as_sys s')) = 13.
Proof.
  intros E.
  refine (@ten_failures_close E agent_state _ _ agent_start
           (replicate 12 [1; 2]) [7] [[8]; [9]] _ _ _ _); done.
Defined.


(** A 300-byte message, delivered in full. *)
Lemma receive_overflow_witness :
  let E := env_with (λ k n, if (k =? 2)%nat then Some [1; 2; 1; 44; 0; 0; 0; 9]
                            else Some (replicate 292 65)) (λ _ m, zlen m) in
  @controller_receive lp64_le E agent_state _ _
    (@process_controller_msg lp64_le E agent_state _ _ no_handler no_handler)
    agent_start = Crash.
Proof.
  intros E.
  apply (@receive_overflow lp64_le E agent_state _ _ _ agent_start 2 1 44 [0; 0; 0; 9]
           (replicate 292 65)).
  concrete.
Defined.
