(* ===== verification/NatTable.v ===== *)
(** * Tables shared by threads: locked search, locked insertion, and the
    finite map they implement

    Both programs keep their translation entries in a [Chain] table of
    [MAXENTRY] buckets indexed by the last byte of an address, and access it
    inside [pthread_mutex_lock]/[unlock].  The operations are written once,
    for any entry type and any program state that has such a table and a
    mutex.  When every entry is found under its own key, the table is a finite
    map from keys to values: searching is lookup, linking a new entry or
    writing to an entry found is insertion. *)

From Stdlib Require Import ZArith Lia.
From S2P Require Import Prelude CMem CMonad Chain.

Definition MAXENTRY : Z := 0xff.

(** [HASH_FUNC(addr)], the last byte of the address. *)
Definition HASH_FUNC (addr : bytes) : option Z := ld8 addr 3.

(** [memcmp(a, b, 4) == 0] on two arrays of four bytes. *)
Definition memcmp4 (a b : bytes) : bool := bool_decide (take 4 a = take 4 b).

(** A program state with a table of [A] entries and its mutex.  Locking a
    mutex that is held blocks. *)
Class HasTab (S A : Type) := {
  get_tab : S → htab A;
  set_tab : htab A → S → S;
  get_mutex : S → bool;
  set_mutex : bool → S → S;
  get_set_tab : ∀ t s, get_tab (set_tab t s) = t;
  get_tab_mutex : ∀ b s, get_tab (set_mutex b s) = get_tab s;
  get_mutex_tab : ∀ t s, get_mutex (set_tab t s) = get_mutex s;
  get_set_mutex : ∀ b s, get_mutex (set_mutex b s) = b;
  set_get_mutex : ∀ s, set_mutex (get_mutex s) s = s;
  set_set_mutex : ∀ b b' s, set_mutex b (set_mutex b' s) = set_mutex b s;
  set_mutex_tab : ∀ b t s, set_mutex b (set_tab t s) = set_tab t (set_mutex b s);
}.

Section Locked.
  Context {S A : Type} `{HasTab S A}.

Definition lock : M S unit := λ s,
  if get_mutex s then Hang else Ret () (set_mutex true s).
Definition unlock : M S unit := modify (set_mutex false).

(** [lock; n = table[HASH_FUNC(addr)]; while (n != NULL && !stop(n)) n =
    n->next; unlock; return n]. *)
Definition locked_search (addr : bytes) (stop : A → bool) : M S (option loc) :=
  lock;;
  i ← opt! HASH_FUNC addr;
  p ← tab_head get_tab i;
  n ← tab_search get_tab stop p;
  unlock;;
  mret n.

(** [lock; n->next = table[HASH_FUNC(addr)]; table[HASH_FUNC(addr)] = n;
    unlock], for a new node [n] that holds [a]. *)
Definition locked_push (addr : bytes) (a : A) : M S loc :=
  lock;;
  i ← opt! HASH_FUNC addr;
  l ← tab_push get_tab set_tab i a;
  unlock;;
  mret l.

(** A read and a write through a pointer, outside the lock. *)
Definition node_read (p : option loc) : M S A :=
  l ← opt! p; tab_deref get_tab l.
Definition node_write (p : option loc) (f : A → A) : M S unit :=
  tab_assign get_tab set_tab p f.

End Locked.

(** ** The finite map *)

Section Map.
  Context {A K V : Type} `{Countable K} (key : A → K) (val : A → V) (hash : K → Z).
  Implicit Types (t : htab A) (bs : list (list (loc * A))) (m : gmap K V).

Definition bindings (ns : list (loc * A)) : list (K * V) :=
  (λ '(_, a), (key a, val a)) <$> ns.

Definition map_of bs : gmap K V := list_to_map (bindings (concat bs)).

(** [t] is the map [m], held by the buckets [bs]. *)
Record map_rep t bs m : Prop := {
  mr_rep : tab_rep (λ a, hash (key a)) t bs;
  mr_nodup : NoDup (bindings (concat bs)).*1;
  mr_map : m = map_of bs;
}.

Lemma fst_bindings ns : (bindings ns).*1 = (λ x, key x.2) <$> ns.
Proof. unfold bindings. rewrite <- list_fmap_compose. by apply list_fmap_ext; intros ? []. Qed.

Lemma bindings_elem ns l a : (l, a) ∈ ns → (key a, val a) ∈ bindings ns.
Proof. intros Hin. apply list_elem_of_fmap. by exists (l, a). Qed.

(** Entries with the key [k] are in the bucket of [k]. *)
Lemma find_elem t bs l a :
  tab_rep (λ a, hash (key a)) t bs → (l, a) ∈ concat bs → (l, a) ∈ bucket bs (hash (key a)).
Proof.
  intros [_ _ RH] Hin. apply list_elem_of_In, in_concat in Hin as (ns & Hns & Hin).
  apply list_elem_of_In, list_elem_of_lookup in Hns as [i Hi].
  apply list_elem_of_In in Hin. pose proof (RH i ns Hi) as HF.
  rewrite Forall_forall in HF. specialize (HF _ Hin). simpl in HF.
  unfold bucket. rewrite HF. guard_true. by rewrite Nat2Z.id, Hi.
Qed.

(** Searching the bucket of [k] for an entry with that key is map lookup. *)
Lemma map_find t bs m stop k :
  map_rep t bs m → (∀ a, stop a = true ↔ key a = k) →
  (val ∘ snd) <$> find_bucket stop bs (hash k) = m !! k ∧
  (∀ l a, find_bucket stop bs (hash k) = Some (l, a) → key a = k ∧ (l, a) ∈ concat bs).
Proof.
  intros [R ND ->] Hstop. unfold find_bucket.
  destruct (find_in stop (bucket bs (hash k))) as [[l a]|] eqn:E.
  - apply find_in_Some in E as [Hin Hs]. apply Hstop in Hs. subst k.
    apply bucket_elem in Hin. split; [|intros ? ? [= -> ->]; done]. simpl.
    symmetry. apply elem_of_list_to_map; [done|]. by eapply bindings_elem.
  - split; [|done]. simpl. symmetry. apply not_elem_of_list_to_map_1.
    rewrite fst_bindings. intros ([l a] & Hk & Hin)%list_elem_of_fmap. simpl in Hk.
    apply find_in_None in E. rewrite Forall_forall in E. subst k.
    specialize (E (l, a)). simpl in E.
    rewrite (proj2 (Hstop a)) in E by done.
    discriminate E. by eapply find_elem.
Qed.

(** Linking an entry with a new key is insertion. *)
Lemma map_push_in t bs m a :
  map_rep t bs m → 0 ≤ hash (key a) < zlen (tab_heads t) → m !! key a = None →
  ∃ l t' bs', push t (hash (key a)) a = Some (l, t') ∧
    zlen (tab_heads t') = zlen (tab_heads t) ∧
    concat bs' ≡ₚ (l, a) :: concat bs ∧
    map_rep t' bs' (<[key a := val a]> m).
Proof.
  intros [R ND ->] Hi Hm.
  destruct (rep_push (λ a, hash (key a)) t bs (hash (key a)) a R Hi eq_refl)
    as (l & t' & E & Hl & Hlen & R').
  assert (Hlt : (Z.to_nat (hash (key a)) < length bs)%nat).
  { rewrite (rep_length _ _ _ R). unfold zlen in Hi. lia. }
  destruct (lookup_lt_is_Some_2 bs _ Hlt) as [ns Hns].
  assert (Hb : bucket bs (hash (key a)) = ns).
  { unfold bucket. replace (0 <=? hash (key a)) with true by lia. by rewrite Hns. }
  rewrite Hb in R'. pose proof (concat_insert_perm bs _ ns (l, a) Hns) as Hp.
  assert (Hpb : bindings (concat (<[Z.to_nat (hash (key a)) := (l, a) :: ns]> bs))
                ≡ₚ (key a, val a) :: bindings (concat bs)).
  { unfold bindings. by rewrite Hp. }
  assert (ND' : NoDup ((key a, val a) :: bindings (concat bs)).*1).
  { simpl. constructor; [|done]. by apply not_elem_of_list_to_map_2. }
  eexists l, t', _. split_and!; [exact E|done|exact Hp|constructor; [exact R'| |]].
  - by rewrite Hpb.
  - unfold map_of. symmetry. etrans; [by apply list_to_map_proper; [rewrite Hpb|]|done].
Qed.

Lemma map_push t bs m a :
  map_rep t bs m → 0 ≤ hash (key a) < zlen (tab_heads t) → m !! key a = None →
  ∃ l t' bs', push t (hash (key a)) a = Some (l, t') ∧
    zlen (tab_heads t') = zlen (tab_heads t) ∧
    (l, a) ∈ concat bs' ∧
    map_rep t' bs' (<[key a := val a]> m).
Proof.
  intros R Hi Hm. destruct (map_push_in t bs m a R Hi Hm) as (l & t' & bs' & E & Hl & Hp & R').
  exists l, t', bs'. split_and!; try done. rewrite Hp. left.
Qed.

Lemma bindings_assign l f ns :
  (∀ a, key (f a) = key a) → (bindings (assign_in l f ns)).*1 = (bindings ns).*1.
Proof.
  intros Hf. rewrite !fst_bindings. unfold assign_in. rewrite <- list_fmap_compose.
  apply list_fmap_ext. intros ? [x a] _. simpl. case_decide; [by rewrite Hf|done].
Qed.

Lemma concat_assign l f bs :
  concat (assign_in l f <$> bs) = assign_in l f (concat bs).
Proof.
  induction bs as [|ns bs IH]; [done|]. rewrite fmap_cons. cbn [concat].
  rewrite IH. unfold assign_in. by rewrite fmap_app.
Qed.

(** Writing to the entry of a key, the key kept, is insertion. *)
Lemma map_assign_in t bs m l a f :
  map_rep t bs m → (l, a) ∈ concat bs → (∀ a, key (f a) = key a) →
  ∃ t', assign t l f = Some t' ∧ tab_heads t' = tab_heads t ∧
    (l, f a) ∈ concat (assign_in l f <$> bs) ∧
    map_rep t' (assign_in l f <$> bs) (<[key a := val (f a)]> m).
Proof.
  intros [R ND ->] Hin Hf.
  destruct (rep_assign (λ a, hash (key a)) t bs l a f R Hin) as (t' & E & Hh & R').
  { intros b. by rewrite Hf. }
  exists t'. rewrite concat_assign.
  assert (Hin' : (l, f a) ∈ assign_in l f (concat bs)).
  { apply list_elem_of_fmap. exists (l, a). by rewrite decide_True. }
  split_and!; [done|done|done|constructor; [done| |]].
  - by rewrite concat_assign, bindings_assign.
  - apply map_eq. intros k. unfold map_of. rewrite concat_assign.
    destruct (decide (k = key a)) as [->|Hk].
    { rewrite lookup_insert_eq. symmetry. apply elem_of_list_to_map.
      - by rewrite bindings_assign.
      - rewrite <- (Hf a). by eapply bindings_elem. }
    rewrite lookup_insert_ne by done. clear -Hk Hf Hin ND R.
    assert (Hnd : NoDup (concat bs).*1) by apply (rep_nodup _ _ _ R).
    clear R. induction (concat bs) as [|[x b] ns IH]; [done|].
    simpl in *. apply NoDup_cons in Hnd as [Hx Hnd]. apply NoDup_cons in ND as [_ ND].
    apply elem_of_cons in Hin as [[= -> ->]|Hin].
    + rewrite decide_True by done. rewrite Hf, !lookup_insert_ne by done.
      by rewrite assign_in_not_in by done.
    + destruct (decide (x = l)) as [->|].
      { exfalso. apply Hx. apply list_elem_of_fmap. by exists (l, a). }
      destruct (decide (k = key b)) as [->|].
      * by rewrite !lookup_insert_eq.
      * rewrite !lookup_insert_ne by done. by apply IH.
Qed.

Lemma map_assign t bs m l a f :
  map_rep t bs m → (l, a) ∈ concat bs → (∀ a, key (f a) = key a) →
  ∃ t' bs', assign t l f = Some t' ∧ tab_heads t' = tab_heads t ∧
    (l, f a) ∈ concat bs' ∧
    map_rep t' bs' (<[key a := val (f a)]> m).
Proof.
  intros R Hin Hf. destruct (map_assign_in t bs m l a f R Hin Hf) as (t' & E).
  by exists t', (assign_in l f <$> bs).
Qed.

(** A table that has lost one entry. *)
Lemma map_remove t t' bs bs' m l a :
  map_rep t bs m → concat bs ≡ₚ (l, a) :: concat bs' →
  tab_rep (λ a, hash (key a)) t' bs' → map_rep t' bs' (delete (key a) m).
Proof.
  intros [_ ND ->] Hp R'.
  assert (Hb : bindings (concat bs) ≡ₚ (key a, val a) :: bindings (concat bs'))
    by (unfold bindings; by rewrite Hp).
  pose proof ND as ND'. rewrite Hb in ND'. simpl in ND'. apply NoDup_cons in ND' as [Hk ND'].
  constructor; [done|done|]. unfold map_of.
  rewrite (list_to_map_proper _ _ ND Hb). simpl.
  rewrite delete_insert_id; [done|]. by apply not_elem_of_list_to_map_1.
Qed.

Lemma map_entry t bs m l a : map_rep t bs m → (l, a) ∈ concat bs → m !! key a = Some (val a).
Proof.
  intros [_ ND ->] Hin. apply elem_of_list_to_map; [done|]. by eapply bindings_elem.
Qed.

Lemma map_rep_empty n : map_rep (empty_tab n) (replicate n []) ∅.
Proof.
  assert (E : concat (replicate n ([] : list (loc * A))) = []) by (induction n; [done|by simpl]).
  constructor.
  - apply rep_empty.
  - rewrite E. constructor.
  - unfold map_of. by rewrite E.
Qed.

End Map.

(** ** The locked operations on the map *)

Section LockedFacts.
  Context {S A : Type} `{HasTab S A}.

Lemma lock_free s : get_mutex s = false → lock s = Ret () (set_mutex true s).
Proof. unfold lock. by intros ->. Qed.

Lemma unlock_free s : get_mutex s = false → set_mutex false (set_mutex true s) = s.
Proof. intros E. rewrite set_set_mutex, <- E. apply set_get_mutex. Qed.

(** A search leaves the state as it was, the mutex released. *)
Lemma locked_search_find {B} hash (k : option loc → M S B) s bs addr stop i :
  get_mutex s = false → HASH_FUNC addr = Some i →
  0 ≤ i < zlen (tab_heads (get_tab s)) → tab_rep hash (get_tab s) bs →
  (locked_search addr stop ≫= k) s = k (fst <$> find_bucket stop bs i) s.
Proof.
  intros Hm Hi Hb R. apply bind_Ret. unfold locked_search.
  cbind (lock_free s Hm). rewrite Hi. cbn [lift_opt]. rewrite mret_bind.
  destruct (rep_head hash _ _ _ R Hb) as (p & Hp & _).
  unfold tab_head, tab_search, mbind, M_bind. rewrite !get_tab_mutex, Hp. cbn.
  rewrite get_tab_mutex, (rep_walk hash _ _ _ _ _ R Hp). unfold unlock, modify.
  cbn. by rewrite unlock_free.
Qed.

(** An index outside the array: the read happens with the mutex held. *)
Lemma locked_search_oob s addr stop i :
  get_mutex s = false → HASH_FUNC addr = Some i →
  ¬ 0 ≤ i < zlen (tab_heads (get_tab s)) → locked_search addr stop s = Crash.
Proof.
  intros Hm Hi Hb. unfold locked_search. cbind (lock_free s Hm).
  rewrite Hi. cbn [lift_opt]. rewrite mret_bind.
  unfold tab_head, mbind, M_bind. by rewrite get_tab_mutex, rep_head_oob.
Qed.

Lemma locked_push_ok {B} (k : loc → M S B) s addr a i l t' :
  get_mutex s = false → HASH_FUNC addr = Some i → push (get_tab s) i a = Some (l, t') →
  (locked_push addr a ≫= k) s = k l (set_tab t' s).
Proof.
  intros Hm Hi Hp. apply bind_Ret. unfold locked_push.
  cbind (lock_free s Hm). rewrite Hi. cbn [lift_opt]. rewrite mret_bind.
  unfold tab_push, mbind, M_bind. rewrite get_tab_mutex, Hp. unfold unlock, modify. cbn.
  by rewrite set_mutex_tab, unlock_free.
Qed.

Lemma node_write_ok {B} (k : unit → M S B) s l f t' :
  assign (get_tab s) l f = Some t' →
  (node_write (Some l) f ≫= k) s = k () (set_tab t' s).
Proof. intros E. apply bind_Ret. unfold node_write, tab_assign. simpl. by rewrite E. Qed.

Lemma node_read_ok {B} (k : A → M S B) s l a :
  deref (get_tab s) l = Some a → (node_read (Some l) ≫= k) s = k a s.
Proof.
  intros E. apply bind_Ret. unfold node_read. cbn [lift_opt]. rewrite mret_bind.
  unfold tab_deref. by rewrite E.
Qed.

Lemma tab_deref_ok {B} (k : A → M S B) s l a :
  deref (get_tab s) l = Some a → (tab_deref get_tab l ≫= k) s = k a s.
Proof. intros E. apply bind_Ret. unfold tab_deref. by rewrite E. Qed.

Lemma tab_head_ok {B} (k : option loc → M S B) s i p :
  head_at (get_tab s) i = Some p → (tab_head get_tab i ≫= k) s = k p s.
Proof. intros E. apply bind_Ret. unfold tab_head. by rewrite E. Qed.

Lemma tab_next_ok {B} (k : option loc → M S B) s l p :
  next_of (get_tab s) l = Some p → (tab_next get_tab l ≫= k) s = k p s.
Proof. intros E. apply bind_Ret. unfold tab_next. by rewrite E. Qed.

Lemma tab_change_ok {B} (k : unit → M S B) s f t :
  f (get_tab s) = Some t → (tab_change get_tab set_tab f ≫= k) s = k () (set_tab t s).
Proof. intros E. apply bind_Ret. unfold tab_change. by rewrite E. Qed.

Lemma node_write_null {B} f (k : unit → M S B) s : (node_write None f ≫= k) s = Crash.
Proof. done. Qed.

End LockedFacts.
