(* ===== verification/Packet.v ===== *)
(** * Rewritten packets: the checksum repair at the end of [handle_pkt]

    [gatewayNAT.c] (253-300) and [controller_interface.c] (560-614 in
    [handle_pkt], 355-415 in [reinject_pkt]) end the translation of a packet
    with the same code: recompute the IP header checksum, build the
    pseudo-header, recompute the UDP or TCP checksum.  [fix_checksums] is that
    code.  [data] is the memory from the first byte of the packet to the end of
    the buffer that holds it, so the word that pads a packet of odd length is
    read where the C code reads it. *)

From Stdlib Require Import ZArith Lia.
From S2P Require Import Prelude CMem CStruct OpenFlow Checksum.

(** ** Packets of a queue *)

Definition NF_ACCEPT : Z := 1.

(** What libnetfilter_queue knows of a queued packet: the packet id in network
    order if there is a header, the length of the payload (negative if there is
    none) and the memory from the first byte of the payload on. *)
Record nfq_data := NfqData {
  nfq_packet_id : option Z;
  nfq_ret : Z;
  nfq_payload : bytes;
}.

Section Code.
  Context `{Platform}.

(** [ipH->ver_ihl & 0x0f]. *)
Definition ihl (data : bytes) : option Z :=
  v ← ldf ip_header_t 0 ["ver_ihl"] data; Some (Z.land v 0x0f).

(** The local [struct pseudo_header pH], every byte of which is written. *)
Definition pseudo (data : bytes) : option bytes :=
  v ← ihl data;
  src ← ldf_bytes ip_header_t 0 ["src_addr"] 4 data;
  dst ← ldf_bytes ip_header_t 0 ["dst_addr"] 4 data;
  pH ← stf_bytes pseudo_header 0 ["src_addr"] src (replicate 12 0);
  pH ← stf_bytes pseudo_header 0 ["dst_addr"] dst pH;
  pH ← stf pseudo_header 0 ["zeroes"] 0 pH;
  protocol ← ldf ip_header_t 0 ["protocol"] data;
  pH ← stf pseudo_header 0 ["protocol"] protocol pH;
  total_length ← ldf ip_header_t 0 ["total_length"] data;
  stf pseudo_header 0 ["length"] (htons (ntohs total_length - v * 4)) pH.

(** [for(num = 0; num < 6; num++) headerSum += ntohs(pseudoH[num])]. *)
Definition pseudo_sum (pH : bytes) : option Z := checksum_loop 6 pH 0 0 (-1) 0.

(** [if(ntohs(x) != checksum) x = htons(checksum)] for the field [x]. *)
Definition store_checksum (T : ctype) (base : Z) (field : string) (checksum : Z)
    (data : bytes) : option bytes :=
  w ← ldf T base [field] data;
  if negb (ntohs w =? checksum) then stf T base [field] (htons checksum) data
  else Some data.

Definition fix_transport (T : ctype) (field : string) (skip headerSum : Z)
    (data : bytes) : option bytes :=
  v ← ihl data;
  total_length ← ldf ip_header_t 0 ["total_length"] data;
  let odd := Z.rem (ntohs total_length) 2 in
  checksum ← calculateCheckSum data (v * 4)
               (Z.quot (ntohs total_length - v * 4) 2) headerSum skip odd;
  store_checksum T (v * 4) field checksum data.

Definition fix_checksums (data : bytes) : option bytes :=
  v ← ihl data;
  checksum ← calculateCheckSum data 0 (v * 2) 0 5 0;
  data ← store_checksum ip_header_t 0 "checksum" checksum data;
  pH ← pseudo data;
  headerSum ← pseudo_sum pH;
  protocol ← ldf ip_header_t 0 ["protocol"] data;
  if protocol =? 17 then fix_transport udphdr "uh_sum" 3 headerSum data
  else if protocol =? 6 then fix_transport tcphdr "th_sum" 8 headerSum data
  else Some data.

End Code.

(** ** Packets *)

(** Header length, total length, protocol and the transport checksum's place,
    as the bytes say. *)
Definition hlen (d : bytes) : Z := 4 * (default 0 (ld8 d 0) mod 16).
Definition tlen (d : bytes) : Z := default 0 (be_at 2 d 2).
Definition proto (d : bytes) : Z := default 0 (ld8 d 9).
Definition sum_word (d : bytes) : option Z :=
  if proto d =? 17 then Some 3 else if proto d =? 6 then Some 8 else None.

(** A packet as the IP layer hands it to a queue: a header of at least 20 bytes
    inside the total length, the buffer at least one byte longer than the
    packet, a UDP or TCP packet with its whole transport header. *)
Record ip_ok (d : bytes) : Prop := {
  ip_bytes : bytes_ok d;
  ip_hlen : 20 ≤ hlen d;
  ip_tlen : hlen d + 4 ≤ tlen d;
  ip_room : tlen d + 1 ≤ zlen d;
  ip_sum : ∀ w, sum_word d = Some w → hlen d + 2 * w + 2 ≤ tlen d;
}.

(** The words of the pseudo-header. *)
Definition pseudo_words (d : bytes) : list Z :=
  words 4 d 12 0 (-1) ++ [proto d; tlen d - hlen d].

(** The words a receiver adds up, and the words the sender adds up, without
    the checksum. *)
Definition ip_words (skip : Z) (d : bytes) : list Z :=
  checksum_words [] d 0 (hlen d / 2) skip 0.
Definition transport_words (skip : Z) (d : bytes) : list Z :=
  checksum_words (pseudo_words d) d (hlen d) ((tlen d - hlen d) / 2) skip (tlen d mod 2).

(** What the code computes for a list of words. *)
Definition code_sum (ws : list Z) : Z :=
  rfc1071 ws + (if second_carry (zsum ws) then 1 else 0).

(** A receiver accepts the checksums. *)
Definition valid_ip (d : bytes) : Prop := oc_sum (ip_words (-1) d) = 65535.
Definition valid_transport (d : bytes) : Prop :=
  sum_word d ≠ None → oc_sum (transport_words (-1) d) = 65535.

(** ** Words and frames *)

(** [m'] has the bytes of [m] in the range. *)
Definition same_on (lo hi : Z) (m m' : bytes) : Prop :=
  zlen m' = zlen m ∧ ∀ i, lo ≤ Z.of_nat i < hi → m' !! i = m !! i.

Lemma same_on_stn m off bs m' lo hi :
  stn m off bs = Some m' → hi ≤ off ∨ off + zlen bs ≤ lo → same_on lo hi m m'.
Proof.
  intros E D. split; [by eapply stn_zlen|]. intros i Hi.
  rewrite (stn_lookup _ _ _ _ _ E), decide_False by lia. done.
Qed.

Lemma same_on_trans lo hi a b c : same_on lo hi a b → same_on lo hi b c → same_on lo hi a c.
Proof. intros [L1 H1] [L2 H2]. split; [lia|]. intros i Hi. rewrite H2 by done. by apply H1. Qed.

Lemma same_on_sub lo hi lo' hi' m m' :
  same_on lo hi m m' → lo ≤ lo' → hi' ≤ hi → same_on lo' hi' m m'.
Proof. intros [L E] ? ?. split; [done|]. intros i ?. apply E. lia. Qed.

Lemma same_on_ldn lo hi m m' off n :
  same_on lo hi m m' → lo ≤ off → off + n ≤ hi → ldn m' off n = ldn m off n.
Proof. intros [L E] ? ?. apply ldn_ext; [done|]. intros i Hi. apply E. lia. Qed.

Lemma same_on_be_at lo hi m m' n off :
  same_on lo hi m m' → lo ≤ off → off + Z.of_nat n ≤ hi → be_at n m' off = be_at n m off.
Proof. intros E ? ?. unfold be_at. by rewrite (same_on_ldn lo hi m m'). Qed.

Lemma same_on_ld8 lo hi m m' off :
  same_on lo hi m m' → lo ≤ off < hi → ld8 m' off = ld8 m off.
Proof. intros [_ E] ?. unfold ld8. case_if; [|done]. zbool. apply E. lia. Qed.

Lemma words_same lo hi m m' k base num skip :
  same_on lo hi m m' → lo ≤ base + 2 * num → base + 2 * (num + Z.of_nat k) ≤ hi →
  words k m' base num skip = words k m base num skip.
Proof.
  intros E. revert num. induction k as [|k IH]; intros num ? ?; [done|].
  cbn [words]. rewrite IH by lia. f_equal. case_if; [done|].
  by rewrite (same_on_be_at lo hi m m') by (done || lia).
Qed.

Lemma words_noskip m k base num skip :
  0 ≤ num → skip < num → words k m base num skip = words k m base num (-1).
Proof.
  revert num. induction k as [|k IH]; intros num ? ?; [done|]. cbn [words].
  replace (num =? skip) with false by lia. replace (num =? -1) with false by lia.
  by rewrite IH by lia.
Qed.

(** The word left out, put back. *)
Lemma words_skip m k base num skip :
  num ≤ skip < num + Z.of_nat k → 0 ≤ num →
  zsum (words k m base num (-1))
  = zsum (words k m base num skip) + default 0 (be_at 2 m (base + 2 * skip)).
Proof.
  revert num. induction k as [|k IH]; intros num Hs Hn; [lia|].
  cbn [words]. rewrite !zsum_app. replace (num =? -1) with false by lia.
  destruct (decide (num = skip)) as [->|].
  - rewrite Z.eqb_refl, zsum_single, (words_noskip m k base (skip + 1) skip) by lia.
    cbn [zsum foldr]. unfold zsum. lia.
  - replace (num =? skip) with false by lia. rewrite IH by lia. lia.
Qed.

(** Words that do not contain the one left out. *)
Lemma words_same_skip m m' k base num skip :
  zlen m' = zlen m →
  (∀ i, base + 2 * num ≤ Z.of_nat i < base + 2 * (num + Z.of_nat k) →
        ¬ base + 2 * skip ≤ Z.of_nat i < base + 2 * skip + 2 → m' !! i = m !! i) →
  words k m' base num skip = words k m base num skip.
Proof.
  intros L. revert num. induction k as [|k IH]; intros num E; [done|].
  cbn [words]. rewrite IH by (intros i ? ?; apply E; lia). f_equal.
  case_if; [done|]. zbool. unfold be_at. rewrite (ldn_ext m m'); [done|done|].
  intros i Hi. apply E; lia.
Qed.

(** One's complement sums depend on the plain sum only. *)
Lemma oc_sum_zsum a b :
  Forall word_ok a → Forall word_ok b → zsum a = zsum b → oc_sum a = oc_sum b.
Proof.
  intros Ha Hb E.
  destruct (oc_sum_spec a Ha) as (k & ? & Ea & [? ?] & Za).
  destruct (oc_sum_spec b Hb) as (j & ? & Eb & [? ?] & Zb).
  pose proof (zsum_bound a Ha). assert (k = j ∨ k ≠ j) as [->|] by lia; [lia|].
  destruct (decide (oc_sum a = 0)) as [z|]; [specialize (Za z)|];
  destruct (decide (oc_sum b = 0)) as [z'|]; try specialize (Zb z'); lia.
Qed.

(** ** What the code computes *)

Lemma code_sum_word ws : Forall word_ok ws → zsum ws ≤ INT_MAX → word_ok (code_sum ws).
Proof.
  intros Hw Hm. unfold code_sum. rewrite <- (fold_once (zsum ws) ws) by done.
  rewrite land_ffff. apply Z.mod_pos_bound. lia.
Qed.

Lemma checksum_words_bound seed m base last skip odd :
  bytes_ok m → Forall word_ok seed → 0 ≤ last → zlen seed + last + 1 ≤ 32768 →
  zsum (checksum_words seed m base last skip odd) ≤ INT_MAX.
Proof.
  intros Hm Hs Hl Hn.
  pose proof (zsum_bound _ (checksum_words_ok seed m base last skip odd Hm Hs)).
  pose proof (words_length (Z.to_nat last) m base 0 skip).
  assert (zlen (checksum_words seed m base last skip odd) ≤ 32768).
  { unfold checksum_words. rewrite !zlen_app. case_if; unfold zlen in *; simpl; lia. }
  unfold INT_MAX. lia.
Qed.

Lemma ldn_ldn m off n l i k :
  ldn m off n = Some l → 0 ≤ i → 0 ≤ k → i + k ≤ n → ldn m (off + i) k = ldn l i k.
Proof.
  intros E ? ? ?. pose proof (ldn_Some _ _ _ _ E) as (? & ? & ? & Ll & El).
  rewrite !ldn_ok by lia. f_equal. apply list_eq. intros j.
  destruct (decide (Z.of_nat j < k)).
  - rewrite !lookup_take_lt, !lookup_drop by lia.
    rewrite (ldn_lookup _ _ _ _ _ E), decide_True by lia. f_equal. lia.
  - by rewrite !lookup_take_ge by lia.
Qed.

Lemma words_ldn m off n l k num skip :
  ldn m off n = Some l → 0 ≤ num → 2 * (num + Z.of_nat k) ≤ n →
  words k m off num skip = words k l 0 num skip.
Proof.
  intros E. revert num. induction k as [|k IH]; intros num ? ?; [done|].
  cbn [words]. rewrite IH by lia. f_equal. case_if; [done|].
  unfold be_at. by rewrite (ldn_ldn m off n l) by (done || lia).
Qed.

Section Facts.
  Context `{Platform}.

Lemma calculateCheckSum_code m base last seed skip odd :
  bytes_ok m → Forall word_ok seed → 0 ≤ base → 0 ≤ last →
  base + 2 * (last + (if odd =? 0 then 0 else 1)) ≤ zlen m →
  zlen seed + last + 1 ≤ 32768 →
  calculateCheckSum m base last (zsum seed) skip odd
  = Some (code_sum (checksum_words seed m base last skip odd)).
Proof.
  intros. unfold code_sum. apply calculateCheckSum_value; try done.
  by apply checksum_words_bound.
Qed.

Lemma ldint_1 m off : 0 ≤ off → ldint 1 m off = ld8 m off.
Proof.
  intros Ho. unfold ldint, ld8. guard_true.
  destruct (ldn m off (Z.of_nat 1)) as [l|] eqn:E.
  - pose proof (ldn_lookup _ _ _ _ 0 E) as L. rewrite decide_True, Nat.add_0_r in L by lia.
    rewrite <- L. apply ldn_Some in E as (_ & _ & _ & Hl & _). unfold zlen in Hl.
    destruct l as [|b [|]]; try (simpl in Hl; lia).
    simpl. f_equal. unfold nat_dec, be_dec. case_if; simpl; lia.
  - apply ldn_None in E. simpl. symmetry. apply lookup_ge_None_2. unfold zlen in E. lia.
Qed.

Lemma hlen_bound d : 0 ≤ hlen d ≤ 60.
Proof. unfold hlen. pose proof (Z.mod_pos_bound (default 0 (ld8 d 0)) 16). lia. Qed.

Lemma hlen_4 d : hlen d / 4 * 4 = hlen d ∧ hlen d / 4 * 2 = hlen d / 2.
Proof.
  unfold hlen. set (x := _ mod 16).
  replace (4 * x / 4) with x by (rewrite Z.mul_comm, Z.div_mul; lia).
  split; [lia|]. replace (4 * x) with (x * 2 * 2) by lia. by rewrite Z.div_mul.
Qed.

Lemma ihl_ok d : ip_ok d → ihl d = Some (hlen d / 4).
Proof.
  intros []. unfold ihl. open_fields. rewrite ldint_1 by lia.
  destruct (ld8_ok d (0 + 0)) as [b Eb]; [lia|].
  rewrite Eb. cbn [mbind option_bind]. f_equal. rewrite land_0f. unfold hlen.
  change (0 + 0) with 0 in Eb. rewrite Eb. simpl default.
  by rewrite Z.mul_comm, Z.div_mul.
Qed.

Lemma total_length_ok d :
  ip_ok d → ∃ w, ldf ip_header_t 0 ["total_length"] d = Some w ∧ ntohs w = tlen d.
Proof.
  intros []. open_fields.
  destruct (be_at_word d (0 + 2)) as (w & E1 & E2 & _); [done|lia|lia|].
  exists w. split; [done|]. unfold tlen. change (0 + 2) with 2 in E2. by rewrite E2.
Qed.

Lemma protocol_ok d : ip_ok d → ldf ip_header_t 0 ["protocol"] d = Some (proto d).
Proof.
  intros []. open_fields. rewrite ldint_1 by lia.
  destruct (ld8_ok d (0 + 9)) as [b Eb]; [lia|]. rewrite Eb.
  unfold proto. change (0 + 9) with 9 in Eb. by rewrite Eb.
Qed.

Lemma proto_byte d : ip_ok d → byte_ok (proto d).
Proof.
  intros []. unfold proto. destruct (ld8 d 9) eqn:E; simpl; [by eapply ld8_byte|done].
Qed.

Lemma tlen_word d : ip_ok d → word_ok (tlen d).
Proof.
  intros []. unfold tlen. destruct (be_at 2 d 2) eqn:E; simpl; [|unfold word_ok; lia].
  by apply (be_at_bound 2) in E.
Qed.

Lemma pseudo_words_ok d : ip_ok d → Forall word_ok (pseudo_words d).
Proof.
  intros Hd. pose proof (proto_byte d Hd) as []. pose proof (tlen_word d Hd) as [].
  destruct Hd. pose proof (hlen_bound d).
  unfold pseudo_words. apply Forall_app. split; [by apply words_ok|].
  repeat constructor; lia.
Qed.

Lemma store_checksum_ok T base field o c d :
  field_at T [field] = Some (o, U16) → bytes_ok d → word_ok c →
  0 ≤ base + o → base + o + 2 ≤ zlen d →
  store_checksum T base field c d = stn d (base + o) (be_enc 2 c).
Proof.
  intros Ef Hd Hc Ho Hl. unfold store_checksum.
  rewrite (ldf_eq _ _ _ _ _ _ 2 Ef eq_refl), (stf_eq _ _ _ _ _ _ _ 2 Ef eq_refl).
  destruct (be_at_word d (base + o) Hd Ho Hl) as (w & E & _). rewrite E.
  by apply store_if_differs.
Qed.

(** The pseudo-header the code lays out in memory. *)
Lemma pseudo_ok d :
  ip_ok d →
  ∃ pH, pseudo d = Some pH ∧ bytes_ok pH ∧ zlen pH = 12 ∧
        words 6 pH 0 0 (-1) = pseudo_words d.
Proof.
  intros Hd. destruct (total_length_ok d Hd) as (tl & Etl & Ntl).
  pose proof (proto_byte d Hd) as Hp. pose proof (tlen_word d Hd) as [].
  unfold pseudo. rewrite (ihl_ok d Hd), (protocol_ok d Hd), Etl.
  cbn [mbind option_bind]. rewrite Ntl, (proj1 (hlen_4 d)). pose proof Hd as []. pose proof (hlen_bound d).
  destruct (ldn d 12 8) as [l|] eqn:El; [|apply ldn_None in El; lia].
  pose proof (ldn_bytes_ok _ _ _ _ ip_bytes0 El) as Ol.
  pose proof (ldn_Some _ _ _ _ El) as (_ & _ & _ & Ll & _).
  do 8 (destruct l as [|? l]; [by (unfold zlen in Ll; simpl in Ll; lia)|]).
  destruct l; [|unfold zlen in Ll; simpl in Ll; lia].
  unfold ldf_bytes, stf_bytes, stf. fields. cbn [mbind option_bind int_width].
  change (0 + 12) with (12 + 0). change (0 + 16) with (12 + 4).
  rewrite !(ldn_ldn d 12 8 _ _ _ El) by lia.
  unfold pseudo_words. rewrite (words_ldn d 12 8 _ 4 0 (-1) El) by lia.
  unfold stint, htons. rewrite nat_enc_hton.
  assert (E1 : nat_enc 1 0 = [0]) by (unfold nat_enc; by case_if).
  assert (E2 : nat_enc 1 (proto d) = [proto d]).
  { unfold nat_enc, be_enc. simpl. rewrite Z.mod_small by done. by case_if. }
  rewrite E1, E2. pose proof (be_dec_enc 2 (tlen d - hlen d)) as Dl.
  rewrite Z.mod_small in Dl by lia. pose proof (be_enc_ok 2 (tlen d - hlen d)) as Oe.
  pose proof (length_be_enc 2 (tlen d - hlen d)) as Le.
  set (p := proto d) in *. clearbody p. remember (tlen d - hlen d) as L.
  remember (be_enc 2 L) as e.
  destruct e as [|e0 [|e1 [|]]]; [discriminate Le|discriminate Le| |discriminate Le].
  eexists. split; [vm_compute; reflexivity|]. split; [|split; [done|]].
  - unfold bytes_ok in *. rewrite !Forall_cons in *. destruct_and!. split_and!; done.
  - etrans; [by apply (eq_refl [be_dec [z; z0]; be_dec [z1; z2]; be_dec [z3; z4];
                                 be_dec [z5; z6]; be_dec [0; p]; be_dec [e0; e1]])|].
    rewrite Dl. by replace (be_dec [0; p]) with p by (unfold be_dec; simpl; lia).
Qed.

(** Stores behind byte 10 that keep the buffer's bytes keep the shape of the
    packet. *)
Lemma shape_same d d' :
  same_on 0 10 d d' → hlen d' = hlen d ∧ tlen d' = tlen d ∧ proto d' = proto d.
Proof.
  intros E. unfold hlen, tlen, proto.
  rewrite (same_on_ld8 0 10 d d' 0 E), (same_on_ld8 0 10 d d' 9 E) by lia.
  by rewrite (same_on_be_at 0 10 d d' 2 2 E) by lia.
Qed.

Lemma ip_ok_same d d' : ip_ok d → bytes_ok d' → same_on 0 10 d d' → ip_ok d'.
Proof.
  intros [] Hb E. destruct (shape_same d d' E) as (Eh & Et & Ep). destruct E as [L _].
  constructor; rewrite ?Eh, ?Et, ?L; try done.
  intros w. unfold sum_word. rewrite Ep. apply ip_sum0.
Qed.

Lemma half_len d : ip_ok d → 0 ≤ (tlen d - hlen d) / 2 ∧
  hlen d + 2 * ((tlen d - hlen d) / 2 + (if tlen d mod 2 =? 0 then 0 else 1)) ≤ zlen d ∧
  6 + (tlen d - hlen d) / 2 + 1 ≤ 32768.
Proof.
  intros Hd. pose proof (tlen_word d Hd) as []. destruct Hd.
  pose proof (Z.div_mod (tlen d - hlen d) 2). pose proof (Z.mod_pos_bound (tlen d - hlen d) 2).
  pose proof (Z.div_pos (tlen d - hlen d) 2).
  assert (Hp : (tlen d - hlen d) mod 2 = tlen d mod 2).
  { destruct (hlen_4 d) as [E _]. rewrite <- E at 1.
    replace (tlen d - hlen d / 4 * 4) with (tlen d + (- (hlen d / 4 * 2)) * 2) by lia.
    apply Z.mod_add. lia. }
  pose proof (Z.mod_pos_bound (tlen d) 2). case_if; zbool; lia.
Qed.

Lemma transport_sum_word w d : ip_ok d → word_ok (code_sum (transport_words w d)).
Proof.
  intros Hd. pose proof (half_len d Hd) as (? & ? & ?). pose proof (pseudo_words_ok d Hd).
  destruct Hd. apply code_sum_word.
  - by apply checksum_words_ok.
  - by apply checksum_words_bound.
Qed.

Lemma ip_sum_word d : ip_ok d → word_ok (code_sum (ip_words 5 d)).
Proof.
  intros []. pose proof (hlen_bound d). apply code_sum_word.
  - by apply checksum_words_ok.
  - apply checksum_words_bound; try done; [apply Z.div_pos; lia|].
    unfold zlen. simpl. assert (hlen d / 2 ≤ 30) by (apply Z.div_le_upper_bound; lia). lia.
Qed.

(** The transport part of the repair, on a packet whose IP checksum is done. *)
Lemma fix_transport_ok T field w d :
  ip_ok d → sum_word d = Some w → field_at T [field] = Some (2 * w, U16) → 0 ≤ w →
  fix_transport T field w (zsum (pseudo_words d)) d
  = stn d (hlen d + 2 * w) (be_enc 2 (code_sum (transport_words w d))).
Proof.
  intros Hd Hw Hf H0. destruct (total_length_ok d Hd) as (tl & Etl & Ntl).
  pose proof (half_len d Hd) as (? & ? & ?). pose proof (tlen_word d Hd) as [].
  pose proof (pseudo_words_ok d Hd). unfold fix_transport.
  rewrite (ihl_ok d Hd), Etl. cbn [mbind option_bind].
  rewrite Ntl, (proj1 (hlen_4 d)). pose proof (hlen_bound d).
  pose proof (transport_sum_word w d Hd). pose proof Hd as [].
  specialize (ip_sum0 w Hw).
  rewrite Z.rem_mod_nonneg, Z.quot_div_nonneg by lia.
  rewrite calculateCheckSum_code by (done || lia).
  apply store_checksum_ok; try done; lia.
Qed.

(** The words that do not contain the IP checksum do not change when it is
    stored. *)
Lemma transport_words_store d c d1 w :
  ip_ok d → stn d 10 (be_enc 2 c) = Some d1 →
  pseudo_words d1 = pseudo_words d ∧ transport_words w d1 = transport_words w d.
Proof.
  intros Hd E. pose proof (half_len d Hd) as (? & Hl & ?). destruct Hd.
  destruct (shape_same d d1) as (Eh & Et & Ep).
  { eapply same_on_stn; [done|]. rewrite zlen_be_enc. lia. }
  assert (S : same_on 12 (zlen d) d d1).
  { eapply same_on_stn; [done|]. rewrite zlen_be_enc. lia. }
  assert (P : pseudo_words d1 = pseudo_words d).
  { unfold pseudo_words. by rewrite Eh, Et, Ep, (words_same 12 (zlen d) d d1) by (done || lia). }
  split; [done|]. unfold transport_words. rewrite P, Eh, Et. unfold checksum_words.
  rewrite (words_same 12 (zlen d) d d1) by (done || (case_if; lia)).
  do 2 f_equal. destruct (tlen d mod 2 =? 0); [done|]. f_equal. unfold odd_word.
  by rewrite (same_on_ld8 12 (zlen d) d d1) by (done || lia).
Qed.

Lemma pseudo_sum_ok d :
  ip_ok d → (pH ← pseudo d; pseudo_sum pH) = Some (zsum (pseudo_words d)).
Proof.
  intros Hd. destruct (pseudo_ok d Hd) as (pH & -> & OpH & LpH & WpH).
  cbn [mbind option_bind]. unfold pseudo_sum.
  rewrite checksum_loop_words by (done || lia || (rewrite WpH;
    pose proof (zsum_bound _ (pseudo_words_ok d Hd)) as B; change (zlen _) with 6 in B;
    unfold INT_MAX; lia)).
  by rewrite WpH.
Qed.

(** The repair up to the choice of the transport protocol. *)
Lemma fix_checksums_head d d1 :
  ip_ok d → ip_ok d1 → proto d1 = proto d →
  stn d 10 (be_enc 2 (code_sum (ip_words 5 d))) = Some d1 →
  fix_checksums d =
    if proto d =? 17 then fix_transport udphdr "uh_sum" 3 (zsum (pseudo_words d1)) d1
    else if proto d =? 6 then fix_transport tcphdr "th_sum" 8 (zsum (pseudo_words d1)) d1
    else Some d1.
Proof.
  intros Hd Hd1 Ep E1. pose proof (ip_sum_word d Hd). pose proof (hlen_bound d).
  unfold fix_checksums. rewrite (ihl_ok d Hd). cbn [mbind option_bind].
  rewrite (proj2 (hlen_4 d)). pose proof Hd as [].
  pose proof (calculateCheckSum_code d 0 (hlen d / 2) [] 5 0) as E. change (zsum []) with 0 in E.
  assert (hlen d / 2 ≤ 30) by (apply Z.div_le_upper_bound; lia).
  assert (hlen d / 2 * 2 = hlen d) by (destruct (hlen_4 d); lia).
  rewrite E by first [done|lia|simpl; lia|unfold zlen; simpl; lia].
  cbn [mbind option_bind]. fold (ip_words 5 d).
  rewrite (store_checksum_ok ip_header_t 0 "checksum" 10); try done; try lia.
  change (0 + 10) with 10. rewrite E1. cbn [mbind option_bind].
  pose proof (pseudo_sum_ok d1 Hd1) as Es.
  destruct (pseudo d1) as [pH|]; [|done]. cbn [mbind option_bind] in *. rewrite Es.
  cbn [mbind option_bind]. by rewrite (protocol_ok d1 Hd1), Ep.
Qed.

(** What the repair does: it stores the IP checksum, then, for UDP and TCP, the
    transport checksum. *)
Lemma fix_checksums_spec d :
  ip_ok d →
  ∃ d1 d2, stn d 10 (be_enc 2 (code_sum (ip_words 5 d))) = Some d1 ∧
    fix_checksums d = Some d2 ∧
    match sum_word d with
    | Some w => stn d1 (hlen d + 2 * w) (be_enc 2 (code_sum (transport_words w d))) = Some d2
    | None => d2 = d1
    end.
Proof.
  intros Hd. pose proof (hlen_bound d). pose proof Hd as [].
  destruct (stn_ok d 10 (be_enc 2 (code_sum (ip_words 5 d)))) as [d1 E1];
    [lia|rewrite zlen_be_enc; lia|].
  assert (S1 : same_on 0 10 d d1) by (eapply same_on_stn; [done|lia]).
  assert (Hd1 : ip_ok d1)
    by (apply (ip_ok_same d); [done|by apply (stn_bytes_ok _ _ _ _ ip_bytes0 (be_enc_ok _ _) E1)|done]).
  destruct (shape_same d d1 S1) as (Eh & Et & Ep).
  assert (Ew : sum_word d1 = sum_word d) by (unfold sum_word; by rewrite Ep).
  pose proof (fix_checksums_head d d1 Hd Hd1 Ep E1) as Ef.
  assert (T : ∀ w T field, sum_word d = Some w → field_at T [field] = Some (2 * w, U16) → 0 ≤ w →
    ∃ d2, fix_transport T field w (zsum (pseudo_words d1)) d1 = Some d2 ∧
      stn d1 (hlen d + 2 * w) (be_enc 2 (code_sum (transport_words w d))) = Some d2).
  { intros w T field Hw Hf Hw0. rewrite fix_transport_ok by (done || congruence).
    rewrite Eh, (proj2 (transport_words_store d _ d1 w Hd E1)).
    destruct (stn_ok d1 (hlen d + 2 * w) (be_enc 2 (code_sum (transport_words w d)))) as [d2 ->];
      [lia| |eauto]. specialize (ip_sum0 w Hw). rewrite zlen_be_enc. destruct S1. lia. }
  exists d1. rewrite Ef. unfold sum_word in *.
  destruct (proto d =? 17); [|destruct (proto d =? 6)].
  - destruct (T 3 udphdr "uh_sum" eq_refl eq_refl) as (d2 & -> & ?); [lia|]. eauto.
  - destruct (T 8 tcphdr "th_sum" eq_refl eq_refl) as (d2 & -> & ?); [lia|]. eauto.
  - eauto.
Qed.

(** ** Receivers accept the repaired packet *)

(** The bytes the repair may change. *)
Definition checksum_byte (d : bytes) (i : Z) : Prop :=
  10 ≤ i < 12 ∨ ∃ w, sum_word d = Some w ∧ hlen d + 2 * w ≤ i < hlen d + 2 * w + 2.

Lemma sum_word_cases d w : sum_word d = Some w → w = 3 ∨ w = 8.
Proof. unfold sum_word. repeat case_if; naive_solver. Qed.

Lemma fix_checksums_frame d d2 :
  ip_ok d → fix_checksums d = Some d2 →
  zlen d2 = zlen d ∧ bytes_ok d2 ∧
  (∀ i, ¬ checksum_byte d (Z.of_nat i) → d2 !! i = d !! i) ∧
  be_at 2 d2 10 = Some (code_sum (ip_words 5 d)) ∧
  (∀ w, sum_word d = Some w →
        be_at 2 d2 (hlen d + 2 * w) = Some (code_sum (transport_words w d))).
Proof.
  intros Hd E. destruct (fix_checksums_spec d Hd) as (d1 & d2' & E1 & E2 & E3).
  rewrite E in E2. injection E2 as <-. pose proof (ip_sum_word d Hd) as Hc.
  pose proof (be_at_stn_same _ _ _ _ _ E1) as B1. rewrite Z.mod_small in B1 by done.
  pose proof (stn_bytes_ok _ _ _ _ (ip_bytes _ Hd) (be_enc_ok _ _) E1) as O1.
  destruct (sum_word d) as [w|] eqn:Ew.
  - pose proof (be_at_stn_same _ _ _ _ _ E3) as B2.
    rewrite Z.mod_small in B2 by by apply transport_sum_word.
    pose proof Hd as []. pose proof (sum_word_cases d w Ew). split_and!.
    + by rewrite (stn_zlen _ _ _ _ E3), (stn_zlen _ _ _ _ E1).
    + by apply (stn_bytes_ok _ _ _ _ O1 (be_enc_ok _ _) E3).
    + intros i Hi. unfold checksum_byte in Hi.
      rewrite (stn_lookup _ _ _ _ _ E3), (stn_lookup _ _ _ _ _ E1), !zlen_be_enc.
      rewrite !decide_False; [done|intros ?; apply Hi; by left|]. intros ?. apply Hi. right. eauto.
    + rewrite <- B1. apply (same_on_be_at 0 20); [|lia|lia].
      eapply same_on_stn; [done|lia].
    + by intros ? [= <-].
  - subst d2. split_and!; [by eapply stn_zlen|done| |done|done].
    intros i Hi. unfold checksum_byte in Hi.
    rewrite (stn_lookup _ _ _ _ _ E1), zlen_be_enc, decide_False; [done|]. intros ?. apply Hi. by left.
Qed.

(** Filling in the word left out adds it to the sum. *)
Lemma checksum_words_filled seed m m' base last skip odd c :
  zlen m' = zlen m → 0 ≤ base → 0 ≤ skip < last →
  (∀ i, base ≤ Z.of_nat i < base + 2 * last + 1 →
        ¬ base + 2 * skip ≤ Z.of_nat i < base + 2 * skip + 2 → m' !! i = m !! i) →
  be_at 2 m' (base + 2 * skip) = Some c →
  zsum (checksum_words seed m' base last (-1) odd)
  = zsum (checksum_words seed m base last skip odd) + c.
Proof.
  intros L Hb Hs E Hc. unfold checksum_words. rewrite !zsum_app.
  rewrite (words_skip m' _ base 0 skip) by lia. rewrite Hc. cbn [from_option id].
  rewrite (words_same_skip m m') by (try done; intros; apply E; lia).
  assert (O : odd_word m' (base + 2 * last) = odd_word m (base + 2 * last)).
  { unfold odd_word, ld8. guard_true. replace (0 <=? base + 2 * last) with true by lia.
    by rewrite E by lia. }
  rewrite O. lia.
Qed.

Lemma oc_sum_filled ws ws' :
  Forall word_ok ws → Forall word_ok ws' → zsum ws ≤ INT_MAX →
  second_carry (zsum ws) = false → zsum ws' = zsum ws + code_sum ws → oc_sum ws' = 65535.
Proof.
  intros Hw Hw' Hm Hc E. rewrite <- (rfc1071_verifies ws Hw).
  assert (C : code_sum ws = rfc1071 ws) by (unfold code_sum; rewrite Hc; lia).
  pose proof (code_sum_word ws Hw Hm).
  apply oc_sum_zsum; [done| |].
  - apply Forall_app. split; [done|]. constructor; [by rewrite <- C|constructor].
  - rewrite zsum_app, zsum_single. lia.
Qed.

Lemma fix_checksums_valid_ip d d2 :
  ip_ok d → fix_checksums d = Some d2 →
  second_carry (zsum (ip_words 5 d)) = false → valid_ip d2.
Proof.
  intros Hd E Hc. destruct (fix_checksums_frame d d2 Hd E) as (L & O & F & B & _).
  pose proof Hd as []. pose proof (hlen_bound d). destruct (hlen_4 d) as [_ H4].
  assert (10 ≤ hlen d / 2 ≤ 30) by
    (split; [apply Z.div_le_lower_bound|apply Z.div_le_upper_bound]; lia).
  assert (Eh : hlen d2 = hlen d).
  { unfold hlen, ld8. cbn. rewrite F; [done|]. unfold checksum_byte.
    intros [?|(w & Hw & ?)]; [lia|]. destruct (sum_word_cases d w Hw); lia. }
  unfold valid_ip, ip_words. rewrite Eh.
  apply (oc_sum_filled (ip_words 5 d)); try done.
  - by apply checksum_words_ok.
  - by apply checksum_words_ok.
  - apply checksum_words_bound; try done; unfold zlen; simpl; lia.
  - unfold ip_words. apply checksum_words_filled; try done; try lia.
    intros i Hi Hn. apply F. unfold checksum_byte. intros [?|(w & Hw & Hi')]; [lia|].
    assert (hlen d / 2 * 2 = hlen d) by (destruct (hlen_4 d); lia).
    destruct (sum_word_cases d w Hw); lia.
Qed.

Lemma fix_checksums_valid_transport d d2 w :
  ip_ok d → fix_checksums d = Some d2 → sum_word d = Some w →
  second_carry (zsum (transport_words w d)) = false → valid_transport d2.
Proof.
  intros Hd E Hw Hc. destruct (fix_checksums_frame d d2 Hd E) as (L & O & F & _ & B).
  specialize (B w Hw). pose proof (half_len d Hd) as (? & ? & ?).
  pose proof (pseudo_words_ok d Hd). pose proof Hd as [].
  pose proof (ip_sum0 w Hw). pose proof (sum_word_cases d w Hw) as Hw'.
  assert (Hin : ∀ i, Z.of_nat i < 10 ∨ 12 ≤ Z.of_nat i < 20 → d2 !! i = d !! i).
  { intros i Hi. apply F. unfold checksum_byte. intros [?|(w' & Hw2 & ?)]; [lia|].
    destruct (sum_word_cases d w' Hw2); lia. }
  destruct (shape_same d d2) as (Eh & Et & Ep).
  { split; [done|]. intros i ?. apply Hin. lia. }
  assert (P : pseudo_words d2 = pseudo_words d).
  { unfold pseudo_words. rewrite Eh, Et, Ep. f_equal. apply (words_same 12 20); [|lia|lia].
    split; [done|]. intros i ?. apply Hin. lia. }
  intros _. unfold transport_words. rewrite P, Eh, Et.
  apply (oc_sum_filled (transport_words w d)); try done.
  - by apply checksum_words_ok.
  - by apply checksum_words_ok.
  - by apply checksum_words_bound.
  - unfold transport_words. apply checksum_words_filled; try done.
    + lia.
    + split; [lia|]. apply Z.lt_le_trans with (w + 1); [lia|].
      apply Z.div_le_lower_bound; lia.
    + intros i Hi Hn. apply F. unfold checksum_byte. intros [?|(w' & Hw2 & ?)]; [lia|].
      rewrite Hw in Hw2. injection Hw2 as <-. lia.
Qed.

End Facts.
