(* ===== verification/Headers.v ===== *)
(** * Addresses and ports of a packet

    What both translators read from a packet and write to it: addresses at
    fixed offsets of the IP header, ports at the start of the transport
    header. *)

From Stdlib Require Import ZArith Lia.
From S2P Require Import Prelude CMem CStruct CMonad OpenFlow Checksum IpText CSteps.
From S2P Require Import NatTable Packet.

(** Addresses and ports of a packet, as the code reads them. *)
Definition src_of (d : bytes) : bytes := default [] (ldn d 12 4).
Definition dst_of (d : bytes) : bytes := default [] (ldn d 16 4).
Definition sport_of `{Platform} (d : bytes) : Z := default 0 (ldint 2 d (hlen d)).
Definition dport_of `{Platform} (d : bytes) : Z := default 0 (ldint 2 d (hlen d + 2)).


(** The packet that leaves: [d'] is [d] with [addr] at [off] and its checksums
    repaired. *)
Definition rewritten `{Platform} (off : Z) (addr d d' : bytes) : Prop :=
  ∃ d0, stn d off addr = Some d0 ∧ fix_checksums d0 = Some d'.

Section Headers.
  Context `{Platform} `{Env}.

Definition pkt_id (tb : nfq_data) : Z :=
  match nfq_packet_id tb with Some v => ntohl v | None => 0 end.

Lemma take4 (a : bytes) : zlen a = 4 → take 4 a = a.
Proof. intros L. apply take_ge. unfold zlen in L. lia. Qed.

Lemma memcmp4_iff a b : zlen a = 4 → zlen b = 4 → memcmp4 a b = bool_decide (a = b).
Proof. intros. unfold memcmp4. by rewrite !take4. Qed.

Lemma addr_fields d :
  ip_ok d →
  ldf_bytes ip_header_t 0 ["src_addr"] 4 d = Some (src_of d) ∧
  ldf_bytes ip_header_t 0 ["dst_addr"] 4 d = Some (dst_of d) ∧
  zlen (src_of d) = 4 ∧ zlen (dst_of d) = 4 ∧ bytes_ok (src_of d) ∧ bytes_ok (dst_of d).
Proof.
  intros []. open_fields. unfold src_of, dst_of.
  change (0 + 12) with 12. change (0 + 16) with 16.
  destruct (ldn d 12 4) as [a|] eqn:Ea; [|apply ldn_None in Ea; lia].
  destruct (ldn d 16 4) as [b|] eqn:Eb; [|apply ldn_None in Eb; lia].
  split_and!; try done; first [by apply ldn_Some in Ea as (?&?&?&?&?)
    |by apply ldn_Some in Eb as (?&?&?&?&?)|by eapply ldn_bytes_ok].
Qed.

(** The last byte of an address field. *)
Lemma last_byte d off l :
  bytes_ok d → ldn d off 4 = Some l → ld8 d (off + 3) ≠ Some 255 →
  ∃ i, ld8 l 3 = Some i ∧ 0 ≤ i < MAXENTRY.
Proof.
  intros Hd E Hn. pose proof (ldn_Some _ _ _ _ E) as (? & _ & ? & Ll & _).
  destruct (ld8_ok l 3) as [i Hi]; [lia|]. exists i. split; [done|].
  assert (El : ld8 d (off + 3) = ld8 l 3).
  { unfold ld8. guard_true. replace (0 <=? 3) with true by done.
    rewrite (ldn_lookup _ _ _ _ _ E), decide_True by lia. f_equal. lia. }
  rewrite El, Hi in Hn. pose proof (ldn_bytes_ok _ _ _ _ Hd E) as Ol.
  apply ld8_byte in Hi as []; [|done]. unfold MAXENTRY.
  assert (i ≠ 255) by congruence. lia.
Qed.

Lemma port_fields d :
  ip_ok d →
  ldf transport_header (hlen d / 4 * 4) ["src_port"] d = Some (sport_of d) ∧
  ldf transport_header (hlen d / 4 * 4) ["dst_port"] d = Some (dport_of d).
Proof.
  intros Hd. rewrite (proj1 (hlen_4 d)). pose proof (hlen_bound d). destruct Hd.
  open_fields. unfold sport_of, dport_of. rewrite Z.add_0_r.
  destruct (be_at_word d (hlen d)) as (w & -> & _); [done|lia|lia|].
  destruct (be_at_word d (hlen d + 2)) as (w' & -> & _); [done|lia|lia|]. done.
Qed.

Lemma port_range d : ip_ok d → 0 ≤ sport_of d < 65536 ∧ 0 ≤ dport_of d < 65536.
Proof.
  intros Hd. pose proof (hlen_bound d). destruct Hd. unfold sport_of, dport_of, ldint.
  destruct (ldn d (hlen d) 2) as [a|] eqn:Ea; [|apply ldn_None in Ea; lia].
  destruct (ldn d (hlen d + 2) 2) as [b|] eqn:Eb; [|apply ldn_None in Eb; lia].
  assert (Hn : ∀ l, bytes_ok l → zlen l = 2 → 0 ≤ nat_dec l < 65536).
  { intros l Ol Ll. pose proof (le_dec_bound l Ol) as Hl. pose proof (be_dec_bound l Ol) as Hl'.
    rewrite Ll in Hl, Hl'. unfold nat_dec. case_if; lia. }
  pose proof (ldn_Some _ _ _ _ Ea) as (_ & _ & _ & La & _).
  pose proof (ldn_Some _ _ _ _ Eb) as (_ & _ & _ & Lb & _).
  change (Z.of_nat 2) with 2. rewrite Ea, Eb.
  split; (apply Hn; [by eapply ldn_bytes_ok|done]).
Qed.

(** Replacing an address: the packet stays well formed. *)
Lemma rewrite_ok d off addr :
  ip_ok d → 12 ≤ off → off + 4 ≤ 20 → zlen addr = 4 → bytes_ok addr →
  ∃ d0 d', stn d off addr = Some d0 ∧ ip_ok d0 ∧ fix_checksums d0 = Some d' ∧
           zlen d' = zlen d ∧ rewritten off addr d d'.
Proof.
  intros Hd Ho Ho' La Oa. pose proof Hd as [].
  destruct (stn_ok d off addr) as [d0 E]; [lia|lia|].
  assert (Hd0 : ip_ok d0).
  { apply (ip_ok_same d); [done|by apply (stn_bytes_ok _ _ _ _ ip_bytes Oa E)|].
    eapply same_on_stn; [done|lia]. }
  destruct (fix_checksums_spec d0 Hd0) as (_ & d' & _ & E' & _).
  exists d0, d'. destruct (fix_checksums_frame d0 d' Hd0 E') as (L & _).
  split_and!; try done; [by rewrite L, (stn_zlen _ _ _ _ E)|by exists d0].
Qed.

Lemma in_subnet_total d subnet :
  ip_ok d → in_subnet (src_of d) subnet = Some true ∨ in_subnet (src_of d) subnet = Some false.
Proof.
  intros Hd. destruct (addr_fields d Hd) as (_ & _ & Ls & _).
  destruct (src_of d) as [|a [|b [|c [|e [|]]]]]; try (unfold zlen in Ls; simpl in Ls; lia).
  unfold in_subnet. destruct (strncmp_eq _ _ _); auto.
Qed.

(** A verdict: one event, one tick. *)
Lemma verdict_ret {S} `{HasSys S} qh id v n data (s : S) :
  0 ≤ n ≤ zlen data →
  nfq_set_verdict qh id v n data s =
    Ret (env_verdict (clock (get_sys s)))
      (set_sys (Sys (Datatypes.S (clock (get_sys s)))
                    (EvVerdict qh id v n (take (Z.to_nat n) data) :: events (get_sys s))) s).
Proof.
  intros Hn. unfold nfq_set_verdict. rewrite (opt_step _ (take (Z.to_nat n) data)).
  - unfold emit, ask, mbind, M_bind. by rewrite !get_set_sys, set_set_sys.
  - by rewrite ldn_ok by lia.
Qed.

End Headers.
