(* ===== verification/Gateway.v ===== *)
(** * The gateway, [Gateway/gatewayNAT.c]

    The translator of a testbed without port translation: packets that leave
    the station subnet get the gateway's address as source, packets that come
    back get the station's address as destination, and the controller can add
    entries and ask the gateway to announce itself.  The program's globals and
    heap are the record [gw_state]; the OpenFlow agent is [Agent], the
    translation table [NatTable], the packet repair [Packet]. *)

From Stdlib Require Import ZArith Lia.
From S2P Require Import Prelude CMem CStruct CMonad OpenFlow Checksum IpText.
From S2P Require Import Chain CSteps Agent NatTable Packet.

(** [struct natMap]; the member [port] is never used. *)
Record natMap := NatMap {
  port : Z;
  src_addr : bytes;
  dst_addr : bytes;
  src_port : Z;
  dst_port : Z;
}.

(** [memcpy(nMap->src_addr, a, 4)]. *)
Definition set_src_addr (a : bytes) (e : natMap) : natMap :=
  NatMap (port e) a (dst_addr e) (src_port e) (dst_port e).

(** The globals: [controller], [entryList] and its mutex, [ifIP], [subnet],
    [loop_terminate]. *)
Record gw_state := Gw {
  gw_conn : controller_connection;
  gw_sys : sys;
  gw_tab : htab natMap;
  gw_mutex : bool;
  gw_ifIP : bytes;
  gw_subnet : bytes;
  gw_loop : bool;
}.

#[global, refine] Instance gw_has_sys : HasSys gw_state := {|
  get_sys := gw_sys;
  set_sys w s := Gw (gw_conn s) w (gw_tab s) (gw_mutex s) (gw_ifIP s) (gw_subnet s) (gw_loop s) |}.
Proof. all: by intros; repeat match goal with s : gw_state |- _ => destruct s end. Defined.

#[global, refine] Instance gw_has_conn : HasConn gw_state := {|
  get_conn := gw_conn;
  set_conn c s := Gw c (gw_sys s) (gw_tab s) (gw_mutex s) (gw_ifIP s) (gw_subnet s) (gw_loop s) |}.
Proof. all: by intros; repeat match goal with s : gw_state |- _ => destruct s end. Defined.

#[global, refine] Instance gw_has_tab : HasTab gw_state natMap := {|
  get_tab := gw_tab;
  set_tab t s := Gw (gw_conn s) (gw_sys s) t (gw_mutex s) (gw_ifIP s) (gw_subnet s) (gw_loop s);
  get_mutex := gw_mutex;
  set_mutex b s := Gw (gw_conn s) (gw_sys s) (gw_tab s) b (gw_ifIP s) (gw_subnet s) (gw_loop s) |}.
Proof. all: by intros; repeat match goal with s : gw_state |- _ => destruct s end. Defined.

Definition set_loop (b : bool) (s : gw_state) : gw_state :=
  Gw (gw_conn s) (gw_sys s) (gw_tab s) (gw_mutex s) (gw_ifIP s) (gw_subnet s) b.

Section Gateway.
  Context `{Platform} `{Env}.
  Abbreviation GM := (M gw_state).

(** *** Translation entries *)

Definition same_flow (sport : Z) (dst : bytes) (dport : Z) (e : natMap) : bool :=
  negb (negb (memcmp4 (dst_addr e) dst) || negb (src_port e =? sport)
        || negb (dst_port e =? dport)).

Definition lookupNatMap (sport : Z) (dst : bytes) (dport : Z) : GM (option loc) :=
  locked_search dst (same_flow sport dst dport).

Definition natMap_size : Z := align_up 14 sizeof_ptr + sizeof_ptr.

Definition addEntry (sport : Z) (dst : bytes) (dport : Z) : GM (option loc) :=
  nMap ← lookupNatMap sport dst dport;
  match nMap with
  | Some l => mret (Some l)
  | None =>
      r ← calloc natMap_size;
      match r with
      | None => mret None
      | Some _ =>
          l ← locked_push dst (NatMap 0 [0; 0; 0; 0] dst sport dport);
          mret (Some l)
      end
  end.

(** *** Packets *)

(** The part of [handle_pkt] after the translation. *)
Definition finish (qh id ret : Z) (data : bytes) : GM Z :=
  data ← opt! fix_checksums data;
  nfq_set_verdict qh id NF_ACCEPT ret data.

Definition handle_pkt (tb : nfq_data) (queueNum qh : Z) : GM Z :=
  let id := match nfq_packet_id tb with Some v => ntohl v | None => 0 end in
  let ret := nfq_ret tb in
  let data := nfq_payload tb in
  let accept := nfq_set_verdict qh id NF_ACCEPT 0 [] in
  if 0 <=? ret then
    src ← opt! ldf_bytes ip_header_t 0 ["src_addr"] 4 data;
    dst ← opt! ldf_bytes ip_header_t 0 ["dst_addr"] 4 data;
    if queueNum =? 0 then
      subnet ← gets gw_subnet;
      inside ← opt! in_subnet src subnet;
      if inside : bool then
        v ← opt! ihl data;
        sport ← opt! ldf transport_header (v * 4) ["src_port"] data;
        dport ← opt! ldf transport_header (v * 4) ["dst_port"] data;
        nMap ← lookupNatMap sport dst dport;
        nMap ← match nMap with
               | None => addEntry sport dst dport
               | Some _ => mret nMap
               end;
        node_write nMap (set_src_addr src);;
        ifIP ← gets gw_ifIP;
        data ← opt! stf_bytes ip_header_t 0 ["src_addr"] ifIP data;
        finish qh id ret data
      else accept
    else if queueNum =? 1 then
      ifIP ← gets gw_ifIP;
      if memcmp4 dst ifIP then
        v ← opt! ihl data;
        sport ← opt! ldf transport_header (v * 4) ["src_port"] data;
        dport ← opt! ldf transport_header (v * 4) ["dst_port"] data;
        nMap ← lookupNatMap dport src sport;
        match nMap with
        | Some _ =>
            e ← node_read nMap;
            data ← opt! stf_bytes ip_header_t 0 ["dst_addr"] (src_addr e) data;
            finish qh id ret data
        | None => accept
        end
      else accept
    else accept
  else accept.

Definition cb (qh : Z) (nfa : nfq_data) (data : Z) : GM Z := handle_pkt nfa data qh.

(** *** Messages from the controller *)

Definition handle_vendor (oh : bytes) : GM unit :=
  vendor ← opt! ldf ofp_vendor_header 0 ["vendor"] oh;
  if ntohl vendor =? NX_VENDOR_ID then handle_nicira oh
  else if ntohl vendor =? AP_EXPERIMENTER_ID then
    subtype ← opt! ldf ofp_wlan_header 0 ["subtype"] oh;
    match enum_of (T:=gw_subtype) (ntohl subtype) with
    | Some GW_WLAN_NAT_ADD =>
        let entry := sizeof ofp_wlan_header in
        src ← opt! ldf_bytes ofp_nat_entry entry ["nw_src"] 4 oh;
        dst ← opt! ldf_bytes ofp_nat_entry entry ["nw_dst"] 4 oh;
        tp_src ← opt! ldf ofp_nat_entry entry ["tp_src"] oh;
        nat ← lookupNatMap tp_src dst tp_src;
        nat ← match nat with
              | None => addEntry tp_src dst tp_src
              | Some _ => mret nat
              end;
        node_write nat (set_src_addr src)
    | _ => skip
    end
  else skip.

Definition handle_flow_mod (oh : bytes) : GM unit :=
  command ← opt! ldf ofp_flow_mod 0 ["command"] oh;
  match enum_of (T:=ofp_flow_mod_command) (ntohs command) with
  | Some OFPFC_DELETE =>
      msg ← calloc (sizeof ofp_wlan_header);
      match msg with
      | None => skip
      | Some msg =>
          msg ← opt! stf ofp_wlan_header 0 ["header"; "version"] OFP_VERSION msg;
          msg ← opt! stf ofp_wlan_header 0 ["header"; "type"] (enum_val OFPT_VENDOR) msg;
          r ← ask env_rand;
          msg ← opt! stf ofp_wlan_header 0 ["header"; "xid"] (htons r) msg;
          msg ← opt! stf ofp_wlan_header 0 ["header"; "length"]
                       (htons (sizeof ofp_wlan_header)) msg;
          msg ← opt! stf ofp_wlan_header 0 ["vendor"] (ntohl AP_EXPERIMENTER_ID) msg;
          msg ← opt! stf ofp_wlan_header 0 ["subtype"] (ntohl (enum_val GW_CONNECT)) msg;
          len ← opt! ldf ofp_wlan_header 0 ["header"; "length"] msg;
          controller_send msg (ntohs len)
      end
  | _ => skip
  end.

Definition gw_process_controller_msg : bytes → GM unit :=
  process_controller_msg handle_flow_mod handle_vendor.

(** One round of [while(loop_terminate) { controller_conn_open();
    controller_receive(); }], and [fuel] rounds of it. *)
Definition controller_round : GM unit :=
  controller_conn_open;; controller_receive gw_process_controller_msg.

Fixpoint controller_run (fuel : nat) : GM unit :=
  match fuel with
  | O => hang
  | S fuel =>
      loop ← gets gw_loop;
      if loop : bool then controller_round;; controller_run fuel else skip
  end.

Definition sigintHandler : GM unit := modify (set_loop false).

(** *** The threads that serve the packet queues *)

(** Results of the library calls that open a queue, and what the queue's socket
    delivers: [None] when [recv] returns 0 or less. *)
Section Queue.
  Context (nfq_call : nat → Z) (nfq_next : nat → option nfq_data).

Fixpoint recv_loop (fuel : nat) (num qh : Z) : GM unit :=
  match fuel with
  | O => hang
  | S fuel =>
      loop ← gets gw_loop;
      if loop : bool then
        '(t, ready) ← ask env_select;
        if t <? 0 then exit 1 else
        (if ready : bool then
           p ← ask nfq_next;
           match p with
           | None => modify (set_loop false)
           | Some nfa => _ ← cb qh nfa num; skip
           end
         else skip);;
        recv_loop fuel num qh
      else skip
  end.

Definition recvPkt (fuel : nat) (num : Z) : GM unit :=
  h ← ask nfq_call;
  if h =? 0 then exit 1 else
  r ← ask nfq_call;
  if r <? 0 then exit 1 else
  r ← ask nfq_call;
  if r <? 0 then exit 1 else
  qh ← ask nfq_call;
  if qh =? 0 then exit 1 else
  r ← ask nfq_call;
  if r <? 0 then exit 1 else
  recv_loop fuel num qh.

End Queue.

(** *** Initialisation *)

(** [sizeof(struct controller_connection)], with a 40-byte [pthread_mutex_t]. *)
Definition controller_connection_size : Z := align_up 18 sizeof_ptr + sizeof_ptr + 40.

Definition controller_conn_init : GM Z :=
  r ← calloc controller_connection_size;
  match r with
  | None => mret 0
  | Some _ => modify (set_conn (Conn (-1) 0 0 0 None));; mret 1
  end.

Inductive thread := ControllerThread | QueueThread (queueNum : Z).

Definition pthread_create (t : thread) : GM (list thread) :=
  rc ← ask env_thread; mret (if rc =? 0 then [t] else []).

Definition init_globals (ifIP subnet : bytes) (table : htab natMap) (s : gw_state) : gw_state :=
  Gw (gw_conn s) (gw_sys s) table false ifIP subnet true.

(** [main] up to the [pthread_join]s: the exit code, or the threads started.
    [t] is the result of the [SIOCGIFADDR] ioctl and [sin_addr] the address it
    stores, [aton] the bytes [inet_aton(argv[2], &addr)] stores, if it
    succeeds. *)
Definition main (t : Z) (sin_addr : bytes) (aton : option (Z * Z * Z * Z))
    : GM (Z + list thread) :=
  if negb (t =? 0) then mret (inl 1) else
  match aton with
  | None => mret (inl 1)
  | Some (c0, c1, c2, _) =>
      entryList ← calloc sizeof_ptr;
      match entryList with
      | None => crash
      | Some _ =>
          table ← calloc (MAXENTRY * sizeof_ptr);
          let tab := match table with
                     | Some _ => empty_tab (Z.to_nat MAXENTRY)
                     | None => empty_tab 0
                     end in
          modify (init_globals sin_addr (fmt_subnet c0 c1 c2) tab);;
          isReady ← controller_conn_init;
          ts ← (if negb (isReady =? 0) then pthread_create ControllerThread else mret []);
          ts1 ← pthread_create (QueueThread 0);
          ts2 ← pthread_create (QueueThread 1);
          mret (inr (ts ++ ts1 ++ ts2))
      end
  end.

End Gateway.
