(* ===== verification/GatewayProps.v ===== *)
(** * Correctness of the gateway's translation

    The gateway's contract is an abstract translator: a finite map from flows
    (remote address, local port, remote port) to stations, and for every packet
    what becomes of the map and of the packet ([nat_spec]).  [handle_pkt] is
    shown to implement it, for single packets and for sequences of packets; the
    round trip of a connection and the behaviours at its borders follow. *)

From Stdlib Require Import ZArith Lia.
From S2P Require Import Prelude CMem CStruct CMonad OpenFlow Checksum IpText.
From S2P Require Import Chain CSteps Agent AgentProps NatTable Packet Headers Gateway.

(** ** The abstract translator *)

(** Remote address, local port, remote port. *)
Abbreviation flow := (bytes * Z * Z)%type.

Definition flow_out `{Platform} (d : bytes) : flow := (dst_of d, sport_of d, dport_of d).
Definition flow_in `{Platform} (d : bytes) : flow := (src_of d, dport_of d, sport_of d).

(** What happens to a packet: passed on unchanged, or passed on with four bytes
    replaced and its checksums repaired. *)
Inductive action := Pass | Rewrite (off : Z) (addr : bytes).

Definition nat_spec `{Platform} (ifIP subnet : bytes) (queueNum : Z) (d : bytes)
    (m : gmap flow bytes) : gmap flow bytes * action :=
  if queueNum =? 0 then
    if decide (in_subnet (src_of d) subnet = Some true)
    then (<[flow_out d := src_of d]> m, Rewrite 12 ifIP) else (m, Pass)
  else if queueNum =? 1 then
    if decide (dst_of d = ifIP) then
      match m !! flow_in d with
      | Some station => (m, Rewrite 16 station)
      | None => (m, Pass)
      end
    else (m, Pass)
  else (m, Pass).

(** ** The invariant *)

Definition entry_key (e : natMap) : flow := (take 4 (dst_addr e), src_port e, dst_port e).
Definition flow_hash (k : flow) : Z := default (-1) (ld8 k.1.1 3).

(** The table is the map [m], its mutex is free, and every station address has
    four bytes. *)
Record nat_inv (s : gw_state) (m : gmap flow bytes) : Prop := {
  ni_rep : ∃ bs, map_rep entry_key src_addr flow_hash (gw_tab s) bs m;
  ni_mutex : gw_mutex s = false;
  ni_size : zlen (tab_heads (gw_tab s)) = MAXENTRY;
  ni_ifIP : zlen (gw_ifIP s) = 4 ∧ bytes_ok (gw_ifIP s);
  ni_addr : ∀ k a, m !! k = Some a → zlen a = 4 ∧ bytes_ok a;
}.

Section Facts.
  Context `{Platform} `{Env}.

Lemma same_flow_iff sport dst dport e :
  same_flow sport dst dport e = true ↔ entry_key e = (take 4 dst, sport, dport).
Proof.
  unfold same_flow, entry_key. rewrite negb_true_iff, !orb_false_iff, !negb_false_iff.
  unfold memcmp4. rewrite bool_decide_eq_true, !Z.eqb_eq.
  split; [by intros [[-> ->] ->]|by intros [= -> -> ->]].
Qed.

(** Searching for a flow. *)
Lemma lookup_spec {B} (k : option loc → M gw_state B) s m sport dst dport i :
  nat_inv s m → zlen dst = 4 → ld8 dst 3 = Some i → 0 ≤ i < MAXENTRY →
  ∃ p, (lookupNatMap sport dst dport ≫= k) s = k p s ∧
    match m !! (dst, sport, dport) with
    | None => p = None
    | Some a => ∃ l e bs, p = Some l ∧ src_addr e = a ∧ entry_key e = (dst, sport, dport) ∧
        (l, e) ∈ concat bs ∧ map_rep entry_key src_addr flow_hash (gw_tab s) bs m
    end.
Proof.
  intros [(bs & R) Hm Hs _ _] L4 Hi Hb.
  set (q := same_flow sport dst dport).
  destruct (map_find entry_key src_addr flow_hash (gw_tab s) bs m q (dst, sport, dport) R)
    as [F1 F2].
  { intros e. unfold q. by rewrite same_flow_iff, take4. }
  assert (Eh : flow_hash (dst, sport, dport) = i) by (unfold flow_hash; simpl; by rewrite Hi).
  rewrite Eh in *. eexists. split.
  { unfold lookupNatMap. eapply (locked_search_find (A:=natMap)).
    - exact Hm.
    - exact Hi.
    - change (get_tab s) with (gw_tab s). lia.
    - apply R. }
  fold q. destruct (find_bucket q bs i) as [[l e]|]; rewrite <- F1; simpl; [|done].
  destruct (F2 l e eq_refl) as [Hk Hin]. exists l, e, bs. done.
Qed.

Lemma nat_inv_frame s s' m :
  nat_inv s m → gw_tab s' = gw_tab s → gw_mutex s' = gw_mutex s → gw_ifIP s' = gw_ifIP s →
  nat_inv s' m.
Proof. intros [] E1 E2 E3. constructor; rewrite ?E1, ?E2, ?E3; done. Qed.

(** Adding an entry for a flow that has none. *)
Lemma addEntry_spec {B} (k : option loc → M gw_state B) s m sport dst dport i :
  nat_inv s m → zlen dst = 4 → ld8 dst 3 = Some i → 0 ≤ i < MAXENTRY →
  m !! (dst, sport, dport) = None → (∀ k n, env_calloc k n = true) →
  ∃ l e s' bs, (addEntry sport dst dport ≫= k) s = k (Some l) s' ∧
    events (gw_sys s') = events (gw_sys s) ∧
    gw_conn s' = gw_conn s ∧
    gw_ifIP s' = gw_ifIP s ∧ gw_subnet s' = gw_subnet s ∧ gw_mutex s' = false ∧
    zlen (tab_heads (gw_tab s')) = MAXENTRY ∧
    entry_key e = (dst, sport, dport) ∧ (l, e) ∈ concat bs ∧
    map_rep entry_key src_addr flow_hash (gw_tab s') bs
      (<[(dst, sport, dport) := [0; 0; 0; 0]]> m).
Proof.
  intros I L4 Hi Hb Hm Ha.
  set (e := NatMap 0 [0; 0; 0; 0] dst sport dport).
  assert (Ek : entry_key e = (dst, sport, dport)) by (unfold entry_key; simpl; by rewrite take4).
  assert (Eh : flow_hash (entry_key e) = i) by (rewrite Ek; unfold flow_hash; simpl; by rewrite Hi).
  unfold addEntry. rewrite bind_assoc.
  destruct (lookup_spec (λ nMap, match nMap with
      | Some l => mret (Some l)
      | None => r ← calloc natMap_size; match r with
          | None => mret None
          | Some _ => l ← locked_push dst (NatMap 0 [0; 0; 0; 0] dst sport dport); mret (Some l)
          end
      end ≫= k) s m sport dst dport i I L4 Hi Hb) as (p & E & Hp).
  rewrite Hm in Hp. subst p. rewrite E. rewrite bind_assoc, calloc_step by apply Ha.
  rewrite bind_assoc. destruct I as [(bs & R) Hmx Hsz _ _].
  destruct (map_push entry_key src_addr flow_hash (gw_tab s) bs m e R)
    as (l & t' & bs' & Ep & Hlen & Hin & R'); [rewrite Eh; lia|by rewrite Ek|].
  rewrite (locked_push_ok (A:=natMap) _ (tick s) dst e i l t');
    [|exact Hmx|exact Hi|by rewrite <- Eh].
  exists l, e, (set_tab t' (tick s)), bs'. rewrite Ek in R'. cbn.
  split_and!; try done. by rewrite Hlen.
Qed.

(** The entry of a flow, found or new, with the station written to it. *)
Lemma entry_write {B} (k : unit → M gw_state B) s m bs l e a kf :
  gw_mutex s = false → zlen (tab_heads (gw_tab s)) = MAXENTRY →
  zlen (gw_ifIP s) = 4 ∧ bytes_ok (gw_ifIP s) →
  (∀ k b, m !! k = Some b → k ≠ kf → zlen b = 4 ∧ bytes_ok b) →
  zlen a = 4 → bytes_ok a →
  map_rep entry_key src_addr flow_hash (gw_tab s) bs m →
  (l, e) ∈ concat bs → entry_key e = kf →
  ∃ s', (node_write (Some l) (set_src_addr a) ≫= k) s = k () s' ∧
    nat_inv s' (<[kf := a]> m) ∧ events (gw_sys s') = events (gw_sys s) ∧
    gw_conn s' = gw_conn s ∧ gw_ifIP s' = gw_ifIP s ∧ gw_subnet s' = gw_subnet s.
Proof.
  intros Hmx Hsz Hif Hok La Oa R Hin Hk.
  destruct (map_assign entry_key src_addr flow_hash (gw_tab s) bs m l e (set_src_addr a) R Hin)
    as (t' & bs' & E & Hh & _ & R'); [done|].
  exists (set_tab t' s). split; [by apply (node_write_ok (A:=natMap))|].
  rewrite Hk in R'. split_and!; [constructor|done..]; cbn.
  - by exists bs'.
  - done.
  - by rewrite Hh.
  - done.
  - intros k' b. destruct (decide (k' = kf)) as [->|].
    + rewrite lookup_insert_eq. by intros [= <-].
    + rewrite lookup_insert_ne by done. intros ?. by apply (Hok k').
Qed.

(** The sequence of [handle_pkt] and [handle_vendor]: find the flow's entry or
    add one, then write the station's address to it. *)
Lemma claim_flow {B} (k : unit → M gw_state B) s m sport dst dport a i :
  nat_inv s m → zlen dst = 4 → ld8 dst 3 = Some i → 0 ≤ i < MAXENTRY →
  zlen a = 4 → bytes_ok a → (∀ k n, env_calloc k n = true) →
  ∃ s',
    (nMap ← lookupNatMap sport dst dport;
     nMap ← match nMap with None => addEntry sport dst dport | Some _ => mret nMap end;
     node_write nMap (set_src_addr a) ≫= k) s = k () s' ∧
    nat_inv s' (<[(dst, sport, dport) := a]> m) ∧ events (gw_sys s') = events (gw_sys s) ∧
    gw_conn s' = gw_conn s ∧ gw_ifIP s' = gw_ifIP s ∧ gw_subnet s' = gw_subnet s.
Proof.
  intros I Ld Hi Hb La Oa Ha. pose proof I as [_ Mx Sz Hif Hok].
  edestruct (lookup_spec (B:=B)) as (p & E & Hp); [exact I|exact Ld|exact Hi|exact Hb|].
  erewrite E. clear E. destruct (m !! (dst, sport, dport)) as [b0|] eqn:Em.
  - destruct Hp as (l & e & bs & -> & _ & Hk & Hin & R). rewrite mret_bind.
    eapply entry_write; try done. intros k' b Hkb _. by apply (Hok k').
  - subst p.
    edestruct (addEntry_spec (B:=B)) as
      (l & e & s1 & bs & E & Ev1 & Co1 & Fi1 & Su1 & Mx1 & Sz1 & Hk & Hin & R);
      [exact I|exact Ld|exact Hi|exact Hb|exact Em|exact Ha|].
    erewrite E. clear E.
    destruct (entry_write k s1 (<[(dst, sport, dport) := [0; 0; 0; 0]]> m) bs l e a
      (dst, sport, dport)) as (s' & E & I' & Ev & Co & Fi & Su); try done.
    + by rewrite Fi1.
    + intros k' b Hkb Hne. rewrite lookup_insert_ne in Hkb by done. by apply (Hok k').
    + exists s'. rewrite insert_insert_eq in I'. split_and!; congruence || done.
Qed.

(** ** Single packets *)

(** A packet the kernel queues: well formed, and with a remote address whose
    last byte is an index of the table. *)
Record pkt_ok (queueNum : Z) (tb : nfq_data) : Prop := {
  po_ip : ip_ok (nfq_payload tb);
  po_ret : 0 ≤ nfq_ret tb ≤ zlen (nfq_payload tb);
  po_out : queueNum = 0 → ld8 (nfq_payload tb) 19 ≠ Some 255;
  po_in : queueNum = 1 → ld8 (nfq_payload tb) 15 ≠ Some 255;
}.

(** The verdict that carries out an action. *)
Definition verdict_of (qh : Z) (tb : nfq_data) (act : action) (ev : event) : Prop :=
  match act with
  | Pass => ev = EvVerdict qh (pkt_id tb) NF_ACCEPT 0 []
  | Rewrite off addr => ∃ d', rewritten off addr (nfq_payload tb) d' ∧
      ev = EvVerdict qh (pkt_id tb) NF_ACCEPT (nfq_ret tb) (take (Z.to_nat (nfq_ret tb)) d')
  end.

Lemma verdict_step s qh id v n data :
  0 ≤ n ≤ zlen data →
  ∃ r s', nfq_set_verdict qh id v n data s = Ret r s' ∧
    events (gw_sys s') = EvVerdict qh id v n (take (Z.to_nat n) data) :: events (gw_sys s) ∧
    gw_tab s' = gw_tab s ∧ gw_mutex s' = gw_mutex s ∧
    gw_ifIP s' = gw_ifIP s ∧ gw_subnet s' = gw_subnet s.
Proof.
  intros Hn. unfold nfq_set_verdict. rewrite (opt_step _ (take (Z.to_nat n) data)).
  - unfold emit, ask, mbind, M_bind. do 2 eexists. split_and!; done.
  - by rewrite ldn_ok by lia.
Qed.

Lemma finish_step s qh tb off addr d0 d' :
  stn (nfq_payload tb) off addr = Some d0 → fix_checksums d0 = Some d' →
  zlen d' = zlen (nfq_payload tb) → 0 ≤ nfq_ret tb ≤ zlen (nfq_payload tb) →
  ∃ r s' ev, finish qh (pkt_id tb) (nfq_ret tb) d0 s = Ret r s' ∧
    events (gw_sys s') = ev :: events (gw_sys s) ∧ verdict_of qh tb (Rewrite off addr) ev ∧
    gw_tab s' = gw_tab s ∧ gw_mutex s' = gw_mutex s ∧
    gw_ifIP s' = gw_ifIP s ∧ gw_subnet s' = gw_subnet s.
Proof.
  intros E E' L Hr. unfold finish. rewrite (opt_step _ d' _ _ E').
  destruct (verdict_step s qh (pkt_id tb) NF_ACCEPT (nfq_ret tb) d') as (r & s' & -> & Hev & ?);
    [lia|].
  do 3 eexists. split_and!; [done|exact Hev|exists d'; split; [by exists d0|done]|by destruct_and!..].
Qed.

(** Packets that are passed on unchanged. *)
Lemma accept_step s qh tb :
  ∃ r s' ev, nfq_set_verdict qh (pkt_id tb) NF_ACCEPT 0 [] s = Ret r s' ∧
    events (gw_sys s') = ev :: events (gw_sys s) ∧ verdict_of qh tb Pass ev ∧
    gw_tab s' = gw_tab s ∧ gw_mutex s' = gw_mutex s ∧
    gw_ifIP s' = gw_ifIP s ∧ gw_subnet s' = gw_subnet s.
Proof.
  destruct (verdict_step s qh (pkt_id tb) NF_ACCEPT 0 []) as (r & s' & -> & Hev & ?); [done|].
  do 3 eexists. split_and!; [done|exact Hev|done|by destruct_and!..].
Qed.

(** The outcome of handling a packet: one verdict, the map [m'], nothing else
    changed that the translation depends on. *)
Definition handled (s : gw_state) (qh : Z) (tb : nfq_data) (m' : gmap flow bytes)
    (act : action) (o : outcome gw_state Z) : Prop :=
  ∃ r s' ev, o = Ret r s' ∧ events (gw_sys s') = ev :: events (gw_sys s) ∧
    verdict_of qh tb act ev ∧ nat_inv s' m' ∧
    gw_ifIP s' = gw_ifIP s ∧ gw_subnet s' = gw_subnet s.

Lemma accept_handled s m qh tb :
  nat_inv s m → handled s qh tb m Pass (nfq_set_verdict qh (pkt_id tb) NF_ACCEPT 0 [] s).
Proof.
  intros I. destruct (accept_step s qh tb) as (r & s' & ev & E & Hev & Hv & T & X & F & U).
  exists r, s', ev. split_and!; try done. by eapply nat_inv_frame.
Qed.

Lemma finish_handled s s0 m qh tb off addr d0 d' :
  nat_inv s m → events (gw_sys s) = events (gw_sys s0) →
  gw_ifIP s = gw_ifIP s0 → gw_subnet s = gw_subnet s0 →
  stn (nfq_payload tb) off addr = Some d0 → fix_checksums d0 = Some d' →
  zlen d' = zlen (nfq_payload tb) → 0 ≤ nfq_ret tb ≤ zlen (nfq_payload tb) →
  handled s0 qh tb m (Rewrite off addr) (finish qh (pkt_id tb) (nfq_ret tb) d0 s).
Proof.
  intros I Ev Fi Su E E' L Hr.
  destruct (finish_step s qh tb off addr d0 d' E E' L Hr)
    as (r & s' & ev & E2 & Hev & Hv & T & X & F & U).
  exists r, s', ev. split_and!; try (done || congruence). by eapply nat_inv_frame.
Qed.

(** Outbound packets of the subnet: the flow's entry names the station. *)
Lemma handle_out s m qh tb :
  nat_inv s m → pkt_ok 0 tb → (∀ k n, env_calloc k n = true) →
  let d := nfq_payload tb in
  in_subnet (src_of d) (gw_subnet s) = Some true →
  handled s qh tb (<[flow_out d := src_of d]> m) (Rewrite 12 (gw_ifIP s))
    (handle_pkt tb 0 qh s).
Proof.
  intros I [Hip Hr Ho _] Ha d Hsub.
  destruct (addr_fields d Hip) as (Es & Ed & Ls & Ld & Os & Od).
  destruct (port_fields d Hip) as [Ep Eq].
  assert (Ed' : ldn d 16 4 = Some (dst_of d)) by (rewrite <- Ed; open_fields; done).
  destruct (last_byte d 16 (dst_of d)) as (i & Hi & Hb); [apply Hip|done|by apply Ho|].
  pose proof (ni_ifIP _ _ I) as [Lf Of].
  destruct (rewrite_ok d 12 (gw_ifIP s) Hip) as (d0 & d' & E0 & _ & E' & L' & _); [lia|lia|done|done|].
  unfold handle_pkt. fold d. fold (pkt_id tb). replace (0 <=? nfq_ret tb) with true by lia.
  rewrite (opt_step _ _ _ _ Es), (opt_step _ _ _ _ Ed). cbn [Z.eqb].
  rewrite gets_step, (opt_step _ _ _ _ Hsub). cbv iota.
  rewrite (opt_step _ _ _ _ (ihl_ok d Hip)), (opt_step _ _ _ _ Ep), (opt_step _ _ _ _ Eq).
  edestruct (claim_flow (B:=Z)) as (s' & E & I' & Ev & _ & Fi & Su);
    [exact I|exact Ld|exact Hi|exact Hb|exact Ls|exact Os|exact Ha|].
  erewrite E. rewrite gets_step, Fi.
  erewrite opt_step; [|unfold stf_bytes; fields; exact E0].
  by eapply finish_handled.
Qed.

(** Inbound packets for the gateway's address: the flow's station, if any. *)
Lemma handle_in s m qh tb :
  nat_inv s m → pkt_ok 1 tb →
  let d := nfq_payload tb in
  dst_of d = gw_ifIP s →
  handled s qh tb m
    (match m !! flow_in d with Some a => Rewrite 16 a | None => Pass end)
    (handle_pkt tb 1 qh s).
Proof.
  intros I [Hip Hr _ Hi'] d Hdst.
  destruct (addr_fields d Hip) as (Es & Ed & Ls & Ld & Os & Od).
  destruct (port_fields d Hip) as [Ep Eq].
  assert (Es' : ldn d 12 4 = Some (src_of d)) by (rewrite <- Es; open_fields; done).
  destruct (last_byte d 12 (src_of d)) as (i & Hi & Hb); [apply Hip|done|by apply Hi'|].
  unfold handle_pkt. fold d. fold (pkt_id tb). replace (0 <=? nfq_ret tb) with true by lia.
  rewrite (opt_step _ _ _ _ Es), (opt_step _ _ _ _ Ed). cbn [Z.eqb Pos.eqb].
  rewrite gets_step, memcmp4_iff, bool_decide_eq_true_2; try done; [|by apply (ni_ifIP _ _ I)].
  rewrite (opt_step _ _ _ _ (ihl_ok d Hip)), (opt_step _ _ _ _ Ep), (opt_step _ _ _ _ Eq).
  edestruct (lookup_spec (B:=Z)) as (p & E & Hp); [exact I|exact Ls|exact Hi|exact Hb|].
  erewrite E. clear E. unfold flow_in.
  destruct (m !! (src_of d, dport_of d, sport_of d)) as [a|] eqn:Em.
  - destruct Hp as (l & e & bs & -> & Ha & Hk & Hin & R).
    rewrite (node_read_ok (A:=natMap) _ s l e).
    2: { eapply rep_deref; [apply R|exact Hin]. }
    destruct (ni_addr _ _ I _ _ Em) as [La Oa]. rewrite Ha.
    destruct (rewrite_ok d 16 a Hip) as (d0 & d' & E0 & _ & E' & L' & _); [lia|lia|done|done|].
    erewrite opt_step; [|unfold stf_bytes; fields; exact E0].
    by eapply finish_handled.
  - subst p. by apply accept_handled.
Qed.

(** Everything else is passed on. *)
Lemma handle_other s m q qh tb :
  nat_inv s m → pkt_ok q tb →
  let d := nfq_payload tb in
  (q = 0 → in_subnet (src_of d) (gw_subnet s) = Some false) →
  (q = 1 → dst_of d ≠ gw_ifIP s) →
  handled s qh tb m Pass (handle_pkt tb q qh s).
Proof.
  intros I [Hip Hr _ _] d H0' H1'.
  destruct (addr_fields d Hip) as (Es & Ed & Ls & Ld & _).
  unfold handle_pkt. fold d. fold (pkt_id tb). replace (0 <=? nfq_ret tb) with true by lia.
  rewrite (opt_step _ _ _ _ Es), (opt_step _ _ _ _ Ed).
  destruct (q =? 0) eqn:E0; zbool.
  { rewrite gets_step, (opt_step _ _ _ _ (H0' E0)). by apply accept_handled. }
  destruct (q =? 1) eqn:E1; zbool; [|by apply accept_handled].
  rewrite gets_step, memcmp4_iff, bool_decide_eq_false_2; [by apply accept_handled|by apply H1'|done|].
  apply (ni_ifIP _ _ I).
Qed.

(** [handle_pkt] implements [nat_spec]. *)
Lemma handle_pkt_sim s m q qh tb :
  nat_inv s m → pkt_ok q tb → (∀ k n, env_calloc k n = true) →
  let '(m', act) := nat_spec (gw_ifIP s) (gw_subnet s) q (nfq_payload tb) m in
  handled s qh tb m' act (handle_pkt tb q qh s).
Proof.
  intros I Hp Ha. unfold nat_spec. pose proof (po_ip _ _ Hp) as Hip.
  destruct (q =? 0) eqn:E0; zbool.
  { subst q. case_decide as D; [by apply handle_out|].
    apply (handle_other s m 0); [done|done| |lia].
    intros _. by destruct (in_subnet_total _ (gw_subnet s) Hip). }
  destruct (q =? 1) eqn:E1; zbool.
  - subst q. case_decide as D; [|by apply (handle_other s m 1)].
    pose proof (handle_in s m qh tb I Hp D) as Hh. cbv zeta in Hh.
    destruct (m !! flow_in (nfq_payload tb)); exact Hh.
  - by apply (handle_other s m q).
Qed.

(** ** Sequences of packets *)

Fixpoint handle_all (pkts : list (Z * Z * nfq_data)) : M gw_state unit :=
  match pkts with
  | [] => skip
  | (q, qh, tb) :: pkts => _ ← handle_pkt tb q qh; handle_all pkts
  end.

Fixpoint nat_spec_all (ifIP subnet : bytes) (pkts : list (Z * Z * nfq_data))
    (m : gmap flow bytes) : gmap flow bytes :=
  match pkts with
  | [] => m
  | (q, _, tb) :: pkts =>
      nat_spec_all ifIP subnet pkts (fst (nat_spec ifIP subnet q (nfq_payload tb) m))
  end.

Lemma handle_all_sim pkts s m :
  nat_inv s m → Forall (λ '(q, _, tb), pkt_ok q tb) pkts → (∀ k n, env_calloc k n = true) →
  ∃ s', handle_all pkts s = Ret () s' ∧
    nat_inv s' (nat_spec_all (gw_ifIP s) (gw_subnet s) pkts m) ∧
    gw_ifIP s' = gw_ifIP s ∧ gw_subnet s' = gw_subnet s ∧
    zlen (events (gw_sys s')) = zlen (events (gw_sys s)) + zlen pkts.
Proof.
  intros I HF Ha. revert s m I. induction HF as [|[[q qh] tb] pkts Hp HF IH]; intros s m I.
  { exists s. split_and!; try done. unfold zlen. simpl. lia. }
  pose proof (handle_pkt_sim s m q qh tb I Hp Ha) as Hs.
  cbn [handle_all nat_spec_all].
  destruct (nat_spec (gw_ifIP s) (gw_subnet s) q (nfq_payload tb) m) as [m' act].
  destruct Hs as (r & s1 & ev & E & Hev & _ & I1 & Fi & Su).
  destruct (IH s1 m' I1) as (s' & E' & I' & Fi' & Su' & L').
  exists s'. rewrite (bind_Ret _ _ _ _ _ E), E'. rewrite Fi, Su in *. cbn [fst].
  split_and!; try done. rewrite L', Hev, !zlen_cons. lia.
Qed.

(** Does a packet claim the flow [k]? *)
Definition claims (subnet : bytes) (k : flow) (p : Z * Z * nfq_data) : Prop :=
  let '(q, _, tb) := p in
  q = 0 ∧ in_subnet (src_of (nfq_payload tb)) subnet = Some true ∧
  flow_out (nfq_payload tb) = k.

Lemma nat_spec_all_keeps ifIP subnet pkts m k :
  Forall (λ p, ¬ claims subnet k p) pkts →
  nat_spec_all ifIP subnet pkts m !! k = m !! k.
Proof.
  intros HF. revert m. induction HF as [|[[q qh] tb] pkts Hp HF IH]; intros m; [done|].
  cbn [nat_spec_all]. rewrite IH. unfold nat_spec.
  destruct (q =? 0) eqn:E0; zbool.
  - case_decide as D; [|done]. simpl. rewrite lookup_insert_ne; [done|].
    intros Hk. apply Hp. by split_and!.
  - destruct (q =? 1); [|done]. case_decide; [|done]. by destruct (m !! flow_in _).
Qed.

(** ** Rewritten packets *)

Lemma rewritten_fields d off addr d' :
  ip_ok d → off = 12 ∨ off = 16 → zlen addr = 4 → bytes_ok addr → rewritten off addr d d' →
  zlen d' = zlen d ∧ ldn d' off 4 = Some addr ∧
  (∀ i, ¬ checksum_byte d (Z.of_nat i) → ¬ off ≤ Z.of_nat i < off + 4 → d' !! i = d !! i) ∧
  ∃ d0, stn d off addr = Some d0 ∧ ip_ok d0 ∧ fix_checksums d0 = Some d' ∧
        sum_word d0 = sum_word d ∧ hlen d0 = hlen d.
Proof.
  intros Hd Ho La Oa (d0 & E & E'). pose proof Hd as [].
  assert (S0 : same_on 0 10 d d0) by (eapply same_on_stn; [done|lia]).
  assert (Hd0 : ip_ok d0)
    by (apply (ip_ok_same d); [done|by apply (stn_bytes_ok _ _ _ _ ip_bytes Oa E)|done]).
  destruct (shape_same d d0 S0) as (Eh & Et & Ep).
  assert (Ew : sum_word d0 = sum_word d) by (unfold sum_word; by rewrite Ep).
  destruct (fix_checksums_frame d0 d' Hd0 E') as (L & O & F & _).
  assert (C : ∀ j, checksum_byte d0 j ↔ checksum_byte d j)
    by (intros j; unfold checksum_byte; by rewrite Eh, Ew).
  split_and!.
  - by rewrite L, (stn_zlen _ _ _ _ E).
  - rewrite <- (ldn_stn_same _ _ _ _ E), La. apply ldn_ext; [done|]. intros j Hj.
    apply F. rewrite C. unfold checksum_byte. intros [?|(w & Hw & ?)]; [lia|].
    destruct (sum_word_cases d w Hw); lia.
  - intros j Hj Hn. rewrite F by by rewrite C.
    rewrite (stn_lookup _ _ _ _ _ E), decide_False by lia. done.
  - by exists d0.
Qed.

(** ** Initialisation *)

Lemma pthread_create_step {B} t (k : list thread → M gw_state B) s :
  (∀ n, env_thread n = 0) → (pthread_create t ≫= k) s = k [t] (tick s).
Proof. intros Ht. unfold pthread_create. rewrite bind_assoc, ask_step, Ht. done. Qed.

Lemma conn_init_step {B} (k : Z → M gw_state B) s :
  (∀ j n, env_calloc j n = true) →
  (controller_conn_init ≫= k) s = k 1 (set_conn (Conn (-1) 0 0 0 None) (tick s)).
Proof.
  intros Ha. unfold controller_conn_init. rewrite bind_assoc, calloc_step by apply Ha. done.
Qed.

(** ** Messages from the controller *)

(** A vendor message of the testbed, after the OpenFlow header. *)
Definition vendor_msg (hd : bytes) (subtype : Z) (body : bytes) : bytes :=
  hd ++ be_enc 4 AP_EXPERIMENTER_ID ++ be_enc 4 subtype ++ body.

(** The body of a NAT entry message. *)
Definition nat_entry (sta pad nw_src nw_dst tp_src tp_dst : bytes) : bytes :=
  sta ++ pad ++ nw_src ++ nw_dst ++ tp_src ++ tp_dst.

Lemma handle_vendor_nat_add s m hd sta pad nw_src nw_dst tp_src tp_dst rest i :
  nat_inv s m → (∀ k n, env_calloc k n = true) →
  length hd = 8%nat → length sta = 6%nat → length pad = 2%nat →
  length nw_src = 4%nat → length nw_dst = 4%nat →
  length tp_src = 2%nat → length tp_dst = 2%nat → bytes_ok nw_src →
  ld8 nw_dst 3 = Some i → 0 ≤ i < MAXENTRY →
  ∃ s', handle_vendor (vendor_msg hd 20 (nat_entry sta pad nw_src nw_dst tp_src tp_dst) ++ rest) s
        = Ret () s' ∧
    nat_inv s' (<[(nw_dst, nat_dec tp_src, nat_dec tp_src) := nw_src]> m) ∧
    events (gw_sys s') = events (gw_sys s) ∧ gw_conn s' = gw_conn s.
Proof.
  intros I Ha Lh Ls Lp Lns Lnd Lts Ltd Os Hi Hb.
  unfold handle_vendor, vendor_msg, nat_entry.
  explode hd. explode sta. explode pad. explode tp_src. explode tp_dst.
  explode nw_src. explode nw_dst.
  change (be_enc 4 AP_EXPERIMENTER_ID) with [0; 0; 0; 1].
  change (be_enc 4 20) with [0; 0; 0; 20].
  match goal with |- context [?X ++ rest] =>
    let v := eval cbv [app] in X in change (X ++ rest) with (v ++ rest) end.
  load. rewrite (ntohl_dec _ 1) by concrete. cbn [Z.eqb Pos.eqb NX_VENDOR_ID AP_EXPERIMENTER_ID].
  load. rewrite (ntohl_dec _ 20) by concrete.
  change (enum_of (T:=gw_subtype) 20) with (Some GW_WLAN_NAT_ADD). cbv iota zeta.
  load_bytes. load_bytes. load.
  edestruct (claim_flow mret) as (s' & E & I' & Ev & Co & _);
    [exact I| |exact Hi|exact Hb| |exact Os|exact Ha|]; [done|done|].
  exists s'. split_and!; [|exact I'|done|done]. etrans; [|exact E].
  apply bind_ext. intros ? ?. apply bind_ext. intros p ?.
  symmetry. unfold mbind, M_bind. by destruct (node_write p _ _).
Qed.

(** [handle_flow_mod] looks at the command only. *)
Definition announce : M gw_state unit :=
  handle_flow_mod (replicate 56 0 ++ be_enc 2 (enum_val OFPFC_DELETE)).

Lemma handle_flow_mod_command s hd xs cmd rest :
  length hd = 8%nat → length xs = 48%nat →
  handle_flow_mod (hd ++ xs ++ be_enc 2 (enum_val cmd) ++ rest) s
  = match cmd with OFPFC_DELETE => announce s | _ => Ret () s end.
Proof.
  intros Lh Lx.
  assert (E : ldf ofp_flow_mod 0 ["command"] (hd ++ xs ++ be_enc 2 (enum_val cmd) ++ rest)
              = Some (nat_dec (be_enc 2 (enum_val cmd)))).
  { open_fields. unfold ldint. rewrite app_assoc.
    rewrite ldn_ok; [|lia|lia|rewrite !zlen_app, zlen_be_enc; unfold zlen; lia].
    cbn [fmap option_fmap option_map]. do 2 f_equal.
    rewrite drop_app_length' by (rewrite length_app, Lh, Lx; done).
    by rewrite take_app_length' by (by rewrite length_be_enc). }
  unfold handle_flow_mod at 1. rewrite (opt_step _ _ _ _ E).
  assert (N : ntohs (nat_dec (be_enc 2 (enum_val cmd))) = enum_val cmd).
  { unfold ntohs. rewrite (hton_dec 2 _ (enum_val cmd)); [done|apply be_enc_ok|apply length_be_enc|].
    rewrite be_dec_enc. by destruct cmd. }
  rewrite N, enum_of_val. destruct cmd; [reflexivity..| |reflexivity].
  unfold announce, handle_flow_mod. load. rewrite ntohs_dec by (split; lia). reflexivity.
Qed.

Lemma announce_sent s :
  (∀ k n, env_calloc k n = true) → sock (gw_conn s) ≠ -1 →
  ∃ r s', announce s = Ret () s' ∧
    events (gw_sys s') =
      EvSend (sock (gw_conn s))
        (ofp_msg (enum_val OFPT_VENDOR) (nat_enc 4 (htons (env_rand (1 + clock (gw_sys s)))))
           (be_enc 4 AP_EXPERIMENTER_ID ++ be_enc 4 (enum_val GW_CONNECT))) r
      :: events (gw_sys s).
Proof.
  intros Ha Hs. unfold announce, handle_flow_mod. load. rewrite ntohs_dec by (split; lia). change (256 * 0 + 3) with 3.
  change (enum_of (T:=ofp_flow_mod_command) 3) with (Some OFPFC_DELETE). cbv iota.
  rewrite calloc_step by apply Ha. change (replicate (Z.to_nat (sizeof ofp_wlan_header)) 0)
    with (replicate 16 0). cbv iota. cbn [replicate].
  store. store. rewrite ask_step. rewrite clock_tick.
  change (clock (get_sys s)) with (clock (gw_sys s)). cbn [Nat.add].
  pose proof (length_nat_enc 4 (htons (env_rand (S (clock (gw_sys s)))))) as Lx.
  remember (nat_enc 4 (htons (env_rand (S (clock (gw_sys s)))))) as xid eqn:Ex.
  symmetry in Ex. explode xid. store. store. unfold ntohl. store. store. load.
  rewrite ntohs_dec by (split; lia).
  pose proof (send_whole [1; 4; 0; 16; z; z0; z1; z2; 0; 0; 0; 1; 0; 0; 0; 100] (tick (tick s)) Hs) as E.
  do 2 eexists. split; [exact E|]. exact (f_equal events (get_sys_sent _ _ _)).
Qed.

End Facts.

(** ** Properties *)

Section Properties.
  Context `{Platform} `{Env}.

(** C4. The gateway implements the abstract translator: for every well-formed
    packet of either queue, [handle_pkt] returns, issues exactly one verdict,
    the one the specification asks for (the packet unchanged, or with the
    station's or the gateway's address in place and its checksums repaired),
    the table afterwards is the specified map, and the mutex is free again. *)
Theorem gateway_refines_nat s m q qh tb :
  nat_inv s m → pkt_ok q tb → (∀ k n, env_calloc k n = true) →
  let '(m', act) := nat_spec (gw_ifIP s) (gw_subnet s) q (nfq_payload tb) m in
  ∃ r s' ev, handle_pkt tb q qh s = Ret r s' ∧
    events (gw_sys s') = ev :: events (gw_sys s) ∧
    verdict_of qh tb act ev ∧ nat_inv s' m' ∧
    gw_ifIP s' = gw_ifIP s ∧ gw_subnet s' = gw_subnet s.
Proof. apply handle_pkt_sim. Qed.

(** C11. Round trip: a station opens a flow through the gateway; after any
    packets that do not claim the same flow, the answer of the remote host to
    the gateway's address is delivered with the station's address as
    destination. *)
Theorem nat_round_trip s m qh0 tb0 between qh1 tb1 :
  nat_inv s m → (∀ k n, env_calloc k n = true) →
  pkt_ok 0 tb0 → Forall (λ '(q, _, tb), pkt_ok q tb) between → pkt_ok 1 tb1 →
  in_subnet (src_of (nfq_payload tb0)) (gw_subnet s) = Some true →
  Forall (λ p, ¬ claims (gw_subnet s) (flow_out (nfq_payload tb0)) p) between →
  dst_of (nfq_payload tb1) = gw_ifIP s →
  flow_in (nfq_payload tb1) = flow_out (nfq_payload tb0) →
  ∃ s1 r s2 ev,
    handle_all ((0, qh0, tb0) :: between) s = Ret () s1 ∧
    handle_pkt tb1 1 qh1 s1 = Ret r s2 ∧
    events (gw_sys s2) = ev :: events (gw_sys s1) ∧
    verdict_of qh1 tb1 (Rewrite 16 (src_of (nfq_payload tb0))) ev.
Proof.
  intros I Ha P0 PB P1 Hsub HB Hdst Hflow.
  destruct (handle_all_sim ((0, qh0, tb0) :: between) s m I) as (s1 & E1 & I1 & Fi & Su & _);
    [by constructor|done|].
  set (m1 := nat_spec_all _ _ _ _) in I1.
  assert (Hm : m1 !! flow_in (nfq_payload tb1) = Some (src_of (nfq_payload tb0))).
  { unfold m1. cbn [nat_spec_all]. rewrite Hflow, nat_spec_all_keeps by done.
    unfold nat_spec. cbn [Z.eqb]. rewrite decide_True by done. apply lookup_insert_eq. }
  pose proof (handle_in s1 m1 qh1 tb1 I1 P1) as Hh. rewrite Fi in Hh. cbv zeta in Hh.
  rewrite Hm in Hh. destruct (Hh Hdst) as (r & s2 & ev & E2 & Hev & Hv & _).
  by exists s1, r, s2, ev.
Qed.

(** C23. Rewriting is confined: the packet that leaves has the length of the one
    that came, the new address in place, and differs from it only in that
    address and in the IP and transport checksums; and receivers accept both
    checksums unless folding the carries of the sum once leaves a carry. *)
Theorem rewritten_packet_valid d off addr d' :
  ip_ok d → off = 12 ∨ off = 16 → zlen addr = 4 → bytes_ok addr → rewritten off addr d d' →
  zlen d' = zlen d ∧ ldn d' off 4 = Some addr ∧
  (∀ i, ¬ checksum_byte d (Z.of_nat i) → ¬ off ≤ Z.of_nat i < off + 4 → d' !! i = d !! i) ∧
  ∀ d0, stn d off addr = Some d0 →
    (second_carry (zsum (ip_words 5 d0)) = false → valid_ip d') ∧
    (∀ w, sum_word d = Some w → second_carry (zsum (transport_words w d0)) = false →
          valid_transport d').
Proof.
  intros Hd Ho La Oa R.
  destruct (rewritten_fields d off addr d' Hd Ho La Oa R)
    as (L & A & F & d0 & E & Hd0 & E' & Ew & _).
  split_and!; [done|done|done|]. intros d0'. rewrite E. intros [= <-]. split.
  - by apply fix_checksums_valid_ip.
  - intros w Hw. rewrite <- Ew in Hw. by apply fix_checksums_valid_transport.
Qed.

(** C35. Stations that use the same port to the same remote service collide:
    after the second one's packet, the answers to the first one are delivered
    to the second. *)
Theorem gateway_flow_collision s m qh tb0 tb1 tb2 :
  nat_inv s m → (∀ k n, env_calloc k n = true) →
  pkt_ok 0 tb0 → pkt_ok 0 tb1 → pkt_ok 1 tb2 →
  in_subnet (src_of (nfq_payload tb0)) (gw_subnet s) = Some true →
  in_subnet (src_of (nfq_payload tb1)) (gw_subnet s) = Some true →
  flow_out (nfq_payload tb1) = flow_out (nfq_payload tb0) →
  dst_of (nfq_payload tb2) = gw_ifIP s →
  flow_in (nfq_payload tb2) = flow_out (nfq_payload tb0) →
  ∃ s1 r s2 ev,
    handle_all [(0, qh, tb0); (0, qh, tb1)] s = Ret () s1 ∧
    handle_pkt tb2 1 qh s1 = Ret r s2 ∧
    events (gw_sys s2) = ev :: events (gw_sys s1) ∧
    verdict_of qh tb2 (Rewrite 16 (src_of (nfq_payload tb1))) ev.
Proof.
  intros I Ha P0 P1 P2 H0' H1' Hf Hdst Hflow.
  destruct (handle_all_sim [(0, qh, tb0); (0, qh, tb1)] s m I) as (s1 & E1 & I1 & Fi & Su & _);
    [by rewrite !Forall_cons|done|].
  set (m1 := nat_spec_all _ _ _ _) in I1.
  assert (Hm : m1 !! flow_in (nfq_payload tb2) = Some (src_of (nfq_payload tb1))).
  { unfold m1. cbn [nat_spec_all]. unfold nat_spec. cbn [Z.eqb].
    rewrite !decide_True by done. simpl. rewrite Hflow, Hf. apply lookup_insert_eq. }
  pose proof (handle_in s1 m1 qh tb2 I1 P2) as Hh. rewrite Fi in Hh. cbv zeta in Hh.
  rewrite Hm in Hh. destruct (Hh Hdst) as (r & s2 & ev & E2 & Hev & Hv & _).
  by exists s1, r, s2, ev.
Qed.

(** The table is one bucket short: a packet of the subnet to an address
    that ends in 255 makes the gateway read [table[255]] of an array of 255
    pointers. *)
Theorem gateway_index_255 s m tb qh :
  nat_inv s m → ip_ok (nfq_payload tb) → 0 ≤ nfq_ret tb →
  in_subnet (src_of (nfq_payload tb)) (gw_subnet s) = Some true →
  ld8 (dst_of (nfq_payload tb)) 3 = Some 255 →
  handle_pkt tb 0 qh s = Crash.
Proof.
  intros I Hip Hr Hsub H255. set (d := nfq_payload tb) in *.
  destruct (addr_fields d Hip) as (Es & Ed & Ls & Ld & Os & Od).
  destruct (port_fields d Hip) as [Ep Eq].
  unfold handle_pkt. fold d. replace (0 <=? nfq_ret tb) with true by lia.
  rewrite (opt_step _ _ _ _ Es), (opt_step _ _ _ _ Ed). cbn [Z.eqb].
  rewrite gets_step, (opt_step _ _ _ _ Hsub). cbv iota.
  rewrite (opt_step _ _ _ _ (ihl_ok d Hip)), (opt_step _ _ _ _ Ep), (opt_step _ _ _ _ Eq).
  unfold mbind at 1, M_bind. unfold lookupNatMap.
  erewrite (locked_search_oob (A:=natMap)); [done|exact (ni_mutex _ _ I)|exact H255|].
  change (get_tab s) with (gw_tab s). rewrite (ni_size _ _ I). unfold MAXENTRY. lia.
Qed.

(** C36. An entry added by the controller is filed under the wrong flow: a
    WLAN_NAT_ADD message for the station [nw_src], the remote host [nw_dst] and
    the ports [tp_src] and [tp_dst] makes the entry of the flow whose two ports
    are both [tp_src]; [tp_dst] is not used. *)
Theorem gateway_nat_add_port s m hd sta pad nw_src nw_dst tp_src tp_dst rest i :
  nat_inv s m → (∀ k n, env_calloc k n = true) →
  length hd = 8%nat → length sta = 6%nat → length pad = 2%nat →
  length nw_src = 4%nat → length nw_dst = 4%nat →
  length tp_src = 2%nat → length tp_dst = 2%nat → bytes_ok nw_src →
  ld8 nw_dst 3 = Some i → 0 ≤ i < MAXENTRY →
  let msg := vendor_msg hd 20 (nat_entry sta pad nw_src nw_dst tp_src tp_dst) in
  ∃ s', handle_vendor (msg ++ rest) s = Ret () s' ∧
    nat_inv s' (<[(nw_dst, nat_dec tp_src, nat_dec tp_src) := nw_src]> m) ∧
    events (gw_sys s') = events (gw_sys s) ∧ gw_conn s' = gw_conn s.
Proof. intros. by eapply handle_vendor_nat_add. Qed.

(** A FLOW_MOD that deletes flows makes the gateway announce itself: it
    sends the 16-byte vendor message GW_CONNECT of the testbed, with a random
    transaction id of 16 bits; the other FLOW_MOD commands are ignored. *)
Theorem gateway_announces s hd xs cmd rest :
  (∀ k n, env_calloc k n = true) → sock (gw_conn s) ≠ -1 →
  length hd = 8%nat → length xs = 48%nat →
  let oh := hd ++ xs ++ be_enc 2 (enum_val cmd) ++ rest in
  if decide (cmd = OFPFC_DELETE) then
    ∃ r s', handle_flow_mod oh s = Ret () s' ∧
      events (gw_sys s') =
        EvSend (sock (gw_conn s))
          (ofp_msg (enum_val OFPT_VENDOR) (nat_enc 4 (htons (env_rand (1 + clock (gw_sys s)))))
             (be_enc 4 AP_EXPERIMENTER_ID ++ be_enc 4 (enum_val GW_CONNECT))) r
        :: events (gw_sys s)
  else handle_flow_mod oh s = Ret () s.
Proof.
  intros Ha Hs Lh Lx oh. pose proof (handle_flow_mod_command s hd xs cmd rest Lh Lx) as E.
  fold oh in E. rewrite E. case_decide as D; [subst cmd; by apply announce_sent|].
  clearbody oh. clear E. destruct cmd; [reflexivity..| |reflexivity]. by destruct D.
Qed.

(** C30. Initialisation establishes the invariant: when the interface and the
    subnet argument are good and memory is available, [main] starts the
    controller thread and the two queue threads with an empty translation map,
    the mutex free, and the connection closed. *)
Theorem main_establishes_inv s sin_addr c0 c1 c2 c3 :
  (∀ k n, env_calloc k n = true) → (∀ k, env_thread k = 0) →
  zlen sin_addr = 4 → bytes_ok sin_addr →
  ∃ s', main 0 sin_addr (Some (c0, c1, c2, c3)) s
        = Ret (inr [ControllerThread; QueueThread 0; QueueThread 1]) s' ∧
    nat_inv s' ∅ ∧ gw_ifIP s' = sin_addr ∧ gw_subnet s' = fmt_subnet c0 c1 c2 ∧
    gw_conn s' = Conn (-1) 0 0 0 None ∧ gw_loop s' = true.
Proof.
  intros Ha Ht La Oa. unfold main. cbn [Z.eqb negb].
  rewrite calloc_step by apply Ha. cbv iota. rewrite calloc_step by apply Ha.
  cbv iota zeta. rewrite modify_step, conn_init_step by done.
  cbn [Z.eqb negb]. rewrite !pthread_create_step by done.
  eexists. split_and!; [reflexivity|constructor|done..]; cbn.
  - eexists. apply map_rep_empty.
  - done.
  - done.
  - done.
  - intros k a. by rewrite lookup_empty.
Qed.

End Properties.

(** ** Examples *)

(** UDP, 192.168.5.9 port 4000 to 10.6.21.107 port 53, one byte of data, in a
    32-byte buffer; and the answer to the gateway's address 10.6.15.2. *)
Definition query_pkt : nfq_data := NfqData (Some 7) 29
  [69; 0; 0; 29; 0; 7; 64; 0; 64; 17; 0; 0; 192; 168; 5; 9; 10; 6; 21; 107;
   15; 160; 0; 53; 0; 9; 0; 0; 65; 0; 0; 0].
Definition query_pkt_2 : nfq_data := NfqData (Some 8) 29
  [69; 0; 0; 29; 0; 7; 64; 0; 64; 17; 0; 0; 192; 168; 5; 44; 10; 6; 21; 107;
   15; 160; 0; 53; 0; 9; 0; 0; 65; 0; 0; 0].
Definition answer_pkt : nfq_data := NfqData (Some 9) 29
  [69; 0; 0; 29; 0; 7; 64; 0; 64; 17; 0; 0; 10; 6; 21; 107; 10; 6; 15; 2;
   0; 53; 15; 160; 0; 9; 0; 0; 66; 0; 0; 0].

Definition gw_start : gw_state :=
  Gw (Conn 3 0 0 0 None) (Sys 0 []) (empty_tab 255) false [10; 6; 15; 2]
     (fmt_subnet 192 168 5) true.

Definition gw_env : Env := env_with (λ _ _, None) (λ _ m, zlen m).

Ltac pkt_concrete :=
  constructor; [constructor|..];
  first [ solve [apply (bool_decide_unpack _); vm_compute; done]
        | solve [intros w E; vm_compute in E; injection E as <-; vm_compute; congruence]
        | solve [split; vm_compute; congruence]
        | solve [intros _; vm_compute; congruence]
        | solve [intros ?; lia]
        | solve [vm_compute; congruence] ].

Lemma gw_start_inv : nat_inv gw_start ∅.
Proof.
  constructor; cbn; try done.
  - eexists. apply map_rep_empty.
  - split; [done|]. by apply (bool_decide_unpack _).
Qed.

Lemma gateway_refines_nat_witness :
  nat_inv gw_start ∅ ∧ @pkt_ok 0 query_pkt ∧
  ∃ r s' ev, @handle_pkt lp64_le gw_env query_pkt 0 5 gw_start = Ret r s' ∧
    events (gw_sys s') = [ev] ∧
    @verdict_of lp64_le 5 query_pkt (Rewrite 12 [10; 6; 15; 2]) ev.
Proof.
  pose proof gw_start_inv as I. assert (P : pkt_ok 0 query_pkt) by pkt_concrete.
  split; [exact I|]. split; [exact P|].
  pose proof (@gateway_refines_nat lp64_le gw_env gw_start ∅ 0 5 query_pkt I P
    (λ _ _, eq_refl)) as W.
  change (@nat_spec lp64_le (gw_ifIP gw_start) (gw_subnet gw_start) 0 (nfq_payload query_pkt) ∅)
    with (<[@flow_out lp64_le (nfq_payload query_pkt) := [192; 168; 5; 9]]> (∅ : gmap flow bytes),
          Rewrite 12 [10; 6; 15; 2]) in W.
  destruct W as (r & s' & ev & E & Hev & Hv & _). exists r, s', ev.
  split; [exact E|split; [exact Hev|exact Hv]].
Defined.

Lemma nat_round_trip_witness :
  ∃ s1 r s2 ev,
    @handle_all lp64_le gw_env [(0, 5, query_pkt); (1, 6, query_pkt_2)] gw_start = Ret () s1 ∧
    @handle_pkt lp64_le gw_env answer_pkt 1 6 s1 = Ret r s2 ∧
    events (gw_sys s2) = ev :: events (gw_sys s1) ∧
    @verdict_of lp64_le 6 answer_pkt (Rewrite 16 [192; 168; 5; 9]) ev.
Proof.
  assert (P0 : pkt_ok 0 query_pkt) by pkt_concrete.
  assert (PB : pkt_ok 1 query_pkt_2) by pkt_concrete.
  assert (P1 : pkt_ok 1 answer_pkt) by pkt_concrete.
  apply (@nat_round_trip lp64_le gw_env gw_start ∅ 5 query_pkt [(1, 6, query_pkt_2)] 6 answer_pkt
           gw_start_inv (λ _ _, eq_refl) P0).
  - by constructor.
  - exact P1.
  - vm_compute. reflexivity.
  - constructor; [|constructor]. intros (Hq & _). lia.
  - vm_compute. reflexivity.
  - vm_compute. reflexivity.
Defined.

(** The packet of [query_pkt], as it leaves the gateway. *)
Definition query_out : bytes :=
  default [] (@fix_checksums lp64_le (default [] (stn (nfq_payload query_pkt) 12 [10; 6; 15; 2]))).

Lemma rewritten_packet_valid_witness :
  ldn query_out 12 4 = Some [10; 6; 15; 2] ∧ valid_ip query_out ∧ valid_transport query_out.
Proof.
  assert (P : pkt_ok 0 query_pkt) by pkt_concrete.
  destruct (@rewritten_packet_valid lp64_le (nfq_payload query_pkt) 12 [10; 6; 15; 2] query_out
              (po_ip _ _ P)) as (_ & A & _ & V).
  - left. reflexivity.
  - reflexivity.
  - concrete.
  - exists (default [] (stn (nfq_payload query_pkt) 12 [10; 6; 15; 2])).
    split; vm_compute; reflexivity.
  - destruct (V (default [] (stn (nfq_payload query_pkt) 12 [10; 6; 15; 2]))) as [V1 V2];
      [vm_compute; reflexivity|].
    split; [exact A|]. split.
    + apply V1. vm_compute. reflexivity.
    + apply (V2 3); vm_compute; reflexivity.
Defined.

Lemma gateway_flow_collision_witness :
  src_of (nfq_payload query_pkt) ≠ src_of (nfq_payload query_pkt_2) ∧
  ∃ s1 r s2 ev,
    @handle_all lp64_le gw_env [(0, 5, query_pkt); (0, 5, query_pkt_2)] gw_start = Ret () s1 ∧
    @handle_pkt lp64_le gw_env answer_pkt 1 5 s1 = Ret r s2 ∧
    events (gw_sys s2) = ev :: events (gw_sys s1) ∧
    @verdict_of lp64_le 5 answer_pkt (Rewrite 16 [192; 168; 5; 44]) ev.
Proof.
  assert (P0 : pkt_ok 0 query_pkt) by pkt_concrete.
  assert (P1 : pkt_ok 0 query_pkt_2) by pkt_concrete.
  assert (P2 : pkt_ok 1 answer_pkt) by pkt_concrete.
  split; [vm_compute; congruence|].
  apply (@gateway_flow_collision lp64_le gw_env gw_start ∅ 5 query_pkt query_pkt_2 answer_pkt
           gw_start_inv (λ _ _, eq_refl) P0 P1 P2); vm_compute; reflexivity.
Defined.

(** The same query to 10.6.21.255. *)
Definition broadcast_pkt : nfq_data := NfqData (Some 7) 29
  [69; 0; 0; 29; 0; 7; 64; 0; 64; 17; 0; 0; 192; 168; 5; 9; 10; 6; 21; 255;
   15; 160; 0; 53; 0; 9; 0; 0; 65; 0; 0; 0].

Lemma gateway_index_255_witness :
  @handle_pkt lp64_le gw_env broadcast_pkt 0 5 gw_start = Crash.
Proof.
  assert (P : pkt_ok 1 broadcast_pkt) by pkt_concrete.
  apply (@gateway_index_255 lp64_le gw_env gw_start ∅ broadcast_pkt 5 gw_start_inv (po_ip _ _ P));
    vm_compute; congruence.
Defined.

Lemma gateway_nat_add_port_witness :
  ∃ s', @handle_vendor lp64_le gw_env
      (vendor_msg [1; 4; 0; 36; 0; 0; 0; 3] 20
         (nat_entry [2; 0; 0; 0; 0; 9] [0; 0] [192; 168; 5; 9] [10; 6; 21; 107] [15; 160] [0; 53])
       ++ []) gw_start = Ret () s' ∧
    nat_inv s' (<[([10; 6; 21; 107], 40975, 40975) := [192; 168; 5; 9]]> ∅) ∧
    events (gw_sys s') = [] ∧ gw_conn s' = gw_conn gw_start.
Proof.
  exact (@gateway_nat_add_port lp64_le gw_env gw_start ∅ [1; 4; 0; 36; 0; 0; 0; 3]
    [2; 0; 0; 0; 0; 9] [0; 0] [192; 168; 5; 9] [10; 6; 21; 107] [15; 160] [0; 53] [] 107
    gw_start_inv (λ _ _, eq_refl) eq_refl eq_refl eq_refl eq_refl eq_refl eq_refl eq_refl
    ltac:(concrete) eq_refl ltac:(split; vm_compute; congruence)).
Defined.

Lemma gateway_announces_witness :
  ∃ r s', @handle_flow_mod lp64_le gw_env
      ([1; 14; 0; 72; 0; 0; 0; 4] ++ replicate 48 0 ++ [0; 3] ++ replicate 14 0) gw_start
    = Ret () s' ∧
    events (gw_sys s') =
      [EvSend 3 [1; 4; 0; 16; 0; 7; 0; 0; 0; 0; 0; 1; 0; 0; 0; 100] r].
Proof.
  exact (@gateway_announces lp64_le gw_env gw_start [1; 14; 0; 72; 0; 0; 0; 4] (replicate 48 0)
    OFPFC_DELETE (replicate 14 0) (λ _ _, eq_refl) ltac:(vm_compute; congruence) eq_refl eq_refl).
Defined.

Lemma main_establishes_inv_witness :
  ∃ s', @main lp64_le gw_env 0 [10; 6; 15; 2] (Some (192, 168, 5, 0)) gw_start
        = Ret (inr [ControllerThread; QueueThread 0; QueueThread 1]) s' ∧
    nat_inv s' ∅ ∧ gw_ifIP s' = [10; 6; 15; 2] ∧ gw_subnet s' = fmt_subnet 192 168 5 ∧
    gw_conn s' = Conn (-1) 0 0 0 None ∧ gw_loop s' = true.
Proof.
  apply (@main_establishes_inv lp64_le gw_env gw_start [10; 6; 15; 2] 192 168 5 0); concrete.
Defined.
