(* ===== verification/ApData.v ===== *)
(** * Data of the access point's controller interface

    The structures of [src/ofSwitchAP/controller_interface.h] and
    [controller_interface.c] that live on the heap: stations known to the
    interface, translation entries, packets held until the controller has
    assigned a port. *)

From Stdlib Require Import ZArith Lia.
From S2P Require Import Prelude CMem OpenFlow.

(** [enum STAStatus]; [calloc] makes a new station [SELECTED]. *)
Inductive STAStatus := SELECTED | NOT_AUTHENTICATED | AUTHENTICATED | ASSOCIATED.

#[global, refine] Instance STAStatus_enum : CEnum STAStatus := {|
  enum_val t := match t with
    | SELECTED => 0 | NOT_AUTHENTICATED => 1 | AUTHENTICATED => 2 | ASSOCIATED => 3
    end;
  enum_all := [SELECTED; NOT_AUTHENTICATED; AUTHENTICATED; ASSOCIATED] |}.
Proof. all: enum_tac. Defined.

(** [struct infoSTA]; [supported_rates] has 32 bytes, [ipaddr] is [None] when
    the pointer is null. *)
Record infoSTA := InfoSTA {
  address : bytes;
  status : STAStatus;
  lastReceivedSignalStrength : Z;
  auth_alg : Z;
  aid : Z;
  capability : Z;
  listen_interval : Z;
  supported_rates : bytes;
  supported_rates_len : Z;
  qosinfo : Z;
  ipaddr : option bytes;
  tunNum : Z;
}.

Definition set_status v s :=
  InfoSTA (address s) v (lastReceivedSignalStrength s) (auth_alg s) (aid s) (capability s)
    (listen_interval s) (supported_rates s) (supported_rates_len s) (qosinfo s) (ipaddr s)
    (tunNum s).
Definition set_rssi v s :=
  InfoSTA (address s) (status s) v (auth_alg s) (aid s) (capability s)
    (listen_interval s) (supported_rates s) (supported_rates_len s) (qosinfo s) (ipaddr s)
    (tunNum s).
Definition set_auth_alg v s :=
  InfoSTA (address s) (status s) (lastReceivedSignalStrength s) v (aid s) (capability s)
    (listen_interval s) (supported_rates s) (supported_rates_len s) (qosinfo s) (ipaddr s)
    (tunNum s).
Definition set_assoc_data a c li q rates len s :=
  InfoSTA (address s) (status s) (lastReceivedSignalStrength s) (auth_alg s) a c li rates len q
    (ipaddr s) (tunNum s).
Definition set_ipaddr v s :=
  InfoSTA (address s) (status s) (lastReceivedSignalStrength s) (auth_alg s) (aid s)
    (capability s) (listen_interval s) (supported_rates s) (supported_rates_len s) (qosinfo s)
    v (tunNum s).
Definition set_tunNum v s :=
  InfoSTA (address s) (status s) (lastReceivedSignalStrength s) (auth_alg s) (aid s)
    (capability s) (listen_interval s) (supported_rates s) (supported_rates_len s) (qosinfo s)
    (ipaddr s) v.

(** [calloc(1, sizeof(struct infoSTA))] with the address filled in. *)
Definition new_infoSTA (a : bytes) : infoSTA :=
  InfoSTA a SELECTED 0 0 0 0 0 (replicate 32 0) 0 0 None 0.

(** [struct natMap] of the access point, with the port the controller assigned. *)
Record natMap := NatMap {
  src_addr : bytes;
  dst_addr : bytes;
  src_port : Z;
  dst_port : Z;
  new_port : Z;
}.

Definition set_new_port v e := NatMap (src_addr e) (dst_addr e) (src_port e) (dst_port e) v.

(** [struct PortData]: a held packet. *)
Record PortData := PortDat {
  pd_qh : Z;
  packet_id : Z;
  pd_ret : Z;
  packet : bytes;
}.

Definition set_packet v p := PortDat (pd_qh p) (packet_id p) (pd_ret p) v.

Definition MAX_PACKET_SIZE : Z := 0xffff.
