(* ===== verification/Station.v ===== *)
(** * hostapd's stations: [add_STA] and [remove_STA]

    The access point's controller thread adds and removes stations of hostapd
    ([src/ap/ieee802_11.c], [add_STA] and [remove_STA]) through hostapd's own
    station table ([src/ap/sta_info.c]).  This file models the table, the
    counters of the interface that decide when beacons change, and the two
    functions, for the build of the repository's [.config] (no IEEE80211N,
    IEEE80211R, SAE, FILS, MESH, P2P; with VLANs and RSN_PREAUTH).  Calls of other parts of hostapd (driver,
    accounting, EAPOL, WPA) are recorded as events with their constant flag
    argument; the ones whose result matters are answered by the environment, and
    what they write to the members of the station they own ([eapol_sm],
    [acct_session_id]) is not modelled.  Nor are log messages and the release of
    the buffers a station owns. *)

From Stdlib Require Import ZArith Lia.
From S2P Require Import Prelude CMem CMonad Chain ApData.

Module Hapd.

(** Members of [struct sta_info] that only the handlers of frames use. *)
Record sta_mlme := StaMlme {
  challenge : option bytes;
  wpa_sm : bool;
  sa_query_trans_id : list bytes;  (** [sa_query_count] is their number *)
  ft_over_ds : bool;
  ecsa_supported : bool;
  ext_capability : option bytes;  (** its length first *)
  supp_op_classes : option bytes;  (** its length first *)
  rrm_enabled_capa : bytes;
  min_tx_power : Z;
  max_tx_power : Z;
  power_capab : bool;
  session_timeout_set : bool;
  deauth_reason : Z;
  disassoc_reason : Z;
}.

Definition set_challenge (v : option bytes) (s : sta_mlme) : sta_mlme :=
  StaMlme v (wpa_sm s) (sa_query_trans_id s) (ft_over_ds s) (ecsa_supported s)
    (ext_capability s) (supp_op_classes s) (rrm_enabled_capa s) (min_tx_power s)
    (max_tx_power s) (power_capab s) (session_timeout_set s) (deauth_reason s)
    (disassoc_reason s).
Definition set_wpa_sm (v : bool) (s : sta_mlme) : sta_mlme :=
  StaMlme (challenge s) v (sa_query_trans_id s) (ft_over_ds s) (ecsa_supported s)
    (ext_capability s) (supp_op_classes s) (rrm_enabled_capa s) (min_tx_power s)
    (max_tx_power s) (power_capab s) (session_timeout_set s) (deauth_reason s)
    (disassoc_reason s).
Definition set_sa_query_trans_id (v : list bytes) (s : sta_mlme) : sta_mlme :=
  StaMlme (challenge s) (wpa_sm s) v (ft_over_ds s) (ecsa_supported s) (ext_capability
    s) (supp_op_classes s) (rrm_enabled_capa s) (min_tx_power s) (max_tx_power s)
    (power_capab s) (session_timeout_set s) (deauth_reason s) (disassoc_reason s).
Definition set_ft_over_ds (v : bool) (s : sta_mlme) : sta_mlme :=
  StaMlme (challenge s) (wpa_sm s) (sa_query_trans_id s) v (ecsa_supported s)
    (ext_capability s) (supp_op_classes s) (rrm_enabled_capa s) (min_tx_power s)
    (max_tx_power s) (power_capab s) (session_timeout_set s) (deauth_reason s)
    (disassoc_reason s).
Definition set_ecsa_supported (v : bool) (s : sta_mlme) : sta_mlme :=
  StaMlme (challenge s) (wpa_sm s) (sa_query_trans_id s) (ft_over_ds s) v (ext_capability
    s) (supp_op_classes s) (rrm_enabled_capa s) (min_tx_power s) (max_tx_power s)
    (power_capab s) (session_timeout_set s) (deauth_reason s) (disassoc_reason s).
Definition set_ext_capability (v : option bytes) (s : sta_mlme) : sta_mlme :=
  StaMlme (challenge s) (wpa_sm s) (sa_query_trans_id s) (ft_over_ds s) (ecsa_supported s)
    v (supp_op_classes s) (rrm_enabled_capa s) (min_tx_power s) (max_tx_power s)
    (power_capab s) (session_timeout_set s) (deauth_reason s) (disassoc_reason s).
Definition set_supp_op_classes (v : option bytes) (s : sta_mlme) : sta_mlme :=
  StaMlme (challenge s) (wpa_sm s) (sa_query_trans_id s) (ft_over_ds s) (ecsa_supported s)
    (ext_capability s) v (rrm_enabled_capa s) (min_tx_power s) (max_tx_power s)
    (power_capab s) (session_timeout_set s) (deauth_reason s) (disassoc_reason s).
Definition set_rrm_enabled_capa (v : bytes) (s : sta_mlme) : sta_mlme :=
  StaMlme (challenge s) (wpa_sm s) (sa_query_trans_id s) (ft_over_ds s) (ecsa_supported s)
    (ext_capability s) (supp_op_classes s) v (min_tx_power s) (max_tx_power s)
    (power_capab s) (session_timeout_set s) (deauth_reason s) (disassoc_reason s).
Definition set_min_tx_power (v : Z) (s : sta_mlme) : sta_mlme :=
  StaMlme (challenge s) (wpa_sm s) (sa_query_trans_id s) (ft_over_ds s) (ecsa_supported s)
    (ext_capability s) (supp_op_classes s) (rrm_enabled_capa s) v (max_tx_power s)
    (power_capab s) (session_timeout_set s) (deauth_reason s) (disassoc_reason s).
Definition set_max_tx_power (v : Z) (s : sta_mlme) : sta_mlme :=
  StaMlme (challenge s) (wpa_sm s) (sa_query_trans_id s) (ft_over_ds s) (ecsa_supported s)
    (ext_capability s) (supp_op_classes s) (rrm_enabled_capa s) (min_tx_power s) v
    (power_capab s) (session_timeout_set s) (deauth_reason s) (disassoc_reason s).
Definition set_power_capab (v : bool) (s : sta_mlme) : sta_mlme :=
  StaMlme (challenge s) (wpa_sm s) (sa_query_trans_id s) (ft_over_ds s) (ecsa_supported s)
    (ext_capability s) (supp_op_classes s) (rrm_enabled_capa s) (min_tx_power s)
    (max_tx_power s) v (session_timeout_set s) (deauth_reason s) (disassoc_reason s).
Definition set_session_timeout_set (v : bool) (s : sta_mlme) : sta_mlme :=
  StaMlme (challenge s) (wpa_sm s) (sa_query_trans_id s) (ft_over_ds s) (ecsa_supported s)
    (ext_capability s) (supp_op_classes s) (rrm_enabled_capa s) (min_tx_power s)
    (max_tx_power s) (power_capab s) v (deauth_reason s) (disassoc_reason s).
Definition set_deauth_reason (v : Z) (s : sta_mlme) : sta_mlme :=
  StaMlme (challenge s) (wpa_sm s) (sa_query_trans_id s) (ft_over_ds s) (ecsa_supported s)
    (ext_capability s) (supp_op_classes s) (rrm_enabled_capa s) (min_tx_power s)
    (max_tx_power s) (power_capab s) (session_timeout_set s) v (disassoc_reason s).
Definition set_disassoc_reason (v : Z) (s : sta_mlme) : sta_mlme :=
  StaMlme (challenge s) (wpa_sm s) (sa_query_trans_id s) (ft_over_ds s) (ecsa_supported s)
    (ext_capability s) (supp_op_classes s) (rrm_enabled_capa s) (min_tx_power s)
    (max_tx_power s) (power_capab s) (session_timeout_set s) (deauth_reason s) v.
(** All null, all zero. *)
Definition new_mlme : sta_mlme :=
  StaMlme None false [] false false None None (replicate 5 0) 0 0 false false 0 0.

Definition sa_query_count (s : sta_mlme) : Z := zlen (sa_query_trans_id s).

(** Members of [struct sta_info] that the code reads or writes; pointers to
    objects of other parts of hostapd are [true] when they are not null. *)
Record sta_info := StaInfo {
  addr : bytes;
  ipaddr : Z;
  aid : Z;
  flags : Z;
  capability : Z;
  listen_interval : Z;
  supported_rates : bytes;
  supported_rates_len : Z;
  qosinfo : Z;
  nonerp_set : bool;
  no_short_slot_time_set : bool;
  no_short_preamble_set : bool;
  no_ht_gf_set : bool;
  no_ht_set : bool;
  ht_20mhz_set : bool;
  added_unassoc : bool;
  pending_wds_enable : bool;
  auth_alg : Z;
  timeout_next : Z;
  eapol_sm : bool;
  pending_eapol_rx : bool;
  acct_terminate_cause : Z;
  acct_interim_interval : Z;
  vlan_id : Z;
  vlan_id_bound : Z;
  psk : bool;
  identity : bool;
  radius_cui : bool;
  sa_query_timed_out : bool;
  last_seq_ctrl : Z;
  last_subtype : Z;
  mlme : sta_mlme;
}.

Definition set_aid (v : Z) (s : sta_info) : sta_info :=
  StaInfo (addr s) (ipaddr s) v (flags s) (capability s) (listen_interval s)
    (supported_rates s) (supported_rates_len s) (qosinfo s) (nonerp_set s)
    (no_short_slot_time_set s) (no_short_preamble_set s) (no_ht_gf_set s) (no_ht_set s)
    (ht_20mhz_set s) (added_unassoc s) (pending_wds_enable s) (auth_alg s) (timeout_next
    s) (eapol_sm s) (pending_eapol_rx s) (acct_terminate_cause s) (acct_interim_interval
    s) (vlan_id s) (vlan_id_bound s) (psk s) (identity s) (radius_cui s)
    (sa_query_timed_out s) (last_seq_ctrl s) (last_subtype s) (mlme s).
Definition set_flags (v : Z) (s : sta_info) : sta_info :=
  StaInfo (addr s) (ipaddr s) (aid s) v (capability s) (listen_interval s)
    (supported_rates s) (supported_rates_len s) (qosinfo s) (nonerp_set s)
    (no_short_slot_time_set s) (no_short_preamble_set s) (no_ht_gf_set s) (no_ht_set s)
    (ht_20mhz_set s) (added_unassoc s) (pending_wds_enable s) (auth_alg s) (timeout_next
    s) (eapol_sm s) (pending_eapol_rx s) (acct_terminate_cause s) (acct_interim_interval
    s) (vlan_id s) (vlan_id_bound s) (psk s) (identity s) (radius_cui s)
    (sa_query_timed_out s) (last_seq_ctrl s) (last_subtype s) (mlme s).
Definition set_capability (v : Z) (s : sta_info) : sta_info :=
  StaInfo (addr s) (ipaddr s) (aid s) (flags s) v (listen_interval s) (supported_rates
    s) (supported_rates_len s) (qosinfo s) (nonerp_set s) (no_short_slot_time_set s)
    (no_short_preamble_set s) (no_ht_gf_set s) (no_ht_set s) (ht_20mhz_set s)
    (added_unassoc s) (pending_wds_enable s) (auth_alg s) (timeout_next s) (eapol_sm s)
    (pending_eapol_rx s) (acct_terminate_cause s) (acct_interim_interval s) (vlan_id s)
    (vlan_id_bound s) (psk s) (identity s) (radius_cui s) (sa_query_timed_out s)
    (last_seq_ctrl s) (last_subtype s) (mlme s).
Definition set_listen_interval (v : Z) (s : sta_info) : sta_info :=
  StaInfo (addr s) (ipaddr s) (aid s) (flags s) (capability s) v (supported_rates s)
    (supported_rates_len s) (qosinfo s) (nonerp_set s) (no_short_slot_time_set s)
    (no_short_preamble_set s) (no_ht_gf_set s) (no_ht_set s) (ht_20mhz_set s)
    (added_unassoc s) (pending_wds_enable s) (auth_alg s) (timeout_next s) (eapol_sm s)
    (pending_eapol_rx s) (acct_terminate_cause s) (acct_interim_interval s) (vlan_id s)
    (vlan_id_bound s) (psk s) (identity s) (radius_cui s) (sa_query_timed_out s)
    (last_seq_ctrl s) (last_subtype s) (mlme s).
Definition set_supported_rates (v : bytes) (s : sta_info) : sta_info :=
  StaInfo (addr s) (ipaddr s) (aid s) (flags s) (capability s) (listen_interval s) v
    (supported_rates_len s) (qosinfo s) (nonerp_set s) (no_short_slot_time_set s)
    (no_short_preamble_set s) (no_ht_gf_set s) (no_ht_set s) (ht_20mhz_set s)
    (added_unassoc s) (pending_wds_enable s) (auth_alg s) (timeout_next s) (eapol_sm s)
    (pending_eapol_rx s) (acct_terminate_cause s) (acct_interim_interval s) (vlan_id s)
    (vlan_id_bound s) (psk s) (identity s) (radius_cui s) (sa_query_timed_out s)
    (last_seq_ctrl s) (last_subtype s) (mlme s).
Definition set_supported_rates_len (v : Z) (s : sta_info) : sta_info :=
  StaInfo (addr s) (ipaddr s) (aid s) (flags s) (capability s) (listen_interval s)
    (supported_rates s) v (qosinfo s) (nonerp_set s) (no_short_slot_time_set s)
    (no_short_preamble_set s) (no_ht_gf_set s) (no_ht_set s) (ht_20mhz_set s)
    (added_unassoc s) (pending_wds_enable s) (auth_alg s) (timeout_next s) (eapol_sm s)
    (pending_eapol_rx s) (acct_terminate_cause s) (acct_interim_interval s) (vlan_id s)
    (vlan_id_bound s) (psk s) (identity s) (radius_cui s) (sa_query_timed_out s)
    (last_seq_ctrl s) (last_subtype s) (mlme s).
Definition set_qosinfo (v : Z) (s : sta_info) : sta_info :=
  StaInfo (addr s) (ipaddr s) (aid s) (flags s) (capability s) (listen_interval s)
    (supported_rates s) (supported_rates_len s) v (nonerp_set s) (no_short_slot_time_set
    s) (no_short_preamble_set s) (no_ht_gf_set s) (no_ht_set s) (ht_20mhz_set s)
    (added_unassoc s) (pending_wds_enable s) (auth_alg s) (timeout_next s) (eapol_sm s)
    (pending_eapol_rx s) (acct_terminate_cause s) (acct_interim_interval s) (vlan_id s)
    (vlan_id_bound s) (psk s) (identity s) (radius_cui s) (sa_query_timed_out s)
    (last_seq_ctrl s) (last_subtype s) (mlme s).
Definition set_nonerp_set (v : bool) (s : sta_info) : sta_info :=
  StaInfo (addr s) (ipaddr s) (aid s) (flags s) (capability s) (listen_interval s)
    (supported_rates s) (supported_rates_len s) (qosinfo s) v (no_short_slot_time_set s)
    (no_short_preamble_set s) (no_ht_gf_set s) (no_ht_set s) (ht_20mhz_set s)
    (added_unassoc s) (pending_wds_enable s) (auth_alg s) (timeout_next s) (eapol_sm s)
    (pending_eapol_rx s) (acct_terminate_cause s) (acct_interim_interval s) (vlan_id s)
    (vlan_id_bound s) (psk s) (identity s) (radius_cui s) (sa_query_timed_out s)
    (last_seq_ctrl s) (last_subtype s) (mlme s).
Definition set_no_short_slot_time_set (v : bool) (s : sta_info) : sta_info :=
  StaInfo (addr s) (ipaddr s) (aid s) (flags s) (capability s) (listen_interval s)
    (supported_rates s) (supported_rates_len s) (qosinfo s) (nonerp_set s) v
    (no_short_preamble_set s) (no_ht_gf_set s) (no_ht_set s) (ht_20mhz_set s)
    (added_unassoc s) (pending_wds_enable s) (auth_alg s) (timeout_next s) (eapol_sm s)
    (pending_eapol_rx s) (acct_terminate_cause s) (acct_interim_interval s) (vlan_id s)
    (vlan_id_bound s) (psk s) (identity s) (radius_cui s) (sa_query_timed_out s)
    (last_seq_ctrl s) (last_subtype s) (mlme s).
Definition set_no_short_preamble_set (v : bool) (s : sta_info) : sta_info :=
  StaInfo (addr s) (ipaddr s) (aid s) (flags s) (capability s) (listen_interval s)
    (supported_rates s) (supported_rates_len s) (qosinfo s) (nonerp_set s)
    (no_short_slot_time_set s) v (no_ht_gf_set s) (no_ht_set s) (ht_20mhz_set s)
    (added_unassoc s) (pending_wds_enable s) (auth_alg s) (timeout_next s) (eapol_sm s)
    (pending_eapol_rx s) (acct_terminate_cause s) (acct_interim_interval s) (vlan_id s)
    (vlan_id_bound s) (psk s) (identity s) (radius_cui s) (sa_query_timed_out s)
    (last_seq_ctrl s) (last_subtype s) (mlme s).
Definition set_no_ht_gf_set (v : bool) (s : sta_info) : sta_info :=
  StaInfo (addr s) (ipaddr s) (aid s) (flags s) (capability s) (listen_interval s)
    (supported_rates s) (supported_rates_len s) (qosinfo s) (nonerp_set s)
    (no_short_slot_time_set s) (no_short_preamble_set s) v (no_ht_set s) (ht_20mhz_set
    s) (added_unassoc s) (pending_wds_enable s) (auth_alg s) (timeout_next s) (eapol_sm
    s) (pending_eapol_rx s) (acct_terminate_cause s) (acct_interim_interval s) (vlan_id
    s) (vlan_id_bound s) (psk s) (identity s) (radius_cui s) (sa_query_timed_out s)
    (last_seq_ctrl s) (last_subtype s) (mlme s).
Definition set_sta_no_ht (v : bool) (s : sta_info) : sta_info :=
  StaInfo (addr s) (ipaddr s) (aid s) (flags s) (capability s) (listen_interval s)
    (supported_rates s) (supported_rates_len s) (qosinfo s) (nonerp_set s)
    (no_short_slot_time_set s) (no_short_preamble_set s) (no_ht_gf_set s) v
    (ht_20mhz_set s) (added_unassoc s) (pending_wds_enable s) (auth_alg s) (timeout_next
    s) (eapol_sm s) (pending_eapol_rx s) (acct_terminate_cause s) (acct_interim_interval
    s) (vlan_id s) (vlan_id_bound s) (psk s) (identity s) (radius_cui s)
    (sa_query_timed_out s) (last_seq_ctrl s) (last_subtype s) (mlme s).
Definition set_sta_ht_20mhz (v : bool) (s : sta_info) : sta_info :=
  StaInfo (addr s) (ipaddr s) (aid s) (flags s) (capability s) (listen_interval s)
    (supported_rates s) (supported_rates_len s) (qosinfo s) (nonerp_set s)
    (no_short_slot_time_set s) (no_short_preamble_set s) (no_ht_gf_set s) (no_ht_set s)
    v (added_unassoc s) (pending_wds_enable s) (auth_alg s) (timeout_next s) (eapol_sm
    s) (pending_eapol_rx s) (acct_terminate_cause s) (acct_interim_interval s) (vlan_id
    s) (vlan_id_bound s) (psk s) (identity s) (radius_cui s) (sa_query_timed_out s)
    (last_seq_ctrl s) (last_subtype s) (mlme s).
Definition set_added_unassoc (v : bool) (s : sta_info) : sta_info :=
  StaInfo (addr s) (ipaddr s) (aid s) (flags s) (capability s) (listen_interval s)
    (supported_rates s) (supported_rates_len s) (qosinfo s) (nonerp_set s)
    (no_short_slot_time_set s) (no_short_preamble_set s) (no_ht_gf_set s) (no_ht_set s)
    (ht_20mhz_set s) v (pending_wds_enable s) (auth_alg s) (timeout_next s) (eapol_sm s)
    (pending_eapol_rx s) (acct_terminate_cause s) (acct_interim_interval s) (vlan_id s)
    (vlan_id_bound s) (psk s) (identity s) (radius_cui s) (sa_query_timed_out s)
    (last_seq_ctrl s) (last_subtype s) (mlme s).
Definition set_pending_wds_enable (v : bool) (s : sta_info) : sta_info :=
  StaInfo (addr s) (ipaddr s) (aid s) (flags s) (capability s) (listen_interval s)
    (supported_rates s) (supported_rates_len s) (qosinfo s) (nonerp_set s)
    (no_short_slot_time_set s) (no_short_preamble_set s) (no_ht_gf_set s) (no_ht_set s)
    (ht_20mhz_set s) (added_unassoc s) v (auth_alg s) (timeout_next s) (eapol_sm s)
    (pending_eapol_rx s) (acct_terminate_cause s) (acct_interim_interval s) (vlan_id s)
    (vlan_id_bound s) (psk s) (identity s) (radius_cui s) (sa_query_timed_out s)
    (last_seq_ctrl s) (last_subtype s) (mlme s).
Definition set_auth_alg (v : Z) (s : sta_info) : sta_info :=
  StaInfo (addr s) (ipaddr s) (aid s) (flags s) (capability s) (listen_interval s)
    (supported_rates s) (supported_rates_len s) (qosinfo s) (nonerp_set s)
    (no_short_slot_time_set s) (no_short_preamble_set s) (no_ht_gf_set s) (no_ht_set s)
    (ht_20mhz_set s) (added_unassoc s) (pending_wds_enable s) v (timeout_next s)
    (eapol_sm s) (pending_eapol_rx s) (acct_terminate_cause s) (acct_interim_interval s)
    (vlan_id s) (vlan_id_bound s) (psk s) (identity s) (radius_cui s)
    (sa_query_timed_out s) (last_seq_ctrl s) (last_subtype s) (mlme s).
Definition set_timeout_next (v : Z) (s : sta_info) : sta_info :=
  StaInfo (addr s) (ipaddr s) (aid s) (flags s) (capability s) (listen_interval s)
    (supported_rates s) (supported_rates_len s) (qosinfo s) (nonerp_set s)
    (no_short_slot_time_set s) (no_short_preamble_set s) (no_ht_gf_set s) (no_ht_set s)
    (ht_20mhz_set s) (added_unassoc s) (pending_wds_enable s) (auth_alg s) v (eapol_sm
    s) (pending_eapol_rx s) (acct_terminate_cause s) (acct_interim_interval s) (vlan_id
    s) (vlan_id_bound s) (psk s) (identity s) (radius_cui s) (sa_query_timed_out s)
    (last_seq_ctrl s) (last_subtype s) (mlme s).
Definition set_pending_eapol_rx (v : bool) (s : sta_info) : sta_info :=
  StaInfo (addr s) (ipaddr s) (aid s) (flags s) (capability s) (listen_interval s)
    (supported_rates s) (supported_rates_len s) (qosinfo s) (nonerp_set s)
    (no_short_slot_time_set s) (no_short_preamble_set s) (no_ht_gf_set s) (no_ht_set s)
    (ht_20mhz_set s) (added_unassoc s) (pending_wds_enable s) (auth_alg s) (timeout_next
    s) (eapol_sm s) v (acct_terminate_cause s) (acct_interim_interval s) (vlan_id s)
    (vlan_id_bound s) (psk s) (identity s) (radius_cui s) (sa_query_timed_out s)
    (last_seq_ctrl s) (last_subtype s) (mlme s).
Definition set_eapol_sm (v : bool) (s : sta_info) : sta_info :=
  StaInfo (addr s) (ipaddr s) (aid s) (flags s) (capability s) (listen_interval s)
    (supported_rates s) (supported_rates_len s) (qosinfo s) (nonerp_set s)
    (no_short_slot_time_set s) (no_short_preamble_set s) (no_ht_gf_set s) (no_ht_set s)
    (ht_20mhz_set s) (added_unassoc s) (pending_wds_enable s) (auth_alg s) (timeout_next
    s) v (pending_eapol_rx s) (acct_terminate_cause s) (acct_interim_interval s) (vlan_id s)
    (vlan_id_bound s) (psk s) (identity s) (radius_cui s) (sa_query_timed_out s)
    (last_seq_ctrl s) (last_subtype s) (mlme s).
Definition set_acct_terminate_cause (v : Z) (s : sta_info) : sta_info :=
  StaInfo (addr s) (ipaddr s) (aid s) (flags s) (capability s) (listen_interval s)
    (supported_rates s) (supported_rates_len s) (qosinfo s) (nonerp_set s)
    (no_short_slot_time_set s) (no_short_preamble_set s) (no_ht_gf_set s) (no_ht_set s)
    (ht_20mhz_set s) (added_unassoc s) (pending_wds_enable s) (auth_alg s) (timeout_next
    s) (eapol_sm s) (pending_eapol_rx s) v (acct_interim_interval s) (vlan_id s)
    (vlan_id_bound s) (psk s) (identity s) (radius_cui s) (sa_query_timed_out s)
    (last_seq_ctrl s) (last_subtype s) (mlme s).
Definition set_interim_interval (v : Z) (s : sta_info) : sta_info :=
  StaInfo (addr s) (ipaddr s) (aid s) (flags s) (capability s) (listen_interval s)
    (supported_rates s) (supported_rates_len s) (qosinfo s) (nonerp_set s)
    (no_short_slot_time_set s) (no_short_preamble_set s) (no_ht_gf_set s) (no_ht_set s)
    (ht_20mhz_set s) (added_unassoc s) (pending_wds_enable s) (auth_alg s) (timeout_next
    s) (eapol_sm s) (pending_eapol_rx s) (acct_terminate_cause s) v (vlan_id s)
    (vlan_id_bound s) (psk s) (identity s) (radius_cui s) (sa_query_timed_out s)
    (last_seq_ctrl s) (last_subtype s) (mlme s).
Definition set_vlan_id (v : Z) (s : sta_info) : sta_info :=
  StaInfo (addr s) (ipaddr s) (aid s) (flags s) (capability s) (listen_interval s)
    (supported_rates s) (supported_rates_len s) (qosinfo s) (nonerp_set s)
    (no_short_slot_time_set s) (no_short_preamble_set s) (no_ht_gf_set s) (no_ht_set s)
    (ht_20mhz_set s) (added_unassoc s) (pending_wds_enable s) (auth_alg s) (timeout_next
    s) (eapol_sm s) (pending_eapol_rx s) (acct_terminate_cause s) (acct_interim_interval
    s) v (vlan_id_bound s) (psk s) (identity s) (radius_cui s) (sa_query_timed_out s)
    (last_seq_ctrl s) (last_subtype s) (mlme s).
Definition set_vlan_id_bound (v : Z) (s : sta_info) : sta_info :=
  StaInfo (addr s) (ipaddr s) (aid s) (flags s) (capability s) (listen_interval s)
    (supported_rates s) (supported_rates_len s) (qosinfo s) (nonerp_set s)
    (no_short_slot_time_set s) (no_short_preamble_set s) (no_ht_gf_set s) (no_ht_set s)
    (ht_20mhz_set s) (added_unassoc s) (pending_wds_enable s) (auth_alg s) (timeout_next
    s) (eapol_sm s) (pending_eapol_rx s) (acct_terminate_cause s) (acct_interim_interval
    s) (vlan_id s) v (psk s) (identity s) (radius_cui s) (sa_query_timed_out s)
    (last_seq_ctrl s) (last_subtype s) (mlme s).
Definition set_sa_query_timed_out (v : bool) (s : sta_info) : sta_info :=
  StaInfo (addr s) (ipaddr s) (aid s) (flags s) (capability s) (listen_interval s)
    (supported_rates s) (supported_rates_len s) (qosinfo s) (nonerp_set s)
    (no_short_slot_time_set s) (no_short_preamble_set s) (no_ht_gf_set s) (no_ht_set s)
    (ht_20mhz_set s) (added_unassoc s) (pending_wds_enable s) (auth_alg s) (timeout_next
    s) (eapol_sm s) (pending_eapol_rx s) (acct_terminate_cause s) (acct_interim_interval
    s) (vlan_id s) (vlan_id_bound s) (psk s) (identity s) (radius_cui s) v
    (last_seq_ctrl s) (last_subtype s) (mlme s).
Definition set_last_seq_ctrl (v : Z) (s : sta_info) : sta_info :=
  StaInfo (addr s) (ipaddr s) (aid s) (flags s) (capability s) (listen_interval s)
    (supported_rates s) (supported_rates_len s) (qosinfo s) (nonerp_set s)
    (no_short_slot_time_set s) (no_short_preamble_set s) (no_ht_gf_set s) (no_ht_set s)
    (ht_20mhz_set s) (added_unassoc s) (pending_wds_enable s) (auth_alg s) (timeout_next
    s) (eapol_sm s) (pending_eapol_rx s) (acct_terminate_cause s) (acct_interim_interval
    s) (vlan_id s) (vlan_id_bound s) (psk s) (identity s) (radius_cui s)
    (sa_query_timed_out s) v (last_subtype s) (mlme s).
Definition set_last_subtype (v : Z) (s : sta_info) : sta_info :=
  StaInfo (addr s) (ipaddr s) (aid s) (flags s) (capability s) (listen_interval s)
    (supported_rates s) (supported_rates_len s) (qosinfo s) (nonerp_set s)
    (no_short_slot_time_set s) (no_short_preamble_set s) (no_ht_gf_set s) (no_ht_set s)
    (ht_20mhz_set s) (added_unassoc s) (pending_wds_enable s) (auth_alg s) (timeout_next
    s) (eapol_sm s) (pending_eapol_rx s) (acct_terminate_cause s) (acct_interim_interval
    s) (vlan_id s) (vlan_id_bound s) (psk s) (identity s) (radius_cui s)
    (sa_query_timed_out s) (last_seq_ctrl s) v (mlme s).
Definition set_mlme (v : sta_mlme) (s : sta_info) : sta_info :=
  StaInfo (addr s) (ipaddr s) (aid s) (flags s) (capability s) (listen_interval s)
    (supported_rates s) (supported_rates_len s) (qosinfo s) (nonerp_set s)
    (no_short_slot_time_set s) (no_short_preamble_set s) (no_ht_gf_set s) (no_ht_set s)
    (ht_20mhz_set s) (added_unassoc s) (pending_wds_enable s) (auth_alg s) (timeout_next
    s) (eapol_sm s) (pending_eapol_rx s) (acct_terminate_cause s) (acct_interim_interval
    s) (vlan_id s) (vlan_id_bound s) (psk s) (identity s) (radius_cui s)
    (sa_query_timed_out s) (last_seq_ctrl s) (last_subtype s) v.
(** The pointers [psk], [identity] and [radius_cui]. *)
Definition set_keys (p i r : bool) (s : sta_info) : sta_info :=
  StaInfo (addr s) (ipaddr s) (aid s) (flags s) (capability s) (listen_interval s)
    (supported_rates s) (supported_rates_len s) (qosinfo s) (nonerp_set s)
    (no_short_slot_time_set s) (no_short_preamble_set s) (no_ht_gf_set s) (no_ht_set s)
    (ht_20mhz_set s) (added_unassoc s) (pending_wds_enable s) (auth_alg s) (timeout_next
    s) (eapol_sm s) (pending_eapol_rx s) (acct_terminate_cause s) (acct_interim_interval
    s) (vlan_id s) (vlan_id_bound s) p i r (sa_query_timed_out s) (last_seq_ctrl s)
    (last_subtype s) (mlme s).
Definition clear_keys : sta_info → sta_info := set_keys false false false.
Definition upd_mlme (f : sta_mlme → sta_mlme) (s : sta_info) : sta_info := set_mlme (f (mlme s)) s.
(** [os_zalloc(sizeof(struct sta_info))] with the two members [ap_sta_add] fills in. *)
Definition new_sta (a : bytes) (interim : Z) : sta_info :=
  StaInfo a 0 0 0 0 0 (replicate 32 0) 0 0 false false false false false false false
    false 0 0 false false 0 interim 0 0 false false false false 0 0 new_mlme.

Definition BIT (n : Z) : Z := Z.shiftl 1 n.
Definition WLAN_STA_AUTH : Z := BIT 0.
Definition WLAN_STA_ASSOC : Z := BIT 1.
Definition WLAN_STA_AUTHORIZED : Z := BIT 5.
Definition WLAN_STA_SHORT_PREAMBLE : Z := BIT 7.
Definition WLAN_STA_PREAUTH : Z := BIT 8.
Definition WLAN_STA_MFP : Z := BIT 10.
Definition WLAN_STA_WDS : Z := BIT 14.
Definition WLAN_STA_ASSOC_REQ_OK : Z := BIT 15.
Definition WLAN_STA_WNM_SLEEP_MODE : Z := BIT 19.
Definition WLAN_STA_MULTI_AP : Z := BIT 23.
Definition WLAN_STA_NONERP : Z := BIT 31.

Definition WPA_AUTH_ALG_OPEN : Z := BIT 0.
Definition WPA_AUTH_ALG_SHARED : Z := BIT 1.
Definition WLAN_AUTH_OPEN : Z := 0.
Definition WLAN_AUTH_SHARED_KEY : Z := 1.
Definition WLAN_AUTH_FT : Z := 2.
Definition WLAN_AUTH_FILS_SK : Z := 4.
Definition WLAN_AUTH_FILS_SK_PFS : Z := 5.
Definition WLAN_AUTH_FILS_PK : Z := 6.
Definition WLAN_CAPABILITY_SHORT_PREAMBLE : Z := BIT 5.
Definition WLAN_CAPABILITY_SHORT_SLOT_TIME : Z := BIT 10.
Definition WPA_DRIVER_FLAGS_FULL_AP_CLIENT_STATE : Z := 0x10000000000.
Definition WPA_DRIVER_FLAGS_INACTIVITY_TIMER : Z := 0x800000.
Definition MESH_ENABLED : Z := BIT 0.
Definition WLAN_INVALID_MGMT_SEQ : Z := 0xFFFF.
Definition WLAN_FC_STYPE_ASSOC_REQ : Z := 0.
Definition STA_NULLFUNC : Z := 0.
Definition RADIUS_ACCT_TERMINATE_CAUSE_USER_REQUEST : Z := 1.
Definition WLAN_SUPP_RATES_MAX : Z := 32.

(** Members of [struct hostapd_bss_config], [struct hostapd_config],
    [struct hostapd_iface] and [struct hostapd_data] that matter here. *)
Record hostapd_bss := Bss {
  ssid : bytes;
  wmm_enabled : Z;
  multi_ap : Z;
  max_listen_interval : Z;
  no_auth_if_seen_on : bool;
  wds_sta : Z;
  ap_max_inactivity : Z;
  skip_inactivity_poll : Z;
  wpa_psk_radius : Z;
  wep_keys_set : Z;
  default_wep_key_len : Z;
  individual_wep_key_len : Z;
  radio_measurements : bytes;
}.

Record hostapd_config := Iconf {
  preamble : Z;
  spectrum_mgmt_required : Z;
  require_ht : bool;  (** [ieee80211n && require_ht] *)
  require_vht : bool;  (** [ieee80211ac && require_vht] *)
  track_sta_max_num : Z;
}.

Record hostapd_conf := Conf {
  auth_algs : Z;
  max_num_sta : Z;
  ieee802_1x : Z;
  wpa : Z;
  osen : Z;
  mesh : Z;
  acct_interim_interval_conf : Z;
  vlans : list (Z * Z);  (** [vlan_id] and [dynamic_vlan] of the list [vlan] *)
  bss : hostapd_bss;
}.

Definition set_vlans (v : list (Z * Z)) (s : hostapd_conf) : hostapd_conf :=
  Conf (auth_algs s) (max_num_sta s) (ieee802_1x s) (wpa s) (osen s) (mesh s)
    (acct_interim_interval_conf s) v (bss s).

Record hostapd_iface := Iface {
  drv_flags : Z;
  mode_g : bool;  (** [current_mode] is 802.11g *)
  mode_a : bool;  (** 802.11a *)
  mode_ad : bool;  (** 802.11ad *)
  current_rates : option (list (Z * Z));  (** rates and flags *)
  driver_ap_teardown : bool;
  num_sta_non_erp : Z;
  num_sta_no_short_slot_time : Z;
  num_sta_no_short_preamble : Z;
  num_sta_ht_no_gf : Z;
  num_sta_no_ht : Z;
  num_sta_ht_20mhz : Z;
}.

Definition set_non_erp (v : Z) (s : hostapd_iface) : hostapd_iface :=
  Iface (drv_flags s) (mode_g s) (mode_a s) (mode_ad s) (current_rates s)
    (driver_ap_teardown s) v (num_sta_no_short_slot_time s) (num_sta_no_short_preamble
    s) (num_sta_ht_no_gf s) (num_sta_no_ht s) (num_sta_ht_20mhz s).
Definition set_no_short_slot (v : Z) (s : hostapd_iface) : hostapd_iface :=
  Iface (drv_flags s) (mode_g s) (mode_a s) (mode_ad s) (current_rates s)
    (driver_ap_teardown s) (num_sta_non_erp s) v (num_sta_no_short_preamble s)
    (num_sta_ht_no_gf s) (num_sta_no_ht s) (num_sta_ht_20mhz s).
Definition set_no_short_preamble (v : Z) (s : hostapd_iface) : hostapd_iface :=
  Iface (drv_flags s) (mode_g s) (mode_a s) (mode_ad s) (current_rates s)
    (driver_ap_teardown s) (num_sta_non_erp s) (num_sta_no_short_slot_time s) v
    (num_sta_ht_no_gf s) (num_sta_no_ht s) (num_sta_ht_20mhz s).
Definition set_ht_no_gf (v : Z) (s : hostapd_iface) : hostapd_iface :=
  Iface (drv_flags s) (mode_g s) (mode_a s) (mode_ad s) (current_rates s)
    (driver_ap_teardown s) (num_sta_non_erp s) (num_sta_no_short_slot_time s)
    (num_sta_no_short_preamble s) v (num_sta_no_ht s) (num_sta_ht_20mhz s).
Definition set_no_ht (v : Z) (s : hostapd_iface) : hostapd_iface :=
  Iface (drv_flags s) (mode_g s) (mode_a s) (mode_ad s) (current_rates s)
    (driver_ap_teardown s) (num_sta_non_erp s) (num_sta_no_short_slot_time s)
    (num_sta_no_short_preamble s) (num_sta_ht_no_gf s) v (num_sta_ht_20mhz s).
Definition set_ht_20mhz (v : Z) (s : hostapd_iface) : hostapd_iface :=
  Iface (drv_flags s) (mode_g s) (mode_a s) (mode_ad s) (current_rates s)
    (driver_ap_teardown s) (num_sta_non_erp s) (num_sta_no_short_slot_time s)
    (num_sta_no_short_preamble s) (num_sta_ht_no_gf s) (num_sta_no_ht s) v.

(** The list threaded through [sta->next] is a list of pointers; [radius],
    [sta_authorized_cb] and the callbacks for action frames say whether the
    pointer is not null. *)
Record hostapd_data := Hapd {
  conf : hostapd_conf;
  iface : hostapd_iface;
  sta_hash : htab sta_info;
  sta_list : list loc;
  sta_aid : list Z;
  num_sta : Z;
  radius : bool;
  sta_authorized_cb : bool;
  iconf : hostapd_config;
  own_addr : bytes;
  tkip_countermeasures : bool;
  public_action_cb : bool;
  public_action_cb2 : bool;
  vendor_action_cb : bool;
}.

Definition set_conf (v : hostapd_conf) (s : hostapd_data) : hostapd_data :=
  Hapd v (iface s) (sta_hash s) (sta_list s) (sta_aid s) (num_sta s) (radius s)
    (sta_authorized_cb s) (iconf s) (own_addr s) (tkip_countermeasures s)
    (public_action_cb s) (public_action_cb2 s) (vendor_action_cb s).
Definition set_iface (v : hostapd_iface) (s : hostapd_data) : hostapd_data :=
  Hapd (conf s) v (sta_hash s) (sta_list s) (sta_aid s) (num_sta s) (radius s)
    (sta_authorized_cb s) (iconf s) (own_addr s) (tkip_countermeasures s)
    (public_action_cb s) (public_action_cb2 s) (vendor_action_cb s).
Definition set_sta_hash (v : htab sta_info) (s : hostapd_data) : hostapd_data :=
  Hapd (conf s) (iface s) v (sta_list s) (sta_aid s) (num_sta s) (radius s)
    (sta_authorized_cb s) (iconf s) (own_addr s) (tkip_countermeasures s)
    (public_action_cb s) (public_action_cb2 s) (vendor_action_cb s).
Definition set_sta_list (v : list loc) (s : hostapd_data) : hostapd_data :=
  Hapd (conf s) (iface s) (sta_hash s) v (sta_aid s) (num_sta s) (radius s)
    (sta_authorized_cb s) (iconf s) (own_addr s) (tkip_countermeasures s)
    (public_action_cb s) (public_action_cb2 s) (vendor_action_cb s).
Definition set_sta_aid (v : list Z) (s : hostapd_data) : hostapd_data :=
  Hapd (conf s) (iface s) (sta_hash s) (sta_list s) v (num_sta s) (radius s)
    (sta_authorized_cb s) (iconf s) (own_addr s) (tkip_countermeasures s)
    (public_action_cb s) (public_action_cb2 s) (vendor_action_cb s).
Definition set_num_sta (v : Z) (s : hostapd_data) : hostapd_data :=
  Hapd (conf s) (iface s) (sta_hash s) (sta_list s) (sta_aid s) v (radius s)
    (sta_authorized_cb s) (iconf s) (own_addr s) (tkip_countermeasures s)
    (public_action_cb s) (public_action_cb2 s) (vendor_action_cb s).

(** A program state that contains a [struct hostapd_data]. *)
Class HasHapd (S : Type) `{HasSys S} := {
  get_hapd : S → hostapd_data;
  set_hapd : hostapd_data → S → S;
  get_set_hapd : ∀ h s, get_hapd (set_hapd h s) = h;
  set_set_hapd : ∀ h h' s, set_hapd h (set_hapd h' s) = set_hapd h s;
  set_get_hapd : ∀ s, set_hapd (get_hapd s) s = s;
  get_hapd_sys : ∀ w s, get_hapd (set_sys w s) = get_hapd s;
  get_sys_hapd : ∀ h s, get_sys (set_hapd h s) = get_sys s;
  set_hapd_sys : ∀ h w s, set_hapd h (set_sys w s) = set_sys w (set_hapd h s);
}.

(** [sizeof(struct sta_info)], which depends on the build. *)
Class StaSize := sizeof_sta_info : Z.

Section Operations.
  Context `{Env} {S : Type} `{HasHapd S} `{StaSize}.

(** A call whose result the code ignores. *)
Definition notify (function : string) (a : bytes) : M S unit :=
  _ ← hostapd_call function a; skip.

Definition upd_hapd (f : hostapd_data → hostapd_data) : M S unit :=
  modify (λ s, set_hapd (f (get_hapd s)) s).

Definition upd_iface (f : hostapd_iface → hostapd_iface) : M S unit :=
  upd_hapd (λ h, set_iface (f (iface h)) h).

(** *** The station table, [src/ap/sta_info.c] *)

Definition get_stas (s : S) : htab sta_info := sta_hash (get_hapd s).
Definition set_stas (t : htab sta_info) (s : S) : S := set_hapd (set_sta_hash t (get_hapd s)) s.

(** [STA_HASH(sta)], the last byte of the address. *)
Definition STA_HASH (a : bytes) : option Z := ld8 a 5.

(** [os_memcmp(a, b, 6) == 0]. *)
Definition memcmp6 (a b : bytes) : bool := bool_decide (take 6 a = take 6 b).

(** The station a pointer points to, and a write to it. *)
Definition sta_get (l : loc) : M S sta_info := tab_deref get_stas l.
Definition sta_upd (l : loc) (f : sta_info → sta_info) : M S unit :=
  tab_assign get_stas set_stas (Some l) f.

Definition has_flag (f : Z) (s : sta_info) : bool := negb (Z.land (flags s) f =? 0).
Definition add_flag (f : Z) (s : sta_info) : sta_info := set_flags (Z.lor (flags s) f) s.
Definition clear_flag (f : Z) (s : sta_info) : sta_info := set_flags (Z.ldiff (flags s) f) s.

Definition ap_get_sta (a : bytes) : M S (option loc) :=
  i ← opt! STA_HASH a;
  p ← tab_head get_stas i;
  tab_search get_stas (λ s, memcmp6 (addr s) a) p.

Definition ap_sta_add (a : bytes) : M S (option loc) :=
  sta ← ap_get_sta a;
  match sta with
  | Some l => mret (Some l)
  | None =>
      h ← gets get_hapd;
      if max_num_sta (conf h) <=? num_sta h then mret None else
      r ← calloc sizeof_sta_info;
      match r with
      | None => mret None
      | Some _ =>
          id ← hostapd_call "accounting_sta_get_id" (replicate 6 0);
          if id <? 0 then mret None else
          (if Z.land (drv_flags (iface h)) WPA_DRIVER_FLAGS_INACTIVITY_TIMER =? 0
           then notify "eloop_register_timeout ap_handle_timer" a else skip);;
          i ← opt! STA_HASH a;
          l ← tab_push get_stas set_stas i (new_sta a (acct_interim_interval_conf (conf h)));
          upd_hapd (λ h, set_sta_list (l :: sta_list h) h);;
          upd_hapd (λ h, set_num_sta (num_sta h + 1) h);;
          notify "ap_sta_remove_in_other_bss" a;;
          sta_upd l (set_last_seq_ctrl WLAN_INVALID_MGMT_SEQ);;
          mret (Some l)
      end
  end.

Definition ap_sta_set_authorized (l : loc) (authorized : bool) : M S unit :=
  s ← sta_get l;
  if Bool.eqb authorized (has_flag WLAN_STA_AUTHORIZED s) then skip else
  sta_upd l (if authorized then add_flag WLAN_STA_AUTHORIZED
             else clear_flag WLAN_STA_AUTHORIZED);;
  h ← gets get_hapd;
  (if sta_authorized_cb h
   then notify (if authorized then "sta_authorized_cb 1" else "sta_authorized_cb 0") (addr s)
   else skip);;
  notify (if authorized then "AP_STA_CONNECTED" else "AP_STA_DISCONNECTED") (addr s).

(** [vlan->dynamic_vlan++] for the first VLAN with this id, when it is dynamic. *)
Fixpoint count_vlan (id : Z) (vs : list (Z * Z)) : list (Z * Z) :=
  match vs with
  | [] => []
  | (i, d) :: vs =>
      if i =? id then (i, if 0 <? d then d + 1 else d) :: vs else (i, d) :: count_vlan id vs
  end.

Definition ap_sta_bind_vlan (l : loc) : M S Z :=
  s ← sta_get l;
  h ← gets get_hapd;
  let old_vlanid := vlan_id_bound s in
  let known := existsb (λ v, v.1 =? vlan_id s) (vlans (conf h)) in
  if negb (vlan_id s =? old_vlanid) && (0 <? vlan_id s) && negb known then mret (-1) else
  (if vlan_id s =? old_vlanid then skip else
     (if 0 <? vlan_id s
      then upd_hapd (λ h, set_conf (set_vlans (count_vlan (vlan_id s) (vlans (conf h))) (conf h)) h)
      else skip);;
     sta_upd l (set_vlan_id_bound (vlan_id s)));;
  notify "wpa_auth_sta_set_vlan" (addr s);;
  r ← hostapd_call "hostapd_drv_set_sta_vlan" (addr s);
  (if (0 <? old_vlanid) && negb (old_vlanid =? vlan_id s)
   then notify "vlan_remove_dynamic" (addr s) else skip);;
  mret r.

(** [ap_sta_list_del]: unlinks the first occurrence. *)
Fixpoint ap_sta_list_del (l : loc) (ls : list loc) : list loc :=
  match ls with
  | [] => []
  | x :: ls => if decide (x = l) then ls else x :: ap_sta_list_del l ls
  end.

(** The [while] loop of [ap_sta_hash_del]. *)
Fixpoint hash_del_loop (fuel : nat) (s : loc) (a : bytes) : M S unit :=
  match fuel with
  | O => hang
  | Datatypes.S fuel =>
      hnext ← tab_next get_stas s;
      match hnext with
      | None => skip
      | Some n =>
          v ← sta_get n;
          if memcmp6 (addr v) a then
            q ← tab_next get_stas n;
            tab_change get_stas set_stas (λ t, set_next t s q)
          else hash_del_loop fuel n a
      end
  end.

Definition ap_sta_hash_del (l : loc) : M S unit :=
  sta ← sta_get l;
  i ← opt! STA_HASH (addr sta);
  s ← tab_head get_stas i;
  match s with
  | None => skip
  | Some n =>
      v ← sta_get n;
      if memcmp6 (addr v) (addr sta) then
        q ← tab_next get_stas n;
        tab_change get_stas set_stas (λ t, set_head t i q)
      else
        t ← gets get_stas;
        hash_del_loop (size (tab_heap t)) n (addr sta)
  end.

(** [hapd->sta_aid[(aid - 1) / 32] &= ~BIT((aid - 1) % 32)]. *)
Definition release_aid (aid : Z) (ws : list Z) : option (list Z) :=
  let i := Z.to_nat ((aid - 1) / 32) in
  w ← ws !! i; Some (<[i := Z.ldiff w (BIT ((aid - 1) mod 32))]> ws).

(** A counter of the interface that this station was part of. *)
Definition drop_counter (l : loc) (set : sta_info → bool) (reset : sta_info → sta_info)
    (count : hostapd_iface → Z) (store : Z → hostapd_iface → hostapd_iface) (g_only : bool)
    : M S bool :=
  s ← sta_get l;
  if set s then
    sta_upd l reset;;
    upd_iface (λ i, store (count i - 1) i);;
    h ← gets get_hapd;
    mret ((negb g_only || mode_g (iface h)) && (count (iface h) =? 0))
  else mret false.

Definition ap_free_sta (l : loc) : M S unit :=
  s ← sta_get l;
  let a := addr s in
  notify "accounting_sta_stop" a;;
  ap_sta_set_authorized l false;;
  s ← sta_get l;
  (if has_flag (Z.lor WLAN_STA_WDS WLAN_STA_MULTI_AP) s
   then notify "hostapd_set_wds_sta 0" a else skip);;
  (if negb (ipaddr s =? 0)
   then notify "hostapd_drv_br_delete_ip_neigh" a else skip);;
  notify "ap_sta_ip6addr_del" a;;
  h ← gets get_hapd;
  (if negb (driver_ap_teardown (iface h)) && negb (has_flag WLAN_STA_PREAUTH s) then
     notify "hostapd_drv_sta_remove" a;;
     sta_upd l (set_added_unassoc false)
   else skip);;
  ap_sta_hash_del l;;
  upd_hapd (λ h, set_sta_list (ap_sta_list_del l (sta_list h)) h);;
  (if 0 <? aid s then
     h ← gets get_hapd;
     ws ← opt! release_aid (aid s) (sta_aid h);
     upd_hapd (set_sta_aid ws)
   else skip);;
  upd_hapd (λ h, set_num_sta (num_sta h - 1) h);;
  b1 ← drop_counter l nonerp_set (set_nonerp_set false) num_sta_non_erp set_non_erp false;
  b2 ← drop_counter l no_short_slot_time_set (set_no_short_slot_time_set false)
         num_sta_no_short_slot_time set_no_short_slot true;
  b3 ← drop_counter l no_short_preamble_set (set_no_short_preamble_set false)
         num_sta_no_short_preamble set_no_short_preamble true;
  _ ← drop_counter l no_ht_gf_set (set_no_ht_gf_set false) num_sta_ht_no_gf set_ht_no_gf false;
  _ ← drop_counter l no_ht_set (set_sta_no_ht false) num_sta_no_ht set_no_ht false;
  _ ← drop_counter l ht_20mhz_set (set_sta_ht_20mhz false) num_sta_ht_20mhz set_ht_20mhz false;
  (if b1 || b2 || b3 then emit EvBeacons else skip);;
  notify "eloop_cancel_timeout ap_handle_timer" a;;
  notify "eloop_cancel_timeout ap_handle_session_timer" a;;
  notify "eloop_cancel_timeout ap_handle_session_warning_timer" a;;
  notify "ap_sta_clear_disconnect_timeouts" a;;
  notify "ieee802_1x_free_station" a;;
  notify "wpa_auth_sta_deinit" a;;
  notify "rsn_preauth_free_station" a;;
  h ← gets get_hapd;
  (if radius h then notify "radius_client_flush_auth" a else skip);;
  s ← sta_get l;
  (if negb (vlan_id s =? 0) then notify "vlan_remove_dynamic" a else skip);;
  (if negb (vlan_id_bound s =? 0) then
     (if driver_ap_teardown (iface h) && negb (has_flag WLAN_STA_PREAUTH s) then
        notify "hostapd_drv_sta_remove" a;;
        sta_upd l (set_added_unassoc false)
      else skip);;
     notify "vlan_remove_dynamic" a
   else skip);;
  notify "eloop_cancel_timeout ap_sa_query_timer" a;;
  tab_change get_stas set_stas (λ t, free_node t l).

(** *** [add_STA] and [remove_STA], [src/ap/ieee802_11.c] *)

(** A counter of the interface that this station becomes part of. *)
Definition add_counter (l : loc) (mark : sta_info → sta_info)
    (count : hostapd_iface → Z) (store : Z → hostapd_iface → hostapd_iface) (g_only : bool)
    : M S unit :=
  sta_upd l mark;;
  upd_iface (λ i, store (count i + 1) i);;
  h ← gets get_hapd;
  if (negb g_only || mode_g (iface h)) && (count (iface h) =? 1) then emit EvBeacons else skip.

(** [for (i = 0; i < len; i++) if ((rates[i] & 0x7f) > 22) ...; break]: is there
    such a rate? *)
Fixpoint has_erp_rate (fuel : nat) (rates : bytes) (i : Z) : option bool :=
  match fuel with
  | O => Some false
  | Datatypes.S fuel =>
      r ← ld8 rates i;
      if 22 <? Z.land r 0x7f then Some true else has_erp_rate fuel rates (i + 1)
  end.

(** The part of [add_STA] and [handle_auth] that makes an entry for the station
    in a driver that keeps the state of its clients: did the driver accept it? *)
Definition renew_entry (l : loc) : M S bool :=
  sta_upd l (clear_flag WLAN_STA_PREAUTH);;
  s ← sta_get l;
  notify "ieee802_1x_notify_pre_auth 0" (addr s);;
  h ← gets get_hapd;
  if negb (Z.land (drv_flags (iface h)) WPA_DRIVER_FLAGS_FULL_AP_CLIENT_STATE =? 0)
     && (negb (has_flag WLAN_STA_MFP s) || negb (has_flag WLAN_STA_AUTHORIZED s))
     && (Z.land (mesh (conf h)) MESH_ENABLED =? 0)
     && negb (added_unassoc s)
  then
    ap_sta_set_authorized l false;;
    notify "hostapd_drv_sta_remove" (addr s);;
    sta_upd l (clear_flag (Z.lor WLAN_STA_ASSOC (Z.lor WLAN_STA_AUTH WLAN_STA_AUTHORIZED)));;
    r ← hostapd_call "hostapd_sta_add" (addr s);
    if negb (r =? 0) then mret false else
    sta_upd l (set_added_unassoc true);;
    mret true
  else mret true.

(** The part of [add_STA] that authenticates the station with the driver: is
    the station to be associated? *)
Definition add_STA_auth (l : loc) : M S bool :=
  sta_upd l (set_last_seq_ctrl WLAN_INVALID_MGMT_SEQ);;
  sta_upd l clear_keys;;
  renew_entry l.

(** What the rates and capabilities of the station mean for the others: the
    interface's counters. *)
Definition update_protection (l : loc) : M S unit :=
  h ← gets get_hapd;
  (if mode_g (iface h) then sta_upd l (add_flag WLAN_STA_NONERP) else skip);;
  s ← sta_get l;
  erp ← opt! has_erp_rate (Z.to_nat (supported_rates_len s)) (supported_rates s) 0;
  (if erp : bool then sta_upd l (clear_flag WLAN_STA_NONERP) else skip);;
  s ← sta_get l;
  (if has_flag WLAN_STA_NONERP s && negb (nonerp_set s)
   then add_counter l (set_nonerp_set true) num_sta_non_erp set_non_erp false else skip);;
  (if (Z.land (capability s) WLAN_CAPABILITY_SHORT_SLOT_TIME =? 0)
      && negb (no_short_slot_time_set s)
   then add_counter l (set_no_short_slot_time_set true)
          num_sta_no_short_slot_time set_no_short_slot true else skip);;
  (if negb (Z.land (capability s) WLAN_CAPABILITY_SHORT_PREAMBLE =? 0)
   then sta_upd l (add_flag WLAN_STA_SHORT_PREAMBLE)
   else sta_upd l (clear_flag WLAN_STA_SHORT_PREAMBLE));;
  (if (Z.land (capability s) WLAN_CAPABILITY_SHORT_PREAMBLE =? 0)
      && negb (no_short_preamble_set s)
   then add_counter l (set_no_short_preamble_set true)
          num_sta_no_short_preamble set_no_short_preamble true else skip).

(** Capabilities and rates of the station. *)
Definition add_STA_rates (l : loc) (info : infoSTA) : M S unit :=
  sta_upd l (add_flag WLAN_STA_AUTH);;
  sta_upd l (set_capability (ApData.capability info));;
  sta_upd l (set_listen_interval (ApData.listen_interval info));;
  rates ← opt! ldn (ApData.supported_rates info) 0 (ApData.supported_rates_len info);
  s ← sta_get l;
  rates ← opt! stn (supported_rates s) 0 rates;
  sta_upd l (set_supported_rates rates);;
  sta_upd l (set_supported_rates_len (ApData.supported_rates_len info));;
  sta_upd l (set_last_subtype WLAN_FC_STYPE_ASSOC_REQ);;
  update_protection l.

(** The station is associated from here on; [indication] is the MLME call.  The
    age of the pending EAPOL frame is the time in microseconds that the
    environment answers. *)
Definition finish_assoc (l : loc) (indication : string) : M S unit :=
  s ← sta_get l;
  let a := addr s in
  notify "accounting_sta_stop" a;;
  let new_assoc := negb (has_flag WLAN_STA_ASSOC s) in
  sta_upd l (add_flag WLAN_STA_ASSOC);;
  sta_upd l (clear_flag WLAN_STA_WNM_SLEEP_MODE);;
  h ← gets get_hapd;
  (if ((ieee802_1x (conf h) =? 0) && (wpa (conf h) =? 0) && (osen (conf h) =? 0))
      || (auth_alg s =? WLAN_AUTH_FILS_SK) || (auth_alg s =? WLAN_AUTH_FILS_SK_PFS)
      || (auth_alg s =? WLAN_AUTH_FILS_PK) || (auth_alg s =? WLAN_AUTH_FT)
   then ap_sta_set_authorized l true else skip);;
  notify indication a;;
  sta_upd l (set_sa_query_timed_out false);;
  r ← (if negb (eapol_sm s) || negb (vlan_id s =? 0)
       then ap_sta_bind_vlan l else mret 0);
  if r <? 0 then skip else
  notify "hostapd_set_sta_flags" a;;
  s ← sta_get l;
  (if negb (has_flag WLAN_STA_WDS s) && pending_wds_enable s then
     sta_upd l (set_pending_wds_enable false);;
     sta_upd l (add_flag WLAN_STA_WDS)
   else skip);;
  s ← sta_get l;
  (if has_flag (Z.lor WLAN_STA_WDS WLAN_STA_MULTI_AP) s then
     r ← hostapd_call "hostapd_set_wds_sta 1" a;
     if r =? 0 then notify "hostapd_set_wds_encryption" a else skip
   else skip);;
  notify (if auth_alg s =? WLAN_AUTH_FT then "WPA_ASSOC_FT" else "WPA_ASSOC") a;;
  notify (if new_assoc then "new_assoc_sta_cb 0" else "new_assoc_sta_cb 1") a;;
  notify "ieee802_1x_notify_port_enabled 1" a;;
  if pending_eapol_rx s then
    age ← hostapd_call "os_get_reltime" a;
    (if (0 <=? age) && (age <? 200000) then notify "ieee802_1x_receive" a else skip);;
    sta_upd l (set_pending_eapol_rx false)
  else skip.

(** The association itself. *)
Definition add_STA_assoc (l : loc) : M S unit :=
  sta_upd l (add_flag WLAN_STA_ASSOC_REQ_OK);;
  sta_upd l (set_timeout_next STA_NULLFUNC);;
  finish_assoc l "mlme_associate_indication".

Definition add_STA (info : infoSTA) : M S unit :=
  h ← gets get_hapd;
  let alg := ApData.auth_alg info in
  if negb ((negb (Z.land (auth_algs (conf h)) WPA_AUTH_ALG_OPEN =? 0) && (alg =? WLAN_AUTH_OPEN))
           || (negb (Z.land (auth_algs (conf h)) WPA_AUTH_ALG_SHARED =? 0)
               && (alg =? WLAN_AUTH_SHARED_KEY)))
  then skip else
  sta ← ap_get_sta (address info);
  sta ← match sta with Some l => mret (Some l) | None => ap_sta_add (address info) end;
  match sta with
  | None => skip
  | Some l =>
      ok ← add_STA_auth l;
      if ok : bool then add_STA_rates l info;; add_STA_assoc l else skip
  end.

Definition remove_STA (info : infoSTA) : M S unit :=
  sta ← ap_get_sta (address info);
  match sta with
  | None => skip
  | Some l =>
      ap_sta_set_authorized l false;;
      sta_upd l (set_last_seq_ctrl WLAN_INVALID_MGMT_SEQ);;
      sta_upd l (clear_flag (Z.lor WLAN_STA_AUTH
                              (Z.lor WLAN_STA_ASSOC WLAN_STA_ASSOC_REQ_OK)));;
      s ← sta_get l;
      let a := addr s in
      notify "WPA_DEAUTH" a;;
      notify "mlme_disassociate_indication" a;;
      sta_upd l (set_acct_terminate_cause RADIUS_ACCT_TERMINATE_CAUSE_USER_REQUEST);;
      notify "ieee802_1x_notify_port_enabled 0" a;;
      notify "accounting_sta_stop" a;;
      notify "ieee802_1x_free_station" a;;
      (if negb (ipaddr s =? 0)
       then notify "hostapd_drv_br_delete_ip_neigh" a else skip);;
      notify "ap_sta_ip6addr_del" a;;
      notify "hostapd_drv_sta_remove" a;;
      ap_free_sta l
  end.

End Operations.

(** An open 802.11g network with the name 'home' and the address
    02:00:00:00:00:01, for the examples of this development. *)
Definition home_bss : hostapd_bss :=
  Bss [104; 111; 109; 101] 1 0 65535 false 0 300 0 0 0 0 0 (replicate 5 0).
Definition home_rates : list (Z * Z) :=
  [(10, 1); (20, 1); (55, 1); (110, 1); (60, 0); (90, 0); (120, 0); (180, 0);
   (240, 0); (360, 0); (480, 0); (540, 0)].
Definition home_network (flags : Z) (stas : htab sta_info) (ls : list loc) (n : Z) : hostapd_data :=
  Hapd (Conf 1 255 0 0 0 0 0 [] home_bss)
    (Iface flags true false false (Some home_rates) false 0 0 0 0 0 0)
    stas ls (replicate 63 0) n false false (Iconf 0 0 false false 0) [2; 0; 0; 0; 0; 1]
    false false false false.

End Hapd.
