(* ===== verification/StationProps.v ===== *)
(** * hostapd's stations: the counters of the interface

    hostapd changes its beacons when the first station of a kind appears and
    when the last one goes.  It decides by six counters of the interface, and
    every station remembers which of them it is part of.  The functions the
    controller calls, [add_STA] and [remove_STA], keep every counter equal to
    the number of stations that are part of it. *)

From Stdlib Require Import ZArith Lia.
From S2P Require Import Prelude CMem CMonad Chain CSteps NatTable ApData Station.
Import Hapd.

(** The marks of a station and the counters of the interface, in the same
    order. *)
Definition mark (k : nat) (v : sta_info) : bool :=
  nth k [nonerp_set v; no_short_slot_time_set v; no_short_preamble_set v;
         no_ht_gf_set v; no_ht_set v; ht_20mhz_set v] false.
Definition count (k : nat) (i : hostapd_iface) : Z :=
  nth k [num_sta_non_erp i; num_sta_no_short_slot_time i; num_sta_no_short_preamble i;
         num_sta_ht_no_gf i; num_sta_no_ht i; num_sta_ht_20mhz i] 0.

#[global] Arguments mark : simpl never.
#[global] Arguments count : simpl never.

Definition heap_of (h : hostapd_data) : gmap loc (node sta_info) := tab_heap (sta_hash h).

(** The number of stations with mark [k]. *)
Definition marked (k : nat) (hp : gmap loc (node sta_info)) : Z :=
  Z.of_nat (size (filter (λ x : loc * node sta_info, mark k (node_val x.2) = true) hp)).

Definition counted (h : hostapd_data) : Prop :=
  ∀ k, count k (iface h) = marked k (heap_of h).

(** ** Counting *)

Lemma marked_insert k hp l n :
  marked k (<[l := n]> hp) = marked k (delete l hp) + Z.b2z (mark k (node_val n)).
Proof.
  unfold marked. rewrite <- insert_delete_eq.
  assert (Hl : ∀ P `{∀ x, Decision (P x)}, filter P (delete l hp) !! l = None).
  { intros P ?. apply map_lookup_filter_None. left. apply lookup_delete_eq. }
  destruct (mark k (node_val n)) eqn:E.
  - rewrite map_filter_insert_True by done. rewrite map_size_insert_None by apply Hl. simpl. lia.
  - rewrite map_filter_insert_False by (simpl; congruence).
    rewrite delete_delete_eq. simpl. lia.
Qed.

Lemma marked_split k hp l n :
  hp !! l = Some n → marked k hp = marked k (delete l hp) + Z.b2z (mark k (node_val n)).
Proof. intros E. rewrite <- marked_insert. by rewrite insert_id. Qed.

Section Keep.
  Context `{Env} {S : Type} `{HasHapd S} `{StaSize}.

(** The counters count, and the station at [l] has the marks [b]. *)
Definition at_sta (l : loc) (b : nat → bool) (s : S) : Prop :=
  counted (get_hapd s) ∧
  ∃ n, heap_of (get_hapd s) !! l = Some n ∧ ∀ k, mark k (node_val n) = b k.

Definition all_counted (s : S) : Prop := counted (get_hapd s).

Definition no_marks : nat → bool := λ _, false.

Lemma at_sta_sys l b w s : at_sta l b s → at_sta l b (set_sys w s).
Proof. unfold at_sta. by rewrite get_hapd_sys. Qed.

Lemma counted_sys w s : all_counted s → all_counted (set_sys w s).
Proof. unfold all_counted. by rewrite get_hapd_sys. Qed.

#[local] Hint Resolve at_sta_sys counted_sys : cstep.

(** A property of the stations and the interface only. *)
Definition hapd_only (P : S → Prop) : Prop :=
  (∀ w s, P s → P (set_sys w s)) ∧
  (∀ h s, iface h = iface (get_hapd s) → heap_of h = heap_of (get_hapd s) →
     P s → P (set_hapd h s)).

Lemma at_sta_only l b : hapd_only (at_sta l b).
Proof.
  split; [apply at_sta_sys|]. intros h s Hi Hh [Hc Hn]. unfold at_sta, counted.
  rewrite get_set_hapd, Hi, Hh. done.
Qed.

Lemma counted_only : hapd_only all_counted.
Proof.
  split; [apply counted_sys|]. intros h s Hi Hh Hc. unfold all_counted, counted.
  rewrite get_set_hapd, Hi, Hh. done.
Qed.

Lemma keeps_notify P f a : hapd_only P → keeps P (notify f a).
Proof. intros [Hw _]. unfold notify, hostapd_call. keeps; auto. Qed.

Lemma keeps_call P f a : hapd_only P → keeps P (hostapd_call f a).
Proof. intros [Hw _]. unfold hostapd_call. keeps; auto. Qed.

Lemma keeps_upd_hapd P f :
  hapd_only P → (∀ h, iface (f h) = iface h) → (∀ h, heap_of (f h) = heap_of h) →
  keeps P (upd_hapd f).
Proof. intros [_ Hp] Hi Hh. apply keeps_modify. intros s Hs. by apply Hp. Qed.

(** Reads do not change anything. *)
Lemma keeps_tab_head P i : keeps P (tab_head get_stas i).
Proof. intros s Hs. unfold tab_head. by destruct (head_at _ _). Qed.
Lemma keeps_tab_next P l : keeps P (tab_next get_stas l).
Proof. intros s Hs. unfold tab_next. by destruct (next_of _ _). Qed.
Lemma keeps_sta_get P l : keeps P (sta_get l).
Proof. intros s Hs. unfold sta_get, tab_deref. by destruct (deref _ _). Qed.
Lemma keeps_search P stop p : keeps P (tab_search get_stas stop p).
Proof. intros s Hs. unfold tab_search. by destruct (walk _ _ _ _). Qed.

(** A write that leaves the marks alone. *)
Lemma sta_upd_at l l' f b :
  (∀ v k, mark k (f v) = mark k v) → keeps (at_sta l b) (sta_upd l' f).
Proof.
  intros Hf s [Hc (n & Hn & Hb)]. unfold sta_upd, tab_assign, assign. cbn [mbind option_bind].
  change (tab_heap (get_stas s)) with (heap_of (get_hapd s)).
  destruct (heap_of (get_hapd s) !! l') as [n'|] eqn:E; [|done]. cbn.
  unfold at_sta, set_stas, counted. rewrite get_set_hapd. cbn. split.
  - intros k. rewrite (Hc k), (marked_split k _ l' n') by done.
    unfold heap_of at 1. cbn. rewrite marked_insert. cbn. by rewrite Hf.
  - unfold heap_of. cbn. destruct (decide (l' = l)) as [->|Hne].
    + eexists. rewrite lookup_insert_eq. split; [done|]. intros k. cbn. rewrite Hf.
      rewrite Hn in E. injection E as <-. done.
    + exists n. by rewrite lookup_insert_ne.
Qed.

(** *** Sequences *)

(** What holds in the state [m] returns in. *)
Definition ends {A} (P : S → Prop) (m : M S A) (Q : A → S → Prop) : Prop :=
  ∀ s, P s → match m s with Ret a s' => Q a s' | _ => True end.

Lemma ends_keeps {A} P (m : M S A) : keeps P m → ends P m (λ _, P).
Proof. intros Hm s Hs. specialize (Hm s Hs). by destruct (m s). Qed.

Lemma ends_bind {A B} P (m : M S A) Q (k : A → M S B) R :
  ends P m Q → (∀ a, ends (Q a) (k a) R) → ends P (m ≫= k) R.
Proof.
  intros Hm Hk s Hs. specialize (Hm s Hs). unfold mbind, M_bind.
  destruct (m s); try done. by apply Hk.
Qed.

Lemma ends_skip {A B} P (m : M S A) (k : A → M S B) R :
  keeps P m → (∀ a, ends P (k a) R) → ends P (m ≫= k) R.
Proof. intros Hm Hk. eapply ends_bind; [by apply ends_keeps|]. done. Qed.

Lemma ends_weaken {A} (P P' : S → Prop) (m : M S A) (Q Q' : A → S → Prop) :
  ends P m Q → (∀ s, P' s → P s) → (∀ a s, Q a s → Q' a s) → ends P' m Q'.
Proof. intros Hm HP HQ s Hs. specialize (Hm s (HP s Hs)). destruct (m s); auto. Qed.

(** The station read at [l] has the marks [b]. *)
Lemma sta_get_at l b : ends (at_sta l b) (sta_get l) (λ v s, at_sta l b s ∧ ∀ k, mark k v = b k).
Proof.
  intros s Hs. pose proof Hs as [_ (n & Hn & Hb)].
  unfold sta_get, tab_deref, deref. change (tab_heap (get_stas s)) with (heap_of (get_hapd s)).
  rewrite Hn. done.
Qed.

(** *** Counting one station in or out *)

(** The write [f] sets mark [k] to [x]; the store changes counter [k] by [d]. *)
Definition sets_mark (k : nat) (x : bool) (f : sta_info → sta_info) : Prop :=
  ∀ v j, mark j (f v) = if decide (j = k) then x else mark j v.
Definition steps_count (k : nat) (d : Z) (f : hostapd_iface → hostapd_iface) : Prop :=
  ∀ i j, count j (f i) = if decide (j = k) then count j i + d else count j i.

Definition with_mark (k : nat) (x : bool) (b : nat → bool) : nat → bool :=
  λ j, if decide (j = k) then x else b j.

Lemma count_step l b k x f g :
  sets_mark k x f → steps_count k (Z.b2z x - Z.b2z (b k)) g →
  ends (at_sta l b) (sta_upd l f;; upd_iface g) (λ _, at_sta l (with_mark k x b)).
Proof.
  intros Hf Hg s [Hc (n & Hn & Hb)]. unfold sta_upd, tab_assign, assign, mbind, M_bind.
  cbn [option_bind]. change (tab_heap (get_stas s)) with (heap_of (get_hapd s)). rewrite Hn.
  cbn. unfold at_sta, set_stas, counted. rewrite !get_set_hapd. cbn. split.
  - intros j. unfold heap_of at 1. cbn. rewrite marked_insert. cbn.
    rewrite (Hf (node_val n) j), (Hg _ j), (Hc j), (marked_split j _ l n) by done.
    rewrite Hb. unfold heap_of. case_decide; [subst|]; lia.
  - unfold heap_of. cbn. rewrite lookup_insert_eq. eexists. split; [done|]. intros j. cbn.
    rewrite (Hf _ j). unfold with_mark. by case_decide.
Qed.

(** *** The functions *)

Lemma sta_upd_counted l f :
  (∀ v k, mark k (f v) = mark k v) → ends all_counted (sta_upd l f) (λ _ s, ∃ b, at_sta l b s).
Proof.
  intros Hf s Hs. destruct (heap_of (get_hapd s) !! l) as [n|] eqn:E.
  - pose proof (sta_upd_at l l f (λ k, mark k (node_val n)) Hf s) as Hk.
    destruct (sta_upd l f s); try done. eexists. apply Hk. split; [done|]. by exists n.
  - unfold sta_upd, tab_assign, assign. cbn [mbind option_bind].
    change (tab_heap (get_stas s)) with (heap_of (get_hapd s)). by rewrite E.
Qed.

Lemma sta_get_counted l :
  ends all_counted (sta_get l) (λ _ s, ∃ b, at_sta l b s).
Proof.
  intros s Hs. unfold sta_get, tab_deref, deref.
  change (tab_heap (get_stas s)) with (heap_of (get_hapd s)).
  destruct (heap_of (get_hapd s) !! l) as [n|] eqn:E; [|done]. cbn.
  exists (λ k, mark k (node_val n)). split; [done|]. by exists n.
Qed.

Lemma sta_upd_all l f : (∀ v k, mark k (f v) = mark k v) → keeps all_counted (sta_upd l f).
Proof.
  intros Hf s Hs. pose proof (sta_upd_counted l f Hf s Hs) as Hu.
  unfold sta_upd, tab_assign in *. destruct (_ ≫= _); [|done]. by destruct Hu as (b & Hc & _).
Qed.

End Keep.

(** Walks through a program of hostapd that changes neither marks nor
    counters. *)
Ltac kp :=
  repeat lazymatch goal with
  | |- keeps (at_sta _ _) (notify _ _) => apply keeps_notify, at_sta_only
  | |- keeps (at_sta _ _) (hostapd_call _ _) => apply keeps_call, at_sta_only
  | |- keeps (at_sta _ _) (upd_hapd _) => apply keeps_upd_hapd; [apply at_sta_only|done|done]
  | |- keeps (at_sta _ _) (sta_upd _ _) =>
      apply sta_upd_at; intros; repeat case_match; reflexivity
  | |- keeps all_counted (notify _ _) => apply keeps_notify, counted_only
  | |- keeps all_counted (hostapd_call _ _) => apply keeps_call, counted_only
  | |- keeps all_counted (upd_hapd _) => apply keeps_upd_hapd; [apply counted_only|done|done]
  | |- keeps all_counted (sta_upd _ _) =>
      apply sta_upd_all; intros; repeat case_match; reflexivity
  | |- keeps _ (sta_get _) => apply keeps_sta_get
  | |- keeps _ (tab_head _ _) => apply keeps_tab_head
  | |- keeps _ (tab_next _ _) => apply keeps_tab_next
  | |- keeps _ (tab_search _ _ _) => apply keeps_search
  | |- keeps (at_sta _ _) (calloc _) => apply keeps_calloc; apply at_sta_sys
  | |- keeps all_counted (calloc _) => apply keeps_calloc; apply counted_sys
  | |- keeps (at_sta _ _) (emit _) => apply keeps_emit; apply at_sta_sys
  | |- keeps all_counted (emit _) => apply keeps_emit; apply counted_sys
  | |- keeps _ _ => keeps_step
  end.

Section Functions.
  Context `{Env} {S : Type} `{HasHapd S} `{StaSize}.

Lemma authorized_at l l' b x : keeps (at_sta (S:=S) l b) (ap_sta_set_authorized l' x).
Proof. unfold ap_sta_set_authorized. kp. Qed.

Lemma authorized_all l' x : keeps (all_counted (S:=S)) (ap_sta_set_authorized l' x).
Proof. unfold ap_sta_set_authorized. kp. Qed.

Lemma bind_vlan_at l l' b : keeps (at_sta (S:=S) l b) (ap_sta_bind_vlan l').
Proof. unfold ap_sta_bind_vlan. kp. Qed.

Lemma get_sta_all P a : keeps (S:=S) P (ap_get_sta a).
Proof. unfold ap_get_sta. kp. Qed.

Lemma finish_at l b x : keeps (at_sta (S:=S) l b) (finish_assoc l x).
Proof.
  unfold finish_assoc. kp; try apply authorized_at; try apply bind_vlan_at.
Qed.

Lemma assoc_at l b : keeps (at_sta (S:=S) l b) (add_STA_assoc l).
Proof. unfold add_STA_assoc. kp; apply finish_at. Qed.

Lemma renew_at l b : keeps (at_sta (S:=S) l b) (renew_entry l).
Proof. unfold renew_entry. kp; apply authorized_at. Qed.

Lemma auth_ends l :
  ends (all_counted (S:=S)) (add_STA_auth l) (λ _ s, ∃ b, at_sta l b s).
Proof.
  unfold add_STA_auth. eapply ends_bind; [by apply sta_upd_counted|]. intros _ s [b Hb].
  match goal with |- match ?m s with _ => _ end =>
    assert (Hk : keeps (at_sta l b) m) by (kp; apply renew_at);
    specialize (Hk s Hb); destruct (m s); [by exists b|done..] end.
Qed.

(** A new station has no marks. *)
Lemma push_all i a n : keeps (all_counted (S:=S)) (tab_push get_stas set_stas i (new_sta a n)).
Proof.
  intros s Hs. unfold tab_push, push. destruct (head_at _ _) as [p|]; [|done]. cbn.
  set (l := fresh _). unfold all_counted, set_stas, counted. rewrite get_set_hapd. cbn.
  intros k. etrans; [apply (Hs k)|]. unfold heap_of. cbn. rewrite marked_insert.
  assert (Hl : tab_heap (sta_hash (get_hapd s)) !! l = None)
    by (apply not_elem_of_dom; apply is_fresh).
  change (tab_heap (get_stas s)) with (tab_heap (sta_hash (get_hapd s))).
  rewrite delete_id by done. replace (mark k _) with false; [simpl; lia|].
  unfold mark. cbn. by do 7 (destruct k as [|k]; [done|]).
Qed.

Lemma sta_add_all a : keeps (all_counted (S:=S)) (ap_sta_add a).
Proof. unfold ap_sta_add. kp; try apply push_all; apply get_sta_all. Qed.

(** Counting a station in when a condition holds and its mark is not set. *)
Lemma cond_count l b k (v : sta_info) c f cnt store g :
  (∀ v, f v = mark k v) → f v = b k →
  steps_count k 1 (λ w, store (cnt w + 1) w) → ∀ set, sets_mark k true set →
  ends (at_sta (S:=S) l b)
    (if c && negb (f v) then add_counter l set cnt store g else skip)
    (λ _ s, ∃ x, at_sta l (with_mark k x b) s).
Proof.
  intros Hf Hv Hst set Hset. destruct (c && negb (f v)) eqn:E.
  - apply andb_true_iff in E as [_ E%negb_true_iff]. rewrite Hv in E.
    unfold add_counter. intros s Hs. rewrite <- bind_assoc.
    pose proof (count_step l b k true set (λ i, store (cnt i + 1) i) Hset) as Hc.
    rewrite E in Hc. specialize (Hc Hst s Hs). unfold mbind at 1, M_bind.
    destruct ((sta_upd l set;; _) s) as [u s'| | |]; try done.
    match goal with |- match ?m s' with _ => _ end =>
      assert (Hk : keeps (at_sta l (with_mark k true b)) m) by kp;
      specialize (Hk s' Hc); destruct (m s'); [by exists true|done..] end.
  - intros s [Hc (n & Hn & Hb)]. exists (b k). split; [done|]. exists n. split; [done|].
    intros j. unfold with_mark. case_decide; [subst|]; done.
Qed.

(** The writes and stores of the six counters. *)
Lemma nth_cases (P : nat → Prop) :
  P 0%nat → P 1%nat → P 2%nat → P 3%nat → P 4%nat → P 5%nat →
  (∀ k, P (6 + k)%nat) → ∀ k, P k.
Proof. intros P0 P1 P2 P3 P4 P5 PS [|[|[|[|[|[|k]]]]]]; [done..|exact (PS k)]. Qed.

Ltac by_counter := intros ?; apply nth_cases; [reflexivity..|intros []; reflexivity].

Lemma nonerp_mark x : sets_mark 0 x (set_nonerp_set x).
Proof. by_counter. Qed.
Lemma slot_mark x : sets_mark 1 x (set_no_short_slot_time_set x).
Proof. by_counter. Qed.
Lemma preamble_mark x : sets_mark 2 x (set_no_short_preamble_set x).
Proof. by_counter. Qed.
Lemma gf_mark x : sets_mark 3 x (set_no_ht_gf_set x).
Proof. by_counter. Qed.
Lemma ht_mark x : sets_mark 4 x (set_sta_no_ht x).
Proof. by_counter. Qed.
Lemma mhz_mark x : sets_mark 5 x (set_sta_ht_20mhz x).
Proof. by_counter. Qed.

Lemma nonerp_count d : steps_count 0 d (λ i, set_non_erp (num_sta_non_erp i + d) i).
Proof. by_counter. Qed.
Lemma slot_count d :
  steps_count 1 d (λ i, set_no_short_slot (num_sta_no_short_slot_time i + d) i).
Proof. by_counter. Qed.
Lemma preamble_count d :
  steps_count 2 d (λ i, set_no_short_preamble (num_sta_no_short_preamble i + d) i).
Proof. by_counter. Qed.
Lemma gf_count d : steps_count 3 d (λ i, set_ht_no_gf (num_sta_ht_no_gf i + d) i).
Proof. by_counter. Qed.
Lemma ht_count d : steps_count 4 d (λ i, set_no_ht (num_sta_no_ht i + d) i).
Proof. by_counter. Qed.
Lemma mhz_count d : steps_count 5 d (λ i, set_ht_20mhz (num_sta_ht_20mhz i + d) i).
Proof. by_counter. Qed.

Lemma ends_pure {A} (P : S → Prop) (X : Prop) (m : M S A) R :
  (X → ends P m R) → ends (λ s, P s ∧ X) m R.
Proof. intros Hm s [Hs HX]. by apply Hm. Qed.

Lemma ends_ex {A X} (P : X → S → Prop) (m : M S A) R :
  (∀ x, ends (P x) m R) → ends (λ s, ∃ x, P x s) m R.
Proof. intros Hm s [x Hx]. by apply (Hm x). Qed.

Lemma protection_ends l b :
  ends (at_sta (S:=S) l b) (update_protection l) (λ _ s, ∃ b', at_sta l b' s).
Proof.
  unfold update_protection. do 5 (eapply (ends_skip (at_sta l b)); [kp|intros ?]).
  eapply ends_bind; [apply sta_get_at|]. intros v. apply ends_pure. intros Hv.
  eapply ends_bind.
  { apply (cond_count l b 0 v _ nonerp_set); [done|apply (Hv 0%nat)|apply nonerp_count|apply nonerp_mark]. }
  intros ?. apply ends_ex. intros x0. eapply ends_bind.
  { apply (cond_count l _ 1 v _ no_short_slot_time_set);
      [done|apply (Hv 1%nat)|apply slot_count|apply slot_mark]. }
  intros ?. apply ends_ex. intros x1.
  apply (ends_skip (at_sta l (with_mark 1 x1 (with_mark 0 x0 b)))); [kp|]. intros ?.
  eapply ends_weaken.
  - apply (cond_count l (with_mark 1 x1 (with_mark 0 x0 b)) 2 v _ no_short_preamble_set);
      [done|apply (Hv 2%nat)|apply preamble_count|apply preamble_mark].
  - intros s Hs. exact Hs.
  - intros _ s [x Hx]. by eexists.
Qed.

Lemma rates_ends l b info :
  ends (at_sta (S:=S) l b) (add_STA_rates l info) (λ _ s, ∃ b', at_sta l b' s).
Proof.
  unfold add_STA_rates. do 9 (eapply (ends_skip (at_sta l b)); [kp|intros ?]).
  apply protection_ends.
Qed.

Lemma add_STA_counted info : ends (all_counted (S:=S)) (add_STA info) (λ _, all_counted).
Proof.
  unfold add_STA. apply ends_skip; [kp|]. intros h. cbv zeta.
  case_if; [by apply ends_keeps; kp|].
  apply ends_skip; [apply get_sta_all|]. intros sta.
  apply ends_skip; [kp; apply sta_add_all|]. intros [l|]; [|by apply ends_keeps; kp].
  eapply ends_bind; [apply auth_ends|]. intros ok. apply ends_ex. intros b.
  destruct ok; [|by intros s [Hs _]].
  eapply ends_bind; [apply rates_ends|]. intros ?. apply ends_ex. intros b'.
  eapply ends_weaken; [apply ends_keeps, (assoc_at l b')|done|by intros _ s [Hs _]].
Qed.

(** Unlinking a node changes no station. *)
Lemma set_head_at l b i q :
  keeps (at_sta (S:=S) l b) (tab_change get_stas set_stas (λ t, set_head t i q)).
Proof.
  intros s Hs. unfold tab_change, set_head. destruct (head_at _ _); [|done]. cbn.
  by apply at_sta_only.
Qed.

Lemma set_next_at l b l' q :
  keeps (at_sta (S:=S) l b) (tab_change get_stas set_stas (λ t, set_next t l' q)).
Proof.
  intros s [Hc (n & Hn & Hb)]. unfold tab_change, set_next.
  change (tab_heap (get_stas s)) with (heap_of (get_hapd s)).
  destruct (heap_of (get_hapd s) !! l') as [n'|] eqn:E; [|done]. cbn.
  unfold at_sta, set_stas, counted. rewrite get_set_hapd. split.
  - intros k. etrans; [apply (Hc k)|]. unfold heap_of at 2. cbn. rewrite marked_insert.
    exact (marked_split k _ l' n' E).
  - unfold heap_of. cbn. destruct (decide (l' = l)) as [->|Hne].
    + eexists. rewrite lookup_insert_eq. split; [done|]. intros k. cbn.
      rewrite Hn in E. injection E as <-. done.
    + exists n. by rewrite lookup_insert_ne.
Qed.

Lemma hash_del_loop_at l b fuel l' a : keeps (at_sta (S:=S) l b) (hash_del_loop fuel l' a).
Proof.
  revert l'. induction fuel as [|fuel IH]; intros l'; cbn [hash_del_loop]; [done|].
  kp. apply set_next_at.
Qed.

Lemma hash_del_at l b l' : keeps (at_sta (S:=S) l b) (ap_sta_hash_del l').
Proof. unfold ap_sta_hash_del. kp; [apply set_head_at|apply hash_del_loop_at]. Qed.

(** Counting a station out. *)
Lemma drop_ends l b k f reset cnt store g :
  (∀ v, f v = mark k v) → sets_mark k false reset →
  steps_count k (-1) (λ w, store (cnt w + -1) w) →
  ends (at_sta (S:=S) l b) (drop_counter l f reset cnt store g)
    (λ _, at_sta l (with_mark k false b)).
Proof.
  intros Hf Hr Hst. unfold drop_counter. eapply ends_bind; [apply sta_get_at|].
  intros v. apply ends_pure. intros Hv. rewrite Hf, Hv.
  destruct (b k) eqn:Eb.
  - intros s Hs. rewrite <- bind_assoc.
    pose proof (count_step l b k false reset (λ i, store (cnt i - 1) i) Hr) as Hc.
    rewrite Eb in Hc. specialize (Hc Hst s Hs). unfold mbind at 1, M_bind.
    destruct ((sta_upd l reset;; _) s) as [u s'| | |]; try done.
  - intros s [Hc (n & Hn & Hb)]. split; [done|]. exists n. split; [done|].
    intros j. unfold with_mark. case_decide; [subst; by rewrite Hb|done].
Qed.

(** A station without marks can be freed. *)
Lemma free_ends l b :
  (∀ k, b k = false) →
  ends (at_sta (S:=S) l b) (tab_change get_stas set_stas (λ t, free_node t l))
    (λ _, all_counted).
Proof.
  intros Hz s [Hc (n & Hn & Hb)]. unfold tab_change, free_node.
  change (tab_heap (get_stas s)) with (heap_of (get_hapd s)). rewrite Hn. cbn.
  unfold all_counted, set_stas, counted. rewrite get_set_hapd. intros k.
  etrans; [apply (Hc k)|]. unfold heap_of at 2. cbn.
  rewrite (marked_split k _ l n) by done. rewrite Hb, Hz. simpl. unfold heap_of. lia.
Qed.

Lemma dropped_all l b s :
  at_sta (S:=S) l (with_mark 5 false (with_mark 4 false (with_mark 3 false
    (with_mark 2 false (with_mark 1 false (with_mark 0 false b)))))) s → at_sta l no_marks s.
Proof.
  intros [Hc (n & Hn & Hb)]. split; [done|]. exists n. split; [done|].
  apply nth_cases; try (by rewrite Hb). intros k. unfold mark. by destruct k.
Qed.

(** Passes the steps that keep [P]. *)
Ltac pass P :=
  repeat lazymatch goal with
  | |- ends _ (mbind _ _) _ =>
      apply (ends_skip P);
      [solve [kp; first [apply authorized_at | apply authorized_all | apply hash_del_at]]
      |intros ?]
  end.

Lemma free_sta_counted l : ends (all_counted (S:=S)) (ap_free_sta l) (λ _, all_counted).
Proof.
  unfold ap_free_sta. eapply ends_bind; [apply sta_get_counted|]. intros v0. cbv zeta.
  apply ends_ex. intros b. pass (at_sta (S:=S) l b).
  eapply ends_bind; [apply (drop_ends l _ 0); [done|apply nonerp_mark|apply nonerp_count]|intros ?].
  eapply ends_bind; [apply (drop_ends l _ 1); [done|apply slot_mark|apply slot_count]|intros ?].
  eapply ends_bind;
    [apply (drop_ends l _ 2); [done|apply preamble_mark|apply preamble_count]|intros ?].
  eapply ends_bind; [apply (drop_ends l _ 3); [done|apply gf_mark|apply gf_count]|intros ?].
  eapply ends_bind; [apply (drop_ends l _ 4); [done|apply ht_mark|apply ht_count]|intros ?].
  eapply ends_bind; [apply (drop_ends l _ 5); [done|apply mhz_mark|apply mhz_count]|intros ?].
  eapply ends_weaken; [|apply dropped_all|intros ? ? Hq; exact Hq].
  pass (at_sta (S:=S) l no_marks). by apply free_ends.
Qed.

Lemma remove_STA_counted info : ends (all_counted (S:=S)) (remove_STA info) (λ _, all_counted).
Proof.
  unfold remove_STA. apply ends_skip; [apply get_sta_all|]. intros [l|];
    [|by apply ends_keeps; kp].
  cbv zeta. pass (all_counted (S:=S)). apply free_sta_counted.
Qed.

End Functions.
