(* ===== verification/StationMap.v ===== *)
(** * hostapd's stations: the table as a finite map

    hostapd keeps its stations in a hash table and in a list, both threaded
    through the stations themselves, with their number beside.  [add_STA] and
    [remove_STA], which the controller's messages call, are shown to return
    whatever hostapd's driver and the allocator answer, to keep the three in
    step, and to change the entry of the station they are called for only. *)

From Stdlib Require Import ZArith Lia.
From S2P Require Import Prelude CMem CMonad Chain CSteps NatTable ApData Station StationProps.
Import Hapd.

(** The table as a map: address, and bucket. *)
Definition hw_key (v : sta_info) : bytes := take 6 (addr v).
Definition hw_bucket (k : bytes) : Z := default (-1) (ld8 k 5).

Abbreviation hw_rep := (map_rep hw_key id hw_bucket).

(** Members whose range matters. *)
Record sta_wf (v : sta_info) : Prop := {
  wf_addr : length (addr v) = 6%nat;
  wf_bytes : bytes_ok (addr v);
  wf_rates : length (supported_rates v) = 32%nat;
  wf_aid : 0 ≤ aid v ≤ 2007;
  wf_len : 0 ≤ supported_rates_len v ≤ 32;
}.

(** What hostapd decides by and neither function changes. *)
Record settings := Settings {
  st_auth_algs : Z; st_max : Z; st_1x : Z; st_wpa : Z; st_osen : Z; st_mesh : Z;
  st_bss : hostapd_bss; st_flags : Z; st_g : bool; st_ad : bool; st_own : bytes; st_tkip : bool }.
Definition settings_of (h : hostapd_data) : settings :=
  Settings (auth_algs (conf h)) (max_num_sta (conf h)) (ieee802_1x (conf h)) (wpa (conf h))
    (osen (conf h)) (mesh (conf h)) (bss (conf h)) (drv_flags (iface h)) (mode_g (iface h))
    (mode_ad (iface h)) (own_addr h) (tkip_countermeasures h).

(** The part of hostapd's data that is about the table. *)
Record core := Core {
  c_tab : htab sta_info; c_list : list loc; c_num : Z; c_aids : list Z; c_set : settings }.
Definition core_of (h : hostapd_data) : core :=
  Core (sta_hash h) (sta_list h) (num_sta h) (sta_aid h) (settings_of h).

(** The bit of an association identifier. *)
Definition taken (ws : list Z) (i : Z) : bool :=
  match ws !! Z.to_nat ((i - 1) / 32) with
  | Some w => Z.testbit w ((i - 1) mod 32)
  | None => false
  end.

(** No station of [m] has the identifier [i]. *)
Definition apart (i : Z) (m : gmap bytes sta_info) : Prop :=
  ∀ a v, m !! a = Some v → 0 < aid v → aid v ≠ i.

(** Association identifiers are marked as taken exactly when a station has them,
    and no two stations share one.  [i] is the identifier of a station on its way
    out, 0 for none. *)
Record aids_ok (ws : list Z) (m : gmap bytes sta_info) (i : Z) : Prop := {
  ai_len : length ws = 63%nat;
  ai_taken : ∀ k, 1 ≤ k ≤ 2016 →
    taken ws k = true ↔ k = i ∨ ∃ a v, m !! a = Some v ∧ aid v = k;
  ai_distinct : ∀ a b v w, m !! a = Some v → m !! b = Some w → 0 < aid v → aid v = aid w → a = b;
  ai_apart : apart i m;
}.

(** The table is the map [m], and list and number agree with it but for the
    stations [ls], [n] and [i] that are on their way out. *)
Record shape (c : core) (bs : list (list (loc * sta_info))) (m : gmap bytes sta_info)
    (ls : list loc) (n i : Z) (st : settings) : Prop := {
  sh_rep : hw_rep (c_tab c) bs m;
  sh_heads : length (tab_heads (c_tab c)) = 256%nat;
  sh_wf : map_Forall (λ _ v, sta_wf v) m;
  sh_list : c_list c ≡ₚ ls ++ (concat bs).*1;
  sh_num : c_num c = Z.of_nat (size m) + n;
  sh_aids : aids_ok (c_aids c) m i;
  sh_set : c_set c = st;
}.

(** Between two calls. *)
Definition stations (m : gmap bytes sta_info) (st : settings) (c : core) : Prop :=
  ∃ bs, shape c bs m [] 0 0 st.

(** The station at [l] has the property [F]; the others are [R]. *)
Definition own (st : settings) (a : bytes) (l : loc) (R : gmap bytes sta_info)
    (F : sta_info → Prop) (c : core) : Prop :=
  ∃ bs v, shape c bs (<[a := v]> R) [] 0 0 st ∧ (l, v) ∈ concat bs ∧ addr v = a ∧ R !! a = None ∧ F v.

(** The station at [l] is in the table no more, but not freed yet. *)
Definition loose (st : settings) (a : bytes) (l : loc) (R : gmap bytes sta_info)
    (ls : list loc) (n i : Z) (F : sta_info → Prop) (c : core) : Prop :=
  ∃ bs v q, shape c bs R ls n i st ∧ tab_heap (c_tab c) !! l = Some (Node v q) ∧
    (l ∉ (concat bs).*1) ∧ addr v = a ∧ F v.

(** *** Identifiers *)

Lemma aids_same ws a v w R i :
  R !! a = None → aid w = aid v → aids_ok ws (<[a := v]> R) i → aids_ok ws (<[a := w]> R) i.
Proof.
  intros HR Ew [L T D Ap].
  assert (E : ∀ x y, aid x = aid y → ∀ b z, <[a := x]> R !! b = Some z →
    ∃ z', <[a := y]> R !! b = Some z' ∧ aid z = aid z').
  { intros x y Exy b z. destruct (decide (b = a)) as [->|Hne].
    - rewrite !lookup_insert_eq. intros [= <-]. eauto.
    - rewrite !lookup_insert_ne by done. eauto. }
  constructor; [done|..].
  - intros k Hk. rewrite (T k Hk). f_equiv. split; intros (b & z & Hz & <-).
    + destruct (E v w) with b z as (z' & ? & ?); eauto.
    + destruct (E w v) with b z as (z' & ? & ?); eauto.
  - intros b c x y Hb Hc. destruct (E w v Ew b x Hb) as (x' & ? & ->).
    destruct (E w v Ew c y Hc) as (y' & ? & ->). by apply D.
  - intros b x Hb. destruct (E w v Ew b x Hb) as (x' & ? & ->). by eapply Ap.
Qed.

Lemma aids_delete ws a v R :
  R !! a = None → 0 ≤ aid v → aids_ok ws (<[a := v]> R) 0 → aids_ok ws R (aid v).
Proof.
  intros HR Hv [L T D Ap].
  assert (E : ∀ b x, R !! b = Some x → <[a := v]> R !! b = Some x).
  { intros b x Hb. rewrite lookup_insert_ne; [done|]. intros ->. congruence. }
  constructor; [done| |eauto|].
  - intros k Hk. rewrite (T k Hk). split; [intros [->|(b & x & Hb & <-)]; [lia|]|].
    + destruct (decide (b = a)) as [->|]; [rewrite lookup_insert_eq in Hb; injection Hb as ->; by left|].
      rewrite lookup_insert_ne in Hb by done. eauto.
    + intros [->|(b & x & Hb & <-)]; right; [exists a, v; by rewrite lookup_insert_eq|eauto].
  - intros b x Hb Hp Ea. rewrite (D b a x v) in Hb; [congruence|auto..]. apply lookup_insert_eq.
Qed.

Lemma aids_new ws a v R : R !! a = None → aid v = 0 → aids_ok ws R 0 → aids_ok ws (<[a := v]> R) 0.
Proof.
  intros HR Ez [L T D Ap].
  assert (E : ∀ b x, <[a := v]> R !! b = Some x → 0 < aid x → R !! b = Some x).
  { intros b x. destruct (decide (b = a)) as [->|Hne].
    - rewrite lookup_insert_eq. intros [= <-]. lia.
    - by rewrite lookup_insert_ne. }
  constructor; [done|..].
  - intros k Hk. rewrite (T k Hk). f_equiv. split; intros (b & x & Hb & <-).
    + exists b, x. rewrite lookup_insert_ne; [done|]. intros ->. congruence.
    + exists b, x. split; [apply E; [done|lia]|done].
  - intros b c x y Hb Hc Hp Exy. apply D with x y; auto. apply E; [done|]. lia.
  - intros b x Hb Hp. lia.
Qed.

(** A word of the bitmap is replaced. *)
Lemma taken_insert ws i k w :
  1 ≤ i → 1 ≤ k → is_Some (ws !! Z.to_nat ((i - 1) / 32)) →
  taken (<[Z.to_nat ((i - 1) / 32) := w]> ws) k =
  if decide ((k - 1) / 32 = (i - 1) / 32) then Z.testbit w ((k - 1) mod 32) else taken ws k.
Proof.
  intros Hi Hk Hw. unfold taken. pose proof (Z.div_pos (i - 1) 32). pose proof (Z.div_pos (k - 1) 32).
  case_decide as E.
  - rewrite E, list_lookup_insert_eq; [done|]. by apply lookup_lt_is_Some.
  - rewrite list_lookup_insert_ne; [done|]. lia.
Qed.

(** Two identifiers with the same word and the same bit are the same. *)
Lemma same_aid i k : (k - 1) / 32 = (i - 1) / 32 → (k - 1) mod 32 = (i - 1) mod 32 → k = i.
Proof. intros. pose proof (Z.div_mod (i - 1) 32). pose proof (Z.div_mod (k - 1) 32). lia. Qed.

Lemma release_ok ws i m : 1 ≤ i ≤ 2007 → aids_ok ws m i →
  ∃ ws', release_aid i ws = Some ws' ∧ aids_ok ws' m 0.
Proof.
  intros Hi [L T D Ap]. unfold release_aid.
  assert (Hk : 0 ≤ (i - 1) / 32 < 63) by (split; [apply Z.div_pos|apply Z.div_lt_upper_bound]; lia).
  destruct (lookup_lt_is_Some_2 ws (Z.to_nat ((i - 1) / 32))) as [w Hw]; [lia|]. rewrite Hw. cbn.
  eexists. split; [done|]. constructor; [by rewrite length_insert| |done|intros b x _; lia].
  intros k Hk'. rewrite taken_insert by (lia || by eexists).
  assert (E : k ≠ i → taken ws k = true ↔ k = 0 ∨ ∃ b x, m !! b = Some x ∧ aid x = k).
  { intros Hne. rewrite (T k Hk'). split; (intros [?|?]; [lia|by right]). }
  case_decide as Ek.
  - unfold BIT. rewrite Z.ldiff_spec, Z.shiftl_1_l, Z.pow2_bits_eqb by (apply Z.mod_pos_bound; lia).
    assert (Et : taken ws k = Z.testbit w ((k - 1) mod 32)) by (unfold taken; by rewrite Ek, Hw).
    destruct (Z.eqb_spec ((i - 1) mod 32) ((k - 1) mod 32)) as [Em|Hne].
    + rewrite andb_false_r. rewrite (same_aid i k Ek (eq_sym Em)). split; [done|].
      intros [->|(b & x & Hb & Ex)]; [lia|]. exfalso. apply (Ap b x Hb); lia.
    + rewrite andb_true_r, <- Et. apply E. by intros ->.
  - apply E. by intros ->.
Qed.

(** Membership in a list of bits. *)
Ltac in_bits := repeat (first [apply list_elem_of_here | apply list_elem_of_further]).

Section Total.
  Context `{Env} {S : Type} `{HasHapd S} `{StaSize}.

(** [s'] is [s] but for hostapd's data, the clock and the events. *)
Definition reached (s s' : S) : Prop := ∃ h w, s' = set_sys w (set_hapd h s).

Lemma reached_refl s : reached s s.
Proof. exists (get_hapd s), (get_sys s). by rewrite set_get_hapd, set_get_sys. Qed.
Lemma reached_hapd h s : reached s (set_hapd h s).
Proof.
  exists h, (get_sys s). rewrite <- (get_sys_hapd h s). by rewrite set_get_sys.
Qed.
Lemma reached_sys w s : reached s (set_sys w s).
Proof. exists (get_hapd s), w. by rewrite set_get_hapd. Qed.
Lemma reached_trans s1 s2 s3 : reached s1 s2 → reached s2 s3 → reached s1 s3.
Proof.
  intros (h & w & ->) (h' & w' & ->). exists h', w'. by rewrite set_hapd_sys, set_set_hapd, set_set_sys.
Qed.

(** ** Executions that return *)

Definition at_core (P : core → Prop) (s : S) : Prop := P (core_of (get_hapd s)).

(** From every state in which [P] holds of the table, [m] returns a result and a
    table with [Q], and changes nothing but hostapd's data. *)
Definition total {A} (P : core → Prop) (m : M S A) (Q : A → core → Prop) : Prop :=
  ∀ s, at_core P s → ∃ a s', m s = Ret a s' ∧ at_core (Q a) s' ∧ reached s s'.

Lemma total_ret {A} P (a : A) (Q : A → core → Prop) : (∀ c, P c → Q a c) → total P (mret a) Q.
Proof. intros HQ s Hs. exists a, s. split_and!; [done|by apply HQ|apply reached_refl]. Qed.

Lemma total_bind {A B} P (m : M S A) Q (k : A → M S B) R :
  total P m Q → (∀ a, total (Q a) (k a) R) → total P (m ≫= k) R.
Proof.
  intros Hm Hk s Hs. destruct (Hm s Hs) as (a & s' & E & Hs' & Hr). rewrite (bind_Ret _ _ _ _ _ E).
  destruct (Hk a s' Hs') as (b & s'' & Eb & Hs'' & Hr').
  exists b, s''. split_and!; [done..|by eapply reached_trans].
Qed.

Lemma total_weaken {A} (P P' : core → Prop) (m : M S A) (Q Q' : A → core → Prop) :
  total P m Q → (∀ c, P' c → P c) → (∀ a c, Q a c → Q' a c) → total P' m Q'.
Proof.
  intros Hm HP HQ s Hs. destruct (Hm s) as (a & s' & E & Hs' & Hr); [by apply HP|].
  exists a, s'. split_and!; [done|by apply HQ|done].
Qed.

Lemma total_pure {A} (P : core → Prop) (X : Prop) (m : M S A) Q :
  (X → total P m Q) → total (λ c, X ∧ P c) m Q.
Proof. intros Hm s [HX Hs]. by apply Hm. Qed.

Lemma total_ex {A X} (P : X → core → Prop) (m : M S A) Q :
  (∀ x, total (P x) m Q) → total (λ c, ∃ x, P x c) m Q.
Proof. intros Hm s [x Hx]. by apply (Hm x). Qed.

Lemma total_opt {A B} P (o : option A) a (k : A → M S B) Q :
  o = Some a → total P (k a) Q → total P (opt! o ≫= k) Q.
Proof. by intros ->. Qed.

(** Calls, events and updates that are not about the table. *)
Lemma total_emit P e : total P (emit e) (λ _, P).
Proof.
  intros s Hs. eexists tt, _. split; [reflexivity|].
  split; [unfold at_core; by rewrite get_hapd_sys|apply reached_sys].
Qed.

Lemma total_call P f a : total P (hostapd_call f a) (λ r c, (∃ t, r = env_call t f) ∧ P c).
Proof.
  intros s Hs. eexists _, _. split; [reflexivity|]. split; [split; [by eexists|]|].
  - unfold at_core. by rewrite !get_hapd_sys.
  - eapply reached_trans; apply reached_sys.
Qed.

Lemma total_ask {A} P (f : nat → A) : total P (ask f) (λ r c, (∃ t, r = f t) ∧ P c).
Proof.
  intros s Hs. eexists _, _. split; [reflexivity|]. split; [split; [by eexists|]|].
  - unfold at_core. by rewrite get_hapd_sys.
  - apply reached_sys.
Qed.

Lemma total_notify P f a : total P (notify f a) (λ _, P).
Proof.
  unfold notify. eapply total_bind; [apply total_call|]. intros r. apply total_pure.
  intros _. by apply total_ret.
Qed.

Lemma total_calloc P n :
  total P (calloc n) (λ r c, (∃ t, r = if env_calloc t n then Some (replicate (Z.to_nat n) 0) else None) ∧ P c).
Proof.
  intros s Hs. eexists _, _. split; [reflexivity|]. split; [split; [by eexists|]|].
  - unfold at_core. by rewrite get_hapd_sys.
  - apply reached_sys.
Qed.

Lemma total_upd (P P' : core → Prop) f :
  (∀ h, P (core_of h) → P' (core_of (f h))) → total P (upd_hapd f) (λ _, P').
Proof.
  intros Hf s Hs. eexists tt, _. split; [reflexivity|]. split; [|apply reached_hapd].
  unfold at_core. rewrite get_set_hapd. by apply Hf.
Qed.

Lemma total_gets P : total P (gets get_hapd) (λ h c, c = core_of h ∧ P c).
Proof. intros s Hs. eexists _, s. split_and!; [done..|apply reached_refl]. Qed.

(** ** One station *)

Lemma take6_key (v : sta_info) : sta_wf v → hw_key v = addr v.
Proof. intros [L _ _ _]. unfold hw_key. by rewrite take_ge by lia. Qed.

Lemma own_facts st a l R F c :
  own st a l R F c →
  ∃ bs v, F v ∧ sta_wf v ∧ addr v = a ∧ hw_key v = a ∧ R !! a = None ∧ (l, v) ∈ concat bs ∧
    shape c bs (<[a := v]> R) [] 0 0 st ∧ deref (c_tab c) l = Some v.
Proof.
  intros (bs & v & Sh & Hin & Ha & HR & HF). exists bs, v.
  assert (W : sta_wf v) by (apply (sh_wf _ _ _ _ _ _ _ Sh a); by rewrite lookup_insert_eq).
  split_and!; try done; [by rewrite take6_key|].
  eapply rep_deref; [apply (sh_rep _ _ _ _ _ _ _ Sh)|done].
Qed.

Lemma own_get st a l R F :
  total (own st a l R F) (sta_get l)
    (λ v c, (F v ∧ sta_wf v ∧ addr v = a) ∧ own st a l R (eq v) c).
Proof.
  intros s Hs. destruct (own_facts _ _ _ _ _ _ Hs) as (bs & v & HF & W & Ha & Hk & HR & Hin & Sh & Hd).
  exists v, s. split.
  - unfold sta_get, tab_deref, get_stas. cbn in Hd. by rewrite Hd.
  - split; [|apply reached_refl]. split; [done|]. by exists bs, v.
Qed.

Lemma own_upd st a l R F (F' : sta_info → Prop) f :
  (∀ v, addr (f v) = addr v) → (∀ v, aid (f v) = aid v) →
  (∀ v, addr v = a → sta_wf v → F v → sta_wf (f v) ∧ F' (f v)) →
  total (own st a l R F) (sta_upd l f) (λ _, own st a l R F').
Proof.
  intros Hf Hfi HF s Hs.
  destruct (own_facts _ _ _ _ _ _ Hs) as (bs & v & Fv & W & Ha & Hk & HR & Hin & Sh & _).
  destruct Sh as [Rp Hh Wf Hl Hn Hi Hst]. destruct (HF v Ha W Fv) as [W' F'v].
  destruct (map_assign_in hw_key id hw_bucket _ bs _ l v f Rp Hin) as (t' & E & Et & Hin' & Rp').
  { intros x. unfold hw_key. by rewrite Hf. }
  exists tt, (set_stas t' s). split.
  - unfold sta_upd, tab_assign. cbn in E |- *. unfold get_stas. by rewrite E.
  - split; [|apply reached_hapd].
    rewrite Hk, insert_insert_eq in Rp'. exists (assign_in l f <$> bs), (f v).
    unfold set_stas, at_core. rewrite get_set_hapd. split; [|by rewrite Hf].
    constructor; cbn; try done.
    + by rewrite Et.
    + rewrite map_Forall_insert in Wf |- * by done. by destruct Wf as [_ ?].
    + by rewrite concat_assign_fst.
    + cbn in Hn. by rewrite Hn, !map_size_insert_None.
    + by eapply aids_same; [| |exact Hi].
Qed.

Lemma own_stations st a l R F c : own st a l R F c → ∃ v, F v ∧ stations (<[a := v]> R) st c.
Proof. intros (bs & v & Sh & _ & _ & _ & HF). exists v. split; [done|]. by exists bs. Qed.

Lemma own_weaken st a l R (F F' : sta_info → Prop) c :
  own st a l R F c → (∀ v, sta_wf v → addr v = a → F v → F' v) → own st a l R F' c.
Proof.
  intros Ho HF. destruct (own_facts _ _ _ _ _ _ Ho) as (bs & v & Fv & W & Ha & _ & HR & Hin & Sh & _).
  exists bs, v. split_and!; auto.
Qed.

(** ** Looking a station up *)

Definition mac_ok (a : bytes) : Prop := length a = 6%nat ∧ bytes_ok a.

Lemma mac_bucket a : mac_ok a → ∃ i, STA_HASH a = Some i ∧ hw_bucket a = i ∧ 0 ≤ i < 256.
Proof.
  intros [L B]. unfold STA_HASH, hw_bucket. destruct (ld8_ok a 5) as [i E]; [unfold zlen; lia|].
  pose proof (ld8_byte _ _ _ B E). exists i. by rewrite E.
Qed.

Lemma same_node t bs m l l' v v' :
  hw_rep t bs m → (l, v) ∈ concat bs → (l', v') ∈ concat bs → hw_key v = hw_key v' → l = l'.
Proof.
  intros [_ ND _] Hin Hin' E. rewrite fst_bindings in ND. revert ND Hin Hin'.
  generalize (concat bs). intros ns. induction ns as [|[k x] ns IH]; [by intros _ ?%elem_of_nil|].
  rewrite fmap_cons, NoDup_cons. intros [Hk ND] [[= -> ->]|Hin]%elem_of_cons [[= -> ->]|Hin']%elem_of_cons;
    [done| | |by apply IH]; exfalso; apply Hk, list_elem_of_fmap.
  - by exists (l', v').
  - by exists (l, v).
Qed.

Lemma get_sta_at s bs m st a :
  mac_ok a → shape (core_of (get_hapd s)) bs m [] 0 0 st →
  ∃ p, ap_get_sta a s = Ret p s ∧
    match p with
    | Some l => ∃ v, m !! a = Some v ∧ (l, v) ∈ concat bs ∧ addr v = a
    | None => m !! a = None
    end.
Proof.
  intros Ha [Rp Hh Wf _ _ _ _]. destruct (mac_bucket a Ha) as (i & Ei & Eb & Hi).
  destruct (map_find hw_key id hw_bucket _ bs m (λ v, memcmp6 (addr v) a) a Rp) as [F1 F2].
  { intros v. unfold memcmp6, hw_key. destruct Ha as [L _].
    rewrite bool_decide_eq_true, (take_ge a) by lia. done. }
  destruct (rep_head _ _ bs i (mr_rep _ _ _ _ _ _ Rp)) as (p & Hp & _).
  { unfold zlen. rewrite Hh. lia. }
  pose proof (rep_walk _ _ bs i p (λ v, memcmp6 (addr v) a) (mr_rep _ _ _ _ _ _ Rp) Hp) as Hw.
  eexists. split.
  { unfold ap_get_sta. rewrite Ei. cbn [lift_opt]. rewrite mret_bind.
    unfold mbind, M_bind, tab_head, tab_search, get_stas. cbn in Hp, Hw. rewrite Hp. cbn.
    rewrite Hw. reflexivity. }
  rewrite Eb in F1, F2. destruct (find_bucket _ bs i) as [[l v]|] eqn:E; cbn in *; [|done].
  destruct (F2 l v eq_refl) as [Hk Hin]. exists v. split_and!; [done..|].
  rewrite <- Hk, take6_key; [done|]. by apply (Wf a).
Qed.

Lemma get_sta_total st m a :
  mac_ok a →
  total (stations m st) (ap_get_sta a) (λ p c,
    match p with
    | Some l => ∃ v, m !! a = Some v ∧ own st a l (delete a m) (eq v) c
    | None => m !! a = None ∧ stations m st c
    end).
Proof.
  intros Ha s [bs Sh]. destruct (get_sta_at s bs m st a Ha Sh) as (p & E & Hp).
  exists p, s. split_and!; [done| |apply reached_refl].
  destruct p as [l|]; [|by split; [|exists bs]]. destruct Hp as (v & Hm & Hin & Hv).
  exists v. split; [done|]. exists bs, v. rewrite insert_delete_id by done. by rewrite lookup_delete_eq.
Qed.

(** A station that is known is found again. *)
Lemma get_again st a l R F : mac_ok a →
  total (own st a l R F) (ap_get_sta a) (λ p c, p = Some l ∧ own st a l R F c).
Proof.
  intros Ha s Hs. destruct (own_facts _ _ _ _ _ _ Hs) as (bs & v & _ & _ & _ & Hk & _ & Hin & Sh & _).
  destruct (get_sta_at s bs _ st a Ha Sh) as (p & E & Hp).
  exists p, s. split_and!; [done| |apply reached_refl]. split; [|exact Hs].
  rewrite lookup_insert_eq in Hp. destruct p as [l'|]; [|done]. destruct Hp as (v' & [= <-] & Hin' & _).
  f_equal. by eapply same_node; [apply (sh_rep _ _ _ _ _ _ _ Sh)|exact Hin'|exact Hin|].
Qed.

(** ** A new station *)

Lemma new_wf a i : mac_ok a → sta_wf (new_sta a i).
Proof. intros [? ?]. by constructor. Qed.

(** Linking it into the table and the list, and counting it. *)
Lemma push_bind {B} st m a n i (k : loc → M S B) Q :
  mac_ok a → m !! a = None → STA_HASH a = Some i →
  (∀ l, total (own st a l m (eq (new_sta a n))) (k l) Q) →
  total (stations m st)
    (l ← tab_push get_stas set_stas i (new_sta a n);
     upd_hapd (λ h, set_sta_list (l :: sta_list h) h);;
     upd_hapd (λ h, set_num_sta (num_sta h + 1) h);; k l) Q.
Proof.
  intros Ha Hm Ei Hk s [bs [Rp Hh Wf Hl Hn Hi Hst]].
  destruct (mac_bucket a Ha) as (i' & Ei' & Eb & Hb). rewrite Ei in Ei'. injection Ei' as <-.
  assert (Ek : hw_key (new_sta a n) = a) by (rewrite take6_key by (by apply new_wf); done).
  destruct (map_push_in hw_key id hw_bucket _ bs m (new_sta a n) Rp) as (l & t & bs' & E & Et & Hp & Rp').
  { rewrite Ek, Eb. unfold zlen. rewrite Hh. lia. }
  { by rewrite Ek. }
  rewrite Ek, Eb in E. rewrite Ek in Rp'.
  unfold mbind at 1, M_bind, tab_push, get_stas. cbn in E. rewrite E.
  edestruct (Hk l) as (b & s' & Eb' & Hs' & Hr'); [|exists b, s'; split_and!; [exact Eb'|done|]].
  2:{ do 3 (eapply reached_trans; [apply reached_hapd|]). exact Hr'. }
  exists bs', (new_sta a n). unfold set_stas, at_core. rewrite !get_set_hapd.
  split_and!; try done; [|rewrite Hp; left]. constructor; cbn; try done.
  - unfold zlen in Et. lia.
  - apply map_Forall_insert; [done|]. split; [by apply new_wf|done].
  - rewrite Hp. cbn in Hl |- *. by rewrite Hl.
  - rewrite map_size_insert_None by done. cbn in Hn. lia.
  - by apply aids_new.
Qed.

(** Why a station is not admitted. *)
Definition refused (st : settings) (m : gmap bytes sta_info) : Prop :=
  st_max st ≤ Z.of_nat (size m) ∨ (∃ t n, env_calloc t n = false) ∨
  ∃ t, env_call t "accounting_sta_get_id" < 0.

Lemma stations_gets st m :
  total (stations m st) (gets get_hapd)
    (λ h c, (settings_of h = st ∧ num_sta h = Z.of_nat (size m)) ∧ stations m st c).
Proof.
  intros s Hs. eexists _, s. split; [reflexivity|]. split; [split; [|done]|apply reached_refl].
  destruct Hs as [bs [_ _ _ _ Hn _ Hst]]. cbn in Hn, Hst. split; [done|lia].
Qed.

Lemma own_gets st a l R F :
  total (own st a l R F) (gets get_hapd) (λ h c, settings_of h = st ∧ own st a l R F c).
Proof.
  intros s Hs. eexists _, s. split; [reflexivity|]. split; [split; [|done]|apply reached_refl].
  by destruct Hs as (bs & v & [_ _ _ _ _ _ Hst] & _).
Qed.

(** A step that changes nothing the predicate speaks of. *)
Lemma total_skip {A B} P (m : M S A) (k : A → M S B) Q :
  total P m (λ _, P) → (∀ a, total P (k a) Q) → total P (m ≫= k) Q.
Proof. intros Hm Hk. by eapply total_bind. Qed.

Lemma add_sta_total st m a :
  mac_ok a → m !! a = None →
  total (stations m st) (ap_sta_add a) (λ p c,
    match p with
    | Some l => own st a l m
        (λ v, ∃ i, v = set_last_seq_ctrl WLAN_INVALID_MGMT_SEQ (new_sta a i)) c
    | None => refused st m ∧ stations m st c
    end).
Proof.
  intros Ha Hm. unfold ap_sta_add. eapply total_bind; [by apply get_sta_total|].
  intros [l|]; [intros s (v & E & _); congruence|]. apply total_pure. intros _.
  eapply total_bind; [apply stations_gets|]. intros h. apply total_pure. intros [<- Hn].
  destruct (Z.leb_spec (max_num_sta (conf h)) (num_sta h)) as [Hle|_].
  { apply total_ret. intros c Hc. split; [left; cbn; lia|done]. }
  eapply total_bind; [apply total_calloc|]. intros r. apply total_pure. intros [t ->].
  destruct (env_calloc t sizeof_sta_info) eqn:Et.
  2:{ apply total_ret. intros c Hc. split; [right; left; eauto|done]. }
  eapply total_bind; [apply total_call|]. intros r. apply total_pure. intros [t' ->].
  destruct (Z.ltb_spec (env_call t' "accounting_sta_get_id") 0) as [Hlt|_].
  { apply total_ret. intros c Hc. split; [right; right; eauto|done]. }
  apply total_skip; [case_if; [apply total_notify|by apply total_ret]|]. intros _.
  destruct (mac_bucket a Ha) as (i & Ei & _). eapply total_opt; [exact Ei|].
  apply push_bind; [done..|]. intros l. apply total_skip; [apply total_notify|]. intros _.
  eapply total_bind; [apply (own_upd _ _ _ _ _ (λ v, ∃ i, v = set_last_seq_ctrl WLAN_INVALID_MGMT_SEQ (new_sta a i)))|].
  { done. } { done. }
  { intros v _ W <-. split; [destruct W; by constructor|by eexists]. }
  intros []. by apply total_ret.
Qed.

(** ** Changing a station *)

Lemma own_get_keep st a l R F :
  total (own st a l R F) (sta_get l) (λ v c, (F v ∧ sta_wf v ∧ addr v = a) ∧ own st a l R F c).
Proof.
  eapply total_weaken; [apply own_get|done|]. intros v c [(Fv & ?) Ho]. split; [done|].
  eapply own_weaken; [exact Ho|]. by intros ? _ _ <-.
Qed.

(** A write that keeps what is known. *)
Lemma own_keep st a l R (F : sta_info → Prop) f :
  (∀ v, addr (f v) = addr v) → (∀ v, aid (f v) = aid v) → (∀ v, sta_wf v → sta_wf (f v)) →
  (∀ v, F v → F (f v)) →
  total (own st a l R F) (sta_upd l f) (λ _, own st a l R F).
Proof. intros Hf Hi Hw HF. apply own_upd; auto. Qed.

Lemma wf_flags x v : sta_wf v → sta_wf (set_flags x v).
Proof. intros []. by constructor. Qed.

(** Bits of the flags. *)
Definition bit (n : Z) (v : sta_info) : bool := Z.testbit (flags v) n.

Lemma bit_add n f v : bit n (add_flag f v) = bit n v || Z.testbit f n.
Proof. apply Z.lor_spec. Qed.
Lemma bit_clear n f v : bit n (clear_flag f v) = bit n v && negb (Z.testbit f n).
Proof. apply Z.ldiff_spec. Qed.

Lemma land_bit x n : 0 ≤ n → (Z.land x (BIT n) =? 0) = negb (Z.testbit x n).
Proof.
  intros Hn. unfold BIT. rewrite Z.shiftl_1_l.
  assert (E : Z.land x (2 ^ n) = if Z.testbit x n then 2 ^ n else 0).
  { apply Z.bits_inj'. intros k Hk. rewrite Z.land_spec, Z.pow2_bits_eqb by done.
    destruct (Z.eqb_spec n k) as [->|Hne].
    - rewrite andb_true_r. destruct (Z.testbit x k); [|by rewrite Z.bits_0].
      by rewrite Z.pow2_bits_true.
    - rewrite andb_false_r. destruct (Z.testbit x n); [|by rewrite Z.bits_0].
      by rewrite Z.pow2_bits_false. }
  rewrite E. destruct (Z.testbit x n); [|done].
  pose proof (Z.pow_pos_nonneg 2 n). destruct (Z.eqb_spec (2 ^ n) 0); [lia|done].
Qed.

Lemma has_flag_bit n v : 0 ≤ n → has_flag (BIT n) v = bit n v.
Proof. intros Hn. unfold has_flag, bit. by rewrite land_bit, negb_involutive. Qed.

(** What [ap_sta_set_authorized] does to the station. *)
Definition authorize (x : bool) (v : sta_info) : sta_info :=
  if Bool.eqb x (has_flag WLAN_STA_AUTHORIZED v) then v
  else if x then add_flag WLAN_STA_AUTHORIZED v else clear_flag WLAN_STA_AUTHORIZED v.

Lemma authorize_total st a l R (F F' : sta_info → Prop) x :
  (∀ v, F v → F' (authorize x v)) →
  total (own st a l R F) (ap_sta_set_authorized l x) (λ _, own st a l R F').
Proof.
  intros HF. unfold ap_sta_set_authorized. eapply total_bind; [apply own_get|].
  intros v. apply total_pure. intros (Fv & W & Ha). apply HF in Fv. unfold authorize in Fv.
  destruct (Bool.eqb x (has_flag WLAN_STA_AUTHORIZED v)).
  { apply total_ret. intros c Ho. eapply own_weaken; [exact Ho|]. by intros ? _ _ <-. }
  eapply total_bind.
  { apply (own_upd _ _ _ _ _ F'); [by destruct x|by destruct x|]. intros ? _ ? <-.
    destruct x; split; try done; by apply wf_flags. }
  intros []. eapply total_bind; [apply own_gets|]. intros h. apply total_pure. intros _.
  apply total_skip; [case_if; [apply total_notify|by apply total_ret]|]. intros _.
  apply total_notify.
Qed.

Lemma bind_vlan_total st a l R (F : sta_info → Prop) :
  (∀ v i, F v → F (set_vlan_id_bound i v)) →
  total (own st a l R F) (ap_sta_bind_vlan l) (λ _, own st a l R F).
Proof.
  intros HF. unfold ap_sta_bind_vlan. eapply total_bind; [apply own_get_keep|].
  intros v. apply total_pure. intros (Fv & W & Ha).
  eapply total_bind; [apply own_gets|]. intros h. apply total_pure. intros _.
  case_if; [by apply total_ret|].
  apply total_skip.
  { case_if; [by apply total_ret|]. apply total_skip.
    - case_if; [|by apply total_ret]. by apply total_upd.
    - intros _. apply own_keep; [done|done| |auto]. intros ? []. by constructor. }
  intros _. apply total_skip; [apply total_notify|]. intros _.
  eapply total_bind; [apply total_call|]. intros r. apply total_pure. intros _.
  apply total_skip; [case_if; [apply total_notify|by apply total_ret]|]. intros _.
  by apply total_ret.
Qed.

(** A store to a counter of the interface. *)
Definition stores (store : Z → hostapd_iface → hostapd_iface) : Prop :=
  ∀ x i, drv_flags (store x i) = drv_flags i ∧ mode_g (store x i) = mode_g i ∧
    mode_ad (store x i) = mode_ad i.

Lemma add_counter_total st a l R (F : sta_info → Prop) set cnt store g :
  (∀ v, addr (set v) = addr v) → (∀ v, aid (set v) = aid v) → (∀ v, sta_wf v → sta_wf (set v)) →
  (∀ v, F v → F (set v)) → stores store →
  total (own st a l R F) (add_counter l set cnt store g) (λ _, own st a l R F).
Proof.
  intros Hs Hi Hw HF Hst. unfold add_counter. apply total_skip; [by apply own_keep|]. intros _.
  apply total_skip.
  { apply total_upd. intros h (bs & v & Sh & Ho). exists bs, v. split; [|done].
    destruct Sh as [? ? ? ? ? ? E]. constructor; cbn in *; try done.
    unfold settings_of in *. cbn. by destruct (Hst (cnt (iface h) + 1) (iface h)) as (-> & -> & ->). }
  intros _. eapply total_bind; [apply own_gets|]. intros h. apply total_pure. intros _.
  case_if; [apply total_emit|by apply total_ret].
Qed.

(** *** Authentication with the driver *)

(** Neither authenticated nor associated. *)
Definition idle (v : sta_info) : Prop := bit 0 v = false ∧ bit 1 v = false ∧ bit 5 v = false.

Lemma wf_upd f v :
  sta_wf v → addr (f v) = addr v → supported_rates (f v) = supported_rates v → aid (f v) = aid v →
  supported_rates_len (f v) = supported_rates_len v → sta_wf (f v).
Proof. intros [] Ea Er Ei El. constructor; congruence. Qed.

(** The driver's entry: whatever holds of the station but for its flags still
    does; the flags are the old ones, or none of the three is left. *)
Lemma renew_total st a l R (F : sta_info → Prop) :
  (∀ v x, F v → F (set_flags x v)) → (∀ v x, F v → F (set_added_unassoc x v)) →
  total (own st a l R F) (renew_entry l) (λ ok c,
    (ok = false → ∃ t, env_call t "hostapd_sta_add" ≠ 0) ∧
    own st a l R (λ v, F v ∧ (ok = false → idle v)) c).
Proof.
  intros Hx Hu. unfold renew_entry.
  apply total_skip; [apply own_keep; [done|done|intros v W; by apply wf_upd|intros v; apply Hx]|].
  intros _. eapply total_bind; [apply own_get_keep|]. intros v. apply total_pure. intros (_ & _ & Ha).
  apply total_skip; [apply total_notify|]. intros _.
  eapply total_bind; [apply own_gets|]. intros h. apply total_pure. intros _.
  case_if; [|apply total_ret; intros c Ho; split; [done|by eapply own_weaken]].
  apply total_skip.
  { apply authorize_total. intros w Fw. unfold authorize. by repeat case_if; [|apply Hx..]. }
  intros _. apply total_skip; [apply total_notify|]. intros _.
  eapply total_bind.
  { apply (own_upd _ _ _ _ _ (λ v, F v ∧ idle v)); [done|done|]. intros w _ W Fw.
    split; [by apply wf_upd|]. split; [by apply Hx|].
    unfold idle. by rewrite !bit_clear, !andb_false_r. }
  intros []. eapply total_bind; [apply total_call|]. intros r. apply total_pure. intros [t ->].
  destruct (Z.eqb_spec (env_call t "hostapd_sta_add") 0) as [_|Hne]; cbn [negb].
  - eapply total_bind; [apply (own_upd _ _ _ _ _ F); [done|done|]|].
    { intros w _ W [Fw _]. split; [by apply wf_upd|by apply Hu]. }
    intros []. apply total_ret. intros c Ho. split; [done|]. by eapply own_weaken.
  - apply total_ret. intros c Ho. split; [by exists t|].
    eapply own_weaken; [exact Ho|]. by intros ? _ _ [].
Qed.

Lemma auth_total st a l R :
  total (own st a l R (λ _, True)) (add_STA_auth l) (λ ok c,
    (ok = false → ∃ t, env_call t "hostapd_sta_add" ≠ 0) ∧
    own st a l R (λ v, ok = false → idle v) c).
Proof.
  unfold add_STA_auth.
  do 2 (apply total_skip; [apply own_keep; [done|done|intros v W; by apply wf_upd|done]|]; intros _).
  eapply total_weaken; [by apply (renew_total st a l R (λ _, True))|done|]. intros ok c [Hok Ho]. split; [done|].
  eapply own_weaken; [exact Ho|]. by intros v _ _ [].
Qed.

(** *** Parameters *)

(** What a handed-over station brings along fits the station's arrays. *)
Record info_ok (info : infoSTA) : Prop := {
  io_addr : mac_ok (address info);
  io_rates : length (ApData.supported_rates info) = 32%nat;
  io_len : 0 ≤ ApData.supported_rates_len info ≤ 32;
}.

(** The station has them. *)
Record params (info : infoSTA) (v : sta_info) : Prop := {
  pr_auth : bit 0 v = true;
  pr_capability : capability v = ApData.capability info;
  pr_interval : listen_interval v = ApData.listen_interval info;
  pr_len : supported_rates_len v = ApData.supported_rates_len info;
  pr_rates : take (Z.to_nat (supported_rates_len v)) (supported_rates v)
             = take (Z.to_nat (supported_rates_len v)) (ApData.supported_rates info);
}.

Lemma params_add info f v : params info v → params info (add_flag f v).
Proof. intros []. constructor; try done. by rewrite bit_add, pr_auth0. Qed.

Lemma params_clear info f v : Z.testbit f 0 = false → params info v → params info (clear_flag f v).
Proof. intros Hf []. constructor; try done. by rewrite bit_clear, pr_auth0, Hf. Qed.

Lemma erp_ok n rates i :
  0 ≤ i → i + Z.of_nat n ≤ zlen rates → ∃ b, has_erp_rate n rates i = Some b.
Proof.
  revert i. induction n as [|n IH]; intros i Hi Hn; [by eexists|]. cbn [has_erp_rate].
  destruct (ld8_ok rates i) as [r ->]; [lia|]. cbn. case_if; [by eexists|]. apply IH; lia.
Qed.

(** The first half, up to the rates. *)
Lemma rates_stored {B} st a l R info (k : M S B) Q :
  info_ok info → total (own st a l R (params info)) k Q →
  total (own st a l R (λ _, True))
    (sta_upd l (add_flag WLAN_STA_AUTH);;
     sta_upd l (set_capability (ApData.capability info));;
     sta_upd l (set_listen_interval (ApData.listen_interval info));;
     rates ← opt! ldn (ApData.supported_rates info) 0 (ApData.supported_rates_len info);
     s ← sta_get l;
     rates ← opt! stn (supported_rates s) 0 rates;
     sta_upd l (set_supported_rates rates);;
     sta_upd l (set_supported_rates_len (ApData.supported_rates_len info));; k) Q.
Proof.
  intros [_ Lr Hl] Hk.
  eapply total_bind; [apply (own_upd _ _ _ _ _ (λ v, bit 0 v = true)); [done|done|]|].
  { intros v _ W _. split; [by apply wf_upd|]. rewrite bit_add. by rewrite orb_true_r. }
  intros []. eapply total_bind; [apply (own_upd _ _ _ _ _ (λ v, bit 0 v = true ∧
    capability v = ApData.capability info)); [done|done|]|].
  { intros v _ W ?. split; [by apply wf_upd|done]. }
  intros []. eapply total_bind; [apply (own_upd _ _ _ _ _ (λ v, bit 0 v = true ∧
    capability v = ApData.capability info ∧ listen_interval v = ApData.listen_interval info)); [done|done|]|].
  { intros v _ W (? & ?). split; [by apply wf_upd|done]. }
  intros []. eapply total_opt.
  { apply ldn_ok; unfold zlen; lia. }
  eapply total_bind; [apply own_get|]. intros v. apply total_pure. intros ((Hb & Hc & Hi) & W & Ha).
  set (rs := take _ _).
  assert (Lrs : length rs = Z.to_nat (ApData.supported_rates_len info)).
  { unfold rs. rewrite length_take, length_drop. lia. }
  destruct (stn_ok (supported_rates v) 0 rs) as [rates Er].
  { done. } { pose proof (wf_rates v W). unfold zlen. lia. }
  eapply total_opt; [exact Er|]. pose proof (stn_length _ _ _ _ Er) as Lrates.
  apply stn_Some in Er as (_ & _ & Er).
  eapply total_bind; [apply (own_upd _ _ _ _ _ (λ w, w = set_supported_rates rates v)); [done|done|]|].
  { intros ? _ _ <-. split; [|done]. destruct W. constructor; try done. cbn. congruence. }
  intros []. eapply total_bind; [apply (own_upd _ _ _ _ _ (params info)); [done|done|]|].
  { intros ? _ W' ->. split; [destruct W'; by constructor|]. constructor; try done. cbn. rewrite Er.
    change (take (Z.to_nat 0) _ ++ ?x) with x.
    rewrite take_app_length' by lia. done. }
  intros []. exact Hk.
Qed.

Lemma authorized_bit v : bit 5 (authorize true v) = true.
Proof.
  unfold authorize. pose proof (has_flag_bit 5 v) as E. change (BIT 5) with WLAN_STA_AUTHORIZED in E.
  rewrite E by done. destruct (bit 5 v) eqn:E5; cbn [Bool.eqb]; [done|].
  rewrite bit_add. apply orb_true_r.
Qed.

(** Runs the steps that keep what is known of the station. *)
Ltac keep_going upd :=
  repeat lazymatch goal with
  | |- total _ (mbind _ (notify _ _)) _ => apply total_skip; [apply total_notify|intros _]
  | |- total _ (mbind _ (sta_get _)) _ =>
      eapply total_bind; [apply own_get_keep|]; intros ?; apply total_pure; intros (? & ? & ?)
  | |- total _ (mbind _ (hostapd_call _ _)) _ =>
      eapply total_bind; [apply total_call|]; intros ?; apply total_pure; intros [? ->]
  | |- total _ (mbind _ (sta_upd _ _)) _ => apply total_skip; [upd|intros _]
  | |- total _ (mbind _ (if _ then _ else _)) _ => apply total_skip; [|intros ?]
  | |- total _ (if _ then _ else _) _ => case_if
  | |- total _ (notify _ _) _ => apply total_notify
  | |- total _ (sta_upd _ _) _ => upd
  | |- total _ (mret _) _ => by apply total_ret
  | |- total _ skip _ => by apply total_ret
  end.

Definition open_network (st : settings) : Prop := st_1x st = 0 ∧ st_wpa st = 0 ∧ st_osen st = 0.

(** Two records of a station with the same parameters, and the same flags but
    for the bits [ns]. *)
Record alike (ns : list Z) (v w : sta_info) : Prop := {
  al_addr : addr w = addr v;
  al_aid : aid w = aid v;
  al_capability : capability w = capability v;
  al_interval : listen_interval w = listen_interval v;
  al_rates : supported_rates w = supported_rates v;
  al_len : supported_rates_len w = supported_rates_len v;
  al_alg : auth_alg w = auth_alg v;
  al_bits : ∀ n, n ∉ ns → bit n w = bit n v;
}.

Definition closed (ns : list Z) (F : sta_info → Prop) : Prop := ∀ v w, alike ns v w → F v → F w.

Lemma alike_refl ns v : alike ns v v.
Proof. by constructor. Qed.

Lemma alike_trans ns v w x : alike ns v w → alike ns w x → alike ns v x.
Proof. intros [] []. constructor; try congruence. intros n Hn. rewrite al_bits1, al_bits0; done. Qed.

Lemma closed_sub ns ns' F : (∀ n, n ∈ ns → n ∈ ns') → closed ns' F → closed ns F.
Proof.
  intros Hs HF v w [] Fv. apply (HF v); [|done]. constructor; try done.
  intros n Hn. apply al_bits0. intros Hi. by apply Hn, Hs.
Qed.

Lemma alike_mark ns f v :
  addr (f v) = addr v → aid (f v) = aid v → capability (f v) = capability v →
  listen_interval (f v) = listen_interval v → supported_rates (f v) = supported_rates v →
  supported_rates_len (f v) = supported_rates_len v → auth_alg (f v) = auth_alg v →
  flags (f v) = flags v → alike ns v (f v).
Proof. intros. constructor; try done. intros n _. unfold bit. congruence. Qed.

Lemma BIT_bits k n : 0 ≤ k → n ≠ k → Z.testbit (BIT k) n = false.
Proof.
  intros Hk Hn. unfold BIT. rewrite Z.shiftl_1_l, Z.pow2_bits_eqb by done. by apply Z.eqb_neq.
Qed.

Lemma alike_add ns k v : 0 ≤ k → k ∈ ns → alike ns v (add_flag (BIT k) v).
Proof.
  intros Hk Hin. constructor; try done. intros n Hn.
  rewrite bit_add, BIT_bits, orb_false_r; [done..|]. by intros ->.
Qed.

Lemma alike_clear ns k v : 0 ≤ k → k ∈ ns → alike ns v (clear_flag (BIT k) v).
Proof.
  intros Hk Hin. constructor; try done. intros n Hn.
  rewrite bit_clear, BIT_bits, andb_true_r; [done..|]. by intros ->.
Qed.

Lemma alike_authorize ns x v : 5 ∈ ns → alike ns v (authorize x v).
Proof.
  intros Hin. unfold authorize. case_if; [apply alike_refl|].
  case_if; [by apply (alike_add _ 5)|by apply (alike_clear _ 5)].
Qed.

Lemma alike_wf ns v w : alike ns v w → sta_wf v → sta_wf w.
Proof. intros [] []. constructor; congruence. Qed.

Section Protection.
  Context (st : settings) (a : bytes) (l : loc) (R : gmap bytes sta_info) (F : sta_info → Prop).

Lemma alike_upd ns f :
  closed ns F → (∀ v, alike ns v (f v)) →
  total (own st a l R F) (sta_upd l f) (λ _, own st a l R F).
Proof.
  intros HF Hf. apply own_keep; intros v; [apply (Hf v)|apply (Hf v)|by eapply alike_wf|by apply HF].
Qed.

Lemma alike_count ns b set cnt store g : closed ns F → (∀ v, alike ns v (set v)) → stores store →
  total (own st a l R F) (if b : bool then add_counter l set cnt store g else skip)
    (λ _, own st a l R F).
Proof.
  intros HF Hs Hst. destruct b; [|by apply total_ret].
  apply add_counter_total; [intros v; apply (Hs v)..| | |done]; intros v.
  - by eapply alike_wf.
  - by apply HF.
Qed.

Lemma protection_total :
  closed [7; 31] F → (∀ v, F v → 0 ≤ supported_rates_len v ≤ 32) →
  total (own st a l R F) (update_protection l) (λ _, own st a l R F).
Proof.
  intros HF Hlen.
  unfold update_protection. eapply total_bind; [apply own_gets|]. intros h. apply total_pure. intros _.
  apply total_skip.
  { case_if; [|by apply total_ret].
    apply (alike_upd _ _ HF). intros. apply (alike_add _ 31); [done|in_bits]. }
  intros _. eapply total_bind; [apply own_get_keep|]. intros v. apply total_pure. intros (Fv & W & Ha).
  destruct (erp_ok (Z.to_nat (supported_rates_len v)) (supported_rates v) 0) as [erp Ee].
  { done. } { apply Hlen in Fv. destruct W. unfold zlen. lia. }
  eapply total_opt; [exact Ee|]. apply total_skip.
  { case_if; [|by apply total_ret].
    apply (alike_upd _ _ HF). intros. apply (alike_clear _ 31); [done|in_bits]. }
  intros _. eapply total_bind; [apply own_get_keep|]. intros w. apply total_pure. intros _.
  do 2 (apply total_skip; [by apply (alike_count _ _ _ _ _ _ HF); [intros; apply alike_mark|]|]; intros _).
  apply total_skip; [|intros _; by apply (alike_count _ _ _ _ _ _ HF); [intros; apply alike_mark|]].
  case_if; apply (alike_upd _ _ HF); intros;
    [apply (alike_add _ 7)|apply (alike_clear _ 7)]; try done; in_bits.
Qed.

(** What [finish_assoc] leaves. *)
Record joined (v w : sta_info) : Prop := {
  jo_alike : alike [1; 5; 14; 19] v w;
  jo_assoc : bit 1 w = true;
  jo_authorized : open_network st → bit 5 w = true;
}.

Lemma bind_vlan_closed ns : closed ns F →
  total (own st a l R F) (ap_sta_bind_vlan l) (λ _, own st a l R F).
Proof. intros HF. apply bind_vlan_total. intros v i. by apply HF, alike_mark. Qed.

End Protection.

Section Finish.
  Context (st : settings) (a : bytes) (l : loc) (R : gmap bytes sta_info) (F : sta_info → Prop).
  Abbreviation started := (λ w, ∃ v, F v ∧ alike [1; 5; 14; 19] v w ∧ bit 1 w = true).
  Abbreviation finished := (λ w, ∃ v, F v ∧ joined st v w).

Lemma joined_closed : closed [14] finished.
Proof.
  intros v w A (v0 & Fv & [A0 B1 B5]). exists v0. split; [done|].
  assert (A' : alike [1; 5; 14; 19] v w).
  { destruct A. constructor; try done. intros n Hn. apply al_bits0. intros Hi%list_elem_of_singleton.
    apply Hn. subst. in_bits. }
  assert (E : ∀ n, n ≠ 14 → bit n w = bit n v).
  { intros n Hn. apply (al_bits _ _ _ A). by intros ?%list_elem_of_singleton. }
  constructor; [by eapply alike_trans|by rewrite E|]. intros Ho. rewrite E; auto.
Qed.

Lemma finish_total x :
  total (own st a l R F) (finish_assoc l x) (λ _, own st a l R finished).
Proof.
  unfold finish_assoc. eapply total_bind; [apply own_get_keep|]. intros v. apply total_pure.
  intros (_ & _ & Ha). apply total_skip; [apply total_notify|]. intros _.
  eapply total_bind; [apply (own_upd _ _ _ _ _ started); [done|done|]|].
  { intros w _ W Fw. split; [by apply wf_upd|]. exists w. split; [done|]. split.
    - apply (alike_add _ 1); [done|in_bits].
    - rewrite bit_add. apply orb_true_r. }
  intros []. apply total_skip.
  { apply own_keep; [done|done|intros w W; by apply wf_upd|]. intros w (v0 & F0 & A & B).
    exists v0. split; [done|]. split.
    - eapply alike_trans; [exact A|]. apply (alike_clear _ 19); [done|in_bits].
    - by rewrite bit_clear, B. }
  intros _. eapply total_bind; [apply own_gets|]. intros h. apply total_pure. intros Est.
  apply (total_bind _ _ (λ _, own st a l R finished)); [case_if|].
  - apply authorize_total. intros w (v0 & F0 & A & B). exists v0. split; [done|]. constructor.
    + eapply alike_trans; [exact A|]. apply alike_authorize. in_bits.
    + assert (E : bit 1 (authorize true w) = bit 1 w); [|by rewrite E].
      apply (al_bits [5] w); [apply alike_authorize; in_bits|]. by intros ?%list_elem_of_singleton.
    + intros _. apply authorized_bit.
  - apply total_ret. intros c Ho. eapply own_weaken; [exact Ho|]. intros w _ _ (v0 & F0 & A & B).
    exists v0. split; [done|]. constructor; [done..|]. intros (E1 & E2 & E3).
    rewrite <- Est in E1, E2, E3. cbn in E1, E2, E3. by rewrite E1, E2, E3 in Heqb.
  - pose proof joined_closed as HC. intros [].
    keep_going ltac:(apply (alike_upd _ _ _ _ _ _ _ HC); intros;
      first [by apply alike_mark | apply (alike_add _ 14); [done|in_bits]]).
    by eapply bind_vlan_closed.
Qed.

End Finish.

Lemma params_closed ns info : 0 ∉ ns → closed ns (params info).
Proof.
  intros Hn v w [] []. constructor; try congruence. by rewrite al_bits0.
Qed.

Lemma rates_total st a l R info :
  info_ok info →
  total (own st a l R (λ _, True)) (add_STA_rates l info) (λ _, own st a l R (params info)).
Proof.
  intros Hi. unfold add_STA_rates. apply rates_stored; [done|].
  apply total_skip.
  { apply own_keep; [done|done| |]; intros v []; by constructor. }
  intros _. apply protection_total; [apply params_closed; by apply (bool_decide_unpack _)|]. intros v P.
  rewrite (pr_len _ _ P). by destruct Hi.
Qed.

(** *** Association *)

(** Associated with the parameters of [info], and authorized in an open
    network. *)
Record admitted (st : settings) (info : infoSTA) (v : sta_info) : Prop := {
  ad_params : params info v;
  ad_req_ok : bit 15 v = true;
  ad_assoc : bit 1 v = true;
  ad_authorized : open_network st → bit 5 v = true;
}.

Lemma assoc_total st a l R info :
  total (own st a l R (params info)) (add_STA_assoc l) (λ _, own st a l R (admitted st info)).
Proof.
  unfold add_STA_assoc.
  eapply total_bind; [apply (own_upd _ _ _ _ _ (λ v, params info v ∧ bit 15 v = true)); [done|done|]|].
  { intros v _ W P. split; [by apply wf_upd|]. split; [by apply params_add|].
    rewrite bit_add. apply orb_true_r. }
  intros []. apply total_skip.
  { apply own_keep; [done|done|intros v W; by apply wf_upd|]. intros v [[] ?]. by split; [constructor|]. }
  intros _. eapply total_weaken; [apply finish_total|done|]. intros u c Ho.
  eapply own_weaken; [exact Ho|]. intros w _ _ (v & (P & B) & [A B1 B5]).
  constructor; [|by rewrite (al_bits _ _ _ A) by (by apply (bool_decide_unpack _))|done|done].
  eapply params_closed; [|exact A|done]. by apply (bool_decide_unpack _).
Qed.

(** A station that is being freed. *)
Lemma loose_get st a l R ls n i F :
  total (loose st a l R ls n i F) (sta_get l) (λ v c, (F v ∧ addr v = a) ∧ loose st a l R ls n i (eq v) c).
Proof.
  intros s (bs & v & q & Sh & Hl & Hn & Ha & HF). exists v, s. split.
  - unfold sta_get, tab_deref, get_stas, deref. cbn in Hl. by rewrite Hl.
  - split; [|apply reached_refl]. split; [done|]. by exists bs, v, q.
Qed.

Lemma loose_upd st a l R ls n i F (F' : sta_info → Prop) f :
  (∀ v, addr (f v) = addr v) → (∀ v, F v → F' (f v)) →
  total (loose st a l R ls n i F) (sta_upd l f) (λ _, loose st a l R ls n i F').
Proof.
  intros Hf HF s (bs & v & q & Sh & Hl & Hnot & Ha & Fv).
  destruct Sh as [[Rp ND Em] Hh Wf Hls Hn Hi Hst].
  eexists tt, (set_stas (HTab (<[l := Node (f v) q]> (tab_heap (get_stas s))) (tab_heads (get_stas s))) s).
  split.
  - unfold sta_upd, tab_assign, assign. cbn in Hl |- *. unfold get_stas. by rewrite Hl.
  - split; [|apply reached_hapd].
    exists bs, (f v), q. unfold set_stas, at_core. rewrite get_set_hapd. cbn.
    rewrite lookup_insert_eq, Hf. split_and!; try done; [|by apply HF].
    constructor; cbn; try done. constructor; [|done|done].
    apply (rep_frame _ (sta_hash (get_hapd s))); [done|]. intros x Hx.
    rewrite lookup_insert_ne; [done|]. by intros ->.
Qed.

(** ** Unlinking *)

Lemma elem_concat (bs : list (list (loc * sta_info))) i ns x :
  bs !! i = Some ns → x ∈ ns → x ∈ concat bs.
Proof.
  intros Hi Hx. apply list_elem_of_In, in_concat. exists ns.
  split; apply list_elem_of_In; [by eapply list_elem_of_lookup_2|done].
Qed.

Lemma tab_next_at {B} (k : option loc → M S B) s l p :
  next_of (get_stas s) l = Some p → (tab_next get_stas l ≫= k) s = k p s.
Proof. intros E. apply bind_Ret. unfold tab_next. by rewrite E. Qed.
Lemma sta_get_at' {B} (k : sta_info → M S B) s l v :
  deref (get_stas s) l = Some v → (sta_get l ≫= k) s = k v s.
Proof. intros E. apply bind_Ret. unfold sta_get, tab_deref. by rewrite E. Qed.

Lemma rep_next t bs i pre prev b n w post :
  tab_rep (λ v, hw_bucket (hw_key v)) t bs → bs !! i = Some (pre ++ (prev, b) :: (n, w) :: post) →
  next_of t prev = Some (Some n).
Proof.
  intros [RC _ _] Hi. destruct (Forall2_lookup_r _ _ _ _ _ RC Hi) as (p & _ & Hc).
  apply chain_app in Hc as (q & _ & -> & q' & Hp & -> & _). unfold next_of. by rewrite Hp.
Qed.

Lemma hash_del_loop_ok s bs i l v a post : ∀ rest pre prev b fuel,
  tab_rep (λ v, hw_bucket (hw_key v)) (get_stas s) bs → 0 ≤ i →
  bs !! Z.to_nat i = Some (pre ++ (prev, b) :: rest ++ (l, v) :: post) →
  Forall (λ x, memcmp6 (addr x.2) a = false) rest → memcmp6 (addr v) a = true →
  (length rest < fuel)%nat →
  ∃ t1, hash_del_loop fuel prev a s = Ret () (set_stas t1 s) ∧
    tab_heap t1 !! l = tab_heap (get_stas s) !! l ∧
    length (tab_heads t1) = length (tab_heads (get_stas s)) ∧
    tab_rep (λ v, hw_bucket (hw_key v)) t1
      (<[Z.to_nat i := pre ++ (prev, b) :: rest ++ post]> bs).
Proof.
  induction rest as [|[n w] rest IH]; intros pre prev b fuel R Hi Hb Hr Hv Hf;
    (destruct fuel as [|fuel]; [lia|]); cbn [hash_del_loop].
  - destruct (rep_unhook_next _ _ bs i pre prev b l v post R Hb Hi)
      as (q & t1 & Hp & Hx & E & El & _ & _ & _ & HL & R1).
    rewrite (tab_next_at _ s prev (Some l)) by exact Hp. cbv iota.
    rewrite (sta_get_at' _ s l v); [|].
    2:{ eapply rep_deref; [exact R|]. apply (elem_concat bs _ _ _ Hb). set_solver. }
    rewrite Hv, (tab_next_at _ s l q) by exact Hx.
    exists t1. split_and!; [|done|by rewrite HL|done]. unfold tab_change. by rewrite E.
  - apply Forall_cons in Hr as [Hn Hr]. cbn in Hn.
    rewrite (tab_next_at _ s prev (Some n)) by (eapply rep_next; [exact R|exact Hb]). cbv iota.
    rewrite (sta_get_at' _ s n w); [|].
    2:{ eapply rep_deref; [exact R|]. apply (elem_concat bs _ _ _ Hb). set_solver. }
    rewrite Hn. destruct (IH (pre ++ [(prev, b)]) n w fuel R Hi) as (t1 & E & El & HL & R1); auto.
    { by rewrite <- app_assoc. } { cbn in Hf. lia. }
    exists t1. split_and!; try done. by rewrite <- app_assoc in R1.
Qed.

(** Where a station is, and that no other in its bucket has its address. *)
Lemma station_bucket t bs m l v i :
  hw_rep t bs m → (l, v) ∈ concat bs → hw_bucket (hw_key v) = i → 0 ≤ i →
  ∃ pre post, bs !! Z.to_nat i = Some (pre ++ (l, v) :: post) ∧
    Forall (λ x, memcmp6 (addr x.2) (addr v) = false) pre.
Proof.
  intros [R ND _] Hin Hb Hi. pose proof (find_elem hw_key hw_bucket t bs l v R Hin) as Hf.
  rewrite Hb in Hf. unfold bucket in Hf. replace (0 <=? i) with true in Hf by lia.
  destruct (bs !! Z.to_nat i) as [ns|] eqn:Ei; [|by apply not_elem_of_nil in Hf].
  cbn in Hf. apply list_elem_of_split in Hf as (pre & post & ->). exists pre, post. split; [done|].
  apply Forall_forall. intros [l' w] Hw. unfold memcmp6. apply bool_decide_eq_false. intros Ek.
  pose proof (concat_remove_perm bs _ _ _ _ Ei) as Hp. unfold bindings in ND. rewrite Hp in ND.
  cbn in ND. apply NoDup_cons in ND as [Hn _]. apply Hn.
  rewrite <- list_fmap_compose. apply list_elem_of_fmap. exists (l', w). split; [done|].
  eapply elem_concat; [apply list_lookup_insert_eq; by eapply lookup_lt_Some|].
  apply elem_of_app. by left.
Qed.

Lemma hash_del_ok s bs m l v :
  hw_rep (get_stas s) bs m → length (tab_heads (get_stas s)) = 256%nat →
  (l, v) ∈ concat bs → mac_ok (addr v) →
  ∃ t1 bs', ap_sta_hash_del l s = Ret () (set_stas t1 s) ∧
    tab_heap t1 !! l = tab_heap (get_stas s) !! l ∧
    length (tab_heads t1) = 256%nat ∧ concat bs ≡ₚ (l, v) :: concat bs' ∧
    tab_rep (λ v, hw_bucket (hw_key v)) t1 bs'.
Proof.
  intros Rp Hh Hin Ha. destruct (mac_bucket _ Ha) as (i & Ei & Eb & Hi).
  assert (Ek : hw_key v = addr v) by (unfold hw_key; destruct Ha; by rewrite take_ge by lia).
  destruct (station_bucket _ bs m l v i Rp Hin) as (pre & post & Hb & Hpre); [congruence|lia|].
  pose proof (mr_rep _ _ _ _ _ _ Rp) as R. unfold ap_sta_hash_del.
  rewrite (sta_get_at' _ s l v) by (by eapply rep_deref).
  rewrite Ei. cbn [lift_opt]. rewrite mret_bind.
  assert (Hhead : ∀ n w ns, bs !! Z.to_nat i = Some ((n, w) :: ns) → head_at (get_stas s) i = Some (Some n)).
  { intros n w ns E. by destruct (rep_unhook_first _ _ bs i n w ns R E) as (? & ? & ? & _); [lia|]. }
  assert (Hself : memcmp6 (addr v) (addr v) = true) by (unfold memcmp6; by apply bool_decide_eq_true).
  destruct pre as [|[n w] pre].
  - destruct (rep_unhook_first _ _ bs i l v post R Hb) as (q & t1 & _ & Hx & E & El & _ & _ & HL & R1);
      [lia|].
    exists t1, (<[Z.to_nat i := post]> bs). split_and!; [|by rewrite El|lia| |done].
    + unfold mbind at 1, M_bind, tab_head. rewrite (Hhead _ _ _ Hb). cbn [lift_opt mret M_ret].
      rewrite (sta_get_at' _ s l v) by (by eapply rep_deref). rewrite Hself.
      rewrite (tab_next_at _ s l q) by done. unfold tab_change. by rewrite E.
    + by apply (concat_remove_perm bs _ []).
  - apply Forall_cons in Hpre as [Hn Hpre]. cbn in Hn.
    destruct (hash_del_loop_ok s bs i l v (addr v) post pre [] n w (size (tab_heap (get_stas s))) R)
      as (t1 & E & El & HL & R1); [lia|done|done|done| |].
    { destruct (rep_head _ _ bs i R) as (p & _ & Hc & Hnd); [unfold zlen; lia|].
      pose proof (chain_length _ _ _ Hc Hnd) as L. unfold bucket in L.
      replace (0 <=? i) with true in L by lia. rewrite Hb in L. cbn in L.
      rewrite length_app in L. cbn in L. lia. }
    exists t1, (<[Z.to_nat i := (n, w) :: pre ++ post]> bs).
    split_and!; [|done|lia|by apply (concat_remove_perm bs _ ((n, w) :: pre))|done].
    unfold mbind at 1, M_bind, tab_head. rewrite (Hhead _ _ _ Hb). cbn [lift_opt mret M_ret].
    rewrite (sta_get_at' _ s n w).
    2:{ eapply rep_deref; [exact R|]. eapply elem_concat; [exact Hb|left]. }
    rewrite Hn. exact E.
Qed.

Lemma hash_del_total st a l R i :
  total (own st a l R (λ v, aid v = i)) (ap_sta_hash_del l) (λ _, loose st a l R [l] 1 i (λ _, True)).
Proof.
  intros s Hs. destruct (own_facts _ _ _ _ _ _ Hs) as (bs & v & Fv & W & Ha & Hk & HR & Hin & Sh & _).
  destruct Sh as [Rp Hh Wf Hl Hn Hi Hst].
  destruct (hash_del_ok s bs _ l v Rp Hh Hin) as (t1 & bs' & E & El & HL & Hp & R1).
  { split; apply W. }
  exists tt, (set_stas t1 s). split; [done|]. split; [|apply reached_hapd].
  destruct (rep_lookup _ _ bs l v (mr_rep _ _ _ _ _ _ Rp) Hin) as [q Hq]. cbn in Hq.
  exists bs', v, q. unfold set_stas, at_core. rewrite get_set_hapd. cbn.
  split_and!; try done.
  - constructor; cbn; try done.
    + pose proof (map_remove hw_key id hw_bucket _ t1 bs bs' _ l v Rp Hp R1) as Rp'.
      by rewrite Hk, delete_insert_id in Rp'.
    + by rewrite map_Forall_insert in Wf by done; destruct Wf.
    + cbn in Hl. by rewrite Hl, Hp.
    + cbn in Hn. rewrite map_size_insert_None in Hn by done. lia.
    + apply aids_delete in Hi; [by rewrite Fv in Hi|done|apply W].
  - by rewrite El.
  - pose proof (rep_nodup _ _ _ (mr_rep _ _ _ _ _ _ Rp)) as Hnd. rewrite Hp in Hnd.
    by apply NoDup_cons in Hnd as [? _].
Qed.

(** ** Freeing *)

Lemma list_del_perm l (ls X : list loc) : ls ≡ₚ l :: X → ap_sta_list_del l ls ≡ₚ X.
Proof.
  intros Hp. apply (Permutation_cons_inv (a:=l)). rewrite <- Hp.
  assert (Hin : l ∈ ls) by (rewrite Hp; left). clear Hp. induction ls as [|x ls IH].
  { by apply not_elem_of_nil in Hin. }
  cbn. case_decide as Ex; [by subst|]. apply elem_of_cons in Hin as [->|Hin]; [done|].
  rewrite <- IH at 2 by done. by constructor.
Qed.

Section Free.
  Context (st : settings) (a : bytes) (l : loc) (R : gmap bytes sta_info).
  Abbreviation gone ls n i := (loose st a l R ls n i (λ _, True)).

Lemma loose_gets ls n i :
  total (gone ls n i) (gets get_hapd) (λ _, gone ls n i).
Proof. intros s Hs. eexists _, s. split_and!; [reflexivity|done|apply reached_refl]. Qed.

Lemma loose_get_any ls n i : total (gone ls n i) (sta_get l) (λ v, gone ls n i).
Proof.
  eapply total_weaken; [apply loose_get|done|]. intros v c [_ (bs & w & q & ? & ? & ? & ? & _)].
  by exists bs, w, q.
Qed.

Lemma drop_total ls n i set reset cnt store g :
  (∀ v, addr (reset v) = addr v) → stores store →
  total (gone ls n i) (drop_counter l set reset cnt store g) (λ _, gone ls n i).
Proof.
  intros Hr Hst. unfold drop_counter. apply total_skip; [apply loose_get_any|]. intros v.
  case_if; [|by apply total_ret]. apply total_skip; [by apply loose_upd|]. intros _.
  apply total_skip.
  - apply total_upd. intros h (bs & w & q & Sh & Ho). exists bs, w, q. split; [|done].
    destruct Sh as [? ? ? ? ? ? E]. constructor; cbn in *; try done.
    unfold settings_of in *. cbn. by destruct (Hst (cnt (iface h) - 1) (iface h)) as (-> & -> & ->).
  - intros _. apply total_skip; [apply loose_gets|]. intros h. by apply total_ret.
Qed.

Lemma list_del_total i :
  total (gone [l] 1 i) (upd_hapd (λ h, set_sta_list (ap_sta_list_del l (sta_list h)) h)) (λ _, gone [] 1 i).
Proof.
  apply total_upd. intros h (bs & v & q & Sh & Ho). exists bs, v, q. split; [|done].
  destruct Sh. constructor; cbn in *; try done. by apply list_del_perm.
Qed.

Lemma num_total i :
  total (gone [] 1 i) (upd_hapd (λ h, set_num_sta (num_sta h - 1) h)) (λ _, gone [] 0 i).
Proof.
  apply total_upd. intros h (bs & v & q & Sh & Ho). exists bs, v, q. split; [|done].
  destruct Sh. constructor; cbn in *; try done. lia.
Qed.

Lemma release_total v n :
  sta_wf v →
  total (gone [] n (aid v)) (if 0 <? aid v then
      h ← gets get_hapd; ws ← opt! release_aid (aid v) (sta_aid h); upd_hapd (set_sta_aid ws)
    else skip) (λ _, gone [] n 0).
Proof.
  intros [_ _ _ Ha]. destruct (Z.ltb_spec 0 (aid v)).
  2:{ apply total_ret. by replace (aid v) with 0 by lia. }
  intros s Hs. destruct Hs as (bs & x & q & Sh & Ho).
  destruct (release_ok (sta_aid (get_hapd s)) (aid v) R) as (ws' & E & Hws);
    [lia|apply (sh_aids _ _ _ _ _ _ _ Sh)|].
  eexists tt, _. split; [unfold mbind, M_bind, gets; cbn; rewrite E; reflexivity|].
  split; [|apply reached_hapd]. exists bs, x, q. unfold at_core. rewrite get_set_hapd. split; [|done].
  destruct Sh. by constructor; cbn in *.
Qed.

Lemma free_node_total :
  total (gone [] 0 0) (tab_change get_stas set_stas (λ t, free_node t l)) (λ _, stations R st).
Proof.
  intros s (bs & v & q & Sh & Hl & Hn & _). destruct Sh as [[Rp ND Em] Hh Wf Hls Hnum Hi Hst].
  destruct (rep_free _ _ bs l (Node v q) Rp Hl Hn) as [E R1]. cbn in E.
  eexists tt, _. split; [unfold tab_change, get_stas; rewrite E; reflexivity|].
  split; [|apply reached_hapd].
  exists bs. unfold set_stas, at_core. rewrite get_set_hapd. by constructor; cbn; try done.
Qed.

Lemma any_keep f :
  (∀ v, addr (f v) = addr v) → (∀ v, supported_rates (f v) = supported_rates v) →
  (∀ v, aid (f v) = aid v) → (∀ v, supported_rates_len (f v) = supported_rates_len v) →
  total (own st a l R (λ _, True)) (sta_upd l f) (λ _, own st a l R (λ _, True)).
Proof. intros Ea Er Ei El. apply own_keep; [done|done| |done]. intros v W. by apply wf_upd. Qed.

Lemma free_total : total (own st a l R (λ _, True)) (ap_free_sta l) (λ _, stations R st).
Proof.
  unfold ap_free_sta. eapply total_bind; [apply own_get_keep|]. intros v0. apply total_pure. intros _.
  cbv zeta. apply total_skip; [apply total_notify|]. intros _.
  apply total_skip; [by apply authorize_total|]. intros _.
  eapply total_bind; [apply own_get|]. intros v. apply total_pure. intros (_ & W & _).
  eapply (total_weaken (own st a l R (λ w, aid w = aid v)));
    [|intros c Ho; eapply own_weaken; [exact Ho|by intros ? _ _ <-]|exact (λ _ _ x, x)].
  do 3 (apply total_skip; [keep_going fail|]; intros _).
  eapply total_bind; [apply own_gets|]. intros h. apply total_pure. intros _.
  apply total_skip; [keep_going ltac:(by apply own_keep; [| |intros w Ww; apply wf_upd|])|]. intros _.
  eapply total_bind; [apply hash_del_total|]. intros [].
  eapply total_bind; [apply list_del_total|]. intros [].
  eapply total_bind; [by apply release_total|]. intros [].
  eapply total_bind; [apply num_total|]. intros [].
  do 6 (apply total_skip; [by apply drop_total|]; intros ?).
  apply total_skip; [case_if; [apply total_emit|by apply total_ret]|]. intros _.
  do 7 (apply total_skip; [apply total_notify|]; intros _).
  apply total_skip; [apply loose_gets|]. intros h'.
  apply total_skip; [keep_going fail|]. intros _.
  apply total_skip; [apply loose_get_any|]. intros v'.
  apply total_skip; [keep_going fail|]. intros _.
  apply total_skip; [keep_going ltac:(by apply loose_upd)|]. intros _.
  apply total_skip; [apply total_notify|]. intros _. apply free_node_total.
Qed.

End Free.

(** ** The functions the controller calls *)

(** The networks's authentication algorithms admit the station's. *)
Definition accepted (st : settings) (info : infoSTA) : bool :=
  (negb (Z.land (st_auth_algs st) WPA_AUTH_ALG_OPEN =? 0)
     && (ApData.auth_alg info =? WLAN_AUTH_OPEN))
  || (negb (Z.land (st_auth_algs st) WPA_AUTH_ALG_SHARED =? 0)
     && (ApData.auth_alg info =? WLAN_AUTH_SHARED_KEY)).

(** What [add_STA] leaves: the table as it was when the station was not accepted
    or could not be stored; the station admitted; or the station known but idle,
    when the driver has refused it. *)
Definition added (st : settings) (m : gmap bytes sta_info) (info : infoSTA) (c : core) : Prop :=
  let a := address info in
  (stations m st c ∧ (accepted st info = false ∨ m !! a = None ∧ refused st m)) ∨
  (accepted st info = true ∧ ∃ v, stations (<[a := v]> m) st c ∧
     (admitted st info v ∨ idle v ∧ ∃ t, env_call t "hostapd_sta_add" ≠ 0)).

Lemma add_known_total st m info l R :
  info_ok info → accepted st info = true → (∀ v : sta_info, <[address info := v]> R = <[address info := v]> m) →
  total (own st (address info) l R (λ _, True))
    (ok ← add_STA_auth l; if ok : bool then add_STA_rates l info;; add_STA_assoc l else skip)
    (λ _, added st m info).
Proof.
  intros Hi Hacc HR. eapply total_bind; [apply auth_total|]. intros ok. apply total_pure. intros Hok.
  destruct ok.
  - eapply total_bind; [eapply total_weaken; [by apply rates_total| |done]|].
    { intros c Ho. by eapply own_weaken. }
    intros []. eapply total_weaken; [apply assoc_total|done|]. intros [] c Ho. right. split; [done|].
    apply own_stations in Ho as (v & A & Hst). exists v. rewrite <- HR. auto.
  - apply total_ret. intros c Ho. right. split; [done|].
    apply own_stations in Ho as (v & A & Hst). exists v. rewrite <- HR. auto.
Qed.

Lemma add_STA_total st m info :
  info_ok info → total (stations m st) (add_STA info) (λ _, added st m info).
Proof.
  intros Hi. pose proof (io_addr _ Hi) as Ha. unfold add_STA.
  eapply total_bind; [apply stations_gets|]. intros h. apply total_pure. intros [<- _]. cbv zeta.
  change (_ || _) with (accepted (settings_of h) info).
  destruct (accepted (settings_of h) info) eqn:Eacc; cbn [negb].
  2:{ apply total_ret. intros c Hc. left. auto. }
  eapply total_bind; [by apply get_sta_total|]. intros [l|].
  - apply total_ex. intros v. apply total_pure. intros Hm. rewrite mret_bind.
    eapply total_weaken; [apply (add_known_total (settings_of h) m info l (delete (address info) m)); try done|..].
    + intros w. by rewrite insert_delete_eq.
    + intros c Ho. by eapply own_weaken.
    + done.
  - apply total_pure. intros Hm. eapply total_bind; [by apply add_sta_total|]. intros [l|].
    + eapply total_weaken; [by apply (add_known_total (settings_of h) m info l m)| |done].
      intros c Ho. by eapply own_weaken.
    + apply total_pure. intros Hr. apply total_ret. intros c Hc. left. auto.
Qed.

Lemma remove_STA_total st m info :
  mac_ok (address info) →
  total (stations m st) (remove_STA info) (λ _, stations (delete (address info) m) st).
Proof.
  intros Ha. unfold remove_STA. eapply total_bind; [by apply get_sta_total|]. intros [l|].
  2:{ apply total_ret. intros c [Hm Hc]. by rewrite delete_id. }
  apply total_ex. intros v. apply total_pure. intros Hm.
  eapply (total_weaken (own st (address info) l (delete (address info) m) (λ _, True)) _ _
    (λ _, stations (delete (address info) m) st)); [|intros c Ho; by eapply own_weaken|done].
  apply total_skip; [by apply authorize_total|]. intros _.
  do 2 (apply total_skip; [by apply any_keep|]; intros _).
  eapply total_bind; [apply own_get_keep|]. intros w. apply total_pure. intros _. cbv zeta.
  keep_going ltac:(by apply any_keep). apply free_total.
Qed.

End Total.

(** ** Properties *)

(** hostapd's data between two calls: table, list and number are the map [m], and
    the counters of the interface count its stations. *)
Record hapd_ok (h : hostapd_data) (m : gmap bytes sta_info) : Prop := {
  ho_stations : stations m (settings_of h) (core_of h);
  ho_counted : counted h;
}.

Section Properties.
  Context `{Env} {S : Type} `{HasHapd S} `{StaSize}.

Lemma total_run {A} (s : S) m st (f : M S A) Q :
  total (stations m st) f Q → stations m st (core_of (get_hapd s)) →
  ∃ a s', f s = Ret a s' ∧ Q a (core_of (get_hapd s')).
Proof. intros Hf Hs. destruct (Hf s Hs) as (a & s' & E & Hq & _). eauto. Qed.

Lemma stations_settings m st h : stations m st (core_of h) → settings_of h = st.
Proof. by intros [bs [_ _ _ _ _ _ E]]. Qed.

Lemma ends_run {A} (s s' : S) (f : M S A) a :
  ends all_counted f (λ _, all_counted) → counted (get_hapd s) → f s = Ret a s' →
  counted (get_hapd s').
Proof. intros Hf Hc E. specialize (Hf s Hc). by rewrite E in Hf. Qed.

Lemma remove_ok (s : S) m info :
  hapd_ok (get_hapd s) m → mac_ok (address info) →
  ∃ s', remove_STA info s = Ret () s' ∧ hapd_ok (get_hapd s') (delete (address info) m) ∧
    settings_of (get_hapd s') = settings_of (get_hapd s).
Proof.
  intros [Hs Hc] Ha. destruct (total_run s m _ _ _ (remove_STA_total _ m info Ha) Hs) as ([] & s' & E & Hs').
  exists s'. pose proof (stations_settings _ _ _ Hs') as Est. split_and!; [done|constructor|done].
  - by rewrite Est.
  - by eapply ends_run; [apply remove_STA_counted| |].
Qed.

Lemma add_ok (s : S) m info :
  hapd_ok (get_hapd s) m → info_ok info →
  ∃ s', add_STA info s = Ret () s' ∧ counted (get_hapd s') ∧
    settings_of (get_hapd s') = settings_of (get_hapd s) ∧
    added (settings_of (get_hapd s)) m info (core_of (get_hapd s')).
Proof.
  intros [Hs Hc] Hi. destruct (total_run s m _ _ _ (add_STA_total _ m info Hi) Hs) as ([] & s' & E & Hs').
  exists s'. split_and!; [done|by eapply ends_run; [apply add_STA_counted| |]| |done].
  by destruct Hs' as [[Hs' _]|(_ & v & Hs' & _)]; apply stations_settings in Hs'.
Qed.

(** C21. hostapd's stations stay consistent: whatever the driver, the allocator and
    the other parts of hostapd answer, [add_STA] and [remove_STA] return; hash
    table, list and number of stations hold the same stations, an association
    identifier is taken exactly if one station has it, and each of the six counters
    that decide about the beacons is the number of stations it counts.
    No other station is changed, and a removed station is gone. *)
Theorem stations_consistent (s : S) m info :
  hapd_ok (get_hapd s) m → info_ok info →
  (∃ s' m', add_STA info s = Ret () s' ∧ hapd_ok (get_hapd s') m' ∧
     delete (address info) m' = delete (address info) m) ∧
  (∃ s', remove_STA info s = Ret () s' ∧ hapd_ok (get_hapd s') (delete (address info) m)).
Proof.
  intros Ho Hi. split.
  - destruct (add_ok s m info Ho Hi) as (s' & E & Hc & Est & [[Hs' _]|(_ & v & Hs' & _)]).
    + exists s', m. by split_and!; [|constructor; [rewrite Est|]|].
    + exists s', (<[address info := v]> m). rewrite delete_insert_eq.
      by split_and!; [|constructor; [rewrite Est|]|].
  - destruct (remove_ok s m info Ho (io_addr _ Hi)) as (s' & E & Ho' & _). by exists s'.
Qed.

(** C22. A handed-over station is admitted: when the network accepts its algorithm,
    has room for it and the driver takes it, [add_STA] leaves the station
    authenticated and associated, in an open network authorized, with the
    capabilities, interval and rates that came with it; the others are as they
    were.  Removing it afterwards leaves exactly the stations there were without
    it. *)
Theorem handed_over_station_admitted (s : S) m info :
  hapd_ok (get_hapd s) m → info_ok info → accepted (settings_of (get_hapd s)) info = true →
  is_Some (m !! address info) ∨ Z.of_nat (size m) < st_max (settings_of (get_hapd s)) →
  (∀ t n, env_calloc t n = true) → (∀ t, 0 ≤ env_call t "accounting_sta_get_id") →
  (∀ t, env_call t "hostapd_sta_add" = 0) →
  ∃ s' s'' v, add_STA info s = Ret () s' ∧ hapd_ok (get_hapd s') (<[address info := v]> m) ∧
    admitted (settings_of (get_hapd s)) info v ∧
    remove_STA info s' = Ret () s'' ∧ hapd_ok (get_hapd s'') (delete (address info) m).
Proof.
  intros Ho Hi Hacc Hroom Hca Hid Hdrv.
  destruct (add_ok s m info Ho Hi) as (s' & E & Hc & Est & [[_ Hbad]|(_ & v & Hs' & Hv)]).
  { exfalso. destruct Hbad as [?|(Hm & [?|[(t & n & ?)|[t ?]]])]; [congruence| |congruence|].
    - destruct Hroom as [[x Hx]|?]; [congruence|lia].
    - specialize (Hid t). lia. }
  assert (Ho' : hapd_ok (get_hapd s') (<[address info := v]> m)) by (constructor; [by rewrite Est|done]).
  destruct (remove_ok s' _ info Ho' (io_addr _ Hi)) as (s'' & E' & Ho'' & _).
  rewrite delete_insert_eq in Ho''. exists s', s'', v. split_and!; try done.
  destruct Hv as [?|[_ [t Ht]]]; [done|]. by rewrite Hdrv in Ht.
Qed.

End Properties.

(** ** Witnesses *)

(** The smallest state with hostapd's data. *)
Record hstate := HState { hs_sys : sys; hs_hapd : hostapd_data }.

#[global, refine] Instance hstate_sys : HasSys hstate := {|
  get_sys := hs_sys; set_sys w s := HState w (hs_hapd s) |}.
Proof. all: by intros; repeat match goal with s : hstate |- _ => destruct s end. Defined.

#[global, refine] Instance hstate_hapd : HasHapd hstate := {|
  get_hapd := hs_hapd; set_hapd h s := HState (hs_sys s) h |}.
Proof. all: by intros; repeat match goal with s : hstate |- _ => destruct s end. Defined.

(** An open 802.11g network without stations, and an 802.11b station. *)
Definition hapd_start : hstate :=
  HState (Sys 0 [])
    (home_network WPA_DRIVER_FLAGS_FULL_AP_CLIENT_STATE (empty_tab 256) [] 0).
Definition b_station : infoSTA :=
  InfoSTA [2; 0; 0; 0; 0; 7] ASSOCIATED 40 0 0 0 10 ([2; 4; 11; 22] ++ replicate 28 0) 4 0 None 0.
Definition hapd_env : Env := env_with (λ _ _, None) (λ _ m, zlen m).

Lemma hapd_start_counted : counted (hs_hapd hapd_start).
Proof.
  intros k. unfold marked, heap_of. cbn. rewrite map_filter_empty, map_size_empty.
  unfold count. cbn. by do 7 (destruct k as [|k]; [done|]).
Qed.

Lemma aids_none : aids_ok (replicate 63 0) ∅ 0.
Proof.
  constructor; [done| |done|done]. intros k Hk. split; [|intros [->|(a & v & Ha & _)]; [lia|done]].
  unfold taken. destruct (replicate 63 0 !! Z.to_nat ((k - 1) / 32)) as [w|] eqn:E; [|done].
  apply lookup_replicate in E as [-> _]. by rewrite Z.bits_0.
Qed.

Lemma hapd_start_ok : hapd_ok (hs_hapd hapd_start) ∅.
Proof.
  constructor; [|apply hapd_start_counted]. exists (replicate 256 []).
  assert (E : concat (replicate 256 ([] : list (loc * sta_info))) = []) by reflexivity.
  constructor; cbn [core_of c_tab c_list c_num c_aids c_set].
  - apply map_rep_empty.
  - by vm_compute.
  - apply map_Forall_empty.
  - by rewrite E.
  - by rewrite map_size_empty.
  - apply aids_none.
  - done.
Qed.

Lemma b_station_ok : info_ok b_station.
Proof. constructor; [split; [done|by apply (bool_decide_unpack _)]|done|vm_compute; split; congruence]. Qed.

Lemma stations_consistent_witness :
  (∃ s' m', @add_STA hapd_env hstate _ _ 1000 b_station hapd_start = Ret () s' ∧
     hapd_ok (hs_hapd s') m' ∧ delete (address b_station) m' = delete (address b_station) ∅) ∧
  (∃ s', @remove_STA hapd_env hstate _ _ b_station hapd_start = Ret () s' ∧
     hapd_ok (hs_hapd s') (delete (address b_station) ∅)).
Proof.
  exact (@stations_consistent hapd_env hstate _ _ 1000 hapd_start ∅ b_station hapd_start_ok
    b_station_ok).
Defined.

Lemma handed_over_station_admitted_witness :
  ∃ s' s'' v, @add_STA hapd_env hstate _ _ 1000 b_station hapd_start = Ret () s' ∧
    hapd_ok (hs_hapd s') (<[address b_station := v]> ∅) ∧
    admitted (settings_of (hs_hapd hapd_start)) b_station v ∧
    @remove_STA hapd_env hstate _ _ b_station s' = Ret () s'' ∧
    hapd_ok (hs_hapd s'') (delete (address b_station) ∅).
Proof.
  refine (@handed_over_station_admitted hapd_env hstate _ _ 1000 hapd_start ∅ b_station hapd_start_ok
    b_station_ok _ _ _ _ _); [reflexivity|right; vm_compute; congruence|done..].
Defined.
