(* ===== verification/ApState.v ===== *)
(** * State of the access point's controller interface

    The globals of [src/ofSwitchAP/controller_interface.c]: the connection, the
    list of stations, the translation entries, the queue of held packets, the
    tunnel counter, and hostapd's own data that the interface points to.  The
    functions that run as threads of their own are values of [thread];
    [pthread_create] adds one to the threads that wait to run, so every theorem
    says what happens between two threads, not while they run. *)

From Stdlib Require Import ZArith Lia.
From S2P Require Import Prelude CMem CStruct CMonad OpenFlow Chain Agent NatTable ApData Station.

(** The argument of [pthread_create] with its start routine.  A
    [struct mgmt_handle] is the frame and the station of hostapd it points to;
    a [struct rssi_handle] is the value and the address. *)
Inductive thread :=
| SendNatEntry (nat : bytes)
| SendNatPortEntry (nat : bytes)
| ReinjectPkt (nMap : option loc)
| ProcessStaMsg (mgmt : bytes) (sta : option loc)
| ProcessStaData (rssi : Z) (mac : bytes)
| HandleDeauthConn (addr : bytes).

Record ap_state := Ap {
  ap_conn : controller_connection;
  ap_sys : sys;
  ap_stas : htab infoSTA;       (** [staList->table] *)
  ap_num_sta : Z;               (** [staList->num_sta] *)
  ap_mutex : bool;
  ap_nat : htab natMap;         (** [entryList->table] *)
  ap_mutex_nat : bool;
  ap_port : htab PortData;      (** [portQueue->table] *)
  ap_mutex_port : bool;
  ap_ifIP : bytes;
  ap_subnet : bytes;
  ap_tunCount : Z;
  ap_loop : bool;               (** [loop_terminate] *)
  ap_threads : list thread;
  ap_hapd : Hapd.hostapd_data;
}.

Definition set_ap_num_sta (v : Z) (s : ap_state) : ap_state :=
    Ap (ap_conn s) (ap_sys s) (ap_stas s) v (ap_mutex s) (ap_nat s) (ap_mutex_nat s)
      (ap_port s) (ap_mutex_port s) (ap_ifIP s) (ap_subnet s) (ap_tunCount s) (ap_loop
      s) (ap_threads s) (ap_hapd s).
Definition set_tunCount (v : Z) (s : ap_state) : ap_state :=
    Ap (ap_conn s) (ap_sys s) (ap_stas s) (ap_num_sta s) (ap_mutex s) (ap_nat s)
      (ap_mutex_nat s) (ap_port s) (ap_mutex_port s) (ap_ifIP s) (ap_subnet s) v
      (ap_loop s) (ap_threads s) (ap_hapd s).
Definition set_loop (v : bool) (s : ap_state) : ap_state :=
    Ap (ap_conn s) (ap_sys s) (ap_stas s) (ap_num_sta s) (ap_mutex s) (ap_nat s)
      (ap_mutex_nat s) (ap_port s) (ap_mutex_port s) (ap_ifIP s) (ap_subnet s)
      (ap_tunCount s) v (ap_threads s) (ap_hapd s).
Definition set_threads (v : list thread) (s : ap_state) : ap_state :=
    Ap (ap_conn s) (ap_sys s) (ap_stas s) (ap_num_sta s) (ap_mutex s) (ap_nat s)
      (ap_mutex_nat s) (ap_port s) (ap_mutex_port s) (ap_ifIP s) (ap_subnet s)
      (ap_tunCount s) (ap_loop s) v (ap_hapd s).

#[global, refine] Instance ap_has_sys : HasSys ap_state := {|
  get_sys := ap_sys;
  set_sys w s :=
    Ap (ap_conn s) w (ap_stas s) (ap_num_sta s) (ap_mutex s) (ap_nat s) (ap_mutex_nat
      s) (ap_port s) (ap_mutex_port s) (ap_ifIP s) (ap_subnet s) (ap_tunCount s)
      (ap_loop s) (ap_threads s) (ap_hapd s) |}.
Proof. all: by intros; repeat match goal with s : ap_state |- _ => destruct s end. Defined.

#[global, refine] Instance ap_has_conn : HasConn ap_state := {|
  get_conn := ap_conn;
  set_conn c s :=
    Ap c (ap_sys s) (ap_stas s) (ap_num_sta s) (ap_mutex s) (ap_nat s) (ap_mutex_nat
      s) (ap_port s) (ap_mutex_port s) (ap_ifIP s) (ap_subnet s) (ap_tunCount s)
      (ap_loop s) (ap_threads s) (ap_hapd s) |}.
Proof. all: by intros; repeat match goal with s : ap_state |- _ => destruct s end. Defined.

#[global, refine] Instance ap_has_stas : HasTab ap_state infoSTA := {|
  get_tab := ap_stas;
  set_tab t s :=
    Ap (ap_conn s) (ap_sys s) t (ap_num_sta s) (ap_mutex s) (ap_nat s) (ap_mutex_nat
      s) (ap_port s) (ap_mutex_port s) (ap_ifIP s) (ap_subnet s) (ap_tunCount s)
      (ap_loop s) (ap_threads s) (ap_hapd s);
  get_mutex := ap_mutex;
  set_mutex b s :=
    Ap (ap_conn s) (ap_sys s) (ap_stas s) (ap_num_sta s) b (ap_nat s) (ap_mutex_nat s)
      (ap_port s) (ap_mutex_port s) (ap_ifIP s) (ap_subnet s) (ap_tunCount s) (ap_loop
      s) (ap_threads s) (ap_hapd s) |}.
Proof. all: by intros; repeat match goal with s : ap_state |- _ => destruct s end. Defined.

#[global, refine] Instance ap_has_nat : HasTab ap_state natMap := {|
  get_tab := ap_nat;
  set_tab t s :=
    Ap (ap_conn s) (ap_sys s) (ap_stas s) (ap_num_sta s) (ap_mutex s) t (ap_mutex_nat
      s) (ap_port s) (ap_mutex_port s) (ap_ifIP s) (ap_subnet s) (ap_tunCount s)
      (ap_loop s) (ap_threads s) (ap_hapd s);
  get_mutex := ap_mutex_nat;
  set_mutex b s :=
    Ap (ap_conn s) (ap_sys s) (ap_stas s) (ap_num_sta s) (ap_mutex s) (ap_nat s) b
      (ap_port s) (ap_mutex_port s) (ap_ifIP s) (ap_subnet s) (ap_tunCount s) (ap_loop
      s) (ap_threads s) (ap_hapd s) |}.
Proof. all: by intros; repeat match goal with s : ap_state |- _ => destruct s end. Defined.

#[global, refine] Instance ap_has_port : HasTab ap_state PortData := {|
  get_tab := ap_port;
  set_tab t s :=
    Ap (ap_conn s) (ap_sys s) (ap_stas s) (ap_num_sta s) (ap_mutex s) (ap_nat s)
      (ap_mutex_nat s) t (ap_mutex_port s) (ap_ifIP s) (ap_subnet s) (ap_tunCount s)
      (ap_loop s) (ap_threads s) (ap_hapd s);
  get_mutex := ap_mutex_port;
  set_mutex b s :=
    Ap (ap_conn s) (ap_sys s) (ap_stas s) (ap_num_sta s) (ap_mutex s) (ap_nat s)
      (ap_mutex_nat s) (ap_port s) b (ap_ifIP s) (ap_subnet s) (ap_tunCount s)
      (ap_loop s) (ap_threads s) (ap_hapd s) |}.
Proof. all: by intros; repeat match goal with s : ap_state |- _ => destruct s end. Defined.

#[global, refine] Instance ap_has_hapd : Hapd.HasHapd ap_state := {|
  Hapd.get_hapd := ap_hapd;
  Hapd.set_hapd h s :=
    Ap (ap_conn s) (ap_sys s) (ap_stas s) (ap_num_sta s) (ap_mutex s) (ap_nat s)
      (ap_mutex_nat s) (ap_port s) (ap_mutex_port s) (ap_ifIP s) (ap_subnet s)
      (ap_tunCount s) (ap_loop s) (ap_threads s) h |}.
Proof. all: by intros; repeat match goal with s : ap_state |- _ => destruct s end. Defined.

Section Stations.
  Context `{Platform} `{Env}.
  Abbreviation AM := (M ap_state).

(** The error message of a failed [pthread_create] is all the code does. *)
Definition pthread_create (t : thread) : AM unit :=
  rc ← ask env_thread;
  if rc =? 0 then modify (λ s, set_threads (ap_threads s ++ [t]) s) else skip.

(** *** The list of stations *)

Definition lookupSenderSTA (addr : bytes) : AM (option loc) :=
  locked_search addr (λ sta : infoSTA, Hapd.memcmp6 (address sta) addr).

(** [sizeof(struct infoSTA)]: 61 bytes up to [qosinfo], then a pointer, an
    [int] and a pointer. *)
Definition infoSTA_size : Z :=
  align_up (align_up 61 sizeof_ptr + sizeof_ptr + 4) sizeof_ptr + sizeof_ptr.

Definition addSTA (addr : bytes) : AM (option loc) :=
  sta ← lookupSenderSTA addr;
  match sta with
  | Some l => mret (Some l)
  | None =>
      n ← gets ap_num_sta;
      h ← gets ap_hapd;
      if Hapd.max_num_sta (Hapd.conf h) <=? n then mret None else
      r ← calloc infoSTA_size;
      match r with
      | None => mret None
      | Some _ =>
          a ← opt! ldn addr 0 ETH_ALEN;
          lock (A:=infoSTA);;
          modify (λ s, set_ap_num_sta (ap_num_sta s + 1) s);;
          i ← opt! HASH_FUNC a;
          l ← tab_push (get_tab (A:=infoSTA)) set_tab i (new_infoSTA a);
          unlock (A:=infoSTA);;
          mret (Some l)
      end
  end.

(** A write to a station inside the lock. *)
Definition locked_write (sta : option loc) (f : infoSTA → infoSTA) : AM unit :=
  lock (A:=infoSTA);; node_write sta f;; unlock (A:=infoSTA).

Definition changeStatus (sta : option loc) (st : STAStatus) : AM unit :=
  locked_write sta (λ e, let e := set_status st e in
    match st with NOT_AUTHENTICATED => set_rssi 0 e | _ => e end).

(** [uint8_t lastReceivedSignalStrength = rssi]. *)
Definition changeRSSI (sta : option loc) (rssi : Z) : AM unit :=
  locked_write sta (set_rssi (rssi mod 256)).

End Stations.
