(* ===== verification/ApNat.v ===== *)
(** * Address and port translation at the access point

    [controller_interface.c] 160-716: translation entries, packets held until
    the controller has assigned a port, the two packet queues.  A packet of an
    unknown flow is held ([addPortData]) and the controller is asked for a port
    ([send_nat_port_entry]); when the controller answers ([WLAN_NAT_ADD]),
    [reinject_pkt] translates and releases the held packets of the flow. *)

From Stdlib Require Import ZArith Lia.
From S2P Require Import Prelude CMem CStruct CMonad OpenFlow Checksum IpText.
From S2P Require Import Chain Agent NatTable Packet ApData Station ApState.

(** [#define PORT_TRANSLATION 1]. *)
Definition PORT_TRANSLATION : bool := true.

(** A queued packet with the hardware address of its sender, if known. *)
Record ap_nfq_data := ApNfq {
  ap_nfq : nfq_data;
  nfq_hw_addr : option bytes;
}.

Abbreviation get_port := (get_tab (S:=ap_state) (A:=PortData)).
Abbreviation set_port := (set_tab (S:=ap_state) (A:=PortData)).

Section Nat.
  Context `{Platform} `{Env}.
  Abbreviation AM := (M ap_state).

(** *** Translation entries *)

Definition same_flow (sport : Z) (dst : bytes) (dport : Z) (e : natMap) : bool :=
  negb (negb (memcmp4 (dst_addr e) dst) || negb (src_port e =? sport)
        || negb (dst_port e =? dport)).

Definition same_out (nport : Z) (dst : bytes) (dport : Z) (e : natMap) : bool :=
  negb (negb (memcmp4 (dst_addr e) dst) || negb (new_port e =? nport)
        || negb (dst_port e =? dport)).

Definition same_conn (src : bytes) (sport : Z) (dst : bytes) (dport : Z) (e : natMap) : bool :=
  negb (negb (memcmp4 (src_addr e) src) || negb (memcmp4 (dst_addr e) dst)
        || negb (src_port e =? sport) || negb (dst_port e =? dport)).

Definition lookupNatMap (sport : Z) (dst : bytes) (dport : Z) : AM (option loc) :=
  locked_search dst (same_flow sport dst dport).

Definition lookupPortMapQ1 (nport : Z) (dst : bytes) (dport : Z) : AM (option loc) :=
  locked_search dst (same_out nport dst dport).

Definition lookupPortMapQ0 (src : bytes) (sport : Z) (dst : bytes) (dport : Z)
    : AM (option loc) :=
  locked_search dst (same_conn src sport dst dport).

(** The search for an outgoing flow, written out three times in the source. *)
Definition lookup_out (src : bytes) (sport : Z) (dst : bytes) (dport : Z) : AM (option loc) :=
  if negb PORT_TRANSLATION then lookupNatMap sport dst dport
  else lookupPortMapQ0 src sport dst dport.

Definition natMap_size : Z := align_up 14 sizeof_ptr + sizeof_ptr.

Definition addEntry (sport : Z) (src : bytes) (dport : Z) (dst : bytes) : AM (option loc) :=
  nMap ← lookup_out src sport dst dport;
  match nMap with
  | Some l => mret (Some l)
  | None =>
      r ← calloc natMap_size;
      match r with
      | None => mret None
      | Some _ => l ← locked_push dst (NatMap src dst sport dport 0); mret (Some l)
      end
  end.

(** *** Held packets *)

(** [sizeof(struct PortData)]. *)
Definition PortData_size : Z :=
  align_up (sizeof_ptr + 4 + 4 + MAX_PACKET_SIZE) sizeof_ptr + sizeof_ptr.

Definition addPortData (qh id ret : Z) (data dst : bytes) : AM (option loc) :=
  r ← calloc PortData_size;
  match r with
  | None => mret None
  | Some _ =>
      bs ← opt! ldn data 0 ret;
      p ← opt! stn (replicate (Z.to_nat MAX_PACKET_SIZE) 0) 0 bs;
      l ← locked_push dst (PortDat qh id ret p);
      mret (Some l)
  end.

(** Does the held packet belong to the flow of the entry?  [&&] reads the ports
    only when the addresses are equal. *)
Definition held_match (e : natMap) (p : bytes) : option bool :=
  src ← ldf_bytes ip_header_t 0 ["src_addr"] 4 p;
  dst ← ldf_bytes ip_header_t 0 ["dst_addr"] 4 p;
  if negb (memcmp4 src (src_addr e) && memcmp4 dst (dst_addr e)) then Some false else
  v ← ihl p;
  sport ← ldf transport_header (v * 4) ["src_port"] p;
  if negb (sport =? src_port e) then Some false else
  dport ← ldf transport_header (v * 4) ["dst_port"] p;
  Some (dport =? dst_port e).

(** [tH->src_port = nMap->new_port; memcpy(ipH->src_addr, controller->ifIP, 4)]. *)
Definition translate_out (nport : Z) (ifIP data : bytes) : option bytes :=
  v ← ihl data;
  data ← stf transport_header (v * 4) ["src_port"] nport data;
  stf_bytes ip_header_t 0 ["src_addr"] ifIP data.

(** The [while] loop of [reinject_pkt].  [prev] is [None] while [first] is 1. *)
Fixpoint reinject_loop (fuel : nat) (e : natMap) (i : Z) (prev temp : option loc) : AM unit :=
  match temp with
  | None => skip
  | Some l =>
      match fuel with
      | O => hang
      | S fuel =>
          p ← tab_deref get_port l;
          hit ← opt! held_match e (packet p);
          next ← tab_next get_port l;
          if hit : bool then
            tab_change get_port set_port
              (λ t, match prev with None => set_head t i next | Some q => set_next t q next end);;
            ifIP ← gets ap_ifIP;
            data ← opt! translate_out (new_port e) ifIP (packet p);
            data ← opt! fix_checksums data;
            _ ← nfq_set_verdict (pd_qh p) (packet_id p) NF_ACCEPT (pd_ret p) data;
            tab_change get_port set_port (λ t, free_node t l);;
            temp ← match prev with
                   | None => tab_head get_port i
                   | Some q => tab_next get_port q
                   end;
            reinject_loop fuel e i prev temp
          else reinject_loop fuel e i (Some l) next
      end
  end.

(** Every round removes or passes a held packet, so their number is enough fuel.
    The entry is read through its pointer; nothing the loop does changes it. *)
Definition reinject_pkt (nMap : option loc) : AM unit :=
  lock (A:=PortData);;
  e ← node_read nMap;
  i ← opt! HASH_FUNC (dst_addr e);
  temp ← tab_head get_port i;
  t ← gets get_port;
  reinject_loop (size (tab_heap t)) e i None temp;;
  unlock (A:=PortData).

(** *** Packets *)

(** [struct ofp_nat_port_entry *nat], filled in for the controller; every one of
    the members is a copy in the byte order of the packet. *)
Definition nat_request (hw : option bytes) (src dst : bytes) (sport dport : Z) : AM bytes :=
  nat ← calloc (sizeof ofp_nat_port_entry);
  nat ← opt! nat;
  hw ← opt! hw;
  mac ← opt! ldn hw 0 OFP_ETH_ALEN;
  nat ← opt! stf_bytes ofp_nat_port_entry 0 ["staMacAddress"] mac nat;
  nat ← opt! stf_bytes ofp_nat_port_entry 0 ["nw_src"] src nat;
  nat ← opt! stf_bytes ofp_nat_port_entry 0 ["nw_dst"] dst nat;
  nat ← opt! stf ofp_nat_port_entry 0 ["tp_src"] sport nat;
  opt! stf ofp_nat_port_entry 0 ["tp_dst"] dport nat.

(** The end of [handle_pkt]. *)
Definition finish (qh id ret : Z) (data : bytes) : AM Z :=
  data ← opt! fix_checksums data;
  nfq_set_verdict qh id NF_ACCEPT ret data.

Definition handle_pkt (tb : ap_nfq_data) (queueNum qh : Z) : AM Z :=
  let id := match nfq_packet_id (ap_nfq tb) with Some v => ntohl v | None => 0 end in
  let ret := nfq_ret (ap_nfq tb) in
  let data := nfq_payload (ap_nfq tb) in
  let accept := nfq_set_verdict qh id NF_ACCEPT 0 [] in
  if 0 <=? ret then
    src ← opt! ldf_bytes ip_header_t 0 ["src_addr"] 4 data;
    dst ← opt! ldf_bytes ip_header_t 0 ["dst_addr"] 4 data;
    if queueNum =? 0 then
      subnet ← gets ap_subnet;
      inside ← opt! in_subnet src subnet;
      if inside : bool then
        v ← opt! ihl data;
        sport ← opt! ldf transport_header (v * 4) ["src_port"] data;
        dport ← opt! ldf transport_header (v * 4) ["dst_port"] data;
        nMap ← lookup_out src sport dst dport;
        match nMap, PORT_TRANSLATION with
        | None, true =>
            _ ← addPortData qh id ret data dst;
            nat ← nat_request (nfq_hw_addr tb) src dst sport dport;
            pthread_create (SendNatPortEntry nat);;
            mret 1
        | _, _ =>
            nMap ← match nMap with
                   | None =>
                       nMap ← addEntry sport src dport dst;
                       nat ← nat_request (nfq_hw_addr tb) src dst sport dport;
                       pthread_create (SendNatEntry nat);;
                       mret nMap
                   | Some _ => mret nMap
                   end;
            data ← (if PORT_TRANSLATION then
                      e ← node_read nMap;
                      opt! stf transport_header (v * 4) ["src_port"] (new_port e) data
                    else mret data);
            ifIP ← gets ap_ifIP;
            data ← opt! stf_bytes ip_header_t 0 ["src_addr"] ifIP data;
            finish qh id ret data
        end
      else accept
    else if queueNum =? 1 then
      ifIP ← gets ap_ifIP;
      if memcmp4 dst ifIP then
        v ← opt! ihl data;
        sport ← opt! ldf transport_header (v * 4) ["src_port"] data;
        dport ← opt! ldf transport_header (v * 4) ["dst_port"] data;
        nMap ← (if negb PORT_TRANSLATION then lookupNatMap dport src sport
                else lookupPortMapQ1 dport src sport);
        match nMap with
        | Some _ =>
            e ← node_read nMap;
            data ← (if PORT_TRANSLATION
                    then opt! stf transport_header (v * 4) ["dst_port"] (src_port e) data
                    else mret data);
            data ← opt! stf_bytes ip_header_t 0 ["dst_addr"] (src_addr e) data;
            finish qh id ret data
        | None => accept
        end
      else accept
    else accept
  else accept.

Definition cb (qh : Z) (nfa : ap_nfq_data) (data : Z) : AM Z := handle_pkt nfa data qh.

(** *** The threads that serve the packet queues *)

Section Queue.
  Context (nfq_call : nat → Z) (nfq_next : nat → option ap_nfq_data).

Fixpoint recv_loop (fuel : nat) (num qh : Z) : AM unit :=
  match fuel with
  | O => hang
  | S fuel =>
      loop ← gets ap_loop;
      if loop : bool then
        '(t, ready) ← ask env_select;
        if t <? 0 then exit 1 else
        (if ready : bool then
           p ← ask nfq_next;
           match p with
           | None => modify (set_loop false)
           | Some nfa => _ ← cb qh nfa num; skip
           end
         else skip);;
        recv_loop fuel num qh
      else skip
  end.

Definition recvPkt (fuel : nat) (num : Z) : AM unit :=
  h ← ask nfq_call;
  if h =? 0 then exit 1 else
  r ← ask nfq_call;
  if r <? 0 then exit 1 else
  r ← ask nfq_call;
  if r <? 0 then exit 1 else
  qh ← ask nfq_call;
  if qh =? 0 then exit 1 else
  r ← ask nfq_call;
  if r <? 0 then exit 1 else
  recv_loop fuel num qh.

End Queue.
End Nat.
