(* ===== verification/ApNatProps.v ===== *)
(** * Correctness of the access point's translation

    Packets of a flow without a port are held; when the port is known, exactly
    the held packets of that flow are released, translated, in the order of the
    queue, and everything else stays. *)

From Stdlib Require Import ZArith Lia.
From S2P Require Import Prelude CMem CStruct CMonad OpenFlow Checksum IpText.
From S2P Require Import Chain CSteps Agent NatTable Packet Headers ApData Station ApState ApNat.

(** ** Connections and translated packets *)

(** Source address and port, destination address and port. *)
Abbreviation conn := (bytes * Z * bytes * Z)%type.

Definition conn_of `{Platform} (d : bytes) : conn := (src_of d, sport_of d, dst_of d, dport_of d).
Definition entry_conn (e : natMap) : conn := (src_addr e, src_port e, dst_addr e, dst_port e).

(** [d'] is [d] with [port] at [poff], [addr] at [off] and its checksums
    repaired. *)
Definition translated `{Platform} (poff port off : Z) (addr d d' : bytes) : Prop :=
  ∃ d1 d0, stn d poff (nat_enc 2 port) = Some d1 ∧ stn d1 off addr = Some d0 ∧
           fix_checksums d0 = Some d'.

(** A held packet: a packet that fits its buffer, of which the kernel is given
    back [pd_ret] bytes. *)
Record held_ok (p : PortData) : Prop := {
  ho_ip : ip_ok (packet p);
  ho_ret : 0 ≤ pd_ret p ≤ zlen (packet p);
}.

(** Held packets are in the bucket of their destination. *)
Definition held_hash (p : PortData) : Z := default (-1) (ld8 (dst_of (packet p)) 3).

(** The verdict that releases a held packet under the entry [e]. *)
Definition released `{Platform} (e : natMap) (ifIP : bytes) (p : PortData) (ev : event) : Prop :=
  ∃ d', translated (hlen (packet p)) (new_port e) 12 ifIP (packet p) d' ∧
    ev = EvVerdict (pd_qh p) (packet_id p) NF_ACCEPT (pd_ret p)
           (take (Z.to_nat (pd_ret p)) d').

(** The translation entries as a map: the connection of an entry, and its
    bucket. *)
Definition conn_key (e : natMap) : conn :=
  (take 4 (src_addr e), src_port e, take 4 (dst_addr e), dst_port e).
Definition conn_hash (k : conn) : Z := default (-1) (ld8 k.1.2 3).

Abbreviation nat_rep := (map_rep conn_key id conn_hash).

Section Held.
  Context `{Platform} `{Env}.

Lemma held_match_spec e p :
  ip_ok p → zlen (src_addr e) = 4 → zlen (dst_addr e) = 4 →
  held_match e p = Some (bool_decide (conn_of p = entry_conn e)).
Proof.
  intros Hp Ls Ld. destruct (addr_fields p Hp) as (Es & Ed & Ls' & Ld' & _).
  destruct (port_fields p Hp) as [Ep Eq].
  unfold held_match, conn_of, entry_conn. rewrite Es, Ed. cbn [mbind option_bind].
  rewrite !memcmp4_iff by done. rewrite (ihl_ok p Hp). cbn [mbind option_bind].
  rewrite Ep. cbn [mbind option_bind]. rewrite Eq. cbn [mbind option_bind].
  destruct (bool_decide_reflect (src_of p = src_addr e)) as [E1|N1]; cbn;
    [|by rewrite bool_decide_eq_false_2 by congruence].
  destruct (bool_decide_reflect (dst_of p = dst_addr e)) as [E2|N2]; cbn;
    [|by rewrite bool_decide_eq_false_2 by congruence].
  destruct (sport_of p =? src_port e) eqn:E3; zbool; cbn;
    [|by rewrite bool_decide_eq_false_2 by congruence].
  destruct (dport_of p =? dst_port e) eqn:E4; zbool;
    [rewrite bool_decide_eq_true_2|rewrite bool_decide_eq_false_2]; congruence.
Qed.

Lemma translate_ok d poff port off addr :
  ip_ok d → poff = hlen d ∨ poff = hlen d + 2 → off = 12 ∨ off = 16 →
  zlen addr = 4 → bytes_ok addr →
  ∃ d1 d0 d', stn d poff (nat_enc 2 port) = Some d1 ∧ stn d1 off addr = Some d0 ∧
    fix_checksums d0 = Some d' ∧ zlen d' = zlen d.
Proof.
  intros Hd Hpo Ho La Oa. pose proof Hd as [].
  destruct (stn_ok d poff (nat_enc 2 port)) as [d1 E1];
    [lia|rewrite zlen_nat_enc; lia|].
  assert (Hd1 : ip_ok d1).
  { apply (ip_ok_same d); [done| |eapply same_on_stn; [done|lia]].
    eapply stn_bytes_ok; [exact ip_bytes|apply nat_enc_ok|exact E1]. }
  destruct (rewrite_ok d1 off addr Hd1) as (d0 & d' & E0 & _ & E' & L & _); [lia|lia|done|done|].
  exists d1, d0, d'. split_and!; try done. by rewrite L, (stn_zlen _ _ _ _ E1).
Qed.

Lemma translate_out_ok nport ifIP d :
  ip_ok d → zlen ifIP = 4 → bytes_ok ifIP →
  ∃ d0 d', translate_out nport ifIP d = Some d0 ∧ fix_checksums d0 = Some d' ∧
    zlen d' = zlen d ∧ translated (hlen d) nport 12 ifIP d d'.
Proof.
  intros Hd La Oa.
  destruct (translate_ok d (hlen d) nport 12 ifIP Hd) as (d1 & d0 & d' & E1 & E0 & E' & L); auto.
  exists d0, d'. split_and!; [|done|done|by exists d1, d0].
  unfold translate_out. rewrite (ihl_ok d Hd). cbn [mbind option_bind].
  rewrite (proj1 (hlen_4 d)). open_fields. rewrite Z.add_0_r. unfold stint. rewrite E1. cbn.
  exact E0.
Qed.

(** ** Releasing *)

(** [s'] is [s] but for the held packets and the environment's part. *)
Definition port_frame (s s' : ap_state) : Prop :=
  ∃ w t, s' = set_sys w (set_tab (A:=PortData) t s).

Lemma port_frame_trans s1 s2 s3 : port_frame s1 s2 → port_frame s2 s3 → port_frame s1 s3.
Proof. intros (w & t & ->) (w' & t' & ->). by exists w', t'. Qed.

Definition of_conn (e : natMap) (x : loc * PortData) : Prop :=
  conn_of (packet x.2) = entry_conn e.

#[global] Instance of_conn_dec e x : Decision (of_conn e x).
Proof. unfold of_conn. apply _. Defined.

Definition entry_ok (e : natMap) : Prop := zlen (src_addr e) = 4 ∧ zlen (dst_addr e) = 4.

(** What the loop makes of the bucket [pre ++ post], standing before [post]. *)
Definition loop_result (e : natMap) (i : Z) (s s' : ap_state) bs pre post : Prop :=
  ∃ evs, events (ap_sys s') = rev evs ++ events (ap_sys s) ∧
    Forall2 (λ x, released e (ap_ifIP s) x.2) (filter (of_conn e) post) evs ∧
    tab_rep held_hash (ap_port s')
      (<[Z.to_nat i := pre ++ filter (λ x, ¬ of_conn e x) post]> bs) ∧
    length (tab_heads (ap_port s')) = length (tab_heads (ap_port s)) ∧
    port_frame s s'.

(** The verdict for a packet that has been unlinked, and its [free]. *)
Lemma release_step {B} (k : unit → M ap_state B) e s p l t2 :
  held_ok p → zlen (ap_ifIP s) = 4 → bytes_ok (ap_ifIP s) →
  free_node (ap_port s) l = Some t2 →
  ∃ s' ev,
    (ifIP ← gets ap_ifIP;
     data ← opt! translate_out (new_port e) ifIP (packet p);
     data ← opt! fix_checksums data;
     _ ← nfq_set_verdict (pd_qh p) (packet_id p) NF_ACCEPT (pd_ret p) data;
     tab_change get_port set_port (λ t, free_node t l) ≫= k) s = k () s' ∧
    released e (ap_ifIP s) p ev ∧ events (ap_sys s') = ev :: events (ap_sys s) ∧
    ap_port s' = t2 ∧ port_frame s s'.
Proof.
  intros [Hp Hr] Lf Of Hf.
  destruct (translate_out_ok (new_port e) (ap_ifIP s) (packet p) Hp Lf Of)
    as (d0 & d' & E0 & E' & L & T).
  rewrite gets_step, (opt_step _ _ _ _ E0), (opt_step _ _ _ _ E').
  erewrite bind_Ret; [|apply verdict_ret; lia].
  rewrite (tab_change_ok _ _ _ t2) by exact Hf.
  do 2 eexists. split; [reflexivity|]. split; [by exists d'|].
  split_and!; [reflexivity..|]. by do 2 eexists.
Qed.

(** One released packet in front of a run of the loop. *)
Lemma loop_result_hit e i s s1 s' bs pre x post ev :
  of_conn e x → released e (ap_ifIP s) x.2 ev →
  events (ap_sys s1) = ev :: events (ap_sys s) → port_frame s s1 →
  length (tab_heads (ap_port s1)) = length (tab_heads (ap_port s)) →
  loop_result e i s1 s' (<[Z.to_nat i := pre ++ post]> bs) pre post →
  loop_result e i s s' bs pre (x :: post).
Proof.
  intros Hx Hrel Hev Hfr Hlen (evs & E1 & E2 & E3 & E4 & E5).
  exists (ev :: evs). rewrite list_insert_insert_eq in E3.
  rewrite filter_cons_True by done. rewrite (filter_cons_False _ x) by tauto.
  assert (Ef : ap_ifIP s1 = ap_ifIP s) by (by destruct Hfr as (? & ? & ->)).
  rewrite Ef in E2. split_and!; try done.
  - rewrite E1, Hev. simpl. by rewrite <- app_assoc.
  - by constructor.
  - congruence.
  - by eapply port_frame_trans.
Qed.

(** One packet of another connection in front of a run of the loop. *)
Lemma loop_result_miss e i s s' bs pre x post :
  ¬ of_conn e x → loop_result e i s s' bs (pre ++ [x]) post →
  loop_result e i s s' bs pre (x :: post).
Proof.
  intros Hx (evs & E1 & E2 & E3 & E4 & E5). exists evs.
  rewrite filter_cons_False by done. rewrite (filter_cons_True _ x) by done.
  rewrite <- app_assoc in E3. done.
Qed.

(** [rep_unlink_first] and [rep_unlink_next] in one: the node behind [pre]. *)
Lemma unlink_held t bs i pre l p post :
  tab_rep held_hash t bs → bs !! Z.to_nat i = Some (pre ++ (l, p) :: post) → 0 ≤ i →
  let prev := fst <$> last pre in
  let nx := fst <$> head post in
  ∃ t1 t2, next_of t l = Some nx ∧
    match prev with None => set_head t i nx | Some q => set_next t q nx end = Some t1 ∧
    free_node t1 l = Some t2 ∧
    match prev with None => head_at t2 i | Some q => next_of t2 q end = Some nx ∧
    length (tab_heads t2) = length (tab_heads t) ∧
    tab_rep held_hash t2 (<[Z.to_nat i := pre ++ post]> bs).
Proof.
  intros R Hb Hi. destruct (last pre) as [[q b]|] eqn:El; cbn.
  - apply last_Some in El as [pre' ->]. rewrite <- app_assoc in Hb. simpl in Hb.
    destruct (rep_unlink_next held_hash _ _ _ _ _ _ _ _ _ R Hb Hi)
      as (nx & t1 & t2 & _ & Hn & H1 & _ & H2 & Hn2 & -> & Hlen & R2).
    exists t1, t2. rewrite <- app_assoc. done.
  - apply last_None in El as ->. simpl in *.
    destruct (rep_unlink_first held_hash _ _ _ _ _ _ R Hb Hi)
      as (nx & t1 & t2 & _ & Hn & H1 & _ & H2 & Hn2 & -> & Hlen & R2).
    by exists t1, t2.
Qed.

Lemma reinject_loop_spec e i post : entry_ok e → 0 ≤ i →
  ∀ pre s bs fuel,
  tab_rep held_hash (ap_port s) bs → bs !! Z.to_nat i = Some (pre ++ post) →
  (length post ≤ fuel)%nat → Forall (λ x, held_ok x.2) post →
  zlen (ap_ifIP s) = 4 → bytes_ok (ap_ifIP s) →
  ∃ s', reinject_loop fuel e i (fst <$> last pre) (fst <$> head post) s = Ret () s' ∧
    loop_result e i s s' bs pre post.
Proof.
  intros [Ls Ld] Hi. induction post as [|[l p] post IH]; intros pre s bs fuel R Hb Hf Ho Lf Of.
  { exists s. split; [by destruct fuel|]. exists []. rewrite app_nil_r in *.
    rewrite list_insert_id by done. split_and!; try done.
    exists (ap_sys s), (ap_port s). by destruct s. }
  destruct fuel as [|fuel]; [simpl in Hf; lia|].
  apply Forall_cons in Ho as [Hp Ho]. simpl in Hp, Hf.
  assert (Hin : (l, p) ∈ concat bs).
  { apply (bucket_elem bs i). unfold bucket. guard_true. rewrite Hb. simpl. set_solver. }
  destruct (unlink_held _ _ _ _ _ _ _ R Hb Hi) as (t1 & t2 & Hn & H1 & H2 & Hn2 & Hlen & R2).
  cbn [head fmap option_fmap option_map fst reinject_loop].
  rewrite (tab_deref_ok (A:=PortData) _ s _ p) by (eapply rep_deref; [exact R|exact Hin]).
  rewrite (opt_step _ _ _ _ (held_match_spec e _ (ho_ip _ Hp) Ls Ld)).
  rewrite (tab_next_ok (A:=PortData) _ s _ (fst <$> head post)) by exact Hn.
  destruct (bool_decide_reflect (conn_of (packet p) = entry_conn e)) as [Hc|Hc].
  - rewrite (tab_change_ok (A:=PortData) _ s _ t1) by exact H1.
    edestruct (release_step (B:=unit)) with (s := set_tab (A:=PortData) t1 s)
      as (s1 & ev & E & Hrel & Hev & Ht & Hfr);
      [exact Hp|exact Lf|exact Of|exact H2|erewrite E; clear E].
    assert (Hfr' : port_frame s s1)
      by (eapply port_frame_trans; [|exact Hfr]; exists (ap_sys s), t1; by destruct s).
    assert (Ef : ap_ifIP s1 = ap_ifIP s) by (by destruct Hfr' as (? & ? & ->)).
    destruct (IH pre s1 (<[Z.to_nat i := pre ++ post]> bs) fuel) as (s' & E & Hres);
      rewrite ?Ht, ?Ef; try done; [|lia|].
    { apply list_lookup_insert_eq. by eapply lookup_lt_Some. }
    exists s'. split.
    + rewrite <- E. subst t2. destruct (fst <$> last pre);
        [by rewrite (tab_next_ok (A:=PortData) _ s1 _ (fst <$> head post)) by exact Hn2
        |by rewrite (tab_head_ok (A:=PortData) _ s1 _ (fst <$> head post)) by exact Hn2].
    + eapply loop_result_hit; [exact Hc|exact Hrel|exact Hev|exact Hfr'| |exact Hres].
      by rewrite Ht.
  - destruct (IH (pre ++ [(l, p)]) s bs fuel) as (s' & E & Hres); try done.
    { by rewrite <- app_assoc. }
    { lia. }
    exists s'. split; [by rewrite last_snoc in E|]. by apply loop_result_miss.
Qed.

(** ** The queue of held packets *)

Record port_inv (s : ap_state) (bs : list (list (loc * PortData))) : Prop := {
  pi_rep : tab_rep held_hash (ap_port s) bs;
  pi_ok : Forall (λ x, held_ok x.2) (concat bs);
  pi_mutex : ap_mutex_port s = false;
  pi_size : zlen (tab_heads (ap_port s)) = MAXENTRY;
  pi_ifIP : zlen (ap_ifIP s) = 4 ∧ bytes_ok (ap_ifIP s);
}.

(** Packets of one connection are all in one bucket. *)
Lemma conn_bucket t bs e i x j ns :
  tab_rep held_hash t bs → ld8 (dst_addr e) 3 = Some i → 0 ≤ i →
  bs !! j = Some ns → x ∈ ns → of_conn e x → j = Z.to_nat i.
Proof.
  intros R Hi Hi0 Hj Hx Hc. pose proof (rep_hash _ _ _ R j ns Hj) as Hh.
  rewrite Forall_forall in Hh. specialize (Hh x Hx). destruct x as [l p].
  unfold of_conn, conn_of, entry_conn in Hc. simpl in Hc.
  assert (Hd : dst_of (packet p) = dst_addr e) by congruence.
  unfold held_hash in Hh. rewrite Hd, Hi in Hh. simpl in Hh. lia.
Qed.

Lemma reinject_spec s bs l e i :
  port_inv s bs → deref (ap_nat s) l = Some e → entry_ok e →
  ld8 (dst_addr e) 3 = Some i → 0 ≤ i < MAXENTRY →
  ∃ s' evs, reinject_pkt (Some l) s = Ret () s' ∧
    events (ap_sys s') = rev evs ++ events (ap_sys s) ∧
    Forall2 (λ x, released e (ap_ifIP s) x.2) (filter (of_conn e) (concat bs)) evs ∧
    port_inv s' (filter (λ x, ¬ of_conn e x) <$> bs) ∧ port_frame s s'.
Proof.
  intros [R Ho Hm Hsz [Lf Of]] He Hok Hi Hb.
  destruct (rep_head held_hash (ap_port s) bs i R) as (p & Hp & Hc & Hn); [lia|].
  assert (Hlt : (Z.to_nat i < length bs)%nat)
    by (rewrite (rep_length _ _ _ R); unfold zlen in Hsz; lia).
  destruct (lookup_lt_is_Some_2 bs _ Hlt) as [ns Hns].
  assert (Eb : bucket bs i = ns) by (unfold bucket; guard_true; by rewrite Hns).
  rewrite Eb in Hc, Hn.
  destruct (filter_one_bucket (of_conn e) bs (Z.to_nat i) ns Hns) as [F1 F2].
  { intros j ms x Hj Hx Hcx. eapply (conn_bucket _ bs e i x); try done. lia. }
  assert (Hons : Forall (λ x, held_ok x.2) ns).
  { rewrite Forall_forall in Ho |- *. intros x Hx. apply Ho, (bucket_elem bs i).
    by rewrite Eb. }
  set (s0 := set_mutex (A:=PortData) true s).
  destruct (reinject_loop_spec e i ns Hok ltac:(lia) [] s0 bs (size (tab_heap (ap_port s))))
    as (s1 & E & evs & Ev & Rel & R1 & Len & Hfr); try done; [by eapply chain_length|].
  exists (set_mutex (A:=PortData) false s1), evs. split_and!.
  - unfold reinject_pkt. cbind (lock_free (A:=PortData) s Hm). fold s0.
    rewrite (node_read_ok (A:=natMap) _ s0 l e) by exact He.
    rewrite (opt_step _ _ _ _ Hi), (tab_head_ok (A:=PortData) _ s0 i p) by exact Hp.
    rewrite gets_step.
    assert (Ep : p = fst <$> head ns) by (destruct ns as [|[? ?] ?]; [done|by destruct Hc]).
    subst p. by cbind E.
  - exact Ev.
  - by rewrite F1.
  - rewrite F2. destruct Hfr as (w & t & ->). constructor; try done.
    + rewrite <- F2. rewrite Forall_forall in Ho |- *. intros x Hx. apply Ho.
      apply list_elem_of_In, in_concat in Hx as (ms & Hms & Hx).
      apply list_elem_of_In, list_elem_of_fmap in Hms as (ms' & -> & Hms').
      apply list_elem_of_In, list_elem_of_filter in Hx as [_ Hx].
      apply list_elem_of_In, in_concat. exists ms'.
      split; [by apply list_elem_of_In|by apply list_elem_of_In].
    + unfold zlen in *. cbn in *. lia.
  - destruct Hfr as (w & t & ->). exists w, t. unfold s0. destruct s. cbn in *. by subst.
Qed.

(** ** The translation entries *)

Record entry_wf (e : natMap) : Prop := {
  ew_src : zlen (src_addr e) = 4 ∧ bytes_ok (src_addr e);
  ew_dst : zlen (dst_addr e) = 4 ∧ bytes_ok (dst_addr e);
}.

(** The table is the map [m] from connections to entries, its mutex is free. *)
Record ap_nat_inv (s : ap_state) (m : gmap conn natMap) : Prop := {
  an_rep : ∃ bs, nat_rep (ap_nat s) bs m;
  an_mutex : ap_mutex_nat s = false;
  an_size : zlen (tab_heads (ap_nat s)) = MAXENTRY;
  an_wf : ∀ k e, m !! k = Some e → entry_wf e;
}.

Lemma conn_key_wf e : entry_wf e → conn_key e = entry_conn e.
Proof. intros [[] []]. unfold conn_key, entry_conn. by rewrite !take4. Qed.

Lemma same_conn_iff src sport dst dport e :
  same_conn src sport dst dport e = true ↔ conn_key e = (take 4 src, sport, take 4 dst, dport).
Proof.
  unfold same_conn, conn_key, memcmp4.
  rewrite negb_true_iff, !orb_false_iff, !negb_false_iff, !bool_decide_eq_true, !Z.eqb_eq.
  split; [by intros [[[-> ->] ->] ->]|by intros [= -> -> -> ->]].
Qed.

Lemma lookup_out_spec {B} (k : option loc → M ap_state B) s m src sport dst dport i :
  ap_nat_inv s m → zlen src = 4 → zlen dst = 4 → ld8 dst 3 = Some i → 0 ≤ i < MAXENTRY →
  ∃ p, (lookup_out src sport dst dport ≫= k) s = k p s ∧
    match m !! (src, sport, dst, dport) with
    | None => p = None
    | Some e => ∃ l bs, p = Some l ∧ conn_key e = (src, sport, dst, dport) ∧
        (l, e) ∈ concat bs ∧ nat_rep (ap_nat s) bs m
    end.
Proof.
  intros [(bs & R) Hm Hs _] L1 L2 Hi Hb. set (q := same_conn src sport dst dport).
  destruct (map_find conn_key id conn_hash (ap_nat s) bs m q (src, sport, dst, dport) R)
    as [F1 F2].
  { intros e. unfold q. by rewrite same_conn_iff, !take4. }
  assert (Eh : conn_hash (src, sport, dst, dport) = i) by (unfold conn_hash; simpl; by rewrite Hi).
  rewrite Eh in *. eexists. split.
  { unfold lookup_out, lookupPortMapQ0. cbn [PORT_TRANSLATION negb].
    eapply (locked_search_find (A:=natMap)); [exact Hm|exact Hi| |apply R].
    change (get_tab s) with (ap_nat s). lia. }
  fold q. destruct (find_bucket q bs i) as [[l e]|]; rewrite <- F1; simpl; [|done].
  destruct (F2 l e eq_refl) as [Hk Hin]. by exists l, bs.
Qed.

(** ** Buffers that start with the same bytes *)

Lemma ldn_prefix (l r1 r2 : bytes) off n :
  off + n ≤ zlen l → ldn (l ++ r1) off n = ldn (l ++ r2) off n.
Proof.
  intros Hle. destruct (ldn l off n) as [x|] eqn:E.
  - by rewrite !(ldn_app_l _ _ _ _ x).
  - assert (Hr : ¬ (0 ≤ off ∧ 0 ≤ n)) by (intros []; apply ldn_None in E; lia).
    destruct (ldn (l ++ r1) off n) eqn:E1; [apply ldn_Some in E1; lia|].
    destruct (ldn (l ++ r2) off n) eqn:E2; [apply ldn_Some in E2; lia|done].
Qed.

Lemma ld8_prefix (l r1 r2 : bytes) off : off < zlen l → ld8 (l ++ r1) off = ld8 (l ++ r2) off.
Proof.
  intros Hlt. unfold ld8. case_if; [|done]. zbool. unfold zlen in Hlt.
  by rewrite !lookup_app_l by lia.
Qed.

(** A packet stays the same packet in another buffer. *)
Lemma prefix_packet (l r1 r2 : bytes) :
  let d := l ++ r1 in let p := l ++ r2 in
  ip_ok d → tlen d ≤ zlen l → tlen d + 1 ≤ zlen p → bytes_ok r2 →
  ip_ok p ∧ conn_of p = conn_of d ∧ hlen p = hlen d.
Proof.
  intros d p Hd Hl Hp Or. pose proof Hd as [Ob Hh Ht _ Hw]. pose proof (hlen_bound d).
  assert (Eh : hlen p = hlen d) by (unfold hlen; by rewrite (ld8_prefix l r1 r2) by lia).
  assert (Et : tlen p = tlen d)
    by (unfold tlen, be_at; by rewrite (ldn_prefix l r1 r2) by (simpl; lia)).
  assert (Ep : proto p = proto d) by (unfold proto; by rewrite (ld8_prefix l r1 r2) by lia).
  assert (Es : sum_word p = sum_word d) by (unfold sum_word; by rewrite Ep).
  split_and!; [constructor| |done].
  - apply Forall_app in Ob as [? _]. by apply Forall_app.
  - by rewrite Eh.
  - by rewrite Eh, Et.
  - by rewrite Et.
  - intros w. rewrite Es, Eh, Et. apply Hw.
  - unfold conn_of, src_of, dst_of, sport_of, dport_of, ldint. rewrite Eh.
    by rewrite !(ldn_prefix l r1 r2) by (simpl; lia).
Qed.

(** ** Single packets *)

(** The body of the request for a port. *)
Definition port_request (hw src dst : bytes) (sport dport : Z) : bytes :=
  take 6 hw ++ [0; 0] ++ src ++ dst ++ nat_enc 2 sport ++ nat_enc 2 dport ++ [0; 0; 0; 0].

Lemma nat_request_step {B} (k : bytes → M ap_state B) s hw src dst sport dport :
  (∀ t n, env_calloc t n = true) → length hw = 8%nat → length src = 4%nat → length dst = 4%nat →
  (nat_request (Some hw) src dst sport dport ≫= k) s
  = k (port_request hw src dst sport dport) (tick s).
Proof.
  intros Ha Lh Ls Ld. unfold port_request. apply bind_Ret.
  pose proof (length_nat_enc 2 sport) as L1. pose proof (length_nat_enc 2 dport) as L2.
  remember (nat_enc 2 sport) as e1 eqn:E1. remember (nat_enc 2 dport) as e2 eqn:E2.
  symmetry in E1, E2. explode hw. explode src. explode dst. explode e1. explode e2.
  unfold nat_request. rewrite calloc_step by apply Ha.
  cbn [lift_opt]. rewrite !mret_bind.
  erewrite opt_step; [|eval_mem]. crun.
  open_fields. unfold stint. rewrite E2.
  match goal with |- lift_opt ?e ?s = ?r =>
    let v := eval vm_compute in e in change (lift_opt v s = r); reflexivity end.
Qed.

(** A packet the kernel queues, with a remote address whose last byte is an
    index of the tables. *)
Record ap_pkt_ok (queueNum : Z) (tb : ap_nfq_data) : Prop := {
  ap_ip : ip_ok (nfq_payload (ap_nfq tb));
  ap_ret : 0 ≤ nfq_ret (ap_nfq tb) ≤ zlen (nfq_payload (ap_nfq tb));
  ap_out : queueNum = 0 → ld8 (nfq_payload (ap_nfq tb)) 19 ≠ Some 255;
  ap_in : queueNum = 1 → ld8 (nfq_payload (ap_nfq tb)) 15 ≠ Some 255;
}.

(** The kernel gives the whole packet, which fits the buffer that holds it. *)
Record holdable (tb : ap_nfq_data) : Prop := {
  hd_whole : tlen (nfq_payload (ap_nfq tb)) ≤ nfq_ret (ap_nfq tb);
  hd_fits : nfq_ret (ap_nfq tb) ≤ MAX_PACKET_SIZE;
  hd_room : tlen (nfq_payload (ap_nfq tb)) < MAX_PACKET_SIZE;
}.

(** The packet [tb] as it is held. *)
Definition held_of (qh : Z) (tb : ap_nfq_data) : PortData :=
  let n := Z.to_nat (nfq_ret (ap_nfq tb)) in
  PortDat qh (pkt_id (ap_nfq tb)) (nfq_ret (ap_nfq tb))
    (take n (nfq_payload (ap_nfq tb)) ++ replicate (Z.to_nat MAX_PACKET_SIZE - n) 0).

Lemma held_of_ok qh tb :
  ip_ok (nfq_payload (ap_nfq tb)) → 0 ≤ nfq_ret (ap_nfq tb) ≤ zlen (nfq_payload (ap_nfq tb)) →
  holdable tb →
  held_ok (held_of qh tb) ∧
  conn_of (packet (held_of qh tb)) = conn_of (nfq_payload (ap_nfq tb)).
Proof.
  intros Hip Hr [Hw Hf Hm]. set (d := nfq_payload (ap_nfq tb)) in *.
  set (n := Z.to_nat (nfq_ret (ap_nfq tb))).
  assert (Ln : zlen (take n d) = nfq_ret (ap_nfq tb))
    by (unfold zlen in *; rewrite length_take; lia).
  assert (Lp : zlen (packet (held_of qh tb)) = MAX_PACKET_SIZE).
  { unfold held_of. cbn [packet]. fold d n. unfold zlen in *.
    rewrite length_app, length_replicate. unfold MAX_PACKET_SIZE in *. lia. }
  destruct (prefix_packet (take n d) (drop n d)
              (replicate (Z.to_nat MAX_PACKET_SIZE - n) 0)) as (Ok & Ec & _).
  - by rewrite take_drop.
  - rewrite take_drop. lia.
  - rewrite take_drop. unfold held_of in Lp. cbn [packet] in Lp. fold d n in Lp. lia.
  - apply Forall_replicate. done.
  - rewrite take_drop in Ec. split; [|exact Ec]. constructor; [exact Ok|].
    rewrite Lp. unfold held_of. cbn [pd_ret]. lia.
Qed.

Lemma stn_zeros n (bs : bytes) :
  (length bs ≤ n)%nat → stn (replicate n 0) 0 bs = Some (bs ++ replicate (n - length bs) 0).
Proof.
  intros Hn. unfold stn. replace (in_range _ _ _) with true.
  - simpl. by rewrite drop_replicate.
  - unfold in_range, zlen. rewrite length_replicate. lia.
Qed.

Lemma addPortData_spec {B} (k : option loc → M ap_state B) s bs qh tb i :
  port_inv s bs → ip_ok (nfq_payload (ap_nfq tb)) →
  0 ≤ nfq_ret (ap_nfq tb) ≤ zlen (nfq_payload (ap_nfq tb)) → holdable tb →
  (∀ t n, env_calloc t n = true) →
  ld8 (dst_of (nfq_payload (ap_nfq tb))) 3 = Some i → 0 ≤ i < MAXENTRY →
  ∃ l t bs',
    (addPortData qh (pkt_id (ap_nfq tb)) (nfq_ret (ap_nfq tb)) (nfq_payload (ap_nfq tb))
       (dst_of (nfq_payload (ap_nfq tb))) ≫= k) s = k (Some l) (set_tab t (tick s)) ∧
    concat bs' ≡ₚ (l, held_of qh tb) :: concat bs ∧
    port_inv (set_tab (A:=PortData) t (tick s)) bs'.
Proof.
  intros [R Ho Hm Hsz Hif] Hip Hr Hh Ha Hi Hb. set (d := nfq_payload (ap_nfq tb)) in *.
  destruct (held_of_ok qh tb Hip Hr Hh) as [Hok Hc].
  assert (Hhash : held_hash (held_of qh tb) = i).
  { unfold held_hash. replace (dst_of (packet (held_of qh tb))) with (dst_of d)
      by (unfold conn_of in Hc; fold d in Hc; congruence). by rewrite Hi. }
  destruct (rep_push held_hash (ap_port s) bs i (held_of qh tb) R)
    as (l & t & Ep & _ & Hlen & R'); [lia|done|].
  assert (Hlt : (Z.to_nat i < length bs)%nat)
    by (rewrite (rep_length _ _ _ R); unfold zlen in Hsz; lia).
  destruct (lookup_lt_is_Some_2 bs _ Hlt) as [ns Hns].
  assert (Eb : bucket bs i = ns) by (unfold bucket; guard_true; by rewrite Hns).
  rewrite Eb in R'. pose proof (concat_insert_perm bs _ ns (l, held_of qh tb) Hns) as Hp.
  exists l, t, (<[Z.to_nat i := (l, held_of qh tb) :: ns]> bs). split_and!; [|done|].
  - unfold addPortData. rewrite bind_assoc, calloc_step by apply Ha. destruct Hh as [_ Hf _].
    rewrite bind_assoc, (opt_step _ (take (Z.to_nat (nfq_ret (ap_nfq tb))) d))
      by (rewrite ldn_ok by lia; done).
    rewrite bind_assoc, (opt_step _ (packet (held_of qh tb))).
    2: { rewrite stn_zeros; rewrite length_take; unfold zlen in *; [|lia].
         unfold held_of. cbn [packet]. fold d. do 3 f_equal. lia. }
    rewrite bind_assoc.
    by rewrite (locked_push_ok (A:=PortData) _ (tick s) (dst_of d) (held_of qh tb) i l t).
  - constructor; try done.
    + rewrite Hp. by constructor.
    + cbn. by rewrite Hlen.
Qed.

(** A packet of the subnet whose connection has no entry is held, and the
    controller is asked for a port. *)
Lemma handle_hold s m bs qh tb hw :
  ap_nat_inv s m → port_inv s bs → ap_pkt_ok 0 tb → holdable tb →
  nfq_hw_addr tb = Some hw → length hw = 8%nat →
  (∀ t n, env_calloc t n = true) → (∀ t, env_thread t = 0) →
  let d := nfq_payload (ap_nfq tb) in
  in_subnet (src_of d) (ap_subnet s) = Some true → m !! conn_of d = None →
  ∃ s' l bs', handle_pkt tb 0 qh s = Ret 1 s' ∧
    events (ap_sys s') = events (ap_sys s) ∧
    concat bs' ≡ₚ (l, held_of qh tb) :: concat bs ∧ port_inv s' bs' ∧ ap_nat_inv s' m ∧
    ap_threads s' = ap_threads s ++
      [SendNatPortEntry (port_request hw (src_of d) (dst_of d) (sport_of d) (dport_of d))] ∧
    ap_conn s' = ap_conn s ∧ ap_ifIP s' = ap_ifIP s ∧ ap_subnet s' = ap_subnet s.
Proof.
  intros I PI [Hip Hr Ho _] Hh Hhw Lhw Ha Ht d Hsub Hm.
  destruct (addr_fields d Hip) as (Es & Ed & Ls & Ld & Os & Od).
  destruct (port_fields d Hip) as [Ep Eq].
  assert (Ed' : ldn d 16 4 = Some (dst_of d)) by (rewrite <- Ed; open_fields; done).
  destruct (last_byte d 16 (dst_of d)) as (i & Hi & Hb); [apply Hip|done|by apply Ho|].
  unfold handle_pkt. fold d. fold (pkt_id (ap_nfq tb)).
  replace (0 <=? nfq_ret (ap_nfq tb)) with true by lia.
  rewrite (opt_step _ _ _ _ Es), (opt_step _ _ _ _ Ed). cbn [Z.eqb].
  rewrite gets_step, (opt_step _ _ _ _ Hsub). cbv iota.
  rewrite (opt_step _ _ _ _ (ihl_ok d Hip)), (opt_step _ _ _ _ Ep), (opt_step _ _ _ _ Eq).
  edestruct (lookup_out_spec (B:=Z)) as (p & E & Hp); [exact I|exact Ls|exact Ld|exact Hi|exact Hb|].
  erewrite E. clear E. unfold conn_of in Hm. rewrite Hm in Hp. subst p.
  cbn [PORT_TRANSLATION]. rewrite Hhw.
  edestruct (addPortData_spec (B:=Z)) as (l & t & bs' & E & Hperm & PI');
    [exact PI|exact Hip|exact Hr|exact Hh|exact Ha|exact Hi|exact Hb|].
  erewrite E. clear E. unfold zlen in Ls, Ld.
  rewrite nat_request_step by (done || lia).
  unfold pthread_create. rewrite bind_assoc, ask_step, Ht. cbn [Z.eqb]. rewrite modify_step.
  do 3 eexists. split_and!; [reflexivity|reflexivity|exact Hperm| | |reflexivity..].
  - destruct PI'. by constructor.
  - destruct I. by constructor.
Qed.

(** The verdict on a translated packet. *)
Definition verdict_on (qh : Z) (tb : ap_nfq_data) (poff port off : Z) (addr : bytes)
    (ev : event) : Prop :=
  ∃ d', translated poff port off addr (nfq_payload (ap_nfq tb)) d' ∧
    ev = EvVerdict qh (pkt_id (ap_nfq tb)) NF_ACCEPT (nfq_ret (ap_nfq tb))
           (take (Z.to_nat (nfq_ret (ap_nfq tb))) d').

Lemma finish_translated s qh tb poff port off addr d1 d0 d' :
  stn (nfq_payload (ap_nfq tb)) poff (nat_enc 2 port) = Some d1 → stn d1 off addr = Some d0 →
  fix_checksums d0 = Some d' → zlen d' = zlen (nfq_payload (ap_nfq tb)) →
  0 ≤ nfq_ret (ap_nfq tb) ≤ zlen (nfq_payload (ap_nfq tb)) →
  ∃ r w ev, finish qh (pkt_id (ap_nfq tb)) (nfq_ret (ap_nfq tb)) d0 s = Ret r (set_sys w s) ∧
    events w = ev :: events (ap_sys s) ∧ verdict_on qh tb poff port off addr ev.
Proof.
  intros E1 E0 E' L Hr. unfold finish. rewrite (opt_step _ _ _ _ E'), verdict_ret by lia.
  do 3 eexists. split_and!; [reflexivity|reflexivity|]. exists d'. split; [by exists d1, d0|done].
Qed.

(** A packet of the subnet whose connection has an entry leaves with the
    entry's port and the access point's address. *)
Lemma handle_known s m qh tb e :
  ap_nat_inv s m → zlen (ap_ifIP s) = 4 → bytes_ok (ap_ifIP s) → ap_pkt_ok 0 tb →
  let d := nfq_payload (ap_nfq tb) in
  in_subnet (src_of d) (ap_subnet s) = Some true → m !! conn_of d = Some e →
  ∃ r w ev, handle_pkt tb 0 qh s = Ret r (set_sys w s) ∧ events w = ev :: events (ap_sys s) ∧
    verdict_on qh tb (hlen d) (new_port e) 12 (ap_ifIP s) ev.
Proof.
  intros I Lf Of [Hip Hr Ho _] d Hsub Hm.
  destruct (addr_fields d Hip) as (Es & Ed & Ls & Ld & Os & Od).
  destruct (port_fields d Hip) as [Ep Eq].
  assert (Ed' : ldn d 16 4 = Some (dst_of d)) by (rewrite <- Ed; open_fields; done).
  destruct (last_byte d 16 (dst_of d)) as (i & Hi & Hb); [apply Hip|done|by apply Ho|].
  destruct (translate_ok d (hlen d) (new_port e) 12 (ap_ifIP s) Hip)
    as (d1 & d0 & d' & E1 & E0 & E' & L); auto.
  unfold handle_pkt. fold d. fold (pkt_id (ap_nfq tb)).
  replace (0 <=? nfq_ret (ap_nfq tb)) with true by lia.
  rewrite (opt_step _ _ _ _ Es), (opt_step _ _ _ _ Ed). cbn [Z.eqb].
  rewrite gets_step, (opt_step _ _ _ _ Hsub). cbv iota.
  rewrite (opt_step _ _ _ _ (ihl_ok d Hip)), (opt_step _ _ _ _ Ep), (opt_step _ _ _ _ Eq).
  edestruct (lookup_out_spec (B:=Z)) as (p & E & Hp); [exact I|exact Ls|exact Ld|exact Hi|exact Hb|].
  erewrite E. clear E. unfold conn_of in Hm. rewrite Hm in Hp.
  destruct Hp as (l & bs & -> & _ & Hin & R). cbn [PORT_TRANSLATION]. rewrite mret_bind.
  rewrite bind_assoc, (node_read_ok (A:=natMap) _ s l e)
    by (eapply rep_deref; [apply R|exact Hin]).
  rewrite (opt_step _ d1) by (open_fields; rewrite (proj1 (hlen_4 d)), Z.add_0_r; exact E1).
  rewrite gets_step, (opt_step _ d0) by (open_fields; exact E0).
  eapply finish_translated; [exact E1|exact E0|exact E'|exact L|exact Hr].
Qed.

(** Entries of the table are bindings of the map. *)
Lemma nat_rep_elem t bs m l e : nat_rep t bs m → (l, e) ∈ concat bs → m !! conn_key e = Some e.
Proof.
  intros [_ ND ->] Hin. apply elem_of_list_to_map; [done|].
  by apply (bindings_elem conn_key id _ l e).
Qed.

(** The search by the assigned port finds the only entry with that port. *)
Lemma find_out t bs m k e nport dst dport :
  nat_rep t bs m → m !! k = Some e → zlen dst = 4 →
  same_out nport dst dport e = true →
  (∀ k' e', m !! k' = Some e' → same_out nport dst dport e' = true → k' = k) →
  ∃ l, find_bucket (same_out nport dst dport) bs (default (-1) (ld8 dst 3)) = Some (l, e) ∧
       (l, e) ∈ concat bs.
Proof.
  intros R Hm Ld Hs Hu. pose proof R as [Rt ND Em].
  assert (Hin : (k, e) ∈ bindings conn_key id (concat bs))
    by (subst m; by apply elem_of_list_to_map_2).
  unfold bindings in Hin. apply list_elem_of_fmap in Hin as ([l e'] & [= -> ->] & Hin).
  pose proof (find_elem conn_key conn_hash t bs l e' Rt Hin) as Hbk.
  assert (Hh : conn_hash (conn_key e') = default (-1) (ld8 dst 3)).
  { unfold same_out, memcmp4 in Hs.
    rewrite negb_true_iff, !orb_false_iff, !negb_false_iff, bool_decide_eq_true in Hs.
    destruct Hs as [[Hd _] _]. unfold conn_hash, conn_key. simpl.
    by rewrite Hd, (take4 dst). }
  rewrite Hh in Hbk. unfold find_bucket.
  destruct (find_in _ _) as [[l2 e2]|] eqn:Ef.
  - apply find_in_Some in Ef as [Hin2 Hs2]. apply bucket_elem in Hin2.
    pose proof (nat_rep_elem _ _ _ _ _ R Hin2) as Hm2.
    pose proof (Hu _ _ Hm2 Hs2) as Hk. rewrite Hk, Hm in Hm2. injection Hm2 as <-.
    by exists l2.
  - apply find_in_None in Ef. rewrite Forall_forall in Ef. specialize (Ef _ Hbk).
    simpl in Ef. congruence.
Qed.

(** An answer to the access point's address and an assigned port reaches the
    station that owns the port. *)
Lemma handle_answer s m qh tb k e :
  ap_nat_inv s m → zlen (ap_ifIP s) = 4 → ap_pkt_ok 1 tb →
  let d := nfq_payload (ap_nfq tb) in
  dst_of d = ap_ifIP s → m !! k = Some e →
  same_out (dport_of d) (src_of d) (sport_of d) e = true →
  (∀ k' e', m !! k' = Some e' →
     same_out (dport_of d) (src_of d) (sport_of d) e' = true → k' = k) →
  ∃ r w ev, handle_pkt tb 1 qh s = Ret r (set_sys w s) ∧ events w = ev :: events (ap_sys s) ∧
    verdict_on qh tb (hlen d + 2) (src_port e) 16 (src_addr e) ev.
Proof.
  intros I Lf [Hip Hr _ Hi'] d Hdst Hm Hs Hu.
  destruct (addr_fields d Hip) as (Es & Ed & Ls & Ld & Os & Od).
  destruct (port_fields d Hip) as [Ep Eq].
  assert (Es' : ldn d 12 4 = Some (src_of d)) by (rewrite <- Es; open_fields; done).
  destruct (last_byte d 12 (src_of d)) as (i & Hi & Hb); [apply Hip|done|by apply Hi'|].
  destruct (an_wf _ _ I _ _ Hm) as [[La Oa] _]. pose proof I as [(bs & R) Hmx Hsz _].
  destruct (translate_ok d (hlen d + 2) (src_port e) 16 (src_addr e) Hip)
    as (d1 & d0 & d' & E1 & E0 & E' & L); auto.
  destruct (find_out _ _ _ _ _ _ _ _ R Hm Ls Hs Hu) as (l & Hf & Hin). rewrite Hi in Hf.
  unfold handle_pkt. fold d. fold (pkt_id (ap_nfq tb)).
  replace (0 <=? nfq_ret (ap_nfq tb)) with true by lia.
  rewrite (opt_step _ _ _ _ Es), (opt_step _ _ _ _ Ed). cbn [Z.eqb Pos.eqb].
  rewrite gets_step, memcmp4_iff, bool_decide_eq_true_2 by done.
  rewrite (opt_step _ _ _ _ (ihl_ok d Hip)), (opt_step _ _ _ _ Ep), (opt_step _ _ _ _ Eq).
  cbn [PORT_TRANSLATION negb]. unfold lookupPortMapQ1.
  erewrite (locked_search_find (A:=natMap)); [|exact Hmx|exact Hi| |apply R].
  2: { change (get_tab s) with (ap_nat s). lia. }
  simpl in Hf. rewrite Hf. cbn [fmap option_fmap option_map fst].
  rewrite (node_read_ok (A:=natMap) _ s l e) by (eapply rep_deref; [apply R|exact Hin]).
  rewrite (opt_step _ d1) by (open_fields; rewrite (proj1 (hlen_4 d)); exact E1).
  rewrite (opt_step _ d0) by (open_fields; exact E0).
  eapply finish_translated; [exact E1|exact E0|exact E'|exact L|exact Hr].
Qed.

Lemma nat_inv_sys s m w : ap_nat_inv s m → ap_nat_inv (set_sys w s) m.
Proof. intros []. by constructor. Qed.

(** C10. Round trip with port translation: a packet of a connection that has a
    port leaves with that port and the access point's address as its source; an
    answer to that address and port is delivered to the station and the port
    the connection was opened from, provided the controller has given the port
    to no other connection with the same remote service. *)
Theorem ap_port_round_trip s m qh0 tb0 e qh1 tb1 :
  ap_nat_inv s m → zlen (ap_ifIP s) = 4 → bytes_ok (ap_ifIP s) →
  ap_pkt_ok 0 tb0 → ap_pkt_ok 1 tb1 →
  let d0 := nfq_payload (ap_nfq tb0) in
  let d1 := nfq_payload (ap_nfq tb1) in
  in_subnet (src_of d0) (ap_subnet s) = Some true → m !! conn_of d0 = Some e →
  conn_of d1 = (dst_of d0, dport_of d0, ap_ifIP s, new_port e) →
  (∀ k' e', m !! k' = Some e' →
     same_out (new_port e) (dst_of d0) (dport_of d0) e' = true → k' = conn_of d0) →
  ∃ r0 r1 w0 w1 ev0 ev1,
    handle_pkt tb0 0 qh0 s = Ret r0 (set_sys w0 s) ∧ events w0 = ev0 :: events (ap_sys s) ∧
    verdict_on qh0 tb0 (hlen d0) (new_port e) 12 (ap_ifIP s) ev0 ∧
    handle_pkt tb1 1 qh1 (set_sys w0 s) = Ret r1 (set_sys w1 s) ∧
    events w1 = ev1 :: events w0 ∧
    verdict_on qh1 tb1 (hlen d1 + 2) (sport_of d0) 16 (src_of d0) ev1.
Proof.
  intros I Lf Of P0 P1 d0 d1 Hsub Hm Hc Hu.
  destruct (handle_known s m qh0 tb0 e I Lf Of P0 Hsub Hm) as (r0 & w0 & ev0 & E0 & Ev0 & V0).
  assert (Hk : conn_key e = conn_of d0).
  { pose proof I as [(bs & R) _ _ _]. pose proof R as [_ _ Em].
    rewrite Em in Hm. apply elem_of_list_to_map_2, list_elem_of_fmap in Hm
      as ([l e'] & Heq & _). unfold id in Heq. congruence. }
  rewrite (conn_key_wf e) in Hk by (by eapply (an_wf _ _ I)).
  unfold entry_conn, conn_of in Hk. injection Hk as K1 K2 K3 K4.
  unfold conn_of in Hc. injection Hc as C1 C2 C3 C4.
  destruct (addr_fields d0 (ap_ip _ _ P0)) as (_ & _ & _ & Ld & _).
  destruct (handle_answer (set_sys w0 s) m qh1 tb1 (conn_of d0) e (nat_inv_sys _ _ _ I) Lf P1)
    as (r1 & w1 & ev1 & E1 & Ev1 & V1); fold d1; rewrite ?C1, ?C2, ?C4; try done.
  { unfold same_out. rewrite memcmp4_iff by (rewrite ?K3; done).
    rewrite bool_decide_eq_true_2 by done. rewrite K4, !Z.eqb_refl. done. }
  rewrite K1, K2 in V1. exists r0, r1, w0, w1, ev0, ev1. split_and!; try done.
Qed.

End Held.

(** ** Witnesses *)

(** An access point with the address 10.6.15.2, a controller and no stations;
    a query of the station 192.168.5.9 from port 4000, and its answer to the
    assigned port 4660. *)
Definition ap_hapd_start : Hapd.hostapd_data :=
  Hapd.home_network 0 (empty_tab 256) [] 0.
Definition ap_with (nat : htab natMap) (stas : htab infoSTA) (n : Z) : ap_state :=
  Ap (Conn 3 0 0 0 (Some [2; 0; 0; 0; 0; 1])) (Sys 0 []) stas n false nat false
     (empty_tab 255) false [10; 6; 15; 2] (fmt_subnet 192 168 5) 0 true [] ap_hapd_start.
Definition ap_start : ap_state := ap_with (empty_tab 255) (empty_tab 255) 0.

Definition ap_query : ap_nfq_data := ApNfq (NfqData (Some 7) 29
  [69; 0; 0; 29; 0; 7; 64; 0; 64; 17; 0; 0; 192; 168; 5; 9; 10; 6; 21; 107;
   15; 160; 0; 53; 0; 9; 0; 0; 65; 0; 0; 0]) (Some [2; 0; 0; 0; 0; 9; 0; 0]).
Definition ap_answer : ap_nfq_data := ApNfq (NfqData (Some 9) 29
  [69; 0; 0; 29; 0; 7; 64; 0; 64; 17; 0; 0; 10; 6; 21; 107; 10; 6; 15; 2;
   0; 53; 18; 52; 0; 9; 0; 0; 66; 0; 0; 0]) (Some [2; 0; 0; 0; 0; 3; 0; 0]).

Definition ap_env : Env := env_with (λ _ _, None) (λ _ m, zlen m).

Ltac ap_concrete :=
  constructor; [constructor|..];
  first [ solve [apply (bool_decide_unpack _); vm_compute; done]
        | solve [intros w E; vm_compute in E; injection E as <-; vm_compute; congruence]
        | solve [split; vm_compute; congruence]
        | solve [intros _; vm_compute; congruence]
        | solve [intros ?; lia]
        | solve [vm_compute; congruence] ].

(** The entry of the query's connection on a little-endian host. *)
Definition query_entry : natMap :=
  NatMap [192; 168; 5; 9] [10; 6; 21; 107] 40975 13568 13330.
Definition query_tab : htab natMap :=
  match push (empty_tab 255) 107 query_entry with Some (_, t) => t | None => empty_tab 255 end.
Definition query_conn : conn := ([192; 168; 5; 9], 40975, [10; 6; 21; 107], 13568).

Lemma query_inv : ap_nat_inv (ap_with query_tab (empty_tab 255) 0) {[query_conn := query_entry]}.
Proof.
  destruct (map_push conn_key id conn_hash (empty_tab 255) (replicate 255 []) ∅ query_entry)
    as (l & t & bs & E & Hl & _ & R); [apply map_rep_empty|vm_compute; split; congruence|done|].
  change (conn_hash (conn_key query_entry)) with 107 in E.
  assert (Et : query_tab = t) by (unfold query_tab; by rewrite E).
  constructor; [|done|cbn; by rewrite Et, Hl|].
  - exists bs. cbn. rewrite Et. exact R.
  - intros k e He. apply lookup_singleton_Some in He as [_ <-].
    constructor; (split; [done|by apply (bool_decide_unpack _)]).
Qed.

Lemma ap_port_round_trip_witness :
  ∃ r0 r1 w0 w1 ev0 ev1,
    @handle_pkt lp64_le ap_env ap_query 0 5 (ap_with query_tab (empty_tab 255) 0)
      = Ret r0 (set_sys w0 (ap_with query_tab (empty_tab 255) 0)) ∧
    events w0 = [ev0] ∧ @verdict_on lp64_le 5 ap_query 20 13330 12 [10; 6; 15; 2] ev0 ∧
    @handle_pkt lp64_le ap_env ap_answer 1 6 (set_sys w0 (ap_with query_tab (empty_tab 255) 0))
      = Ret r1 (set_sys w1 (ap_with query_tab (empty_tab 255) 0)) ∧
    events w1 = ev1 :: events w0 ∧
    @verdict_on lp64_le 6 ap_answer 22 40975 16 [192; 168; 5; 9] ev1.
Proof.
  assert (P0 : ap_pkt_ok 0 ap_query) by ap_concrete.
  assert (P1 : ap_pkt_ok 1 ap_answer) by ap_concrete.
  apply (@ap_port_round_trip lp64_le ap_env (ap_with query_tab (empty_tab 255) 0)
           {[query_conn := query_entry]} 5 ap_query query_entry 6 ap_answer query_inv).
  - reflexivity.
  - apply (bool_decide_unpack _). vm_compute. done.
  - exact P0.
  - exact P1.
  - vm_compute. reflexivity.
  - vm_compute. reflexivity.
  - vm_compute. reflexivity.
  - intros k' e' He _. apply lookup_singleton_Some in He as [<- _]. vm_compute. reflexivity.
Defined.
