(* ===== verification/ApAgent.v ===== *)
(** * The access point's controller interface: messages and threads

    [controller_interface.c] 181-233 and 718-2100: the messages the access
    point sends about its stations, the vendor and flow messages it receives,
    the threads started for frames, signal strengths and held packets.  The
    connection and the standard OpenFlow messages are [Agent]'s.  Printing is
    not modelled; using an object after [free], dereferencing a null pointer,
    and printing one with [%s] are [Crash]. *)

From Stdlib Require Import ZArith Lia.
From stdpp Require Import pretty.
From S2P Require Import Prelude CMem CStruct CMonad OpenFlow IpText.
From S2P Require Import Chain Agent NatTable ApData Station ApState ApNat.

Definition OFPAT_EXPERIMENTER_PUSH_IPH : Z := 0.
Definition ARP_BUFFER_LEN : Z := 1024.

Definition WLAN_FC_STYPE_ASSOC_REQ : Z := 0.
Definition WLAN_FC_STYPE_REASSOC_REQ : Z := 2.
Definition WLAN_FC_STYPE_PROBE_REQ : Z := 4.
Definition WLAN_FC_STYPE_DISASSOC : Z := 10.
Definition WLAN_FC_STYPE_AUTH : Z := 11.
Definition WLAN_FC_STYPE_DEAUTH : Z := 12.

(** [le_to_host16] of the little-endian field at [off], and the members of
    [struct ieee80211_mgmt] the code uses. *)
Definition le16_at (m : bytes) (off : Z) : option Z := le_dec <$> ldn m off 2.
Definition frame_control (mgmt : bytes) : option Z := le16_at mgmt 0.
Definition mgmt_da (mgmt : bytes) : option bytes := ldn mgmt 4 6.
Definition mgmt_sa (mgmt : bytes) : option bytes := ldn mgmt 10 6.
Definition mgmt_auth_alg (mgmt : bytes) : option Z := le16_at mgmt 24.

(** [WLAN_FC_GET_STYPE]. *)
Definition WLAN_FC_GET_STYPE (fc : Z) : Z := Z.shiftr (Z.land fc 0xf0) 4.

(** The characters of a C string. *)
Fixpoint until_nul (s : bytes) : bytes :=
  match s with
  | [] => []
  | c :: s => if c =? 0 then [] else c :: until_nul s
  end.

(** [%d], and [sprintf] into [char command[1024]]. *)
Definition fmt_d (n : Z) : bytes := cstr (pretty n).
Definition command (s : bytes) : option bytes :=
  if zlen s + 1 <=? 1024 then Some s else None.

Section Interface.
  Context `{Platform} `{Env} `{Hapd.StaSize}.
  Abbreviation AM := (M ap_state).

(** *** Messages to the controller *)

(** [generate_xid] is [rand] after [srand]. *)
Definition create_ofp_msg (size : Z) : AM (option bytes) :=
  msg ← calloc size;
  match msg with
  | None => mret None
  | Some msg =>
      msg ← opt! stf ofp_header 0 ["version"] OFP_VERSION msg;
      msg ← opt! stf ofp_header 0 ["type"] (enum_val OFPT_VENDOR) msg;
      msg ← opt! stf ofp_header 0 ["length"] (htons size) msg;
      r ← ask env_rand;
      msg ← opt! stf ofp_header 0 ["xid"] (htons r) msg;
      mret (Some msg)
  end.

(** The lines every sender starts with: a message with a body of type [T]. *)
Definition wlan_create (T : ctype) (subtype : exp_type) : AM (option bytes) :=
  msg ← create_ofp_msg (sizeof ofp_wlan_header + sizeof T);
  match msg with
  | None => mret None
  | Some msg =>
      msg ← opt! stf ofp_wlan_header 0 ["vendor"] (htonl AP_EXPERIMENTER_ID) msg;
      msg ← opt! stf ofp_wlan_header 0 ["subtype"] (htonl (enum_val subtype)) msg;
      mret (Some msg)
  end.

(** [controller_send(experimenter, ntohs(wlan_header->header.length))]. *)
Definition wlan_send (msg : bytes) : AM unit :=
  len ← opt! ldf ofp_wlan_header 0 ["header"; "length"] msg;
  controller_send msg (ntohs len).

Definition body : Z := sizeof ofp_wlan_header.

(** [send_nat_entry] and [send_nat_port_entry], which differ in the subtype. *)
Definition send_nat (subtype : exp_type) (nat : bytes) : AM unit :=
  msg ← wlan_create ofp_nat_port_entry subtype;
  match msg with
  | None => skip
  | Some msg =>
      mac ← opt! ldf_bytes ofp_nat_port_entry 0 ["staMacAddress"] 6 nat;
      msg ← opt! stf_bytes ofp_nat_port_entry body ["staMacAddress"] mac msg;
      v ← opt! ldf ofp_nat_port_entry 0 ["nw_src"] nat;
      msg ← opt! stf ofp_nat_port_entry body ["nw_src"] v msg;
      v ← opt! ldf ofp_nat_port_entry 0 ["nw_dst"] nat;
      msg ← opt! stf ofp_nat_port_entry body ["nw_dst"] v msg;
      v ← opt! ldf ofp_nat_port_entry 0 ["tp_src"] nat;
      msg ← opt! stf ofp_nat_port_entry body ["tp_src"] v msg;
      v ← opt! ldf ofp_nat_port_entry 0 ["tp_dst"] nat;
      msg ← opt! stf ofp_nat_port_entry body ["tp_dst"] v msg;
      wlan_send msg
  end.

Definition send_nat_entry : bytes → AM unit := send_nat WLAN_NAT_UPDATE.
Definition send_nat_port_entry : bytes → AM unit := send_nat WLAN_PORT_TRANSLATION.

(** A message that holds a station's and an access point's address. *)
Definition send_wlan_msg (subtype : exp_type) (sta ap : option bytes) : AM unit :=
  msg ← wlan_create ofp_wlan_msg subtype;
  match msg with
  | None => skip
  | Some msg =>
      sta ← opt! sta;
      msg ← opt! stf_bytes ofp_wlan_msg body ["staMacAddress"] sta msg;
      ap ← opt! ap;
      msg ← opt! stf_bytes ofp_wlan_msg body ["apMacAddress"] ap msg;
      wlan_send msg
  end.

Definition handle_disassoc_req (mgmt : bytes) : AM unit :=
  send_wlan_msg WLAN_DISASSOC_REQ (mgmt_sa mgmt) (mgmt_da mgmt).
Definition handle_deauth (mgmt : bytes) : AM unit :=
  send_wlan_msg WLAN_DEAUTH_REQ (mgmt_sa mgmt) (mgmt_da mgmt).
Definition handle_probe_request (mgmt : bytes) : AM unit :=
  send_wlan_msg WLAN_PROBE (mgmt_sa mgmt) (mgmt_da mgmt).

(** Six bytes of [controller->mac], [None] for a null pointer: the copy fails
    where the code copies. *)
Definition controller_mac : AM (option bytes) :=
  c ← gets get_conn; mret (m ← mac c; ldn m 0 6).

Definition handle_deauth_conn (addr : bytes) : AM unit :=
  ap ← controller_mac;
  send_wlan_msg WLAN_DEAUTH_REQ (ldn addr 0 6) ap.

Definition handle_auth (mgmt : bytes) : AM unit :=
  msg ← wlan_create ofp_wlan_auth_msg WLAN_AUTH_REQ;
  match msg with
  | None => skip
  | Some msg =>
      sa ← opt! mgmt_sa mgmt;
      msg ← opt! stf_bytes ofp_wlan_auth_msg body ["staMacAddress"] sa msg;
      da ← opt! mgmt_da mgmt;
      msg ← opt! stf_bytes ofp_wlan_auth_msg body ["apMacAddress"] da msg;
      alg ← opt! mgmt_auth_alg mgmt;
      msg ← opt! stf ofp_wlan_auth_msg body ["auth_alg"] (htons alg) msg;
      info ← lookupSenderSTA sa;
      locked_write info (set_auth_alg (htons alg));;
      wlan_send msg
  end.

(** [infoSta] gets the members of hostapd's station one by one; the copy of the
    rates is the only step that can fail. *)
Definition handle_assoc_req (mgmt : bytes) (sta : option loc) (reassoc : bool) : AM unit :=
  msg ← wlan_create ofp_wlan_assoc_msg (if reassoc then WLAN_REASSOC_REQ else WLAN_ASSOC_REQ);
  match msg with
  | None => skip
  | Some msg =>
      sa ← opt! mgmt_sa mgmt;
      msg ← opt! stf_bytes ofp_wlan_assoc_msg body ["staMacAddress"] sa msg;
      da ← opt! mgmt_da mgmt;
      msg ← opt! stf_bytes ofp_wlan_assoc_msg body ["apMacAddress"] da msg;
      l ← opt! sta;
      s ← Hapd.sta_get l;
      msg ← opt! stf ofp_wlan_assoc_msg body ["aid"] (htons (Hapd.aid s)) msg;
      msg ← opt! stf ofp_wlan_assoc_msg body ["capability"] (htons (Hapd.capability s)) msg;
      msg ← opt! stf ofp_wlan_assoc_msg body ["listen_interval"]
                   (htons (Hapd.listen_interval s)) msg;
      msg ← opt! stf ofp_wlan_assoc_msg body ["qosinfo"] (Hapd.qosinfo s) msg;
      rates ← opt! ldn (Hapd.supported_rates s) 0 (Hapd.supported_rates_len s);
      msg ← opt! stf_bytes ofp_wlan_assoc_msg body ["supported_rates"] rates msg;
      msg ← opt! stf ofp_wlan_assoc_msg body ["supported_rates_len"]
                   (htonl (Hapd.supported_rates_len s)) msg;
      info ← lookupSenderSTA sa;
      e ← node_read info;
      rates ← opt! stn (supported_rates e) 0 rates;
      locked_write info
        (set_assoc_data (Hapd.aid s) (Hapd.capability s) (Hapd.listen_interval s)
           (Hapd.qosinfo s) rates (Hapd.supported_rates_len s));;
      wlan_send msg
  end.

Definition process_sta_msg (mgmt : bytes) (sta : option loc) : AM unit :=
  m ← controller_mac;
  m ← opt! m;
  mgmt ← opt! stn mgmt 4 m;
  fc ← opt! frame_control mgmt;
  let stype := WLAN_FC_GET_STYPE fc in
  if stype =? WLAN_FC_STYPE_AUTH then handle_auth mgmt
  else if stype =? WLAN_FC_STYPE_ASSOC_REQ then handle_assoc_req mgmt sta false
  else if stype =? WLAN_FC_STYPE_REASSOC_REQ then handle_assoc_req mgmt sta true
  else if stype =? WLAN_FC_STYPE_DISASSOC then handle_disassoc_req mgmt
  else if stype =? WLAN_FC_STYPE_DEAUTH then handle_deauth mgmt
  else if stype =? WLAN_FC_STYPE_PROBE_REQ then handle_probe_request mgmt
  else skip.

(** The report of a signal strength: [WLAN_REC_POW] and [WLAN_AP_REC_POW]. *)
Definition send_rssi (msg : bytes) (sta : bytes) (rssi : Z) : AM unit :=
  sta ← opt! ldn sta 0 6;
  msg ← opt! stf_bytes ofp_wlan_rssi body ["staMacAddress"] sta msg;
  ap ← controller_mac;
  ap ← opt! ap;
  msg ← opt! stf_bytes ofp_wlan_rssi body ["apMacAddress"] ap msg;
  msg ← opt! stf ofp_wlan_rssi body ["rssi"] rssi msg;
  wlan_send msg.

Definition report_rssi (info : option loc) (rssi : Z) (addr : bytes) : AM unit :=
  e ← node_read (A:=infoSTA) info;
  if lastReceivedSignalStrength e <? rssi then
    changeRSSI info rssi;;
    msg ← wlan_create ofp_wlan_rssi WLAN_REC_POW;
    match msg with
    | None => skip
    | Some msg => send_rssi msg addr rssi
    end
  else skip.

Definition process_sta_data (rssi : Z) (addr : bytes) : AM unit :=
  info ← lookupSenderSTA addr;
  match info with
  | Some l =>
      e ← node_read (A:=infoSTA) (Some l);
      match status e with
      | ASSOCIATED => changeRSSI (Some l) rssi
      | _ => report_rssi (Some l) rssi addr
      end
  | None =>
      info ← addSTA addr;
      match info with
      | None => skip
      | Some l => changeStatus (Some l) NOT_AUTHENTICATED;; report_rssi (Some l) rssi addr
      end
  end.

Definition handle_ap_rssi (sta_mac : bytes) : AM unit :=
  msg ← wlan_create ofp_wlan_rssi WLAN_AP_REC_POW;
  match msg with
  | None => skip
  | Some msg =>
      sta ← lookupSenderSTA sta_mac;
      e ← node_read (A:=infoSTA) sta;
      send_rssi msg (address e) (lastReceivedSignalStrength e)
  end.

(** What [data_frames_rssi] does for one file: the strength and the address it
    has parsed go to a thread. *)
Definition rssi_event (rssi : Z) (addr : bytes) : AM unit :=
  handle ← calloc (2 * sizeof_ptr);
  _ ← opt! handle;
  m ← calloc ETH_ALEN;
  _ ← opt! m;
  pthread_create (ProcessStaData rssi addr).

(** hostapd's timer: [notify_controller_disassoc] of [ieee802_11.c]. *)
Definition notify_controller_disassoc (addr : bytes) : AM unit :=
  info ← lookupSenderSTA addr;
  match info with
  | None => skip
  | Some l =>
      e ← node_read (A:=infoSTA) (Some l);
      match status e with
      | AUTHENTICATED =>
          changeStatus (Some l) NOT_AUTHENTICATED;; pthread_create (HandleDeauthConn addr)
      | _ => skip
      end
  end.

(** *** Vendor messages from the controller *)

Definition station_of (oh : bytes) : option bytes :=
  ldf_bytes ofp_wlan_sta body ["staMacAddress"] 6 oh.

Definition wlan_add_sta (oh : bytes) : AM unit :=
  a ← opt! station_of oh;
  sta ← lookupSenderSTA a;
  sta ← match sta with Some l => mret (Some l) | None => addSTA a end;
  match sta with
  | None => skip
  | Some l => changeStatus (Some l) SELECTED
  end.

Definition wlan_update_sta (oh : bytes) : AM unit :=
  a ← opt! ldf_bytes ofp_wlan_add_update_msg body ["staMacAddress"] 6 oh;
  sta ← lookupSenderSTA a;
  match sta with
  | None => skip
  | Some l =>
      changeStatus (Some l) ASSOCIATED;;
      alg ← opt! ldf ofp_wlan_add_update_msg body ["auth_alg"] oh;
      aid ← opt! ldf ofp_wlan_add_update_msg body ["aid"] oh;
      cap ← opt! ldf ofp_wlan_add_update_msg body ["capability"] oh;
      li ← opt! ldf ofp_wlan_add_update_msg body ["listen_interval"] oh;
      qos ← opt! ldf ofp_wlan_add_update_msg body ["qosinfo"] oh;
      len ← opt! ldf ofp_wlan_add_update_msg body ["supported_rates_len"] oh;
      rates ← opt! ldf_bytes ofp_wlan_add_update_msg body ["supported_rates"] (ntohl len) oh;
      e ← node_read (A:=infoSTA) (Some l);
      rates ← opt! stn (supported_rates e) 0 rates;
      locked_write (Some l) (λ e,
        set_assoc_data (ntohs aid) (ntohs cap) (ntohs li) qos rates (ntohl len)
          (set_auth_alg (ntohs alg) e));;
      e ← node_read (A:=infoSTA) (Some l);
      Hapd.add_STA e
  end.

Definition wlan_remove_sta (oh : bytes) : AM unit :=
  a ← opt! station_of oh;
  sta ← lookupSenderSTA a;
  match sta with
  | None => skip
  | Some l =>
      changeStatus (Some l) NOT_AUTHENTICATED;;
      e ← node_read (A:=infoSTA) (Some l);
      Hapd.remove_STA e
  end.

Definition wlan_nat_add (oh : bytes) : AM unit :=
  src ← opt! ldf_bytes ofp_nat_port_entry body ["nw_src"] 4 oh;
  dst ← opt! ldf_bytes ofp_nat_port_entry body ["nw_dst"] 4 oh;
  tp_src ← opt! ldf ofp_nat_port_entry body ["tp_src"] oh;
  tp_dst ← opt! ldf ofp_nat_port_entry body ["tp_dst"] oh;
  nMap ← lookup_out src tp_src dst tp_dst;
  nMap ← match nMap with
         | None => addEntry tp_src src tp_dst dst
         | Some _ => mret nMap
         end;
  if PORT_TRANSLATION then
    tp_new ← opt! ldf ofp_nat_port_entry body ["tp_new"] oh;
    node_write nMap (set_new_port tp_new);;
    pthread_create (ReinjectPkt nMap)
  else skip.

Definition handle_vendor (oh : bytes) : AM unit :=
  vendor ← opt! ldf ofp_vendor_header 0 ["vendor"] oh;
  if ntohl vendor =? NX_VENDOR_ID then handle_nicira oh
  else if ntohl vendor =? AP_EXPERIMENTER_ID then
    subtype ← opt! ldf ofp_wlan_header 0 ["subtype"] oh;
    match enum_of (T:=exp_type) (ntohl subtype) with
    | Some WLAN_ADD_STA => wlan_add_sta oh
    | Some WLAN_LAST_REC_POW => a ← opt! station_of oh; handle_ap_rssi a
    | Some WLAN_UPDATE_STA_ADD => wlan_update_sta oh
    | Some WLAN_REMOVE_STA => wlan_remove_sta oh
    | Some WLAN_NAT_ADD => wlan_nat_add oh
    | _ => skip
    end
  else skip.

(** *** Flow messages from the controller *)

(** The text of [/proc/net/arp] as pairs of address and hardware address, [None]
    if it cannot be read; the interfaces that are up and have an IPv4 address,
    with the memory that starts with their name. *)
Section Flows.
  Context (arp_cache : nat → option (list (bytes * bytes)))
          (ifaddrs : nat → list (bytes * (Z * Z * Z * Z))).

Fixpoint arp_find (mac : bytes) (ls : list (bytes * bytes)) : option bytes :=
  match ls with
  | [] => None
  | (ip, hw) :: ls => if strncmp_eq 17 hw mac then Some ip else arp_find mac ls
  end.

Definition getIPaddress (mac : bytes) : AM (option bytes) :=
  cache ← ask arp_cache;
  match ls ← cache; arp_find mac ls with
  | None => mret None
  | Some ip =>
      r ← calloc ARP_BUFFER_LEN;
      match r with None => crash | Some _ => mret (Some ip) end
  end.

Fixpoint if_find (ip : bytes) (ls : list (bytes * (Z * Z * Z * Z))) : option bytes :=
  match ls with
  | [] => None
  | (name, (a, b, c, d)) :: ls =>
      if bool_decide (fmt_ip a b c d = ip) then Some name else if_find ip ls
  end.

(** [memcpy(dev, iap->ifa_name, ARP_BUFFER_LEN)] reads past the name. *)
Definition getDevice (ip : bytes) : AM (option bytes) :=
  ls ← ask ifaddrs;
  match if_find ip ls with
  | None => mret None
  | Some name =>
      r ← calloc ARP_BUFFER_LEN;
      match r with
      | None => crash
      | Some _ => bs ← opt! ldn name 0 ARP_BUFFER_LEN; mret (Some (until_nul bs))
      end
  end.

(** [sprintf("%d.%d.%d.%d", ...)] of the four bytes of a 32-bit number. *)
Definition fmt_u32 (v : Z) : bytes :=
  let b k := Z.shiftr v k mod 256 in fmt_ip (b 24) (b 16) (b 8) (b 0).

Definition shell (s : bytes) : AM unit := c ← opt! command s; _ ← system c; skip.

(** The tunnel for one action at [off]: [false] when the function returns. *)
Definition push_iph (oh : bytes) (off : Z) : AM bool :=
  let iph := off + sizeof ofp_action_vendor_header in
  subtype ← opt! ldf ofp_action_iph iph ["subtype"] oh;
  if negb (ntohl subtype =? OFPAT_EXPERIMENTER_PUSH_IPH) then mret true else
  dl_dst ← opt! ldf_bytes ofp_flow_mod 0 ["match"; "dl_dst"] 6 oh;
  sta ← lookupSenderSTA dl_dst;
  match sta with
  | None => mret false
  | Some l =>
      e ← node_read (A:=infoSTA) (Some l);
      (match ipaddr e with
       | None =>
           ip ← getIPaddress (fmt_mac dl_dst);
           node_write (A:=infoSTA) (Some l) (set_ipaddr ip)
       | Some _ => skip
       end);;
      e ← node_read (A:=infoSTA) (Some l);
      match ipaddr e with
      | None => mret false
      | Some ip =>
          entry ← opt! ldf ofp_action_iph iph ["tunnelEntry"] oh;
          exit ← opt! ldf ofp_action_iph iph ["tunnelExit"] oh;
          device ← getDevice (fmt_u32 (ntohl entry));
          device ← opt! device;
          n ← gets ap_tunCount;
          shell (cstr "ip tun add ofaptun" ++ fmt_d n ++ cstr " mode ipip remote "
                 ++ fmt_u32 (ntohl exit) ++ cstr " dev " ++ device);;
          node_write (A:=infoSTA) (Some l) (set_tunNum n);;
          modify (set_tunCount (n + 1));;
          shell (cstr "ifconfig ofaptun" ++ fmt_d n ++ cstr " up");;
          shell (cstr "route add -host " ++ ip ++ cstr " dev ofaptun" ++ fmt_d n);;
          mret true
      end
  end.

(** [while(rem_len)] over the actions; [rem_len] is a [uint16_t]. *)
Fixpoint action_loop (fuel : nat) (oh : bytes) (off rem_len : Z) : AM unit :=
  if rem_len =? 0 then skip else
  match fuel with
  | O => hang
  | S fuel =>
      type ← opt! ldf ofp_action_header off ["type"] oh;
      continue ← (if ntohs type =? OFPAT_VENDOR then
                    vendor ← opt! ldf ofp_action_vendor_header off ["vendor"] oh;
                    if ntohl vendor =? AP_EXPERIMENTER_ID then push_iph oh off else mret true
                  else mret true);
      if continue : bool then
        len ← opt! ldf ofp_action_header off ["len"] oh;
        action_loop fuel oh (off + ntohs len) ((rem_len - ntohs len) mod 65536)
      else skip
  end.

Definition add_flows (fuel : nat) (oh : bytes) : AM unit :=
  len ← opt! ldf ofp_flow_mod 0 ["header"; "length"] oh;
  action_loop fuel oh (sizeof ofp_flow_mod) ((ntohs len - sizeof ofp_flow_mod) mod 65536).

Definition delete_flows (oh : bytes) : AM unit :=
  dl_dst ← opt! ldf_bytes ofp_flow_mod 0 ["match"; "dl_dst"] 6 oh;
  sta ← lookupSenderSTA dl_dst;
  match sta with
  | None => skip
  | Some l =>
      e ← node_read (A:=infoSTA) (Some l);
      ip ← opt! ipaddr e;
      shell (cstr "route del -host " ++ ip ++ cstr " dev ofaptun" ++ fmt_d (tunNum e));;
      shell (cstr "ip tunnel del ofaptun" ++ fmt_d (tunNum e))
  end.

(** Actions that are not empty move through the message, so its length is
    enough fuel for every run that ends. *)
Definition handle_flow_mod (oh : bytes) : AM unit :=
  cmd ← opt! ldf ofp_flow_mod 0 ["command"] oh;
  match enum_of (T:=ofp_flow_mod_command) (ntohs cmd) with
  | Some OFPFC_ADD => add_flows (length oh + 1) oh
  | Some OFPFC_DELETE => delete_flows oh
  | _ => skip
  end.

Definition ap_process_controller_msg : bytes → AM unit :=
  process_controller_msg handle_flow_mod handle_vendor.

(** [while(1) { controller_conn_open(); controller_receive(); }]. *)
Definition controller_round : AM unit :=
  controller_conn_open;; controller_receive ap_process_controller_msg.

Fixpoint controller_run (fuel : nat) : AM unit :=
  match fuel with
  | O => hang
  | S fuel => controller_round;; controller_run fuel
  end.

End Flows.

(** *** Threads *)

Definition run_thread (t : thread) : AM unit :=
  match t with
  | SendNatEntry nat => send_nat_entry nat
  | SendNatPortEntry nat => send_nat_port_entry nat
  | ReinjectPkt nMap => reinject_pkt nMap
  | ProcessStaMsg mgmt sta => process_sta_msg mgmt sta
  | ProcessStaData rssi addr => process_sta_data rssi addr
  | HandleDeauthConn addr => handle_deauth_conn addr
  end.

(** The thread created first runs. *)
Definition schedule : AM unit :=
  ts ← gets ap_threads;
  match ts with
  | [] => skip
  | t :: ts => modify (set_threads ts);; run_thread t
  end.

(** *** Initialisation *)

(** [sizeof(struct controller_connection)] on a 64-bit host, whose
    [pthread_mutex_t] has 40 bytes. *)
Definition controller_connection_size : Z := 248.

Definition init_conn (s : ap_state) : ap_state :=
  set_tunCount 0 (set_conn (Conn (-1) 0 0 0 None) s).

Definition init_stas (n : Z) (s : ap_state) : ap_state :=
  set_mutex (A:=infoSTA) false
    (set_tab (A:=infoSTA) (empty_tab (Z.to_nat n)) (set_ap_num_sta 0 s)).

(** A table of [MAXENTRY] pointers; indexing the null pointer fails. *)
Definition init_table (r : option bytes) {A} : htab A :=
  empty_tab (if r is Some _ then Z.to_nat MAXENTRY else O).

Definition init_nat (ifIP subnet : bytes) (tn : htab natMap) (tp : htab PortData)
    (s : ap_state) : ap_state :=
  Ap (ap_conn s) (ap_sys s) (ap_stas s) (ap_num_sta s) (ap_mutex s) tn false tp false
     ifIP subnet (ap_tunCount s) true (ap_threads s) (ap_hapd s).

(** [inotify] answers [inotify_init] and [inotify_add_watch]; [t] is the result
    of the [SIOCGIFADDR] ioctl and [sin_addr] the address it stores; [aton] is
    what [inet_aton(NATSUBNET, &addr)] stores.  The [signal] folder is not
    modelled. *)
Definition controller_conn_init (inotify : nat → Z) (t : Z) (sin_addr : bytes)
    (aton : option (Z * Z * Z * Z)) : AM Z :=
  r ← calloc controller_connection_size;
  match r with
  | None => mret 1
  | Some _ =>
  modify init_conn;;
  r ← calloc (align_up 4 sizeof_ptr + sizeof_ptr);
  match r with
  | None => mret 1
  | Some _ =>
  h ← gets ap_hapd;
  let n := Hapd.max_num_sta (Hapd.conf h) in
  r ← calloc (n * sizeof_ptr);
  match r with
  | None => mret 1
  | Some _ =>
  modify (init_stas n);;
  fd ← ask inotify;
  if fd =? -1 then mret 1 else
  wd ← ask inotify;
  if wd =? -1 then mret 1 else
  if negb (t =? 0) then mret 1 else
  ip ← calloc 4;
  ip ← opt! ip;
  ip ← opt! stn ip 0 sin_addr;
  match aton with
  | None => mret 1
  | Some (c0, c1, c2, _) =>
      r ← calloc sizeof_ptr;
      _ ← opt! r;
      tn ← calloc (MAXENTRY * sizeof_ptr);
      r ← calloc sizeof_ptr;
      _ ← opt! r;
      tp ← calloc (MAXENTRY * sizeof_ptr);
      modify (init_nat ip (fmt_subnet c0 c1 c2) (init_table tn) (init_table tp));;
      _ ← system (cstr "modprobe ipip");
      mret 0
  end
  end
  end
  end.

(** [controller_conn_close] frees [controller] and writes to it afterwards. *)
Definition controller_conn_close : AM unit :=
  c ← gets get_conn;
  emit (EvClose (sock c));;
  _ ← system (cstr "rm -r signal");
  _ ← system (cstr "modprobe -r ipip");
  crash.

End Interface.
