(* ===== verification/ApAgentProps.v ===== *)
(** * Correctness of the access point's controller interface

    A packet of a new connection is held until the controller has assigned a
    port, released with that port, and answered; what the interface knows of
    stations; the messages it sends; the tunnels it makes. *)

From Stdlib Require Import ZArith Lia.
From S2P Require Import Prelude CMem CStruct CMonad OpenFlow Checksum IpText.
From S2P Require Import Chain CSteps Agent AgentProps NatTable Packet Headers.
From S2P Require Import ApData Station ApState ApNat ApNatProps ApAgent.

Section Ports.
  Context `{Platform} `{Env} `{Hapd.StaSize}.

(** ** Ports assigned by the controller *)

(** Adding an entry for a connection that has none. *)
Lemma add_conn {B} (k : option loc → M ap_state B) s m src sport dst dport i :
  ap_nat_inv s m → zlen src = 4 → bytes_ok src → zlen dst = 4 → bytes_ok dst →
  ld8 dst 3 = Some i → 0 ≤ i < MAXENTRY →
  m !! (src, sport, dst, dport) = None → (∀ t n, env_calloc t n = true) →
  let e := NatMap src dst sport dport 0 in
  ∃ l t bs, (addEntry sport src dport dst ≫= k) s = k (Some l) (set_tab t (tick s)) ∧
    (l, e) ∈ concat bs ∧ nat_rep t bs (<[(src, sport, dst, dport) := e]> m) ∧
    zlen (tab_heads t) = MAXENTRY.
Proof.
  intros I L1 O1 L2 O2 Hi Hb Hm Ha e.
  assert (Ek : conn_key e = (src, sport, dst, dport))
    by (unfold conn_key; simpl; by rewrite !take4).
  assert (Eh : conn_hash (conn_key e) = i)
    by (rewrite Ek; unfold conn_hash; simpl; by rewrite Hi).
  unfold addEntry. rewrite bind_assoc.
  edestruct (lookup_out_spec (B:=B)) as (p & E & Hp);
    [exact I|exact L1|exact L2|exact Hi|exact Hb|].
  erewrite E. clear E. rewrite Hm in Hp. subst p.
  rewrite bind_assoc, calloc_step by apply Ha. rewrite bind_assoc.
  destruct I as [(bs & R) Hmx Hsz _].
  destruct (map_push conn_key id conn_hash (ap_nat s) bs m e R)
    as (l & t & bs' & Ep & Hlen & Hin & R'); [rewrite Eh; lia|by rewrite Ek|].
  rewrite Eh in Ep. rewrite Ek in R'.
  rewrite (locked_push_ok (A:=natMap) _ (tick s) dst e i l t); [|exact Hmx|exact Hi|exact Ep].
  exists l, t, bs'. split_and!; try done. by rewrite Hlen.
Qed.

(** The entry of a connection, found or new. *)
Definition conn_entry (m : gmap conn natMap) (src : bytes) (sport : Z) (dst : bytes)
    (dport : Z) : natMap :=
  default (NatMap src dst sport dport 0) (m !! (src, sport, dst, dport)).

(** [s'] is [s] but for the translation entries and the environment's clock. *)
Definition nat_frame (s s' : ap_state) : Prop :=
  ∃ w t, s' = set_sys w (set_tab (A:=natMap) t s) ∧ events w = events (ap_sys s).

(** The port written to an entry of the table. *)
Lemma write_port {B} (k : option loc → M ap_state B) s m bs l e np :
  nat_rep (ap_nat s) bs m → (l, e) ∈ concat bs → ap_mutex_nat s = false →
  zlen (tab_heads (ap_nat s)) = MAXENTRY → (∀ k e, m !! k = Some e → entry_wf e) →
  ∃ s', (node_write (Some l) (set_new_port np);; k (Some l)) s = k (Some l) s' ∧
    deref (ap_nat s') l = Some (set_new_port np e) ∧ nat_frame s s' ∧
    ap_nat_inv s' (<[conn_key e := set_new_port np e]> m).
Proof.
  intros R Hin Hmx Hz Hwf.
  destruct (map_assign conn_key id conn_hash (ap_nat s) bs m l e (set_new_port np) R Hin)
    as (t' & bs' & E & Hh & Hin' & R'); [done|].
  exists (set_tab (A:=natMap) t' s).
  split; [by rewrite (node_write_ok (A:=natMap) _ s l _ t')|].
  split; [eapply rep_deref; [apply R'|exact Hin']|]. split.
  { exists (ap_sys s), t'. by destruct s. }
  constructor; [by exists bs'|done|cbn; by rewrite Hh|].
  intros k' e'. destruct (decide (k' = conn_key e)) as [->|].
  - rewrite lookup_insert_eq. intros [= <-].
    destruct (Hwf _ _ (nat_rep_elem _ _ _ _ _ R Hin)). by constructor.
  - rewrite lookup_insert_ne by done. apply Hwf.
Qed.

(** Find or add the entry of a connection, then write the port to it. *)
Lemma assign_port {B} (k : option loc → M ap_state B) s m src sport dst dport np i :
  ap_nat_inv s m → zlen src = 4 → bytes_ok src → zlen dst = 4 → bytes_ok dst →
  ld8 dst 3 = Some i → 0 ≤ i < MAXENTRY → (∀ t n, env_calloc t n = true) →
  let e := set_new_port np (conn_entry m src sport dst dport) in
  ∃ l s',
    (nMap ← lookup_out src sport dst dport;
     nMap ← match nMap with None => addEntry sport src dport dst | Some _ => mret nMap end;
     node_write nMap (set_new_port np);; k nMap) s = k (Some l) s' ∧
    deref (ap_nat s') l = Some e ∧ nat_frame s s' ∧
    ap_nat_inv s' (<[(src, sport, dst, dport) := e]> m).
Proof.
  intros I L1 O1 L2 O2 Hi Hb Ha. pose proof I as [_ Hmx Hsz Hwf].
  edestruct (lookup_out_spec (B:=B)) as (p & E & Hp);
    [exact I|exact L1|exact L2|exact Hi|exact Hb|].
  erewrite E. clear E. unfold conn_entry.
  destruct (m !! (src, sport, dst, dport)) as [e|] eqn:Em; cbn [default].
  - destruct Hp as (l & bs & -> & Hk & Hin & R). rewrite mret_bind.
    destruct (write_port k s m bs l e np R Hin Hmx Hsz Hwf) as (s' & E & D & F & I').
    rewrite Hk in I'. by exists l, s'.
  - subst p.
    edestruct (add_conn (B:=B)) as (l & t & bs & E & Hin & R & Hz);
      [exact I|exact L1|exact O1|exact L2|exact O2|exact Hi|exact Hb|exact Em|exact Ha|].
    erewrite E. clear E. set (e := NatMap src dst sport dport 0) in *.
    assert (Hk : conn_key e = (src, sport, dst, dport))
      by (unfold conn_key; simpl; by rewrite !take4).
    destruct (write_port k (set_tab (A:=natMap) t (tick s))
                (<[(src, sport, dst, dport) := e]> m) bs l e np)
      as (s' & E & D & (w & t' & -> & Ev) & I'); [exact R|exact Hin|exact Hmx|exact Hz| |].
    { intros k' e'. destruct (decide (k' = (src, sport, dst, dport))) as [->|].
      - rewrite lookup_insert_eq. intros [= <-]. by constructor.
      - rewrite lookup_insert_ne by done. apply Hwf. }
    rewrite Hk, insert_insert_eq in I'.
    eexists l, _. split_and!; [exact E|exact D| |exact I'].
    exists w, t'. split; [by destruct s|exact Ev].
Qed.

(** A vendor message of the controller: the OpenFlow header, the vendor, the
    subtype, the body, and what follows it in the buffer. *)
Definition ap_vendor (hd : bytes) (subtype : exp_type) (body : bytes) : bytes :=
  hd ++ be_enc 4 AP_EXPERIMENTER_ID ++ be_enc 4 (enum_val subtype) ++ body.

(** The body of [WLAN_NAT_ADD]: the ports in the byte order of packets. *)
Definition nat_add (sta pad src dst : bytes) (sport dport np : Z) : bytes :=
  sta ++ pad ++ src ++ dst ++ nat_enc 2 sport ++ nat_enc 2 dport ++ nat_enc 2 np.

Lemma load_u16 l v : nat_enc 2 v = l → 0 ≤ v < 65536 → nat_dec l = v.
Proof. intros <- Hv. rewrite nat_dec_enc. by apply Z.mod_small. Qed.

Lemma handle_vendor_nat s m hd sta pad src dst sport dport np rest i :
  ap_nat_inv s m → length hd = 8%nat → length sta = 6%nat → length pad = 2%nat →
  zlen src = 4 → bytes_ok src → zlen dst = 4 → bytes_ok dst →
  0 ≤ sport < 65536 → 0 ≤ dport < 65536 → 0 ≤ np < 65536 →
  ld8 dst 3 = Some i → 0 ≤ i < MAXENTRY →
  (∀ t n, env_calloc t n = true) → (∀ t, env_thread t = 0) →
  let e := set_new_port np (conn_entry m src sport dst dport) in
  ∃ l s',
    handle_vendor (ap_vendor hd WLAN_NAT_ADD (nat_add sta pad src dst sport dport np) ++ rest) s
      = Ret () s' ∧
    events (ap_sys s') = events (ap_sys s) ∧ deref (ap_nat s') l = Some e ∧
    ap_nat_inv s' (<[(src, sport, dst, dport) := e]> m) ∧
    ap_threads s' = ap_threads s ++ [ReinjectPkt (Some l)] ∧
    ap_port s' = ap_port s ∧ ap_mutex_port s' = ap_mutex_port s ∧
    ap_ifIP s' = ap_ifIP s ∧ ap_subnet s' = ap_subnet s.
Proof.
  intros I Lh Lst Lpd L1 O1 L2 O2 B1 B2 B3 Hi Hb Ha Ht e.
  assert (Es : length src = 4%nat) by (unfold zlen in L1; lia).
  assert (Ed : length dst = 4%nat) by (unfold zlen in L2; lia).
  unfold nat_add.
  pose proof (length_nat_enc 2 sport) as N1. pose proof (length_nat_enc 2 dport) as N2.
  pose proof (length_nat_enc 2 np) as N3.
  remember (nat_enc 2 sport) as e1 eqn:E1. remember (nat_enc 2 dport) as e2 eqn:E2.
  remember (nat_enc 2 np) as e3 eqn:E3. symmetry in E1, E2, E3.
  edestruct (assign_port (λ nMap, pthread_create (ReinjectPkt nMap)) s m src sport dst dport np i)
    as (l & s1 & E & D & (w & t & -> & Ev) & I'); try done.
  explode hd. explode sta. explode pad. explode src. explode dst.
  explode e1. explode e2. explode e3. unfold ap_vendor.
  change (be_enc 4 AP_EXPERIMENTER_ID) with [0; 0; 0; 1].
  change (be_enc 4 (enum_val WLAN_NAT_ADD)) with [0; 0; 0; 20].
  match goal with |- context [?X ++ rest] =>
    let v := eval cbv [app] in X in change (X ++ rest) with (v ++ rest) end.
  unfold handle_vendor. load. rewrite (ntohl_dec _ 1) by concrete.
  change (1 =? NX_VENDOR_ID) with false. change (1 =? AP_EXPERIMENTER_ID) with true. cbv iota.
  load. rewrite (ntohl_dec _ 20) by concrete.
  change (enum_of 20) with (Some WLAN_NAT_ADD). cbv iota.
  unfold wlan_nat_add. load_bytes. load_bytes. load. load.
  rewrite (load_u16 _ _ E1 B1), (load_u16 _ _ E2 B2).
  cbn [PORT_TRANSLATION].
  match goal with |- context [ldf ofp_nat_port_entry body ["tp_new"] ?M] =>
    assert (EL : ldf ofp_nat_port_entry body ["tp_new"] M = Some np) end.
  { open_fields. unfold ldint.
    match goal with |- context [ldn ?M ?o ?n] =>
      assert (ED : ldn M o n = Some [z27; z28]) by eval_mem; rewrite ED end.
    change (Some (nat_dec [z27; z28]) = Some np). by rewrite (load_u16 _ _ E3 B3). }
  rewrite EL. exists l. eexists. split.
  { etrans; [exact E|]. unfold pthread_create. by rewrite ask_step, Ht. }
  split; [exact Ev|]. split; [exact D|]. split; [|done]. destruct I'. by constructor.
Qed.

(** ** Hold, assign, release *)

(** A port for a connection without one, and the thread it starts. *)
Lemma assign_then_release s m bs d hd sta pad np rest :
  ap_nat_inv s m → port_inv s bs → ip_ok d → ld8 d 19 ≠ Some 255 →
  (∀ t n, env_calloc t n = true) → (∀ t, env_thread t = 0) → m !! conn_of d = None →
  length hd = 8%nat → length sta = 6%nat → length pad = 2%nat → 0 ≤ np < 65536 →
  let e := NatMap (src_of d) (dst_of d) (sport_of d) (dport_of d) np in
  ∃ s1 s2 l evs,
    handle_vendor (ap_vendor hd WLAN_NAT_ADD
      (nat_add sta pad (src_of d) (dst_of d) (sport_of d) (dport_of d) np) ++ rest) s = Ret () s1 ∧
    ap_threads s1 = ap_threads s ++ [ReinjectPkt (Some l)] ∧
    run_thread (ReinjectPkt (Some l)) s1 = Ret () s2 ∧
    events (ap_sys s2) = rev evs ++ events (ap_sys s) ∧
    Forall2 (λ x, released e (ap_ifIP s) x.2) (filter (of_conn e) (concat bs)) evs ∧
    port_inv s2 (filter (λ x, ¬ of_conn e x) <$> bs) ∧ ap_nat_inv s2 (<[conn_of d := e]> m).
Proof.
  intros I PI Hip Ho Ha Ht Hm Lh Lst Lpd Bn e.
  destruct (addr_fields d Hip) as (_ & Ed & Ls & Ld & Os & Od).
  assert (Ed' : ldn d 16 4 = Some (dst_of d)) by (rewrite <- Ed; open_fields; done).
  destruct (last_byte d 16 (dst_of d)) as (i & Hi & Hb); [apply Hip|done|done|].
  destruct (port_range d Hip) as [B1 B2].
  destruct (handle_vendor_nat s m hd sta pad (src_of d) (dst_of d) (sport_of d) (dport_of d)
              np rest i) as (l & s2 & E2 & Ev2 & D & I2 & T2 & P2 & X2 & F2 & _); try done.
  assert (Ee : set_new_port np (conn_entry m (src_of d) (sport_of d) (dst_of d) (dport_of d)) = e).
  { unfold conn_entry. unfold conn_of in Hm. by rewrite Hm. }
  rewrite Ee in D, I2.
  assert (PI2 : port_inv s2 bs) by (destruct PI; constructor; rewrite ?P2, ?X2, ?F2; done).
  destruct (reinject_spec s2 bs l e i PI2 D) as (s3 & evs & E3 & Ev3 & Rel & PI3 & Fr); try done.
  exists s2, s3, l, evs. split_and!; try done.
  - by rewrite Ev3, Ev2.
  - by rewrite F2 in Rel.
  - destruct Fr as (w & t & ->). destruct I2. by constructor.
Qed.

(** C3. End to end: a packet of a connection without a port is held, no verdict
    given; when the controller's [WLAN_NAT_ADD] names a port for the connection
    and the thread it starts has run, every held packet of the connection, this
    one included, has been released exactly once with that port and the access
    point's address, in the order of the queue; packets of other connections
    are still held, and the connection now has an entry with that port. *)
Theorem hold_then_release s m bs qh tb hw hd sta pad np rest :
  ap_nat_inv s m → port_inv s bs → ap_pkt_ok 0 tb → holdable tb →
  nfq_hw_addr tb = Some hw → length hw = 8%nat →
  (∀ t n, env_calloc t n = true) → (∀ t, env_thread t = 0) →
  let d := nfq_payload (ap_nfq tb) in
  in_subnet (src_of d) (ap_subnet s) = Some true → m !! conn_of d = None →
  length hd = 8%nat → length sta = 6%nat → length pad = 2%nat → 0 ≤ np < 65536 →
  let e := NatMap (src_of d) (dst_of d) (sport_of d) (dport_of d) np in
  let msg := nat_add sta pad (src_of d) (dst_of d) (sport_of d) (dport_of d) np in
  ∃ s1 s2 s3 l lh bs1 evs,
    handle_pkt tb 0 qh s = Ret 1 s1 ∧ events (ap_sys s1) = events (ap_sys s) ∧
    concat bs1 ≡ₚ (lh, held_of qh tb) :: concat bs ∧
    handle_vendor (ap_vendor hd WLAN_NAT_ADD msg ++ rest) s1 = Ret () s2 ∧
    ap_threads s2 = ap_threads s ++
      [SendNatPortEntry (port_request hw (src_of d) (dst_of d) (sport_of d) (dport_of d));
       ReinjectPkt (Some l)] ∧
    run_thread (ReinjectPkt (Some l)) s2 = Ret () s3 ∧
    events (ap_sys s3) = rev evs ++ events (ap_sys s) ∧
    Forall2 (λ x, released e (ap_ifIP s) x.2) (filter (of_conn e) (concat bs1)) evs ∧
    of_conn e (lh, held_of qh tb) ∧
    port_inv s3 (filter (λ x, ¬ of_conn e x) <$> bs1) ∧
    ap_nat_inv s3 (<[conn_of d := e]> m).
Proof.
  intros I PI PO HO Hhw Lhw Ha Ht d Hsub Hm Lh Lst Lpd Bn e msg. pose proof PO as [Hip Hr Ho _].
  destruct (handle_hold s m bs qh tb hw I PI PO HO Hhw Lhw Ha Ht Hsub Hm)
    as (s1 & lh & bs1 & E1 & Ev1 & Hp & PI1 & I1 & T1 & _ & F1 & _).
  destruct (assign_then_release s1 m bs1 d hd sta pad np rest)
    as (s2 & s3 & l & evs & E2 & T2 & E3 & Ev3 & Rel & PI3 & I3); try done; [by apply Ho|].
  exists s1, s2, s3, l, lh, bs1, evs. split_and!; try done.
  - rewrite T2, T1, <- app_assoc. done.
  - by rewrite Ev3, Ev1.
  - by rewrite F1 in Rel.
  - by apply (held_of_ok qh tb Hip Hr HO).
Qed.

(** ** Actions of a flow message *)

(** C37. An action of length zero that is not a vendor action makes [add_flows]
    spin: whatever the fuel, the loop over the actions does not come to an
    end while bytes remain. *)
Theorem zero_length_action_spins arp ifs fuel oh off rem s type :
  rem ≠ 0 → 0 ≤ rem < 65536 →
  ldf ofp_action_header off ["type"] oh = Some type → ntohs type ≠ OFPAT_VENDOR →
  ldf ofp_action_header off ["len"] oh = Some 0 →
  action_loop arp ifs fuel oh off rem s = Hang.
Proof.
  intros Hr Hb Ht Hv Hl. revert s. induction fuel as [|fuel IH]; intros s; cbn [action_loop].
  { by replace (rem =? 0) with false by lia. }
  replace (rem =? 0) with false by lia. rewrite (opt_step _ _ _ _ Ht).
  replace (ntohs type =? OFPAT_VENDOR) with false by lia. rewrite mret_bind.
  rewrite (opt_step _ _ _ _ Hl).
  assert (E0 : ntohs 0 = 0) by (unfold ntohs, hton; by case_if).
  rewrite E0, Z.add_0_r, Z.sub_0_r, Z.mod_small by done. apply IH.
Qed.

End Ports.

(** ** Witnesses *)

Lemma ap_start_nat : ap_nat_inv ap_start ∅.
Proof. constructor; try done. eexists. apply map_rep_empty. Qed.

Lemma ap_start_port : port_inv ap_start (replicate 255 []).
Proof.
  assert (E : concat (replicate 255 ([] : list (loc * PortData))) = []) by (vm_compute; done).
  constructor; [apply rep_empty|by rewrite E|done|done|].
  split; [done|]. by apply (bool_decide_unpack _).
Qed.

Lemma hold_then_release_witness :
  ∃ s1 s2 s3 l evs,
    @handle_pkt lp64_le ap_env ap_query 0 5 ap_start = Ret 1 s1 ∧ events (ap_sys s1) = [] ∧
    @handle_vendor lp64_le ap_env 1000
      (ap_vendor [1; 4; 0; 40; 0; 0; 0; 1] WLAN_NAT_ADD
         (@nat_add lp64_le [2; 0; 0; 0; 0; 9] [0; 0] [192; 168; 5; 9] [10; 6; 21; 107]
            40975 13568 13330) ++ [0; 0]) s1 = Ret () s2 ∧
    @run_thread lp64_le ap_env (ReinjectPkt (Some l)) s2 = Ret () s3 ∧
    events (ap_sys s3) = rev evs ++ [] ∧ ap_nat_inv s3 {[query_conn := query_entry]}.
Proof.
  assert (P0 : ap_pkt_ok 0 ap_query) by ap_concrete.
  assert (PH : holdable ap_query) by (constructor; vm_compute; congruence).
  assert (HS : in_subnet (src_of (nfq_payload (ap_nfq ap_query))) (ap_subnet ap_start) = Some true)
    by (vm_compute; reflexivity).
  pose proof (@hold_then_release lp64_le ap_env 1000 ap_start ∅ (replicate 255 []) 5 ap_query
    [2; 0; 0; 0; 0; 9; 0; 0] [1; 4; 0; 40; 0; 0; 0; 1] [2; 0; 0; 0; 0; 9] [0; 0] 13330 [0; 0]
    ap_start_nat ap_start_port P0 PH eq_refl eq_refl (λ _ _, eq_refl) (λ _, eq_refl) HS
    (lookup_empty _) eq_refl eq_refl eq_refl ltac:(lia)) as W.
  cbv zeta in W.
  assert (Q1 : @sport_of lp64_le (nfq_payload (ap_nfq ap_query)) = 40975) by (vm_compute; reflexivity).
  assert (Q2 : @dport_of lp64_le (nfq_payload (ap_nfq ap_query)) = 13568) by (vm_compute; reflexivity).
  assert (Q3 : src_of (nfq_payload (ap_nfq ap_query)) = [192; 168; 5; 9]) by (vm_compute; reflexivity).
  assert (Q4 : dst_of (nfq_payload (ap_nfq ap_query)) = [10; 6; 21; 107]) by (vm_compute; reflexivity).
  unfold conn_of in W. rewrite Q1, Q2, Q3, Q4 in W.
  destruct W as (s1 & s2 & s3 & l & lh & bs1 & evs & E1 & V1 & _ & E2 & _ & E3 & V3 & _ & _ & _ & I3).
  exists s1, s2, s3, l, evs. split; [exact E1|]. split; [exact V1|]. split; [exact E2|].
  split; [exact E3|]. split; [exact V3|exact I3].
Defined.

(** A flow message whose only action, an output to a port, has length zero. *)
Definition zero_action : bytes := replicate 72 0 ++ [0; 0; 0; 0; 0; 1; 0; 0].

Lemma zero_length_action_spins_witness :
  @action_loop lp64_le ap_env (λ _, None) (λ _, []) 1000 zero_action 72 8 ap_start = Hang.
Proof.
  apply (@zero_length_action_spins lp64_le ap_env (λ _, None) (λ _, []) 1000 zero_action 72 8
    ap_start 0).
  - lia.
  - lia.
  - vm_compute. reflexivity.
  - vm_compute. congruence.
  - vm_compute. reflexivity.
Defined.
