(* ===== verification/ApStaProps.v ===== *)
(** * Correctness of the access point's list of stations

    The list is a finite map from addresses to stations that never holds more
    stations than the access point admits; signal strengths are reported to the
    controller exactly when a station that is not associated here is heard
    better than before. *)

From Stdlib Require Import ZArith Lia.
From S2P Require Import Prelude CMem CStruct CMonad OpenFlow IpText.
From S2P Require Import Chain CSteps Agent AgentProps NatTable Headers.
From S2P Require Import ApData Station ApState ApNat ApNatProps ApAgent.

(** ** Messages *)

(** A vendor message of the access point. *)
Definition ap_msg (subtype : exp_type) (xid body : bytes) : bytes :=
  ofp_msg (enum_val OFPT_VENDOR) xid
    (be_enc 4 AP_EXPERIMENTER_ID ++ be_enc 4 (enum_val subtype) ++ body).

(** The stations as a map: address, and bucket. *)
Definition sta_key (e : infoSTA) : bytes := take 6 (address e).
Definition sta_bucket (k : bytes) : Z := default (-1) (ld8 k 3).

Abbreviation sta_rep := (map_rep sta_key id sta_bucket).
Abbreviation get_stas := (get_tab (S:=ap_state) (A:=infoSTA)).

Section Messages.
  Context `{Platform} `{Env} `{Hapd.StaSize}.

(** The transaction id of a message created in [s]. *)
Definition xid_in (s : ap_state) : bytes :=
  nat_enc 4 (htons (env_rand (Datatypes.S (clock (ap_sys s))))).

Lemma wlan_create_step {B} T sub (k : option bytes → M ap_state B) s :
  (∀ t n, env_calloc t n = true) → 0 ≤ sizeof T →
  (wlan_create T sub ≫= k) s
  = k (Some (ap_msg sub (xid_in s) (replicate (Z.to_nat (sizeof T)) 0))) (tick (tick s)).
Proof.
  intros Ha HT. apply bind_Ret. unfold wlan_create, create_ofp_msg.
  rewrite bind_assoc, calloc_step by apply Ha.
  set (n := Z.to_nat (sizeof T)). set (size := sizeof ofp_wlan_header + sizeof T).
  assert (En : replicate (Z.to_nat size) 0 = replicate 16 0 ++ replicate n 0).
  { rewrite <- replicate_add. f_equal. unfold size, n. change (sizeof ofp_wlan_header) with 16. lia. }
  rewrite En. cbn [replicate].
  pose proof (nat_enc_hton 2 size) as El. pose proof (length_be_enc 2 size) as Ll.
  assert (Eh : be_enc 2 (8 + zlen (be_enc 4 AP_EXPERIMENTER_ID ++ be_enc 4 (enum_val sub)
                 ++ replicate n 0)) = be_enc 2 size).
  { f_equal. rewrite !zlen_app, !zlen_be_enc. unfold zlen. rewrite length_replicate.
    unfold size, n. change (sizeof ofp_wlan_header) with 16. lia. }
  unfold ap_msg, ofp_msg, xid_in. rewrite Eh. clear Eh En.
  pose proof (nat_enc_hton 4 (enum_val sub)) as Es. pose proof (length_be_enc 4 (enum_val sub)) as Lsub.
  remember (be_enc 2 size) as len. clear Heqlen. explode len.
  remember (be_enc 4 (enum_val sub)) as sb. clear Heqsb. explode sb.
  rewrite !bind_assoc. store. rewrite !bind_assoc. store. rewrite !bind_assoc. store.
  rewrite !bind_assoc, ask_step, clock_tick.
  change (clock (get_sys s)) with (clock (ap_sys s)).
  pose proof (length_nat_enc 4 (htons (env_rand (Datatypes.S (clock (ap_sys s)))))) as Lx.
  remember (nat_enc 4 (htons (env_rand (Datatypes.S (clock (ap_sys s)))))) as xid eqn:Ex.
  symmetry in Ex. explode xid. rewrite !bind_assoc. store. rewrite mret_bind.
  store. store. reflexivity.
Qed.

Lemma wlan_send_step sub xid bd s :
  length xid = 4%nat → zlen bd < 60000 →
  wlan_send (ap_msg sub xid bd) s
  = controller_send (ap_msg sub xid bd) (zlen (ap_msg sub xid bd)) s.
Proof.
  intros Lx Lb. unfold wlan_send, ap_msg, ofp_msg.
  set (n := 8 + zlen (be_enc 4 AP_EXPERIMENTER_ID ++ be_enc 4 (enum_val sub) ++ bd)).
  assert (Hn : 0 ≤ n < 65536)
    by (unfold n; rewrite !zlen_app, !zlen_be_enc; unfold zlen in *; lia).
  pose proof (length_be_enc 2 n) as Ln. pose proof (be_enc_ok 2 n) as On.
  pose proof (be_dec_enc 2 n) as Dn. rewrite Z.mod_small in Dn by done.
  assert (Ez : zlen ([OFP_VERSION; enum_val OFPT_VENDOR] ++ be_enc 2 n ++ xid
     ++ be_enc 4 AP_EXPERIMENTER_ID ++ be_enc 4 (enum_val sub) ++ bd) = n).
  { rewrite !zlen_app, !zlen_be_enc. unfold n. rewrite !zlen_app, !zlen_be_enc.
    unfold zlen. rewrite Lx. simpl. lia. }
  rewrite Ez. remember (be_enc 2 n) as len. clear Heqlen. explode len.
  match goal with |- context [[OFP_VERSION; enum_val OFPT_VENDOR] ++ [?a; ?b] ++ ?r] =>
    change ([OFP_VERSION; enum_val OFPT_VENDOR] ++ [a; b] ++ r)
      with ([OFP_VERSION; enum_val OFPT_VENDOR; a; b] ++ r) end.
  load. unfold ntohs. by rewrite (hton_dec 2 _ n).
Qed.

Lemma send_rssi_step sub xid sta ap r s :
  length xid = 4%nat → length sta = 6%nat → mac (ap_conn s) = Some ap → length ap = 6%nat →
  send_rssi (ap_msg sub xid (replicate 13 0)) sta r s
  = controller_send (ap_msg sub xid (sta ++ ap ++ [r mod 256])) 29 s.
Proof.
  intros Lx Lst Hm Lap.
  assert (E : wlan_send (ap_msg sub xid (sta ++ ap ++ [r mod 256])) s
    = controller_send (ap_msg sub xid (sta ++ ap ++ [r mod 256])) 29 s).
  { rewrite wlan_send_step; [|done|]; unfold ap_msg, ofp_msg;
      rewrite ?zlen_app, ?zlen_be_enc; unfold zlen; rewrite ?Lx, ?Lst, ?Lap; done. }
  rewrite <- E. clear E. unfold ap_msg, ofp_msg.
  change (zlen (be_enc 4 AP_EXPERIMENTER_ID ++ be_enc 4 (enum_val sub) ++ replicate 13 0))
    with 21.
  assert (Ez : zlen (be_enc 4 AP_EXPERIMENTER_ID ++ be_enc 4 (enum_val sub)
                       ++ sta ++ ap ++ [r mod 256]) = 21)
    by (rewrite !zlen_app, !zlen_be_enc; unfold zlen; rewrite Lst, Lap; done).
  rewrite Ez. pose proof (length_be_enc 4 (enum_val sub)) as Lsub.
  remember (be_enc 4 (enum_val sub)) as sb. clear Heqsb.
  explode xid. explode sta. explode ap. explode sb.
  unfold send_rssi. erewrite opt_step; [|eval_mem]. store_bytes.
  unfold controller_mac. rewrite bind_assoc, gets_step, mret_bind.
  change (get_conn s) with (ap_conn s). rewrite Hm. cbn [mbind option_bind].
  erewrite opt_step; [|eval_mem]. store_bytes. store. reflexivity.
Qed.

End Messages.

(** ** The list of stations *)

Definition max_sta (s : ap_state) : Z := Hapd.max_num_sta (Hapd.conf (ap_hapd s)).

(** The list is the map [m]; its counter counts, and does not pass the limit;
    its mutex is free. *)
Record sta_inv (s : ap_state) (m : gmap bytes infoSTA) : Prop := {
  si_rep : ∃ bs, sta_rep (ap_stas s) bs m;
  si_mutex : ap_mutex s = false;
  si_num : ap_num_sta s = Z.of_nat (size m);
  si_max : Z.of_nat (size m) ≤ max_sta s;
}.

(** An address whose fourth byte is an index of the table. *)
Record addr_ok (s : ap_state) (a : bytes) : Prop := {
  ao_len : length a = 6%nat;
  ao_index : ∃ i, ld8 a 3 = Some i ∧ 0 ≤ i < zlen (tab_heads (ap_stas s));
}.

(** [s'] is [s] but for the stations, their number and the clock. *)
Definition sta_frame (s s' : ap_state) : Prop :=
  ap_conn s' = ap_conn s ∧ events (ap_sys s') = events (ap_sys s) ∧
  ap_hapd s' = ap_hapd s ∧ ap_threads s' = ap_threads s ∧
  zlen (tab_heads (ap_stas s')) = zlen (tab_heads (ap_stas s)).

Section Stations.
  Context `{Platform} `{Env} `{Hapd.StaSize}.

Lemma take6 (a : bytes) : length a = 6%nat → take 6 a = a.
Proof. intros L. apply take_ge. lia. Qed.

(** Looking a station up; the list alone matters. *)
Lemma lookup_rep {B} (k : option loc → M ap_state B) s m bs a :
  sta_rep (ap_stas s) bs m → ap_mutex s = false → addr_ok s a →
  ∃ p, (lookupSenderSTA a ≫= k) s = k p s ∧
    match m !! a with
    | None => p = None
    | Some e => ∃ l, p = Some l ∧ sta_key e = a ∧ (l, e) ∈ concat bs
    end.
Proof.
  intros R Hm [La (i & Hi & Hb)].
  set (q := λ sta : infoSTA, Hapd.memcmp6 (address sta) a).
  destruct (map_find sta_key id sta_bucket (ap_stas s) bs m q a R) as [F1 F2].
  { intros e. unfold q, Hapd.memcmp6, sta_key. by rewrite bool_decide_eq_true, (take6 a). }
  assert (Eh : sta_bucket a = i) by (unfold sta_bucket; by rewrite Hi). rewrite Eh in *.
  eexists. split.
  { unfold lookupSenderSTA.
    eapply (locked_search_find (A:=infoSTA)); [exact Hm|exact Hi|exact Hb|apply R]. }
  fold q. destruct (find_bucket q bs i) as [[l e]|]; rewrite <- F1; simpl; [|done].
  destruct (F2 l e eq_refl) as [Hk Hin]. by exists l.
Qed.

Lemma lookup_sta {B} (k : option loc → M ap_state B) s m a :
  sta_inv s m → addr_ok s a →
  ∃ p, (lookupSenderSTA a ≫= k) s = k p s ∧
    match m !! a with
    | None => p = None
    | Some e => ∃ l bs, p = Some l ∧ sta_key e = a ∧ (l, e) ∈ concat bs ∧
                        sta_rep (ap_stas s) bs m
    end.
Proof.
  intros [(bs & R) Hm _ _] A. destruct (lookup_rep k s m bs a R Hm A) as (p & E & Hp).
  exists p. split; [done|]. destruct (m !! a); [|done]. destruct Hp as (l & ? & ? & ?). by exists l, bs.
Qed.

(** Adding a station that is not in the list. *)
Lemma addSTA_new {B} (k : option loc → M ap_state B) s m a :
  sta_inv s m → addr_ok s a → (∀ t n, env_calloc t n = true) → m !! a = None →
  if max_sta s <=? Z.of_nat (size m) then (addSTA a ≫= k) s = k None s
  else ∃ l s' bs, (addSTA a ≫= k) s = k (Some l) s' ∧
    sta_inv s' (<[a := new_infoSTA a]> m) ∧ sta_frame s s' ∧
    (l, new_infoSTA a) ∈ concat bs ∧ sta_rep (ap_stas s') bs (<[a := new_infoSTA a]> m).
Proof.
  intros I A Ha Hm. pose proof A as [La (i & Hi & Hb)].
  unfold addSTA. rewrite bind_assoc.
  edestruct (lookup_sta (B:=B)) as (p & E & Hp); [exact I|exact A|].
  erewrite E. clear E. rewrite Hm in Hp. subst p.
  rewrite !bind_assoc, !gets_step, bind_assoc, gets_step. fold (max_sta s).
  destruct I as [(bs & R) Hmx Hn Hle]. rewrite Hn.
  destruct (max_sta s <=? Z.of_nat (size m)) eqn:Efull; zbool; [done|].
  rewrite bind_assoc, calloc_step by apply Ha.
  rewrite bind_assoc, (opt_step _ a).
  2: { rewrite ldn_ok by (unfold ETH_ALEN, zlen; lia). f_equal. simpl. by rewrite take6. }
  assert (Ek : sta_key (new_infoSTA a) = a) by (unfold sta_key; simpl; by apply take6).
  assert (Eh : sta_bucket (sta_key (new_infoSTA a)) = i)
    by (rewrite Ek; unfold sta_bucket; by rewrite Hi).
  destruct (map_push sta_key id sta_bucket (ap_stas s) bs m (new_infoSTA a) R)
    as (l & t & bs' & Ep & Hlen & Hin & R'); [by rewrite Eh|by rewrite Ek|].
  rewrite Eh in Ep. rewrite Ek in R'.
  rewrite bind_assoc. cbind (lock_free (A:=infoSTA) (tick s) Hmx).
  rewrite bind_assoc, modify_step, bind_assoc, (opt_step _ _ _ _ Hi), bind_assoc.
  unfold tab_push. erewrite bind_Ret; [|cbn; rewrite Ep; reflexivity].
  unfold unlock. rewrite bind_assoc, modify_step, mret_bind.
  exists l. eexists _, bs'. split; [reflexivity|]. split_and!; [|by split_and!|exact Hin|exact R'].
  constructor; [by exists bs'|done| |]; rewrite map_size_insert_None by done; cbn.
  - lia.
  - unfold max_sta in *. cbn. lia.
Qed.

(** A write to a station, its address kept; the list alone matters. *)
Lemma locked_write_rep {B} (k : unit → M ap_state B) s m bs l e f :
  sta_rep (ap_stas s) bs m → ap_mutex s = false → (l, e) ∈ concat bs →
  (∀ e, address (f e) = address e) →
  ∃ t bs', (locked_write (Some l) f ≫= k) s = k () (set_tab (A:=infoSTA) t s) ∧
    zlen (tab_heads t) = zlen (tab_heads (ap_stas s)) ∧
    (l, f e) ∈ concat bs' ∧ sta_rep t bs' (<[sta_key e := f e]> m) ∧
    size (<[sta_key e := f e]> m) = size m.
Proof.
  intros R Hmx Hin Hf.
  destruct (map_assign sta_key id sta_bucket (ap_stas s) bs m l e f R Hin)
    as (t & bs' & E & Hh & Hin' & R').
  { intros x. unfold sta_key. by rewrite Hf. }
  assert (Hsz : size (<[sta_key e := f e]> m) = size m).
  { apply map_size_insert_Some. exists e. destruct R as [_ ND ->].
    apply elem_of_list_to_map; [done|]. by apply (bindings_elem sta_key id _ l e). }
  exists t, bs'. split_and!; [|by rewrite Hh|done..].
  apply bind_Ret. unfold locked_write. cbind (lock_free (A:=infoSTA) s Hmx).
  rewrite (node_write_ok (A:=infoSTA) _ _ l f t) by exact E.
  unfold unlock, modify. f_equal. destruct s. cbn in *. by subst.
Qed.

Lemma locked_write_ok {B} (k : unit → M ap_state B) s m bs l e f :
  sta_inv s m → sta_rep (ap_stas s) bs m → (l, e) ∈ concat bs →
  (∀ e, address (f e) = address e) →
  ∃ s' bs', (locked_write (Some l) f ≫= k) s = k () s' ∧
    sta_inv s' (<[sta_key e := f e]> m) ∧ sta_frame s s' ∧ ap_sys s' = ap_sys s ∧
    (l, f e) ∈ concat bs' ∧ sta_rep (ap_stas s') bs' (<[sta_key e := f e]> m).
Proof.
  intros [_ Hmx Hn Hle] R Hin Hf.
  destruct (locked_write_rep k s m bs l e f R Hmx Hin Hf) as (t & bs' & E & Hh & Hin' & R' & Hsz).
  exists (set_tab (A:=infoSTA) t s), bs'. split; [exact E|]. split; [|by split_and!].
  constructor; [by exists bs'|done|by rewrite Hsz|by rewrite Hsz].
Qed.

(** ** Signal strengths *)

(** What the interface must do when it hears the station [a] with strength [r]:
    the stations afterwards, and whether the controller is told. *)
Definition rssi_spec (max : Z) (m : gmap bytes infoSTA) (a : bytes) (r : Z)
    : gmap bytes infoSTA * bool :=
  match m !! a with
  | Some e =>
      match status e with
      | ASSOCIATED => (<[a := set_rssi r e]> m, false)
      | _ => if lastReceivedSignalStrength e <? r then (<[a := set_rssi r e]> m, true)
             else (m, false)
      end
  | None =>
      if max <=? Z.of_nat (size m) then (m, false) else
      let e := set_status NOT_AUTHENTICATED (new_infoSTA a) in
      if 0 <? r then (<[a := set_rssi r e]> m, true) else (<[a := e]> m, false)
  end.

(** The outcome: the stations, and the message or nothing. *)
Definition rssi_outcome (s : ap_state) (m' : gmap bytes infoSTA) (a ap : bytes) (r : Z)
    (report : bool) (o : outcome ap_state unit) : Prop :=
  ∃ s', o = Ret () s' ∧ sta_inv s' m' ∧
    if report then ∃ xid res, length xid = 4%nat ∧
      events (ap_sys s') =
        EvSend (sock (ap_conn s)) (ap_msg WLAN_REC_POW xid (a ++ ap ++ [r])) res
        :: events (ap_sys s)
    else events (ap_sys s') = events (ap_sys s).

Lemma sta_inv_sent s m data res : sta_inv s m → sta_inv (sent data res s) m.
Proof. intros []. by constructor. Qed.

Lemma sta_inv_tick s m : sta_inv s m → sta_inv (tick s) m.
Proof. intros []. by constructor. Qed.

Lemma addr_ok_tick s a : addr_ok s a → addr_ok (tick s) a.
Proof. intros []. by constructor. Qed.

(** The strength stored, and reported when it is better. *)
Lemma report_rssi_spec s s0 m bs l e a ap r :
  sta_inv s m → sta_rep (ap_stas s) bs m → (l, e) ∈ concat bs → sta_key e = a →
  length a = 6%nat → 0 ≤ r < 256 → (∀ t n, env_calloc t n = true) →
  mac (ap_conn s) = Some ap → length ap = 6%nat → sock (ap_conn s) ≠ -1 →
  ap_conn s = ap_conn s0 → events (ap_sys s) = events (ap_sys s0) →
  let better := lastReceivedSignalStrength e <? r in
  rssi_outcome s0 (if better then <[a := set_rssi r e]> m else m) a ap r better
    (report_rssi (Some l) r a s).
Proof.
  intros I R Hin Hk La Hr Ha Hm Lap Hs Ec Ee better. unfold report_rssi.
  rewrite (node_read_ok (A:=infoSTA) _ s l e) by (eapply rep_deref; [apply R|exact Hin]).
  fold better. destruct better; [|by exists s].
  unfold changeRSSI. rewrite (Z.mod_small r) by done.
  edestruct (locked_write_ok (B:=unit)) with (f := set_rssi r)
    as (s1 & bs1 & E & I1 & (C1 & Ev1 & _) & S1 & _); [exact I|exact R|exact Hin|done|].
  erewrite E. clear E. rewrite Hk in I1.
  rewrite wlan_create_step by (done || (vm_compute; done)).
  change (Z.to_nat (sizeof ofp_wlan_rssi)) with 13%nat.
  assert (Lx : length (xid_in s1) = 4%nat) by apply length_nat_enc.
  rewrite (send_rssi_step WLAN_REC_POW (xid_in s1) a ap r (tick (tick s1))) by (cbn; congruence).
  rewrite (Z.mod_small r) by done.
  set (msg := ap_msg WLAN_REC_POW (xid_in s1) (a ++ ap ++ [r])).
  assert (Lm : zlen msg = 29).
  { unfold msg, ap_msg, ofp_msg. rewrite !zlen_app, !zlen_be_enc. unfold zlen.
    by rewrite Lx, La, Lap. }
  rewrite <- Lm, send_whole by (cbn; congruence).
  eexists. split; [reflexivity|]. split; [by apply sta_inv_sent, sta_inv_tick, sta_inv_tick|].
  exists (xid_in s1). eexists. split; [done|].
  change (ap_sys (sent ?a ?b ?c)) with (get_sys (sent a b c)). rewrite get_sys_sent. cbn.
  rewrite C1, Ev1, Ec, Ee. reflexivity.
Qed.

(** C15. Signal strengths: hearing a station updates the list exactly as
    specified, never beyond its capacity, and the controller is told exactly
    when a station that is not associated here is heard better than before (or
    for the first time, with a strength above zero); the message is the one the
    controller expects. *)
Theorem rssi_reports s m a ap r :
  sta_inv s m → addr_ok s a → 0 ≤ r < 256 → (∀ t n, env_calloc t n = true) →
  mac (ap_conn s) = Some ap → length ap = 6%nat → sock (ap_conn s) ≠ -1 →
  let '(m', report) := rssi_spec (max_sta s) m a r in
  rssi_outcome s m' a ap r report (process_sta_data r a s).
Proof.
  intros I A Hr Ha Hm Lap Hs. pose proof A as [La _]. unfold process_sta_data, rssi_spec.
  edestruct (lookup_sta (B:=unit)) as (p & E & Hp); [exact I|exact A|].
  erewrite E. clear E. destruct (m !! a) as [e|] eqn:Em.
  - destruct Hp as (l & bs & -> & Hk & Hin & R).
    rewrite (node_read_ok (A:=infoSTA) _ s l e) by (eapply rep_deref; [apply R|exact Hin]).
    assert (Hrep := report_rssi_spec s s m bs l e a ap r I R Hin Hk La Hr Ha Hm Lap Hs
                      eq_refl eq_refl). cbv zeta in Hrep.
    destruct (status e); try (destruct (lastReceivedSignalStrength e <? r); exact Hrep).
    unfold changeRSSI. rewrite (Z.mod_small r) by done.
    destruct (locked_write_ok mret s m bs l e (set_rssi r) I R Hin)
      as (s1 & bs1 & E & I1 & (_ & Ev1 & _) & _); [done|].
    rewrite Hk in I1. exists s1. split_and!; [|done|done].
    by rewrite bind_mret in E.
  - subst p.
    match goal with |- context [(addSTA a ≫= ?K) s] =>
      pose proof (addSTA_new K s m a I A Ha Em) as Hadd end.
    destruct (max_sta s <=? Z.of_nat (size m)).
    { rewrite Hadd. by exists s. }
    destruct Hadd as (l & s1 & bs & E & I1 & (C1 & Ev1 & _) & Hin & R). rewrite E. clear E.
    unfold changeStatus. cbv iota.
    assert (Ek : sta_key (new_infoSTA a) = a) by (unfold sta_key; simpl; by apply take6).
    edestruct (locked_write_ok (B:=unit))
      with (f := λ e, set_rssi 0 (set_status NOT_AUTHENTICATED e))
      as (s2 & bs2 & E & I2 & (C2 & Ev2 & _) & _ & Hin2 & R2); [exact I1|exact R|exact Hin|done|].
    erewrite E. clear E. rewrite Ek, insert_insert_eq in I2, R2.
    set (e := set_status NOT_AUTHENTICATED (new_infoSTA a)).
    change (set_rssi 0 (set_status NOT_AUTHENTICATED (new_infoSTA a))) with e in *.
    pose proof (report_rssi_spec s2 s _ bs2 l e a ap r I2 R2 Hin2 Ek La Hr Ha) as Hrep.
    rewrite C2, C1, Ev2, Ev1 in Hrep. specialize (Hrep Hm Lap Hs eq_refl eq_refl).
    cbv zeta in Hrep. change (lastReceivedSignalStrength e) with 0 in Hrep.
    rewrite insert_insert_eq in Hrep. destruct (0 <? r); exact Hrep.
Qed.

(** ** The list as a whole *)

(** C26. The list of stations is a bounded map: adding an address that is known
    returns its station and changes nothing; a full list refuses a new address
    and changes nothing; otherwise a fresh station is added, the counter stays
    the number of stations and within the limit of the access point. *)
Theorem station_list_bounded s m a :
  sta_inv s m → addr_ok s a → (∀ t n, env_calloc t n = true) →
  match m !! a with
  | Some e => ∃ l, addSTA a s = Ret (Some l) s ∧ deref (ap_stas s) l = Some e
  | None =>
      if max_sta s <=? Z.of_nat (size m) then addSTA a s = Ret None s
      else ∃ l s', addSTA a s = Ret (Some l) s' ∧
        deref (ap_stas s') l = Some (new_infoSTA a) ∧
        sta_inv s' (<[a := new_infoSTA a]> m) ∧ sta_frame s s'
  end.
Proof.
  intros I A Ha. destruct (m !! a) as [e|] eqn:Em.
  - unfold addSTA. edestruct (lookup_sta (B:=option loc)) as (p & E & Hp); [exact I|exact A|].
    erewrite E. clear E. rewrite Em in Hp. destruct Hp as (l & bs & -> & _ & Hin & R).
    exists l. split; [done|]. eapply rep_deref; [apply R|exact Hin].
  - pose proof (addSTA_new mret s m a I A Ha Em) as Hadd.
    destruct (max_sta s <=? Z.of_nat (size m)); [by rewrite bind_mret in Hadd|].
    destruct Hadd as (l & s' & bs & E & I' & F & Hin & R). rewrite bind_mret in E.
    exists l, s'. split_and!; try done. eapply rep_deref; [apply R|exact Hin].
Qed.

(** ** Messages about and for stations *)

(** A management frame of [sta] for [ap]: authentication with algorithm [alg]. *)
Definition auth_frame (pre ap sta mid : bytes) (alg : Z) (rest : bytes) : bytes :=
  pre ++ ap ++ sta ++ mid ++ le_enc 2 alg ++ rest.

Lemma ldn_mid (a b c : bytes) off n : off = zlen a → n = zlen b → ldn (a ++ b ++ c) off n = Some b.
Proof.
  intros -> ->. rewrite ldn_ok by (rewrite ?zlen_app; unfold zlen; lia).
  unfold zlen. rewrite !Nat2Z.id, drop_app_length, take_app_length. done.
Qed.

Lemma auth_frame_fields pre ap sta mid alg rest :
  length pre = 4%nat → length ap = 6%nat → length sta = 6%nat → length mid = 8%nat →
  0 ≤ alg < 65536 →
  let fr := auth_frame pre ap sta mid alg rest in
  mgmt_sa fr = Some sta ∧ mgmt_da fr = Some ap ∧ mgmt_auth_alg fr = Some alg.
Proof.
  intros Lp La Ls Lm Hal fr. unfold fr, auth_frame, mgmt_sa, mgmt_da, mgmt_auth_alg, le16_at.
  split_and!.
  - rewrite (app_assoc pre ap). apply ldn_mid; rewrite ?zlen_app; unfold zlen; lia.
  - apply ldn_mid; unfold zlen; lia.
  - rewrite (app_assoc pre), (app_assoc (pre ++ ap)), (app_assoc ((pre ++ ap) ++ sta)).
    rewrite (ldn_mid _ (le_enc 2 alg));
      [|rewrite !zlen_app; unfold zlen; lia|unfold zlen; by rewrite length_le_enc].
    cbn [fmap option_fmap option_map]. rewrite le_dec_enc. by rewrite Z.mod_small.
Qed.

Lemma send_msg_event s m msg :
  sta_inv s m → sock (ap_conn s) ≠ -1 →
  ∃ s' res, controller_send msg (zlen msg) s = Ret () s' ∧ sta_inv s' m ∧
    events (ap_sys s') = EvSend (sock (ap_conn s)) msg res :: events (ap_sys s).
Proof.
  intros I Hs. rewrite send_whole by exact Hs. do 2 eexists. split; [reflexivity|].
  split; [by apply sta_inv_sent|]. exact (f_equal events (get_sys_sent _ _ _)).
Qed.

(** Up to the moment the message is sent. *)
Lemma auth_step s m e pre ap sta mid alg rest :
  sta_inv s m → addr_ok s sta → m !! sta = Some e → (∀ t n, env_calloc t n = true) →
  length pre = 4%nat → length ap = 6%nat → length mid = 8%nat → 0 ≤ alg < 65536 →
  ∃ s1, handle_auth (auth_frame pre ap sta mid alg rest) s
        = wlan_send (ap_msg WLAN_AUTH_REQ (xid_in s) (sta ++ ap ++ be_enc 2 alg)) s1 ∧
    sta_inv s1 (<[sta := set_auth_alg (htons alg) e]> m) ∧ sta_frame s s1.
Proof.
  intros I A Em Ha Lp La Lm Hal. pose proof A as [Ls _]. unfold handle_auth.
  rewrite wlan_create_step by (done || (vm_compute; done)).
  change (Z.to_nat (sizeof ofp_wlan_auth_msg)) with 14%nat.
  assert (Lx : length (xid_in s) = 4%nat) by apply length_nat_enc.
  destruct (auth_frame_fields pre ap sta mid alg rest Lp La Ls Lm Hal) as (E1 & E2 & E3).
  rewrite (opt_step _ _ _ _ E1). set (msg := ap_msg WLAN_AUTH_REQ (xid_in s) (sta ++ ap ++ be_enc 2 alg)).
  assert (Em1 : ∃ m1 m2, stf_bytes ofp_wlan_auth_msg body ["staMacAddress"] sta
      (ap_msg WLAN_AUTH_REQ (xid_in s) (replicate 14 0)) = Some m1 ∧
    stf_bytes ofp_wlan_auth_msg body ["apMacAddress"] ap m1 = Some m2 ∧
    stf ofp_wlan_auth_msg body ["auth_alg"] (htons alg) m2 = Some msg).
  { unfold msg, ap_msg, ofp_msg. pose proof (length_be_enc 2 alg) as Lb.
    pose proof (nat_enc_hton 2 alg) as En. remember (be_enc 2 alg) as al. clear Heqal.
    remember (xid_in s) as xid. clear Heqxid. explode xid. explode sta. explode ap. explode al.
    do 2 eexists. split_and!; open_fields; [eval_mem|eval_mem|].
    unfold stint, htons. rewrite En. eval_mem. }
  destruct Em1 as (m1 & m2 & S1 & S2 & S3).
  rewrite (opt_step _ _ _ _ S1), (opt_step _ _ _ _ E2), (opt_step _ _ _ _ S2),
    (opt_step _ _ _ _ E3), (opt_step _ _ _ _ S3).
  edestruct (lookup_sta (B:=unit)) as (p & E & Hp);
    [by apply sta_inv_tick, sta_inv_tick|by apply addr_ok_tick, addr_ok_tick|]. erewrite E. clear E. rewrite Em in Hp.
  destruct Hp as (l & bs & -> & Hk & Hin & R).
  edestruct (locked_write_ok (B:=unit)) with (f := set_auth_alg (htons alg))
    as (s1 & bs1 & E & I1 & F1 & _);
    [by apply sta_inv_tick, sta_inv_tick|exact R|exact Hin|done|].
  erewrite E. clear E. rewrite Hk in I1. by exists s1.
Qed.

(** An authentication is reported to the controller with the station's and
    the access point's address and the algorithm in network byte order; the
    copy kept for the station is the byte-swapped number, so on a little-endian
    host a shared-key station (1) is remembered as 256. *)
Theorem auth_reported_swapped s m e pre ap sta mid alg rest :
  sta_inv s m → addr_ok s sta → m !! sta = Some e → (∀ t n, env_calloc t n = true) →
  sock (ap_conn s) ≠ -1 → length pre = 4%nat → length ap = 6%nat → length mid = 8%nat →
  0 ≤ alg < 65536 →
  ∃ s' xid res, handle_auth (auth_frame pre ap sta mid alg rest) s = Ret () s' ∧
    length xid = 4%nat ∧ sta_inv s' (<[sta := set_auth_alg (htons alg) e]> m) ∧
    events (ap_sys s') =
      EvSend (sock (ap_conn s)) (ap_msg WLAN_AUTH_REQ xid (sta ++ ap ++ be_enc 2 alg)) res
      :: events (ap_sys s).
Proof.
  intros I A Em Ha Hs Lp La Lm Hal. pose proof A as [Ls _].
  assert (Lx : length (xid_in s) = 4%nat) by apply length_nat_enc.
  destruct (auth_step s m e pre ap sta mid alg rest) as (s1 & E1 & I1 & (C1 & Ev1 & _)); try done.
  rewrite E1, wlan_send_step; [|done|].
  2: { rewrite !zlen_app, zlen_be_enc. unfold zlen. rewrite Ls, La. done. }
  destruct (send_msg_event s1 _ (ap_msg WLAN_AUTH_REQ (xid_in s) (sta ++ ap ++ be_enc 2 alg)) I1)
    as (s' & res & E & I' & Ev); [by rewrite C1|].
  exists s', (xid_in s), res. split_and!; [exact E|done|done|]. by rewrite Ev, C1, Ev1.
Qed.

(** A request for the last signal strength of a station that the access
    point does not know makes it read through a null pointer. *)
Theorem last_strength_unknown s m a :
  sta_inv s m → addr_ok s a → m !! a = None → (∀ t n, env_calloc t n = true) →
  handle_ap_rssi a s = Crash.
Proof.
  intros I A Em Ha. unfold handle_ap_rssi.
  rewrite wlan_create_step by (done || (vm_compute; done)).
  edestruct (lookup_sta (B:=unit)) as (p & E & Hp);
    [by apply sta_inv_tick, sta_inv_tick|by apply addr_ok_tick, addr_ok_tick|]. erewrite E. clear E.
  rewrite Em in Hp. by subst p.
Qed.

(** The body of [WLAN_UPDATE_STA_ADD]. *)
Definition update_body (sta nums rates : bytes) (len : Z) (tail : bytes) : bytes :=
  sta ++ nums ++ rates ++ be_enc 4 len ++ tail.

(** The number of supported rates in a controller's [WLAN_UPDATE_STA_ADD] is
    not checked: more than 32 rates are written past the array of the station. *)
Theorem update_rates_overflow s m e hd sub sta nums rates len tail rest :
  sta_inv s m → addr_ok s sta → m !! sta = Some e → zlen (supported_rates e) = 32 →
  length hd = 12%nat → length sub = 4%nat → length nums = 10%nat → length rates = 32%nat →
  length tail = 4%nat → 32 < len < 2 ^ 32 →
  wlan_update_sta ((hd ++ sub ++ update_body sta nums rates len tail) ++ rest) s = Crash.
Proof.
  intros I A Em Hr Lh Lsb Ln Lr Lt Hl. pose proof A as [Ls _].
  pose proof (length_be_enc 4 len) as Ll. pose proof (be_enc_ok 4 len) as Ol.
  pose proof (be_dec_enc 4 len) as Dl. rewrite Z.mod_small in Dl by (simpl; lia).
  unfold wlan_update_sta, update_body. remember (be_enc 4 len) as le. clear Heqle.
  explode hd. explode sub. explode sta. explode nums. explode rates. explode tail. explode le.
  match goal with |- context [?X ++ rest] =>
    let v := eval cbv [app] in X in change (X ++ rest) with (v ++ rest) end.
  load_bytes. edestruct (lookup_sta (B:=unit)) as (p & E & Hp); [exact I|exact A|].
  erewrite E. clear E. rewrite Em in Hp. destruct Hp as (l & bs & -> & Hk & Hin & R).
  unfold changeStatus. cbv iota.
  edestruct (locked_write_ok (B:=unit)) with (f := set_status ASSOCIATED)
    as (s1 & bs1 & E & _ & _ & _ & Hin1 & R1); [exact I|exact R|exact Hin|done|].
  erewrite E. clear E. do 6 load. rewrite (ntohl_dec _ len) by done.
  match goal with |- (lift_opt ?o ≫= _) _ = _ => destruct o as [rates|] eqn:Eo; [|done] end.
  cbn [lift_opt]. rewrite mret_bind.
  rewrite (node_read_ok (A:=infoSTA) _ s1 l (set_status ASSOCIATED e))
    by (eapply rep_deref; [apply R1|exact Hin1]).
  assert (Lr' : zlen rates = len).
  { revert Eo. open_fields. intros Eo. by apply ldn_Some in Eo as (_ & _ & _ & ? & _). }
  replace (stn _ 0 rates) with (@None bytes); [done|].
  symmetry. unfold stn, in_range. cbn [supported_rates set_status]. rewrite Hr, Lr'.
  replace (0 + len <=? 32) with false by lia. by rewrite andb_false_r.
Qed.

End Stations.

(** ** Witnesses *)

(** An access point that knows one station, or none. *)
Definition sta9 : bytes := [2; 0; 0; 7; 0; 9].
Definition known_sta : infoSTA := set_status NOT_AUTHENTICATED (set_rssi 20 (new_infoSTA sta9)).
Definition sta_tab : htab infoSTA :=
  match push (empty_tab 255) 7 known_sta with Some (_, t) => t | None => empty_tab 255 end.
Definition ap_known : ap_state := ap_with (empty_tab 255) sta_tab 1.

Lemma ap_start_sta : sta_inv ap_start ∅.
Proof. constructor; try done. eexists. apply map_rep_empty. Qed.

Lemma ap_known_sta : sta_inv ap_known {[sta9 := known_sta]} ∧ addr_ok ap_known sta9.
Proof.
  destruct (map_push sta_key id sta_bucket (empty_tab 255) (replicate 255 []) ∅ known_sta)
    as (l & t & bs & E & Hl & _ & R); [apply map_rep_empty|vm_compute; split; congruence|done|].
  change (sta_bucket (sta_key known_sta)) with 7 in E.
  assert (Et : sta_tab = t) by (unfold sta_tab; by rewrite E).
  assert (Es : ap_stas ap_known = t) by exact Et.
  assert (Ez : size ({[sta9 := known_sta]} : gmap bytes infoSTA) = 1%nat) by apply map_size_singleton.
  split.
  - constructor; [|reflexivity|rewrite Ez; reflexivity|rewrite Ez; vm_compute; congruence].
    exists bs. rewrite Es. exact R.
  - constructor; [reflexivity|]. exists 7. split; [reflexivity|]. rewrite Es, Hl. split; [lia|reflexivity].
Qed.

Lemma start_addr : addr_ok ap_start sta9.
Proof. constructor; [done|]. exists 7. split; [done|]. vm_compute. split; congruence. Qed.

Lemma rssi_reports_witness :
  rssi_outcome ap_known {[sta9 := set_rssi 50 known_sta]} sta9 [2; 0; 0; 0; 0; 1] 50 true
    (@process_sta_data lp64_le ap_env 50 sta9 ap_known).
Proof.
  destruct ap_known_sta as [I A].
  exact (@rssi_reports lp64_le ap_env ap_known {[sta9 := known_sta]} sta9
    [2; 0; 0; 0; 0; 1] 50 I A ltac:(lia) (λ _ _, eq_refl) eq_refl eq_refl ltac:(done)).
Defined.

Lemma station_list_bounded_witness :
  ∃ l s', @addSTA lp64_le ap_env sta9 ap_start = Ret (Some l) s' ∧
    deref (ap_stas s') l = Some (new_infoSTA sta9) ∧ sta_inv s' {[sta9 := new_infoSTA sta9]} ∧
    sta_frame ap_start s'.
Proof.
  exact (@station_list_bounded lp64_le ap_env ap_start ∅ sta9 ap_start_sta start_addr
    (λ _ _, eq_refl)).
Defined.

Lemma auth_reported_swapped_witness :
  ∃ s' xid res,
    @handle_auth lp64_le ap_env
      (auth_frame [176; 0; 0; 0] [2; 0; 0; 0; 0; 1] sta9 (replicate 8 0) 1 [1; 0; 0; 0]) ap_known
      = Ret () s' ∧ length xid = 4%nat ∧
    sta_inv s' {[sta9 := set_auth_alg 256 known_sta]} ∧
    events (ap_sys s') =
      [EvSend 3 (ap_msg WLAN_AUTH_REQ xid (sta9 ++ [2; 0; 0; 0; 0; 1] ++ [0; 1])) res].
Proof.
  destruct ap_known_sta as [I A].
  destruct (@auth_reported_swapped lp64_le ap_env ap_known {[sta9 := known_sta]} known_sta
    [176; 0; 0; 0] [2; 0; 0; 0; 0; 1] sta9 (replicate 8 0) 1 [1; 0; 0; 0] I A)
    as (s' & xid & res & E & Lx & I' & Ev); try reflexivity; try done.
  exists s', xid, res. split; [exact E|]. split; [exact Lx|]. split; [exact I'|exact Ev].
Defined.

Lemma last_strength_unknown_witness : @handle_ap_rssi lp64_le ap_env sta9 ap_start = Crash.
Proof.
  apply (@last_strength_unknown lp64_le ap_env ap_start ∅ sta9 ap_start_sta start_addr eq_refl
    (λ _ _, eq_refl)).
Defined.

Lemma update_rates_overflow_witness :
  @wlan_update_sta lp64_le ap_env 1000
    ((replicate 12 0 ++ [0; 0; 0; 17]
      ++ update_body sta9 (replicate 10 0) (replicate 32 2) 33 [0; 0; 0; 0]) ++ replicate 28 0)
    ap_known = Crash.
Proof.
  destruct ap_known_sta as [I A].
  apply (@update_rates_overflow lp64_le ap_env 1000 ap_known {[sta9 := known_sta]} known_sta
    (replicate 12 0) [0; 0; 0; 17] sta9 (replicate 10 0) (replicate 32 2) 33 [0; 0; 0; 0]
    (replicate 28 0) I A); try reflexivity. lia.
Defined.
