(* ===== verification/Java.v ===== *)
(** * Java: integers, exceptions, channel buffers

    What the controller's code uses of Java and Netty.  The integers [byte],
    [short] and [int] are signed numbers kept in their range by [signed];
    byte arrays are lists of octets, since they are only copied and printed.  A
    method is a function of the object's state that returns or throws, and what
    it has written before it throws stays written ([J]).  Reading from a
    [ChannelBuffer] consumes its readable bytes ([reader]). *)

From Stdlib Require Import ZArith Lia.
From S2P Require Import Prelude CMem.

(** ** Integers *)

(** Conversion to a signed integer of [w] bits. *)
Definition signed (w z : Z) : Z := (z + 2 ^ (w - 1)) mod 2 ^ w - 2 ^ (w - 1).
Definition jbyte : Z → Z := signed 8.
Definition jshort : Z → Z := signed 16.
Definition jint : Z → Z := signed 32.

(** The numbers a signed integer of [w] bits holds. *)
Definition in_signed (w z : Z) : Prop := - 2 ^ (w - 1) ≤ z < 2 ^ (w - 1).

(** ** Exceptions *)

Inductive exn :=
| NullPointerException | ClassCastException | IndexOutOfBoundsException
| IllegalArgumentException | NumberFormatException | IOException.

#[global] Instance exn_eq_dec : EqDecision exn.
Proof. solve_decision. Defined.

(** A method of an object with state [S]. *)
Definition J (S A : Type) : Type := S → (exn + A) * S.

#[global] Instance J_ret S : MRet (J S) := λ A a s, (inr a, s).
#[global] Instance J_bind S : MBind (J S) := λ A B k m s,
  match m s with
  | (inr a, s') => k a s'
  | (inl e, s') => (inl e, s')
  end.

Section Methods.
  Context {S : Type}.

Definition jskip : J S unit := mret ().
Definition throw {A} (e : exn) : J S A := λ s, (inl e, s).
Definition jgets {A} (f : S → A) : J S A := λ s, (inr (f s), s).
Definition jmodify (f : S → S) : J S unit := λ s, (inr (), f s).
Definition of_result {A} (r : exn + A) : J S A := λ s, (r, s).

(** [try { m; ok } catch (IOException e) { ko }]; loggers are not modelled. *)
Definition try_io {A B} (m : J S A) (ok ko : J S B) : J S B := λ s,
  match m s with
  | (inr _, s') => ok s'
  | (inl IOException, s') => ko s'
  | (inl e, s') => (inl e, s')
  end.

(** [for (T x : xs) { f(x); }]. *)
Fixpoint for_each {T} (f : T → J S unit) (xs : list T) : J S unit :=
  match xs with
  | [] => jskip
  | x :: xs => f x;; for_each f xs
  end.

End Methods.

(** ** Channel buffers *)

Definition reader (A : Type) : Type := bytes → exn + A * bytes.

#[global] Instance reader_ret : MRet reader := λ A a d, inr (a, d).
#[global] Instance reader_bind : MBind reader := λ A B k m d,
  match m d with
  | inr (a, d') => k a d'
  | inl e => inl e
  end.
#[global] Instance reader_map : FMap reader := λ A B f m, a ← m; mret (f a).

Definition rthrow {A} (e : exn) : reader A := λ _, inl e.

Definition readBytes (n : nat) : reader bytes := λ d,
  if (length d <? n)%nat then inl IndexOutOfBoundsException else inr (take n d, drop n d).

(** [data.readerIndex(data.readerIndex() + n)]. *)
Definition skipBytes (n : nat) : reader unit := _ ← readBytes n; mret ().

Definition readByte : reader Z := b ← readBytes 1; mret (jbyte (be_dec b)).
Definition readShort : reader Z := b ← readBytes 2; mret (jshort (be_dec b)).
Definition readInt : reader Z := b ← readBytes 4; mret (jint (be_dec b)).

Definition writeByte (v : Z) : bytes := be_enc 1 v.
Definition writeShort (v : Z) : bytes := be_enc 2 v.
Definition writeInt (v : Z) : bytes := be_enc 4 v.

(** ** Facts *)

Lemma signed_id w z : 0 < w → in_signed w z → signed w z = z.
Proof.
  unfold signed, in_signed. intros Hw Hz.
  assert (2 ^ w = 2 * 2 ^ (w - 1)) by (rewrite <- Z.pow_succ_r by lia; f_equal; lia).
  rewrite Z.mod_small; lia.
Qed.

Lemma signed_range w z : 0 < w → in_signed w (signed w z).
Proof.
  unfold signed, in_signed. intros Hw.
  assert (2 ^ w = 2 * 2 ^ (w - 1)) by (rewrite <- Z.pow_succ_r by lia; f_equal; lia).
  pose proof (Z.mod_pos_bound (z + 2 ^ (w - 1)) (2 ^ w)). lia.
Qed.

Lemma signed_mod w z : 0 < w → signed w z mod 2 ^ w = z mod 2 ^ w.
Proof.
  intros Hw. unfold signed. rewrite Zminus_mod_idemp_l. f_equal. lia.
Qed.

(** Two numbers with the same low bits convert to the same integer. *)
Lemma signed_congr w y z : y mod 2 ^ w = z mod 2 ^ w → signed w y = signed w z.
Proof.
  intros E. unfold signed. rewrite <- (Zplus_mod_idemp_l y), <- (Zplus_mod_idemp_l z).
  by rewrite E.
Qed.

Lemma signed_of_mod w z : signed w (z mod 2 ^ w) = signed w z.
Proof. apply signed_congr. apply Zmod_mod. Qed.

(** The octets of a Java integer are those of any number it comes from. *)
Lemma be_enc_signed n w v :
  256 ^ Z.of_nat n = 2 ^ w → 0 < w → be_enc n (signed w v) = be_enc n v.
Proof.
  intros E Hw. unfold be_enc. f_equal.
  rewrite <- (le_enc_mod n (signed w v)), <- (le_enc_mod n v), E. by rewrite signed_mod.
Qed.

Lemma readBytes_app n (l r : bytes) : length l = n → readBytes n (l ++ r) = inr (l, r).
Proof.
  intros <-. unfold readBytes. rewrite length_app.
  replace (_ <? _)%nat with false by (symmetry; apply Nat.ltb_ge; lia).
  by rewrite take_app_length, drop_app_length.
Qed.

Lemma skipBytes_app n (l r : bytes) : length l = n → skipBytes n (l ++ r) = inr ((), r).
Proof.
  intros E. unfold skipBytes, mbind, reader_bind. by rewrite readBytes_app.
Qed.

Lemma readByte_app v (r : bytes) : readByte (be_enc 1 v ++ r) = inr (jbyte v, r).
Proof.
  unfold readByte, mbind, reader_bind. rewrite readBytes_app by apply length_be_enc.
  cbv iota beta. rewrite be_dec_enc. unfold mret, reader_ret. do 2 f_equal. exact (signed_of_mod 8 v).
Qed.

Lemma readShort_app v (r : bytes) : readShort (be_enc 2 v ++ r) = inr (jshort v, r).
Proof.
  unfold readShort, mbind, reader_bind. rewrite readBytes_app by apply length_be_enc.
  cbv iota beta. rewrite be_dec_enc. unfold mret, reader_ret. do 2 f_equal. exact (signed_of_mod 16 v).
Qed.

Lemma readInt_app v (r : bytes) : readInt (be_enc 4 v ++ r) = inr (jint v, r).
Proof.
  unfold readInt, mbind, reader_bind. rewrite readBytes_app by apply length_be_enc.
  cbv iota beta. rewrite be_dec_enc. unfold mret, reader_ret. do 2 f_equal. exact (signed_of_mod 32 v).
Qed.

(** Reads the next field of a buffer that is known up to there. *)
Lemma reader_step {A B} (m : reader A) (k : A → reader B) d a d' :
  m d = inr (a, d') → (m ≫= k) d = k a d'.
Proof. unfold mbind, reader_bind. by intros ->. Qed.

Section MethodFacts.
  Context {S : Type}.

Lemma jbind_ret {A B} (m : J S A) (k : A → J S B) s a s' :
  m s = (inr a, s') → (m ≫= k) s = k a s'.
Proof. unfold mbind, J_bind. by intros ->. Qed.

Lemma jmret_step {A B} (a : A) (k : A → J S B) s : (mret a ≫= k) s = k a s.
Proof. done. Qed.

Lemma jgets_step {A B} (f : S → A) (k : A → J S B) s : (jgets f ≫= k) s = k (f s) s.
Proof. done. Qed.

Lemma jmodify_step {B} (f : S → S) (k : unit → J S B) s : (jmodify f ≫= k) s = k () (f s).
Proof. done. Qed.

(** [m] keeps [P], whether it returns or throws. *)
Definition jkeeps {A} (P : S → Prop) (m : J S A) : Prop := ∀ s, P s → P (m s).2.

Lemma jkeeps_ret {A} P (a : A) : jkeeps P (mret a).
Proof. by intros s. Qed.

Lemma jkeeps_throw {A} P e : jkeeps P (throw (A:=A) e).
Proof. by intros s. Qed.

Lemma jkeeps_result {A} P (r : exn + A) : jkeeps P (of_result r).
Proof. by intros s. Qed.

Lemma jkeeps_gets {A} P (f : S → A) : jkeeps P (jgets f).
Proof. by intros s. Qed.

Lemma jkeeps_modify (P : S → Prop) f : (∀ s, P s → P (f s)) → jkeeps P (jmodify f).
Proof. intros Hf s. apply Hf. Qed.

Lemma jkeeps_bind {A B} P (m : J S A) (k : A → J S B) :
  jkeeps P m → (∀ a, jkeeps P (k a)) → jkeeps P (m ≫= k).
Proof.
  intros Hm Hk s Hs. specialize (Hm s Hs). unfold mbind, J_bind.
  destruct (m s) as [[e|a] s']; [done|]. by apply Hk.
Qed.

(** A lookup whose result the rest depends on. *)
Lemma jkeeps_gets_bind {A B} (P : S → Prop) (f : S → A) (k : A → J S B) :
  (∀ s, P s → P (k (f s) s).2) → jkeeps P (jgets f ≫= k).
Proof. intros Hk s Hs. by apply Hk. Qed.

Lemma jkeeps_try {A B} P (m : J S A) (ok ko : J S B) :
  jkeeps P m → jkeeps P ok → jkeeps P ko → jkeeps P (try_io m ok ko).
Proof.
  intros Hm Ho Hk s Hs. specialize (Hm s Hs). unfold try_io.
  destruct (m s) as [[[]|a] s']; try done; [by apply Hk|by apply Ho].
Qed.

Lemma jkeeps_for {T} P (f : T → J S unit) xs :
  (∀ x, jkeeps P (f x)) → jkeeps P (for_each f xs).
Proof.
  intros Hf. induction xs as [|x xs IH]; simpl; [apply jkeeps_ret|].
  apply jkeeps_bind; [apply Hf|]. by intros [].
Qed.

End MethodFacts.
