(* ===== verification/FlMessages.v ===== *)
(** * The controller's messages

    The vendor messages of the Floodlight module
    ([net/floodlightcontroller/ofSwitchAP/*.java]), their registration
    ([Controller.initVendorMessages]) and OpenFlowJ's framing of the byte stream
    ([OFMessage], [OFVendor], [BasicFactory.parseMessage],
    [OFMessageEncoder]).  The classes of the module implement OpenFlowJ's
    interface [OFVendorData], here a type class; a subclass is a record that
    contains its superclass. *)

From Stdlib Require Import ZArith Lia.
From S2P Require Import Prelude CMem IpText Java.

Module Fl.

(** ** Text *)

(** The [for] loop of [HexString.toHexString], from the [i]th byte on. *)
Fixpoint hex_loop (i : nat) (bs : bytes) : bytes :=
  match bs with
  | [] => []
  | b :: bs => (if (0 <? i)%nat then [58] else []) ++ fmt_hex b ++ hex_loop (S i) bs
  end.
Definition toHexString (bs : bytes) : bytes := hex_loop 0 bs.

(** [s.split("\\.")]: the parts between the dots, without the empty ones at the
    end. *)
Fixpoint split_dots (cur s : bytes) : list bytes :=
  match s with
  | [] => [reverse cur]
  | c :: s => if c =? dot then reverse cur :: split_dots [] s else split_dots (c :: cur) s
  end.
Fixpoint drop_empty (l : list bytes) : list bytes :=
  match l with
  | [] :: l => drop_empty l
  | _ => l
  end.
Definition split (s : bytes) : list bytes := reverse (drop_empty (reverse (split_dots [] s))).

(** [Integer.valueOf(s)]. *)
Fixpoint digits (acc : Z) (s : bytes) : exn + Z :=
  match s with
  | [] => inr acc
  | c :: s => if (48 <=? c) && (c <=? 57) then digits (10 * acc + (c - 48)) s
              else inl NumberFormatException
  end.
Definition unsigned_value (s : bytes) : exn + Z :=
  match s with [] => inl NumberFormatException | _ => digits 0 s end.
Definition Integer_valueOf (s : bytes) : exn + Z :=
  let r := match s with
           | 45 :: s => match unsigned_value s with inr v => inr (- v) | inl e => inl e end
           | 43 :: s => unsigned_value s
           | _ => unsigned_value s
           end in
  match r with
  | inr v => if bool_decide (in_signed 32 v) then inr v else inl NumberFormatException
  | inl e => inl e
  end.

(** [IPv4.toIPv4Address(String)]. *)
Definition toIPv4Address (ipAddress : bytes) : exn + Z :=
  match split ipAddress with
  | [a; b; c; d] =>
      match Integer_valueOf a, Integer_valueOf b, Integer_valueOf c, Integer_valueOf d with
      | inr a, inr b, inr c, inr d =>
          inr (jint (Z.lor (Z.lor (Z.lor (Z.shiftl a 24) (Z.shiftl b 16)) (Z.shiftl c 8)) d))
      | _, _, _, _ => inl NumberFormatException
      end
  | _ => inl IllegalArgumentException
  end.

(** ** Vendor data *)

(** [OFVendorData]: the length announced for it, reading into a new instance,
    and writing, which throws when an array is null. *)
Class OFVendorData (T : Type) := {
  getLength : T → Z;
  readFrom : reader T;
  writeTo : T → exn + bytes;
}.

Record OFWlanHeader := WlanHeader { subtype : Z }.

#[global] Instance OFWlanHeader_data : OFVendorData OFWlanHeader := {|
  getLength _ := 4;
  readFrom := st ← readInt; mret (WlanHeader st);
  writeTo h := inr (writeInt (subtype h));
|}.

Record OFWlanSTAMessage := STAMessage { sm_super : OFWlanHeader; sm_sta : bytes }.

#[global] Instance OFWlanSTAMessage_data : OFVendorData OFWlanSTAMessage := {|
  getLength m := getLength (sm_super m) + 6;
  readFrom := h ← readFrom; sta ← readBytes 6; mret (STAMessage h sta);
  writeTo m := match writeTo (sm_super m) with
               | inr h => inr (h ++ sm_sta m)
               | inl e => inl e
               end;
|}.

Record OFWlanData := WlanData { wd_super : OFWlanHeader; wd_sta : bytes; wd_ap : bytes }.

#[global] Instance OFWlanData_data : OFVendorData OFWlanData := {|
  getLength m := getLength (wd_super m) + 12;
  readFrom := h ← readFrom; sta ← readBytes 6; ap ← readBytes 6; mret (WlanData h sta ap);
  writeTo m := match writeTo (wd_super m) with
               | inr h => inr (h ++ wd_sta m ++ wd_ap m)
               | inl e => inl e
               end;
|}.

Record OFWlanRSSI := WlanRSSI {
  rs_super : OFWlanHeader; rs_sta : bytes; rs_ap : bytes; rs_rssi : Z }.

#[global] Instance OFWlanRSSI_data : OFVendorData OFWlanRSSI := {|
  getLength m := getLength (rs_super m) + 13;
  readFrom := h ← readFrom; sta ← readBytes 6; ap ← readBytes 6; r ← readByte;
              mret (WlanRSSI h sta ap r);
  writeTo m := match writeTo (rs_super m) with
               | inr h => inr (h ++ rs_sta m ++ rs_ap m ++ writeByte (rs_rssi m))
               | inl e => inl e
               end;
|}.

Record OFWlanAuthentication := Authentication { au_super : OFWlanData; au_auth_alg : Z }.

#[global] Instance OFWlanAuthentication_data : OFVendorData OFWlanAuthentication := {|
  getLength m := getLength (au_super m) + 2;
  readFrom := d ← readFrom; alg ← readShort; mret (Authentication d alg);
  writeTo m := match writeTo (au_super m) with
               | inr d => inr (d ++ writeShort (au_auth_alg m))
               | inl e => inl e
               end;
|}.

Record OFWlanAssociation := Association {
  ac_super : OFWlanData;
  ac_aid : Z; ac_capability : Z; ac_listen_interval : Z;
  ac_supported_rates : bytes; ac_supported_rates_len : Z; ac_qosinfo : Z }.

#[global] Instance OFWlanAssociation_data : OFVendorData OFWlanAssociation := {|
  getLength m := getLength (ac_super m) + 60;
  readFrom := d ← readFrom; aid ← readShort; cap ← readShort; li ← readShort;
              skipBytes 2;; rates ← readBytes 32; len ← readInt; qos ← readByte;
              skipBytes 3;; mret (Association d aid cap li rates len qos);
  writeTo m := match writeTo (ac_super m) with
               | inr d => inr (d ++ writeShort (ac_aid m) ++ writeShort (ac_capability m)
                   ++ writeShort (ac_listen_interval m) ++ writeShort 0
                   ++ ac_supported_rates m ++ writeInt (ac_supported_rates_len m)
                   ++ writeByte (ac_qosinfo m) ++ writeShort 0 ++ writeByte 0)
               | inl e => inl e
               end;
|}.

(** [readFrom] reads into arrays that the constructor leaves null. *)
Record OFWlanUpdateSTA := UpdateSTA {
  us_super : OFWlanHeader; us_sta : bytes; us_auth_alg : Z; us_aid : Z; us_capability : Z;
  us_listen_interval : Z; us_supported_rates : option bytes; us_supported_rates_len : Z;
  us_qosinfo : Z }.

#[global] Instance OFWlanUpdateSTA_data : OFVendorData OFWlanUpdateSTA := {|
  getLength m := getLength (us_super m) + 56;
  readFrom := _ ← readFrom (T:=OFWlanHeader); rthrow NullPointerException;
  writeTo m := match writeTo (us_super m), us_supported_rates m with
               | inr h, Some rates =>
                   inr (h ++ us_sta m ++ writeShort (us_auth_alg m) ++ writeShort (us_aid m)
                     ++ writeShort (us_capability m) ++ writeShort (us_listen_interval m)
                     ++ writeShort 0 ++ rates ++ writeInt (us_supported_rates_len m)
                     ++ writeByte (us_qosinfo m) ++ writeShort 0 ++ writeByte 0)
               | inr _, None => inl NullPointerException
               | inl e, _ => inl e
               end;
|}.

Record OFNATMessage := NATMessage {
  nm_super : OFWlanHeader; nm_sta : bytes; nm_sourceIP : Z; nm_destinationIP : Z;
  nm_sourcePort : Z; nm_destinationPort : Z }.

#[global] Instance OFNATMessage_data : OFVendorData OFNATMessage := {|
  getLength m := getLength (nm_super m) + 20;
  readFrom := h ← readFrom; sta ← readBytes 6; skipBytes 2;;
              sip ← readInt; dip ← readInt; sp ← readShort; dp ← readShort;
              mret (NATMessage h sta sip dip sp dp);
  writeTo m := match writeTo (nm_super m) with
               | inr h => inr (h ++ nm_sta m ++ writeShort 0 ++ writeInt (nm_sourceIP m)
                   ++ writeInt (nm_destinationIP m) ++ writeShort (nm_sourcePort m)
                   ++ writeShort (nm_destinationPort m))
               | inl e => inl e
               end;
|}.

Record OFNATMessageExt := NATMessageExt { ne_super : OFNATMessage; ne_newPort : Z }.

#[global] Instance OFNATMessageExt_data : OFVendorData OFNATMessageExt := {|
  getLength m := getLength (ne_super m) + 4;
  readFrom := m ← readFrom; np ← readShort; skipBytes 2;; mret (NATMessageExt m np);
  writeTo m := match writeTo (ne_super m) with
               | inr d => inr (d ++ writeShort (ne_newPort m) ++ writeShort 0)
               | inl e => inl e
               end;
|}.

(** Nicira's role messages, of the connection's hand-shake. *)
Record OFRoleVendorData := RoleVendorData { ro_dataType : Z; ro_role : Z }.

#[global] Instance OFRoleVendorData_data : OFVendorData OFRoleVendorData := {|
  getLength _ := 4 + 4;
  readFrom := t ← readInt; r ← readInt; mret (RoleVendorData t r);
  writeTo m := inr (writeInt (ro_dataType m) ++ writeInt (ro_role m));
|}.

(** The concrete classes; [OFByteArrayVendorData] holds data of no registered
    type. *)
Inductive vendor_data :=
| OFWlanProbe (d : OFWlanData)
| OFWlanAuthRequest (d : OFWlanAuthentication)
| OFWlanAssocRequest (d : OFWlanAssociation)
| OFWlanReassociationRequest (d : OFWlanData)
| OFWlanDisassocRequest (d : OFWlanData)
| OFWlanDeauthRequest (d : OFWlanData)
| OFWlanDataRSSI (d : OFWlanRSSI)
| OFWlanAPRSSI (d : OFWlanRSSI)
| OFNATUpdate (d : OFNATMessage)
| OFPortTranslation (d : OFNATMessageExt)
| GWConnect (d : OFWlanHeader)
| OFWlanAddSTA (d : OFWlanSTAMessage)
| OFWlanLastRSSI (d : OFWlanSTAMessage)
| OFWlanRemoveSTA (d : OFWlanSTAMessage)
| OFWlanUpdateSTAAdd (d : OFWlanUpdateSTA)
| OFNATAdd (d : OFNATMessageExt)
| OFRoleRequestVendorData (d : OFRoleVendorData)
| OFRoleReplyVendorData (d : OFRoleVendorData)
| OFByteArrayVendorData (bs : bytes).

Definition AP_EXPERIMENTER_ID : Z := 1.
Definition NX_VENDOR_ID : Z := 0x2320.

Definition WLAN_AUTH_REQ : Z := 0.
Definition WLAN_DEAUTH_REQ : Z := 3.
Definition WLAN_ASSOC_REQ : Z := 4.
Definition WLAN_REASSOC_REQ : Z := 7.
Definition WLAN_DISASSOC_REQ : Z := 10.
Definition WLAN_PROBE : Z := 12.
Definition WLAN_ADD_STA : Z := 13.
Definition WLAN_REC_POW : Z := 14.
Definition WLAN_LAST_REC_POW : Z := 15.
Definition WLAN_AP_REC_POW : Z := 16.
Definition WLAN_UPDATE_STA_ADD : Z := 17.
Definition WLAN_REMOVE_STA : Z := 18.
Definition WLAN_NAT_UPDATE : Z := 19.
Definition WLAN_NAT_ADD : Z := 20.
Definition WLAN_PORT_TRANSLATION : Z := 21.
Definition GW_CONNECT : Z := 100.
Definition NXT_ROLE_REQUEST : Z := 10.
Definition NXT_ROLE_REPLY : Z := 11.

(** [Controller.initVendorMessages]: the types registered for a vendor, each
    with the class it instantiates. *)
Definition niciraVendorId (t : Z) : option (reader vendor_data) :=
  if t =? NXT_ROLE_REQUEST then Some (OFRoleRequestVendorData <$> readFrom)
  else if t =? NXT_ROLE_REPLY then Some (OFRoleReplyVendorData <$> readFrom)
  else None.

Definition ofWlanId (t : Z) : option (reader vendor_data) :=
  if t =? WLAN_PROBE then Some (OFWlanProbe <$> readFrom)
  else if t =? WLAN_AUTH_REQ then Some (OFWlanAuthRequest <$> readFrom)
  else if t =? WLAN_ASSOC_REQ then Some (OFWlanAssocRequest <$> readFrom)
  else if t =? WLAN_REASSOC_REQ then Some (OFWlanReassociationRequest <$> readFrom)
  else if t =? WLAN_DISASSOC_REQ then Some (OFWlanDisassocRequest <$> readFrom)
  else if t =? WLAN_DEAUTH_REQ then Some (OFWlanDeauthRequest <$> readFrom)
  else if t =? WLAN_REC_POW then Some (OFWlanDataRSSI <$> readFrom)
  else if t =? WLAN_AP_REC_POW then Some (OFWlanAPRSSI <$> readFrom)
  else if t =? WLAN_NAT_UPDATE then Some (OFNATUpdate <$> readFrom)
  else if t =? WLAN_PORT_TRANSLATION then Some (OFPortTranslation <$> readFrom)
  else if t =? GW_CONNECT then Some (GWConnect <$> readFrom)
  else None.

(** [OFVendorId.lookupVendorId]. *)
Definition lookupVendorId (vendor : Z) : option (Z → option (reader vendor_data)) :=
  if vendor =? NX_VENDOR_ID then Some niciraVendorId
  else if vendor =? AP_EXPERIMENTER_ID then Some ofWlanId
  else None.

(** [new byte[length]]: a negative length throws. *)
Definition readByteArray (length : Z) : reader vendor_data :=
  if length <? 0 then rthrow IllegalArgumentException
  else OFByteArrayVendorData <$> readBytes (Z.to_nat length).

(** [OFBasicVendorId.parseVendorDataType] with a type code of four bytes; the
    reader index is reset afterwards. *)
Definition parseVendorDataType (types : Z → option (reader vendor_data)) (data : bytes)
    (length : Z) : exn + option (reader vendor_data) :=
  if (length =? 0) || (4 <=? length) then
    match readInt data with
    | inr (t, _) => inr (types t)
    | inl e => inl e
    end
  else inr None.

Definition parseVendorData (vendor length : Z) : reader vendor_data := λ data,
  match lookupVendorId vendor with
  | None => readByteArray length data
  | Some types =>
      match parseVendorDataType types data length with
      | inl e => inl e
      | inr None => readByteArray length data
      | inr (Some readFrom) => readFrom data
      end
  end.

Definition vd_length (d : vendor_data) : Z :=
  match d with
  | OFWlanProbe d | OFWlanReassociationRequest d | OFWlanDisassocRequest d
  | OFWlanDeauthRequest d => getLength d
  | OFWlanAuthRequest d => getLength d
  | OFWlanAssocRequest d => getLength d
  | OFWlanDataRSSI d | OFWlanAPRSSI d => getLength d
  | OFNATUpdate d => getLength d
  | OFPortTranslation d | OFNATAdd d => getLength d
  | GWConnect d => getLength d
  | OFWlanAddSTA d | OFWlanLastRSSI d | OFWlanRemoveSTA d => getLength d
  | OFWlanUpdateSTAAdd d => getLength d
  | OFRoleRequestVendorData d | OFRoleReplyVendorData d => getLength d
  | OFByteArrayVendorData bs => zlen bs
  end.

Definition vd_writeTo (d : vendor_data) : exn + bytes :=
  match d with
  | OFWlanProbe d | OFWlanReassociationRequest d | OFWlanDisassocRequest d
  | OFWlanDeauthRequest d => writeTo d
  | OFWlanAuthRequest d => writeTo d
  | OFWlanAssocRequest d => writeTo d
  | OFWlanDataRSSI d | OFWlanAPRSSI d => writeTo d
  | OFNATUpdate d => writeTo d
  | OFPortTranslation d | OFNATAdd d => writeTo d
  | GWConnect d => writeTo d
  | OFWlanAddSTA d | OFWlanLastRSSI d | OFWlanRemoveSTA d => writeTo d
  | OFWlanUpdateSTAAdd d => writeTo d
  | OFRoleRequestVendorData d | OFRoleReplyVendorData d => writeTo d
  | OFByteArrayVendorData bs => inr bs
  end.

(** ** Messages *)

Definition OFP_VERSION : Z := 1.
Definition OFType_VENDOR : Z := 4.
Definition OFMessage_MINIMUM_LENGTH : Z := 8.
Definition OFVendor_MINIMUM_LENGTH : Z := 12.

Record OFMessage := Message { version : Z; type : Z; length_ : Z; xid : Z }.

(** [U16.f]. *)
Definition getLengthU (m : OFMessage) : Z := Z.land (length_ m) 0xffff.

(** [OFType.valueOf] indexes an array of 32, of which 20 are set. *)
Definition OFMessage_readFrom : reader OFMessage :=
  v ← readByte; t ← readByte;
  if (t <? 0) || (32 <=? t) then rthrow IndexOutOfBoundsException else
  l ← readShort; x ← readInt; mret (Message v t l x).

Definition OFMessage_writeTo (m : OFMessage) : bytes :=
  writeByte (version m) ++ writeByte (type m) ++ writeShort (length_ m) ++ writeInt (xid m).

Record OFVendor := Vendor { ve_super : OFMessage; vendor : Z; vendorData : vendor_data }.

Definition OFVendor_readFrom : reader OFVendor :=
  m ← OFMessage_readFrom; v ← readInt;
  d ← parseVendorData v (getLengthU m - OFVendor_MINIMUM_LENGTH);
  mret (Vendor m v d).

Definition OFVendor_writeTo (m : OFVendor) : exn + bytes :=
  match vd_writeTo (vendorData m) with
  | inr d => inr (OFMessage_writeTo (ve_super m) ++ writeInt (vendor m) ++ d)
  | inl e => inl e
  end.

(** How the module builds every message: [getMessage(OFType.VENDOR)], then
    [setVendor], [setVendorData] and [setLengthU]. *)
Definition new_vendor (d : vendor_data) : OFVendor :=
  Vendor (Message OFP_VERSION OFType_VENDOR (jshort (OFVendor_MINIMUM_LENGTH + vd_length d)) 0)
         AP_EXPERIMENTER_ID d.

(** [OFMessageEncoder.encode] of one message: the buffer has the announced size. *)
Definition encode (m : OFVendor) : exn + bytes :=
  match OFVendor_writeTo m with
  | inr bs => if zlen bs <=? getLengthU (ve_super m) then inr bs
              else inl IndexOutOfBoundsException
  | inl e => inl e
  end.

(** The other message classes of OpenFlowJ read themselves from the buffer in
    the way [read_other] says. *)
Section Framing.
  Context {O : Type} (read_other : Z → reader O).

(** [None]: the message has not arrived completely. *)
Definition parseMessageOne (data : bytes) : exn + option ((OFVendor + O) * bytes) :=
  if zlen data <? OFMessage_MINIMUM_LENGTH then inr None else
  match OFMessage_readFrom data with
  | inl e => inl e
  | inr (demux, _) =>
      if zlen data <? getLengthU demux then inr None
      else if 20 <=? type demux then inl NullPointerException
      else
        let r := if type demux =? OFType_VENDOR
                 then (inl <$> OFVendor_readFrom : reader (OFVendor + O)) data
                 else (inr <$> read_other (type demux) : reader (OFVendor + O)) data in
        match r with
        | inr md => inr (Some md)
        | inl e => inl e
        end
  end.

(** [parseMessage]: the messages and the bytes that stay in the buffer; an
    exception loses the messages read before.  Every message takes bytes from the
    buffer, so their number is enough fuel. *)
Fixpoint parseMessage (fuel : nat) (data : bytes) : exn + list (OFVendor + O) * bytes :=
  match fuel with
  | 0%nat => inr ([], data)
  | S fuel =>
      if zlen data <? OFMessage_MINIMUM_LENGTH then inr ([], data) else
      match parseMessageOne data with
      | inl e => inl e
      | inr None => inr ([], data)
      | inr (Some (m, rest)) =>
          match parseMessage fuel rest with
          | inr (ms, more) => inr (m :: ms, more)
          | inl e => inl e
          end
      end
  end.

Definition decode (data : bytes) : exn + list (OFVendor + O) * bytes :=
  parseMessage (length data) data.

End Framing.
End Fl.
