(* ===== verification/FlController.v ===== *)
(** * The controller's handover module

    [net/floodlightcontroller/ofSwitchAP/OFSwitchAP.java]: which access point a
    station is selected for, authenticated or associated with; the access point
    that hears each station best; the handover; and the ports that connections
    are translated to.  Handlers are methods of the module's state.

    The objects of the module are reached through its maps only, so a reference
    to a [STAAPInfo] is the key it is stored under (two references to the same
    object are the same key), and likewise for [APInfo] and the lists of
    [NATMap].  Switches are compared by reference and are numbers here.  The
    handlers are synchronized methods (all but [handlePortTranslation]) and run
    one after the other. *)

From Stdlib Require Import ZArith Lia.
From S2P Require Import Prelude CMem IpText Java FlMessages.

Module Ctl.
Import Fl.

(** ** State *)

Inductive STAStatus := SELECTED | NOT_AUTHENTICATED | AUTHENTICATED | ASSOCIATED.

#[global] Instance STAStatus_eq_dec : EqDecision STAStatus.
Proof. solve_decision. Defined.

(** [None] is null. *)
Record STAAPInfo := Info {
  staMacAddress : bytes;
  apMACAddress : bytes;
  status : option STAStatus;
  isHomeAP : bool;
  sw : Z;
  auth_alg : Z;
  aid : Z;
  capability : Z;
  listen_interval : Z;
  supported_rates : option bytes;
  supported_rates_len : Z;
  qosinfo : Z;
}.

(** The constructor; the other members have their default values. *)
Definition new_STAAPInfo (sta ap : bytes) (st : option STAStatus) (home : bool) (s : Z)
    : STAAPInfo := Info sta ap st home s 0 0 0 0 None 0 0.

Definition set_status (v : STAStatus) (i : STAAPInfo) : STAAPInfo :=
  Info (staMacAddress i) (apMACAddress i) (Some v) (isHomeAP i) (sw i) (auth_alg i) (aid i)
    (capability i) (listen_interval i) (supported_rates i) (supported_rates_len i) (qosinfo i).
Definition set_isHomeAP (v : bool) (i : STAAPInfo) : STAAPInfo :=
  Info (staMacAddress i) (apMACAddress i) (status i) v (sw i) (auth_alg i) (aid i)
    (capability i) (listen_interval i) (supported_rates i) (supported_rates_len i) (qosinfo i).
Definition set_auth_alg (v : Z) (i : STAAPInfo) : STAAPInfo :=
  Info (staMacAddress i) (apMACAddress i) (status i) (isHomeAP i) (sw i) v (aid i)
    (capability i) (listen_interval i) (supported_rates i) (supported_rates_len i) (qosinfo i).
Definition set_assoc (a c l : Z) (rates : option bytes) (len : Z) (i : STAAPInfo) : STAAPInfo :=
  Info (staMacAddress i) (apMACAddress i) (status i) (isHomeAP i) (sw i) (auth_alg i) a c l
    rates len (qosinfo i).

Record APInfo := AP { ap_mac : bytes; ap_rssi : Z; isSent : bool; ap_sw : Z }.

Definition set_isSent (v : bool) (a : APInfo) : APInfo := AP (ap_mac a) (ap_rssi a) v (ap_sw a).

Record NATMap := NAT {
  sourceIP : Z; destinationIP : Z; sourcePort : Z; destinationPort : Z; newPort : Z }.

(** The module, with the number of writes attempted and the messages written to
    switches, latest first. *)
Record ctl := State {
  STAAPList : gmap (bytes * bytes) STAAPInfo;
  STAAPRSSIList : gmap bytes APInfo;
  natTable : gmap bytes (list NATMap);
  gwSwitch : option Z;
  portMap : gmap (Z * Z) Z;
  writes : nat;
  written : list (Z * OFVendor);
}.

Definition upd_STAAPList (f : gmap (bytes * bytes) STAAPInfo → gmap (bytes * bytes) STAAPInfo)
    (s : ctl) : ctl :=
  State (f (STAAPList s)) (STAAPRSSIList s) (natTable s) (gwSwitch s) (portMap s) (writes s)
    (written s).
Definition upd_RSSIList (f : gmap bytes APInfo → gmap bytes APInfo) (s : ctl) : ctl :=
  State (STAAPList s) (f (STAAPRSSIList s)) (natTable s) (gwSwitch s) (portMap s) (writes s)
    (written s).
Definition upd_natTable (f : gmap bytes (list NATMap) → gmap bytes (list NATMap)) (s : ctl)
    : ctl :=
  State (STAAPList s) (STAAPRSSIList s) (f (natTable s)) (gwSwitch s) (portMap s) (writes s)
    (written s).
Definition set_gwSwitch (g : option Z) (s : ctl) : ctl :=
  State (STAAPList s) (STAAPRSSIList s) (natTable s) g (portMap s) (writes s) (written s).
Definition upd_portMap (f : gmap (Z * Z) Z → gmap (Z * Z) Z) (s : ctl) : ctl :=
  State (STAAPList s) (STAAPRSSIList s) (natTable s) (gwSwitch s) (f (portMap s)) (writes s)
    (written s).

(** The runtime: whether the [n]th write throws; the text of a switch's remote
    address, [None] when it is null; the order in which a concurrent map is
    iterated, which the documentation leaves open. *)
Class JavaEnv := {
  write_fails : nat → bool;
  remoteAddress : Z → option bytes;
  entrySet : gmap (bytes * bytes) STAAPInfo → list ((bytes * bytes) * STAAPInfo);
  entrySet_perm : ∀ m, entrySet m ≡ₚ map_to_list m;
}.

Section Module.
  Context `{JavaEnv}.
  Abbreviation JM := (J ctl).

(** [sw.write(msg, null)]. *)
Definition write (w : Z) (m : OFVendor) : JM unit := λ s,
  let s' := State (STAAPList s) (STAAPRSSIList s) (natTable s) (gwSwitch s) (portMap s)
              (S (writes s)) in
  if write_fails (writes s) then (inl IOException, s' (written s))
  else (inr (), s' ((w, m) :: written s)).

(** [init] and [removedSwitch]; [startUp] registers the listeners. *)
Definition init : ctl := State ∅ ∅ ∅ None ∅ 0 [].

Definition removedSwitch (w : Z) : JM unit :=
  g ← jgets gwSwitch;
  if decide (Some w = g) then jmodify (set_gwSwitch None) else
  jmodify (upd_STAAPList (filter (λ '(_, i), sw i ≠ w)));;
  jmodify (upd_RSSIList (filter (λ '(_, a), ap_sw a ≠ w))).

(** *** Searches *)

Definition findSTAAPPair (sta ap : bytes) : JM bool :=
  jgets (λ s, existsb (λ '(k, i), bool_decide (k.1 = sta) && bool_decide (k.2 ≠ ap)
                                  && bool_decide (status i = Some SELECTED))
                (entrySet (STAAPList s))).

Definition lookupSenderSTAAP (sta ap : bytes) : JM (option STAAPInfo) :=
  jgets (λ s, STAAPList s !! (sta, ap)).

Fixpoint find_associated (sta : bytes) (es : list ((bytes * bytes) * STAAPInfo))
    : option STAAPInfo :=
  match es with
  | [] => None
  | (k, i) :: es =>
      if bool_decide (k.1 = sta) && bool_decide (status i = Some ASSOCIATED) then Some i
      else find_associated sta es
  end.
Definition findSTAAPInfo (sta : bytes) : JM (option STAAPInfo) :=
  jgets (λ s, find_associated sta (entrySet (STAAPList s))).

(** Assignments through a reference to an object of the map. *)
Definition upd_info (k : bytes * bytes) (f : STAAPInfo → STAAPInfo) : JM unit :=
  jmodify (upd_STAAPList (alter f k)).
Definition upd_ap (sta : bytes) (f : APInfo → APInfo) : JM unit :=
  jmodify (upd_RSSIList (alter f sta)).

(** *** Handlers of the messages of access points *)

Definition handleProbeReq (w : Z) (d : OFWlanData) : JM unit :=
  let staAddress := toHexString (wd_sta d) in
  let apAddress := toHexString (wd_ap d) in
  let k := (staAddress, apAddress) in
  selected ← findSTAAPPair staAddress apAddress;
  if selected : bool then jskip else
  staAPOld ← findSTAAPInfo staAddress;
  match staAPOld with
  | Some _ => jskip
  | None =>
      staAP ← lookupSenderSTAAP staAddress apAddress;
      first ← match staAP with
              | None =>
                  jmodify (upd_STAAPList
                    (<[k := new_STAAPInfo staAddress apAddress None false w]>));;
                  mret true
              | Some i => mret (bool_decide (status i = Some NOT_AUTHENTICATED))
              end;
      if first : bool then
        upd_info k (set_status SELECTED);;
        upd_info k (set_isHomeAP true);;
        let addSTA := new_vendor (OFWlanAddSTA (STAMessage (WlanHeader WLAN_ADD_STA) (wd_sta d))) in
        try_io (write w addSTA) jskip jskip
      else jskip
  end.

Definition handleAuthReq (w : Z) (d : OFWlanAuthentication) : JM unit :=
  let staAddress := toHexString (wd_sta (au_super d)) in
  let apAddress := toHexString (wd_ap (au_super d)) in
  staAP ← lookupSenderSTAAP staAddress apAddress;
  match staAP with
  | None => jskip
  | Some _ =>
      upd_info (staAddress, apAddress) (set_status AUTHENTICATED);;
      upd_info (staAddress, apAddress) (set_auth_alg (au_auth_alg d))
  end.

Definition handleAssocReq (w : Z) (d : OFWlanAssociation) : JM unit :=
  let staAddress := toHexString (wd_sta (ac_super d)) in
  let apAddress := toHexString (wd_ap (ac_super d)) in
  staAP ← lookupSenderSTAAP staAddress apAddress;
  match staAP with
  | None => jskip
  | Some _ =>
      upd_info (staAddress, apAddress) (set_status ASSOCIATED);;
      upd_info (staAddress, apAddress)
        (set_assoc (ac_aid d) (ac_capability d) (ac_listen_interval d)
           (Some (ac_supported_rates d)) (ac_supported_rates_len d))
  end.

(** The three handlers that only change the status. *)
Definition change_status (st : STAStatus) (d : OFWlanData) (rest : JM unit) : JM unit :=
  let staAddress := toHexString (wd_sta d) in
  let apAddress := toHexString (wd_ap d) in
  staAP ← lookupSenderSTAAP staAddress apAddress;
  match staAP with
  | None => jskip
  | Some _ => upd_info (staAddress, apAddress) (set_status st);; rest
  end.

Definition handleReassocReq (w : Z) (d : OFWlanData) : JM unit :=
  change_status ASSOCIATED d jskip.
Definition handleDisassocReq (w : Z) (d : OFWlanData) : JM unit :=
  change_status AUTHENTICATED d (jmodify (upd_RSSIList (delete (toHexString (wd_sta d))))).
Definition handleDeauthReq (w : Z) (d : OFWlanData) : JM unit :=
  change_status NOT_AUTHENTICATED d jskip.

(** A strength reported by an access point the station is not associated with:
    keep the best one, and ask the station's access point for its own. *)
Definition handleLastRSSI (w : Z) (d : OFWlanRSSI) : JM unit :=
  let staAddress := toHexString (rs_sta d) in
  let apAddress := toHexString (rs_ap d) in
  let rssi := rs_rssi d in
  ap ← jgets (λ s, STAAPRSSIList s !! staAddress);
  ap ← match ap with
       | None =>
           let ap := AP apAddress rssi false w in
           jmodify (upd_RSSIList (<[staAddress := ap]>));; mret ap
       | Some ap => mret ap
       end;
  (if ap_rssi ap <? rssi
   then upd_ap staAddress (λ ap, AP apAddress rssi (isSent ap) w) else jskip);;
  if isSent ap then jskip else
  staAP ← findSTAAPInfo staAddress;
  match staAP with
  | None => jskip
  | Some i =>
      let apRSSI := new_vendor (OFWlanLastRSSI
                      (STAMessage (WlanHeader WLAN_LAST_REC_POW) (rs_sta d))) in
      try_io (write (sw i) apRSSI) (upd_ap staAddress (set_isSent true)) jskip
  end.

(** *** The handover *)

(** [toString().substring(1, toString().indexOf(':'))] of a remote address. *)
Fixpoint index_of (c : Z) (s : bytes) : option nat :=
  match s with
  | [] => None
  | x :: s => if x =? c then Some 0%nat else S <$> index_of c s
  end.
Definition remote_ip (w : Z) : exn + bytes :=
  match remoteAddress w with
  | None => inl NullPointerException
  | Some t =>
      match index_of 58 t with
      | Some (S i) => inr (take i (drop 1 t))
      | _ => inl IndexOutOfBoundsException
      end
  end.

(** An entry as a [WLAN_NAT_ADD] message for the source address [ip]. *)
Definition nat_add_msg (sta : bytes) (ip : Z) (e : NATMap) : OFVendor :=
  new_vendor (OFNATAdd (NATMessageExt
    (NATMessage (WlanHeader WLAN_NAT_ADD) sta ip (destinationIP e) (sourcePort e)
       (destinationPort e)) (newPort e))).

(** [staAPNew.x = staAP.x] for the parameters of an association. *)
Definition copy_params (old new : bytes * bytes) : JM unit :=
  i ← jgets (λ s, STAAPList s !! old);
  match i with
  | None => throw NullPointerException
  | Some i =>
      upd_info new (set_auth_alg (auth_alg i));;
      upd_info new (set_assoc (aid i) (capability i) (listen_interval i) (supported_rates i)
                      (supported_rates_len i))
  end.

(** The messages of a handover. *)
Definition send_handover (w : Z) (sta : bytes) (old new : STAAPInfo)
    (entries : option (list NATMap)) : JM unit :=
  (match entries with
   | None => jskip
   | Some es => for_each (λ e, try_io (write (sw new) (nat_add_msg sta (sourceIP e) e)) jskip jskip) es
   end);;
  let removeSTA := new_vendor (OFWlanRemoveSTA (STAMessage (WlanHeader WLAN_REMOVE_STA) sta)) in
  try_io (write w removeSTA)
    (let updateSTAAdd := new_vendor (OFWlanUpdateSTAAdd
        (UpdateSTA (WlanHeader WLAN_UPDATE_STA_ADD) sta (auth_alg old) (aid old) (capability old)
           (listen_interval old) (supported_rates old) (supported_rates_len old) (qosinfo old))) in
     try_io (write (sw new) updateSTAAdd) jskip jskip;;
     g ← jgets gwSwitch;
     match entries, g with
     | Some es, Some g =>
         for_each (λ e,
           t ← of_result (remote_ip (sw new));
           ip ← of_result (toIPv4Address t);
           try_io (write g (nat_add_msg sta ip e)) jskip jskip) es
     | _, _ => jskip
     end)
    jskip.

Definition handover (w : Z) (sta : bytes) (staAddress apAddress : bytes) (ap : APInfo) : JM unit :=
  let old := (staAddress, apAddress) in
  let new := (staAddress, ap_mac ap) in
  staAPNew ← lookupSenderSTAAP staAddress (ap_mac ap);
  (match staAPNew with
   | None => jmodify (upd_STAAPList
               (<[new := new_STAAPInfo staAddress (ap_mac ap) None false (ap_sw ap)]>))
   | Some _ => jskip
   end);;
  copy_params old new;;
  upd_ap staAddress (λ ap, AP apAddress (-128) (isSent ap) w);;
  upd_info old (set_status NOT_AUTHENTICATED);;
  upd_info new (set_status ASSOCIATED);;
  entries ← jgets (λ s, natTable s !! staAddress);
  i_old ← jgets (λ s, STAAPList s !! old);
  i_new ← jgets (λ s, STAAPList s !! new);
  match i_old, i_new with
  | Some i_old, Some i_new => send_handover w sta i_old i_new entries
  | _, _ => throw NullPointerException
  end.

Definition handleAPRSSI (w : Z) (d : OFWlanRSSI) : JM unit :=
  let staAddress := toHexString (rs_sta d) in
  let apAddress := toHexString (rs_ap d) in
  let rssi := rs_rssi d in
  ap ← jgets (λ s, STAAPRSSIList s !! staAddress);
  match ap with
  | None => jskip
  | Some ap =>
      upd_ap staAddress (set_isSent false);;
      staAP ← lookupSenderSTAAP staAddress apAddress;
      match staAP with
      | Some _ => if rssi <? ap_rssi ap then handover w (rs_sta d) staAddress apAddress ap
                  else jskip
      | None => jskip
      end
  end.

(** *** Translation entries *)

Definition add_entry (sta : bytes) (e : NATMap) : JM unit :=
  es ← jgets (λ s, natTable s !! sta);
  jmodify (upd_natTable (<[sta := default [] es ++ [e]]>)).

Definition handleNATUpdate (w : Z) (d : OFNATMessage) : JM unit :=
  add_entry (toHexString (nm_sta d))
    (NAT (nm_sourceIP d) (nm_destinationIP d) (nm_sourcePort d) (nm_destinationPort d)
         (nm_sourcePort d)).

Definition same_connection (m : OFNATMessage) (e : NATMap) : bool :=
  (sourceIP e =? nm_sourceIP m) && (sourcePort e =? nm_sourcePort m)
  && (destinationIP e =? nm_destinationIP m) && (destinationPort e =? nm_destinationPort m).

(** [short newPort]: the port given last for the remote service, or 49151, plus
    one. *)
Definition next_port (last : option Z) : Z :=
  jshort (default (jshort 49151) last + 1).

Definition handlePortTranslation (w : Z) (d : OFNATMessageExt) : JM unit :=
  let m := ne_super d in
  let staAddress := toHexString (nm_sta m) in
  let answer e := try_io (write w (nat_add_msg (nm_sta m) (sourceIP e) e)) jskip jskip in
  entries ← jgets (λ s, natTable s !! staAddress);
  match List.find (same_connection m) (default [] entries) with
  | Some e => answer e
  | None =>
      let service := (nm_destinationIP m, nm_destinationPort m) in
      last ← jgets (λ s, portMap s !! service);
      let port := next_port last in
      jmodify (upd_portMap (<[service := port]>));;
      let map := NAT (nm_sourceIP m) (nm_destinationIP m) (nm_sourcePort m)
                     (nm_destinationPort m) port in
      add_entry staAddress map;;
      answer map
  end.

(** *** Dispatch *)

Inductive Command := STOP | CONTINUE.

(** The cast to [OFWlanHeader], which all classes of the module extend. *)
Definition getSubtype (d : vendor_data) : exn + Z :=
  match d with
  | OFWlanProbe d | OFWlanReassociationRequest d | OFWlanDisassocRequest d
  | OFWlanDeauthRequest d => inr (subtype (wd_super d))
  | OFWlanAuthRequest d => inr (subtype (wd_super (au_super d)))
  | OFWlanAssocRequest d => inr (subtype (wd_super (ac_super d)))
  | OFWlanDataRSSI d | OFWlanAPRSSI d => inr (subtype (rs_super d))
  | OFNATUpdate d => inr (subtype (nm_super d))
  | OFPortTranslation d | OFNATAdd d => inr (subtype (nm_super (ne_super d)))
  | GWConnect d => inr (subtype d)
  | OFWlanAddSTA d | OFWlanLastRSSI d | OFWlanRemoveSTA d => inr (subtype (sm_super d))
  | OFWlanUpdateSTAAdd d => inr (subtype (us_super d))
  | OFRoleRequestVendorData _ | OFRoleReplyVendorData _ | OFByteArrayVendorData _ =>
      inl ClassCastException
  end.

Definition handle (w : Z) (d : vendor_data) : JM unit :=
  st ← of_result (getSubtype d);
  let cast {A} : JM A := throw ClassCastException in
  if st =? WLAN_PROBE then match d with OFWlanProbe d => handleProbeReq w d | _ => cast end
  else if st =? WLAN_AUTH_REQ then
    match d with OFWlanAuthRequest d => handleAuthReq w d | _ => cast end
  else if st =? WLAN_ASSOC_REQ then
    match d with OFWlanAssocRequest d => handleAssocReq w d | _ => cast end
  else if st =? WLAN_REASSOC_REQ then
    match d with OFWlanReassociationRequest d => handleReassocReq w d | _ => cast end
  else if st =? WLAN_DISASSOC_REQ then
    match d with OFWlanDisassocRequest d => handleDisassocReq w d | _ => cast end
  else if st =? WLAN_DEAUTH_REQ then
    match d with OFWlanDeauthRequest d => handleDeauthReq w d | _ => cast end
  else if st =? WLAN_REC_POW then
    match d with OFWlanDataRSSI d => handleLastRSSI w d | _ => cast end
  else if st =? WLAN_AP_REC_POW then
    match d with OFWlanAPRSSI d => handleAPRSSI w d | _ => cast end
  else if st =? WLAN_NAT_UPDATE then
    match d with OFNATUpdate d => handleNATUpdate w d | _ => cast end
  else if st =? WLAN_PORT_TRANSLATION then
    match d with OFPortTranslation d => handlePortTranslation w d | _ => cast end
  else if st =? GW_CONNECT then jmodify (set_gwSwitch (Some w))
  else jskip.

(** [inr] messages are those of other OpenFlow types. *)
Definition receive {O} (w : Z) (msg : OFVendor + O) : JM Command :=
  match msg with
  | inl m => if vendor m =? AP_EXPERIMENTER_ID
             then handle w (vendorData m);; mret STOP else mret CONTINUE
  | inr _ => mret CONTINUE
  end.

End Module.
End Ctl.
