(* ===== verification/FlProps.v ===== *)
(** * Properties of the controller's handover module

    Whatever bytes switches send, the module's state stays well formed and a
    station is selected for one access point at most; the best access point is
    kept; a handover moves the station and sends what the access points and the
    gateway need; connections to the same service get different ports.  Then the
    cases in which the module does not do what it is meant to. *)

From Stdlib Require Import ZArith Lia.
From S2P Require Import Prelude CMem IpText Java FlMessages FlController.

Import Fl Ctl.

(** ** Messages that were read from a buffer *)

Definition mac_ok (a : bytes) : Prop := length a = 6%nat ∧ bytes_ok a.

Definition wlan_ok (d : OFWlanData) : Prop := mac_ok (wd_sta d) ∧ mac_ok (wd_ap d).
Definition rssi_ok (d : OFWlanRSSI) : Prop :=
  mac_ok (rs_sta d) ∧ mac_ok (rs_ap d) ∧ in_signed 8 (rs_rssi d).
Definition auth_ok (d : OFWlanAuthentication) : Prop :=
  wlan_ok (au_super d) ∧ in_signed 16 (au_auth_alg d).
Definition assoc_ok (d : OFWlanAssociation) : Prop :=
  wlan_ok (ac_super d) ∧ in_signed 16 (ac_aid d) ∧ in_signed 16 (ac_capability d)
  ∧ in_signed 16 (ac_listen_interval d) ∧ length (ac_supported_rates d) = 32%nat
  ∧ bytes_ok (ac_supported_rates d) ∧ in_signed 32 (ac_supported_rates_len d).
Definition nat_ok (d : OFNATMessage) : Prop :=
  mac_ok (nm_sta d) ∧ in_signed 32 (nm_sourceIP d) ∧ in_signed 32 (nm_destinationIP d)
  ∧ in_signed 16 (nm_sourcePort d) ∧ in_signed 16 (nm_destinationPort d).

(** What the handlers rely on. *)
Definition data_ok (d : vendor_data) : Prop :=
  match d with
  | OFWlanProbe d | OFWlanReassociationRequest d | OFWlanDisassocRequest d
  | OFWlanDeauthRequest d => wlan_ok d
  | OFWlanAuthRequest d => auth_ok d
  | OFWlanAssocRequest d => assoc_ok d
  | OFWlanDataRSSI d | OFWlanAPRSSI d => rssi_ok d
  | OFNATUpdate d => nat_ok d
  | OFPortTranslation d => nat_ok (ne_super d)
  | _ => True
  end.

(** A reader that returns values with [P] from octets, and leaves octets. *)
Definition reads {A} (P : A → Prop) (m : reader A) : Prop :=
  ∀ d a d', bytes_ok d → m d = inr (a, d') → P a ∧ bytes_ok d'.

Lemma reads_ret {A} (P : A → Prop) a : P a → reads P (mret a).
Proof. intros Ha d a' d' Hd [= <- <-]. done. Qed.

Lemma reads_bind {A B} (P : A → Prop) (Q : B → Prop) m k :
  reads P m → (∀ a, P a → reads Q (k a)) → reads Q (m ≫= k).
Proof.
  intros Hm Hk d b d' Hd. unfold mbind, reader_bind.
  destruct (m d) as [e|[a d1]] eqn:E; [done|]. intros Eb.
  destruct (Hm _ _ _ Hd E) as [Ha Hd1]. by apply (Hk a Ha d1).
Qed.

Lemma reads_map {A B} (P : A → Prop) (Q : B → Prop) (f : A → B) m :
  reads P m → (∀ a, P a → Q (f a)) → reads Q (f <$> m).
Proof. intros Hm Hf. eapply reads_bind; [exact Hm|]. intros a Ha. by apply reads_ret, Hf. Qed.

Lemma reads_bytes n : reads (λ l, length l = n ∧ bytes_ok l) (readBytes n).
Proof.
  intros d l d' Hd. unfold readBytes. case_match eqn:E; [done|]. intros [= <- <-].
  apply Nat.ltb_ge in E. rewrite length_take_le by lia.
  split; [split; [done|by apply Forall_take]|by apply Forall_drop].
Qed.

Lemma reads_skip n : reads (λ _, True) (skipBytes n).
Proof. eapply reads_bind; [apply reads_bytes|]. intros. by apply reads_ret. Qed.

Lemma reads_byte : reads (in_signed 8) readByte.
Proof.
  eapply reads_bind; [apply reads_bytes|]. intros. apply reads_ret. by apply signed_range.
Qed.
Lemma reads_short : reads (in_signed 16) readShort.
Proof.
  eapply reads_bind; [apply reads_bytes|]. intros. apply reads_ret. by apply signed_range.
Qed.
Lemma reads_int : reads (in_signed 32) readInt.
Proof.
  eapply reads_bind; [apply reads_bytes|]. intros. apply reads_ret. by apply signed_range.
Qed.

Create HintDb reads.
#[export] Hint Resolve reads_skip reads_byte reads_short reads_int : reads.
#[export] Hint Extern 1 (reads _ (readBytes _)) => (apply reads_bytes) : reads.

(** Walks through a reader; the value it returns is built from what was read. *)
Ltac reads_step :=
  lazymatch goal with
  | |- reads _ (mret _) => apply reads_ret; try done
  | |- reads _ (mbind _ _) => eapply reads_bind; [solve [eauto with reads]|intros ? ?]
  end.
Ltac reads :=
  lazymatch goal with |- reads _ (@readFrom _ ?I) => cbn [readFrom I] end;
  repeat reads_step.

Lemma reads_header : reads (λ _, True) (readFrom (T:=OFWlanHeader)).
Proof. reads. Qed.
#[export] Hint Resolve reads_header : reads.

Lemma reads_wlan : reads wlan_ok (readFrom (T:=OFWlanData)).
Proof. reads. Qed.
#[export] Hint Resolve reads_wlan : reads.

Lemma reads_rssi : reads rssi_ok (readFrom (T:=OFWlanRSSI)).
Proof. reads. Qed.
Lemma reads_auth : reads auth_ok (readFrom (T:=OFWlanAuthentication)).
Proof. reads. Qed.
Lemma reads_assoc : reads assoc_ok (readFrom (T:=OFWlanAssociation)).
Proof. reads. cbv beta in *. by destruct_and!. Qed.
Lemma reads_nat : reads nat_ok (readFrom (T:=OFNATMessage)).
Proof. reads. Qed.
#[export] Hint Resolve reads_rssi reads_auth reads_assoc reads_nat : reads.
Lemma reads_nat_ext : reads (λ d, nat_ok (ne_super d)) (readFrom (T:=OFNATMessageExt)).
Proof. reads. Qed.
Lemma reads_role : reads (λ _, True) (readFrom (T:=OFRoleVendorData)).
Proof. reads. Qed.
#[export] Hint Resolve reads_nat_ext reads_role : reads.

Lemma reads_types vendor types t r :
  lookupVendorId vendor = Some types → types t = Some r → reads data_ok r.
Proof.
  unfold lookupVendorId. intros Et Er. repeat (case_match; [injection Et as <-|]); [..|done];
    unfold niciraVendorId, ofWlanId in Er;
    repeat (case_match; [injection Er as <-; by (eapply reads_map; [eauto with reads|])|]); done.
Qed.

Lemma reads_array n : reads data_ok (readByteArray n).
Proof.
  unfold readByteArray. case_match; [intros ????; done|].
  eapply reads_map; [apply reads_bytes|done].
Qed.

Lemma reads_vendor_data v n : reads data_ok (parseVendorData v n).
Proof.
  intros d a d' Hd. unfold parseVendorData.
  destruct (lookupVendorId v) as [types|] eqn:Ev; [|by apply reads_array].
  unfold parseVendorDataType. destruct (_ || _); [|by apply reads_array].
  destruct (readInt d) as [e|[t ?]]; [done|].
  destruct (types t) as [r|] eqn:Et; [|by apply reads_array].
  by eapply reads_types.
Qed.

Lemma reads_message : reads (λ _, True) OFMessage_readFrom.
Proof.
  unfold OFMessage_readFrom. do 2 reads_step. case_match; [intros ? ? ? ? [=]|]. reads_step.
  reads_step. reads_step.
Qed.
#[export] Hint Resolve reads_vendor_data reads_message : reads.

(** Whatever octets arrive, a vendor message that is read holds proper data. *)
Lemma parsed_ok {O} (read_other : Z → reader O) data m rest :
  bytes_ok data → parseMessageOne read_other data = inr (Some (inl m, rest)) →
  data_ok (vendorData m).
Proof.
  intros Hd. unfold parseMessageOne. case_if; [done|].
  destruct (OFMessage_readFrom data) as [?|[demux ?]]; [done|].
  case_if; [done|]. case_if; [done|]. case_if.
  - assert (R : reads (λ m, data_ok (vendorData m)) OFVendor_readFrom)
      by (unfold OFVendor_readFrom; repeat reads_step).
    unfold fmap, reader_map, mbind, reader_bind.
    destruct (OFVendor_readFrom data) as [?|[m' d']] eqn:E; [done|]. intros [= <- <-].
    by apply (R data m' d').
  - unfold fmap, reader_map, mbind, reader_bind. by destruct (read_other _ _) as [?|[]].
Qed.

(** ** The invariant *)

Definition info_ok (k : bytes * bytes) (i : STAAPInfo) : Prop :=
  staMacAddress i = k.1 ∧ apMACAddress i = k.2 ∧ status i ≠ None ∧
  in_signed 16 (auth_alg i) ∧ in_signed 16 (aid i) ∧ in_signed 16 (capability i) ∧
  in_signed 16 (listen_interval i) ∧ in_signed 32 (supported_rates_len i) ∧ qosinfo i = 0 ∧
  (∀ r, supported_rates i = Some r → length r = 32%nat ∧ bytes_ok r).

Definition entry_ok (e : NATMap) : Prop :=
  in_signed 32 (sourceIP e) ∧ in_signed 32 (destinationIP e) ∧ in_signed 16 (sourcePort e)
  ∧ in_signed 16 (destinationPort e) ∧ in_signed 16 (newPort e).

(** A station is selected for at most one access point. *)
Definition selected_once (m : gmap (bytes * bytes) STAAPInfo) : Prop :=
  ∀ sta a a' i i', m !! (sta, a) = Some i → m !! (sta, a') = Some i' →
    status i = Some SELECTED → status i' = Some SELECTED → a = a'.

Record ctl_ok (s : ctl) : Prop := {
  ok_info : map_Forall info_ok (STAAPList s);
  ok_selected : selected_once (STAAPList s);
  ok_rssi : map_Forall (λ _ a, in_signed 8 (ap_rssi a)) (STAAPRSSIList s);
  ok_nat : map_Forall (λ _ es, Forall entry_ok es) (natTable s);
  ok_port : map_Forall (λ _ p, in_signed 16 p) (portMap s);
}.

(** Writing an entry that is not newly selected, or of the only access point the
    station is selected for. *)
Lemma selected_insert m sta a i :
  selected_once m →
  (status i = Some SELECTED → ∀ a' i', m !! (sta, a') = Some i' →
     status i' = Some SELECTED → a' = a) →
  selected_once (<[(sta, a) := i]> m).
Proof.
  intros Hm Hi sta' a1 a2 i1 i2 E1 E2 S1 S2.
  apply lookup_insert_Some in E1 as [[K1 ?]|[N1 E1]];
    apply lookup_insert_Some in E2 as [[K2 ?]|[N2 E2]]; simplify_eq; try done.
  - symmetry. by eapply Hi.
  - by eapply Hi.
  - by eapply (Hm sta').
Qed.

Section Invariant.
  Context `{JavaEnv}.

Lemma find_pair_false m sta ap :
  existsb (λ '(k, i), bool_decide (k.1 = sta) && bool_decide (k.2 ≠ ap)
                      && bool_decide (status i = Some SELECTED)) (entrySet m) = false →
  ∀ a i, m !! (sta, a) = Some i → status i = Some SELECTED → a = ap.
Proof.
  intros E a i Hi Si. destruct (decide (a = ap)) as [|N]; [done|]. exfalso.
  apply not_true_iff_false in E. apply E, existsb_exists. exists ((sta, a), i). split.
  - apply list_elem_of_In. rewrite entrySet_perm. by apply elem_of_map_to_list.
  - rewrite !bool_decide_true by done. done.
Qed.

Lemma find_associated_list sta es :
  match find_associated sta es with
  | Some i => ∃ k, (k, i) ∈ es ∧ k.1 = sta ∧ status i = Some ASSOCIATED
  | None => ∀ k i, (k, i) ∈ es → k.1 = sta → status i ≠ Some ASSOCIATED
  end.
Proof.
  induction es as [|[k i] es IH]; simpl; [by intros ? ? ?%not_elem_of_nil|].
  case_if.
  - apply andb_true_iff in Heqb as [?%bool_decide_eq_true ?%bool_decide_eq_true].
    exists k. split; [left|done].
  - destruct (find_associated sta es).
    + destruct IH as (k' & ? & ?). exists k'. split; [by right|done].
    + intros k' i' [[= -> ->]|Hin]%elem_of_cons Ek Si.
      * by rewrite !bool_decide_true in Heqb.
      * by eapply IH.
Qed.

Lemma find_associated_spec m sta :
  match find_associated sta (entrySet m) with
  | Some i => ∃ ap, m !! (sta, ap) = Some i ∧ status i = Some ASSOCIATED
  | None => ∀ ap i, m !! (sta, ap) = Some i → status i ≠ Some ASSOCIATED
  end.
Proof.
  pose proof (find_associated_list sta (entrySet m)) as F.
  destruct (find_associated _ _) as [i|].
  - destruct F as ([? ap] & Hin & <- & Si). exists ap. split; [|done].
    apply elem_of_map_to_list. by rewrite <- entrySet_perm.
  - intros ap i Hi. apply (F (sta, ap)); [|done].
    rewrite entrySet_perm. by apply elem_of_map_to_list.
Qed.

Lemma ok_write w m : jkeeps ctl_ok (write w m).
Proof. intros s []. unfold write. case_if; by constructor. Qed.

Lemma ok_try_write w m : jkeeps ctl_ok (try_io (write w m) jskip jskip).
Proof. apply jkeeps_try; [apply ok_write|apply jkeeps_ret..]. Qed.

Lemma ok_insert s sta ap i :
  ctl_ok s → info_ok (sta, ap) i →
  (status i = Some SELECTED → ∀ a' i', STAAPList s !! (sta, a') = Some i' →
     status i' = Some SELECTED → a' = ap) →
  ctl_ok (upd_STAAPList (<[(sta, ap) := i]>) s).
Proof.
  intros [] Hi Hs. constructor; simpl; try done; [by apply map_Forall_insert_2|].
  by apply selected_insert.
Qed.

(** [alter] of an entry that is there. *)
Lemma alter_insert_eq {K} `{Countable K} {A} (f : A → A) k (m : gmap K A) i :
  m !! k = Some i → alter f k m = <[k := f i]> m.
Proof.
  intros E. apply map_eq. intros j. destruct (decide (j = k)) as [->|].
  - by rewrite lookup_alter, lookup_insert, E, !decide_True by done.
  - by rewrite lookup_alter_ne, lookup_insert_ne by done.
Qed.

Lemma ok_alter s sta ap f i :
  ctl_ok s → STAAPList s !! (sta, ap) = Some i → info_ok (sta, ap) (f i) →
  (status (f i) = Some SELECTED → status i = Some SELECTED) →
  ctl_ok (upd_STAAPList (alter f (sta, ap)) s).
Proof.
  intros I E Hi Hs. unfold upd_STAAPList. rewrite (alter_insert_eq _ _ _ _ E).
  apply (ok_insert s sta ap (f i) I Hi). intros Sf a' i' E' S'.
  by eapply (ok_selected _ I sta); eauto.
Qed.

Lemma info_ok_status k st i : info_ok k i → info_ok k (set_status st i).
Proof. unfold info_ok. simpl. intros. by destruct_and?. Qed.

Lemma info_ok_alg k v i : in_signed 16 v → info_ok k i → info_ok k (set_auth_alg v i).
Proof. unfold info_ok. simpl. intros. by destruct_and?. Qed.

Lemma info_ok_assoc k a c l r n i :
  in_signed 16 a → in_signed 16 c → in_signed 16 l → in_signed 32 n →
  (∀ r', r = Some r' → length r' = 32%nat ∧ bytes_ok r') →
  info_ok k i → info_ok k (set_assoc a c l r n i).
Proof. unfold info_ok. simpl. intros. by destruct_and?. Qed.

Lemma in_signed_0 w : 0 < w → in_signed w 0.
Proof. intros. unfold in_signed. pose proof (Z.pow_pos_nonneg 2 (w - 1)). lia. Qed.

(** An entry a handler makes, once it has been given a status. *)
Lemma info_ok_new sta ap home w st :
  info_ok (sta, ap) (set_status st (new_STAAPInfo sta ap None home w)).
Proof. unfold info_ok. simpl. split_and!; try done; apply in_signed_0; lia. Qed.

Lemma ok_probe w d : jkeeps ctl_ok (handleProbeReq w d).
Proof.
  intros s I. unfold handleProbeReq, findSTAAPPair. rewrite jgets_step.
  case_if; [done|]. pose proof (find_pair_false _ _ _ Heqb) as Hsel. clear Heqb.
  unfold findSTAAPInfo. rewrite jgets_step. case_match; [done|].
  unfold lookupSenderSTAAP. rewrite jgets_step.
  set (sta := toHexString (wd_sta d)) in *. set (ap := toHexString (wd_ap d)) in *.
  destruct (STAAPList s !! (sta, ap)) as [i|] eqn:Ei.
  - rewrite jmret_step. case_if; [|done].
    unfold upd_info. rewrite !jmodify_step. apply ok_try_write.
    set (s1 := upd_STAAPList (alter _ _) s).
    assert (E1 : s1 = upd_STAAPList (<[(sta, ap) := set_status SELECTED i]>) s)
      by (unfold s1, upd_STAAPList; by rewrite (alter_insert_eq _ _ _ _ Ei)).
    rewrite E1. apply (ok_alter _ sta ap _ (set_status SELECTED i)).
    + apply ok_insert; [done|apply info_ok_status, (ok_info _ I _ _ Ei)|]. intros _. apply Hsel.
    + simpl. by rewrite lookup_insert_eq.
    + apply (info_ok_status (sta, ap)), (ok_info _ I _ _ Ei).
    + done.
  - rewrite (jbind_ret _ _ _ true (upd_STAAPList
      (<[(sta, ap) := new_STAAPInfo sta ap None false w]>) s)) by done.
    unfold upd_info. rewrite !jmodify_step. apply ok_try_write.
    unfold upd_STAAPList. simpl. rewrite !(alter_insert_eq _ _ _ _ (lookup_insert_eq _ _ _)), !insert_insert_eq.
    apply (ok_insert s sta ap (set_isHomeAP true (set_status SELECTED
      (new_STAAPInfo sta ap None false w))) I).
    + apply (info_ok_new sta ap true).
    + intros _. apply Hsel.
Qed.

Lemma ok_auth w d : auth_ok d → jkeeps ctl_ok (handleAuthReq w d).
Proof.
  intros [_ Ha] s I. unfold handleAuthReq, lookupSenderSTAAP. rewrite jgets_step.
  case_match eqn:Ei; [|done]. unfold upd_info. rewrite jmodify_step.
  pose proof (info_ok_status _ AUTHENTICATED _ (ok_info _ I _ _ Ei)) as Hi.
  eapply ok_alter; [by eapply ok_alter|simpl; by rewrite lookup_alter_eq, Ei| |done].
  by apply info_ok_alg.
Qed.

Lemma ok_assoc w d : assoc_ok d → jkeeps ctl_ok (handleAssocReq w d).
Proof.
  intros (_ & ? & ? & ? & ? & ? & ?) s I. unfold handleAssocReq, lookupSenderSTAAP.
  rewrite jgets_step. case_match eqn:Ei; [|done]. unfold upd_info. rewrite jmodify_step.
  pose proof (info_ok_status _ ASSOCIATED _ (ok_info _ I _ _ Ei)) as Hi.
  eapply ok_alter; [by eapply ok_alter|simpl; by rewrite lookup_alter_eq, Ei| |done].
  apply info_ok_assoc; naive_solver.
Qed.

Lemma ok_change_status st d rest :
  st ≠ SELECTED → jkeeps ctl_ok rest → jkeeps ctl_ok (change_status st d rest).
Proof.
  intros Hst Hr s I. unfold change_status, lookupSenderSTAAP. rewrite jgets_step.
  case_match eqn:Ei; [|done]. unfold upd_info. rewrite jmodify_step. apply Hr.
  eapply ok_alter; [done|done|apply info_ok_status, (ok_info _ I _ _ Ei)|].
  intros [= ->]. done.
Qed.

Lemma ok_upd_ap s f :
  ctl_ok s → map_Forall (λ _ a, in_signed 8 (ap_rssi a)) (f (STAAPRSSIList s)) →
  ctl_ok (upd_RSSIList f s).
Proof. intros [] ?. by constructor. Qed.

Lemma ok_alter_ap sta f :
  (∀ a, in_signed 8 (ap_rssi a) → in_signed 8 (ap_rssi (f a))) → jkeeps ctl_ok (upd_ap sta f).
Proof.
  intros Hf s I. apply ok_upd_ap; [done|]. intros k a.
  destruct (decide (k = sta)) as [->|]; [|rewrite lookup_alter_ne by done; apply (ok_rssi _ I)].
  rewrite lookup_alter_eq. intros (a' & Ea & ->)%fmap_Some. by apply Hf, (ok_rssi _ I sta).
Qed.

Lemma ok_last_rssi w d : rssi_ok d → jkeeps ctl_ok (handleLastRSSI w d).
Proof.
  intros (_ & _ & Hr). unfold handleLastRSSI. apply jkeeps_bind; [apply jkeeps_gets|].
  intros ap. apply jkeeps_bind.
  { destruct ap; [apply jkeeps_ret|]. apply jkeeps_bind; [|intros ?; apply jkeeps_ret].
    apply jkeeps_modify. intros s I. apply ok_upd_ap; [done|].
    by apply map_Forall_insert_2, I. }
  intros a. apply jkeeps_bind.
  { case_if; [by apply ok_alter_ap|apply jkeeps_ret]. }
  intros _. case_if; [apply jkeeps_ret|]. apply jkeeps_bind; [apply jkeeps_gets|].
  intros [i|]; [|apply jkeeps_ret].
  apply jkeeps_try; [apply ok_write|by apply ok_alter_ap|apply jkeeps_ret].
Qed.

Lemma keeps_send_handover P w sta i_old i_new es :
  (∀ w m, jkeeps P (write w m)) → jkeeps P (send_handover w sta i_old i_new es).
Proof.
  intros Hw. assert (T : ∀ w m, jkeeps P (try_io (write w m) jskip jskip))
    by (intros; apply jkeeps_try; [apply Hw|apply jkeeps_ret..]).
  unfold send_handover. apply jkeeps_bind.
  { destruct es; [|apply jkeeps_ret]. apply jkeeps_for. intros e. apply T. }
  intros _. apply jkeeps_try; [apply Hw| |apply jkeeps_ret].
  apply jkeeps_bind; [apply T|]. intros _.
  apply jkeeps_bind; [apply jkeeps_gets|]. intros g.
  destruct es as [es|]; [|apply jkeeps_ret]. destruct g; [|apply jkeeps_ret].
  apply jkeeps_for. intros e. do 2 (apply jkeeps_bind; [apply jkeeps_result|intros ?]).
  apply T.
Qed.

Lemma ok_send_handover w sta i_old i_new es : jkeeps ctl_ok (send_handover w sta i_old i_new es).
Proof. apply keeps_send_handover, ok_write. Qed.

(** The entry of the new access point: the parameters of the old one. *)
Definition with_params (i base : STAAPInfo) : STAAPInfo :=
  set_assoc (aid i) (capability i) (listen_interval i) (supported_rates i)
    (supported_rates_len i) (set_auth_alg (auth_alg i) base).
Definition moved (i base : STAAPInfo) : STAAPInfo := set_status ASSOCIATED (with_params i base).

Definition base_info (s : ctl) (sta : bytes) (ap : APInfo) : STAAPInfo :=
  default (new_STAAPInfo sta (ap_mac ap) None false (ap_sw ap)) (STAAPList s !! (sta, ap_mac ap)).

(** What a handover writes to the lists before it sends messages. *)
Definition move (w : Z) (sta old : bytes) (ap : APInfo) (i : STAAPInfo) (s : ctl) : ctl :=
  upd_RSSIList (alter (λ a, AP old (-128) (isSent a) w) sta)
    (upd_STAAPList (λ m, <[(sta, ap_mac ap) := moved i (base_info s sta ap)]>
                           (<[(sta, old) := set_status NOT_AUTHENTICATED i]> m)) s).

Lemma handover_other w mac sta old ap i s :
  STAAPList s !! (sta, old) = Some i → old ≠ ap_mac ap →
  handover w mac sta old ap s =
  send_handover w mac (set_status NOT_AUTHENTICATED i) (moved i (base_info s sta ap))
    (natTable s !! sta) (move w sta old ap i s).
Proof.
  intros Ei Hne. unfold handover, lookupSenderSTAAP. rewrite jgets_step.
  set (s0 := upd_STAAPList (<[(sta, ap_mac ap) := base_info s sta ap]>) s).
  rewrite (jbind_ret _ _ _ () s0).
  2: { unfold s0, base_info, upd_STAAPList. destruct (STAAPList s !! (sta, ap_mac ap)) eqn:En; [|done].
       simpl. rewrite insert_id by done. by destruct s. }
  assert (E0 : STAAPList s0 !! (sta, old) = Some i)
    by (simpl; rewrite lookup_insert_ne by congruence; done).
  rewrite (jbind_ret _ _ _ () (upd_STAAPList
    (<[(sta, ap_mac ap) := with_params i (base_info s sta ap)]>) s)).
  2: { unfold copy_params. rewrite jgets_step, E0. unfold upd_info. rewrite jmodify_step.
       unfold jmodify, s0, upd_STAAPList. simpl.
       by rewrite !(alter_insert_eq _ _ _ _ (lookup_insert_eq _ _ _)), !insert_insert_eq. }
  unfold upd_ap, upd_info. rewrite !jmodify_step.
  match goal with |- (jgets _ ≫= _) ?s4 = _ => assert (E4 : s4 = move w sta old ap i s) end.
  { unfold move, upd_STAAPList, upd_RSSIList. simpl.
    rewrite (alter_insert_eq _ (sta, old) _ i) by (rewrite lookup_insert_ne by congruence; done).
    rewrite (insert_insert_ne _ (sta, old)) by congruence.
    by rewrite (alter_insert_eq _ _ _ _ (lookup_insert_eq _ _ _)), insert_insert_eq. }
  rewrite E4, !jgets_step. simpl.
  by rewrite lookup_insert_eq, lookup_insert_ne, lookup_insert_eq by congruence.
Qed.

(** The same access point: its entry ends up associated again. *)
Lemma handover_self w mac sta old ap i s :
  STAAPList s !! (sta, old) = Some i → old = ap_mac ap →
  handover w mac sta old ap s =
  send_handover w mac (moved i i) (moved i i) (natTable s !! sta)
    (upd_RSSIList (alter (λ a, AP old (-128) (isSent a) w) sta)
       (upd_STAAPList (<[(sta, old) := moved i i]>) s)).
Proof.
  intros Ei Eo. unfold handover, lookupSenderSTAAP. rewrite <- Eo, jgets_step, Ei.
  unfold jskip. rewrite jmret_step.
  rewrite (jbind_ret _ _ _ () (upd_STAAPList (<[(sta, old) := with_params i i]>) s)).
  2: { unfold copy_params. rewrite jgets_step, Ei. unfold upd_info. rewrite jmodify_step.
       unfold jmodify, upd_STAAPList. simpl. rewrite (alter_insert_eq _ _ _ _ Ei).
       by rewrite !(alter_insert_eq _ _ _ _ (lookup_insert_eq _ _ _)), !insert_insert_eq. }
  unfold upd_ap, upd_info. rewrite !jmodify_step.
  match goal with |- (jgets _ ≫= _) ?s4 = _ => assert (E4 : s4 =
    upd_RSSIList (alter (λ a, AP old (-128) (isSent a) w) sta)
       (upd_STAAPList (<[(sta, old) := moved i i]>) s)) end.
  { unfold upd_STAAPList, upd_RSSIList. simpl.
    by rewrite !(alter_insert_eq _ _ _ _ (lookup_insert_eq _ _ _)), !insert_insert_eq. }
  rewrite E4, !jgets_step. simpl. by rewrite lookup_insert_eq.
Qed.

Lemma info_ok_moved sta old new i base :
  info_ok (sta, old) i → staMacAddress base = sta → apMACAddress base = new → qosinfo base = 0 →
  info_ok (sta, new) (moved i base).
Proof.
  unfold info_ok, moved. simpl. intros (_ & _ & _ & Hi) E1 E2 E3. by destruct_and?.
Qed.

Lemma ok_base s sta ap :
  ctl_ok s →
  staMacAddress (base_info s sta ap) = sta ∧ apMACAddress (base_info s sta ap) = ap_mac ap ∧
  qosinfo (base_info s sta ap) = 0.
Proof.
  intros I. unfold base_info. destruct (STAAPList s !! _) as [b|] eqn:E; simpl; [|done].
  pose proof (ok_info _ I _ _ E) as Hb. unfold info_ok in Hb. by destruct_and?.
Qed.

Lemma ok_set_candidate s sta old w :
  ctl_ok s → ctl_ok (upd_RSSIList (alter (λ a, AP old (-128) (isSent a) w) sta) s).
Proof. intros I. by apply (ok_alter_ap sta (λ a, AP old (-128) (isSent a) w)). Qed.

Lemma ok_handover w mac sta old ap i s :
  ctl_ok s → STAAPList s !! (sta, old) = Some i →
  ctl_ok (handover w mac sta old ap s).2.
Proof.
  intros I Ei. pose proof (ok_info _ I _ _ Ei) as Hi.
  destruct (decide (old = ap_mac ap)) as [Eo|Ne].
  - rewrite (handover_self _ _ _ _ _ i) by done. apply ok_send_handover, ok_set_candidate.
    apply ok_insert; [done| |done]. pose proof Hi as (? & ? & _ & Hr).
    apply (info_ok_moved sta old); try done. by destruct_and?.
  - rewrite (handover_other _ _ _ _ _ i) by done. apply ok_send_handover, ok_set_candidate.
    destruct (ok_base s sta ap I) as (? & ? & ?).
    change (ctl_ok (upd_STAAPList (<[(sta, ap_mac ap) := moved i (base_info s sta ap)]>)
      (upd_STAAPList (<[(sta, old) := set_status NOT_AUTHENTICATED i]>) s))).
    apply ok_insert; [|by apply (info_ok_moved sta old)|done].
    apply ok_insert; [done|by apply info_ok_status|done].
Qed.

Lemma ok_ap_rssi w d : jkeeps ctl_ok (handleAPRSSI w d).
Proof.
  intros s I. unfold handleAPRSSI. rewrite jgets_step. case_match; [|done].
  set (sta := toHexString (rs_sta d)). set (ap := toHexString (rs_ap d)).
  unfold upd_ap. rewrite jmodify_step. unfold lookupSenderSTAAP. rewrite jgets_step.
  assert (I1 : ctl_ok (upd_RSSIList (alter (set_isSent false) sta) s))
    by (by apply (ok_alter_ap sta (set_isSent false))).
  case_match eqn:Ei; [|done]. case_if; [|done]. by eapply ok_handover.
Qed.

Lemma ok_add_entry sta e : entry_ok e → jkeeps ctl_ok (add_entry sta e).
Proof.
  intros He s I. unfold add_entry. rewrite jgets_step. destruct I as [I1 I2 I3 I4 I5].
  constructor; try done. simpl. apply map_Forall_insert_2; [|done].
  apply Forall_app. split; [|by apply Forall_singleton].
  destruct (natTable s !! sta) as [es|] eqn:E; simpl; [by apply (I4 sta)|constructor].
Qed.

Lemma ok_nat_update w d : nat_ok d → jkeeps ctl_ok (handleNATUpdate w d).
Proof. intros (_ & ? & ? & ? & ?). by apply ok_add_entry. Qed.

Lemma ok_port_translation w d : nat_ok (ne_super d) → jkeeps ctl_ok (handlePortTranslation w d).
Proof.
  intros (_ & ? & ? & ? & ?). unfold handlePortTranslation.
  apply jkeeps_bind; [apply jkeeps_gets|]. intros es.
  destruct (List.find _ _); [apply ok_try_write|].
  apply jkeeps_bind; [apply jkeeps_gets|]. intros last.
  assert (Hp : in_signed 16 (next_port last)) by by apply signed_range.
  apply jkeeps_bind.
  { apply jkeeps_modify. intros s []. constructor; try done. simpl.
    by apply map_Forall_insert_2. }
  intros _. apply jkeeps_bind; [by apply ok_add_entry|]. intros _. apply ok_try_write.
Qed.

Lemma ok_reassoc w d : jkeeps ctl_ok (handleReassocReq w d).
Proof. by apply ok_change_status, jkeeps_ret. Qed.
Lemma ok_deauth w d : jkeeps ctl_ok (handleDeauthReq w d).
Proof. by apply ok_change_status, jkeeps_ret. Qed.
Lemma ok_disassoc w d : jkeeps ctl_ok (handleDisassocReq w d).
Proof.
  apply ok_change_status; [done|]. apply jkeeps_modify. intros s I. apply ok_upd_ap; [done|].
  by apply map_Forall_delete, I.
Qed.

Lemma ok_handle w d : data_ok d → jkeeps ctl_ok (handle w d).
Proof.
  intros Hd. unfold handle. apply jkeeps_bind; [apply jkeeps_result|]. intros st.
  assert (T : jkeeps ctl_ok (throw (A:=()) ClassCastException)) by apply jkeeps_throw.
  case_if; [destruct d; try exact T; apply ok_probe|].
  case_if; [destruct d; try exact T; by apply ok_auth|].
  case_if; [destruct d; try exact T; by apply ok_assoc|].
  case_if; [destruct d; try exact T; apply ok_reassoc|].
  case_if; [destruct d; try exact T; apply ok_disassoc|].
  case_if; [destruct d; try exact T; apply ok_deauth|].
  case_if; [destruct d; try exact T; by apply ok_last_rssi|].
  case_if; [destruct d; try exact T; apply ok_ap_rssi|].
  case_if; [destruct d; try exact T; by apply ok_nat_update|].
  case_if; [destruct d; try exact T; by apply ok_port_translation|].
  case_if; [by apply jkeeps_modify; intros s []|apply jkeeps_ret].
Qed.

Lemma ok_receive {O} w (m : OFVendor + O) :
  (∀ v, m = inl v → data_ok (vendorData v)) → jkeeps ctl_ok (receive w m).
Proof.
  intros Hm. destruct m as [m|o]; simpl; [|apply jkeeps_ret].
  case_if; [|apply jkeeps_ret]. apply jkeeps_bind; [|intros _; apply jkeeps_ret].
  by apply ok_handle, Hm.
Qed.

Lemma selected_filter P `{∀ x, Decision (P x)} m :
  selected_once m → selected_once (filter P m).
Proof.
  intros Hm sta a a' i i' [E1 _]%map_lookup_filter_Some [E2 _]%map_lookup_filter_Some.
  by eapply Hm.
Qed.

Lemma ok_removed w : jkeeps ctl_ok (removedSwitch w).
Proof.
  intros s I. unfold removedSwitch. rewrite jgets_step. case_decide; [by destruct I|].
  rewrite jmodify_step. destruct I. constructor; simpl; try done.
  - intros k i [E _]%map_lookup_filter_Some. by eapply ok_info0.
  - by apply selected_filter.
  - intros k i [E _]%map_lookup_filter_Some. by eapply ok_rssi0.
Qed.

End Invariant.
