(* ===== verification/FlHandover.v ===== *)
(** * Properties of the controller's handover module

    What holds in every state the module reaches; which access point becomes a
    station's candidate; what a handover changes and sends; and the runs in which
    the code's behaviour is not the intended one. *)

From Stdlib Require Import ZArith Lia.
From S2P Require Import Prelude CMem IpText Java FlMessages FlController FlProps.
Import Fl Ctl.

(** ** Runs *)

(** The module receives a message that the framing read from a connection, or is
    told that a switch has gone. *)
Inductive step `{JavaEnv} {O} (read_other : Z → reader O) : ctl → ctl → Prop :=
| step_receive data m rest w s :
    bytes_ok data → parseMessageOne read_other data = inr (Some (m, rest)) →
    step read_other s (receive w m s).2
| step_removed w s : step read_other s (removedSwitch w s).2.

Definition reachable `{JavaEnv} {O} (read_other : Z → reader O) : ctl → Prop :=
  rtc (step read_other) init.

(** A runtime whose writes succeed and whose switch [w] has the address
    10.0.0.[w] for a digit [w]; the order of the iteration is that of [map_to_list]. *)
Definition calm_env : JavaEnv := {|
  write_fails _ := false;
  remoteAddress w := Some [47; 49; 48; 46; 48; 46; 48; 46; 48 + w; 58; 54; 54; 51; 51];
  entrySet := map_to_list;
  entrySet_perm m := Permutation_refl (map_to_list m);
|}.

(** ** The candidate *)

Section Candidate.
  Context `{JavaEnv}.

(** The reports of a list, one after the other. *)
Definition reports (rs : list (Z * OFWlanRSSI)) (s : ctl) : ctl :=
  foldl (λ s '(w, d), (handleLastRSSI w d s).2) s rs.

(** The reports about one station, and the best of some reports. *)
Definition about (sta : bytes) : list (Z * OFWlanRSSI) → list (Z * OFWlanRSSI) :=
  filter (λ r, toHexString (rs_sta r.2) = sta).
Definition best_of (rs : list (Z * OFWlanRSSI)) (a : APInfo) : Prop :=
  (∃ w d, (w, d) ∈ rs ∧ ap_mac a = toHexString (rs_ap d) ∧ ap_rssi a = rs_rssi d ∧ ap_sw a = w)
  ∧ ∀ w d, (w, d) ∈ rs → rs_rssi d ≤ ap_rssi a.

(** What a report does to the lists: only the candidate of its station changes,
    and only to a stronger one. *)
Definition stronger (a : option APInfo) (w : Z) (d : OFWlanRSSI) : APInfo :=
  let new := AP (toHexString (rs_ap d)) (rs_rssi d) (default false (isSent <$> a)) w in
  match a with
  | None => new
  | Some a => if ap_rssi a <? rs_rssi d then new else a
  end.

Lemma last_rssi_spec w d s :
  let sta := toHexString (rs_sta d) in
  let s' := (handleLastRSSI w d s).2 in
  STAAPList s' = STAAPList s ∧ natTable s' = natTable s ∧
  ∃ b, STAAPRSSIList s' =
    <[sta := set_isSent b (stronger (STAAPRSSIList s !! sta) w d)]> (STAAPRSSIList s).
Proof.
  intros sta s'. subst s'. unfold handleLastRSSI. rewrite jgets_step. fold sta.
  set (a := stronger (STAAPRSSIList s !! sta) w d).
  set (s1 := upd_RSSIList (<[sta := a]>) s).
  assert (R : ∀ o, let s' := (match o with
      | Some i => try_io (write (sw i) (new_vendor (OFWlanLastRSSI
                    (STAMessage (WlanHeader WLAN_LAST_REC_POW) (rs_sta d)))))
                    (upd_ap sta (set_isSent true)) jskip
      | None => jskip end s1).2 in
    STAAPList s' = STAAPList s ∧ natTable s' = natTable s ∧
    ∃ b, STAAPRSSIList s' = <[sta := set_isSent b a]> (STAAPRSSIList s)).
  { assert (Ha : ∃ b, <[sta := a]> (STAAPRSSIList s) = <[sta := set_isSent b a]> (STAAPRSSIList s))
      by (exists (isSent a); by destruct a).
    intros [i|]; [|by split_and!]. unfold try_io, write.
    destruct (write_fails _); [by split_and!|]. split_and!; [done..|]. exists true. simpl.
    by rewrite (alter_insert_eq _ _ _ _ (lookup_insert_eq _ _ _)), insert_insert_eq. }
  assert (E : (isSent a = default false (isSent <$> STAAPRSSIList s !! sta))).
  { unfold a, stronger. destruct (STAAPRSSIList s !! sta) as [a0|]; [|done]. by case_match. }
  destruct (STAAPRSSIList s !! sta) as [a0|] eqn:Ea.
  - rewrite jmret_step. rewrite (jbind_ret _ _ _ () s1).
    2: { unfold s1, a, stronger, upd_ap, jmodify, upd_RSSIList, jskip.
         case_match; [by rewrite (alter_insert_eq _ _ _ _ Ea)|]. rewrite insert_id by done. by destruct s. }
    simpl in E. rewrite <- E. destruct (isSent a) eqn:Es.
    + split_and!; [done..|]. exists true. rewrite <- Es. by destruct a.
    + apply R.
  - rewrite (jbind_ret _ _ _ a s1) by done. rewrite (jbind_ret _ _ _ () s1).
    2: { replace (ap_rssi a <? rs_rssi d) with false by (symmetry; apply Z.ltb_irrefl). done. }
    rewrite E. apply R.
Qed.

Lemma best_of_one w d b :
  best_of [(w, d)] (set_isSent b (stronger None w d)).
Proof.
  split; simpl; [exists w, d; by rewrite list_elem_of_singleton|].
  intros ? ? [= -> ->]%list_elem_of_singleton. lia.
Qed.

Lemma best_of_snoc rs a w d b :
  best_of rs a → best_of (rs ++ [(w, d)]) (set_isSent b (stronger (Some a) w d)).
Proof.
  intros [(w0 & d0 & He & E1 & E2 & E3) Hmax]. unfold stronger. simpl.
  destruct (Z.ltb_spec (ap_rssi a) (rs_rssi d)); (split; simpl; [|]).
  - exists w, d. rewrite elem_of_app, list_elem_of_singleton. naive_solver.
  - intros w' d'. rewrite elem_of_app, list_elem_of_singleton.
    intros [He'|[= -> ->]]; [pose proof (Hmax _ _ He')|]; lia.
  - exists w0, d0. rewrite elem_of_app. naive_solver.
  - intros w' d'. rewrite elem_of_app, list_elem_of_singleton.
    intros [He'|[= -> ->]]; [by eapply Hmax|lia].
Qed.

(** After any reports the candidate is the best of those about the station. *)
Lemma reports_best rs s sta :
  STAAPRSSIList s !! sta = None →
  STAAPList (reports rs s) = STAAPList s ∧ natTable (reports rs s) = natTable s ∧
  match STAAPRSSIList (reports rs s) !! sta with
  | None => about sta rs = []
  | Some a => best_of (about sta rs) a
  end.
Proof.
  intros Hs. induction rs as [|[w d] rs IH] using rev_ind; [simpl; by rewrite Hs|].
  destruct IH as (E1 & E2 & IH). unfold reports. rewrite foldl_app. fold (reports rs s). simpl.
  destruct (last_rssi_spec w d (reports rs s)) as (L1 & L2 & b & L3).
  split_and!; [congruence..|]. rewrite L3. unfold about. rewrite filter_app. fold (about sta rs).
  destruct (decide (toHexString (rs_sta d) = sta)) as [<-|Ne].
  - rewrite lookup_insert_eq, filter_cons_True, filter_nil by done.
    destruct (STAAPRSSIList (reports rs s) !! _); [by apply best_of_snoc|].
    rewrite IH. apply best_of_one.
  - rewrite lookup_insert_ne, filter_cons_False, filter_nil, app_nil_r by done. exact IH.
Qed.

End Candidate.

(** ** The messages of a handover *)

Section Messages.
  Context `{JavaEnv}.

(** Of the messages written from the [n]th write on, those that are delivered. *)
Fixpoint deliver (n : nat) (ms : list (Z * OFVendor)) : list (Z * OFVendor) :=
  match ms with
  | [] => []
  | m :: ms => (if write_fails n then [] else [m]) ++ deliver (S n) ms
  end.

Definition after_writes (ms : list (Z * OFVendor)) (s : ctl) : ctl :=
  State (STAAPList s) (STAAPRSSIList s) (natTable s) (gwSwitch s) (portMap s)
    (writes s + length ms) (reverse (deliver (writes s) ms) ++ written s).

Lemma after_writes_nil s : after_writes [] s = s.
Proof. unfold after_writes. simpl. rewrite Nat.add_0_r. by destruct s. Qed.

Lemma after_writes_cons m ms s : after_writes (m :: ms) s = after_writes ms (after_writes [m] s).
Proof.
  unfold after_writes. simpl. rewrite app_nil_r, reverse_app, <- app_assoc, Nat.add_1_r.
  f_equal. lia.
Qed.

Lemma after_writes_app ms ms' s : after_writes (ms ++ ms') s = after_writes ms' (after_writes ms s).
Proof.
  revert s. induction ms as [|m ms IH]; intros s; simpl; [by rewrite after_writes_nil|].
  by rewrite after_writes_cons, IH, <- after_writes_cons.
Qed.

(** Without failures every message is delivered. *)
Lemma in_written x ms s :
  (∀ n, write_fails n = false) → x ∈ ms → x ∈ written (after_writes ms s).
Proof.
  intros Hw Hx. simpl. apply elem_of_app. left. apply elem_of_reverse.
  generalize (writes s). induction Hx as [|y y' ms Hx IH]; intros n; simpl; rewrite Hw; simpl.
  - by left.
  - right. apply IH.
Qed.

(** A write whose failure is only logged. *)
Lemma try_write w m (ok ko : J ctl unit) s :
  try_io (write w m) ok ko s =
  (if write_fails (writes s) then ko else ok) (after_writes [(w, m)] s).
Proof.
  unfold try_io, write, after_writes. simpl. rewrite Nat.add_1_r. by destruct (write_fails (writes s)).
Qed.

Lemma try_write_skip w m s :
  try_io (write w m) jskip jskip s = (inr (), after_writes [(w, m)] s).
Proof. rewrite try_write. by case_match. Qed.

Lemma write_each {T} (w : Z) (f : T → OFVendor) es s :
  for_each (λ e, try_io (write w (f e)) jskip jskip) es s =
  (inr (), after_writes ((λ e, (w, f e)) <$> es) s).
Proof.
  revert s. induction es as [|e es IH]; intros s; simpl; [by rewrite after_writes_nil|].
  rewrite (jbind_ret _ _ _ _ _ (try_write_skip _ _ _)), IH. by rewrite <- after_writes_cons.
Qed.

(** What a handover of a station from the access point of [old] to that of [new]
    sends: the station's entries to the new access point; the order to forget the
    station to the old one; the station with its parameters to the new one; the
    entries, with the address of the new access point, to the gateway. *)
Definition nat_adds (sta : bytes) (w : Z) (es : list NATMap) : list (Z * OFVendor) :=
  (λ e, (w, nat_add_msg sta (sourceIP e) e)) <$> es.
Definition remove_sta (sta : bytes) : OFVendor :=
  new_vendor (OFWlanRemoveSTA (STAMessage (WlanHeader WLAN_REMOVE_STA) sta)).
Definition update_sta_add (sta : bytes) (i : STAAPInfo) : OFVendor :=
  new_vendor (OFWlanUpdateSTAAdd
    (UpdateSTA (WlanHeader WLAN_UPDATE_STA_ADD) sta (auth_alg i) (aid i) (capability i)
       (listen_interval i) (supported_rates i) (supported_rates_len i) (qosinfo i))).
Definition gateway_adds (sta : bytes) (g : option Z) (ip : Z) (es : list NATMap)
    : list (Z * OFVendor) :=
  match g with
  | Some g => (λ e, (g, nat_add_msg sta ip e)) <$> es
  | None => []
  end.

Lemma gateway_each g t ip w sta es s :
  remote_ip w = inr t → toIPv4Address t = inr ip →
  for_each (λ e,
    t ← of_result (remote_ip w);
    ip ← of_result (toIPv4Address t);
    try_io (write g (nat_add_msg sta ip e)) jskip jskip) es s =
  (inr (), after_writes ((λ e, (g, nat_add_msg sta ip e)) <$> es) s).
Proof.
  intros Et Ei. rewrite Et. rewrite <- write_each. revert s.
  induction es as [|e es IH]; intros s; simpl; [done|].
  rewrite (jbind_ret _ _ _ () (after_writes [(g, nat_add_msg sta ip e)] s)).
  2: { rewrite (jbind_ret (of_result (inr t)) _ _ t s) by done. rewrite Ei.
       rewrite (jbind_ret (of_result (inr ip)) _ _ ip s) by done. apply try_write_skip. }
  rewrite IH. by rewrite (jbind_ret _ _ _ _ _ (try_write_skip _ _ _)).
Qed.

Lemma send_handover_spec w sta old new es t ip s :
  remote_ip (sw new) = inr t → toIPv4Address t = inr ip →
  let first := nat_adds sta (sw new) (default [] es) ++ [(w, remove_sta sta)] in
  let second := (sw new, update_sta_add sta old) :: gateway_adds sta (gwSwitch s) ip (default [] es) in
  send_handover w sta old new es s =
  (inr (), after_writes (if write_fails (writes s + length (default [] es)) then first
                         else first ++ second) s).
Proof.
  intros Et Ei first second. unfold send_handover.
  rewrite (jbind_ret _ _ _ () (after_writes (nat_adds sta (sw new) (default [] es)) s)).
  2: { destruct es as [es|]; [apply write_each|by rewrite after_writes_nil]. }
  set (s1 := after_writes _ s). rewrite try_write.
  assert (En : writes s1 = (writes s + length (default [] es))%nat)
    by (simpl; unfold nat_adds; by rewrite length_fmap).
  rewrite En. fold (remove_sta sta). unfold first. destruct (write_fails _).
  { unfold jskip, mret, J_ret. by rewrite after_writes_app. }
  unfold second. rewrite after_writes_app, (after_writes_cons (sw new, _)), after_writes_app. fold s1.
  set (s2 := after_writes _ s1). fold (update_sta_add sta old).
  rewrite (jbind_ret _ _ _ _ _ (try_write_skip _ _ _)), jgets_step.
  set (s3 := after_writes _ s2).
  replace (gwSwitch s3) with (gwSwitch s) by done. unfold gateway_adds.
  destruct es as [es|].
  2: { destruct (gwSwitch s); exact (f_equal (pair _) (eq_sym (after_writes_nil s3))). }
  destruct (gwSwitch s) as [g|]; [by erewrite gateway_each|by rewrite after_writes_nil].
Qed.

End Messages.

(** ** The decision *)

Section Decision.
  Context `{JavaEnv}.

Definition associated (s : ctl) (sta ap : bytes) : Prop :=
  ∃ i, STAAPList s !! (sta, ap) = Some i ∧ status i = Some ASSOCIATED.

(** The lists after a handover of [sta] from [old] to the access point [ap]. *)
Definition moved_list (s : ctl) (sta old : bytes) (ap : APInfo) (i : STAAPInfo)
    : gmap (bytes * bytes) STAAPInfo :=
  <[(sta, ap_mac ap) := moved i (base_info s sta ap)]>
    (<[(sta, old) := set_status NOT_AUTHENTICATED i]> (STAAPList s)).

Lemma moved_associated (s s' : ctl) sta old ap i :
  STAAPList s' = moved_list s sta old ap i → old ≠ ap_mac ap →
  (∀ a, associated s sta a → a = old) → ∀ a, associated s' sta a ↔ a = ap_mac ap.
Proof.
  intros E Hne Ho a. unfold associated. rewrite E. unfold moved_list.
  destruct (decide (a = ap_mac ap)) as [->|Ha].
  { split; [done|]. intros _. eexists. by rewrite lookup_insert_eq. }
  rewrite lookup_insert_ne by congruence. split; [|done].
  destruct (decide (a = old)) as [->|Ha'].
  - rewrite lookup_insert_eq. by intros (? & [= <-] & [=]).
  - rewrite lookup_insert_ne by congruence. intros Hi. by destruct (Ha' (Ho a Hi)).
Qed.

Lemma ap_rssi_handover w d s ap i :
  let sta := toHexString (rs_sta d) in
  let old := toHexString (rs_ap d) in
  STAAPRSSIList s !! sta = Some ap → STAAPList s !! (sta, old) = Some i →
  rs_rssi d < ap_rssi ap → old ≠ ap_mac ap →
  handleAPRSSI w d s =
  send_handover w (rs_sta d) (set_status NOT_AUTHENTICATED i) (moved i (base_info s sta ap))
    (natTable s !! sta)
    (State (moved_list s sta old ap i) (<[sta := AP old (-128) false w]> (STAAPRSSIList s))
       (natTable s) (gwSwitch s) (portMap s) (writes s) (written s)).
Proof.
  intros sta old Ea Ei Hr Hne. unfold handleAPRSSI. rewrite jgets_step. fold sta old. rewrite Ea.
  unfold upd_ap, lookupSenderSTAAP. rewrite jmodify_step, jgets_step.
  change (STAAPList (upd_RSSIList _ s)) with (STAAPList s). rewrite Ei.
  replace (rs_rssi d <? ap_rssi ap) with true by (symmetry; by apply Z.ltb_lt).
  rewrite (handover_other w _ sta old ap i) by done. unfold move, upd_STAAPList, upd_RSSIList. simpl.
  rewrite (alter_insert_eq _ _ _ _ Ea), (alter_insert_eq _ _ _ _ (lookup_insert_eq _ _ _)).
  by rewrite insert_insert_eq.
Qed.

Lemma ap_rssi_stays w d s ap :
  STAAPRSSIList s !! toHexString (rs_sta d) = Some ap → ap_rssi ap ≤ rs_rssi d →
  handleAPRSSI w d s =
  (inr (), upd_RSSIList (alter (set_isSent false) (toHexString (rs_sta d))) s).
Proof.
  intros Ea Hr. unfold handleAPRSSI. rewrite jgets_step, Ea.
  unfold upd_ap, lookupSenderSTAAP. rewrite jmodify_step, jgets_step.
  replace (rs_rssi d <? ap_rssi ap) with false by (symmetry; by apply Z.ltb_ge).
  by case_match.
Qed.

Lemma send_handover_lists w sta old new es s :
  STAAPList (send_handover w sta old new es s).2 = STAAPList s.
Proof.
  apply (keeps_send_handover (λ s', STAAPList s' = STAAPList s)); [|done].
  intros w' m s' E. unfold write. by case_match.
Qed.

End Decision.

(** ** Properties *)

(** C13. In every state the controller reaches, from whatever octets the switches
    send and in whatever order switches leave: entries are stored under the
    addresses they name and have a status, parameters have their Java widths,
    rates are 32 octets, and no station is selected for two access points. *)
Theorem controller_invariant `{JavaEnv} {O} (read_other : Z → reader O) s :
  reachable read_other s → ctl_ok s.
Proof.
  intros R. apply (rtc_ind_r (R:=step read_other) ctl_ok init); [by constructor| |exact R].
  intros s1 s2 _ [data m rest w s0 Hd Hm|w s0] I.
  - apply ok_receive; [|done]. intros v ->. by eapply parsed_ok.
  - by apply ok_removed.
Qed.

(** C5. A stronger candidate than the access point that answers takes the station
    over: the station's parameters are copied to its entry, which becomes the
    associated one, the old entry is no longer authenticated, and the old access
    point is the new candidate.  For any pattern of failing writes the messages
    sent are those of [deliver], in this order: the translation entries to the new
    access point, REMOVE_STA to the old one, then, unless that write failed,
    UPDATE_STA_ADD to the new one and the entries with the new address to the
    gateway.  A station associated with the old access point only is then
    associated with the new one only. *)
Theorem handover_moves_and_sends `{JavaEnv} w d s ap i t ip :
  let sta := toHexString (rs_sta d) in
  let old := toHexString (rs_ap d) in
  let new := sw (base_info s sta ap) in
  let es := default [] (natTable s !! sta) in
  let first := nat_adds (rs_sta d) new es ++ [(w, remove_sta (rs_sta d))] in
  let second := (new, update_sta_add (rs_sta d) i) :: gateway_adds (rs_sta d) (gwSwitch s) ip es in
  STAAPRSSIList s !! sta = Some ap → STAAPList s !! (sta, old) = Some i →
  rs_rssi d < ap_rssi ap → old ≠ ap_mac ap →
  remote_ip new = inr t → toIPv4Address t = inr ip →
  ∃ s', handleAPRSSI w d s = (inr (), s') ∧
    STAAPList s' = moved_list s sta old ap i ∧
    STAAPRSSIList s' = <[sta := AP old (-128) false w]> (STAAPRSSIList s) ∧
    natTable s' = natTable s ∧ gwSwitch s' = gwSwitch s ∧ portMap s' = portMap s ∧
    written s' = reverse (deliver (writes s)
      (if write_fails (writes s + length es) then first else first ++ second)) ++ written s ∧
    ((∀ a, associated s sta a → a = old) → ∀ a, associated s' sta a ↔ a = ap_mac ap).
Proof.
  intros sta old new es first second Ea Ei Hr Hne Et Eip.
  rewrite (ap_rssi_handover w d s ap i) by done. fold sta old.
  rewrite (send_handover_spec _ _ _ _ _ t ip) by done. eexists. split; [done|].
  split_and!; try done. intros Ho. by eapply moved_associated.
Qed.

Definition sta1 : bytes := [2; 0; 0; 0; 0; 1].
Definition ap1 : bytes := [2; 0; 0; 0; 1; 1].
Definition ap2 : bytes := [2; 0; 0; 0; 1; 2].

Definition play `{JavaEnv} (ms : list (Z * vendor_data)) (s : ctl) : ctl :=
  foldl (λ s '(w, d), (receive (O:=()) w (inl (new_vendor d)) s).2) s ms.

Definition probe (ap : bytes) := OFWlanProbe (WlanData (WlanHeader WLAN_PROBE) sta1 ap).
Definition auth (ap : bytes) :=
  OFWlanAuthRequest (Authentication (WlanData (WlanHeader WLAN_AUTH_REQ) sta1 ap) 0).
Definition assoc (ap : bytes) :=
  OFWlanAssocRequest (Association (WlanData (WlanHeader WLAN_ASSOC_REQ) sta1 ap)
    1 1073 10 (replicate 32 12) 8 0).
Definition rssi (st : Z) (ap : bytes) (r : Z) := WlanRSSI (WlanHeader st) sta1 ap r.

(** A station at the first access point, a connection through it and the gateway,
    and the second access point as the candidate. *)
Definition before_handover : ctl := @play calm_env
  [(9, GWConnect (WlanHeader GW_CONNECT)); (1, probe ap1); (1, auth ap1); (1, assoc ap1);
   (1, OFPortTranslation (NATMessageExt (NATMessage (WlanHeader WLAN_PORT_TRANSLATION) sta1
         10 20 30 40) 0));
   (2, OFWlanDataRSSI (rssi WLAN_REC_POW ap2 (-50)))] init.

Definition octets (d : vendor_data) : bytes :=
  match encode (new_vendor d) with inr b => b | inl _ => [] end.

(** The framing with no other messages. *)
Definition no_other (t : Z) : reader () := λ d, inr ((), d).

Lemma controller_invariant_witness :
  ctl_ok (@play calm_env [(1, probe ap1)] init).
Proof.
  apply (@controller_invariant calm_env () no_other). apply rtc_once.
  apply (step_receive no_other (octets (probe ap1)) (inl (new_vendor (probe ap1))) [] 1).
  - apply (bool_decide_unpack _). vm_compute. exact I.
  - vm_compute. reflexivity.
Defined.

Lemma handover_moves_and_sends_witness :
  written (@handleAPRSSI calm_env 1 (rssi WLAN_AP_REC_POW ap1 (-70)) before_handover).2 =
  [ (9, nat_add_msg sta1 167772162 (NAT 10 20 30 40 (-16384)));
    (2, new_vendor (OFWlanUpdateSTAAdd (UpdateSTA (WlanHeader WLAN_UPDATE_STA_ADD) sta1
          0 1 1073 10 (Some (replicate 32 12)) 8 0)));
    (1, remove_sta sta1); (2, nat_add_msg sta1 10 (NAT 10 20 30 40 (-16384))) ]
  ++ written before_handover.
Proof.
  destruct (@handover_moves_and_sends calm_env 1 (rssi WLAN_AP_REC_POW ap1 (-70)) before_handover
    (AP (toHexString ap2) (-50) true 2)
    (Info (toHexString sta1) (toHexString ap1) (Some ASSOCIATED) true 1 0 1 1073 10
       (Some (replicate 32 12)) 8 0)
    [49; 48; 46; 48; 46; 48; 46; 50] 167772162) as (s' & E & _ & _ & _ & _ & _ & Ew & _).
  - vm_compute. reflexivity.
  - vm_compute. reflexivity.
  - simpl. lia.
  - discriminate.
  - vm_compute. reflexivity.
  - vm_compute. reflexivity.
  - refine (eq_trans (f_equal (λ r, written r.2) E) (eq_trans Ew _)). vm_compute. reflexivity.
Defined.

(** C9. Whatever reports come in, in whatever order and about whatever stations:
    when the station's access point answers with its own strength, the station is
    moved exactly when some other report about it was stronger, and the access
    point it is moved to had reported the greatest strength of all. *)
Theorem handover_to_best `{JavaEnv} rs w d s i :
  let sta := toHexString (rs_sta d) in
  let old := toHexString (rs_ap d) in
  let s' := (handleAPRSSI w d (reports rs s)).2 in
  STAAPRSSIList s !! sta = None → STAAPList s !! (sta, old) = Some i →
  (∀ w' d', (w', d') ∈ about sta rs → toHexString (rs_ap d') ≠ old) →
  ((∀ w' d', (w', d') ∈ about sta rs → rs_rssi d' ≤ rs_rssi d) ∧ STAAPList s' = STAAPList s) ∨
  ∃ w' d' b, (w', d') ∈ about sta rs ∧ rs_rssi d < rs_rssi d' ∧
    (∀ w'' d'', (w'', d'') ∈ about sta rs → rs_rssi d'' ≤ rs_rssi d') ∧
    STAAPList s' = moved_list s sta old (AP (toHexString (rs_ap d')) (rs_rssi d') b w') i.
Proof.
  intros sta old s' Hn Ei Hother. subst s'. destruct (reports_best rs s sta Hn) as (E1 & E2 & B).
  destruct (STAAPRSSIList (reports rs s) !! sta) as [ap|] eqn:Ea.
  - destruct B as [(w' & d' & He & Em & Er & Ew) Hmax].
    destruct (Z.ltb_spec (rs_rssi d) (ap_rssi ap)).
    + right. exists w', d', (isSent ap). split_and!; [done|lia| |].
      * intros ? ? Hr. rewrite <- Er. by eapply Hmax.
      * assert (old ≠ ap_mac ap) by (rewrite Em; apply not_eq_sym; by eapply Hother).
        rewrite (ap_rssi_handover w d _ ap i) by (done || by rewrite E1).
        rewrite send_handover_lists. simpl. unfold moved_list, base_info. fold sta old.
        rewrite E1. subst w'. rewrite <- Em, <- Er. by destruct ap.
    + left. split; [|by rewrite (ap_rssi_stays _ _ _ ap)].
      intros w0 d0 Hr. pose proof (Hmax _ _ Hr). lia.
  - left. rewrite B. split; [by intros ? ? ?%elem_of_nil|].
    unfold handleAPRSSI. rewrite jgets_step. fold sta. by rewrite Ea.
Qed.

Lemma handover_to_best_witness :
  let rs := [(2, rssi WLAN_REC_POW ap2 (-60)); (3, rssi WLAN_REC_POW [2; 0; 0; 0; 1; 3] (-40))] in
  let s := @play calm_env [(1, probe ap1); (1, auth ap1); (1, assoc ap1)] init in
  STAAPList (@handleAPRSSI calm_env 1 (rssi WLAN_AP_REC_POW ap1 (-70)) (@reports calm_env rs s)).2
    ≠ STAAPList s.
Proof.
  intros rs s.
  destruct (@handover_to_best calm_env rs 1 (rssi WLAN_AP_REC_POW ap1 (-70)) s
    (Info (toHexString sta1) (toHexString ap1) (Some ASSOCIATED) true 1 0 1 1073 10
       (Some (replicate 32 12)) 8 0)) as [[Hle _]|(w' & d' & b & He & Hr & _ & ->)].
  - vm_compute. reflexivity.
  - vm_compute. reflexivity.
  - intros w' d' He. apply list_elem_of_filter in He as [_ He].
    apply elem_of_cons in He as [[= -> ->]|[[= -> ->]|He%elem_of_nil]%elem_of_cons]; discriminate || done.
  - exfalso. assert (Hin : (2, rssi WLAN_REC_POW ap2 (-60)) ∈ about (toHexString sta1) rs).
    { apply list_elem_of_filter. split; [reflexivity|]. apply elem_of_cons. by left. }
    specialize (Hle _ _ Hin). simpl in Hle. lia.
  - intros E. apply (f_equal (λ m, m !! (toHexString sta1, toHexString ap1))) in E.
    revert E. unfold moved_list. rewrite lookup_insert_ne.
    + rewrite lookup_insert_eq. vm_compute. discriminate.
    + intros [= E]. apply list_elem_of_filter in He as [_ He].
      apply elem_of_cons in He as [[= -> ->]|[[= -> ->]|He%elem_of_nil]%elem_of_cons]; discriminate || done.
Defined.


