(* ===== verification/FlPorts.v ===== *)
(** * The ports the controller gives to connections

    [OFSwitchAP.handlePortTranslation] gives every connection to a remote service
    (an address and a port) the next port of a counter kept for that service. *)

From Stdlib Require Import ZArith Lia.
From S2P Require Import Prelude CMem IpText Java FlMessages FlController FlProps FlHandover.
Import Fl Ctl.

(** The entries of all stations, and those of a remote service. *)
Definition entries (s : ctl) : list NATMap := mjoin (snd <$> map_to_list (natTable s)).
Definition service (e : NATMap) : Z * Z := (destinationIP e, destinationPort e).
Definition ports (s : ctl) (v : Z * Z) : list Z :=
  newPort <$> filter (λ e, service e = v) (entries s).

(** The [k]th port of a service. *)
Definition port (k : nat) : Z := jshort (49152 + Z.of_nat k).

Lemma port_mod k : port k mod 65536 = (49152 + Z.of_nat k) mod 65536.
Proof. apply (signed_mod 16). lia. Qed.

Lemma port_inj j k : Z.of_nat j < 65536 → Z.of_nat k < 65536 → port j = port k → j = k.
Proof.
  intros Hj Hk E. assert (M : port j mod 65536 = port k mod 65536) by congruence.
  rewrite !port_mod in M. pose proof (Z.div_mod (49152 + Z.of_nat j) 65536).
  pose proof (Z.div_mod (49152 + Z.of_nat k) 65536).
  pose proof (Z.mod_pos_bound (49152 + Z.of_nat j) 65536).
  pose proof (Z.mod_pos_bound (49152 + Z.of_nat k) 65536). lia.
Qed.

Lemma next_port_first : next_port None = port 0.
Proof. reflexivity. Qed.
Lemma next_port_next k : next_port (Some (port k)) = port (S k).
Proof.
  unfold next_port, port. simpl. apply (signed_congr 16).
  rewrite <- Zplus_mod_idemp_l, (signed_mod 16), Zplus_mod_idemp_l by lia. f_equal. lia.
Qed.

(** ** Counters and entries agree *)

(** [n] ports of the service are in use, and the counter is at the last. *)
Definition counted (s : ctl) (v : Z * Z) (n : nat) : Prop :=
  ports s v ≡ₚ port <$> seq 0 n ∧
  portMap s !! v = match n with 0%nat => None | S k => Some (port k) end.
Definition all_counted (s : ctl) : Prop := ∀ v, ∃ n, counted s v n.

Lemma entries_insert (m : gmap bytes (list NATMap)) sta e :
  mjoin (snd <$> map_to_list (<[sta := default [] (m !! sta) ++ [e]]> m)) ≡ₚ
  e :: mjoin (snd <$> map_to_list m).
Proof.
  rewrite <- insert_delete_eq, map_to_list_insert by apply lookup_delete_eq.
  destruct (m !! sta) as [es|] eqn:E; simpl.
  - rewrite <- (insert_delete_id m sta es E) at 2.
    rewrite (map_to_list_insert (delete sta m)) by apply lookup_delete_eq. simpl.
    rewrite <- app_assoc. simpl. by rewrite <- Permutation_middle.
  - by rewrite delete_id.
Qed.

Section Counting.
  Context `{JavaEnv}.

Definition same_tables (s s' : ctl) : Prop := natTable s' = natTable s ∧ portMap s' = portMap s.

Lemma counted_same s s' : same_tables s s' → all_counted s → all_counted s'.
Proof. intros [E1 E2]. unfold all_counted, counted, ports, entries. by rewrite E1, E2. Qed.

(** A new connection takes the next port. *)
Lemma counted_add s s' sta v e :
  natTable s' = <[sta := default [] (natTable s !! sta) ++ [e]]> (natTable s) →
  portMap s' = <[v := newPort e]> (portMap s) →
  service e = v → newPort e = next_port (portMap s !! v) →
  all_counted s → all_counted s'.
Proof.
  intros En Ep Ev Eq Hc u. destruct (Hc u) as (n & Hn & Hp).
  assert (Hports : ports s' u ≡ₚ (if decide (v = u) then [newPort e] else []) ++ ports s u).
  { unfold ports, entries. rewrite En, entries_insert, filter_cons, Ev. by case_decide. }
  case_decide as Hv; unfold counted; setoid_rewrite Ep.
  - subst u. exists (S n). split; [|rewrite lookup_insert_eq, Eq, Hp].
    + rewrite Hports, Hn, seq_S, fmap_app. simpl. rewrite Eq, Hp.
      rewrite <- Permutation_cons_append. by destruct n; [|rewrite next_port_next].
    + by destruct n; [|rewrite next_port_next].
  - exists n. split; [by rewrite Hports|]. by rewrite lookup_insert_ne.
Qed.

(** The handlers that leave the tables alone. *)
Definition tables {A} (m : J ctl A) : Prop := ∀ s, same_tables s (m s).2.

Lemma tables_keep {A} (m : J ctl A) : tables m → jkeeps all_counted m.
Proof. intros Hm s. apply counted_same, Hm. Qed.
Lemma tables_of_keeps {A} (m : J ctl A) :
  (∀ nt pm, jkeeps (λ s, natTable s = nt ∧ portMap s = pm) m) → tables m.
Proof. intros Hm s. by apply Hm. Qed.

Ltac jkeep :=
  repeat first
    [ assumption | apply jkeeps_ret | apply jkeeps_throw | apply jkeeps_result | apply jkeeps_gets
    | apply jkeeps_bind; [|intros ?] | apply jkeeps_try | apply jkeeps_for; intros ?
    | case_match | by apply jkeeps_modify; intros ? [] ].

Lemma tables_write nt pm w m :
  jkeeps (λ s, natTable s = nt ∧ portMap s = pm) (write w m).
Proof. intros s [??]. unfold write. by case_match. Qed.

Lemma tables_probe w d : tables (handleProbeReq w d).
Proof.
  apply tables_of_keeps. intros nt pm.
  unfold handleProbeReq, findSTAAPPair, findSTAAPInfo, lookupSenderSTAAP, upd_info. jkeep; apply tables_write.
Qed.
Lemma tables_auth w d : tables (handleAuthReq w d).
Proof. apply tables_of_keeps. intros nt pm. unfold handleAuthReq, lookupSenderSTAAP, upd_info. jkeep. Qed.
Lemma tables_assoc w d : tables (handleAssocReq w d).
Proof. apply tables_of_keeps. intros nt pm. unfold handleAssocReq, lookupSenderSTAAP, upd_info. jkeep. Qed.
Lemma tables_status st d rest : tables rest → tables (change_status st d rest).
Proof.
  intros Hr. apply tables_of_keeps. intros nt pm.
  assert (jkeeps (λ s, natTable s = nt ∧ portMap s = pm) rest) by (intros ? [<- <-]; apply Hr).
  unfold change_status, lookupSenderSTAAP, upd_info. jkeep.
Qed.
Lemma tables_last_rssi w d : tables (handleLastRSSI w d).
Proof.
  apply tables_of_keeps. intros nt pm. unfold handleLastRSSI, upd_ap, findSTAAPInfo. jkeep; apply tables_write.
Qed.
Lemma tables_ap_rssi w d : tables (handleAPRSSI w d).
Proof.
  apply tables_of_keeps. intros nt pm.
  unfold handleAPRSSI, handover, copy_params, upd_info, upd_ap, lookupSenderSTAAP.
  jkeep; apply tables_write.
Qed.
Lemma tables_removed w : tables (removedSwitch w).
Proof. apply tables_of_keeps. intros nt pm. unfold removedSwitch. jkeep. Qed.

(** *** Requests for a port *)

(** A request of a known connection, and of a new one. *)
Lemma port_known w d s e :
  List.find (same_connection (ne_super d)) (default [] (natTable s !! toHexString (nm_sta (ne_super d)))) = Some e →
  handlePortTranslation w d s =
  (inr (), after_writes [(w, nat_add_msg (nm_sta (ne_super d)) (sourceIP e) e)] s).
Proof.
  intros E. unfold handlePortTranslation. rewrite jgets_step, E. apply try_write_skip.
Qed.

Lemma port_new w d s :
  let m := ne_super d in
  let sta := toHexString (nm_sta m) in
  let v := (nm_destinationIP m, nm_destinationPort m) in
  let e := NAT (nm_sourceIP m) (nm_destinationIP m) (nm_sourcePort m) (nm_destinationPort m)
             (next_port (portMap s !! v)) in
  List.find (same_connection m) (default [] (natTable s !! sta)) = None →
  handlePortTranslation w d s =
  (inr (), after_writes [(w, nat_add_msg (nm_sta m) (sourceIP e) e)]
    (State (STAAPList s) (STAAPRSSIList s)
       (<[sta := default [] (natTable s !! sta) ++ [e]]> (natTable s)) (gwSwitch s)
       (<[v := newPort e]> (portMap s)) (writes s) (written s))).
Proof.
  intros m sta v e E. unfold handlePortTranslation. rewrite jgets_step. fold m sta v. rewrite E.
  rewrite jgets_step, jmodify_step. unfold add_entry.
  rewrite (jbind_ret _ _ _ () (State (STAAPList s) (STAAPRSSIList s)
       (<[sta := default [] (natTable s !! sta) ++ [e]]> (natTable s)) (gwSwitch s)
       (<[v := newPort e]> (portMap s)) (writes s) (written s))) by done.
  apply try_write_skip.
Qed.

Lemma find_app_None {A} (f : A → bool) l l' :
  List.find f l = None → List.find f (l ++ l') = List.find f l'.
Proof. induction l; simpl; [done|]. by case_match. Qed.

Lemma counted_port_translation w d : jkeeps all_counted (handlePortTranslation w d).
Proof.
  intros s Hs. destruct (List.find (same_connection (ne_super d))
    (default [] (natTable s !! toHexString (nm_sta (ne_super d))))) as [e|] eqn:E.
  - by rewrite (port_known _ _ _ e).
  - rewrite port_new by done. by eapply counted_add.
Qed.

Definition is_update (d : vendor_data) : Prop :=
  match d with OFNATUpdate _ => True | _ => False end.

Lemma counted_handle w d : ¬ is_update d → jkeeps all_counted (handle w d).
Proof.
  intros Hd. unfold handle. apply jkeeps_bind; [apply jkeeps_result|]. intros st.
  assert (T : jkeeps all_counted (throw (A:=()) ClassCastException)) by apply jkeeps_throw.
  case_if; [destruct d; try exact T; apply tables_keep, tables_probe|].
  case_if; [destruct d; try exact T; apply tables_keep, tables_auth|].
  case_if; [destruct d; try exact T; apply tables_keep, tables_assoc|].
  case_if; [destruct d; try exact T; by apply tables_keep, tables_status|].
  case_if; [destruct d; try exact T; by apply tables_keep, tables_status|].
  case_if; [destruct d; try exact T; by apply tables_keep, tables_status|].
  case_if; [destruct d; try exact T; apply tables_keep, tables_last_rssi|].
  case_if; [destruct d; try exact T; apply tables_keep, tables_ap_rssi|].
  case_if; [destruct d; try exact T; by destruct Hd|].
  case_if; [destruct d; try exact T; apply counted_port_translation|].
  case_if; [by apply tables_keep|apply jkeeps_ret].
Qed.

End Counting.

(** ** Properties *)

(** A run in which no access point announces entries of its own (an agent sends
    NAT_UPDATE only when it is compiled without port translation). *)
Inductive port_step `{JavaEnv} : ctl → ctl → Prop :=
| port_receive w m s : ¬ is_update (vendorData m) → port_step s (receive (O:=()) w (inl m) s).2
| port_removed w s : port_step s (removedSwitch w s).2.

Lemma run_counted `{JavaEnv} s : rtc port_step init s → all_counted s.
Proof.
  apply (rtc_ind_r (R:=port_step) all_counted init).
  - intros v. by exists 0%nat.
  - intros s1 s2 _ [w m s0 Hm|w s0] I; [|by apply tables_keep; [apply tables_removed|]].
    unfold receive. case_if; [|done]. apply (jkeeps_bind all_counted); [|intros ?; apply jkeeps_ret|done].
    by apply counted_handle.
Qed.

Lemma ports_nodup s v n : counted s v n → Z.of_nat n ≤ 65536 → NoDup (ports s v).
Proof.
  intros [-> _] Hn. apply NoDup_fmap_2_strong; [|apply NoDup_seq].
  intros j k [_ Hj]%elem_of_seq [_ Hk]%elem_of_seq. apply port_inj; lia.
Qed.


Definition request (src : Z) : vendor_data :=
  OFPortTranslation (NATMessageExt (NATMessage (WlanHeader WLAN_PORT_TRANSLATION) sta1
    src 20 30 40) 0).


Lemma written_one `{JavaEnv} x s :
  written (after_writes [x] s) = deliver (writes s) [x] ++ written s.
Proof. simpl. by case_match. Qed.

(** Known or new, the connection has an entry before the answer is written. *)
Lemma answer_port `{JavaEnv} w d s :
  let m := ne_super d in
  ∃ e s0, sourceIP e = nm_sourceIP m ∧ sourcePort e = nm_sourcePort m ∧
    service e = (nm_destinationIP m, nm_destinationPort m) ∧
    List.find (same_connection m) (default [] (natTable s0 !! toHexString (nm_sta m))) = Some e ∧
    writes s0 = writes s ∧ written s0 = written s ∧
    handlePortTranslation w d s
    = (inr (), after_writes [(w, nat_add_msg (nm_sta m) (sourceIP e) e)] s0).
Proof.
  intros m.
  destruct (List.find (same_connection m) (default [] (natTable s !! toHexString (nm_sta m))))
    as [e|] eqn:E.
  - pose proof (List.find_some _ _ E) as [_ Hc]. unfold same_connection in Hc. zbool.
    exists e, s. rewrite (port_known _ _ _ e E). unfold service.
    split_and!; [done..|congruence|exact E|done|done|done].
  - rewrite (port_new _ _ _ E). 
    eexists (NAT _ _ _ _ _), (State _ _ _ _ _ (writes s) (written s)).
    split_and!; [done..| |done|done|done]. simpl. fold m.
    rewrite lookup_insert_eq. simpl. rewrite find_app_None by done. simpl.
    unfold same_connection. simpl. by rewrite !Z.eqb_refl.
Qed.

(** C25. A request for a port is answered with one NAT_ADD to the access point that
    sent it, for the connection of the request; asking again, from any access
    point, gives the same port and changes no table. *)
Theorem port_request_answered `{JavaEnv} w d s :
  let m := ne_super d in
  let s1 := (handlePortTranslation w d s).2 in
  ∃ e, sourceIP e = nm_sourceIP m ∧ sourcePort e = nm_sourcePort m ∧ service e =
       (nm_destinationIP m, nm_destinationPort m) ∧
    (handlePortTranslation w d s).1 = inr () ∧
    written s1 = deliver (writes s) [(w, nat_add_msg (nm_sta m) (sourceIP e) e)] ++ written s ∧
    ∀ w', handlePortTranslation w' d s1 =
          (inr (), after_writes [(w', nat_add_msg (nm_sta m) (sourceIP e) e)] s1).
Proof.
  intros m s1. destruct (answer_port w d s) as (e & s0 & E1 & E2 & E3 & Ef & En & Ew & E).
  exists e. unfold s1. rewrite E. split_and!; [done..| |].
  - rewrite <- Ew, <- En. apply written_one.
  - intros w'. by apply port_known.
Qed.
