(* ===== verification/FlWire.v ===== *)
(** * Messages between access points and the controller

    The access points' messages, built by C code from packed structures, as the
    controller's Java classes read them. *)

From Stdlib Require Import ZArith Lia.
From S2P Require Import Prelude CMem Java FlMessages.
Import Fl.
From S2P Require Import CStruct CMonad OpenFlow IpText Chain CSteps Agent AgentProps NatTable Headers.
From S2P Require Import ApData Station ApState ApNat ApNatProps ApAgent ApStaProps.

(** ** Reading *)

Lemma readInt_bytes x (r : bytes) : length x = 4%nat → readInt (x ++ r) = inr (jint (be_dec x), r).
Proof. intros L. unfold readInt, mbind, reader_bind. by rewrite readBytes_app. Qed.

Lemma readByte_small b (r : bytes) : 0 ≤ b < 128 → readByte (b :: r) = inr (b, r).
Proof.
  intros Hb. pose proof (readByte_app b r) as E. change (be_enc 1 b) with [b mod 256] in E.
  rewrite Z.mod_small in E by lia. simpl in E. rewrite E. unfold jbyte.
  by rewrite signed_id by (unfold in_signed; lia).
Qed.

Lemma land_jshort n : Z.land (jshort n) 0xffff = n mod 65536.
Proof.
  change 0xffff with (Z.ones 16). rewrite Z.land_ones by lia. by apply (signed_mod 16).
Qed.

(** Reader steps. *)
Lemma reader_bind_assoc {A B C} (m : reader A) (f : A → reader B) (g : B → reader C) d :
  ((m ≫= f) ≫= g) d = (m ≫= λ a, f a ≫= g) d.
Proof. unfold mbind, reader_bind. by destruct (m d) as [?|[]]. Qed.

Lemma reader_mret_bind {A B} (a : A) (k : A → reader B) d : (mret a ≫= k) d = k a d.
Proof. done. Qed.

Lemma read_header n x (r : bytes) :
  length x = 4%nat →
  OFMessage_readFrom ([OFP_VERSION; OFType_VENDOR] ++ be_enc 2 n ++ x ++ r)
  = inr (Message 1 4 (jshort n) (jint (be_dec x)), r).
Proof.
  intros Lx. unfold OFMessage_readFrom.
  rewrite (reader_step _ _ _ 1 (4 :: be_enc 2 n ++ x ++ r)) by (by apply readByte_small).
  rewrite (reader_step _ _ _ 4 (be_enc 2 n ++ x ++ r)) by (by apply readByte_small).
  cbv iota beta. change ((4 <? 0) || (32 <=? 4)) with false. cbv iota.
  rewrite (reader_step _ _ _ _ _ (readShort_app _ _)).
  by rewrite (reader_step _ _ _ _ _ (readInt_bytes _ _ Lx)).
Qed.

(** A vendor message of an access point, followed by the rest of the stream. *)
Lemma parse_ap_msg {O} (read_other : Z → reader O) sub xid bd rest r d rest' :
  length xid = 4%nat → zlen bd < 60000 → ofWlanId (enum_val sub) = Some r →
  r (be_enc 4 (enum_val sub) ++ bd ++ rest) = inr (d, rest') →
  parseMessageOne read_other (ap_msg sub xid bd ++ rest) =
  inr (Some (inl (Vendor (Message 1 4 (jshort (16 + zlen bd)) (jint (be_dec xid))) 1 d), rest')).
Proof.
  intros Lx Lb Er Ed. pose proof (zlen_nonneg bd). pose proof (zlen_nonneg rest).
  set (n := 16 + zlen bd).
  assert (E : ap_msg sub xid bd ++ rest = [OFP_VERSION; OFType_VENDOR] ++ be_enc 2 n ++ xid
    ++ be_enc 4 1 ++ be_enc 4 (enum_val sub) ++ bd ++ rest).
  { unfold ap_msg, ofp_msg. replace (8 + zlen _) with n; [by rewrite <- !app_assoc|].
    unfold n. rewrite !zlen_app, !zlen_be_enc. lia. }
  assert (Ez : zlen (ap_msg sub xid bd ++ rest) = n + zlen rest).
  { rewrite E, !zlen_app, !zlen_be_enc. unfold n, zlen at 1 2. rewrite Lx. simpl. lia. }
  unfold parseMessageOne. rewrite Ez, E. unfold OFMessage_MINIMUM_LENGTH.
  replace (n + zlen rest <? 8) with false by lia.
  rewrite (read_header n _ _ Lx). unfold getLengthU. cbn [length_].
  rewrite land_jshort, Z.mod_small by lia.
  replace (n + zlen rest <? n) with false by lia. cbn [type].
  change (20 <=? 4) with false. change (4 =? OFType_VENDOR) with true. cbv iota.
  unfold OFVendor_readFrom. unfold fmap, reader_map. rewrite reader_bind_assoc.
  rewrite (reader_step _ _ _ _ _ (read_header n _ _ Lx)), reader_bind_assoc.
  rewrite (reader_step _ _ _ _ _ (readInt_app _ _)), reader_bind_assoc.
  change (jint 1) with 1. unfold getLengthU, OFVendor_MINIMUM_LENGTH. cbn [length_].
  rewrite land_jshort, Z.mod_small by lia.
  rewrite (reader_step _ _ _ d rest'); [done|].
  unfold parseVendorData. change (lookupVendorId 1) with (Some ofWlanId). cbv iota.
  unfold parseVendorDataType. replace ((n - 12 =? 0) || (4 <=? n - 12)) with true by lia.
  rewrite readInt_app.
  replace (jint (enum_val sub)) with (enum_val sub) by (by destruct sub).
  by rewrite Er.
Qed.

(** The classes' own formats. *)
Section Formats.
  Context (sub : exp_type) (rest : bytes).
  Abbreviation st := (enum_val sub).

Lemma read_subtype {A} (k : OFWlanHeader → reader A) r :
  (readFrom ≫= k) (be_enc 4 st ++ r) = k (WlanHeader st) r.
Proof.
  apply reader_step. cbn [readFrom OFWlanHeader_data].
  rewrite (reader_step _ _ _ _ _ (readInt_app _ _)). by destruct sub.
Qed.

Lemma read_data {A} (k : OFWlanData → reader A) sta ap r :
  length sta = 6%nat → length ap = 6%nat →
  (readFrom ≫= k) (be_enc 4 st ++ sta ++ ap ++ r) = k (WlanData (WlanHeader st) sta ap) r.
Proof.
  intros L1 L2. apply reader_step. cbn [readFrom OFWlanData_data]. rewrite read_subtype.
  rewrite (reader_step _ _ _ _ _ (readBytes_app 6 _ _ L1)).
  by rewrite (reader_step _ _ _ _ _ (readBytes_app 6 _ _ L2)).
Qed.

Lemma read_rssi {A} (k : OFWlanRSSI → reader A) sta ap v r :
  length sta = 6%nat → length ap = 6%nat →
  (readFrom ≫= k) (be_enc 4 st ++ sta ++ ap ++ be_enc 1 v ++ r)
  = k (WlanRSSI (WlanHeader st) sta ap (jbyte v)) r.
Proof.
  intros L1 L2. apply reader_step. cbn [readFrom OFWlanRSSI_data]. rewrite read_subtype.
  rewrite (reader_step _ _ _ _ _ (readBytes_app 6 _ _ L1)).
  rewrite (reader_step _ _ _ _ _ (readBytes_app 6 _ _ L2)).
  by rewrite (reader_step _ _ _ _ _ (readByte_app _ _)).
Qed.

Lemma read_auth {A} (k : OFWlanAuthentication → reader A) sta ap v r :
  length sta = 6%nat → length ap = 6%nat →
  (readFrom ≫= k) (be_enc 4 st ++ sta ++ ap ++ be_enc 2 v ++ r)
  = k (Authentication (WlanData (WlanHeader st) sta ap) (jshort v)) r.
Proof.
  intros L1 L2. apply reader_step. cbn [readFrom OFWlanAuthentication_data].
  rewrite read_data by done. by rewrite (reader_step _ _ _ _ _ (readShort_app _ _)).
Qed.

Lemma read_assoc {A} (k : OFWlanAssociation → reader A) sta ap aid cap li p1 rates len qos p2 r :
  length sta = 6%nat → length ap = 6%nat → length p1 = 2%nat → length rates = 32%nat →
  length p2 = 3%nat →
  (readFrom ≫= k) (be_enc 4 st ++ sta ++ ap ++ be_enc 2 aid ++ be_enc 2 cap ++ be_enc 2 li
     ++ p1 ++ rates ++ be_enc 4 len ++ be_enc 1 qos ++ p2 ++ r)
  = k (Association (WlanData (WlanHeader st) sta ap) (jshort aid) (jshort cap) (jshort li)
         rates (jint len) (jbyte qos)) r.
Proof.
  intros L1 L2 L3 L4 L5. apply reader_step. cbn [readFrom OFWlanAssociation_data].
  rewrite read_data by done.
  do 3 rewrite (reader_step _ _ _ _ _ (readShort_app _ _)).
  rewrite (reader_step _ _ _ _ _ (skipBytes_app 2 _ _ L3)).
  rewrite (reader_step _ _ _ _ _ (readBytes_app 32 _ _ L4)).
  rewrite (reader_step _ _ _ _ _ (readInt_app _ _)).
  rewrite (reader_step _ _ _ _ _ (readByte_app _ _)).
  by rewrite (reader_step _ _ _ _ _ (skipBytes_app 3 _ _ L5)).
Qed.

Lemma read_nat_ext {A} (k : OFNATMessageExt → reader A) sta p1 sip dip sp dp np p2 r :
  length sta = 6%nat → length p1 = 2%nat → length sip = 4%nat → length dip = 4%nat →
  length p2 = 2%nat →
  (readFrom ≫= k) (be_enc 4 st ++ sta ++ p1 ++ sip ++ dip ++ be_enc 2 sp ++ be_enc 2 dp
     ++ be_enc 2 np ++ p2 ++ r)
  = k (NATMessageExt (NATMessage (WlanHeader st) sta (jint (be_dec sip)) (jint (be_dec dip))
         (jshort sp) (jshort dp)) (jshort np)) r.
Proof.
  intros L1 L2 L3 L4 L5. apply reader_step. cbn [readFrom OFNATMessageExt_data].
  cbn [readFrom OFNATMessage_data]. rewrite reader_bind_assoc, read_subtype.
  rewrite reader_bind_assoc, (reader_step _ _ _ _ _ (readBytes_app 6 _ _ L1)).
  rewrite reader_bind_assoc, (reader_step _ _ _ _ _ (skipBytes_app 2 _ _ L2)).
  rewrite reader_bind_assoc, (reader_step _ _ _ _ _ (readInt_bytes _ _ L3)).
  rewrite reader_bind_assoc, (reader_step _ _ _ _ _ (readInt_bytes _ _ L4)).
  do 2 rewrite reader_bind_assoc, (reader_step _ _ _ _ _ (readShort_app _ _)).
  rewrite reader_mret_bind.
  rewrite (reader_step _ _ _ _ _ (readShort_app _ _)).
  by rewrite (reader_step _ _ _ _ _ (skipBytes_app 2 _ _ L5)).
Qed.

End Formats.

(** ** Sending *)

Section Sending.
  Context `{Platform} `{Env} `{Hapd.StaSize}.

Lemma xid_length s : length (xid_in s) = 4%nat.
Proof. apply length_nat_enc. Qed.

Lemma send_wlan_msg_step sub sta ap s :
  (∀ t n, env_calloc t n = true) → length sta = 6%nat → length ap = 6%nat →
  send_wlan_msg sub (Some sta) (Some ap) s
  = controller_send (ap_msg sub (xid_in s) (sta ++ ap))
      (zlen (ap_msg sub (xid_in s) (sta ++ ap))) (tick (tick s)).
Proof.
  intros Ha Ls La. unfold send_wlan_msg. rewrite wlan_create_step by (done || (vm_compute; done)).
  change (Z.to_nat (sizeof ofp_wlan_msg)) with 12%nat. pose proof (xid_length s) as Lx.
  rewrite <- wlan_send_step; [|done|].
  2: { rewrite zlen_app. unfold zlen. rewrite Ls, La. done. }
  generalize (xid_in s) Lx. intros xid Lx'. clear Lx. unfold ap_msg, ofp_msg.
  change (zlen (be_enc 4 AP_EXPERIMENTER_ID ++ be_enc 4 (enum_val sub) ++ replicate 12 0)) with 20.
  assert (Ez : zlen (be_enc 4 AP_EXPERIMENTER_ID ++ be_enc 4 (enum_val sub) ++ sta ++ ap) = 20)
    by (rewrite !zlen_app, !zlen_be_enc; unfold zlen; rewrite Ls, La; done).
  rewrite Ez. pose proof (length_be_enc 4 (enum_val sub)) as Lsub.
  remember (be_enc 4 (enum_val sub)) as sb. clear Heqsb.
  explode xid. explode sta. explode ap. explode sb.
  cbn [lift_opt]. rewrite !mret_bind. store_bytes. rewrite !mret_bind. store_bytes. reflexivity.
Qed.

(** The request for a port, or the announcement of an entry, as it was put
    together by [handle_pkt]. *)
Definition nat_body (mac src dst sport dport : bytes) : bytes :=
  mac ++ [0; 0] ++ src ++ dst ++ sport ++ dport ++ [0; 0] ++ [0; 0].

Lemma send_nat_step sub mac src dst sport dport s :
  (∀ t n, env_calloc t n = true) → length mac = 6%nat → length src = 4%nat →
  length dst = 4%nat → length sport = 2%nat → length dport = 2%nat →
  bytes_ok src → bytes_ok dst → bytes_ok sport → bytes_ok dport →
  let msg := ap_msg sub (xid_in s) (nat_body mac src dst sport dport) in
  send_nat sub (nat_body mac src dst sport dport) s = controller_send msg (zlen msg) (tick (tick s)).
Proof.
  intros Ha L1 L2 L3 L4 L5 O1 O2 O3 O4 msg. unfold send_nat.
  rewrite wlan_create_step by (done || (vm_compute; done)).
  change (Z.to_nat (sizeof ofp_nat_port_entry)) with 24%nat. pose proof (xid_length s) as Lx.
  unfold msg. rewrite <- wlan_send_step; [|done|].
  2: { unfold nat_body. rewrite !zlen_app. unfold zlen. rewrite L1, L2, L3, L4, L5. done. }
  clear msg. generalize (xid_in s) Lx. intros xid Lx'. clear Lx. unfold ap_msg, ofp_msg, nat_body.
  change (zlen (be_enc 4 AP_EXPERIMENTER_ID ++ be_enc 4 (enum_val sub) ++ replicate 24 0)) with 32.
  assert (Ez : zlen (be_enc 4 AP_EXPERIMENTER_ID ++ be_enc 4 (enum_val sub) ++ mac ++ [0; 0] ++ src
                ++ dst ++ sport ++ dport ++ [0; 0] ++ [0; 0]) = 32)
    by (rewrite !zlen_app, !zlen_be_enc; unfold zlen; rewrite L1, L2, L3, L4, L5; done).
  rewrite Ez. pose proof (length_be_enc 4 (enum_val sub)) as Lsub.
  remember (be_enc 4 (enum_val sub)) as sb. clear Heqsb.
  explode xid. explode mac. explode src. explode dst. explode sport. explode dport. explode sb.
  load_bytes. store_bytes. load. store. load. store. load. store. load. store. reflexivity.
Qed.


(** The body of an association: the station's parameters, the rates padded to
    32 bytes. *)
Definition rates32 (st : Hapd.sta_info) : bytes :=
  let rates := take (Z.to_nat (Hapd.supported_rates_len st)) (Hapd.supported_rates st) in
  rates ++ replicate (32 - length rates) 0.
Definition params (st : Hapd.sta_info) : bytes :=
  be_enc 2 (Hapd.aid st) ++ be_enc 2 (Hapd.capability st) ++ be_enc 2 (Hapd.listen_interval st)
  ++ [0; 0] ++ rates32 st ++ be_enc 4 (Hapd.supported_rates_len st)
  ++ be_enc 1 (Hapd.qosinfo st) ++ [0; 0; 0].

(** A station whose rates fit. *)
Record rates_ok (st : Hapd.sta_info) : Prop := {
  ro_size : length (Hapd.supported_rates st) = 32%nat;
  ro_len : 0 ≤ Hapd.supported_rates_len st ≤ 32;
}.

Lemma rates32_length st : rates_ok st → length (rates32 st) = 32%nat.
Proof.
  intros [L B]. unfold rates32. rewrite length_app, length_replicate, length_take. lia.
Qed.

Lemma stn_mid (a b c d : bytes) off :
  off = zlen a → (length d ≤ length b)%nat →
  stn (a ++ b ++ c) off d = Some (a ++ (d ++ drop (length d) b) ++ c).
Proof.
  intros -> L. unfold stn. rewrite (proj2 (in_range_iff _ _ _)).
  2: { rewrite !zlen_app. unfold zlen. lia. }
  unfold zlen. rewrite Nat2Z.id, take_app_length, drop_app_ge by lia.
  replace (_ + _ - _)%nat with (length d) by lia.
  by rewrite drop_app_le, <- !app_assoc by lia.
Qed.

(** The message of an association, store by store. *)
Lemma assoc_stores sub xid sta ap st :
  length xid = 4%nat → length sta = 6%nat → length ap = 6%nat → rates_ok st →
  ∃ m1 m2 m3 m4 m5 m6 m7,
    stf_bytes ofp_wlan_assoc_msg body ["staMacAddress"] sta
      (ap_msg sub xid (replicate 60 0)) = Some m1 ∧
    stf_bytes ofp_wlan_assoc_msg body ["apMacAddress"] ap m1 = Some m2 ∧
    stf ofp_wlan_assoc_msg body ["aid"] (htons (Hapd.aid st)) m2 = Some m3 ∧
    stf ofp_wlan_assoc_msg body ["capability"] (htons (Hapd.capability st)) m3 = Some m4 ∧
    stf ofp_wlan_assoc_msg body ["listen_interval"] (htons (Hapd.listen_interval st)) m4
      = Some m5 ∧
    stf ofp_wlan_assoc_msg body ["qosinfo"] (Hapd.qosinfo st) m5 = Some m6 ∧
    stf_bytes ofp_wlan_assoc_msg body ["supported_rates"]
      (take (Z.to_nat (Hapd.supported_rates_len st)) (Hapd.supported_rates st)) m6 = Some m7 ∧
    stf ofp_wlan_assoc_msg body ["supported_rates_len"] (htonl (Hapd.supported_rates_len st)) m7
      = Some (ap_msg sub xid (sta ++ ap ++ params st)).
Proof.
  intros Lx Ls La R. unfold ap_msg, ofp_msg.
  assert (Ez : zlen (be_enc 4 AP_EXPERIMENTER_ID ++ be_enc 4 (enum_val sub) ++ sta ++ ap ++ params st)
               = 68).
  { unfold params. rewrite !zlen_app, !zlen_be_enc. unfold zlen.
    rewrite Ls, La, rates32_length by done. done. }
  rewrite Ez. clear Ez.
  change (zlen (be_enc 4 AP_EXPERIMENTER_ID ++ be_enc 4 (enum_val sub) ++ replicate 60 0)) with 68.
  pose proof (length_be_enc 4 (enum_val sub)) as Lsub.
  pose proof (rates32_length st R) as Lr. destruct R as [L B]. unfold params, rates32 in *.
  set (rates := take _ _) in *.
  assert (Lrt : (length rates ≤ 32)%nat) by (unfold rates; rewrite length_take; lia).
  pose proof (nat_enc_hton 2 (Hapd.aid st)) as E1. pose proof (length_be_enc 2 (Hapd.aid st)) as L1.
  pose proof (nat_enc_hton 2 (Hapd.capability st)) as E2.
  pose proof (length_be_enc 2 (Hapd.capability st)) as L2.
  pose proof (nat_enc_hton 2 (Hapd.listen_interval st)) as E3.
  pose proof (length_be_enc 2 (Hapd.listen_interval st)) as L3.
  pose proof (nat_enc_hton 4 (Hapd.supported_rates_len st)) as E4.
  pose proof (length_be_enc 4 (Hapd.supported_rates_len st)) as L4.
  pose proof (nat_enc_1 (Hapd.qosinfo st)) as E5.
  change (be_enc 1 (Hapd.qosinfo st)) with [Hapd.qosinfo st mod 256].
  remember (be_enc 4 (enum_val sub)) as sb. remember (be_enc 2 (Hapd.aid st)) as b1.
  remember (be_enc 2 (Hapd.capability st)) as b2.
  remember (be_enc 2 (Hapd.listen_interval st)) as b3.
  remember (be_enc 4 (Hapd.supported_rates_len st)) as b4.
  clear Heqsb Heqb1 Heqb2 Heqb3 Heqb4.
  explode xid. explode sta. explode ap. explode sb. explode b1. explode b2. explode b3. explode b4.
  do 7 eexists. split_and!; open_fields; unfold stint, htons, htonl; rewrite ?E1, ?E2, ?E3, ?E4, ?E5;
    [eval_mem|eval_mem|eval_mem|eval_mem|eval_mem|eval_mem| |].
  - match goal with |- stn ?M ?o _ = ?r =>
      let a := eval vm_compute in (take 36 M) in let c := eval vm_compute in (drop 68 M) in
      change (stn (a ++ replicate 32 0 ++ c) 36 rates = r) end.
    apply stn_mid; [done|by rewrite length_replicate].
  - rewrite drop_replicate. remember (rates ++ replicate (32 - length rates) 0) as mid.
    clear Heqmid. explode mid. eval_mem.
Qed.


(** The record the access point keeps of an associated station. *)
Definition assoc_info (st : Hapd.sta_info) (e : infoSTA) : infoSTA :=
  let rates := take (Z.to_nat (Hapd.supported_rates_len st)) (Hapd.supported_rates st) in
  set_assoc_data (Hapd.aid st) (Hapd.capability st) (Hapd.listen_interval st) (Hapd.qosinfo st)
    (rates ++ drop (length rates) (supported_rates e)) (Hapd.supported_rates_len st) e.

(** A state in which the interface can report on a known station. *)
Record can_report (s : ap_state) (m : gmap bytes infoSTA) (sta ap : bytes) (e : infoSTA) : Prop := {
  cr_inv : sta_inv s m;
  cr_addr : addr_ok s sta;
  cr_known : m !! sta = Some e;
  cr_rates : length (supported_rates e) = 32%nat;
  cr_sock : sock (ap_conn s) ≠ -1;
  cr_mac : mac (ap_conn s) = Some ap;
  cr_ap : length ap = 6%nat;
}.

(** [p] sends one message, which reads as [d] and leaves [left] and what follows. *)
Definition says (s : ap_state) (p : M ap_state unit) (m' : gmap bytes infoSTA)
    (d : vendor_data) (left : bytes) : Prop :=
  ∃ s' data res, p s = Ret () s' ∧ sta_inv s' m' ∧
    events (ap_sys s') = EvSend (sock (ap_conn s)) data res :: events (ap_sys s) ∧
    ∀ O (read_other : Z → reader O) rest, ∃ v,
      parseMessageOne read_other (data ++ rest) = inr (Some (inl v, left ++ rest)) ∧
      vendor v = 1 ∧ vendorData v = d.

(** A message that is sent reads as what its body reads as. *)
Lemma says_sent s s0 p m sub xid bd d left r :
  sta_inv s0 m → sock (ap_conn s0) ≠ -1 → ap_conn s0 = ap_conn s →
  events (ap_sys s0) = events (ap_sys s) →
  p s = wlan_send (ap_msg sub xid bd) s0 →
  length xid = 4%nat → zlen bd < 60000 → ofWlanId (enum_val sub) = Some r →
  (∀ rest, r (be_enc 4 (enum_val sub) ++ bd ++ rest) = inr (d, left ++ rest)) →
  says s p m d left.
Proof.
  intros I Hs Ec Ev Ep Lx Lb Er Ed. rewrite wlan_send_step in Ep by done.
  destruct (send_msg_event s0 m (ap_msg sub xid bd) I Hs) as (s' & res & E & I' & Ev').
  rewrite E in Ep. exists s', (ap_msg sub xid bd), res. split_and!; [done..| |].
  - by rewrite Ev', Ec, Ev.
  - intros O ro rest. eexists. by rewrite (parse_ap_msg ro sub xid bd rest r d (left ++ rest)).
Qed.

Lemma assoc_says s m sta ap e mgmt l st (reassoc : bool) d left r :
  can_report s m sta ap e → (∀ t n, env_calloc t n = true) →
  mgmt_sa mgmt = Some sta → mgmt_da mgmt = Some ap →
  deref (Hapd.get_stas s) l = Some st → rates_ok st →
  let sub := if reassoc then WLAN_REASSOC_REQ else WLAN_ASSOC_REQ in
  ofWlanId (enum_val sub) = Some r →
  (∀ rest, r (be_enc 4 (enum_val sub) ++ (sta ++ ap ++ params st) ++ rest)
           = inr (d, left ++ rest)) →
  says s (handle_assoc_req mgmt (Some l) reassoc) (<[sta := assoc_info st e]> m) d left.
Proof.
  intros [I A Em Lr Hs Hm La] Ha E1 E2 Est R sub Er Ed. pose proof A as [Ls _].
  set (rates := take (Z.to_nat (Hapd.supported_rates_len st)) (Hapd.supported_rates st)).
  assert (Elen : ldn (Hapd.supported_rates st) 0 (Hapd.supported_rates_len st) = Some rates).
  { destruct R as [L B]. rewrite ldn_ok by (unfold zlen; lia). done. }
  assert (Estn : stn (supported_rates e) 0 rates
                 = Some (rates ++ drop (length rates) (supported_rates e))).
  { pose proof (stn_mid [] (supported_rates e) [] rates 0 eq_refl) as E.
    rewrite !app_nil_r in E. apply E. rewrite Lr. destruct R. unfold rates. rewrite length_take. lia. }
  edestruct (lookup_sta (B:=unit)) with (s := tick (tick s)) (a := sta) as (p & E & Hp);
    [by apply sta_inv_tick, sta_inv_tick|by apply addr_ok_tick, addr_ok_tick|].
  rewrite Em in Hp. destruct Hp as (k & bs & -> & Hk & Hin & Rp).
  edestruct (locked_write_ok (B:=unit)) with (s := tick (tick s))
    (f := set_assoc_data (Hapd.aid st) (Hapd.capability st) (Hapd.listen_interval st)
            (Hapd.qosinfo st) (rates ++ drop (length rates) (supported_rates e))
            (Hapd.supported_rates_len st))
    as (s1 & bs1 & E' & I1 & (C1 & Ev1 & _) & _);
    [by apply sta_inv_tick, sta_inv_tick|exact Rp|exact Hin|done|].
  rewrite Hk in I1.
  destruct (assoc_stores sub (xid_in s) sta ap st (xid_length s) Ls La R)
    as (m1 & m2 & m3 & m4 & m5 & m6 & m7 & S1 & S2 & S3 & S4 & S5 & S6 & S7 & S8).
  eapply (says_sent s s1); [exact I1|by rewrite C1|exact C1|exact Ev1| | | |exact Er|exact Ed].
  2: apply (xid_length s).
  - unfold handle_assoc_req. fold sub.
    rewrite wlan_create_step by (done || (vm_compute; done)).
    change (Z.to_nat (sizeof ofp_wlan_assoc_msg)) with 60%nat.
    rewrite (opt_step _ _ _ _ E1), (opt_step _ _ _ _ S1), (opt_step _ _ _ _ E2),
      (opt_step _ _ _ _ S2). cbn [lift_opt]. rewrite mret_bind.
    rewrite (bind_Ret _ _ _ st (tick (tick s)))
      by (unfold Hapd.sta_get, tab_deref; change (Hapd.get_stas (tick (tick s))) with
            (Hapd.get_stas s); by rewrite Est).
    rewrite (opt_step _ _ _ _ S3), (opt_step _ _ _ _ S4), (opt_step _ _ _ _ S5),
      (opt_step _ _ _ _ S6), (opt_step _ _ _ _ Elen), (opt_step _ _ _ _ S7),
      (opt_step _ _ _ _ S8).
    erewrite E.
    rewrite (node_read_ok (A:=infoSTA) _ _ k e) by (eapply rep_deref; [apply Rp|exact Hin]).
    rewrite (opt_step _ _ _ _ Estn). erewrite E'. reflexivity.
  - unfold params. rewrite !zlen_app, !zlen_be_enc. unfold zlen.
    rewrite rates32_length by done. rewrite Ls, La. done.
Qed.


Lemma wlan_msg_says s p m sta ap e sub d r :
  can_report s m sta ap e → (∀ t n, env_calloc t n = true) →
  p = send_wlan_msg sub (Some sta) (Some ap) → ofWlanId (enum_val sub) = Some r →
  (∀ rest, r (be_enc 4 (enum_val sub) ++ (sta ++ ap) ++ rest) = inr (d, [] ++ rest)) →
  says s p m d [].
Proof.
  intros [I A Em Lr Hs Hm La] Ha Ep Er Ed. pose proof A as [Ls _].
  assert (Lb : zlen (sta ++ ap) < 60000) by (rewrite zlen_app; unfold zlen; rewrite Ls, La; done).
  eapply (says_sent s (tick (tick s))); [by apply sta_inv_tick, sta_inv_tick|done|done|done
    | |apply (xid_length s)|exact Lb|exact Er|exact Ed].
  rewrite Ep, send_wlan_msg_step by done. by rewrite <- wlan_send_step by (done || apply xid_length).
Qed.

(** ** Properties *)

(** What the controller should read for a management frame of a station: the
    subtypes other than these are not reported. *)
Definition frame_data (stype : Z) (sta ap : bytes) (alg : Z) (st : Hapd.sta_info)
    : option vendor_data :=
  let data sub := WlanData (WlanHeader sub) sta ap in
  if stype =? 11 then Some (OFWlanAuthRequest (Authentication (data 0) (jshort alg)))
  else if stype =? 0 then
    Some (OFWlanAssocRequest (Association (data 4) (jshort (Hapd.aid st))
      (jshort (Hapd.capability st)) (jshort (Hapd.listen_interval st)) (rates32 st)
      (Hapd.supported_rates_len st) (jbyte (Hapd.qosinfo st))))
  else if stype =? 10 then Some (OFWlanDisassocRequest (data 10))
  else if stype =? 12 then Some (OFWlanDeauthRequest (data 3))
  else if stype =? 4 then Some (OFWlanProbe (data 12))
  else None.

(** What the access point keeps of it. *)
Definition frame_info (stype alg : Z) (st : Hapd.sta_info) (e : infoSTA) : infoSTA :=
  if stype =? 11 then set_auth_alg (htons alg) e
  else if stype =? 0 then assoc_info st e else e.

(** The frame's destination is replaced by the address the controller knows. *)
Lemma process_frame pre da ap sta mid alg rest l s :
  mac (ap_conn s) = Some ap → length ap = 6%nat → length pre = 4%nat → length da = 6%nat →
  let fr := auth_frame pre ap sta mid alg rest in
  let stype := WLAN_FC_GET_STYPE (le_dec (take 2 pre)) in
  process_sta_msg (auth_frame pre da sta mid alg rest) l s =
  (if stype =? 11 then handle_auth fr
   else if stype =? 0 then handle_assoc_req fr l false
   else if stype =? 2 then handle_assoc_req fr l true
   else if stype =? 10 then handle_disassoc_req fr
   else if stype =? 12 then handle_deauth fr
   else if stype =? 4 then handle_probe_request fr else skip) s.
Proof.
  intros Hm La Lp Ld fr stype. unfold process_sta_msg, controller_mac.
  rewrite bind_assoc, gets_step, mret_bind. change (get_conn s) with (ap_conn s). rewrite Hm.
  cbn [mbind option_bind]. rewrite (ldn_ok ap) by (unfold zlen; lia).
  change (Z.to_nat 0) with 0%nat. rewrite drop_0, take_ge by lia. cbn [lift_opt]. rewrite mret_bind.
  assert (E : stn (auth_frame pre da sta mid alg rest) 4 ap = Some fr).
  { unfold auth_frame, fr. rewrite (stn_mid pre da) by (unfold zlen; lia).
    by rewrite drop_ge, app_nil_r by lia. }
  rewrite (opt_step _ _ _ _ E).
  assert (E' : frame_control fr = Some (le_dec (take 2 pre))).
  { unfold frame_control, le16_at, fr, auth_frame. destruct pre as [|a [|b pre]]; [done..|].
    by rewrite ldn_ok by (unfold zlen; simpl; lia). }
  rewrite (opt_step _ _ _ _ E'). done.
Qed.

(** C16. Every management frame the access point reports is understood by the
    controller: the message sent for a probe, an authentication, an association,
    a disassociation or a deauthentication is parsed to the class registered for
    it, with the station's address, the access point's address and the
    parameters, and the next message of the stream starts right after it. *)
Theorem frames_understood s m e pre da ap sta mid alg rest l st d :
  can_report s m sta ap e → (∀ t n, env_calloc t n = true) →
  length pre = 4%nat → length da = 6%nat → length mid = 8%nat → 0 ≤ alg < 65536 →
  deref (Hapd.get_stas s) l = Some st → rates_ok st →
  let stype := WLAN_FC_GET_STYPE (le_dec (take 2 pre)) in
  frame_data stype sta ap alg st = Some d →
  says s (process_sta_msg (auth_frame pre da sta mid alg rest) (Some l))
    (<[sta := frame_info stype alg st e]> m) d [].
Proof.
  intros C Ha Lp Ld Lm Hal Est R stype Hd. pose proof C as [I A Em Lr Hs Hm La]. pose proof A as [Ls _].
  assert (Eid : <[sta := e]> m = m) by (by apply insert_id).
  assert (P : ∀ p, process_sta_msg (auth_frame pre da sta mid alg rest) (Some l) s = p s →
    says s p (<[sta := frame_info stype alg st e]> m) d [] →
    says s (process_sta_msg (auth_frame pre da sta mid alg rest) (Some l))
      (<[sta := frame_info stype alg st e]> m) d []).
  { intros p Ep (s' & data & res & Es & Hsays). exists s', data, res. by rewrite Ep. }
  destruct (auth_frame_fields pre ap sta mid alg rest Lp La Ls Lm Hal) as (E1 & E2 & E3).
  eapply P; [by apply process_frame|]. clear P. fold stype.
  unfold frame_data, frame_info in *.
  destruct (stype =? 11); [|destruct (stype =? 0)];
    [| |destruct (stype =? 2) eqn:Er; [exfalso; by replace stype with 2 in Hd by lia|];
        rewrite Eid; destruct (stype =? 10); [|destruct (stype =? 12); [|destruct (stype =? 4); [|done]]]];
    injection Hd as <-.
  - destruct (auth_step s m e pre ap sta mid alg rest) as (s1 & Es & I1 & (C1 & Ev1 & _)); try done.
    eapply (says_sent s s1); [exact I1|by rewrite C1|exact C1|exact Ev1|exact Es
      |apply (xid_length s)| |reflexivity|].
    + rewrite !zlen_app, zlen_be_enc. unfold zlen. rewrite Ls, La. done.
    + intros r. unfold fmap, reader_map. rewrite <- !app_assoc. by rewrite (read_auth WLAN_AUTH_REQ).
  - eapply (assoc_says s m sta ap e _ l st false); try done. intros r. unfold fmap, reader_map, params.
    rewrite <- !app_assoc.
    rewrite (read_assoc WLAN_ASSOC_REQ) by (done || by apply rates32_length).
    destruct R. unfold jint. by rewrite (signed_id 32) by (unfold in_signed; lia).
  - eapply (wlan_msg_says s _ m sta ap e WLAN_DISASSOC_REQ); try done.
    + unfold handle_disassoc_req. by rewrite E1, E2.
    + intros r. unfold fmap, reader_map. rewrite <- app_assoc. by rewrite (read_data WLAN_DISASSOC_REQ).
  - eapply (wlan_msg_says s _ m sta ap e WLAN_DEAUTH_REQ); try done.
    + unfold handle_deauth. by rewrite E1, E2.
    + intros r. unfold fmap, reader_map. rewrite <- app_assoc. by rewrite (read_data WLAN_DEAUTH_REQ).
  - eapply (wlan_msg_says s _ m sta ap e WLAN_PROBE); try done.
    + unfold handle_probe_request. by rewrite E1, E2.
    + intros r. unfold fmap, reader_map. rewrite <- app_assoc. by rewrite (read_data WLAN_PROBE).
Qed.

(** C38. A reassociation desynchronises the connection: the access point sends the
    48 octets of the station's parameters too, the class registered for the
    message reads the addresses only, and the controller takes the parameters for
    the start of the next message. *)
Theorem reassociation_desynchronises s m e pre da ap sta mid alg rest l st :
  can_report s m sta ap e → (∀ t n, env_calloc t n = true) →
  length pre = 4%nat → length da = 6%nat → length mid = 8%nat → 0 ≤ alg < 65536 →
  deref (Hapd.get_stas s) l = Some st → rates_ok st →
  WLAN_FC_GET_STYPE (le_dec (take 2 pre)) = 2 →
  length (params st) = 48%nat ∧
  says s (process_sta_msg (auth_frame pre da sta mid alg rest) (Some l))
    (<[sta := assoc_info st e]> m)
    (OFWlanReassociationRequest (WlanData (WlanHeader 7) sta ap)) (params st).
Proof.
  intros C Ha Lp Ld Lm Hal Est R Hst. pose proof C as [I A Em Lr Hs Hm La]. pose proof A as [Ls _].
  destruct (auth_frame_fields pre ap sta mid alg rest Lp La Ls Lm Hal) as (E1 & E2 & E3).
  split.
  { unfold params. rewrite !length_app, !length_be_enc, rates32_length by done. done. }
  destruct (assoc_says s m sta ap e (auth_frame pre ap sta mid alg rest) l st true
    (OFWlanReassociationRequest (WlanData (WlanHeader 7) sta ap)) (params st)
    (OFWlanReassociationRequest <$> readFrom) C Ha E1 E2 Est R eq_refl)
    as (s' & data & res & Es & Hsays).
  { intros r. unfold fmap, reader_map. rewrite <- !app_assoc.
    by rewrite (read_data WLAN_REASSOC_REQ). }
  exists s', data, res. rewrite (process_frame pre da ap) by done. by rewrite Hst.
Qed.

End Sending.

(** ** Witnesses *)

(** hostapd's record of the known station, with four rates. *)
Definition hapd_sta : Hapd.sta_info :=
  Hapd.StaInfo sta9 0 1 0 1073 10 ([2; 4; 11; 22] ++ replicate 28 0) 4 0 false false false false
    false false false false 0 0 false false 0 0 0 0 false false false false 0 0
    Hapd.new_mlme.
Definition hapd_push : option (loc * htab Hapd.sta_info) := push (empty_tab 256) 9 hapd_sta.
Definition hapd_loc : loc := match hapd_push with Some (l, _) => l | None => 1%positive end.
Definition ap_assoc : ap_state :=
  Hapd.set_hapd (Hapd.home_network 0
    (match hapd_push with Some (_, t) => t | None => empty_tab 256 end) [hapd_loc] 1) ap_known.

Lemma ap_assoc_reports :
  can_report ap_assoc {[sta9 := known_sta]} sta9 [2; 0; 0; 0; 0; 1] known_sta.
Proof.
  destruct ap_known_sta as [[I1 I2 I3 I4] [A1 A2]].
  constructor; [by constructor|by constructor|apply lookup_singleton_eq|reflexivity
    |discriminate|reflexivity|reflexivity].
Qed.

Lemma hapd_sta_rates : rates_ok hapd_sta.
Proof. constructor; [reflexivity|]. simpl. lia. Qed.

Lemma frames_understood_witness :
  says ap_assoc
    (@process_sta_msg lp64_le ap_env
       (auth_frame [0; 0; 0; 0] (replicate 6 255) sta9 (replicate 8 0) 0 []) (Some hapd_loc))
    (<[sta9 := assoc_info hapd_sta known_sta]> {[sta9 := known_sta]})
    (OFWlanAssocRequest (Association (WlanData (WlanHeader 4) sta9 [2; 0; 0; 0; 0; 1])
       1 1073 10 ([2; 4; 11; 22] ++ replicate 28 0) 4 0)) [].
Proof.
  refine (@frames_understood lp64_le ap_env ap_assoc {[sta9 := known_sta]} known_sta
    [0; 0; 0; 0] (replicate 6 255) [2; 0; 0; 0; 0; 1] sta9 (replicate 8 0) 0 [] hapd_loc hapd_sta
    _ ap_assoc_reports (λ _ _, eq_refl) eq_refl eq_refl eq_refl _ _ hapd_sta_rates _).
  - lia.
  - vm_compute. reflexivity.
  - vm_compute. reflexivity.
Defined.

Lemma reassociation_desynchronises_witness :
  length (params hapd_sta) = 48%nat ∧
  says ap_assoc
    (@process_sta_msg lp64_le ap_env
       (auth_frame [32; 0; 0; 0] (replicate 6 255) sta9 (replicate 8 0) 0 []) (Some hapd_loc))
    (<[sta9 := assoc_info hapd_sta known_sta]> {[sta9 := known_sta]})
    (OFWlanReassociationRequest (WlanData (WlanHeader 7) sta9 [2; 0; 0; 0; 0; 1]))
    (params hapd_sta).
Proof.
  refine (@reassociation_desynchronises lp64_le ap_env ap_assoc {[sta9 := known_sta]} known_sta
    [32; 0; 0; 0] (replicate 6 255) [2; 0; 0; 0; 0; 1] sta9 (replicate 8 0) 0 [] hapd_loc hapd_sta
    ap_assoc_reports (λ _ _, eq_refl) eq_refl eq_refl eq_refl _ _ hapd_sta_rates _).
  - lia.
  - vm_compute. reflexivity.
  - vm_compute. reflexivity.
Defined.
