(* ===== verification/System.v ===== *)
(** * Access point, controller and gateway together

    The programs exchange octets only.  A packet of a new connection is held by
    the access point, the controller assigns a port to the connection, the access
    point releases the packet with that port: the theorems of this file run the C
    code and the Java code on each other's messages. *)

From Stdlib Require Import ZArith Lia.
From S2P Require Import Prelude CMem Java FlMessages FlController FlProps FlHandover FlPorts.
Import Fl Ctl.
From S2P Require Import CStruct CMonad OpenFlow Checksum IpText Chain CSteps Agent AgentProps.
From S2P Require Import NatTable Packet Headers ApData Station ApState ApNat ApNatProps ApAgent.
From S2P Require Import ApAgentProps ApStaProps FlWire.

(** ** The controller's messages as octets *)

Lemma be_enc_dec_n n l : length l = n → bytes_ok l → be_enc n (be_dec l) = l.
Proof. intros <-. apply be_enc_dec. Qed.

(** The header of a vendor message of [n] octets. *)
Definition ctl_header (n : Z) : bytes := [1; 4] ++ be_enc 2 n ++ be_enc 4 0.

Lemma encode_vendor d bs :
  vd_writeTo d = inr bs → zlen bs = vd_length d → vd_length d < 60000 →
  encode (new_vendor d) = inr (ctl_header (12 + vd_length d) ++ be_enc 4 1 ++ bs).
Proof.
  intros Ew El Hl. unfold encode, OFVendor_writeTo, new_vendor. cbn [vendorData]. rewrite Ew.
  pose proof (zlen_nonneg bs). cbn [ve_super vendor]. unfold getLengthU. cbn [length_].
  rewrite land_jshort. unfold OFVendor_MINIMUM_LENGTH. rewrite Z.mod_small by lia.
  unfold OFMessage_writeTo. cbn [version type length_ xid].
  unfold writeByte, writeShort, writeInt, jshort. rewrite (be_enc_signed 2 16) by done.
  match goal with |- (if zlen ?x <=? _ then _ else _) = _ =>
    assert (E : zlen x = 12 + vd_length d) by (rewrite !zlen_app, !zlen_be_enc; lia) end.
  rewrite E, Z.leb_refl. by rewrite <- !app_assoc.
Qed.

(** [WLAN_NAT_ADD] as the controller writes it. *)
Definition nat_add_octets (sta : bytes) (ip : Z) (e : NATMap) : bytes :=
  ctl_header 40 ++ be_enc 4 1 ++ be_enc 4 20 ++ sta ++ [0; 0] ++ be_enc 4 ip
  ++ be_enc 4 (destinationIP e) ++ be_enc 2 (sourcePort e) ++ be_enc 2 (destinationPort e)
  ++ be_enc 2 (newPort e) ++ [0; 0].

Lemma encode_nat_add sta ip e :
  length sta = 6%nat → encode (nat_add_msg sta ip e) = inr (nat_add_octets sta ip e).
Proof.
  intros Ls. unfold nat_add_msg. erewrite encode_vendor; [|reflexivity| |done].
  - unfold nat_add_octets. cbn [vd_length getLength OFNATMessageExt_data OFNATMessage_data
      OFWlanHeader_data ne_super nm_super].
    change (12 + (4 + 20 + 4)) with 40. f_equal. rewrite <- !app_assoc. done.
  - unfold writeShort, writeInt. rewrite !zlen_app, !zlen_be_enc. unfold zlen. cbn. rewrite Ls. done.
Qed.

(** ** A port for a new connection *)

Section Port.
  Context `{Platform} `{Env} `{Hapd.StaSize} `{JavaEnv}.
  Context (arp : nat → option (list (bytes * bytes))) (ifs : nat → list (bytes * (Z * Z * Z * Z))).

Lemma process_vendor hd r s :
  length hd = 8%nat → ld8 hd 1 = Some 4 →
  ap_process_controller_msg arp ifs (hd ++ r) s = handle_vendor (hd ++ r) s.
Proof.
  intros L E. unfold ap_process_controller_msg, process_controller_msg. explode hd.
  simpl in E. injection E as ->. load. by rewrite nat_dec_1.
Qed.

(** The controller's part: it reads the request and answers with a port. *)
Lemma controller_answers w c xid mac src dst sport dport :
  length xid = 4%nat → length mac = 6%nat → length src = 4%nat →
  length dst = 4%nat → length sport = 2%nat → length dport = 2%nat →
  bytes_ok src → bytes_ok dst → bytes_ok sport → bytes_ok dport →
  write_fails (writes c) = false →
  ∃ v c' e, (∀ O (ro : Z → reader O),
      parseMessageOne ro (ap_msg WLAN_PORT_TRANSLATION xid (nat_body mac src dst sport dport))
      = inr (Some (inl v, []))) ∧
    (∀ O, receive (O:=O) w (inl v) c = (inr STOP, c')) ∧
    written c' = (w, nat_add_msg mac (sourceIP e) e) :: written c ∧
    In e (default [] (natTable c' !! toHexString mac)) ∧
    nat_add_octets mac (sourceIP e) e =
      ctl_header 40 ++ be_enc 4 1 ++ be_enc 4 20 ++ mac ++ [0; 0] ++ src ++ dst ++ sport ++ dport
      ++ be_enc 2 (newPort e) ++ [0; 0].
Proof.
  intros Lx L1 L2 L3 L4 L5 O1 O2 O3 O4 Hw.
  set (d := NATMessageExt (NATMessage (WlanHeader 21) mac (jint (be_dec src)) (jint (be_dec dst))
       (jshort (be_dec sport)) (jshort (be_dec dport))) (jshort 0)).
  destruct (answer_port w d c) as (e & c0 & E1 & E2 & E3 & Ef & En & Ew & E).
  eexists _, _, e. split; [|split; [|split; [|split]]].
  - intros O ro. rewrite <- (app_nil_r (ap_msg _ _ _)).
    eapply parse_ap_msg with (d := OFPortTranslation d); [done| |reflexivity|].
    + unfold nat_body. rewrite !zlen_app. unfold zlen. rewrite L1, L2, L3, L4, L5. done.
    + unfold fmap, reader_map, nat_body. rewrite <- !app_assoc.
      rewrite <- (be_enc_dec_n 2 sport), <- (be_enc_dec_n 2 dport) at 1 by done.
      change ([0; 0] ++ [0; 0] ++ []) with (be_enc 2 0 ++ [0; 0] ++ []).
      by rewrite (read_nat_ext WLAN_PORT_TRANSLATION).
  - intros O. unfold receive. cbn [vendor vendorData]. change (1 =? Fl.AP_EXPERIMENTER_ID) with true.
    cbv iota. etrans; [eapply jbind_ret; exact E|reflexivity].
  - simpl. rewrite En, Hw. by rewrite Ew.
  - by apply List.find_some in Ef as [? _].
  - injection E3 as E3 E4. unfold nat_add_octets. rewrite E1, E2, E3, E4.
    unfold d. cbn [ne_super nm_sourceIP nm_destinationIP nm_sourcePort nm_destinationPort].
    unfold jint, jshort. rewrite !(be_enc_signed 4 32), !(be_enc_signed 2 16) by done.
    by rewrite !be_enc_dec_n by done.
Qed.

(** The access point's part: the thread that sends the request. *)
Lemma request_sent s hw src dst sport dport :
  (∀ t n, env_calloc t n = true) → sock (ap_conn s) ≠ -1 → length hw = 8%nat →
  length src = 4%nat → length dst = 4%nat → bytes_ok src → bytes_ok dst →
  let req := nat_body (take 6 hw) src dst (nat_enc 2 sport) (nat_enc 2 dport) in
  let data := ap_msg WLAN_PORT_TRANSLATION (xid_in s) req in
  port_request hw src dst sport dport = req ∧
  ∃ res, run_thread (SendNatPortEntry req) s = Ret () (sent data res (tick (tick s))).
Proof.
  intros Ha Hs Lh L1 L2 O1 O2 req data. split.
  { unfold port_request, req, nat_body. done. }
  eexists. cbn [run_thread]. unfold send_nat_port_entry, req.
  rewrite send_nat_step; try done; try apply length_nat_enc; try apply nat_enc_ok.
  - by apply send_whole.
  - rewrite length_take. lia.
Qed.

Lemma port_bound p : 0 ≤ nat_dec (be_enc 2 p) < 65536.
Proof.
  pose proof (nat_enc_dec _ (be_enc_ok 2 p)) as En. rewrite length_be_enc in En.
  rewrite <- En, nat_dec_enc. by apply Z.mod_pos_bound.
Qed.

Lemma sent_keeps s m bs data res :
  ap_nat_inv s m → port_inv s bs →
  let s' := sent data res (tick (tick s)) in
  ap_nat_inv s' m ∧ port_inv s' bs ∧ ap_threads s' = ap_threads s ∧
  events (ap_sys s') = EvSend (sock (ap_conn s)) data res :: events (ap_sys s) ∧
  ap_ifIP s' = ap_ifIP s.
Proof. intros [] []. split_and!; done. Qed.

(** C1. End to end, with the octets each program sends to the other: a packet of a
    new connection is held by the access point; the thread it starts sends a
    request that the controller reads whole; the controller's answer, an entry it
    keeps for the station, is encoded and read by the access point; then every held
    packet of the connection has been released exactly once, with the access
    point's address and the port of the controller's entry, packets of other
    connections are still held, and the connection has its entry at the access
    point. *)
Theorem port_assignment_end_to_end s m bs qh tb hw w c rest :
  ap_nat_inv s m → port_inv s bs → ap_pkt_ok 0 tb → holdable tb →
  nfq_hw_addr tb = Some hw → length hw = 8%nat →
  (∀ t n, env_calloc t n = true) → (∀ t, env_thread t = 0) → sock (ap_conn s) ≠ -1 →
  let d := nfq_payload (ap_nfq tb) in
  in_subnet (src_of d) (ap_subnet s) = Some true → m !! conn_of d = None →
  write_fails (writes c) = false →
  ∃ s1 s2 s3 s4 req data res v c' reply out e l lh bs1 evs,
    let ne := NatMap (src_of d) (dst_of d) (sport_of d) (dport_of d)
                (nat_dec (be_enc 2 (newPort e))) in
    handle_pkt tb 0 qh s = Ret 1 s1 ∧ events (ap_sys s1) = events (ap_sys s) ∧
    concat bs1 ≡ₚ (lh, held_of qh tb) :: concat bs ∧
    ap_threads s1 = ap_threads s ++ [SendNatPortEntry req] ∧
    run_thread (SendNatPortEntry req) s1 = Ret () s2 ∧
    events (ap_sys s2) = EvSend (sock (ap_conn s)) data res :: events (ap_sys s) ∧
    (∀ O (ro : Z → reader O), parseMessageOne ro data = inr (Some (inl v, []))) ∧
    (∀ O, receive (O:=O) w (inl v) c = (inr STOP, c')) ∧
    written c' = (w, reply) :: written c ∧
    In e (default [] (natTable c' !! toHexString (take 6 hw))) ∧
    encode reply = inr out ∧
    ap_process_controller_msg arp ifs (out ++ rest) s2 = Ret () s3 ∧
    run_thread (ReinjectPkt (Some l)) s3 = Ret () s4 ∧
    ap_threads s3 = ap_threads s1 ++ [ReinjectPkt (Some l)] ∧
    events (ap_sys s4) = rev evs ++ events (ap_sys s2) ∧
    Forall2 (λ x, released ne (ap_ifIP s) x.2) (filter (of_conn ne) (concat bs1)) evs ∧
    of_conn ne (lh, held_of qh tb) ∧
    port_inv s4 (filter (λ x, ¬ of_conn ne x) <$> bs1) ∧
    ap_nat_inv s4 (<[conn_of d := ne]> m).
Proof.
  intros I PI PO HO Hhw Lhw Ha Ht Hs d Hsub Hm Hw. pose proof PO as [Hip Hr Ho _].
  destruct (addr_fields d Hip) as (_ & _ & Ls & Ld & Os & Od).
  assert (Ls' : length (src_of d) = 4%nat) by (unfold zlen in Ls; lia).
  assert (Ld' : length (dst_of d) = 4%nat) by (unfold zlen in Ld; lia).
  destruct (handle_hold s m bs qh tb hw I PI PO HO Hhw Lhw Ha Ht Hsub Hm)
    as (s1 & lh & bs1 & E1 & Ev1 & Hp & PI1 & I1 & T1 & C1 & F1 & _). fold d in T1.
  destruct (request_sent s1 hw (src_of d) (dst_of d) (sport_of d) (dport_of d))
    as (Er & res & E2); try done; [by rewrite C1|]. rewrite Er in T1. clear Er.
  set (req := nat_body _ _ _ _ _) in *. set (data := ap_msg _ _ _) in E2.
  set (s2 := sent data res _) in E2.
  destruct (controller_answers w c (xid_in s1) (take 6 hw) (src_of d) (dst_of d)
    (nat_enc 2 (sport_of d)) (nat_enc 2 (dport_of d))) as (v & c' & e & Hv & Hc & Hwr & He & Eo);
    try done; try apply length_nat_enc; try apply nat_enc_ok; [rewrite length_take; lia|].
  pose proof (nat_enc_dec _ (be_enc_ok 2 (newPort e))) as En. rewrite length_be_enc in En.
  pose proof (port_bound (newPort e)) as Bn. set (np := nat_dec (be_enc 2 (newPort e))) in *.
  destruct (sent_keeps s1 m bs1 data res I1 PI1) as (I2 & PI2 & T2 & Ev2 & F2).
  fold s2 in I2, PI2, T2, Ev2, F2.
  destruct (assign_then_release s2 m bs1 d (ctl_header 40) (take 6 hw) [0; 0] np ([0; 0] ++ rest))
    as (s3 & s4 & l & evs & E3 & T3 & E4 & Ev4 & Rel & PI4 & I4); try done;
    [by apply Ho|rewrite length_take; lia|].
  exists s1, s2, s3, s4, req, data, res, v, c', (nat_add_msg (take 6 hw) (sourceIP e) e).
  exists (nat_add_octets (take 6 hw) (sourceIP e) e), e, l, lh, bs1, evs.
  split_and!; try done.
  - by rewrite Ev2, C1, Ev1.
  - apply encode_nat_add. rewrite length_take. lia.
  - rewrite Eo. etrans; [|exact E3]. unfold ap_vendor, nat_add. rewrite En, <- !app_assoc.
    by apply process_vendor.
  - by rewrite F2, F1 in Rel.
  - by apply (held_of_ok qh tb Hip Hr HO).
Qed.

End Port.

(** ** A station's parameters through a handover *)

Section Handover.
  Context `{Platform} `{Env} `{Hapd.StaSize}.
  Context (arp : nat → option (list (bytes * bytes))) (ifs : nat → list (bytes * (Z * Z * Z * Z))).

(** [WLAN_UPDATE_STA_ADD] as the controller writes it. *)
Definition update_octets (sta : bytes) (i : STAAPInfo) (rates : bytes) : bytes :=
  ctl_header 72 ++ be_enc 4 1 ++ be_enc 4 17 ++ sta ++ be_enc 2 (Ctl.auth_alg i)
  ++ be_enc 2 (Ctl.aid i) ++ be_enc 2 (Ctl.capability i) ++ be_enc 2 (Ctl.listen_interval i)
  ++ [0; 0] ++ rates ++ be_enc 4 (Ctl.supported_rates_len i) ++ be_enc 1 (Ctl.qosinfo i)
  ++ [0; 0; 0].

Lemma encode_update sta i rates :
  length sta = 6%nat → Ctl.supported_rates i = Some rates → length rates = 32%nat →
  encode (update_sta_add sta i) = inr (update_octets sta i rates).
Proof.
  intros Ls Er Lr. unfold update_sta_add. rewrite Er. erewrite encode_vendor; [|reflexivity| |done].
  - unfold update_octets. cbn [vd_length getLength OFWlanUpdateSTA_data OFWlanHeader_data us_super].
    by change (12 + (4 + 56)) with 72.
  - unfold writeShort, writeInt, writeByte. rewrite !zlen_app, !zlen_be_enc. unfold zlen. cbn.
    rewrite Ls, Lr. done.
Qed.

(** What the new access point keeps of the station, and gives to hostapd. *)
Definition updated (i : STAAPInfo) (rates : bytes) (e : infoSTA) : infoSTA :=
  let n := Z.to_nat (Ctl.supported_rates_len i) in
  set_assoc_data (Ctl.aid i mod 65536) (Ctl.capability i mod 65536)
    (Ctl.listen_interval i mod 65536) (Ctl.qosinfo i mod 256)
    (take n rates ++ drop n (supported_rates e)) (Ctl.supported_rates_len i)
    (set_auth_alg (Ctl.auth_alg i mod 65536) (set_status ApData.ASSOCIATED e)).

Lemma ntohs_be v (l : bytes) : be_enc 2 v = l → ntohs (nat_dec l) = v mod 65536.
Proof.
  intros <-. unfold ntohs. apply hton_dec; [apply be_enc_ok|apply length_be_enc|].
  exact (be_dec_enc 2 v).
Qed.

(** The loads of the message's members. *)
Ltac get_field :=
  open_fields; unfold ldint;
  match goal with |- context [ldn ?M ?o ?n] =>
    let E := fresh in eassert (E : ldn M o n = Some _) by eval_mem; rewrite E end;
  reflexivity.

Lemma update_fields sta i rates rest :
  length sta = 6%nat → length rates = 32%nat → 0 ≤ Ctl.supported_rates_len i ≤ 32 →
  let oh := update_octets sta i rates ++ rest in
  let T := ofp_wlan_add_update_msg in
  (∃ v, ldf ofp_header 0 ["type"] oh = Some v ∧ v = 4) ∧
  (∃ v, ldf ofp_vendor_header 0 ["vendor"] oh = Some v ∧ ntohl v = 1) ∧
  (∃ v, ldf ofp_wlan_header 0 ["subtype"] oh = Some v ∧ ntohl v = 17) ∧
  ldf_bytes T body ["staMacAddress"] 6 oh = Some sta ∧
  (∃ v, ldf T body ["auth_alg"] oh = Some v ∧ ntohs v = Ctl.auth_alg i mod 65536) ∧
  (∃ v, ldf T body ["aid"] oh = Some v ∧ ntohs v = Ctl.aid i mod 65536) ∧
  (∃ v, ldf T body ["capability"] oh = Some v ∧ ntohs v = Ctl.capability i mod 65536) ∧
  (∃ v, ldf T body ["listen_interval"] oh = Some v ∧ ntohs v = Ctl.listen_interval i mod 65536) ∧
  (∃ v, ldf T body ["qosinfo"] oh = Some v ∧ v = Ctl.qosinfo i mod 256) ∧
  (∃ v, ldf T body ["supported_rates_len"] oh = Some v ∧ ntohl v = Ctl.supported_rates_len i) ∧
  ldf_bytes T body ["supported_rates"] (Ctl.supported_rates_len i) oh
    = Some (take (Z.to_nat (Ctl.supported_rates_len i)) rates).
Proof.
  intros Ls Lr Hl. unfold update_octets.
  change (ctl_header 72) with [1; 4; 0; 72; 0; 0; 0; 0].
  change (be_enc 4 1) with [0; 0; 0; 1]. change (be_enc 4 17) with [0; 0; 0; 17].
  pose proof (be_enc_ok 4 (Ctl.supported_rates_len i)) as Ol.
  pose proof (be_dec_enc 4 (Ctl.supported_rates_len i)) as Dl.
  rewrite Z.mod_small in Dl by (simpl; lia).
  pose proof (length_be_enc 4 (Ctl.supported_rates_len i)) as L0.
  pose proof (length_be_enc 2 (Ctl.auth_alg i)) as L1.
  pose proof (length_be_enc 2 (Ctl.aid i)) as L2.
  pose proof (length_be_enc 2 (Ctl.capability i)) as L3.
  pose proof (length_be_enc 2 (Ctl.listen_interval i)) as L4.
  change (be_enc 1 (Ctl.qosinfo i)) with [Ctl.qosinfo i mod 256].
  remember (be_enc 4 (Ctl.supported_rates_len i)) as b0. clear Heqb0.
  remember (be_enc 2 (Ctl.auth_alg i)) as b1 eqn:E1. remember (be_enc 2 (Ctl.aid i)) as b2 eqn:E2.
  remember (be_enc 2 (Ctl.capability i)) as b3 eqn:E3.
  remember (be_enc 2 (Ctl.listen_interval i)) as b4 eqn:E4. symmetry in E1, E2, E3, E4.
  explode sta. explode b0. explode b1. explode b2. explode b3. explode b4. explode rates.
  match goal with |- context [?X ++ rest] =>
    let v := eval cbv [app] in X in change (X ++ rest) with (v ++ rest) end.
  split_and!; try (eexists; split; [get_field|]);
    [apply nat_dec_1|by apply (ntohl_dec _ 1); [concrete|..]|by apply (ntohl_dec _ 17); [concrete|..]
    |open_fields; eval_mem|by apply ntohs_be..|apply nat_dec_1|by apply ntohl_dec|].
  open_fields. apply ldn_app_l. rewrite ldn_ok; [|vm_compute; congruence|lia|].
  2: { match goal with |- ?o + ?n ≤ zlen ?v => let o' := eval vm_compute in o in
         let k := eval vm_compute in (zlen v) in change (o' + n ≤ k) end. lia. }
  match goal with |- Some (take _ ?d) = _ => let v := eval vm_compute in d in change d with v;
    let r := eval vm_compute in (take 32 v) in let c := eval vm_compute in (drop 32 v) in
    change v with (r ++ c) end.
  rewrite take_app_le; [done|]. rewrite Lr. lia.
Qed.

(** A message of the controller about a station gets to its handler. *)
Lemma wlan_dispatch oh sub s :
  (∃ v, ldf ofp_header 0 ["type"] oh = Some v ∧ v = 4) →
  (∃ v, ldf ofp_vendor_header 0 ["vendor"] oh = Some v ∧ ntohl v = 1) →
  (∃ v, ldf ofp_wlan_header 0 ["subtype"] oh = Some v ∧ ntohl v = sub) →
  (sub = 17 → ap_process_controller_msg arp ifs oh s = wlan_update_sta oh s) ∧
  (sub = 18 → ap_process_controller_msg arp ifs oh s = wlan_remove_sta oh s).
Proof.
  intros (? & G1 & ->) (? & G2 & V2) (? & G3 & V3).
  unfold ap_process_controller_msg, process_controller_msg. rewrite (opt_step _ _ _ _ G1).
  change (enum_of 4) with (Some OFPT_VENDOR). cbv iota. unfold handle_vendor.
  rewrite (opt_step _ _ _ _ G2), V2.
  change (1 =? NX_VENDOR_ID) with false. change (1 =? AP_EXPERIMENTER_ID) with true. cbv iota.
  rewrite (opt_step _ _ _ _ G3), V3. by split; intros ->.
Qed.

(** [WLAN_REMOVE_STA] as the controller writes it. *)
Definition remove_octets (sta : bytes) : bytes :=
  ctl_header 22 ++ be_enc 4 1 ++ be_enc 4 18 ++ sta.

Lemma encode_remove sta :
  length sta = 6%nat → encode (remove_sta sta) = inr (remove_octets sta).
Proof.
  intros Ls. unfold remove_sta. erewrite encode_vendor; [|reflexivity| |done].
  - unfold remove_octets. cbn [vd_length getLength OFWlanSTAMessage_data OFWlanHeader_data sm_super].
    by change (12 + (4 + 6)) with 22.
  - unfold writeInt. rewrite !zlen_app, !zlen_be_enc. unfold zlen. cbn. by rewrite Ls.
Qed.

Lemma remove_fields sta rest : length sta = 6%nat →
  let oh := remove_octets sta ++ rest in
  (∃ v, ldf ofp_header 0 ["type"] oh = Some v ∧ v = 4) ∧
  (∃ v, ldf ofp_vendor_header 0 ["vendor"] oh = Some v ∧ ntohl v = 1) ∧
  (∃ v, ldf ofp_wlan_header 0 ["subtype"] oh = Some v ∧ ntohl v = 18) ∧
  station_of oh = Some sta.
Proof.
  intros Ls. unfold remove_octets, station_of.
  change (ctl_header 22) with [1; 4; 0; 22; 0; 0; 0; 0].
  change (be_enc 4 1) with [0; 0; 0; 1]. change (be_enc 4 18) with [0; 0; 0; 18].
  explode sta.
  match goal with |- context [?X ++ rest] =>
    let v := eval cbv [app] in X in change (X ++ rest) with (v ++ rest) end.
  split_and!; try (eexists; split; [get_field|]);
    [apply nat_dec_1|by apply (ntohl_dec _ 1); [concrete|..]|by apply (ntohl_dec _ 18); [concrete|..]
    |open_fields; eval_mem].
Qed.

(** What the old access point keeps of the station. *)
Definition removed (e : infoSTA) : infoSTA :=
  set_rssi 0 (set_status ApData.NOT_AUTHENTICATED e).

Lemma remove_read s m e sta rest :
  sta_inv s m → addr_ok s sta → m !! sta = Some e →
  ∃ s1, ap_process_controller_msg arp ifs (remove_octets sta ++ rest) s
        = Hapd.remove_STA (removed e) s1 ∧
    sta_inv s1 (<[sta := removed e]> m) ∧ sta_frame s s1.
Proof.
  intros I A Em. pose proof A as [Ls _].
  destruct (remove_fields sta rest Ls) as (G1 & G2 & G3 & G4).
  rewrite (proj2 (wlan_dispatch _ 18 s G1 G2 G3) eq_refl). unfold wlan_remove_sta.
  rewrite (opt_step _ _ _ _ G4).
  edestruct (lookup_sta (B:=unit)) as (p & E & Hp); [exact I|exact A|].
  erewrite E. clear E. rewrite Em in Hp. destruct Hp as (l & bs & -> & Hk & Hin & R).
  unfold changeStatus. cbv iota.
  edestruct (locked_write_ok (B:=unit)) with (f := removed)
    as (s1 & bs1 & E & I1 & F1 & _ & Hin1 & R1); [exact I|exact R|exact Hin|done|].
  erewrite E. clear E.
  rewrite (node_read_ok (A:=infoSTA) _ s1 l (removed e))
    by (eapply rep_deref; [apply R1|exact Hin1]).
  exists s1. rewrite Hk in I1. done.
Qed.

Lemma update_read s m e sta i rates rest :
  sta_inv s m → addr_ok s sta → m !! sta = Some e → length (supported_rates e) = 32%nat →
  length rates = 32%nat → 0 ≤ Ctl.supported_rates_len i ≤ 32 →
  ∃ s1, ap_process_controller_msg arp ifs (update_octets sta i rates ++ rest) s
        = Hapd.add_STA (updated i rates e) s1 ∧
    sta_inv s1 (<[sta := updated i rates e]> m) ∧ sta_frame s s1.
Proof.
  intros I A Em Lre Lr Hl. pose proof A as [Ls _].
  destruct (update_fields sta i rates rest Ls Lr Hl) as (G1 & G2 & G3 & G4 & (? & G5 & V5) & (? & G6 & V6) & (? & G7 & V7) & (? & G8 & V8) & (? & G9 & ->)
    & (? & G10 & V10) & G11).
  set (oh := update_octets sta i rates ++ rest) in *.
  rewrite (proj1 (wlan_dispatch oh 17 s G1 G2 G3) eq_refl).
  unfold wlan_update_sta. rewrite (opt_step _ _ _ _ G4).
  edestruct (lookup_sta (B:=unit)) as (p & E & Hp); [exact I|exact A|].
  erewrite E. clear E. rewrite Em in Hp. destruct Hp as (l & bs & -> & Hk & Hin & R).
  unfold changeStatus. cbv iota.
  edestruct (locked_write_ok (B:=unit)) with (f := set_status ApData.ASSOCIATED)
    as (s1 & bs1 & E & I1 & F1 & _ & Hin1 & R1); [exact I|exact R|exact Hin|done|].
  erewrite E. clear E.
  rewrite (opt_step _ _ _ _ G5), (opt_step _ _ _ _ G6), (opt_step _ _ _ _ G7),
    (opt_step _ _ _ _ G8), (opt_step _ _ _ _ G9), (opt_step _ _ _ _ G10), V10,
    (opt_step _ _ _ _ G11), V5, V6, V7, V8.
  rewrite (node_read_ok (A:=infoSTA) _ s1 l (set_status ApData.ASSOCIATED e))
    by (eapply rep_deref; [apply R1|exact Hin1]).
  set (n := Z.to_nat (Ctl.supported_rates_len i)) in *.
  assert (Ln : length (take n rates) = n) by (rewrite length_take; unfold n; lia).
  assert (Es : stn (supported_rates e) 0 (take n rates)
               = Some (take n rates ++ drop n (supported_rates e))).
  { pose proof (stn_mid [] (supported_rates e) [] (take n rates) 0 eq_refl) as Es.
    rewrite !app_nil_r, Ln in Es. apply Es. unfold n. lia. }
  rewrite (opt_step _ _ _ _ Es).
  edestruct (locked_write_ok (B:=unit)) with (s := s1)
    (f := λ e0, set_assoc_data (Ctl.aid i mod 65536) (Ctl.capability i mod 65536)
            (Ctl.listen_interval i mod 65536) (Ctl.qosinfo i mod 256)
            (take n rates ++ drop n (supported_rates e)) (Ctl.supported_rates_len i)
            (set_auth_alg (Ctl.auth_alg i mod 65536) e0))
    as (s2 & bs2 & E & I2 & F2 & _ & Hin2 & R2); [exact I1|exact R1|exact Hin1|done|].
  erewrite E. clear E.
  rewrite (node_read_ok (A:=infoSTA) _ s2 l (updated i rates e))
    by (eapply rep_deref; [apply R2|exact Hin2]).
  exists s2. split; [done|]. rewrite Hk in I1, I2.
  change (sta_key (set_status ApData.ASSOCIATED e)) with (sta_key e) in I2. rewrite Hk in I2.
  rewrite insert_insert_eq in I2. split; [exact I2|].
  destruct F1 as (? & ? & ? & ? & ?), F2 as (? & ? & ? & ? & ?). unfold sta_frame. split_and!; congruence.
Qed.

(** hostapd's parameters of a station are in the range of their types. *)
Record sta_ranges (st : Hapd.sta_info) : Prop := {
  sr_aid : 0 ≤ Hapd.aid st < 65536;
  sr_capability : 0 ≤ Hapd.capability st < 65536;
  sr_listen : 0 ≤ Hapd.listen_interval st < 65536;
}.

(** The entry the controller keeps of an association reported for [st]. *)
Definition reported (st : Hapd.sta_info) (sta ap : bytes) : OFWlanAssociation :=
  Association (WlanData (WlanHeader 4) sta ap) (jshort (Hapd.aid st)) (jshort (Hapd.capability st))
    (jshort (Hapd.listen_interval st)) (rates32 st) (Hapd.supported_rates_len st)
    (jbyte (Hapd.qosinfo st)).

Lemma assoc_entry `{JavaEnv} w st sta ap c i :
  STAAPList c !! (toHexString sta, toHexString ap) = Some i →
  (handleAssocReq w (reported st sta ap) c).2 =
  upd_STAAPList (<[(toHexString sta, toHexString ap) :=
    set_assoc (jshort (Hapd.aid st)) (jshort (Hapd.capability st))
      (jshort (Hapd.listen_interval st)) (Some (rates32 st)) (Hapd.supported_rates_len st)
      (Ctl.set_status Ctl.ASSOCIATED i)]>) c.
Proof.
  intros Ei. unfold handleAssocReq, lookupSenderSTAAP. rewrite jgets_step.
  cbn [reported ac_super wd_sta wd_ap]. rewrite Ei. unfold upd_info. rewrite jmodify_step.
  unfold jmodify, upd_STAAPList. simpl.
  by rewrite (alter_insert_eq _ _ _ _ Ei), (alter_insert_eq _ _ _ _ (lookup_insert_eq _ _ _)),
    insert_insert_eq.
Qed.

Lemma mod_jshort v : 0 ≤ v < 65536 → jshort v mod 65536 = v.
Proof. intros Hv. rewrite (signed_mod 16) by lia. by apply Z.mod_small. Qed.

(** The parameters of an association survive a handover: those the old access
    point's hostapd had and reported reach the controller's entry, the
    UPDATE_STA_ADD of the handover, and the record the new access point hands to its
    own hostapd.  The one exception is [qosinfo], which the controller drops: the
    new access point always gets 0. *)
Theorem handover_carries_parameters `{JavaEnv} w w' st sta ap c i cand d t ip s m e rest :
  let c1 := (handleAssocReq w (reported st sta ap) c).2 in
  let new := sw (base_info c1 (toHexString sta) cand) in
  STAAPList c !! (toHexString sta, toHexString ap) = Some i → Ctl.qosinfo i = 0 →
  STAAPRSSIList c !! toHexString sta = Some cand →
  rs_sta d = sta → rs_ap d = ap → rs_rssi d < ap_rssi cand → toHexString ap ≠ ap_mac cand →
  (∀ n, write_fails n = false) → remote_ip new = inr t → toIPv4Address t = inr ip →
  rates_ok st → sta_ranges st → sta_inv s m → addr_ok s sta → m !! sta = Some e →
  length (supported_rates e) = 32%nat →
  ∃ msg out e' s1, (new, msg) ∈ written (handleAPRSSI w' d c1).2 ∧ encode msg = inr out ∧
    ap_process_controller_msg arp ifs (out ++ rest) s = Hapd.add_STA e' s1 ∧
    sta_inv s1 (<[sta := e']> m) ∧ sta_frame s s1 ∧
    status e' = ApData.ASSOCIATED ∧ address e' = address e ∧
    auth_alg e' = Ctl.auth_alg i mod 65536 ∧ aid e' = Hapd.aid st ∧
    capability e' = Hapd.capability st ∧ listen_interval e' = Hapd.listen_interval st ∧
    supported_rates_len e' = Hapd.supported_rates_len st ∧
    (let n := Z.to_nat (Hapd.supported_rates_len st) in
     take n (supported_rates e') = take n (Hapd.supported_rates st)) ∧
    qosinfo e' = 0 ∧ length (supported_rates e') = 32%nat.
Proof.
  intros c1 new Ei Hq Ec Esta Eap Hr Hne Hw Et Eip R [R1 R2 R3] I A Em Lre.
  pose proof (rates32_length st R) as Lr. destruct R as [Lst Hlen]. pose proof A as [Ls _].
  assert (E1 : c1 = upd_STAAPList (<[(toHexString sta, toHexString ap) := _]>) c)
    by (by apply assoc_entry).
  set (i1 := set_assoc _ _ _ _ _ _) in E1.
  assert (Ei1 : STAAPList c1 !! (toHexString sta, toHexString ap) = Some i1)
    by (rewrite E1; simpl; apply lookup_insert_eq).
  assert (Ec1 : STAAPRSSIList c1 !! toHexString sta = Some cand) by (by rewrite E1).
  subst sta ap.
  destruct (update_read s m e (rs_sta d) i1 (rates32 st) rest) as (s1 & E & I1 & F1); try done.
  exists (update_sta_add (rs_sta d) i1), (update_octets (rs_sta d) i1 (rates32 st)),
    (updated i1 (rates32 st) e), s1.
  split.
  { rewrite (ap_rssi_handover w' d c1 cand i1) by done.
    rewrite (send_handover_spec _ _ _ _ _ t ip) by done. rewrite Hw. cbn [snd].
    apply in_written; [done|]. rewrite !elem_of_app, elem_of_cons. right. by left. }
  split; [by apply encode_update|]. split; [exact E|]. split; [exact I1|]. split; [exact F1|].
  unfold updated. cbn. rewrite Hq. split_and!; try done; try (by apply mod_jshort).
  - rewrite take_app_le by (rewrite length_take; lia). rewrite take_take, Nat.min_id.
    unfold rates32. by rewrite take_app_le, take_take, Nat.min_id by (rewrite length_take; lia).
  - rewrite length_app, length_take, length_drop. lia.
Qed.

End Handover.

(** ** Witnesses *)

Lemma port_assignment_end_to_end_witness :
  ∃ s1 s2 s3 s4 req data v c' reply out e l,
    @handle_pkt lp64_le ap_env ap_query 0 5 ap_start = Ret 1 s1 ∧
    @run_thread lp64_le ap_env (SendNatPortEntry req) s1 = Ret () s2 ∧
    parseMessageOne no_other data = inr (Some (inl v, [])) ∧
    @receive calm_env unit 1 (inl v) init = (inr STOP, c') ∧
    In e (default [] (natTable c' !! toHexString [2; 0; 0; 0; 0; 9])) ∧
    encode reply = inr out ∧
    @ap_process_controller_msg lp64_le ap_env 1000 (λ _, None) (λ _, []) (out ++ []) s2 = Ret () s3 ∧
    @run_thread lp64_le ap_env (ReinjectPkt (Some l)) s3 = Ret () s4 ∧
    ap_nat_inv s4 (<[query_conn := NatMap [192; 168; 5; 9] [10; 6; 21; 107] 40975 13568
      (@nat_dec lp64_le (be_enc 2 (newPort e)))]> ∅).
Proof.
  assert (P0 : ap_pkt_ok 0 ap_query) by ap_concrete.
  assert (PH : holdable ap_query) by (constructor; vm_compute; congruence).
  assert (HS : in_subnet (src_of (nfq_payload (ap_nfq ap_query))) (ap_subnet ap_start) = Some true)
    by (vm_compute; reflexivity).
  pose proof (@port_assignment_end_to_end lp64_le ap_env 1000 calm_env (λ _, None) (λ _, [])
    ap_start ∅ (replicate 255 []) 5 ap_query [2; 0; 0; 0; 0; 9; 0; 0] 1 init []
    ap_start_nat ap_start_port P0 PH eq_refl eq_refl (λ _ _, eq_refl) (λ _, eq_refl)
    ltac:(discriminate) HS (lookup_empty _) eq_refl) as W.
  cbv zeta in W.
  assert (Q1 : @sport_of lp64_le (nfq_payload (ap_nfq ap_query)) = 40975) by (vm_compute; reflexivity).
  assert (Q2 : @dport_of lp64_le (nfq_payload (ap_nfq ap_query)) = 13568) by (vm_compute; reflexivity).
  assert (Q3 : src_of (nfq_payload (ap_nfq ap_query)) = [192; 168; 5; 9]) by (vm_compute; reflexivity).
  assert (Q4 : dst_of (nfq_payload (ap_nfq ap_query)) = [10; 6; 21; 107]) by (vm_compute; reflexivity).
  unfold conn_of in W. rewrite Q1, Q2, Q3, Q4 in W.
  destruct W as (s1 & s2 & s3 & s4 & req & data & res & v & c' & reply & out & e & l & lh & bs1
    & evs & E1 & _ & _ & _ & E2 & _ & Hv & Hc & _ & He & Eo & E3 & E4 & _ & _ & _ & _ & _ & I4).
  exists s1, s2, s3, s4, req, data, v, c', reply, out, e, l.
  split; [exact E1|]. split; [exact E2|]. split; [exact (Hv unit no_other)|].
  split; [exact (Hc unit)|]. split; [exact He|]. split; [exact Eo|]. split; [exact E3|].
  split; [exact E4|exact I4].
Defined.

(** The station of [ap_known] at the first access point, the second as candidate. *)
Definition sta9_at_ap1 : ctl := @play calm_env
  [(1, OFWlanProbe (WlanData (WlanHeader 12) sta9 ap1));
   (1, OFWlanAuthRequest (Authentication (WlanData (WlanHeader 0) sta9 ap1) 0));
   (2, OFWlanDataRSSI (WlanRSSI (WlanHeader 14) sta9 ap2 (-50)))] init.

Lemma handover_carries_parameters_witness :
  ∃ msg out e' s1,
    (2, msg) ∈ written (@handleAPRSSI calm_env 1 (WlanRSSI (WlanHeader 16) sta9 ap1 (-70))
      (@handleAssocReq 1 (reported hapd_sta sta9 ap1) sta9_at_ap1).2).2 ∧
    encode msg = inr out ∧
    @ap_process_controller_msg lp64_le ap_env 1000 (λ _, None) (λ _, []) (out ++ []) ap_known
      = Hapd.add_STA (H:=ap_env) (H2:=1000) e' s1 ∧
    aid e' = 1 ∧ capability e' = 1073 ∧ supported_rates_len e' = 4.
Proof.
  destruct ap_known_sta as [I A].
  destruct (@handover_carries_parameters lp64_le ap_env 1000 (λ _, None) (λ _, []) calm_env 1 1
    hapd_sta sta9 ap1 sta9_at_ap1
    (Info (toHexString sta9) (toHexString ap1) (Some Ctl.AUTHENTICATED) true 1 0 0 0 0 None 0 0)
    (AP (toHexString ap2) (-50) false 2) (WlanRSSI (WlanHeader 16) sta9 ap1 (-70))
    [49; 48; 46; 48; 46; 48; 46; 50] 167772162 ap_known {[sta9 := known_sta]} known_sta [])
    as (msg & out & e' & s1 & Hm & Eo & E & _ & _ & _ & _ & _ & Ea & Ec & _ & El & _).
  - vm_compute. reflexivity.
  - reflexivity.
  - vm_compute. reflexivity.
  - reflexivity.
  - reflexivity.
  - simpl. lia.
  - discriminate.
  - reflexivity.
  - vm_compute. reflexivity.
  - vm_compute. reflexivity.
  - exact hapd_sta_rates.
  - constructor; simpl; lia.
  - exact I.
  - exact A.
  - apply lookup_singleton_eq.
  - reflexivity.
  - exists msg, out, e', s1. split; [exact Hm|]. split; [exact Eo|]. split; [exact E|].
    split; [exact Ea|]. split; [exact Ec|exact El].
Defined.
