(* ===== verification/Signal.v ===== *)
(** * Signal strengths from Click to the access point's interface

    Click's element [PrintSignalStrength] writes the strength of every frame a
    station sends through the access point to the file [signal/<address>]; the
    thread [data_frames_rssi] of the interface ([controller_interface.c]
    1949-2026) waits for files to be closed, parses name and content, and starts
    a thread that reports the strength. *)

From Stdlib Require Import ZArith Lia.
From S2P Require Import Prelude CMem CStruct CMonad OpenFlow IpText Chain CSteps Agent AgentProps.
From S2P Require Import NatTable ApData Station ApState ApNat ApNatProps ApAgent ApStaProps.

(** ** Formats of the C library *)

(** [%02X] of a byte, and [%2d] of one. *)
Definition upper_digit (x : Z) : Z := if x <? 10 then 48 + x else 55 + x.
Definition fmt_02X (x : Z) : bytes := [upper_digit (x / 16); upper_digit (x mod 16)].
Definition fmt_2d (x : Z) : bytes := if x <? 10 then 32 :: fmt_hhu x else fmt_hhu x.

Definition is_space (c : Z) : bool := (c =? 32) || ((9 <=? c) && (c <=? 13)).
Definition dec_value (c : Z) : option Z := if (48 <=? c) && (c <=? 57) then Some (c - 48) else None.
Definition hex_value (c : Z) : option Z :=
  if (48 <=? c) && (c <=? 57) then Some (c - 48)
  else if (97 <=? c) && (c <=? 102) then Some (c - 87)
  else if (65 <=? c) && (c <=? 70) then Some (c - 55)
  else None.

Fixpoint skip_spaces (s : bytes) : bytes :=
  match s with
  | c :: s' => if is_space c then skip_spaces s' else s
  | [] => []
  end.

(** The digits at the start of [s], as a number in the base, if there are any. *)
Fixpoint scan_digits (base : Z) (value : Z → option Z) (acc : option Z) (s : bytes)
    : option Z * bytes :=
  match s with
  | c :: s' =>
      match value c with
      | Some d => scan_digits base value (Some (default 0 acc * base + d)) s'
      | None => (acc, s)
      end
  | [] => (acc, [])
  end.

(** A sign before the digits. *)
Definition scan_sign (s : bytes) : Z * bytes :=
  match s with
  | c :: s' => if c =? 45 then (-1, s') else if c =? 43 then (1, s') else (1, s)
  | [] => (1, [])
  end.

(** Conversions [%hhu] and [%hhx]: the number as an [unsigned char] and the rest
    of the input, [None] when they do not match. *)
Definition scan_hhu (s : bytes) : option (Z * bytes) :=
  let '(sg, s) := scan_sign (skip_spaces s) in
  match scan_digits 10 dec_value None s with
  | (Some n, s) => Some (sg * n mod 256, s)
  | (None, _) => None
  end.
Definition scan_hhx (s : bytes) : option (Z * bytes) :=
  let '(sg, s) := scan_sign (skip_spaces s) in
  let s := match s with
           | 48 :: x :: s' => if (x =? 120) || (x =? 88) then 48 :: s' else s
           | _ => s
           end in
  match scan_digits 16 hex_value None s with
  | (Some n, s) => Some (sg * n mod 256, s)
  | (None, _) => None
  end.

(** [sscanf(s, "%hhx-%hhx-...", &mac[0], ...)]: the members that are converted
    are written over those that were there, up to the first that is not. *)
Fixpoint scan_mac (mac : bytes) (s : bytes) : bytes :=
  match mac with
  | [] => []
  | m :: mac =>
      match scan_hhx s with
      | None => m :: mac
      | Some (b, 45 :: s) => b :: scan_mac mac s
      | Some (b, _) => b :: mac
      end
  end.

(** ** Click *)

Definition WIFI_FC1_DIR_MASK : Z := 3.
Definition WIFI_FC1_DIR_TODS : Z := 1.

(** [StringAccum << EtherAddress]. *)
Definition unparse (a : bytes) : option bytes :=
  match a with
  | [a0; a1; a2; a3; a4; a5] =>
      Some (fmt_02X a0 ++ [45] ++ fmt_02X a1 ++ [45] ++ fmt_02X a2 ++ [45] ++ fmt_02X a3 ++ [45]
            ++ fmt_02X a4 ++ [45] ++ fmt_02X a5)
  | _ => None
  end.

(** The file that [simple_action] of the element with address [_addr] writes for
    the frame [p] with strength [rssi]: [Some None] when it writes none, [None]
    when it reads past the frame. *)
Definition simple_action (_addr p : bytes) (rssi : Z) : option (option (bytes * bytes)) :=
  fc1 ← ld8 p 1;
  if Z.land fc1 WIFI_FC1_DIR_MASK =? WIFI_FC1_DIR_TODS then
    bssid ← ldn p 4 6;
    src ← ldn p 10 6;
    if bool_decide (bssid = _addr) then
      name ← unparse src;
      Some (Some (cstr "signal/" ++ name, fmt_2d rssi ++ [10]))
    else Some None
  else Some None.

(** ** The interface *)

Definition FOLDER : bytes := cstr "signal".
Definition IN_CLOSE_WRITE : Z := 8.
(** [10 * (sizeof(struct inotify_event) + NAME_MAX + 1)]. *)
Definition BUF_LEN : Z := 10 * (16 + 255 + 1).

Definition inotify_event : ctype := Struct
  [("wd", U32); ("mask", U32); ("cookie", U32); ("len", U32)].

(** The C string at an offset of an object. *)
Fixpoint c_string (s : bytes) : option bytes :=
  match s with
  | [] => None
  | c :: s => if c =? 0 then Some [] else (c ::.) <$> c_string s
  end.
Definition string_at (m : bytes) (off : Z) : option bytes := c_string (drop (Z.to_nat off) m).

Section Watch.
  Context `{Platform} `{Env}.
  Abbreviation AM := (M ap_state).

  (** What [read] of the inotify descriptor gives, [None] for -1, and the content
      of a file when it is opened, [None] when it cannot be. *)
  Context (inotify_read : nat → option bytes) (file_at : nat → bytes → option bytes).

(** One event: the file name is built in [char fileName[100]]; variables that the
    conversions do not set keep what the stack holds. *)
Definition file_event (buf : bytes) (p : Z) : AM unit :=
  name ← opt! string_at buf (p + 16);
  let fileName := FOLDER ++ [47] ++ name in
  _ ← opt! (if zlen fileName + 1 <=? 100 then Some () else None);
  file ← ask (λ k, file_at k fileName);
  match file with
  | None => skip
  | Some content =>
      signalStrength ← ask (λ k, env_stack k 1);
      signalStrength ← opt! ld8 signalStrength 0;
      let signalStrength := match scan_hhu content with Some (v, _) => v | None => signalStrength end in
      mac ← ask (λ k, env_stack k 6);
      rssi_event signalStrength (scan_mac mac name)
  end.

(** Every event is at least 16 bytes long, so [numRead] is enough fuel. *)
Fixpoint event_loop (fuel : nat) (buf : bytes) (numRead p : Z) : AM unit :=
  if p <? numRead then
    match fuel with
    | O => hang
    | S fuel =>
        mask ← opt! ldf inotify_event p ["mask"] buf;
        (if negb (Z.land mask IN_CLOSE_WRITE =? 0) then file_event buf p else skip);;
        len ← opt! ldf inotify_event p ["len"] buf;
        event_loop fuel buf numRead (p + 16 + len)
    end
  else skip.

(** One round of [while (1)]; [buf] is declared outside the loop. *)
Definition rssi_round (buf : bytes) : AM bytes :=
  '(t, ready) ← ask env_select;
  if t <? 0 then exit 1 else
  if ready : bool then
    r ← ask inotify_read;
    match r with
    | None | Some [] => exit 0
    | Some data =>
        buf ← opt! stn buf 0 data;
        event_loop (length data) buf (zlen data) 0;;
        mret buf
    end
  else mret buf.

(** [while (1)], for a number of rounds. *)
Fixpoint rssi_rounds (rounds : nat) (buf : bytes) : AM bytes :=
  match rounds with
  | O => mret buf
  | S rounds => buf ← rssi_round buf; rssi_rounds rounds buf
  end.
Definition data_frames_rssi (rounds : nat) : AM unit :=
  buf ← ask (λ k, env_stack k BUF_LEN);
  rssi_rounds rounds buf;;
  skip.

End Watch.

(** ** Parsing what was printed *)

Lemma hex_value_upper d : 0 ≤ d < 16 → hex_value (upper_digit d) = Some d.
Proof.
  intros Hd. unfold upper_digit, hex_value. destruct (Z.ltb_spec d 10).
  - replace ((48 <=? 48 + d) && (48 + d <=? 57)) with true by lia. f_equal. lia.
  - replace ((48 <=? 55 + d) && (55 + d <=? 57)) with false by lia.
    replace ((97 <=? 55 + d) && (55 + d <=? 102)) with false by lia.
    replace ((65 <=? 55 + d) && (55 + d <=? 70)) with true by lia. f_equal. lia.
Qed.

Lemma upper_range d : 0 ≤ d < 16 → 48 ≤ upper_digit d ≤ 57 ∨ 65 ≤ upper_digit d ≤ 70.
Proof. intros Hd. unfold upper_digit. destruct (Z.ltb_spec d 10); lia. Qed.

(** The input after a conversion starts with no further digit. *)
Definition no_digit (value : Z → option Z) (s : bytes) : Prop :=
  match s with c :: _ => value c = None | [] => True end.

Lemma scan_digits_end base value acc s :
  no_digit value s → scan_digits base value acc s = (acc, s).
Proof. destruct s as [|c s]; simpl; [done|]. by intros ->. Qed.

Lemma scan_hhx_02X b r : byte_ok b → no_digit hex_value r → scan_hhx (fmt_02X b ++ r) = Some (b, r).
Proof.
  unfold byte_ok. intros Hb Hr. unfold fmt_02X.
  pose proof (Z.div_mod b 16). pose proof (Z.mod_pos_bound b 16).
  assert (H1 : 0 ≤ b / 16 < 16) by (split; [apply Z.div_pos|apply Z.div_lt_upper_bound]; lia).
  assert (H2 : 0 ≤ b mod 16 < 16) by lia.
  pose proof (upper_range _ H1) as R1. pose proof (upper_range _ H2) as R2.
  pose proof (hex_value_upper _ H1) as V1. pose proof (hex_value_upper _ H2) as V2.
  set (c1 := upper_digit (b / 16)) in *. set (c2 := upper_digit (b mod 16)) in *.
  unfold scan_hhx. simpl app. cbn [skip_spaces]. unfold is_space.
  replace ((c1 =? 32) || ((9 <=? c1) && (c1 <=? 13))) with false by lia. cbn [scan_sign].
  replace (c1 =? 45) with false by lia. replace (c1 =? 43) with false by lia.
  assert (E : match c1 with
              | 48 => if (c2 =? 120) || (c2 =? 88) then 48 :: r else c1 :: c2 :: r
              | _ => c1 :: c2 :: r
              end = c1 :: c2 :: r).
  { replace ((c2 =? 120) || (c2 =? 88)) with false by lia. by repeat case_match. }
  match goal with |- match scan_digits _ _ _ ?s with _ => _ end = _ =>
    replace s with (c1 :: c2 :: r) end.
  cbn [scan_digits]. rewrite V1, V2. rewrite scan_digits_end by done. simpl.
  do 2 f_equal. rewrite Z.mod_small by lia. destruct (b / 16 * 16 + b mod 16) eqn:?; lia.
Qed.

Lemma scan_hhu_2d r : 0 ≤ r < 256 → scan_hhu (fmt_2d r ++ [10]) = Some (r, [10]).
Proof.
  intros Hr.
  assert (E : forallb (λ k, bool_decide (scan_hhu (fmt_2d (Z.of_nat k) ++ [10])
                                         = Some (Z.of_nat k, [10]))) (seq 0 256) = true)
    by (vm_compute; reflexivity).
  rewrite forallb_forall in E. specialize (E (Z.to_nat r)). rewrite Z2Nat.id in E by lia.
  apply bool_decide_eq_true in E; [done|]. apply in_seq. lia.
Qed.

Lemma scan_mac_unparse mac a name :
  length mac = 6%nat → bytes_ok a → unparse a = Some name → scan_mac mac name = a.
Proof.
  intros Lm Ha Hn. unfold unparse in Hn. repeat case_match; try done.
  apply (inj Some) in Hn. subst name. unfold bytes_ok in Ha. rewrite !Forall_cons in Ha. destruct_and!. explode mac.
  cbn [scan_mac]. repeat (rewrite scan_hhx_02X by done; cbn [scan_mac app]).
  rewrite <- (app_nil_r (fmt_02X _)). by rewrite scan_hhx_02X.
Qed.

(** ** From frames to reports *)

Lemma ldn_skip (l r : bytes) p off n :
  p = zlen l → 0 ≤ off → ldn (l ++ r) (p + off) n = ldn r off n.
Proof.
  unfold zlen. intros -> Ho. unfold ldn.
  assert (E : in_range (l ++ r) (Z.of_nat (length l) + off) n = in_range r off n).
  { apply eq_true_iff_eq. rewrite !in_range_iff. unfold zlen. rewrite length_app. lia. }
  rewrite E. case_match; [|done]. do 2 f_equal.
  replace (Z.to_nat (Z.of_nat (length l) + off)) with (length l + Z.to_nat off)%nat by lia.
  by rewrite <- drop_drop, drop_app_length.
Qed.

Lemma c_string_app name r : Forall (λ c, c ≠ 0) name → c_string (name ++ 0 :: r) = Some name.
Proof.
  induction 1 as [|c name Hc _ IH]; simpl; [done|].
  rewrite (proj2 (Z.eqb_neq c 0)) by done. by rewrite IH.
Qed.

Lemma unparse_ok a : length a = 6%nat → bytes_ok a →
  ∃ name, unparse a = Some name ∧ zlen name = 17 ∧ Forall (λ c, c ≠ 0) name.
Proof.
  intros La Ha. explode a. eexists. split; [reflexivity|]. split; [reflexivity|].
  assert (P : ∀ b, byte_ok b → Forall (λ c, c ≠ 0) (fmt_02X b)).
  { unfold byte_ok. intros b Hb.
    assert (0 ≤ b / 16 < 16) by (split; [apply Z.div_pos|apply Z.div_lt_upper_bound]; lia).
    assert (0 ≤ b mod 16 < 16) by (apply Z.mod_pos_bound; lia).
    repeat constructor; match goal with |- upper_digit ?d ≠ 0 => pose proof (upper_range d) end; lia. }
  unfold bytes_ok in Ha. rewrite !Forall_cons in Ha. destruct_and!.
  rewrite !Forall_app. split_and!; auto; by repeat constructor.
Qed.

(** A frame Click hears, and the fields of the kernel's notification that do not
    depend on it: the watch, the cookie and the zeros after the name. *)
Record heard := Heard {
  frame : bytes; strength : Z; watch : Z; cookie : Z; padding : Z }.

Definition heard_ok (h : heard) : Prop :=
  bytes_ok (frame h) ∧ 16 ≤ zlen (frame h) ∧ 0 ≤ strength h < 256 ∧ 1 ≤ padding h < 256.

(** A station's frame to this access point, and the station. *)
Definition for_us (addr : bytes) (h : heard) : bool :=
  match ld8 (frame h) 1, ldn (frame h) 4 6 with
  | Some fc1, Some bssid => (Z.land fc1 3 =? 1) && bool_decide (bssid = addr)
  | _, _ => false
  end.
Definition station (h : heard) : bytes := take 6 (drop 10 (frame h)).

(** The file Click writes for a frame, and the notification of its closing. *)
Definition written (addr : bytes) (h : heard) : option (bytes * bytes) :=
  mjoin (simple_action addr (frame h) (strength h)).
Definition notified `{Platform} (addr : bytes) (h : heard) : bytes :=
  match written addr h with
  | Some (path, _) =>
      let name := drop (length (cstr "signal/")) path in
      nat_enc 4 (watch h) ++ nat_enc 4 IN_CLOSE_WRITE ++ nat_enc 4 (cookie h)
      ++ nat_enc 4 (zlen name + padding h) ++ name ++ replicate (Z.to_nat (padding h)) 0
  | None => []
  end.

Definition reports_of (addr : bytes) (hs : list heard) : list thread :=
  omap (λ h, if for_us addr h then Some (ProcessStaData (strength h) (station h)) else None) hs.

(** Click writes a file exactly for the frames sent to this access point. *)
Lemma written_spec addr h : heard_ok h →
  if for_us addr h then
    ∃ name, unparse (station h) = Some name ∧ zlen name = 17 ∧ Forall (λ c, c ≠ 0) name ∧
      written addr h = Some (cstr "signal/" ++ name, fmt_2d (strength h) ++ [10])
  else written addr h = None.
Proof.
  intros (Hb & Hl & _). unfold for_us, written, simple_action, station.
  destruct (ld8_ok (frame h) 1) as [fc1 ->]; [lia|].
  destruct (ldn (frame h) 4 6) as [bssid|] eqn:Eb; [|rewrite ldn_ok in Eb by lia; done].
  rewrite (ldn_ok (frame h) 10 6) by lia. cbn [mbind option_bind].
  change WIFI_FC1_DIR_MASK with 3. change WIFI_FC1_DIR_TODS with 1.
  destruct (Z.land fc1 3 =? 1); cbn [andb]; [|done]. case_bool_decide; [|done].
  destruct (unparse_ok (take 6 (drop 10 (frame h)))) as (name & En & Ln & Hn).
  { rewrite length_take, length_drop. unfold zlen in Hl. lia. }
  { by apply Forall_take, Forall_drop. }
  exists name. change (Z.to_nat 6) with 6%nat. change (Z.to_nat 10) with 10%nat. by rewrite En.
Qed.

(** The notification of such a file: 16 bytes of header, the name, zeros. *)
Lemma notified_shape `{Platform} addr h name :
  heard_ok h → zlen name = 17 →
  written addr h = Some (cstr "signal/" ++ name, fmt_2d (strength h) ++ [10]) →
  ∃ hdr zeros, notified addr h = hdr ++ name ++ 0 :: zeros ∧ zlen hdr = 16 ∧
    zlen (name ++ 0 :: zeros) = 17 + padding h ∧
    ldn hdr 4 4 = Some (nat_enc 4 IN_CLOSE_WRITE) ∧ ldn hdr 12 4 = Some (nat_enc 4 (17 + padding h)).
Proof.
  intros (_ & _ & _ & Hp) Ln Hw. unfold notified. rewrite Hw.
  rewrite drop_app_length, Ln.
  replace (Z.to_nat (padding h)) with (S (Z.to_nat (padding h - 1))) by lia. cbn [replicate].
  eexists (nat_enc 4 _ ++ nat_enc 4 _ ++ nat_enc 4 _ ++ nat_enc 4 _), _.
  split; [by rewrite <- !app_assoc|].
  assert (L : ∀ v, zlen (nat_enc 4 v) = 4) by (intros v; apply zlen_nat_enc).
  split; [unfold zlen in *; rewrite !length_app, !length_nat_enc; done|].
  split; [unfold zlen in *; rewrite length_app; cbn [length]; rewrite length_replicate; lia|].
  assert (T : ∀ v, take (Z.to_nat 4) (nat_enc 4 v) = nat_enc 4 v)
    by (intros v; rewrite take_ge; rewrite ?length_nat_enc; done).
  split.
  - rewrite (ldn_skip (nat_enc 4 _) _ 4 0) by (rewrite ?L; done).
    rewrite ldn_ok; unfold zlen in *; rewrite ?length_app, ?length_nat_enc; try lia.
    by rewrite drop_0, take_app_length' by (by rewrite length_nat_enc).
  - rewrite !app_assoc, (ldn_skip (_ ++ _) _ 12 0);
      [|unfold zlen in *; rewrite !length_app, !length_nat_enc; done|done].
    rewrite ldn_ok; rewrite ?L; [|lia..]. by rewrite drop_0, T.
Qed.

(** What libc and the kernel promise the thread: memory and threads are
    available, arrays have their sizes, and a file that Click has written holds
    what it wrote. *)
Record watching `{Env} (addr : bytes) (hs : list heard)
    (file_at : nat → bytes → option bytes) : Prop := {
  wa_calloc t n : env_calloc t n = true;
  wa_thread t : env_thread t = 0;
  wa_stack t n : 0 ≤ n → zlen (env_stack t n) = n;
  wa_file t h path content :
    h ∈ hs → written addr h = Some (path, content) → file_at t path = Some content;
}.

Section Events.
  Context `{Platform} `{Env} (inotify_read : nat → option bytes)
    (file_at : nat → bytes → option bytes) (addr : bytes) (all : list heard)
    (W : watching addr all file_at).

(** A state in which time has passed and threads have been started. *)
Definition started (k : nat) (ts : list thread) (s : ap_state) : ap_state :=
  set_threads (ap_threads s ++ ts) (set_sys (Sys k (events (ap_sys s))) s).

Lemma started_tick k ts s : started k ts (tick s) = started k ts s.
Proof. by destruct s. Qed.

Lemma rssi_event_ok r a s : ∃ k, rssi_event r a s = Ret () (started k [ProcessStaData r a] s).
Proof using W.
  unfold rssi_event. rewrite calloc_step by apply W. rewrite opt_step with (1 := eq_refl).
  rewrite calloc_step by apply W. rewrite opt_step with (1 := eq_refl).
  unfold pthread_create. rewrite ask_step, (wa_thread _ _ _ W). by eexists.
Qed.

Lemma file_event_ok (pre hdr post : bytes) p h s :
  h ∈ all → heard_ok h → for_us addr h = true → p = zlen pre → zlen hdr = 16 →
  ∀ name, unparse (station h) = Some name → Forall (λ c, c ≠ 0) name → zlen name = 17 →
  written addr h = Some (cstr "signal/" ++ name, fmt_2d (strength h) ++ [10]) →
  ∃ k, file_event file_at (pre ++ hdr ++ name ++ 0 :: post) p s
       = Ret () (started k [ProcessStaData (strength h) (station h)] s).
Proof using W.
  intros Hin (Hb & Hl & Hs & _) Hu -> Lh name En Hn Ln Hw. unfold file_event, string_at.
  assert (Ed : drop (Z.to_nat (zlen pre + 16)) (pre ++ hdr ++ name ++ 0 :: post) = name ++ 0 :: post).
  { unfold zlen in *. rewrite (app_assoc pre), drop_app_length'; [done|]. rewrite length_app. lia. }
  rewrite Ed, (opt_step _ name) by by apply c_string_app.
  rewrite (opt_step _ ()) by (unfold zlen in *; rewrite !length_app; simpl; rewrite (proj2 (Z.leb_le _ _)) by lia; done).
  rewrite ask_step, (wa_file _ _ _ W _ h _ _ Hin Hw). cbv iota beta.
  rewrite ask_step.
  edestruct (ld8_ok (env_stack (clock (get_sys (tick s))) 1) 0) as [x Ex];
    [rewrite (wa_stack _ _ _ W); lia|].
  rewrite (opt_step _ x) by exact Ex. rewrite scan_hhu_2d by done. cbv iota beta zeta.
  rewrite ask_step, (scan_mac_unparse _ (station h)); [| | |done].
  - destruct (rssi_event_ok (strength h) (station h) (tick (tick (tick s)))) as [k E].
    exists k. by rewrite E, !started_tick.
  - pose proof (wa_stack _ _ _ W (clock (get_sys (tick (tick s)))) 6) as L. unfold zlen in L. lia.
  - by apply Forall_take, Forall_drop.
Qed.

Lemma started_started k k' ts ts' s : started k' ts' (started k ts s) = started k' (ts ++ ts') s.
Proof. unfold started. destruct s. simpl. by rewrite <- app_assoc. Qed.

Lemma event_step fuel (pre rest : bytes) p n h s :
  h ∈ all → heard_ok h → for_us addr h = true → p = zlen pre → p < n →
  ∃ k, event_loop file_at (S fuel) (pre ++ notified addr h ++ rest) n p s
       = event_loop file_at fuel (pre ++ notified addr h ++ rest) n (p + zlen (notified addr h))
           (started k [ProcessStaData (strength h) (station h)] s).
Proof using W.
  intros Hin Ho Hu Hp Hn. pose proof (written_spec addr h Ho) as Hw. rewrite Hu in Hw.
  destruct Hw as (name & En & Ln & Hz & Hw).
  destruct (notified_shape addr h name Ho Ln Hw) as (hdr & zeros & -> & Lh & Lz & Em & El).
  set (buf := pre ++ (hdr ++ name ++ 0 :: zeros) ++ rest).
  assert (F : ∀ o bs, 0 ≤ o → ldn hdr o 4 = Some bs → ldn buf (p + o) 4 = Some bs).
  { intros o bs Ho' Eb. unfold buf. rewrite ldn_skip, <- app_assoc by done. by apply ldn_app_l. }
  cbn [event_loop]. rewrite (proj2 (Z.ltb_lt p n)) by done.
  erewrite ldf_step; [|eval_field|reflexivity|by apply F].
  rewrite nat_dec_enc. change (negb _) with true. cbv iota.
  destruct (file_event_ok pre hdr (zeros ++ rest) p h s Hin Ho Hu Hp Lh name En Hz Ln Hw) as [k E].
  assert (Eb : buf = pre ++ hdr ++ name ++ 0 :: zeros ++ rest).
  { unfold buf. rewrite <- !app_assoc. done. }
  exists k. rewrite <- Eb in E. cbind E.
  erewrite ldf_step; [|eval_field|reflexivity|by apply F].
  destruct Ho as (_ & _ & _ & Hpad). rewrite nat_dec_enc, Z.mod_small by (simpl; lia).
  f_equal. unfold zlen in *. rewrite (length_app hdr). lia.
Qed.

(** The loop over the buffer handles the notifications one after the other. *)
Lemma event_loop_ok hs : ∀ fuel (pre post : bytes) p n s,
  (∀ h, h ∈ hs → h ∈ all ∧ heard_ok h) → p = zlen pre →
  n = p + zlen (concat (map (notified addr) hs)) →
  (length (concat (map (notified addr) hs)) ≤ fuel)%nat →
  ∃ k, event_loop file_at fuel (pre ++ concat (map (notified addr) hs) ++ post) n p s
       = Ret () (started k (reports_of addr hs) s).
Proof using W.
  induction hs as [|h hs IH]; intros fuel pre post p n s Hh Hp Hn Hf.
  { exists (clock (ap_sys s)). cbn [map concat] in *.
    destruct fuel; simpl; rewrite (proj2 (Z.ltb_ge _ _)) by (unfold zlen in *; simpl in *; lia);
      unfold started; destruct s as [? [] ?]; simpl; by rewrite app_nil_r. }
  destruct (Hh h) as [Hin Ho]; [left|]. pose proof (written_spec addr h Ho) as Hw.
  cbn [map concat] in *. unfold reports_of. cbn [omap list_omap]. fold (reports_of addr hs).
  destruct (for_us addr h) eqn:Hu.
  2:{ unfold notified at 1. unfold notified in Hn at 1. unfold notified in Hf at 1.
      rewrite Hw in *. cbn [app] in *. apply IH; auto. intros h' ?. apply Hh. by right. }
  clear Hw. assert (Lp : 16 < zlen (notified addr h)).
  { pose proof (written_spec addr h Ho) as Hw. rewrite Hu in Hw.
    destruct Hw as (name & _ & Ln & _ & Hw).
    destruct (notified_shape addr h name Ho Ln Hw) as (hdr & zeros & -> & Lh & Lz & _).
    destruct Ho as (_ & _ & _ & ?). unfold zlen in *. rewrite (length_app hdr). lia. }
  rewrite length_app in Hf. rewrite zlen_app in Hn. pose proof (zlen_nonneg (concat (map (notified addr) hs))).
  destruct fuel as [|fuel]; [unfold zlen in *; lia|]. rewrite <- (app_assoc (notified addr h)).
  destruct (event_step fuel pre (concat (map (notified addr) hs) ++ post) p n h s) as [k E];
    [done..|lia|]. rewrite E.
  rewrite (app_assoc pre).
  destruct (IH fuel (pre ++ notified addr h) post (p + zlen (notified addr h)) n
    (started k [ProcessStaData (strength h) (station h)] s)) as [k' E'];
    [|by rewrite zlen_app, Hp| | |].
  { intros h' ?. apply Hh. by right. }
  { lia. }
  { unfold zlen in *. lia. }
  exists k'. rewrite E', started_started. done.
Qed.


End Events.

(** ** A concrete instance *)

(** A frame from a station, and one to it, which Click does not report. *)
Definition heard_frame : heard :=
  Heard ([8; 1; 0; 0] ++ [2; 0; 0; 0; 0; 1] ++ sta9 ++ [2; 0; 0; 0; 0; 7; 0; 0]) 42 1 0 15.
Definition two_frames : list heard :=
  [heard_frame;
   Heard ([8; 2; 0; 0] ++ sta9 ++ [2; 0; 0; 0; 0; 1] ++ [2; 0; 0; 0; 0; 7; 0; 0]) 50 1 0 15].

Lemma two_frames_watched :
  @watching ap_env [2; 0; 0; 0; 0; 1] two_frames (λ _ _, Some [52; 50; 10]).
Proof.
  constructor; try reflexivity.
  - intros t n Hn. unfold zlen. simpl. rewrite length_replicate. lia.
  - intros t h path content Hh. unfold two_frames in Hh. rewrite !elem_of_cons in Hh.
    destruct Hh as [-> | [-> | []%not_elem_of_nil]]; vm_compute; congruence.
Qed.

