(* ===== verification/Elements.v ===== *)
(** * Information elements of management frames

    A management frame carries a sequence of elements: an identifier, a length
    and that many bytes.  [ieee802_11_parse_elems]
    ([src/hostapd-2.8/src/common/ieee802_11_common.c]) walks them once and leaves,
    in the members of [struct ieee802_11_elems], pointers to the data of the
    elements it knows.  The frame is an object of bytes, a pointer is an offset
    into it, and a read outside the object has no result, so that a theorem with
    a result also says that the parser stays inside the frame.

    The switches of the code are tables here where every case does the same:
    store the pointer and the length unless the length is refused.  The log
    messages, which are all that [show_errors] changes, are not modelled. *)

From Stdlib Require Import ZArith Lia.
From S2P Require Import Prelude CMem.

Module Elements.

(** ** The members of [struct ieee802_11_elems]

    A member that is not null is the offset it points to and the length of what
    it points to; the members without a length member of their own have it here
    too. *)
Record elems := Elems {
  members : gmap string (Z * Z);
  mb_ies : list (Z * Z);  (** [mb_ies.ies], the first [mb_ies.nof_ies] of them *)
}.

Definition no_elems : elems := Elems ∅ [].

Definition set_member (name : string) (pos elen : Z) (e : elems) : elems :=
  Elems (<[name := (pos, elen)]> (members e)) (mb_ies e).

Definition member (e : elems) (name : string) : option (Z * Z) := members e !! name.

Inductive ParseRes := ParseOK | ParseUnknown | ParseFailed.

#[global] Instance ParseRes_eq_dec : EqDecision ParseRes.
Proof. solve_decision. Defined.

Definition SSID_MAX_LEN : Z := 32.
Definition MAX_NOF_MB_IES_SUPPORTED : Z := 5.
Definition FILS_SESSION_LEN : Z := 8.
Definition FILS_NONCE_LEN : Z := 16.
Definition WPA_KEY_RSC_LEN : Z := 8.
Definition WPA_NONCE_LEN : Z := 32.
Definition sizeof_rsn_mdie : Z := 2 + 1.
Definition sizeof_rsn_ftie : Z := 2 + 16 + WPA_NONCE_LEN + WPA_NONCE_LEN.
Definition sizeof_ht_capabilities : Z := 2 + 1 + 16 + 2 + 4 + 1.
Definition sizeof_ht_operation : Z := 1 + 1 + 2 + 2 + 16.
Definition sizeof_vht_capabilities : Z := 4 + 2 + 2 + 2 + 2.
Definition sizeof_vht_operation : Z := 1 + 1 + 1 + 2.

Definition WLAN_EID_CF_PARAMS : Z := 4.
Definition WLAN_EID_TIM : Z := 5.
Definition WLAN_EID_CHALLENGE : Z := 16.
Definition WLAN_EID_MIC : Z := 140.
Definition WLAN_EID_MULTI_BAND : Z := 158.
Definition WLAN_EID_VENDOR_SPECIFIC : Z := 221.
Definition WLAN_EID_FRAGMENT : Z := 242.
Definition WLAN_EID_EXTENSION : Z := 255.

Definition any_len (elen : Z) : bool := true.
Definition at_least (n elen : Z) : bool := n <=? elen.
Definition exactly (n elen : Z) : bool := elen =? n.
Definition at_most (n elen : Z) : bool := elen <=? n.

(** The cases of the switch over the identifier that store one member: the
    identifier, the member, the lengths that are not refused. *)
Definition element_cases : list (Z * (string * (Z → bool))) := [
  (0, ("ssid", at_most SSID_MAX_LEN));
  (1, ("supp_rates", any_len));
  (3, ("ds_params", at_least 1));
  (WLAN_EID_CHALLENGE, ("challenge", any_len));
  (42, ("erp_info", at_least 1));
  (50, ("ext_supp_rates", any_len));
  (48, ("rsn_ie", any_len));
  (33, ("power_capab", at_least 2));
  (36, ("supp_channels", any_len));
  (54, ("mdie", at_least sizeof_rsn_mdie));
  (55, ("ftie", at_least sizeof_rsn_ftie));
  (56, ("timeout_int", exactly 5));
  (45, ("ht_capabilities", at_least sizeof_ht_capabilities));
  (61, ("ht_operation", at_least sizeof_ht_operation));
  (113, ("mesh_config", any_len));
  (114, ("mesh_id", any_len));
  (117, ("peer_mgmt", any_len));
  (191, ("vht_capabilities", at_least sizeof_vht_capabilities));
  (192, ("vht_operation", at_least sizeof_vht_operation));
  (199, ("vht_opmode_notif", exactly 1));
  (101, ("link_id", at_least 18));
  (107, ("interworking", any_len));
  (110, ("qos_map_set", at_least 16));
  (127, ("ext_capab", any_len));
  (90, ("bss_max_idle_period", at_least 3));
  (84, ("ssid_list", any_len));
  (139, ("ampe", any_len));
  (WLAN_EID_MIC, ("mic", any_len));
  (59, ("supp_op_classes", any_len));
  (70, ("rrm_enabled", any_len));
  (237, ("cag_number", any_len));
  (239, ("ap_csn", at_least 1));
  (240, ("fils_indic", at_least 2));
  (241, ("dils", at_least 2))
].

(** The cases of the switch over the identifier of an extension element. *)
Definition extension_cases : list (Z * (string * (Z → bool))) := [
  (1, ("assoc_delay_info", exactly 1));
  (2, ("fils_req_params", at_least 3));
  (3, ("fils_key_confirm", any_len));
  (4, ("fils_session", exactly FILS_SESSION_LEN));
  (5, ("fils_hlp", at_least (2 * 6)));
  (6, ("fils_ip_addr_assign", at_least 1));
  (7, ("key_delivery", at_least WPA_KEY_RSC_LEN));
  (8, ("fils_wrapped_data", any_len));
  (12, ("fils_pk", at_least 1));
  (13, ("fils_nonce", exactly FILS_NONCE_LEN));
  (32, ("owe_dh", at_least 2));
  (33, ("password_id", any_len));
  (35, ("he_capabilities", any_len));
  (54, ("oci", any_len))
].

(** The case of a switch. *)
Fixpoint case_of {A} (id : Z) (l : list (Z * A)) : option A :=
  match l with
  | [] => None
  | (k, c) :: l => if id =? k then Some c else case_of id l
  end.

(** ** The parser *)

Definition WPA_GET_BE24 (m : bytes) (off : Z) : option Z :=
  a ← ld8 m off; b ← ld8 m (off + 1); c ← ld8 m (off + 2);
  Some (Z.lor (Z.lor (Z.shiftl a 16) (Z.shiftl b 8)) c).

Definition OUI_MICROSOFT : Z := 0x0050f2.
Definition OUI_WFA : Z := 0x506f9a.
Definition OUI_BROADCOM : Z := 0x00904c.
Definition OUI_QCA : Z := 0x001374.
Definition WMM_OUI_TYPE : Z := 2.
Definition WMM_OUI_SUBTYPE_INFORMATION_ELEMENT : Z := 0.
Definition WMM_OUI_SUBTYPE_PARAMETER_ELEMENT : Z := 1.
Definition WMM_OUI_SUBTYPE_TSPEC_ELEMENT : Z := 2.
Definition P2P_OUI_TYPE : Z := 9.
Definition WFD_OUI_TYPE : Z := 10.
Definition HS20_INDICATION_OUI_TYPE : Z := 16.
Definition HS20_OSEN_OUI_TYPE : Z := 18.
Definition MBO_OUI_TYPE : Z := 22.
Definition HS20_ROAMING_CONS_SEL_OUI_TYPE : Z := 29.
Definition MULTI_AP_OUI_TYPE : Z := 0x1B.
Definition VENDOR_HT_CAPAB_OUI_TYPE : Z := 0x33.
Definition VENDOR_VHT_TYPE : Z := 0x04.
Definition VENDOR_VHT_SUBTYPE : Z := 0x08.
Definition VENDOR_VHT_SUBTYPE2 : Z := 0x00.
Definition QCA_VENDOR_ELEM_P2P_PREF_CHAN_LIST : Z := 0.

(** Result 0 or -1, and the members. *)
Definition ieee802_11_parse_vendor_specific (m : bytes) (pos elen : Z) (e : elems) :
    option (Z * elems) :=
  let store name := Some (0, set_member name pos elen e) in
  let refuse := Some (-1, e) in
  if elen <? 4 then refuse else
  oui ← WPA_GET_BE24 m pos;
  ty ← ld8 m (pos + 3);
  if oui =? OUI_MICROSOFT then
    if ty =? 1 then store "wpa_ie" else
    if ty =? WMM_OUI_TYPE then
      if elen <? 5 then refuse else
      sub ← ld8 m (pos + 4);
      if (sub =? WMM_OUI_SUBTYPE_INFORMATION_ELEMENT)
         || (sub =? WMM_OUI_SUBTYPE_PARAMETER_ELEMENT) then store "wmm" else
      if sub =? WMM_OUI_SUBTYPE_TSPEC_ELEMENT then store "wmm_tspec" else refuse
    else
    if ty =? 4 then store "wps_ie" else refuse
  else if oui =? OUI_WFA then
    if ty =? P2P_OUI_TYPE then store "p2p" else
    if ty =? WFD_OUI_TYPE then store "wfd" else
    if ty =? HS20_INDICATION_OUI_TYPE then store "hs20" else
    if ty =? HS20_OSEN_OUI_TYPE then store "osen" else
    if ty =? MBO_OUI_TYPE then store "mbo" else
    if ty =? HS20_ROAMING_CONS_SEL_OUI_TYPE then store "roaming_cons_sel" else
    if ty =? MULTI_AP_OUI_TYPE then store "multi_ap" else refuse
  else if oui =? OUI_BROADCOM then
    if ty =? VENDOR_HT_CAPAB_OUI_TYPE then store "vendor_ht_cap" else
    if ty =? VENDOR_VHT_TYPE then
      if elen <=? 4 then refuse else
      sub ← ld8 m (pos + 4);
      if (sub =? VENDOR_VHT_SUBTYPE) || (sub =? VENDOR_VHT_SUBTYPE2)
      then store "vendor_vht" else refuse
    else refuse
  else if oui =? OUI_QCA then
    if ty =? QCA_VENDOR_ELEM_P2P_PREF_CHAN_LIST then store "pref_freq_list" else refuse
  else refuse.

Definition ieee802_11_parse_extension (m : bytes) (pos elen : Z) (e : elems) :
    option (Z * elems) :=
  if elen <? 1 then Some (-1, e) else
  ext_id ← ld8 m pos;
  match case_of ext_id extension_cases with
  | Some (name, ok) =>
      Some (0, if ok (elen - 1) then set_member name (pos + 1) (elen - 1) e else e)
  | None => Some (-1, e)
  end.

(** One element of the walk: what is added to [unknown], the members, and
    whether the walk goes on. *)
Definition parse_element (m : bytes) (id pos elen : Z) (e : elems) :
    option (Z * elems * bool) :=
  if id =? WLAN_EID_VENDOR_SPECIFIC then
    '(r, e) ← ieee802_11_parse_vendor_specific m pos elen e;
    Some (if r =? 0 then 0 else 1, e, true)
  else if id =? WLAN_EID_EXTENSION then
    '(r, e) ← ieee802_11_parse_extension m pos elen e;
    Some (if r =? 0 then 0 else 1, e, true)
  else if id =? WLAN_EID_MULTI_BAND then
    Some (0, if MAX_NOF_MB_IES_SUPPORTED <=? zlen (mb_ies e) then e
             else Elems (members e) (mb_ies e ++ [(pos, elen)]), true)
  else if (id =? WLAN_EID_CF_PARAMS) || (id =? WLAN_EID_TIM) || (id =? WLAN_EID_FRAGMENT)
  then Some (0, e, true)
  else match case_of id element_cases with
  | Some (name, ok) =>
      Some (0, if ok elen then set_member name pos elen e else e, negb (id =? WLAN_EID_MIC))
  | None => Some (1, e, true)
  end.

(** [for_each_element] over the [len] bytes at [start]; [elem] is its pointer. *)
Fixpoint walk (fuel : nat) (m : bytes) (start len elem : Z) (unknown : Z) (e : elems) :
    option (ParseRes * elems) :=
  match fuel with
  | O => None
  | S fuel =>
      let finished :=
        Some (if elem =? start + len
              then if unknown =? 0 then ParseOK else ParseUnknown
              else ParseFailed, e) in
      if start + len - elem <? 2 then finished else
      id ← ld8 m elem;
      elen ← ld8 m (elem + 1);
      if start + len - elem <? 2 + elen then finished else
      '(u, e, go_on) ← parse_element m id (elem + 2) elen e;
      if (go_on : bool)
      then walk fuel m start len (elem + 2 + elen) (unknown + u) e
      else Some (if unknown + u =? 0 then ParseOK else ParseUnknown, e)
  end.

(** A walk has at most as many steps as there are bytes, and one to end. *)
Definition ieee802_11_parse_elems (m : bytes) (start len : Z) : option (ParseRes * elems) :=
  walk (S (Z.to_nat len)) m start len start 0 no_elems.

(** The bytes a member points to. *)
Definition member_data (m : bytes) (e : elems) (name : string) : option bytes :=
  '(pos, elen) ← member e name; ldn m pos elen.

(** [merge_byte_arrays]: the bytes it leaves in [res], of [res_len] bytes, and
    its result. *)
Definition merge_byte_arrays (res_len : Z) (src1 src2 : option bytes) : bytes * Z :=
  let fill b := b ++ replicate (Z.to_nat res_len - length b) 0 in
  let second (l : bytes) :=
    match src2 with
    | Some s =>
        if res_len <=? zlen l + zlen s
        then (l ++ take (Z.to_nat (res_len - zlen l)) s, res_len)
        else (fill (l ++ s), zlen l + zlen s)
    | None => (fill l, zlen l)
    end in
  match src1 with
  | Some s =>
      if res_len <=? zlen s then (take (Z.to_nat res_len) s, res_len) else second s
  | None => second []
  end.

End Elements.
