(* ===== verification/ElemProps.v ===== *)
(** * The element parser finds what the frame carries

    A reference reading of a list of elements, as a frame format describes them,
    and the proof that [ieee802_11_parse_elems] agrees with it on every frame:
    it always returns, never reads outside the frame, reports exactly the frames
    whose last element is cut off, and every member points to the data of the
    last element that carries it. *)

From Stdlib Require Import ZArith Lia.
From S2P Require Import Prelude CMem Elements.
Import Elements.

(** ** Reference *)

(** An element on the air. *)
Record element := El { el_id : Z; el_data : bytes }.

Definition el_ok (el : element) : Prop :=
  byte_ok (el_id el) ∧ bytes_ok (el_data el) ∧ zlen (el_data el) < 256.

#[global] Instance el_ok_dec el : Decision (el_ok el).
Proof. unfold el_ok. apply _. Defined.

Definition encode (el : element) : bytes := el_id el :: zlen (el_data el) :: el_data el.
Definition encode_all (els : list element) : bytes := concat (encode <$> els).

Fixpoint starts (p d : bytes) : bool :=
  match p, d with
  | [], _ => true
  | x :: p, y :: d => (y =? x) && starts p d
  | _ :: _, [] => false
  end.

(** What the data of a vendor specific element starts with. *)
Definition vendor_prefixes : list (bytes * string) := [
  ([0x00; 0x50; 0xf2; 1], "wpa_ie");
  ([0x00; 0x50; 0xf2; 2; 0], "wmm");
  ([0x00; 0x50; 0xf2; 2; 1], "wmm");
  ([0x00; 0x50; 0xf2; 2; 2], "wmm_tspec");
  ([0x00; 0x50; 0xf2; 4], "wps_ie");
  ([0x50; 0x6f; 0x9a; 9], "p2p");
  ([0x50; 0x6f; 0x9a; 10], "wfd");
  ([0x50; 0x6f; 0x9a; 16], "hs20");
  ([0x50; 0x6f; 0x9a; 18], "osen");
  ([0x50; 0x6f; 0x9a; 22], "mbo");
  ([0x50; 0x6f; 0x9a; 29], "roaming_cons_sel");
  ([0x50; 0x6f; 0x9a; 27], "multi_ap");
  ([0x00; 0x90; 0x4c; 0x33], "vendor_ht_cap");
  ([0x00; 0x90; 0x4c; 0x04; 0x08], "vendor_vht");
  ([0x00; 0x90; 0x4c; 0x04; 0x00], "vendor_vht");
  ([0x00; 0x13; 0x74; 0], "pref_freq_list")
].

Fixpoint vendor_name (d : bytes) (l : list (bytes * string)) : option string :=
  match l with
  | [] => None
  | (p, name) :: l => if starts p d then Some name else vendor_name d l
  end.

(** The member an element sets and how many bytes of the data it skips; whether
    the element is known at all. *)
Definition carries (el : element) : option (string * Z) * bool :=
  let accepted (c : option (string * (Z → bool))) k :=
    match c with
    | Some (name, ok) =>
        (if ok (zlen (el_data el) - k) then Some (name, k) else None, true)
    | None => (None, false)
    end in
  if el_id el =? WLAN_EID_VENDOR_SPECIFIC then
    match vendor_name (el_data el) vendor_prefixes with
    | Some name => (Some (name, 0), true)
    | None => (None, false)
    end
  else if el_id el =? WLAN_EID_EXTENSION then
    match el_data el with
    | [] => (None, false)
    | ext_id :: _ => accepted (case_of ext_id extension_cases) 1
    end
  else if existsb (Z.eqb (el_id el))
            [WLAN_EID_MULTI_BAND; WLAN_EID_CF_PARAMS; WLAN_EID_TIM; WLAN_EID_FRAGMENT]
  then (None, true)
  else accepted (case_of (el_id el) element_cases) 0.

Definition known (el : element) : bool := snd (carries el).

(** The data an element gives to the member [name]. *)
Definition part (name : string) (el : element) : option bytes :=
  match fst (carries el) with
  | Some (n, k) => if decide (n = name) then Some (drop (Z.to_nat k) (el_data el)) else None
  | None => None
  end.

Definition last_part (name : string) (els : list element) : option bytes :=
  last (omap (part name) els).

Definition multi_band (el : element) : option bytes :=
  if el_id el =? WLAN_EID_MULTI_BAND then Some (el_data el) else None.

(** What is left when no whole element is. *)
Definition cut_off (rest : bytes) : Prop :=
  match rest with
  | [] => False
  | [_] => True
  | _ :: n :: d => zlen d < n
  end.

(** ** One element *)

Section Element.
  Context (m pre d post : bytes) (Em : m = pre ++ d ++ post).

Lemma ld8_data i : 0 ≤ i < zlen d → ld8 m (zlen pre + i) = d !! Z.to_nat i.
Proof.
  intros Hi. pose proof (zlen_nonneg pre). unfold ld8, zlen in *. guard_true. rewrite Em, lookup_app_r by lia.
  rewrite lookup_app_l by lia. f_equal. lia.
Qed.

Lemma ldn_data k : 0 ≤ k ≤ zlen d →
  ldn m (zlen pre + k) (zlen d - k) = Some (drop (Z.to_nat k) d).
Proof.
  intros Hk. pose proof (zlen_nonneg pre). pose proof (zlen_nonneg post).
  unfold ldn, in_range. rewrite Em, !zlen_app. guard_true. unfold zlen in *. f_equal.
  replace (Z.to_nat (Z.of_nat (length pre) + k)) with (length pre + Z.to_nat k)%nat by lia.
  rewrite <- drop_drop, drop_app_length, drop_app_le by lia.
  rewrite take_app_le by (rewrite length_drop; lia).
  apply take_ge. rewrite length_drop. lia.
Qed.

(** The members after the element. *)
Definition store (el : element) (e : elems) : elems :=
  match fst (carries el) with
  | Some (name, k) => set_member name (zlen pre + k) (zlen (el_data el) - k) e
  | None =>
      if (el_id el =? WLAN_EID_MULTI_BAND) && (zlen (mb_ies e) <? MAX_NOF_MB_IES_SUPPORTED)
      then Elems (members e) (mb_ies e ++ [(zlen pre, zlen (el_data el))]) else e
  end.

Lemma vendor_oui a b c : byte_ok a → byte_ok b → byte_ok c →
  Z.lor (Z.lor (Z.shiftl a 16) (Z.shiftl b 8)) c = 65536 * a + 256 * b + c.
Proof.
  unfold byte_ok. intros Ha Hb Hc.
  replace (Z.shiftl a 16) with (Z.shiftl (Z.shiftl a 8) 8) by (by rewrite Z.shiftl_shiftl by lia).
  rewrite <- Z.shiftl_lor, lor_shiftl, lor_shiftl by lia. lia.
Qed.

End Element.

Lemma oui_test a b c x y z k X : byte_ok a → byte_ok b → byte_ok c →
  byte_ok x → byte_ok y → byte_ok z → k = 65536 * x + 256 * y + z →
  (a =? x) && ((b =? y) && ((c =? z) && X)) = (65536 * a + 256 * b + c =? k) && X.
Proof.
  unfold byte_ok. intros. rewrite !andb_assoc. f_equal. apply eq_true_iff_eq.
  rewrite !andb_true_iff, !Z.eqb_eq. lia.
Qed.

(** A vendor's type decides, and the subtype where there is one. *)
Lemma parse_vendor_ok m pre d post e : m = pre ++ d ++ post → bytes_ok d →
  ieee802_11_parse_vendor_specific m (zlen pre) (zlen d) e =
  Some (match vendor_name d vendor_prefixes with
        | Some name => (0, set_member name (zlen pre) (zlen d) e)
        | None => (-1, e)
        end).
Proof.
  intros Em Hd. unfold ieee802_11_parse_vendor_specific. case_if; zbool.
  { destruct d as [|a [|b [|c [|t d']]]]; simpl; rewrite ?andb_false_r; try done.
    rewrite !zlen_cons in *. pose proof (zlen_nonneg d'). lia. }
  destruct d as [|a [|b [|c [|t d']]]]; [done..|]. unfold WPA_GET_BE24.
  pose proof (ld8_data m pre _ post Em) as L.
  rewrite <- (Z.add_0_r (zlen pre)) at 1. rewrite (L 0), (L 1), (L 2), (L 3) by lia.
  inversion Hd as [|? ? Ha Hd1]; inversion Hd1 as [|? ? Hb Hd2]; inversion Hd2 as [|? ? Hc Hd3].
  assert (L4 : ∀ y d'', d' = y :: d'' → ld8 m (zlen pre + 4) = Some y).
  { intros y d'' ->. rewrite L by (rewrite !zlen_cons; pose proof (zlen_nonneg d''); lia). done. }
  clear L. simpl. rewrite vendor_oui by done.
  rewrite !(oui_test a b c 0 80 242 OUI_MICROSOFT), !(oui_test a b c 80 111 154 OUI_WFA),
    !(oui_test a b c 0 144 76 OUI_BROADCOM), !(oui_test a b c 0 19 116 OUI_QCA) by done.
  generalize (65536 * a + 256 * b + c). intros oui.
  assert (Hsub : (zlen (a :: b :: c :: t :: d') <? 5) = (zlen d' <? 1) ∧
                 (zlen (a :: b :: c :: t :: d') <=? 4) = (zlen d' <? 1))
    by (rewrite !zlen_cons; lia).
  destruct Hsub as [-> ->].
  destruct (oui =? OUI_MICROSOFT) eqn:E1; [|destruct (oui =? OUI_WFA) eqn:E2;
    [|destruct (oui =? OUI_BROADCOM) eqn:E3; [|destruct (oui =? OUI_QCA) eqn:E4]]];
    zbool; clear Em; subst; simpl; try done; rewrite ?andb_true_r;
    (destruct d' as [|y d'']; simpl; [|rewrite ?(L4 y d'' eq_refl), ?(zlen_cons y);
       replace (1 + zlen d'' <? 1) with false by (pose proof (zlen_nonneg d''); lia); simpl]);
    cbv delta [WMM_OUI_TYPE VENDOR_VHT_TYPE VENDOR_VHT_SUBTYPE VENDOR_VHT_SUBTYPE2
      WMM_OUI_SUBTYPE_INFORMATION_ELEMENT WMM_OUI_SUBTYPE_PARAMETER_ELEMENT
      WMM_OUI_SUBTYPE_TSPEC_ELEMENT P2P_OUI_TYPE WFD_OUI_TYPE HS20_INDICATION_OUI_TYPE
      HS20_OSEN_OUI_TYPE MBO_OUI_TYPE HS20_ROAMING_CONS_SEL_OUI_TYPE MULTI_AP_OUI_TYPE
      VENDOR_HT_CAPAB_OUI_TYPE QCA_VENDOR_ELEM_P2P_PREF_CHAN_LIST];
    repeat (match goal with |- context [?x =? ?k] => destruct (Z.eqb_spec x k) end;
            subst; simpl; try done).
Qed.

#[local] Arguments case_of : simpl never.
#[local] Arguments vendor_name : simpl never.

Lemma parse_extension_ok m pre d post e : m = pre ++ d ++ post →
  ieee802_11_parse_extension m (zlen pre) (zlen d) e =
  Some (if known (El WLAN_EID_EXTENSION d) then 0 else -1,
        store pre (El WLAN_EID_EXTENSION d) e).
Proof.
  intros Em. unfold ieee802_11_parse_extension, known, store, carries. simpl.
  destruct d as [|x d']; [done|].
  assert (L : ld8 m (zlen pre) = Some x).
  { rewrite <- (Z.add_0_r (zlen pre)), (ld8_data m pre (x :: d') post Em); [done|].
    rewrite zlen_cons. pose proof (zlen_nonneg d'). lia. }
  rewrite L, !zlen_cons. pose proof (zlen_nonneg d'). guard_false. simpl.
  destruct (case_of x extension_cases) as [[name ok]|]; [|done]. simpl.
  by destruct (ok _).
Qed.

Lemma parse_element_ok m pre id d post e : m = pre ++ d ++ post → bytes_ok d →
  parse_element m id (zlen pre) (zlen d) e =
  Some (if known (El id d) then 0 else 1, store pre (El id d) e, negb (id =? WLAN_EID_MIC)).
Proof.
  intros Em Hd. unfold parse_element.
  destruct (Z.eqb_spec id WLAN_EID_VENDOR_SPECIFIC) as [->|N1].
  { rewrite (parse_vendor_ok m pre d post e Em Hd). unfold known, store, carries. simpl.
    destruct (vendor_name d vendor_prefixes); simpl; by rewrite ?Z.add_0_r, ?Z.sub_0_r. }
  destruct (Z.eqb_spec id WLAN_EID_EXTENSION) as [->|N2].
  { rewrite (parse_extension_ok m pre d post e Em). simpl. by destruct (known _). }
  unfold known, store, carries. simpl. rewrite orb_false_r.
  rewrite (proj2 (Z.eqb_neq id WLAN_EID_VENDOR_SPECIFIC) N1),
    (proj2 (Z.eqb_neq id WLAN_EID_EXTENSION) N2).
  destruct (Z.eqb_spec id WLAN_EID_MULTI_BAND) as [->|N3]; simpl.
  { rewrite Z.ltb_antisym. by destruct (_ <=? _). }
  rewrite orb_assoc. destruct (_ || _ || _) eqn:Eo.
  { do 2 f_equal. destruct (Z.eqb_spec id WLAN_EID_MIC) as [->|]; [|done]. done. }
  destruct (case_of id element_cases) as [[name ok]|] eqn:Ec; simpl.
  - rewrite Z.sub_0_r. destruct (ok (zlen d)); simpl; by rewrite ?Z.add_0_r, ?Z.sub_0_r.
  - destruct (Z.eqb_spec id WLAN_EID_MIC) as [->|]; done.
Qed.

(** ** The walk *)

(** The members after the elements [els], which lie between [lo] and [hi] in the
    frame [m]. *)
Definition within (lo hi : Z) (p : Z * Z) : Prop := lo ≤ p.1 ∧ 0 ≤ p.2 ∧ p.1 + p.2 ≤ hi.

Definition holds (m : bytes) (lo hi : Z) (els : list element) (e : elems) : Prop :=
  (∀ name, member_data m e name = last_part name els) ∧
  mapM (λ '(pos, elen), ldn m pos elen) (mb_ies e) =
    Some (take (Z.to_nat MAX_NOF_MB_IES_SUPPORTED) (omap multi_band els)) ∧
  map_Forall (λ _, within lo hi) (members e) ∧ Forall (within lo hi) (mb_ies e).

Lemma holds_nil m lo hi : holds m lo hi [] no_elems.
Proof.
  split_and!; [|done|apply map_Forall_empty|done]. intros name. unfold member_data, member, no_elems. simpl.
  by rewrite lookup_empty.
Qed.

Lemma carries_skips el name k : fst (carries el) = Some (name, k) →
  0 ≤ k ≤ zlen (el_data el).
Proof.
  assert (Hk : ∀ c : option (string * (Z → bool)), ∀ k',
    fst (match c with
         | Some (name, ok) => (if ok (zlen (el_data el) - k') then Some (name, k') else None, true)
         | None => (None, false)
         end) = Some (name, k) → k = k')
    by (intros [[? ok]|] k'; simpl; [destruct (ok _)|]; by intros [=]).
  unfold carries. pose proof (zlen_nonneg (el_data el)).
  case_if; [case_match; intros [=]; lia|]. case_if.
  - destruct (el_data el) as [|x d'] eqn:Ed; [done|]. intros E. apply Hk in E as ->.
    rewrite zlen_cons. pose proof (zlen_nonneg d'). lia.
  - case_if; [done|]. intros E. apply Hk in E as ->. lia.
Qed.

Lemma last_part_snoc name els el :
  last_part name (els ++ [el]) =
  match part name el with Some d => Some d | None => last_part name els end.
Proof.
  unfold last_part. rewrite omap_app. simpl. destruct (part name el).
  - apply last_snoc.
  - by rewrite app_nil_r.
Qed.

Lemma mapM_snoc {A B} (f : A → option B) l k x y :
  mapM f l = Some k → f x = Some y → mapM f (l ++ [x]) = Some (k ++ [y]).
Proof.
  rewrite !mapM_Some. intros Hl Hx. apply Forall2_app; [done|]. by constructor.
Qed.

Lemma carries_multi_band d : fst (carries (El WLAN_EID_MULTI_BAND d)) = None.
Proof. done. Qed.

Lemma holds_snoc m lo hi pre id d post els e : m = pre ++ d ++ post →
  lo ≤ zlen pre → zlen pre + zlen d ≤ hi →
  holds m lo hi els e → holds m lo hi (els ++ [El id d]) (store pre (El id d) e).
Proof.
  intros Em Hlo Hhi (Hm & Hb & Hw & Hwb). pose proof (ldn_data m pre d post Em) as Ld.
  pose proof (zlen_nonneg d) as Hd0.
  assert (Hmb : ∀ els', omap multi_band (els' ++ [El id d]) =
    omap multi_band els' ++ if id =? WLAN_EID_MULTI_BAND then [d] else [])
    by (intros; rewrite omap_app; unfold multi_band; simpl; by case_if).
  unfold store. destruct (fst (carries (El id d))) as [[n k]|] eqn:Ec.
  - assert ((id =? WLAN_EID_MULTI_BAND) = false) as Ni.
    { apply Z.eqb_neq. intros ->. by rewrite carries_multi_band in Ec. }
    pose proof (carries_skips _ _ _ Ec) as Hk. simpl in Hk.
    split_and!; [|simpl; by rewrite Hmb, Ni, app_nil_r| |done].
    + intros name. rewrite last_part_snoc. unfold part. rewrite Ec.
      unfold member_data, member. simpl. case_decide as En; subst.
      * rewrite lookup_insert_eq. by apply Ld.
      * rewrite lookup_insert_ne by done. apply Hm.
    + simpl. apply map_Forall_insert_2; [|done]. unfold within. simpl. lia.
  - assert (Hp : ∀ name, last_part name (els ++ [El id d]) = last_part name els)
      by (intros; rewrite last_part_snoc; unfold part; by rewrite Ec).
    assert (Hl : length (mb_ies e) = min 5 (length (omap multi_band els))).
    { rewrite <- length_take. by apply mapM_Some, Forall2_length in Hb. }
    change (Z.to_nat MAX_NOF_MB_IES_SUPPORTED) with 5%nat in Hb.
    unfold holds. change (Z.to_nat MAX_NOF_MB_IES_SUPPORTED) with 5%nat.
    simpl el_id. simpl el_data.
    destruct (id =? WLAN_EID_MULTI_BAND) eqn:Ei; rewrite Hmb;
      [|by rewrite app_nil_r; split_and!; [intros; rewrite Hp|..]].
    destruct (zlen (mb_ies e) <? MAX_NOF_MB_IES_SUPPORTED) eqn:El5;
      unfold MAX_NOF_MB_IES_SUPPORTED, zlen in El5; zbool; simpl.
    + split_and!; [intros; rewrite Hp; apply Hm| |done|].
      * rewrite take_ge in Hb by lia. rewrite take_ge by (rewrite length_app; simpl; lia).
        apply mapM_snoc; [done|]. specialize (Ld 0). rewrite Z.add_0_r, Z.sub_0_r in Ld.
        apply Ld. lia.
      * apply Forall_app. split; [done|]. constructor; [|done]. unfold within. simpl. lia.
    + split_and!; [intros; rewrite Hp; apply Hm| |done..]. by rewrite take_app_le by lia.
Qed.

Definition result (els : list element) : ParseRes :=
  if forallb known els then ParseOK else ParseUnknown.

(** What a walk over [rest] ends with after the elements [els]: all of it was
    elements, an element was cut off, or a MIC element hides what follows. *)
Definition parsed_as (rest : bytes) (els : list element) (failed : bool) : Prop :=
  ∃ junk, rest = encode_all els ++ junk ∧
  if failed then cut_off junk ∧ Forall (λ el, el_id el ≠ WLAN_EID_MIC) els
  else (junk = [] ∧ Forall (λ el, el_id el ≠ WLAN_EID_MIC) els) ∨
       ∃ els' d, els = els' ++ [El WLAN_EID_MIC d] ∧ Forall (λ el, el_id el ≠ WLAN_EID_MIC) els'.

Lemma parsed_cons el rest els failed :
  el_id el ≠ WLAN_EID_MIC → parsed_as rest els failed → parsed_as (encode el ++ rest) (el :: els) failed.
Proof.
  intros Hn (junk & -> & Hs). exists junk. split; [unfold encode_all; simpl; by rewrite <- app_assoc|].
  destruct failed; [naive_solver|]. destruct Hs as [[-> Hs]|(els' & d & -> & Hs)]; [left; auto|].
  right. exists (el :: els'), d. auto.
Qed.

(** A list of bytes is empty, cut off, or starts with an element. *)
Lemma next_element rest : bytes_ok rest →
  rest = [] ∨ cut_off rest ∨ ∃ el rest', rest = encode el ++ rest' ∧ el_ok el ∧ bytes_ok rest'.
Proof.
  intros Hr. destruct rest as [|id [|n d]]; [by left|by right; left|right].
  destruct (Z.lt_ge_cases (zlen d) n) as [|Hn]; [by left|right].
  inversion_clear Hr as [|? ? Hi Hr']. inversion_clear Hr' as [|? ? Hb Hd].
  unfold byte_ok, zlen in *.
  assert (Hl : length (take (Z.to_nat n) d) = Z.to_nat n) by (rewrite length_take; lia).
  exists (El id (take (Z.to_nat n) d)), (drop (Z.to_nat n) d). split.
  - unfold encode, zlen. simpl. rewrite Hl, Z2Nat.id, take_drop by lia. done.
  - split; [|by apply Forall_drop]. unfold el_ok, byte_ok, zlen. simpl.
    rewrite Hl. split_and!; [lia|lia|by apply Forall_take|lia].
Qed.

Definition unknowns (els : list element) : Z := zlen (List.filter (λ el, negb (known el)) els).

Lemma unknowns_snoc els el :
  unknowns (els ++ [el]) = unknowns els + if known el then 0 else 1.
Proof.
  unfold unknowns. rewrite List.filter_app, zlen_app. simpl. by destruct (known el).
Qed.

Lemma unknowns_result els :
  (if unknowns els =? 0 then ParseOK else ParseUnknown) = result els.
Proof.
  unfold result. induction els as [|el els IH]; [done|]. unfold unknowns in *. simpl.
  by destruct (known el).
Qed.

Lemma length_encode el rest : el_ok el →
  zlen (encode el ++ rest) = 2 + zlen (el_data el) + zlen rest.
Proof. intros. unfold encode. rewrite zlen_app, !zlen_cons. lia. Qed.

Lemma ld8_header m pre id n d post : m = pre ++ (id :: n :: d) ++ post →
  ld8 m (zlen pre) = Some id ∧ ld8 m (zlen pre + 1) = Some n.
Proof.
  intros Em. pose proof (ld8_data m pre _ post Em) as L. pose proof (zlen_nonneg d).
  rewrite <- (Z.add_0_r (zlen pre)) at 1. by rewrite !L by (rewrite !zlen_cons; lia).
Qed.

(** The walk at a cut off element. *)
Lemma walk_cut_off m start len fuel pre rest post u e :
  m = pre ++ rest ++ post → start + len = zlen pre + zlen rest → cut_off rest →
  walk (S fuel) m start len (zlen pre) u e = Some (ParseFailed, e).
Proof.
  intros Em Hl Hc. cbn [walk]. replace (start + len - zlen pre) with (zlen rest) by lia.
  assert (Hz : (zlen pre =? start + len) = false).
  { apply Z.eqb_neq. destruct rest; [done|]. rewrite zlen_cons in Hl.
    pose proof (zlen_nonneg rest). lia. }
  rewrite Hz. destruct rest as [|id [|n d]]; [done..|].
  destruct (ld8_header _ _ _ _ _ _ Em) as [-> ->]. simpl in Hc.
  pose proof (zlen_nonneg d). rewrite !zlen_cons. guard_false. simpl. by guard_true.
Qed.

(** The walk at a whole element. *)
Lemma walk_element m start len fuel pre el rest post u e :
  m = pre ++ (encode el ++ rest) ++ post → start + len = zlen pre + zlen (encode el ++ rest) →
  el_ok el →
  let e' := store (pre ++ take 2 (encode el)) el e in
  let u' := u + if known el then 0 else 1 in
  walk (S fuel) m start len (zlen pre) u e =
    if el_id el =? WLAN_EID_MIC
    then Some (if u' =? 0 then ParseOK else ParseUnknown, e')
    else walk fuel m start len (zlen (pre ++ encode el)) u' e'.
Proof.
  intros Em Hl Hel e' u'. rewrite length_encode in Hl by done. destruct el as [id d].
  cbn [walk]. replace (start + len - zlen pre) with (2 + zlen d + zlen rest)
    by (rewrite Hl; simpl; lia).
  destruct (ld8_header m pre id (zlen d) (d ++ rest) post) as [-> ->].
  { rewrite Em. unfold encode. by simpl. }
  pose proof (zlen_nonneg d). pose proof (zlen_nonneg rest). guard_false. simpl. guard_false.
  assert (Hp : zlen pre + 2 = zlen (pre ++ [id; zlen d])) by (rewrite zlen_app; done).
  rewrite Hp, (parse_element_ok m (pre ++ [id; zlen d]) id d (rest ++ post)).
  - simpl. rewrite <- Hp. unfold encode. rewrite zlen_app, !zlen_cons. simpl.
    replace (zlen pre + (1 + (1 + zlen d))) with (zlen pre + 2 + zlen d) by lia.
    by destruct (id =? WLAN_EID_MIC).
  - rewrite Em. unfold encode. simpl. by rewrite <- !app_assoc.
  - apply Hel.
Qed.

Lemma walk_ok m start len fuel : ∀ pre rest post past e,
  m = pre ++ rest ++ post → start ≤ zlen pre → start + len = zlen pre + zlen rest →
  bytes_ok rest → (length rest < fuel)%nat → holds m start (start + len) past e →
  ∃ els e' failed,
    walk fuel m start len (zlen pre) (unknowns past) e =
      Some (if (failed : bool) then ParseFailed else result (past ++ els), e') ∧
    holds m start (start + len) (past ++ els) e' ∧ Forall el_ok els ∧ parsed_as rest els failed.
Proof.
  induction fuel as [|fuel IH]; intros pre rest post past e Em Hs Hl Hr Hf Hh; [lia|].
  destruct (next_element rest Hr) as [->|[Hc|(el & rest' & -> & Hel & Hr')]].
  - exists [], e, false. rewrite app_nil_r. change (zlen []) with 0 in Hl. simpl.
    replace (start + len - zlen pre <? 2) with true by lia.
    replace (zlen pre =? start + len) with true by lia.
    rewrite unknowns_result. split_and!; [done..|]. exists []. naive_solver.
  - exists [], e, true. rewrite app_nil_r, (walk_cut_off m start len fuel pre rest post) by done.
    split_and!; [done..|]. by exists rest.
  - rewrite (walk_element m start len fuel pre el rest' post) by done.
    rewrite <- unknowns_snoc, unknowns_result.
    set (e1 := store _ _ _).
    assert (Hh' : holds m start (start + len) (past ++ [el]) e1).
    { destruct el as [id d]. apply (holds_snoc _ _ _ _ _ _ (rest' ++ post)); [..|done].
      - rewrite Em. unfold encode. simpl. by rewrite <- !app_assoc.
      - rewrite zlen_app. change (zlen (take 2 (encode (El id d)))) with 2. lia.
      - rewrite Hl, zlen_app, length_encode by done.
        change (zlen (take 2 (encode (El id d)))) with 2. simpl.
        pose proof (zlen_nonneg rest'). lia. }
    destruct (Z.eqb_spec (el_id el) WLAN_EID_MIC) as [Hmic|Hmic].
    + exists [el], e1, false. split_and!; [done..|by constructor|].
      exists rest'. split; [unfold encode_all; simpl; by rewrite app_nil_r|].
      right. exists [], (el_data el). destruct el; simpl in *; subst. done.
    + edestruct (IH (pre ++ encode el) rest' post (past ++ [el]) e1) as (els & e' & f & W & Hw & Ho & Hsh).
      * rewrite Em. by rewrite <- !app_assoc.
      * rewrite zlen_app. pose proof (zlen_nonneg (encode el)). lia.
      * rewrite Hl, !zlen_app. lia.
      * done.
      * unfold encode in Hf. rewrite length_app in Hf. simpl in Hf. lia.
      * done.
      * exists (el :: els), e', f. rewrite <- app_assoc in W, Hw.
        split_and!; [done..|by constructor|by apply parsed_cons].
Qed.

(** ** The elements of a frame are determined *)

Lemma encode_prefix els els0 junk junk0 :
  encode_all els ++ junk = encode_all els0 ++ junk0 → junk0 = [] ∨ cut_off junk0 →
  els `prefix_of` els0.
Proof.
  revert els0. induction els as [|[id d] els IH]; intros [|[id0 d0] els0] E Hj;
    [apply prefix_nil..| |]; unfold encode_all, encode in *; simpl in *.
  - subst junk0. destruct Hj as [|Hj]; [done|]. simpl in Hj.
    rewrite <- app_assoc, zlen_app in Hj.
    match goal with H : _ + zlen ?l < _ |- _ => pose proof (zlen_nonneg l) end. lia.
  - injection E as -> El E. rewrite <- !app_assoc in E.
    apply app_inj_1 in E as [-> E]; [|unfold zlen in El; lia].
    apply prefix_cons. by apply IH.
Qed.

Lemma encode_all_inj els els0 junk junk0 :
  encode_all els ++ junk = encode_all els0 ++ junk0 →
  junk = [] ∨ cut_off junk → junk0 = [] ∨ cut_off junk0 → els = els0 ∧ junk = junk0.
Proof.
  intros E H1 H2. assert (els = els0) as ->.
  { apply (anti_symm prefix); by eapply encode_prefix. }
  split; [done|]. by apply app_inv_head in E.
Qed.

Lemma parsed_unique rest els els0 junk0 failed :
  parsed_as rest els failed → rest = encode_all els0 ++ junk0 → junk0 = [] ∨ cut_off junk0 →
  Forall (λ el, el_id el ≠ WLAN_EID_MIC) els0 →
  els = els0 ∧ (if failed then cut_off junk0 else junk0 = []).
Proof.
  intros (junk & E & Hs) E0 Hj0 Hm0. rewrite E in E0.
  assert (Hno : ¬ ∃ els' d, els = els' ++ [El WLAN_EID_MIC d]).
  { intros (els' & d & ->). apply encode_prefix in E0 as [k ->]; [|done].
    rewrite <- app_assoc in Hm0. apply Forall_app in Hm0 as [_ Hm0]. by inversion Hm0. }
  destruct failed.
  - destruct Hs as [Hc _]. apply encode_all_inj in E0 as [-> ->]; auto.
  - destruct Hs as [[-> _]|(els' & d & -> & _)]; [|exfalso; eauto].
    apply encode_all_inj in E0 as [-> <-]; auto.
Qed.

Lemma parse_elems_ok pre rest post : bytes_ok rest →
  ∃ els e failed,
    ieee802_11_parse_elems (pre ++ rest ++ post) (zlen pre) (zlen rest) =
      Some (if (failed : bool) then ParseFailed else result els, e) ∧
    holds (pre ++ rest ++ post) (zlen pre) (zlen pre + zlen rest) els e ∧
    Forall el_ok els ∧ parsed_as rest els failed.
Proof.
  intros Hr. eapply (walk_ok _ _ _ _ pre rest post []); [done..| |apply holds_nil].
  unfold zlen. lia.
Qed.

(** C18. Every list of elements that do not encrypt the rest of the frame is
    found: the parser returns [ParseOK] when it knows all of them and
    [ParseUnknown] otherwise, every member points to the data of the last element
    that carries it (as vendor types, extension identifiers and accepted lengths
    say), and is null when there is none; of the multi-band elements the first
    five are kept. *)
Theorem elements_found pre els post :
  Forall el_ok els → Forall (λ el, el_id el ≠ WLAN_EID_MIC) els →
  let m := pre ++ encode_all els ++ post in
  ∃ e, ieee802_11_parse_elems m (zlen pre) (zlen (encode_all els)) =
         Some (if forallb known els then ParseOK else ParseUnknown, e) ∧
       (∀ name, member_data m e name = last_part name els) ∧
       mapM (λ '(pos, elen), ldn m pos elen) (mb_ies e) =
         Some (take 5 (omap multi_band els)).
Proof.
  intros Hok Hm m.
  assert (Hb : bytes_ok (encode_all els)).
  { apply Forall_concat, Forall_fmap. eapply Forall_impl; [exact Hok|].
    intros [id d] (? & ? & ?). unfold compose, encode. simpl in *.
    constructor; [done|]. constructor; [|done]. unfold byte_ok. pose proof (zlen_nonneg d). lia. }
  destruct (parse_elems_ok pre (encode_all els) post Hb) as (els' & e & failed & E & Hh & _ & Hs).
  destruct (parsed_unique _ _ els [] _ Hs) as [-> Hf]; auto. { by rewrite app_nil_r. }
  exists e. destruct failed; [done|]. destruct Hh as (H1 & H2 & _). auto.
Qed.

Definition rates_frame : list element :=
  [El 0 [104; 111; 109; 101]; El 1 [2; 4; 11; 22]; El 221 [0; 0x50; 0xf2; 2; 0; 1; 0]; El 250 []].

(** A network name, four rates, a WMM information element and an unknown one. *)
Lemma elements_found_witness :
  ∃ e, ieee802_11_parse_elems (encode_all rates_frame) 0 (zlen (encode_all rates_frame)) =
         Some (ParseUnknown, e) ∧
       member_data (encode_all rates_frame) e "ssid" = Some [104; 111; 109; 101] ∧
       member_data (encode_all rates_frame) e "wmm" = Some [0; 0x50; 0xf2; 2; 0; 1; 0] ∧
       member_data (encode_all rates_frame) e "rsn_ie" = None.
Proof.
  destruct (elements_found [] rates_frame []) as (e & E & Hm & _).
  - by apply (bool_decide_unpack _).
  - by apply (bool_decide_unpack _).
  - exists e. rewrite !app_nil_r in *. simpl app in *. rewrite !Hm. by split_and!.
Defined.

(** C20. On every frame the parser returns, having read nothing outside the
    bytes it was given; every member it sets lies inside them; and it fails
    exactly on the frames whose last element is cut off, before any element that
    encrypts what follows. *)
Theorem parser_stays_inside m start len :
  bytes_ok m → 0 ≤ start → 0 ≤ len → start + len ≤ zlen m →
  ∃ r e, ieee802_11_parse_elems m start len = Some (r, e) ∧
    map_Forall (λ _, within start (start + len)) (members e) ∧
    Forall (within start (start + len)) (mb_ies e) ∧
    (r = ParseFailed ↔ ∃ els junk, ldn m start len = Some (encode_all els ++ junk) ∧
       Forall (λ el, el_id el ≠ WLAN_EID_MIC) els ∧ cut_off junk).
Proof.
  intros Hb Hs Hl Hz. unfold zlen in Hz.
  set (pre := take (Z.to_nat start) m). set (rest := take (Z.to_nat len) (drop (Z.to_nat start) m)).
  set (post := drop (Z.to_nat len) (drop (Z.to_nat start) m)).
  assert (Em : m = pre ++ rest ++ post) by (unfold pre, rest, post; by rewrite !take_drop).
  assert (Lp : zlen pre = start) by (unfold pre, zlen; rewrite length_take; lia).
  assert (Lr : zlen rest = len) by (unfold rest, zlen; rewrite length_take, length_drop; lia).
  assert (Hr : bytes_ok rest) by (by apply Forall_take, Forall_drop).
  assert (Hld : ldn m start len = Some rest)
    by (unfold ldn, in_range, zlen; by guard_true).
  destruct (parse_elems_ok pre rest post Hr) as (els & e & failed & E & Hh & Hok & Hsh).
  rewrite <- Em, Lp, Lr in *. eexists _, e. split; [exact E|].
  destruct Hh as (_ & _ & H3 & H4). split_and!; [done..|]. rewrite Hld. split.
  - destruct failed; [|unfold result; by case_if]. intros _.
    destruct Hsh as (junk & -> & Hc & Hm). eauto.
  - intros (els0 & junk & [= Er] & Hm & Hc).
    destruct (parsed_unique _ _ els0 junk _ Hsh Er (or_intror Hc) Hm) as [-> Hf].
    destruct failed; [done|]. by rewrite Hf in Hc.
Qed.

(** A frame cut off in its second element. *)
Lemma parser_stays_inside_witness :
  ∃ r e, ieee802_11_parse_elems [9; 0; 2; 104; 105; 1; 4; 2] 1 7 = Some (r, e) ∧
    map_Forall (λ _, within 1 8) (members e) ∧ r = ParseFailed.
Proof.
  destruct (parser_stays_inside [9; 0; 2; 104; 105; 1; 4; 2] 1 7) as (r & e & E & H1 & _ & H3);
    [by apply (bool_decide_unpack _)|lia..|done|].
  exists r, e. split_and!; [done..|]. apply H3.
  exists [El 0 [104; 105]], [1; 4; 2]. split_and!; [done| |done]. by repeat constructor.
Defined.
