(* ===== verification/StaMlme.v ===== *)
(** * hostapd's stations: authentication and association

    The functions of [src/ap/ieee802_11.c] and [src/ap/sta_info.c] that decide
    about a station's frames and change only hostapd's own data: the shared-key
    exchange, replies, association identifiers, the checks of an association
    request, the station's entry in the driver, disconnecting, and the timer that
    removes idle stations.  The handlers that call them, and ask the controller
    interface first, are in [Mgmt.v].

    As in [Station.v]: the build is the one of the repository's [.config], calls
    of the driver, RADIUS, WPA and EAPOL code are events, their results and what
    they store are the environment's choice. *)

From Stdlib Require Import ZArith Lia.
From S2P Require Import Prelude CMem CMonad Chain ApData Station Elements.

Module Mlme.
Import Hapd Elements.

(** ** Frames *)

Definition IEEE80211_HDRLEN : Z := 24.
Definition ETH_ALEN : Z := 6.
Definition sizeof_mgmt : Z := IEEE80211_HDRLEN + 16.

Definition WLAN_FC_RETRY : Z := 0x0800.
Definition WLAN_FC_ISWEP : Z := 0x4000.
Definition WLAN_FC_TYPE_MGMT : Z := 0.
Definition WLAN_FC_STYPE_ASSOC_RESP : Z := 1.
Definition WLAN_FC_STYPE_REASSOC_REQ : Z := 2.
Definition WLAN_FC_STYPE_REASSOC_RESP : Z := 3.
Definition WLAN_FC_STYPE_PROBE_REQ : Z := 4.
Definition WLAN_FC_STYPE_PROBE_RESP : Z := 5.
Definition WLAN_FC_STYPE_BEACON : Z := 8.
Definition WLAN_FC_STYPE_DISASSOC : Z := 10.
Definition WLAN_FC_STYPE_AUTH : Z := 11.
Definition WLAN_FC_STYPE_DEAUTH : Z := 12.
Definition WLAN_FC_STYPE_ACTION : Z := 13.

Definition WLAN_STA_PENDING_POLL : Z := BIT 6.
Definition WLAN_STA_WMM : Z := BIT 9.
Definition WLAN_STA_PENDING_FILS_ERP : Z := BIT 22.
Definition WLAN_STA_PENDING_DISASSOC_CB : Z := BIT 29.
Definition WLAN_STA_PENDING_DEAUTH_CB : Z := BIT 30.

Definition WLAN_STATUS_SUCCESS : Z := 0.
Definition WLAN_STATUS_UNSPECIFIED_FAILURE : Z := 1.
Definition WLAN_STATUS_ASSOC_DENIED_UNSPEC : Z := 12.
Definition WLAN_STATUS_NOT_SUPPORTED_AUTH_ALG : Z := 13.
Definition WLAN_STATUS_UNKNOWN_AUTH_TRANSACTION : Z := 14.
Definition WLAN_STATUS_CHALLENGE_FAIL : Z := 15.
Definition WLAN_STATUS_AP_UNABLE_TO_HANDLE_NEW_STA : Z := 17.
Definition WLAN_STATUS_ASSOC_REJECTED_TEMPORARILY : Z := 30.
Definition WLAN_STATUS_ROBUST_MGMT_FRAME_POLICY_VIOLATION : Z := 31.
Definition WLAN_STATUS_INVALID_IE : Z := 40.
Definition WLAN_STATUS_GROUP_CIPHER_NOT_VALID : Z := 41.
Definition WLAN_STATUS_PAIRWISE_CIPHER_NOT_VALID : Z := 42.
Definition WLAN_STATUS_AKMP_NOT_VALID : Z := 43.
Definition WLAN_STATUS_CIPHER_REJECTED_PER_POLICY : Z := 46.
Definition WLAN_STATUS_ASSOC_DENIED_LISTEN_INT_TOO_LARGE : Z := 51.
Definition WLAN_STATUS_INVALID_PMKID : Z := 53.
Definition WLAN_STATUS_INVALID_MDIE : Z := 54.
Definition WLAN_STATUS_REJECTED_WITH_SUGGESTED_BSS_TRANSITION : Z := 82.
Definition WLAN_REASON_PREV_AUTH_NOT_VALID : Z := 2.
Definition WLAN_REASON_DISASSOC_DUE_TO_INACTIVITY : Z := 4.
Definition WLAN_REASON_CLASS2_FRAME_FROM_NONAUTH_STA : Z := 6.
Definition WLAN_REASON_CLASS3_FRAME_FROM_NONASSOC_STA : Z := 7.

Definition WLAN_AUTH_SAE : Z := 3.
Definition WLAN_AUTH_CHALLENGE_LEN : Z := 128.
Definition WPA_PROTO_WPA : Z := BIT 0.
Definition WPA_PROTO_RSN : Z := BIT 1.
Definition PSK_RADIUS_IGNORED : Z := 0.
Definition HOSTAPD_ACL_REJECT : Z := 0.
Definition HOSTAPD_ACL_PENDING : Z := 2.
Definition HOSTAPD_ACL_ACCEPT_TIMEOUT : Z := 3.
Definition STA_DISASSOC : Z := 1.
Definition STA_DEAUTH : Z := 2.
Definition STA_REMOVE : Z := 3.
Definition STA_DISASSOC_FROM_CLI : Z := 4.
Definition RADIUS_ACCT_TERMINATE_CAUSE_IDLE_TIMEOUT : Z := 4.

(** [host_to_le16] of a value of 16 bits. *)
Definition le16 (v : Z) : bytes := le_enc 2 v.

(** [struct ieee80211_mgmt] with the addresses and the body the code fills in;
    everything else is zero. *)
Definition mgmt_frame (stype : Z) (da sa bssid body : bytes) : bytes :=
  le16 (Z.lor (Z.shiftl WLAN_FC_TYPE_MGMT 2) (Z.shiftl stype 4)) ++ [0; 0]
  ++ da ++ sa ++ bssid ++ [0; 0] ++ body.

(** Exactly [n] bytes. *)
Definition fixed (n : Z) (b : bytes) : bytes := take (Z.to_nat n) (b ++ replicate (Z.to_nat n) 0).

(** [s8] of a byte. *)
Definition s8 (b : Z) : Z := if 128 <=? b then b - 256 else b.

(** *** Elements the access point sends *)

Definition HOSTAPD_RATE_BASIC : Z := 1.
Definition BSS_MEMBERSHIP_SELECTOR_VHT_PHY : Z := 126.
Definition BSS_MEMBERSHIP_SELECTOR_HT_PHY : Z := 127.
Definition WLAN_EID_SUPP_RATES : Z := 1.
Definition WLAN_EID_EXT_SUPP_RATES : Z := 50.

(** [rate / 5], with the bit of the basic rates, stored in a byte. *)
Definition rate_byte (r : Z * Z) : Z :=
  let b := (r.1 / 5) mod 256 in if Z.land r.2 HOSTAPD_RATE_BASIC =? 0 then b else Z.lor b 0x80.

(** [num_rates], one more for each required selector. *)
Definition num_rates (h : hostapd_data) (rates : list (Z * Z)) : Z :=
  zlen rates + (if require_ht (iconf h) then 1 else 0) + (if require_vht (iconf h) then 1 else 0).

Definition hostapd_eid_supp_rates (h : hostapd_data) : bytes :=
  match current_rates (iface h) with
  | None => []
  | Some rates =>
      let num := Z.min 8 (num_rates h rates) in
      let first := rate_byte <$> take (Z.to_nat num) rates in
      let count := zlen first in
      let ht := require_ht (iconf h) && (count <? 8) in
      let count := if ht then count + 1 else count in
      [WLAN_EID_SUPP_RATES; num] ++ first
      ++ (if ht then [Z.lor 0x80 BSS_MEMBERSHIP_SELECTOR_HT_PHY] else [])
      ++ (if require_vht (iconf h) && (count <? 8)
          then [Z.lor 0x80 BSS_MEMBERSHIP_SELECTOR_VHT_PHY] else [])
  end.

Definition hostapd_eid_ext_supp_rates (h : hostapd_data) : bytes :=
  match current_rates (iface h) with
  | None => []
  | Some rates =>
      let num := num_rates h rates in
      if num <=? 8 then [] else
      let num := num - 8 in
      let seen := take (Z.to_nat (num + 8)) rates in
      let count := zlen seen in
      let count_ht := if require_ht (iconf h) then count + 1 else count in
      let count_vht := if require_vht (iconf h) then count_ht + 1 else count_ht in
      [WLAN_EID_EXT_SUPP_RATES; num mod 256] ++ (rate_byte <$> drop 8 seen)
      ++ (if require_ht (iconf h) && (8 <? count_ht)
          then [Z.lor 0x80 BSS_MEMBERSHIP_SELECTOR_HT_PHY] else [])
      ++ (if require_vht (iconf h) && (8 <? count_vht)
          then [Z.lor 0x80 BSS_MEMBERSHIP_SELECTOR_VHT_PHY] else [])
  end.

Definition SHORT_PREAMBLE : Z := 1.
Definition WLAN_CAPABILITY_ESS : Z := BIT 0.
Definition WLAN_CAPABILITY_PRIVACY : Z := BIT 4.
Definition WLAN_CAPABILITY_SPECTRUM_MGMT : Z := BIT 8.
Definition WLAN_CAPABILITY_RADIO_MEASUREMENT : Z := BIT 12.
Definition IEEE80211_CAP_RRM : Z := 0x1000.

(** [dfs] is the result of [hostapd_is_dfs_required]. *)
Definition hostapd_own_capab_info (h : hostapd_data) (dfs : Z) : Z :=
  let b := bss (conf h) in
  let dfs := if dfs <? 0 then 0 else dfs in
  let add (c : bool) bit capab := if c then Z.lor capab bit else capab in
  let privacy := negb (wep_keys_set b =? 0)
    || (negb (ieee802_1x (conf h) =? 0)
        && (negb (default_wep_key_len b =? 0) || negb (individual_wep_key_len b =? 0)))
    || negb (wpa (conf h) =? 0) in
  add (existsb (λ x, negb (x =? 0)) (radio_measurements b)) IEEE80211_CAP_RRM
    (add (mode_a (iface h) && (negb (spectrum_mgmt_required (iconf h) =? 0) || negb (dfs =? 0)))
       WLAN_CAPABILITY_SPECTRUM_MGMT
    (add (mode_g (iface h) && (num_sta_no_short_slot_time (iface h) =? 0))
       WLAN_CAPABILITY_SHORT_SLOT_TIME
    (add privacy WLAN_CAPABILITY_PRIVACY
    (add ((num_sta_no_short_preamble (iface h) =? 0) && (preamble (iconf h) =? SHORT_PREAMBLE))
       WLAN_CAPABILITY_SHORT_PREAMBLE WLAN_CAPABILITY_ESS)))).

Section Operations.
  Context `{Env} {S : Type} `{HasHapd S} `{StaSize}.

(** A number and bytes that another part of hostapd has stored. *)
Definition stored (what : string) : M S Z := ask (λ t, env_call t what).
Definition stored_bytes (what : string) : M S bytes := ask (λ t, env_bytes t what).

(** *** Authentication *)

(** [auth_shared_key]; the random challenge is the environment's. *)
Definition auth_shared_key (l : loc) (auth_transaction : Z) (chal : option bytes) (iswep : bool)
    : M S Z :=
  s ← sta_get l;
  if auth_transaction =? 1 then
    match challenge (mlme s) with
    | Some _ => mret 0
    | None =>
        r ← calloc WLAN_AUTH_CHALLENGE_LEN;
        match r with
        | None => mret WLAN_STATUS_UNSPECIFIED_FAILURE
        | Some _ =>
            r ← hostapd_call "os_get_random" (addr s);
            if r <? 0 then mret WLAN_STATUS_UNSPECIFIED_FAILURE else
            c ← stored_bytes "rc4_skip";
            sta_upd l (upd_mlme (set_challenge (Some (fixed WLAN_AUTH_CHALLENGE_LEN c))));;
            mret 0
        end
    end
  else if negb (auth_transaction =? 3) then mret WLAN_STATUS_UNSPECIFIED_FAILURE
  else if negb iswep then mret WLAN_STATUS_CHALLENGE_FAIL
  else match challenge (mlme s), chal with
  | Some own, Some got =>
      if bool_decide (own = got) then
        sta_upd l (add_flag WLAN_STA_AUTH);;
        notify "WPA_AUTH" (addr s);;
        sta_upd l (upd_mlme (set_challenge None));;
        mret 0
      else mret WLAN_STATUS_CHALLENGE_FAIL
  | _, _ => mret WLAN_STATUS_CHALLENGE_FAIL
  end.

Definition send_auth_reply (dst bssid : bytes) (auth_alg auth_transaction resp : Z) (ies : bytes)
    : M S Z :=
  buf ← calloc (IEEE80211_HDRLEN + 6 + zlen ies);
  match buf with
  | None => mret (-1)
  | Some _ =>
      h ← gets get_hapd;
      r ← hostapd_call "hostapd_drv_send_mlme"
            (mgmt_frame WLAN_FC_STYPE_AUTH dst (own_addr h) bssid
               (le16 auth_alg ++ le16 auth_transaction ++ le16 resp ++ ies));
      mret (if r <? 0 then WLAN_STATUS_UNSPECIFIED_FAILURE else WLAN_STATUS_SUCCESS)
  end.

(** The access list and RADIUS answer with the VLAN, the keys and the intervals
    of the station; [ap_sta_set_vlan] is not modelled beyond the VLAN it stores. *)
Definition ieee802_11_set_radius_info (l : loc) (res : Z) : M S Z :=
  s ← sta_get l;
  h ← gets get_hapd;
  notempty ← stored "vlan_id->notempty";
  valid ← (if notempty =? 0 then mret 1 else hostapd_call "hostapd_vlan_valid" (addr s));
  if valid =? 0 then mret (-1) else
  r ← hostapd_call "ap_sta_set_vlan" (addr s);
  vlan ← stored "sta->vlan_id";
  sta_upd l (set_vlan_id vlan);;
  if r <? 0 then mret (-1) else
  psk ← stored "psk";
  identity ← stored "identity";
  radius_cui ← stored "radius_cui";
  sta_upd l (set_keys
    (negb (wpa_psk_radius (bss (conf h)) =? PSK_RADIUS_IGNORED) && negb (psk =? 0))
    (negb (identity =? 0)) (negb (radius_cui =? 0)));;
  interim ← stored "acct_interim_interval";
  (if (acct_interim_interval_conf (conf h) =? 0) && negb (interim =? 0)
   then sta_upd l (set_interim_interval interim) else skip);;
  (if res =? HOSTAPD_ACL_ACCEPT_TIMEOUT then
     sta_upd l (upd_mlme (set_session_timeout_set true));;
     notify "ap_sta_session_timeout" (addr s)
   else
     sta_upd l (upd_mlme (set_session_timeout_set false));;
     notify "ap_sta_no_session_timeout" (addr s));;
  mret 0.

(** *** Association identifiers *)

(** The first bit from [j] on that is clear. *)
Fixpoint first_clear (n : nat) (w j : Z) : option Z :=
  match n with
  | O => None
  | Datatypes.S n => if Z.land w (BIT j) =? 0 then Some j else first_clear n w (j + 1)
  end.

(** The first word from [i] on with a clear bit, and the bit. *)
Fixpoint find_aid (ws : list Z) (i : Z) : option (Z * Z) :=
  match ws with
  | [] => None
  | w :: ws =>
      if w =? 0xffffffff then find_aid ws (i + 1) else
      match first_clear 32 w 0 with
      | Some j => Some (i, j)
      | None => find_aid ws (i + 1)
      end
  end.

Definition hostapd_get_aid (l : loc) : M S Z :=
  s ← sta_get l;
  if 0 <? aid s then mret 0 else
  h ← gets get_hapd;
  match find_aid (sta_aid h) 0 with
  | None => mret (-1)
  | Some (i, j) =>
      let aid := i * 32 + j + 1 in
      if 2007 <? aid then mret (-1) else
      sta_upd l (set_aid aid);;
      w ← opt! (sta_aid h !! Z.to_nat i);
      upd_hapd (λ h, set_sta_aid (<[Z.to_nat i := Z.lor w (BIT j)]> (sta_aid h)) h);;
      mret 0
  end.

(** *** The checks of an association request *)

(** The data of a member, [None] for a null pointer. *)
Definition elem (m : bytes) (e : elems) (name : string) : M S (option bytes) :=
  match member e name with
  | None => mret None
  | Some (pos, elen) => d ← opt! ldn m pos elen; mret (Some d)
  end.

Definition check_ssid (ssid_ie : option bytes) : M S Z :=
  h ← gets get_hapd;
  mret (match ssid_ie with
        | None => WLAN_STATUS_UNSPECIFIED_FAILURE
        | Some d => if bool_decide (d = ssid (bss (conf h)))
                    then WLAN_STATUS_SUCCESS else WLAN_STATUS_UNSPECIFIED_FAILURE
        end).

Definition WMM_VERSION : Z := 1.
Definition sizeof_wmm_information : Z := 7.

Definition hostapd_eid_wmm_valid (eid : bytes) : option bool :=
  if zlen eid <? sizeof_wmm_information then Some false else
  subtype ← ld8 eid 4;
  version ← ld8 eid 5;
  Some ((subtype =? WMM_OUI_SUBTYPE_INFORMATION_ELEMENT) && (version =? WMM_VERSION)).

Definition check_wmm (l : loc) (wmm_ie : option bytes) : M S Z :=
  sta_upd l (clear_flag WLAN_STA_WMM);;
  sta_upd l (set_qosinfo 0);;
  h ← gets get_hapd;
  match wmm_ie with
  | Some d =>
      if wmm_enabled (bss (conf h)) =? 0 then mret WLAN_STATUS_SUCCESS else
      ok ← opt! hostapd_eid_wmm_valid d;
      if negb ok then mret WLAN_STATUS_UNSPECIFIED_FAILURE else
      sta_upd l (add_flag WLAN_STA_WMM);;
      q ← opt! ld8 d 6;
      sta_upd l (set_qosinfo q);;
      mret WLAN_STATUS_SUCCESS
  | None => mret WLAN_STATUS_SUCCESS
  end.

Definition check_ext_capab (l : loc) (ext_capab : option bytes) : M S Z :=
  match ext_capab with
  | Some d =>
      if 0 <? zlen d then
        b ← opt! ld8 d 0;
        sta_upd l (upd_mlme (set_ecsa_supported (negb (Z.land b (BIT 2) =? 0))));;
        buf ← calloc (1 + zlen d);
        sta_upd l (upd_mlme (set_ext_capability
          (match buf with Some _ => Some (zlen d :: d) | None => None end)));;
        mret WLAN_STATUS_SUCCESS
      else mret WLAN_STATUS_SUCCESS
  | None => mret WLAN_STATUS_SUCCESS
  end.

Definition copy_supp_rates (l : loc) (supp_rates ext_supp_rates : option bytes) : M S Z :=
  h ← gets get_hapd;
  if mode_ad (iface h) then mret WLAN_STATUS_SUCCESS else
  match supp_rates with
  | None => mret WLAN_STATUS_UNSPECIFIED_FAILURE
  | Some r =>
      if WLAN_SUPP_RATES_MAX <? zlen r + zlen (default [] ext_supp_rates)
      then mret WLAN_STATUS_UNSPECIFIED_FAILURE else
      let '(rates, len) := merge_byte_arrays WLAN_SUPP_RATES_MAX supp_rates ext_supp_rates in
      sta_upd l (set_supported_rates rates);;
      sta_upd l (set_supported_rates_len len);;
      mret WLAN_STATUS_SUCCESS
  end.

(** [get_ie]: the offset of the first element with the identifier. *)
Fixpoint get_ie (fuel : nat) (m : bytes) (stop elem eid : Z) : option (option Z) :=
  match fuel with
  | O => None
  | Datatypes.S fuel =>
      if stop - elem <? 2 then Some None else
      id ← ld8 m elem;
      elen ← ld8 m (elem + 1);
      if stop - elem <? 2 + elen then Some None else
      if id =? eid then Some (Some elem) else get_ie fuel m stop (elem + 2 + elen) eid
  end.

Definition MULTI_AP_SUB_ELEM_TYPE : Z := 0x06.
Definition MULTI_AP_BACKHAUL_STA : Z := BIT 7.
Definition FRONTHAUL_BSS : Z := 2.

(** The value of the Multi-AP subelement, [None] when it is missing or invalid. *)
Definition multi_ap_value (d : bytes) : option (option Z) :=
  r ← get_ie (Datatypes.S (length d)) d (zlen d) 4 MULTI_AP_SUB_ELEM_TYPE;
  match r with
  | None => Some None
  | Some p => n ← ld8 d (p + 1);
              if n =? 1 then v ← ld8 d (p + 2); Some (Some v) else Some None
  end.

Definition check_multi_ap (l : loc) (multi_ap_ie : option bytes) : M S Z :=
  sta_upd l (clear_flag WLAN_STA_MULTI_AP);;
  h ← gets get_hapd;
  let multi_ap := multi_ap (bss (conf h)) in
  if multi_ap =? 0 then mret WLAN_STATUS_SUCCESS else
  v ← (match multi_ap_ie with
       | None => mret (Some 0)
       | Some d => opt! multi_ap_value d
       end);
  match v with
  | None => mret WLAN_STATUS_INVALID_IE
  | Some v =>
      if Z.land v MULTI_AP_BACKHAUL_STA =? 0 then
        mret (if negb (Z.land multi_ap FRONTHAUL_BSS =? 0)
              then WLAN_STATUS_SUCCESS else WLAN_STATUS_ASSOC_DENIED_UNSPEC)
      else
        sta_upd l (add_flag WLAN_STA_MULTI_AP);;
        mret WLAN_STATUS_SUCCESS
  end.

(** The results of [wpa_validate_wpa_ie] are numbered in this order. *)
Definition wpa_res_to_status_code (res : Z) : Z :=
  if res =? 2 (* WPA_INVALID_GROUP *) then WLAN_STATUS_GROUP_CIPHER_NOT_VALID else
  if res =? 3 (* WPA_INVALID_PAIRWISE *) then WLAN_STATUS_PAIRWISE_CIPHER_NOT_VALID else
  if res =? 4 (* WPA_INVALID_AKMP *) then WLAN_STATUS_AKMP_NOT_VALID else
  if res =? 6 (* WPA_ALLOC_FAIL *) then WLAN_STATUS_UNSPECIFIED_FAILURE else
  if res =? 7 (* WPA_MGMT_FRAME_PROTECTION_VIOLATION *)
  then WLAN_STATUS_ROBUST_MGMT_FRAME_POLICY_VIOLATION else
  if res =? 8 (* WPA_INVALID_MGMT_GROUP_CIPHER *)
  then WLAN_STATUS_CIPHER_REJECTED_PER_POLICY else
  if res =? 9 (* WPA_INVALID_MDIE *) then WLAN_STATUS_INVALID_MDIE else
  if res =? 11 (* WPA_INVALID_PMKID *) then WLAN_STATUS_INVALID_PMKID else
  if negb (res =? 0) then WLAN_STATUS_INVALID_IE else WLAN_STATUS_SUCCESS.

(** Is the time of the query over?  The clock is the environment's. *)
Definition ap_check_sa_query_timeout (l : loc) : M S bool :=
  s ← sta_get l;
  over ← hostapd_call "assoc_sa_query_max_timeout" (addr s);
  if over =? 0 then mret false else
  sta_upd l (set_sa_query_timed_out true);;
  sta_upd l (upd_mlme (set_sa_query_trans_id []));;
  notify "eloop_cancel_timeout ap_sa_query_timer" (addr s);;
  mret true.

Definition WLAN_ACTION_SA_QUERY : Z := 8.
Definition WLAN_SA_QUERY_REQUEST : Z := 0.
Definition WLAN_SA_QUERY_RESPONSE : Z := 1.
Definition WLAN_SA_QUERY_TR_ID_LEN : Z := 2.

(** [ieee802_11_send_sa_query_req] and the end of [ieee802_11_send_sa_query_resp]. *)
Definition send_sa_query (a : bytes) (action : Z) (trans_id : bytes) : M S unit :=
  buf ← calloc sizeof_mgmt;
  match buf with
  | None => skip
  | Some _ =>
      h ← gets get_hapd;
      notify "hostapd_drv_send_mlme"
        (mgmt_frame WLAN_FC_STYPE_ACTION a (own_addr h) (own_addr h)
           ([WLAN_ACTION_SA_QUERY; action] ++ trans_id))
  end.

Definition ieee802_11_send_sa_query_req (a trans_id : bytes) : M S unit :=
  send_sa_query a WLAN_SA_QUERY_REQUEST trans_id.

Definition ieee802_11_send_sa_query_resp (sa trans_id : bytes) : M S unit :=
  sta ← ap_get_sta sa;
  match sta with
  | None => skip
  | Some l =>
      s ← sta_get l;
      if negb (has_flag WLAN_STA_ASSOC s) then skip
      else send_sa_query sa WLAN_SA_QUERY_RESPONSE trans_id
  end.

Definition ap_sa_query_timer (l : loc) : M S unit :=
  s ← sta_get l;
  over ← (if 0 <? sa_query_count (mlme s) then ap_check_sa_query_timeout l else mret false);
  if over : bool then skip else
  buf ← calloc ((sa_query_count (mlme s) + 1) * WLAN_SA_QUERY_TR_ID_LEN);
  match buf with
  | None => skip
  | Some _ =>
      r ← hostapd_call "os_get_random" (addr s);
      random ← stored_bytes "trans_id";
      let trans_id := if r <? 0 then [0x12; 0x34] else fixed WLAN_SA_QUERY_TR_ID_LEN random in
      sta_upd l (upd_mlme (set_sa_query_trans_id (sa_query_trans_id (mlme s) ++ [trans_id])));;
      notify "eloop_register_timeout ap_sa_query_timer" (addr s);;
      ieee802_11_send_sa_query_req (addr s) trans_id
  end.

Definition ap_sta_stop_sa_query (l : loc) : M S unit :=
  s ← sta_get l;
  notify "eloop_cancel_timeout ap_sa_query_timer" (addr s);;
  sta_upd l (upd_mlme (set_sa_query_trans_id [])).

(** [ieee802_11_sa_query_action] for the frame [m] of the station [sa]. *)
Definition ieee802_11_sa_query_action (m sa : bytes) : M S unit :=
  action_type ← opt! ld8 m (IEEE80211_HDRLEN + 1);
  if zlen m <? IEEE80211_HDRLEN + 4 then skip else
  trans_id ← opt! ldn m (IEEE80211_HDRLEN + 2) WLAN_SA_QUERY_TR_ID_LEN;
  sta ← ap_get_sta sa;
  if action_type =? WLAN_SA_QUERY_REQUEST then ieee802_11_send_sa_query_resp sa trans_id
  else if negb (action_type =? WLAN_SA_QUERY_RESPONSE) then skip
  else match sta with
  | None => skip
  | Some l =>
      s ← sta_get l;
      if bool_decide (trans_id ∈ sa_query_trans_id (mlme s)) then ap_sta_stop_sa_query l else skip
  end.

(** Both bits of the flags. *)
Definition assoc_mfp (s : sta_info) : bool :=
  Z.land (flags s) (Z.lor WLAN_STA_ASSOC WLAN_STA_MFP) =? Z.lor WLAN_STA_ASSOC WLAN_STA_MFP.

(** The part of [check_assoc_ies] for a station that uses WPA. *)
Definition check_wpa (l : loc) (reassoc : bool) : M S Z :=
  s ← sta_get l;
  sm ← (if wpa_sm (mlme s) then mret true
        else r ← hostapd_call "wpa_auth_sta_init" (addr s);
             sta_upd l (upd_mlme (set_wpa_sm (negb (r =? 0))));; mret (negb (r =? 0)));
  if negb sm then mret WLAN_STATUS_UNSPECIFIED_FAILURE else
  notify "wpa_auth_set_auth_alg" (addr s);;
  res ← hostapd_call "wpa_validate_wpa_ie" (addr s);
  let resp := wpa_res_to_status_code res in
  if negb (resp =? WLAN_STATUS_SUCCESS) then mret resp else
  s ← sta_get l;
  (if assoc_mfp s && negb (sa_query_timed_out s) && (0 <? sa_query_count (mlme s))
   then _ ← ap_check_sa_query_timeout l; skip else skip);;
  s ← sta_get l;
  if assoc_mfp s && negb (sa_query_timed_out s)
     && (negb reassoc || negb (auth_alg s =? WLAN_AUTH_FT)) then
    (if sa_query_count (mlme s) =? 0 then ap_sa_query_timer l else skip);;
    mret WLAN_STATUS_ASSOC_REJECTED_TEMPORARILY
  else
    mfp ← hostapd_call "wpa_auth_uses_mfp" (addr s);
    sta_upd l (if mfp =? 0 then clear_flag WLAN_STA_MFP else add_flag WLAN_STA_MFP);;
    mret WLAN_STATUS_SUCCESS.

Definition ap_copy_sta_supp_op_classes (l : loc) (classes : option bytes) : M S unit :=
  match classes with
  | None => skip
  | Some d =>
      buf ← calloc (1 + zlen d);
      sta_upd l (upd_mlme (set_supp_op_classes
        (match buf with Some _ => Some (zlen d :: d) | None => None end)))
  end.

(** What is kept of a request that has passed the checks. *)
Definition keep_capabilities (l : loc) (classes rrm power : option bytes) : M S unit :=
  ap_copy_sta_supp_op_classes l classes;;
  s ← sta_get l;
  (match rrm with
   | Some d =>
       if negb (Z.land (capability s) WLAN_CAPABILITY_RADIO_MEASUREMENT =? 0) && (5 <=? zlen d)
       then sta_upd l (upd_mlme (set_rrm_enabled_capa (take 5 d))) else skip
   | None => skip
   end);;
  match power with
  | Some d =>
      lo ← opt! ld8 d 0;
      hi ← opt! ld8 d 1;
      sta_upd l (upd_mlme (set_min_tx_power (s8 lo)));;
      sta_upd l (upd_mlme (set_max_tx_power (s8 hi)));;
      sta_upd l (upd_mlme (set_power_capab true))
  | None => sta_upd l (upd_mlme (set_power_capab false))
  end.

(** [resp = ...; if (resp != WLAN_STATUS_SUCCESS) return resp;]. *)
Definition and_then (m k : M S Z) : M S Z :=
  resp ← m; if resp =? WLAN_STATUS_SUCCESS then k else mret resp.

(** The second half of [check_assoc_ies]: WPA, and what is kept. *)
Definition check_security (l : loc) (m : bytes) (e : elems) (reassoc : bool) : M S Z :=
  h ← gets get_hapd;
  let wpa := wpa (conf h) in
  let has_wpa_ie :=
    (negb (Z.land wpa WPA_PROTO_RSN =? 0) && bool_decide (is_Some (member e "rsn_ie")))
    || (negb (Z.land wpa WPA_PROTO_WPA =? 0) && bool_decide (is_Some (member e "wpa_ie"))) in
  if negb (wpa =? 0) && negb has_wpa_ie then mret WLAN_STATUS_INVALID_IE else
  and_then (if negb (wpa =? 0) && has_wpa_ie then check_wpa l reassoc
            else s ← sta_get l; notify "wpa_auth_sta_no_wpa" (addr s);; mret WLAN_STATUS_SUCCESS) (
    classes ← elem m e "supp_op_classes";
    rrm ← elem m e "rrm_enabled";
    power ← elem m e "power_capab";
    keep_capabilities l classes rrm power;;
    mret WLAN_STATUS_SUCCESS).

(** [check_assoc_ies] on the [len] bytes at [pos] of the frame [m]. *)
Definition check_assoc_ies (l : loc) (m : bytes) (pos len : Z) (reassoc : bool) : M S Z :=
  '(res, e) ← opt! ieee802_11_parse_elems m pos len;
  if bool_decide (res = ParseFailed) then mret WLAN_STATUS_UNSPECIFIED_FAILURE else
  ssid ← elem m e "ssid";
  wmm ← elem m e "wmm";
  ext_capab ← elem m e "ext_capab";
  supp_rates ← elem m e "supp_rates";
  ext_supp_rates ← elem m e "ext_supp_rates";
  multi_ap ← elem m e "multi_ap";
  and_then (check_ssid ssid) (and_then (check_wmm l wmm) (
  and_then (check_ext_capab l ext_capab) (and_then (copy_supp_rates l supp_rates ext_supp_rates) (
  and_then (check_multi_ap l multi_ap) (check_security l m e reassoc))))).

(** *** The association response and the driver *)

Definition send_deauth (a : bytes) (reason_code : Z) : M S unit :=
  h ← gets get_hapd;
  _ ← hostapd_call "hostapd_drv_send_mlme"
        (mgmt_frame WLAN_FC_STYPE_DEAUTH a (own_addr h) (own_addr h) (le16 reason_code));
  skip.

(** Does the station's entry in the driver have to be made anew?  The two tests
    of the WPA state machine are calls. *)
Definition stale_entry (s : sta_info) (reassoc : bool) : M S bool :=
  if added_unassoc s then mret false else
  if negb (has_flag WLAN_STA_AUTHORIZED s) then mret true else
  if reassoc && ft_over_ds (mlme s) && (auth_alg s =? WLAN_AUTH_FT) then mret true else
  ft ← hostapd_call "wpa_auth_sta_ft_tk_already_set" (addr s);
  if negb (ft =? 0) then mret false else
  fils ← hostapd_call "wpa_auth_sta_fils_tk_already_set" (addr s);
  mret (fils =? 0).

Definition add_associated_sta (l : loc) (reassoc : bool) : M S Z :=
  s ← sta_get l;
  stale ← stale_entry s reassoc;
  (if stale : bool then
     notify "hostapd_drv_sta_remove" (addr s);;
     notify "WPA_DRV_STA_REMOVED" (addr s);;
     sta_upd l (upd_mlme (set_ft_over_ds false))
   else skip);;
  r ← hostapd_call (if stale : bool then "hostapd_sta_add 0" else "hostapd_sta_add 1") (addr s);
  if negb (r =? 0) then
    (if added_unassoc s then
       notify "hostapd_drv_sta_remove" (addr s);;
       sta_upd l (set_added_unassoc false)
     else skip);;
    mret (-1)
  else
    sta_upd l (set_added_unassoc false);;
    mret 0.

Definition WLAN_EID_TIMEOUT_INTERVAL : Z := 56.
Definition WLAN_TIMEOUT_ASSOC_COMEBACK : Z := 3.

(** The remaining time is the environment's. *)
Definition hostapd_eid_assoc_comeback_time : M S bytes :=
  t ← stored "timeout";
  mret ([WLAN_EID_TIMEOUT_INTERVAL; 5; WLAN_TIMEOUT_ASSOC_COMEBACK] ++ le_enc 4 (t mod 2 ^ 32)).

(** [send_assoc_resp]; [sta] is null for a request that was refused before the
    station was known.  The elements that other files write are the
    environment's, and are taken to fit into the buffer. *)
Definition send_assoc_resp (sta : option loc) (a : bytes) (status_code : Z) (reassoc : bool)
    : M S Z :=
  buf ← calloc (sizeof_mgmt + 1024);
  match buf with
  | None => mret WLAN_STATUS_UNSPECIFIED_FAILURE
  | Some _ =>
      h ← gets get_hapd;
      s ← (match sta with Some l => s ← sta_get l; mret (Some s) | None => mret (@None sta_info) end);
      let flag f := match s with Some s => has_flag f s | None => false end in
      let none : bytes := [] in
      dfs ← hostapd_call "hostapd_is_dfs_required" (own_addr h);
      comeback ← (if bool_decide (is_Some s) && (status_code =? WLAN_STATUS_ASSOC_REJECTED_TEMPORARILY)
                  then hostapd_eid_assoc_comeback_time else mret none);
      ext_capab ← stored_bytes "hostapd_eid_ext_capab";
      idle ← stored_bytes "hostapd_eid_bss_max_idle_period";
      qos_map ← (if bool_decide (is_Some s) then stored_bytes "hostapd_eid_qos_map_set" else mret none);
      wmm ← (if flag WLAN_STA_WMM then stored_bytes "hostapd_eid_wmm" else mret none);
      multi ← (if flag WLAN_STA_MULTI_AP then stored_bytes "hostapd_eid_multi_ap" else mret none);
      extra ← stored_bytes "assocresp_elements";
      r ← hostapd_call "hostapd_drv_send_mlme"
            (mgmt_frame (if reassoc then WLAN_FC_STYPE_REASSOC_RESP else WLAN_FC_STYPE_ASSOC_RESP)
               a (own_addr h) (own_addr h)
               (le16 (hostapd_own_capab_info h dfs) ++ le16 status_code
                ++ le16 (Z.lor (match s with Some s => aid s | None => 0 end)
                           (Z.lor (BIT 14) (BIT 15)))
                ++ hostapd_eid_supp_rates h ++ hostapd_eid_ext_supp_rates h
                ++ comeback ++ ext_capab ++ idle ++ qos_map ++ wmm ++ multi ++ extra));
      mret (if r <? 0 then WLAN_STATUS_UNSPECIFIED_FAILURE else WLAN_STATUS_SUCCESS)
  end.

(** *** Disconnecting, [src/ap/sta_info.c] *)

(** [ieee802_1x_free_station]. *)
Definition ieee802_1x_free_station (l : loc) : M S unit :=
  s ← sta_get l;
  notify "ieee802_1x_free_station" (addr s);;
  sta_upd l (set_pending_eapol_rx false);;
  sta_upd l (set_eapol_sm false).

Definition ap_sta_remove (l : loc) : M S Z :=
  s ← sta_get l;
  notify "ieee802_1x_notify_port_enabled 0" (addr s);;
  (if negb (ipaddr s =? 0)
   then notify "hostapd_drv_br_delete_ip_neigh" (addr s) else skip);;
  notify "ap_sta_ip6addr_del" (addr s);;
  r ← hostapd_call "hostapd_drv_sta_remove" (addr s);
  if negb (r =? 0) && has_flag WLAN_STA_ASSOC s then mret (-1) else
  sta_upd l (set_added_unassoc false);;
  mret 0.

Definition ap_sta_disassoc_cb_timeout (l : loc) : M S unit :=
  _ ← ap_sta_remove l;
  s ← sta_get l;
  notify "mlme_disassociate_indication" (addr s).

Definition ap_sta_deauth_cb_timeout (l : loc) : M S unit :=
  _ ← ap_sta_remove l;
  s ← sta_get l;
  notify "mlme_deauthenticate_indication" (addr s).

(** The timers of a station that is being disconnected. *)
Definition restart_timer (a : bytes) : M S unit :=
  notify "eloop_cancel_timeout ap_handle_timer" a;;
  notify "eloop_register_timeout ap_handle_timer" a.
Definition await_disassoc (l : loc) (reason : Z) : M S unit :=
  sta_upd l (upd_mlme (set_disassoc_reason reason));;
  sta_upd l (add_flag WLAN_STA_PENDING_DISASSOC_CB);;
  s ← sta_get l;
  notify "eloop_cancel_timeout ap_sta_disassoc_cb_timeout" (addr s);;
  notify "eloop_register_timeout ap_sta_disassoc_cb_timeout" (addr s).
Definition await_deauth (l : loc) (reason : Z) : M S unit :=
  sta_upd l (upd_mlme (set_deauth_reason reason));;
  sta_upd l (add_flag WLAN_STA_PENDING_DEAUTH_CB);;
  s ← sta_get l;
  notify "eloop_cancel_timeout ap_sta_deauth_cb_timeout" (addr s);;
  notify "eloop_register_timeout ap_sta_deauth_cb_timeout" (addr s).

Definition ap_sta_disassociate (l : loc) (reason : Z) : M S unit :=
  sta_upd l (set_last_seq_ctrl WLAN_INVALID_MGMT_SEQ);;
  h ← gets get_hapd;
  (if mode_ad (iface h) then
     sta_upd l (clear_flag (Z.lor WLAN_STA_AUTH (Z.lor WLAN_STA_ASSOC WLAN_STA_ASSOC_REQ_OK)));;
     sta_upd l (set_timeout_next STA_REMOVE)
   else
     sta_upd l (clear_flag (Z.lor WLAN_STA_ASSOC WLAN_STA_ASSOC_REQ_OK));;
     sta_upd l (set_timeout_next STA_DEAUTH));;
  ap_sta_set_authorized l false;;
  s ← sta_get l;
  restart_timer (addr s);;
  notify "accounting_sta_stop" (addr s);;
  ieee802_1x_free_station l;;
  notify "wpa_auth_sta_deinit" (addr s);;
  sta_upd l (upd_mlme (set_wpa_sm false));;
  await_disassoc l reason.

Definition ap_sta_deauthenticate (l : loc) (reason : Z) : M S unit :=
  h ← gets get_hapd;
  if mode_ad (iface h) then ap_sta_disassociate l reason else
  sta_upd l (set_last_seq_ctrl WLAN_INVALID_MGMT_SEQ);;
  sta_upd l (clear_flag (Z.lor WLAN_STA_AUTH (Z.lor WLAN_STA_ASSOC WLAN_STA_ASSOC_REQ_OK)));;
  ap_sta_set_authorized l false;;
  sta_upd l (set_timeout_next STA_REMOVE);;
  s ← sta_get l;
  restart_timer (addr s);;
  notify "accounting_sta_stop" (addr s);;
  ieee802_1x_free_station l;;
  await_deauth l reason.

(** [ap_sta_disconnect] with the two pointers, either of which may be null. *)
Definition ap_sta_disconnect (sta : option loc) (a : option bytes) (reason : Z) : M S unit :=
  sta ← (match sta, a with
         | None, Some a => ap_get_sta a
         | _, _ => mret sta
         end);
  (match a with Some a => notify "hostapd_drv_sta_deauth" a | None => skip end);;
  match sta with
  | None => skip
  | Some l =>
      ap_sta_set_authorized l false;;
      s ← sta_get l;
      notify "WPA_DEAUTH" (addr s);;
      notify "ieee802_1x_notify_port_enabled 0" (addr s);;
      sta_upd l (clear_flag (Z.lor WLAN_STA_AUTH WLAN_STA_ASSOC));;
      restart_timer (addr s);;
      sta_upd l (set_timeout_next STA_REMOVE);;
      h ← gets get_hapd;
      if mode_ad (iface h) then await_disassoc l reason else await_deauth l reason
  end.

Definition ap_sta_deauth_cb (l : loc) : M S unit :=
  s ← sta_get l;
  if negb (has_flag WLAN_STA_PENDING_DEAUTH_CB s) then skip else
  sta_upd l (clear_flag WLAN_STA_PENDING_DEAUTH_CB);;
  notify "eloop_cancel_timeout ap_sta_deauth_cb_timeout" (addr s);;
  ap_sta_deauth_cb_timeout l.

Definition ap_sta_disassoc_cb (l : loc) : M S unit :=
  s ← sta_get l;
  if negb (has_flag WLAN_STA_PENDING_DISASSOC_CB s) then skip else
  sta_upd l (clear_flag WLAN_STA_PENDING_DISASSOC_CB);;
  notify "eloop_cancel_timeout ap_sta_disassoc_cb_timeout" (addr s);;
  ap_sta_disassoc_cb_timeout l.

(** *** The timers of a station *)

Definition ENOENT : Z := 2.

(** The first part of [ap_handle_timer]: how long the station has been idle, and
    when to ask again; 0 for never. *)
Definition timer_idle (l : loc) : M S (Z * bool) :=
  s ← sta_get l;
  h ← gets get_hapd;
  let max := ap_max_inactivity (bss (conf h)) in
  if has_flag WLAN_STA_ASSOC s
     && ((timeout_next s =? STA_NULLFUNC) || (timeout_next s =? STA_DISASSOC)) then
    random ← hostapd_call "os_random" (addr s);
    let fuzz := random mod 20 in
    inactive_sec ← hostapd_call "hostapd_drv_get_inact_sec" (addr s);
    if inactive_sec =? -1 then mret (max + fuzz, false)
    else if inactive_sec =? - ENOENT then
      sta_upd l (set_timeout_next STA_DISASSOC);; mret (0, true)
    else if inactive_sec <? max then
      sta_upd l (set_timeout_next STA_NULLFUNC);; mret (max + fuzz - inactive_sec, false)
    else
      (if skip_inactivity_poll (bss (conf h)) =? 0 then skip
       else sta_upd l (set_timeout_next STA_DISASSOC));;
      mret (0, false)
  else mret (0, false).

(** A poll that the station has acknowledged. *)
Definition timer_polled (l : loc) (next_time : Z) : M S Z :=
  s ← sta_get l;
  h ← gets get_hapd;
  if has_flag WLAN_STA_ASSOC s && (timeout_next s =? STA_DISASSOC)
     && negb (has_flag WLAN_STA_PENDING_POLL s) && (skip_inactivity_poll (bss (conf h)) =? 0)
  then
    sta_upd l (set_timeout_next STA_NULLFUNC);;
    mret (ap_max_inactivity (bss (conf h)))
  else mret next_time.

(** The frame that is sent when the time is over. *)
Definition timer_send (l : loc) : M S unit :=
  s ← sta_get l;
  if (timeout_next s =? STA_NULLFUNC) && has_flag WLAN_STA_ASSOC s then
    sta_upd l (add_flag WLAN_STA_PENDING_POLL);;
    notify "hostapd_drv_poll_client" (addr s)
  else if negb (timeout_next s =? STA_REMOVE) then
    if timeout_next s =? STA_DEAUTH then notify "hostapd_drv_sta_deauth" (addr s)
    else if negb (has_flag WLAN_STA_ASSOC s) then
      sta_upd l (set_timeout_next STA_DEAUTH);;
      notify "hostapd_drv_sta_deauth" (addr s)
    else notify "hostapd_drv_sta_disassoc" (addr s)
  else skip.

Definition idle_cause (s : sta_info) : sta_info :=
  if acct_terminate_cause s =? 0
  then set_acct_terminate_cause RADIUS_ACCT_TERMINATE_CAUSE_IDLE_TIMEOUT s else s.

(** The [switch] at the end of [ap_handle_timer]. *)
Definition timer_switch (l : loc) : M S unit :=
  s ← sta_get l;
  let a := addr s in
  let next := timeout_next s in
  if next =? STA_NULLFUNC then
    sta_upd l (set_timeout_next STA_DISASSOC);;
    notify "eloop_register_timeout ap_handle_timer" a
  else if (next =? STA_DISASSOC) || (next =? STA_DISASSOC_FROM_CLI) then
    ap_sta_set_authorized l false;;
    sta_upd l (clear_flag WLAN_STA_ASSOC);;
    notify "ieee802_1x_notify_port_enabled 0" a;;
    sta_upd l idle_cause;;
    notify "accounting_sta_stop" a;;
    ieee802_1x_free_station l;;
    sta_upd l (set_timeout_next STA_DEAUTH);;
    notify "eloop_register_timeout ap_handle_timer" a;;
    notify "mlme_disassociate_indication" a
  else if (next =? STA_DEAUTH) || (next =? STA_REMOVE) then
    sta_upd l idle_cause;;
    notify "mlme_deauthenticate_indication" a;;
    ap_free_sta l
  else skip.

Definition ap_handle_timer (l : loc) : M S unit :=
  s ← sta_get l;
  if timeout_next s =? STA_REMOVE then ap_free_sta l else
  '(next_time, skip_poll) ← timer_idle l;
  next_time ← (if skip_poll : bool then mret next_time else timer_polled l next_time);
  if negb (next_time =? 0) then notify "eloop_register_timeout ap_handle_timer" (addr s) else
  timer_send l;;
  timer_switch l.

Definition WLAN_STA_GAS : Z := BIT 17.
Definition RADIUS_ACCT_TERMINATE_CAUSE_SESSION_TIMEOUT : Z := 5.

Definition ap_handle_session_timer (l : loc) : M S unit :=
  s ← sta_get l;
  if negb (has_flag WLAN_STA_AUTH s) then
    if has_flag WLAN_STA_GAS s then ap_free_sta l else skip
  else
    notify "hostapd_drv_sta_deauth" (addr s);;
    notify "mlme_deauthenticate_indication" (addr s);;
    sta_upd l (set_acct_terminate_cause RADIUS_ACCT_TERMINATE_CAUSE_SESSION_TIMEOUT);;
    ap_free_sta l.

End Operations.
End Mlme.
