(* ===== verification/MlmeProps.v ===== *)
(** * hostapd's stations: authentication, association, disconnecting

    Every function of [StaMlme.v] returns, whatever the driver, the allocator, the
    access list and the other parts of hostapd answer; none of them changes another
    station, the list or the table; and the few that matter for an association do
    what they are there for: an association identifier is new and the lowest free
    one, a request with the elements of the network is accepted, its rates are
    those of its elements. *)

From Stdlib Require Import ZArith Lia.
From S2P Require Import Prelude CMem CMonad Chain CSteps NatTable ApData Station StationProps.
From S2P Require Import StationMap Elements ElemProps StaMlme.
Import Hapd Elements Mlme.

(** What the driver, the allocator, the access list and RADIUS answer when nothing
    goes wrong. *)
Record friendly `{Env} : Prop := {
  fr_alloc : ∀ t n, env_calloc t n = true;
  fr_id : ∀ t, 0 ≤ env_call t "accounting_sta_get_id";
  fr_acl : ∀ t, env_call t "ieee802_11_allowed_address" = 1;
  fr_vlan : ∀ t, env_call t "vlan_id->notempty" = 0;
  fr_set_vlan : ∀ t, 0 ≤ env_call t "ap_sta_set_vlan";
  fr_unassoc : ∀ t, env_call t "hostapd_sta_add" = 0;
  fr_new : ∀ t, env_call t "hostapd_sta_add 0" = 0;
  fr_set : ∀ t, env_call t "hostapd_sta_add 1" = 0;
  fr_send : ∀ t, 0 ≤ env_call t "hostapd_drv_send_mlme";
}.

Section Any.
  Context `{Env} {S : Type} `{HasHapd S} `{StaSize}.

(** ** Steps that say nothing about the table *)

Lemma any_call P f a : total (S:=S) P (hostapd_call f a) (λ _, P).
Proof. eapply total_weaken; [apply total_call|done|]. by intros ? ? []. Qed.
Lemma any_ask {A} P (f : nat → A) : total (S:=S) P (ask f) (λ _, P).
Proof. eapply total_weaken; [apply total_ask|done|]. by intros ? ? []. Qed.
Lemma any_calloc P n : total (S:=S) P (calloc n) (λ _, P).
Proof. eapply total_weaken; [apply total_calloc|done|]. by intros ? ? []. Qed.
Lemma any_gets {A} P (f : S → A) : total P (gets f) (λ _, P).
Proof. intros s Hs. eexists _, s. split_and!; [done..|apply reached_refl]. Qed.
Lemma any_get st a l R F : total (S:=S) (own st a l R F) (sta_get l) (λ _, own st a l R F).
Proof. eapply total_weaken; [apply own_get_keep|done|]. by intros ? ? []. Qed.

(** A result under friendly answers. *)
Definition fair {A} (P : core → Prop) (m : M S A) (good : A → Prop) : Prop :=
  total P m (λ r c, (friendly → good r) ∧ P c).

Lemma fair_bind {A B} P (m : M S A) good (k : A → M S B) Q :
  fair P m good → (∀ r, (friendly → good r) → total P (k r) Q) → total P (m ≫= k) Q.
Proof. intros Hm Hk. eapply total_bind; [exact Hm|]. intros r. apply total_pure, Hk. Qed.

Lemma fair_ret {A} P (a : A) (good : A → Prop) : (friendly → good a) → fair P (mret a) good.
Proof. intros Hg. by apply total_ret. Qed.

Lemma fair_calloc P n : fair P (calloc n) (λ r, r ≠ None).
Proof.
  eapply total_weaken; [apply total_calloc|done|]. intros r c [[t ->] Hc]. split; [|done].
  intros [Ha _ _ _ _ _ _ _ _]. by rewrite Ha.
Qed.

Lemma fair_send P b : fair P (hostapd_call "hostapd_drv_send_mlme" b) (λ r, 0 ≤ r).
Proof.
  eapply total_weaken; [apply total_call|done|]. intros r c [[t ->] Hc]. split; [|done].
  intros []. auto.
Qed.

End Any.

(** Walks through steps that keep the precondition; [upd] is for writes. *)
Ltac go upd :=
  repeat lazymatch goal with
  | |- total _ (mbind _ (notify _ _)) _ => apply total_skip; [apply total_notify|intros _]
  | |- total _ (mbind _ (sta_get _)) _ =>
      eapply total_bind; [apply own_get_keep|]; intros ?; apply total_pure; intros (? & ? & ?)
  | |- total _ (mbind _ (hostapd_call _ _)) _ => apply total_skip; [apply any_call|intros ?]
  | |- total _ (mbind _ (stored _)) _ => apply total_skip; [apply any_ask|intros ?]
  | |- total _ (mbind _ (stored_bytes _)) _ => apply total_skip; [apply any_ask|intros ?]
  | |- total _ (mbind _ (calloc _)) _ => apply total_skip; [apply any_calloc|intros ?]
  | |- total _ (mbind _ (gets _)) _ => apply total_skip; [apply any_gets|intros ?]
  | |- total _ (mbind _ (sta_upd _ _)) _ => apply total_skip; [upd|intros _]
  | |- total _ (mbind _ (mbind _ _)) _ => apply total_skip; [|intros ?]
  | |- total _ (mbind _ (match _ with _ => _ end)) _ => apply total_skip; [|intros ?]
  | |- total _ (mbind _ (mret _)) _ => rewrite mret_bind
  | |- total _ (match ?x with _ => _ end) _ => destruct x
  | |- total _ (let _ := _ in _) _ => cbv zeta
  | |- total _ (notify _ _) _ => apply total_notify
  | |- total _ (sta_upd _ _) _ => upd
  | |- total _ (mret _) _ => by apply total_ret
  | |- total _ skip _ => by apply total_ret
  end.

(** Writes that keep the parameters of the station but for flags in [ns]. *)
Ltac al HF :=
  apply (alike_upd _ _ _ _ _ _ _ HF); intros;
  first [by apply alike_mark
        |by apply alike_add; [|in_bits]
        |by apply alike_clear; [|in_bits]
        |repeat case_match;
         first [by apply alike_mark|by apply alike_add; [|in_bits]|by apply alike_clear; [|in_bits]]].

Section Auth.
  Context `{Env} {S : Type} `{HasHapd S} `{StaSize}.
  Context (st : settings) (a : bytes) (l : loc) (R : gmap bytes sta_info).

Lemma auth_shared_key_total F t c w : closed [0] F →
  total (S:=S) (own st a l R F) (auth_shared_key l t c w) (λ _, own st a l R F).
Proof. intros HF. unfold auth_shared_key. go ltac:(al HF). Qed.

Lemma send_auth_reply_total P dst bssid alg t resp ies :
  fair (S:=S) P (send_auth_reply dst bssid alg t resp ies) (λ r, r = 0).
Proof.
  unfold send_auth_reply. eapply fair_bind; [apply fair_calloc|]. intros [b|] Hb.
  2:{ apply total_ret. intros c Hc. split; [|done]. intros Hf. by destruct (Hb Hf). }
  apply total_skip; [apply any_gets|]. intros h.
  eapply fair_bind; [apply fair_send|]. intros r Hr. apply fair_ret. intros Hf. specialize (Hr Hf). cbn in Hr.
  by destruct (Z.ltb_spec r 0); [lia|].
Qed.

Lemma fair_call P f b (good : Z → Prop) :
  (friendly → ∀ t, good (env_call t f)) → fair (S:=S) P (hostapd_call f b) good.
Proof.
  intros Hg. eapply total_weaken; [apply total_call|done|]. intros r c [[t ->] Hc]. split; [|done].
  intros Hf. by apply Hg.
Qed.

Lemma fair_stored P f (good : Z → Prop) :
  (friendly → ∀ t, good (env_call t f)) → fair (S:=S) P (stored f) good.
Proof.
  intros Hg. eapply total_weaken; [apply total_ask|done|]. intros r c [[t ->] Hc]. split; [|done].
  intros Hf. by apply Hg.
Qed.

Lemma radius_info_total F res : closed [] F →
  fair (S:=S) (own st a l R F) (ieee802_11_set_radius_info l res) (λ r, r = 0).
Proof.
  intros HF. unfold ieee802_11_set_radius_info.
  eapply total_bind; [apply own_get_keep|]. intros v. apply total_pure. intros _.
  apply total_skip; [apply any_gets|]. intros h.
  eapply fair_bind; [apply (fair_stored _ _ (λ r, r = 0)), fr_vlan|].
  intros n Hn. apply (fair_bind _ _ (λ r, r ≠ 0)).
  { destruct (Z.eqb_spec n 0); [by apply fair_ret|]. apply fair_call. intros Hf. specialize (Hn Hf). cbn in Hn. lia. }
  intros r Hr. destruct (Z.eqb_spec r 0).
  { apply fair_ret. intros Hf. by destruct (Hr Hf). }
  eapply fair_bind; [apply (fair_call _ _ _ (λ r, 0 ≤ r)), fr_set_vlan|]. intros r' Hr'.
  apply total_skip; [apply any_ask|]. intros vlan. apply total_skip; [al HF|]. intros _.
  destruct (Z.ltb_spec r' 0).
  { apply fair_ret. intros Hf. specialize (Hr' Hf). cbn in Hr'. lia. }
  unfold fair. go ltac:(al HF).
Qed.

End Auth.

(** ** Association identifiers *)

Lemma first_clear_spec n w j : 0 ≤ j →
  match first_clear n w j with
  | Some k => j ≤ k < j + Z.of_nat n ∧ Z.testbit w k = false ∧ ∀ b, j ≤ b < k → Z.testbit w b = true
  | None => ∀ b, j ≤ b < j + Z.of_nat n → Z.testbit w b = true
  end.
Proof.
  revert j. induction n as [|n IH]; intros j Hj; cbn [first_clear]; [lia|]. rewrite land_bit by done.
  destruct (Z.testbit w j) eqn:E; cbn [negb].
  - specialize (IH (j + 1) ltac:(lia)). destruct (first_clear n w (j + 1)) as [k|].
    + destruct IH as (? & ? & Hb). split_and!; [lia|lia|done|]. intros b Hb'.
      destruct (decide (b = j)) as [->|]; [done|apply Hb; lia].
    + intros b Hb'. destruct (decide (b = j)) as [->|]; [done|apply IH; lia].
  - split_and!; [lia|lia|done|lia].
Qed.

(** The word [w] is full. *)
Definition full (w : Z) : Prop := ∀ b, 0 ≤ b < 32 → Z.testbit w b = true.

Lemma full_ones : full 0xffffffff.
Proof. intros b Hb. change 0xffffffff with (Z.ones 32). apply Z.ones_spec_low. lia. Qed.

Lemma find_aid_spec ws i :
  match find_aid ws i with
  | Some (p, j) => i ≤ p ∧ 0 ≤ j < 32 ∧ ∃ w, ws !! Z.to_nat (p - i) = Some w ∧
      Z.testbit w j = false ∧ (∀ b, 0 ≤ b < j → Z.testbit w b = true) ∧
      Forall full (take (Z.to_nat (p - i)) ws)
  | None => Forall full ws
  end.
Proof.
  revert i. induction ws as [|w ws IH]; intros i; cbn [find_aid]; [done|].
  assert (Hnext : full w → match find_aid ws (i + 1) with
    | Some (p, j) => i ≤ p ∧ 0 ≤ j < 32 ∧ ∃ w0, (w :: ws) !! Z.to_nat (p - i) = Some w0 ∧
        Z.testbit w0 j = false ∧ (∀ b, 0 ≤ b < j → Z.testbit w0 b = true) ∧
        Forall full (take (Z.to_nat (p - i)) (w :: ws))
    | None => Forall full (w :: ws)
    end).
  { intros Hw. specialize (IH (i + 1)). destruct (find_aid ws (i + 1)) as [[p j]|]; [|by constructor].
    destruct IH as (Hp & Hj & w0 & Hw0 & Hb & Hl & Hf). split; [lia|]. split; [done|]. exists w0.
    replace (Z.to_nat (p - i)) with (Datatypes.S (Z.to_nat (p - (i + 1)))) by lia.
    split_and!; [done..|]. by constructor. }
  destruct (Z.eqb_spec w 0xffffffff) as [->|_]; [apply Hnext, full_ones|].
  pose proof (first_clear_spec 32 w 0 ltac:(done)) as Hc. destruct (first_clear 32 w 0) as [k|].
  - destruct Hc as (Hk & Hb & Hl). split; [lia|]. split; [lia|]. exists w.
    replace (Z.to_nat (i - i)) with 0%nat by lia. by split_and!.
  - apply Hnext. intros b Hb'. apply Hc. lia.
Qed.

(** The lowest free identifier, if one is free. *)
Lemma find_aid_lowest ws :
  match find_aid ws 0 with
  | Some (p, j) =>
      let i := p * 32 + j + 1 in
      1 ≤ i ∧ p = (i - 1) / 32 ∧ j = (i - 1) mod 32 ∧ is_Some (ws !! Z.to_nat p) ∧
      taken ws i = false ∧ ∀ k, 1 ≤ k < i → taken ws k = true
  | None => ∀ k, 1 ≤ k ≤ 32 * zlen ws → taken ws k = true
  end.
Proof.
  pose proof (find_aid_spec ws 0) as Hs.
  assert (Hfull : ∀ n k w, Forall full (take n ws) → (Z.to_nat ((k - 1) / 32) < n)%nat →
    ws !! Z.to_nat ((k - 1) / 32) = Some w → taken ws k = true).
  { intros n k w Hf Hn Hw. unfold taken. rewrite Hw.
    rewrite Forall_lookup in Hf. apply (Hf (Z.to_nat ((k - 1) / 32))); [by rewrite lookup_take_lt|].
    apply Z.mod_pos_bound. lia. }
  destruct (find_aid ws 0) as [[p j]|].
  - destruct Hs as (Hp & Hj & w & Hw & Hb & Hl & Hf). rewrite Z.sub_0_r in *. cbv zeta.
    set (i := p * 32 + j + 1). assert (Hi : i - 1 = j + p * 32) by lia.
    assert (E1 : (i - 1) / 32 = p) by (rewrite Hi, Z.div_add, Z.div_small by lia; lia).
    assert (E2 : (i - 1) mod 32 = j) by (rewrite Hi, Z.mod_add, Z.mod_small by lia; lia).
    split_and!; [lia|done|done|by eexists|unfold taken; by rewrite E1, E2, Hw|].
    intros k Hk. assert (Hq : 0 ≤ (k - 1) / 32 ≤ p).
    { split; [apply Z.div_pos; lia|]. rewrite <- E1. apply Z.div_le_mono; lia. }
    destruct (decide ((k - 1) / 32 = p)) as [E|Hne].
    + unfold taken. rewrite E, Hw. apply Hl. pose proof (Z.mod_pos_bound (k - 1) 32).
      pose proof (Z.div_mod (k - 1) 32). lia.
    + assert (Hlt : (Z.to_nat ((k - 1) / 32) < length ws)%nat).
      { apply lookup_lt_Some in Hw. lia. }
      apply lookup_lt_is_Some in Hlt as [w' Hw']. by apply (Hfull (Z.to_nat p) k w' Hf ltac:(lia)).
  - intros k Hk. assert (Hlt : (Z.to_nat ((k - 1) / 32) < length ws)%nat).
    { pose proof (Z.div_pos (k - 1) 32). pose proof (Z.div_lt_upper_bound (k - 1) 32 (zlen ws)).
      unfold zlen in *. lia. }
    pose proof Hlt as [w' Hw']%lookup_lt_is_Some. apply (Hfull (length ws) k w'); [|done..].
    by rewrite firstn_all.
Qed.

(** A station without an identifier finds one free among 2007, unless there are
    2007 others. *)
Lemma aid_free ws a v R :
  aids_ok ws (<[a := v]> R) 0 → R !! a = None → aid v = 0 → Z.of_nat (size R) < 2007 →
  ∃ k, 1 ≤ k ≤ 2007 ∧ taken ws k = false.
Proof.
  intros [_ T D _] HR Hv Hs.
  destruct (decide (Exists (λ k, taken ws k = false) (seqZ 1 2007))) as [He|Hn].
  { apply Exists_exists in He as (k & Hk & ?). apply elem_of_seqZ in Hk. exists k. split; [lia|done]. }
  exfalso. rewrite <- Forall_Exists_neg, Forall_forall in Hn.
  assert (Hsub : seqZ 0 2008 ⊆+ (aid <$> (map_to_list (<[a := v]> R)).*2)).
  { apply NoDup_submseteq; [apply NoDup_seqZ|]. intros k Hk%elem_of_seqZ.
    assert (∃ b w, <[a := v]> R !! b = Some w ∧ aid w = k) as (b & w & Hb & <-).
    { destruct (decide (k = 0)) as [->|]; [exists a, v; by rewrite lookup_insert_eq|].
      assert (Hin : k ∈ seqZ 1 2007) by (apply elem_of_seqZ; lia).
      specialize (Hn k Hin). destruct (taken ws k) eqn:E; [|done].
      apply T in E as [->|]; [lia|done|lia]. }
    apply list_elem_of_fmap. exists w. split; [done|]. apply list_elem_of_fmap.
    exists (b, w). split; [done|]. by apply elem_of_map_to_list. }
  apply submseteq_length in Hsub. rewrite length_seqZ, !length_fmap, length_map_to_list in Hsub.
  rewrite map_size_insert_None in Hsub by done. lia.
Qed.

(** Marking it. *)
Lemma aids_mark ws a v w R i x :
  aids_ok ws (<[a := v]> R) 0 → R !! a = None → aid v = 0 → aid w = i → 1 ≤ i ≤ 2007 →
  ws !! Z.to_nat ((i - 1) / 32) = Some x → taken ws i = false →
  aids_ok (<[Z.to_nat ((i - 1) / 32) := Z.lor x (BIT ((i - 1) mod 32))]> ws) (<[a := w]> R) 0.
Proof.
  intros [L T D _] HR Hv Hw Hi Hx Hfree.
  assert (Hno : ∀ b y, R !! b = Some y → aid y ≠ i).
  { intros b y Hb Hy. enough (taken ws i = true) by congruence. apply T; [lia|]. right. exists b, y.
    rewrite lookup_insert_ne; [done|]. intros ->. congruence. }
  constructor; [by rewrite length_insert|..].
  - intros k Hk. rewrite taken_insert by (lia || by eexists).
    assert (E : k ≠ i → taken ws k = true ↔ k = 0 ∨ ∃ b y, <[a := w]> R !! b = Some y ∧ aid y = k).
    { intros Hne. rewrite (T k Hk). f_equiv. split; intros (b & y & Hb & <-);
        (destruct (decide (b = a)) as [->|];
          [rewrite lookup_insert_eq in Hb; injection Hb as <-; lia|]);
        rewrite lookup_insert_ne in Hb by done; exists b, y; by rewrite lookup_insert_ne. }
    assert (Ei : taken ws k = Z.testbit x ((k - 1) mod 32) ∨ (k - 1) / 32 ≠ (i - 1) / 32).
    { destruct (decide ((k - 1) / 32 = (i - 1) / 32)) as [Ek|]; [left|by right].
      unfold taken. by rewrite Ek, Hx. }
    case_decide as Ek; [|apply E; by intros ->]. destruct Ei as [Ei|]; [|done].
    unfold BIT. rewrite Z.lor_spec, Z.shiftl_1_l, Z.pow2_bits_eqb by (apply Z.mod_pos_bound; lia).
    destruct (Z.eqb_spec ((i - 1) mod 32) ((k - 1) mod 32)) as [Em|Hne].
    + rewrite orb_true_r. rewrite (same_aid i k Ek (eq_sym Em)). split; [|done]. intros _. right.
      exists a, w. by rewrite lookup_insert_eq.
    + rewrite orb_false_r, <- Ei. apply E. by intros ->.
  - intros b c y z Hb Hc Hp Eyz.
    destruct (decide (b = a)) as [->|Hb']; destruct (decide (c = a)) as [->|Hc']; try done.
    + rewrite lookup_insert_eq in Hb. injection Hb as <-. rewrite lookup_insert_ne in Hc by done.
      exfalso. apply (Hno c z Hc). congruence.
    + rewrite lookup_insert_eq in Hc. injection Hc as <-. rewrite lookup_insert_ne in Hb by done.
      exfalso. apply (Hno b y Hb). congruence.
    + rewrite lookup_insert_ne in Hb, Hc by done.
      apply (D b c y z); [by rewrite lookup_insert_ne..|done|done].
  - intros b y _. lia.
Qed.

Section Aid.
  Context `{Env} {S : Type} `{HasHapd S} `{StaSize}.
  Context (st : settings) (a : bytes) (l : loc) (R : gmap bytes sta_info).

(** The identifier is stored in the station and marked in the bitmap. *)
Lemma mark_total v i x ws :
  aid v = 0 → sta_wf v → 1 ≤ i ≤ 2007 → ws !! Z.to_nat ((i - 1) / 32) = Some x → taken ws i = false →
  ∀ s : S, sta_aid (get_hapd s) = ws → at_core (own st a l R (eq v)) s →
  ∃ s', (sta_upd l (set_aid i);;
         w ← opt! (ws !! Z.to_nat ((i - 1) / 32));
         upd_hapd (λ h, set_sta_aid (<[Z.to_nat ((i - 1) / 32) := Z.lor w (BIT ((i - 1) mod 32))]>
           (sta_aid h)) h);; mret 0) s = Ret 0 s' ∧
    at_core (own st a l R (eq (set_aid i v))) s' ∧ reached s s'.
Proof.
  intros Hv W Hi Hx Hfree s Ews Hs.
  destruct (own_facts _ _ _ _ _ _ Hs) as (bs & v' & <- & _ & Ha & Hk & HR & Hin & Sh & _).
  destruct Sh as [Rp Hh Wf Hl Hn Hai Hst].
  destruct (map_assign_in hw_key id hw_bucket _ bs _ l v (set_aid i) Rp Hin)
    as (t' & E & Et & Hin' & Rp'); [done|].
  eexists. split.
  { unfold mbind, M_bind. unfold sta_upd, tab_assign. cbn in E |- *. unfold get_stas. rewrite E. cbn.
    rewrite Hx. reflexivity. }
  split; [|eapply reached_trans; apply reached_hapd].
  rewrite Hk, insert_insert_eq in Rp'. exists (assign_in l (set_aid i) <$> bs), (set_aid i v).
  unfold set_stas, at_core. rewrite !get_set_hapd. split; [|by split_and!].
  constructor; cbn; try done.
  - by rewrite Et.
  - rewrite map_Forall_insert in Wf |- * by done. destruct Wf as [_ ?]. split; [|done].
    destruct W. by constructor; try done; cbn; lia.
  - by rewrite concat_assign_fst.
  - cbn in Hn. by rewrite Hn, !map_size_insert_None.
  - rewrite Ews. cbn in Hai. rewrite Ews in Hai. by eapply aids_mark.
Qed.

Lemma get_aid_total F :
  (∀ v i, F v → F (set_aid i v)) →
  total (S:=S) (own st a l R F) (hostapd_get_aid l) (λ r c,
    ((r = 0 ∨ r = -1) ∧ (Z.of_nat (size R) < 2007 → r = 0)) ∧
    own st a l R (λ v, F v ∧ (r = 0 → 1 ≤ aid v)) c).
Proof.
  intros HF. unfold hostapd_get_aid. eapply total_bind; [apply own_get|]. intros v.
  apply total_pure. intros (Fv & W & Ha). destruct (Z.ltb_spec 0 (aid v)) as [Hp|Hp].
  { apply total_ret. intros c Ho. split; [auto|]. eapply own_weaken; [exact Ho|]. intros ? _ _ <-.
    split; [done|lia]. }
  assert (Hv : aid v = 0) by (destruct W; lia). intros s Hs. rewrite gets_step.
  assert (Hout : (Z.of_nat (size R) < 2007 → False) →
    ∃ r s', @mret (M S) _ Z (-1) s = Ret r s' ∧ at_core (λ c,
      ((r = 0 ∨ r = -1) ∧ (Z.of_nat (size R) < 2007 → r = 0)) ∧
      own st a l R (λ v, F v ∧ (r = 0 → 1 ≤ aid v)) c) s' ∧ reached s s').
  { intros Hno. exists (-1), s. split_and!; [done| |apply reached_refl]. split.
    - split; [by right|]. intros. by exfalso; auto.
    - eapply own_weaken; [exact Hs|]. intros ? _ _ <-. done. }
  assert (Hroom : Z.of_nat (size R) < 2007 →
    ∃ k, 1 ≤ k ≤ 2007 ∧ taken (sta_aid (get_hapd s)) k = false).
  { intros Hsz. destruct Hs as (bs & ? & Sh & _ & _ & HR & <-).
    by apply (aid_free _ a v R (sh_aids _ _ _ _ _ _ _ Sh)). }
  pose proof (find_aid_lowest (sta_aid (get_hapd s))) as Hlow.
  destruct (find_aid (sta_aid (get_hapd s)) 0) as [[p j]|].
  2:{ apply Hout. intros Hsz. destruct (Hroom Hsz) as (k & Hk & Hf).
      rewrite Hlow in Hf; [done|]. destruct Hs as (bs & ? & Sh & _).
      pose proof (ai_len _ _ _ (sh_aids _ _ _ _ _ _ _ Sh)) as Hl. cbn in Hl. unfold zlen. lia. }
  cbv zeta in Hlow |- *. set (i := p * 32 + j + 1) in *. destruct Hlow as (Hi & Ep & Ej & [x Hx] & Hf & Hlo).
  destruct (Z.ltb_spec 2007 i) as [Hbig|Hle].
  { apply Hout. intros Hsz. destruct (Hroom Hsz) as (k & Hk & Hf'). rewrite Hlo in Hf'; [done|lia]. }
  clearbody i. rewrite Ep, Ej. rewrite Ep in Hx.
  destruct (mark_total v i x _ Hv W ltac:(lia) Hx Hf s eq_refl Hs) as (s' & E & Hs' & Hr).
  exists 0, s'. split_and!; [exact E| |done]. split; [by auto|].
  eapply own_weaken; [exact Hs'|]. intros ? _ _ <-. split; [by apply HF|]. intros _. cbn. lia.
Qed.

End Aid.

(** ** The checks of an association request *)

(** A request that an open network accepts. *)
Record acceptable (st : settings) (els : list element) : Prop := {
  ac_ssid : last_part "ssid" els = Some (ssid (st_bss st));
  ac_wmm : ∀ d, last_part "wmm" els = Some d →
    wmm_enabled (st_bss st) = 0 ∨ hostapd_eid_wmm_valid d = Some true;
  ac_rates : ∃ r, last_part "supp_rates" els = Some r ∧
    zlen r + zlen (default [] (last_part "ext_supp_rates" els)) ≤ WLAN_SUPP_RATES_MAX;
  ac_multi : multi_ap (st_bss st) = 0;
  ac_wpa : st_wpa st = 0;
}.

(** The rates of the station are those of the request. *)
Definition rates_of (els : list element) (v : sta_info) : Prop :=
  (supported_rates v, supported_rates_len v) =
  merge_byte_arrays WLAN_SUPP_RATES_MAX (last_part "supp_rates" els) (last_part "ext_supp_rates" els).

(** What is known of a station does not depend on its rates. *)
Definition rateless (F : sta_info → Prop) : Prop :=
  ∀ v r n, F v → F (set_supported_rates r v) ∧ F (set_supported_rates_len n v).

Section Checks.
  Context `{Env} {S : Type} `{HasHapd S} `{StaSize}.
  Context (st : settings) (a : bytes) (l : loc) (R : gmap bytes sta_info).

Lemma wmm_valid_total d : ∃ b, hostapd_eid_wmm_valid d = Some b.
Proof.
  unfold hostapd_eid_wmm_valid. destruct (Z.ltb_spec (zlen d) sizeof_wmm_information) as [|Hl]; [by eexists|].
  unfold sizeof_wmm_information in Hl.
  destruct (ld8_ok d 4) as [x ->]; [lia|]. destruct (ld8_ok d 5) as [y ->]; [lia|]. by eexists.
Qed.

Lemma check_ssid_total P ie :
  total (S:=S) (λ c, c_set c = st ∧ P c) (check_ssid ie) (λ r c,
    (ie = Some (ssid (st_bss st)) → r = 0) ∧ P c).
Proof.
  unfold check_ssid. eapply total_bind; [apply total_gets|]. intros h. apply total_ret.
  intros c (-> & Hst & Hc). split; [|done]. intros ->.
  assert (E : ssid (bss (conf h)) = ssid (st_bss st)) by (rewrite <- Hst; done).
  rewrite <- E. by case_bool_decide.
Qed.

Lemma check_wmm_total F ie : closed [9] F →
  total (S:=S) (own st a l R F) (check_wmm l ie) (λ r c,
    ((∀ d, ie = Some d → wmm_enabled (st_bss st) = 0 ∨ hostapd_eid_wmm_valid d = Some true) → r = 0) ∧
    own st a l R F c).
Proof.
  intros HF. unfold check_wmm. do 2 (apply total_skip; [al HF|]; intros _).
  eapply total_bind; [apply own_gets|]. intros h. apply total_pure. intros Hst.
  destruct ie as [d|]; [|by apply total_ret].
  assert (Ew : wmm_enabled (bss (conf h)) = wmm_enabled (st_bss st)) by (rewrite <- Hst; done).
  destruct (Z.eqb_spec (wmm_enabled (bss (conf h))) 0); [by apply total_ret|].
  destruct (wmm_valid_total d) as [b Eb]. eapply total_opt; [exact Eb|].
  destruct b; cbn [negb].
  2:{ apply total_ret. intros c Hc. split; [|done]. intros Hd. destruct (Hd d eq_refl); congruence. }
  apply total_skip; [al HF|]. intros _.
  unfold hostapd_eid_wmm_valid in Eb. destruct (Z.ltb_spec (zlen d) sizeof_wmm_information) as [|Hl]; [done|].
  destruct (ld8_ok d 6) as [q Eq]; [unfold sizeof_wmm_information in Hl; lia|].
  eapply total_opt; [exact Eq|]. go ltac:(al HF).
Qed.

Lemma check_ext_capab_total F ie : closed [] F →
  total (S:=S) (own st a l R F) (check_ext_capab l ie) (λ r c, r = 0 ∧ own st a l R F c).
Proof.
  intros HF. unfold check_ext_capab. destruct ie as [d|]; [|by apply total_ret].
  destruct (Z.ltb_spec 0 (zlen d)) as [Hl|]; [|by apply total_ret].
  destruct (ld8_ok d 0) as [b Eb]; [lia|]. eapply total_opt; [exact Eb|]. go ltac:(al HF).
Qed.

Lemma merge_length n r x : length (merge_byte_arrays n r x).1 = Z.to_nat n ∧
  (0 ≤ n → 0 ≤ (merge_byte_arrays n r x).2 ≤ n).
Proof.
  unfold merge_byte_arrays, zlen. destruct r as [r|], x as [x|];
    repeat match goal with |- context [?p <=? ?q] => destruct (Z.leb_spec p q) end;
    cbn [fst snd length]; rewrite ?length_app, ?length_take, ?length_replicate; cbn [length] in *; split; lia.
Qed.

Lemma copy_rates_total F els : rateless F →
  total (S:=S) (own st a l R F)
    (copy_supp_rates l (last_part "supp_rates" els) (last_part "ext_supp_rates" els)) (λ r c,
    (acceptable st els → r = 0) ∧
    own st a l R (λ v, F v ∧ (r = 0 → st_ad st = false → rates_of els v)) c).
Proof.
  intros HF. unfold copy_supp_rates. eapply total_bind; [apply own_gets|]. intros h.
  apply total_pure. intros Hst. assert (Ead : mode_ad (iface h) = st_ad st) by (rewrite <- Hst; done).
  destruct (mode_ad (iface h)).
  { apply total_ret. intros c Hc. split; [done|]. eapply own_weaken; [exact Hc|]. intros v _ _ Fv.
    split; [done|congruence]. }
  assert (Hbad : ∀ r, r ≠ 0 → (acceptable st els → r = 0) → total (S:=S) (own st a l R F) (mret r) (λ r c,
    (acceptable st els → r = 0) ∧ own st a l R (λ v, F v ∧ (r = 0 → st_ad st = false → rates_of els v)) c)).
  { intros r Hr Ha. apply total_ret. intros c Hc. split; [done|]. by eapply own_weaken. }
  destruct (last_part "supp_rates" els) as [r|] eqn:Er.
  2:{ apply Hbad; [done|]. intros []. by destruct ac_rates0 as (? & ? & _); congruence. }
  destruct (Z.ltb_spec WLAN_SUPP_RATES_MAX
              (zlen r + zlen (default [] (last_part "ext_supp_rates" els)))) as [Hlen|_].
  { apply Hbad; [done|]. intros []. destruct ac_rates0 as (r' & Er' & Hle). exfalso. rewrite Er in Er'.
    injection Er' as <-. lia. }
  destruct (merge_byte_arrays WLAN_SUPP_RATES_MAX (Some r) (last_part "ext_supp_rates" els))
    as [rates len] eqn:Em.
  pose proof (merge_length WLAN_SUPP_RATES_MAX (Some r) (last_part "ext_supp_rates" els)) as [L1 L2].
  rewrite Em in L1, L2. cbn [fst snd] in L1, L2. specialize (L2 ltac:(done)).
  eapply total_bind; [apply (own_upd _ _ _ _ _ (λ v, F v ∧ supported_rates v = rates)); [done|done|]|].
  { intros v _ [] Fv. split; [by constructor|]. split; [by apply HF|done]. }
  intros []. eapply total_bind; [apply (own_upd _ _ _ _ _ (λ v, F v ∧ rates_of els v)); [done|done|]|].
  { intros v _ [] [Fv Er']. split; [by constructor|]. split; [by apply HF|].
    unfold rates_of. cbn. by rewrite Er, Em, Er'. }
  intros []. apply total_ret. intros c Hc. split; [done|]. eapply own_weaken; [exact Hc|].
  by intros v _ _ [].
Qed.

(** The subelements of a Multi-AP element. *)
Lemma get_ie_total fuel d stop pos eid :
  bytes_ok d → 0 ≤ pos → stop ≤ zlen d → (Z.to_nat (stop - pos) < fuel)%nat →
  ∃ r, get_ie fuel d stop pos eid = Some r ∧
    ∀ p, r = Some p → 0 ≤ p ∧ ∃ n, ld8 d (p + 1) = Some n ∧ p + 2 + n ≤ stop.
Proof.
  intros Hd. revert pos. induction fuel as [|fuel IH]; intros pos Hp Hs Hf; [lia|]. cbn [get_ie].
  destruct (Z.ltb_spec (stop - pos) 2); [by eexists|].
  destruct (ld8_ok d pos) as [id Ei]; [lia|]. destruct (ld8_ok d (pos + 1)) as [n En]; [lia|].
  rewrite Ei. cbn. rewrite En. cbn. pose proof (ld8_byte _ _ _ Hd En) as Hn. unfold byte_ok in Hn.
  destruct (Z.ltb_spec (stop - pos) (2 + n)); [by eexists|].
  destruct (id =? eid); [|apply IH; lia].
  eexists. split; [done|]. intros p [= <-]. split; [done|]. exists n. split; [done|lia].
Qed.

Lemma multi_ap_value_total d : bytes_ok d → ∃ v, multi_ap_value d = Some v.
Proof.
  intros Hd. unfold multi_ap_value.
  destruct (get_ie_total (Datatypes.S (length d)) d (zlen d) 4 MULTI_AP_SUB_ELEM_TYPE) as (r & -> & Hr);
    [done|done|done|unfold zlen; lia|]. cbn. destruct r as [p|]; [|by eexists].
  destruct (Hr p eq_refl) as (Hp & n & -> & Hn). cbn. destruct (Z.eqb_spec n 1); [|by eexists].
  destruct (ld8_ok d (p + 2)) as [v ->]; [lia|]. by eexists.
Qed.

Lemma check_multi_ap_total F ie : closed [23] F → (∀ d, ie = Some d → bytes_ok d) →
  total (S:=S) (own st a l R F) (check_multi_ap l ie) (λ r c,
    (multi_ap (st_bss st) = 0 → r = 0) ∧ own st a l R F c).
Proof.
  intros HF Hd. unfold check_multi_ap. apply total_skip; [al HF|]. intros _.
  eapply total_bind; [apply own_gets|]. intros h. apply total_pure. intros Hst. cbv zeta.
  assert (Em : multi_ap (bss (conf h)) = multi_ap (st_bss st)) by (rewrite <- Hst; done).
  destruct (Z.eqb_spec (multi_ap (bss (conf h))) 0); [by apply total_ret|].
  assert (Hno : ∀ r (c : core), own st a l R F c → (multi_ap (st_bss st) = 0 → r = 0) ∧ own st a l R F c)
    by (intros r c Hc; split; [congruence|done]).
  assert (∃ v, total (S:=S) (own st a l R F) (match ie with
      | None => mret (Some 0) | Some d => opt! multi_ap_value d end) (λ r c, r = v ∧ own st a l R F c))
    as [v Hv].
  { destruct ie as [d|]; [|by eexists; apply total_ret].
    destruct (multi_ap_value_total d (Hd d eq_refl)) as [v ->]. by exists v; apply total_ret. }
  eapply total_bind; [exact Hv|]. intros v'. apply total_pure. intros ->.
  destruct v as [v|]; [|apply total_ret; auto]. case_if; [apply total_ret; auto|].
  apply total_skip; [al HF|]. intros _. apply total_ret. auto.
Qed.

Lemma send_sa_query_total P b x id : total (S:=S) P (send_sa_query b x id) (λ _, P).
Proof. unfold send_sa_query. go fail. Qed.

Lemma sa_query_timeout_total F : closed [] F →
  total (S:=S) (own st a l R F) (ap_check_sa_query_timeout l) (λ _, own st a l R F).
Proof. intros HF. unfold ap_check_sa_query_timeout. go ltac:(al HF). Qed.

Lemma sa_query_timer_total F : closed [] F →
  total (S:=S) (own st a l R F) (ap_sa_query_timer l) (λ _, own st a l R F).
Proof.
  intros HF. unfold ap_sa_query_timer. go ltac:(al HF); try apply send_sa_query_total.
  by apply sa_query_timeout_total.
Qed.

Lemma check_wpa_total F re : closed [10] F →
  total (S:=S) (own st a l R F) (check_wpa l re) (λ _, own st a l R F).
Proof.
  intros HF. assert (HF' : closed [] F) by (eapply closed_sub; [|exact HF]; by intros n ?%elem_of_nil).
  unfold check_wpa. go ltac:(al HF); first [by apply sa_query_timer_total
    |apply total_skip; [by apply sa_query_timeout_total|]; intros ?; go fail].
Qed.

Lemma op_classes_total F ie : closed [] F →
  total (S:=S) (own st a l R F) (ap_copy_sta_supp_op_classes l ie) (λ _, own st a l R F).
Proof. intros HF. unfold ap_copy_sta_supp_op_classes. go ltac:(al HF). Qed.

Lemma keep_capabilities_total F classes rrm power :
  closed [] F → (∀ d, power = Some d → 2 ≤ zlen d) →
  total (S:=S) (own st a l R F) (keep_capabilities l classes rrm power) (λ _, own st a l R F).
Proof.
  intros HF Hp. unfold keep_capabilities. apply total_skip; [by apply op_classes_total|]. intros _.
  eapply total_bind; [apply own_get_keep|]. intros v. apply total_pure. intros _.
  apply total_skip; [go ltac:(al HF)|]. intros _. destruct power as [d|]; [|al HF].
  specialize (Hp d eq_refl).
  destruct (ld8_ok d 0) as [lo Elo]; [lia|]. destruct (ld8_ok d 1) as [hi Ehi]; [lia|].
  eapply total_opt; [exact Elo|]. eapply total_opt; [exact Ehi|]. go ltac:(al HF).
Qed.

End Checks.

(** The element of the power capability is at least two bytes long. *)
Lemma case_of_in {A} id (cases : list (Z * A)) c : case_of id cases = Some c → (id, c) ∈ cases.
Proof.
  induction cases as [|[k x] cases IH]; [done|]. unfold case_of; fold (@case_of A).
  destruct (Z.eqb_spec id k) as [->|]; intros E; [injection E as ->; left|right; auto].
Qed.

Lemma vendor_name_in d l n : vendor_name d l = Some n → n ∈ l.*2.
Proof.
  induction l as [|[p x] l IH]; [done|]. cbn [vendor_name].
  destruct (starts p d); intros E; [injection E as ->; left|right; auto].
Qed.

Lemma power_capab_len els d : last_part "power_capab" els = Some d → 2 ≤ zlen d.
Proof.
  unfold last_part. intros E%last_Some_elem_of. apply list_elem_of_omap in E as (el & _ & E).
  unfold part in E. destruct (fst (carries el)) as [[n k]|] eqn:Ec; [|done].
  case_decide as En; [|done]. injection E as <-. subst n.
  assert (Hx : "power_capab" ∉ (vendor_prefixes.*2)) by (by apply (bool_decide_unpack _)).
  assert (Hy : "power_capab" ∉ ((λ x, x.2.1) <$> extension_cases)) by (by apply (bool_decide_unpack _)).
  unfold carries in Ec. destruct (el_id el =? WLAN_EID_VENDOR_SPECIFIC).
  { destruct (vendor_name _ _) eqn:Ev; [|done]. cbn in Ec. injection Ec as -> <-. by apply vendor_name_in in Ev. }
  destruct (el_id el =? WLAN_EID_EXTENSION).
  { destruct (el_data el) as [|x r]; [done|]. destruct (case_of x extension_cases) as [[n ok]|] eqn:Ek; [|done].
    cbn in Ec. case_if; [|done]. injection Ec as -> <-. exfalso. apply Hy, list_elem_of_fmap.
    exists (x, ("power_capab", ok)). split; [done|]. by apply case_of_in. }
  case_if; [done|]. destruct (case_of (el_id el) element_cases) as [[n ok]|] eqn:Ek; [|done].
  cbn in Ec. destruct (ok (zlen (el_data el) - 0)) eqn:Eo; [|done]. injection Ec as -> <-.
  rewrite drop_0. apply case_of_in, list_elem_of_In in Ek. unfold element_cases in Ek. simpl In in Ek.
  repeat destruct Ek as [Ek|Ek]; try discriminate; [|done].
  injection Ek as _ <-. unfold at_least in Eo. zbool. lia.
Qed.

Section Request.
  Context `{Env} {S : Type} `{HasHapd S} `{StaSize}.
  Context (st : settings) (a : bytes) (l : loc) (R : gmap bytes sta_info).

(** Reading a member that the parser has left. *)
Lemma elem_total {B} P m lo hi els e name (k : option bytes → M S B) Q :
  holds m lo hi els e → 0 ≤ lo → hi ≤ zlen m →
  total P (k (last_part name els)) Q → total P (elem m e name ≫= k) Q.
Proof.
  intros (Hm & _ & Hw & _) Hlo Hhi Hk. unfold elem. rewrite <- (Hm name) in Hk. unfold member_data in Hk.
  destruct (member e name) as [[p n]|] eqn:E; [|exact Hk].
  pose proof (Hw name (p, n) E) as Hin. unfold within in Hin. cbn [fst snd] in Hin. cbn in Hk.
  destruct (ldn m p n) as [d|] eqn:Ed; [exact Hk|].
  rewrite ldn_ok in Ed; [done|lia..].
Qed.

(** [resp = ...; if (resp != WLAN_STATUS_SUCCESS) return resp;]. *)
Lemma total_and_then P (m k : M S Z) Q1 Q :
  total P m Q1 → total (Q1 0) k Q → (∀ r c, r ≠ 0 → Q1 r c → Q r c) → total P (and_then m k) Q.
Proof.
  intros Hm Hk Hq. unfold and_then. eapply total_bind; [exact Hm|]. intros r.
  destruct (Z.eqb_spec r WLAN_STATUS_SUCCESS) as [->|Hr]; [exact Hk|]. apply total_ret. intros c. by apply Hq.
Qed.

Lemma member_bytes rest els failed name d :
  bytes_ok rest → parsed_as rest els failed → last_part name els = Some d → bytes_ok d.
Proof.
  intros Hr (junk & -> & _) Hd. unfold last_part in Hd. apply last_Some_elem_of, list_elem_of_omap in Hd
    as (el & Hel & Hp).
  unfold part in Hp. destruct (fst (carries el)) as [[n k]|]; [|done]. case_decide; [|done].
  injection Hp as <-. apply Forall_drop. apply Forall_app in Hr as [Hr _].
  apply list_elem_of_split in Hel as (l1 & l2 & ->). unfold encode_all in Hr.
  rewrite fmap_app, concat_app in Hr. apply Forall_app in Hr as [_ Hr]. cbn in Hr.
  apply Forall_cons in Hr as [_ Hr]. apply Forall_cons in Hr as [_ Hr].
  by apply Forall_app in Hr as [Hr _].
Qed.

(** What a request that was checked has done to the station. *)
Definition checked (rest : bytes) (F : sta_info → Prop) (r : Z) (c : core) : Prop :=
  ∃ els failed, parsed_as rest els failed ∧ (failed = false → acceptable st els → r = 0) ∧
    own st a l R (λ v, F v ∧ (r = 0 → st_ad st = false → rates_of els v)) c.

Lemma rates_closed ns els : closed ns (rates_of els).
Proof. intros v w []. unfold rates_of. congruence. Qed.

Lemma check_security_total G m lo hi els e reassoc :
  closed [] G → closed [10] G → holds m lo hi els e → 0 ≤ lo → hi ≤ zlen m →
  total (S:=S) (own st a l R G) (check_security l m e reassoc)
    (λ r c, (acceptable st els → r = 0) ∧ own st a l R G c).
Proof.
  intros HG HG10 Hh Hlo Hhi. unfold check_security.
  eapply total_bind; [apply own_gets|]. intros h. apply total_pure. intros Hst.
  assert (Ew : wpa (conf h) = st_wpa st) by (rewrite <- Hst; done). cbv zeta.
  match goal with |- total _ (if ?b then _ else _) _ => destruct b eqn:Eb end.
  { apply total_ret. intros c Ho. split; [|done]. intros []. exfalso.
    rewrite Ew, ac_wpa0 in Eb. by cbn in Eb. }
  eapply (total_and_then _ _ _ (λ r c, (acceptable st els → r = 0) ∧ own st a l R G c)).
  { match goal with |- total _ (if ?b then _ else _) _ => destruct b eqn:Eb' end.
    - eapply total_weaken; [by apply check_wpa_total|done|]. intros r c Ho. split; [|done].
      intros []. exfalso. rewrite Ew, ac_wpa0 in Eb'. by cbn in Eb'.
    - unfold fair. go fail. }
  2:{ done. }
  apply total_pure. intros _. do 3 (eapply elem_total; [exact Hh|done|done|]).
  apply total_skip; [apply keep_capabilities_total; [done|intros d; apply power_capab_len]|].
  intros _. apply total_ret. by intros c Ho.
Qed.

Lemma check_assoc_ies_total F pre rest post reassoc :
  closed [9; 10; 23] F → rateless F → bytes_ok rest →
  total (S:=S) (own st a l R F)
    (check_assoc_ies l (pre ++ rest ++ post) (zlen pre) (zlen rest) reassoc) (checked rest F).
Proof.
  intros HF HR Hb.
  destruct (parse_elems_ok pre rest post Hb) as (els & e & failed & Ep & Hh & _ & Hs).
  assert (Hlo : 0 ≤ zlen pre) by apply zlen_nonneg.
  assert (Hhi : zlen pre + zlen rest ≤ zlen (pre ++ rest ++ post)).
  { rewrite !zlen_app. pose proof (zlen_nonneg post). lia. }
  unfold check_assoc_ies. eapply total_opt; [exact Ep|].
  assert (Hfail : ∀ r c, (failed = false → acceptable st els → r = 0) → r ≠ 0 →
    own st a l R F c → checked rest F r c).
  { intros r c Ha Hr Ho. exists els, failed. split_and!; [done..|]. by eapply own_weaken. }
  destruct failed.
  { rewrite bool_decide_eq_true_2 by done. apply total_ret. intros c Ho. by apply Hfail. }
  rewrite bool_decide_eq_false_2 by (unfold result; by case_if).
  do 6 (eapply elem_total; [exact Hh|done|done|]).
  assert (Hsub : ∀ G, closed [9; 10; 23] G →
    closed [] G ∧ closed [9] G ∧ closed [10] G ∧ closed [23] G).
  { intros G HG. split_and!; (eapply closed_sub; [|exact HG]); intros n;
      rewrite ?elem_of_nil, ?list_elem_of_singleton; try done; intros ->; in_bits. }
  destruct (Hsub F HF) as (HF0 & HF9 & _ & _).
  eapply total_and_then.
  { eapply total_weaken; [apply (check_ssid_total st (own st a l R F))| |done].
    intros c Ho. split; [|exact Ho]. by destruct Ho as (bs & v & [] & _). }
  2:{ intros r c Hr [Hi Ho]. apply Hfail; [|done|done]. intros _ []. auto. }
  apply total_pure. intros _. eapply total_and_then; [by apply (check_wmm_total st a l R F)| |].
  2:{ intros r c Hr [Hi Ho]. apply Hfail; [|done|done]. intros _ []. auto. }
  apply total_pure. intros _. eapply total_and_then; [by apply (check_ext_capab_total st a l R F)| |].
  2:{ by intros r c Hr [-> _]. }
  apply total_pure. intros _. eapply total_and_then; [by apply (copy_rates_total st a l R F)| |].
  2:{ intros r c Hr [Hi Ho]. apply Hfail; [|done|]; [by auto|]. eapply own_weaken; [exact Ho|].
      by intros v _ _ []. }
  apply total_pure. intros _.
  set (G := λ v, F v ∧ (0 = 0 → st_ad st = false → rates_of els v)).
  assert (HG : closed [9; 10; 23] G).
  { intros v w A [Fv Gv]. split; [by eapply HF|]. intros ? ?. eapply rates_closed; [exact A|by apply Gv]. }
  destruct (Hsub G HG) as (HG0 & _ & HG10 & HG23).
  assert (Hfail' : ∀ r c, (acceptable st els → r = 0) → r ≠ 0 → own st a l R G c → checked rest F r c).
  { intros r c Ha Hr Ho. apply Hfail; [by auto|done|]. eapply own_weaken; [exact Ho|]. by intros v _ _ []. }
  eapply total_and_then; [apply (check_multi_ap_total st a l R G); [done|]| |].
  { intros d. by eapply member_bytes. }
  2:{ intros r c Hr [Hi Ho]. apply Hfail'; [|done|done]. intros []. auto. }
  apply total_pure. intros _. eapply total_weaken; [by eapply check_security_total; [..|exact Hh| |]|done|].
  intros r c [Hi Ho]. destruct (decide (r = 0)) as [->|Hr]; [by exists els, false|by apply Hfail'].
Qed.

End Request.

(** ** The driver and the answer *)

Section Answer.
  Context `{Env} {S : Type} `{HasHapd S} `{StaSize}.
  Context (st : settings) (a : bytes) (l : loc) (R : gmap bytes sta_info).

Lemma send_deauth_total P b r : total (S:=S) P (send_deauth b r) (λ _, P).
Proof. unfold send_deauth. go fail. Qed.

Lemma add_associated_total F re : closed [] F →
  fair (S:=S) (own st a l R F) (add_associated_sta l re) (λ r, r = 0).
Proof.
  intros HF. unfold add_associated_sta.
  eapply total_bind; [apply own_get_keep|]. intros v. apply total_pure. intros _.
  apply total_skip; [unfold stale_entry; go fail|]. intros stale.
  apply total_skip; [go ltac:(al HF)|]. intros _.
  eapply fair_bind; [apply (fair_call _ _ _ (λ r, r = 0)); intros []; by destruct stale|].
  intros r Hr. destruct (Z.eqb_spec r 0) as [_|Hne]; cbn [negb]; unfold fair.
  - go ltac:(al HF).
  - apply total_skip; [go ltac:(al HF)|]. intros _. apply total_ret. intros c Hc. split; [|done].
    intros Hf. by destruct (Hne (Hr Hf)).
Qed.

(** The station that is answered, if it is known. *)
Definition known_sta (sta : option loc) (P : core → Prop) : Prop :=
  match sta with Some l' => total (S:=S) P (sta_get l') (λ _, P) | None => True end.

Lemma send_assoc_resp_total P sta b status re :
  known_sta sta P → fair (S:=S) P (send_assoc_resp sta b status re) (λ r, r = 0).
Proof.
  intros Hk. unfold send_assoc_resp. eapply fair_bind; [apply fair_calloc|]. intros [buf|] Hb.
  2:{ apply total_ret. intros c Hc. split; [|done]. intros Hf. by destruct (Hb Hf). }
  apply total_skip; [apply any_gets|]. intros h.
  apply total_skip.
  { destruct sta as [l'|]; [|by apply total_ret]. apply total_skip; [exact Hk|]. intros v. by apply total_ret. }
  intros s. cbv zeta. apply total_skip; [apply any_call|]. intros dfs.
  apply total_skip; [unfold hostapd_eid_assoc_comeback_time; go fail|]. intros comeback.
  do 2 (apply total_skip; [apply any_ask|]; intros ?).
  do 3 (apply total_skip; [case_if; [apply any_ask|by apply total_ret]|]; intros ?).
  apply total_skip; [apply any_ask|]. intros extra.
  eapply fair_bind; [apply fair_send|]. intros r Hr. apply fair_ret. intros Hf. specialize (Hr Hf).
  cbn in Hr. by destruct (Z.ltb_spec r 0); [lia|].
Qed.

(** ** Disconnecting *)

Lemma free_eapol_total F : closed [] F →
  total (S:=S) (own st a l R F) (ieee802_1x_free_station l) (λ _, own st a l R F).
Proof. intros HF. unfold ieee802_1x_free_station. go ltac:(al HF). Qed.

Lemma sta_remove_total F : closed [] F →
  total (S:=S) (own st a l R F) (ap_sta_remove l) (λ _, own st a l R F).
Proof. intros HF. unfold ap_sta_remove. go ltac:(al HF). Qed.

Lemma disassoc_cb_timeout_total F : closed [] F →
  total (S:=S) (own st a l R F) (ap_sta_disassoc_cb_timeout l) (λ _, own st a l R F).
Proof.
  intros HF. unfold ap_sta_disassoc_cb_timeout. apply total_skip; [by apply sta_remove_total|]. intros _.
  go fail.
Qed.

Lemma deauth_cb_timeout_total F : closed [] F →
  total (S:=S) (own st a l R F) (ap_sta_deauth_cb_timeout l) (λ _, own st a l R F).
Proof.
  intros HF. unfold ap_sta_deauth_cb_timeout. apply total_skip; [by apply sta_remove_total|]. intros _.
  go fail.
Qed.

Lemma restart_timer_total P b : total (S:=S) P (restart_timer b) (λ _, P).
Proof. unfold restart_timer. go fail. Qed.

Abbreviation any := (λ _ : sta_info, True).

Lemma any_closed ns : closed ns any.
Proof. by intros v w _ _. Qed.

Lemma authorized_any x :
  total (S:=S) (own st a l R any) (ap_sta_set_authorized l x) (λ _, own st a l R any).
Proof. by apply authorize_total. Qed.

(** Nothing is known of the station itself. *)
Ltac go_any calls :=
  repeat (go ltac:(by apply any_keep; intros; unfold idle_cause; repeat case_match);
    lazymatch goal with
    | |- total _ (mbind _ (ap_sta_set_authorized _ _)) _ =>
        apply total_skip; [by apply authorize_total|intros _]
    | |- total _ (mbind _ (restart_timer _)) _ => apply total_skip; [apply restart_timer_total|intros _]
    | |- total _ (mbind _ (ieee802_1x_free_station _)) _ =>
        apply total_skip; [apply free_eapol_total, any_closed|intros _]
    | |- total _ (mbind _ _) _ => apply total_skip; [calls|intros ?]
    | |- total _ _ _ => calls
    end).

Lemma await_disassoc_total r :
  total (S:=S) (own st a l R any) (await_disassoc l r) (λ _, own st a l R any).
Proof. unfold await_disassoc. go_any fail. Qed.

Lemma await_deauth_total r :
  total (S:=S) (own st a l R any) (await_deauth l r) (λ _, own st a l R any).
Proof. unfold await_deauth. go_any fail. Qed.

Lemma disassociate_total r :
  total (S:=S) (own st a l R any) (ap_sta_disassociate l r) (λ _, own st a l R any).
Proof. unfold ap_sta_disassociate. go_any ltac:(apply await_disassoc_total). Qed.

Lemma deauthenticate_total r :
  total (S:=S) (own st a l R any) (ap_sta_deauthenticate l r) (λ _, own st a l R any).
Proof.
  unfold ap_sta_deauthenticate. go_any ltac:(apply disassociate_total || apply await_deauth_total).
Qed.

Lemma disconnect_total b r :
  total (S:=S) (own st a l R any) (ap_sta_disconnect (Some l) b r) (λ _, own st a l R any).
Proof.
  unfold ap_sta_disconnect. rewrite mret_bind.
  go_any ltac:(apply await_disassoc_total || apply await_deauth_total).
Qed.

Lemma deauth_cb_total :
  total (S:=S) (own st a l R any) (ap_sta_deauth_cb l) (λ _, own st a l R any).
Proof. unfold ap_sta_deauth_cb. go_any ltac:(apply deauth_cb_timeout_total, any_closed). Qed.

Lemma disassoc_cb_total :
  total (S:=S) (own st a l R any) (ap_sta_disassoc_cb l) (λ _, own st a l R any).
Proof. unfold ap_sta_disassoc_cb. go_any ltac:(apply disassoc_cb_timeout_total, any_closed). Qed.

(** ** Timers *)

(** Only the station [a] was changed, or removed. *)
Definition after (c : core) : Prop := ∃ m, delete a m = R ∧ stations m st c.

Lemma own_after_at l' F c : own st a l' R F c → after c.
Proof.
  intros Ho. destruct (own_stations _ _ _ _ _ _ Ho) as (v & _ & Hs). destruct Ho as (? & ? & _ & _ & _ & HR & _).
  exists (<[a := v]> R). split; [by rewrite delete_insert_id|done].
Qed.

Lemma own_after F c : own st a l R F c → after c.
Proof. apply own_after_at. Qed.

Lemma free_after : R !! a = None → total (S:=S) (own st a l R any) (ap_free_sta l) (λ _, after).
Proof.
  intros HR. eapply total_weaken; [apply free_total|done|]. intros u c Hs. exists R.
  split; [by apply delete_id|done].
Qed.

Lemma total_after {A} (m : M S A) F :
  total (own st a l R F) m (λ _, own st a l R any) → total (own st a l R F) m (λ _, after).
Proof. intros Hm. eapply total_weaken; [exact Hm|done|]. intros u c. apply own_after. Qed.

Lemma after_get : mac_ok a →
  total (S:=S) after (ap_get_sta a) (λ p c,
    match p with Some l' => own st a l' R any c | None => after c end).
Proof.
  intros Ha. apply total_ex. intros m. apply total_pure. intros <-.
  eapply total_weaken; [by apply get_sta_total|done|]. intros [l'|] c.
  - intros (v & _ & Ho). by eapply own_weaken.
  - intros [_ Hs]. by exists m.
Qed.

Lemma sa_query_resp_total t : mac_ok a →
  total (S:=S) after (ieee802_11_send_sa_query_resp a t) (λ _, after).
Proof.
  intros Ha. unfold ieee802_11_send_sa_query_resp. eapply total_bind; [by apply after_get|].
  intros [l'|]; [|by apply total_ret].
  apply (total_weaken (own st a l' R any) _ _ (λ _, own st a l' R any)); [|done|intros u c; apply own_after_at].
  go fail. apply send_sa_query_total.
Qed.

Lemma sa_query_action_total m : mac_ok a → 26 ≤ zlen m →
  total (S:=S) after (ieee802_11_sa_query_action m a) (λ _, after).
Proof.
  intros Ha Hm. unfold ieee802_11_sa_query_action, IEEE80211_HDRLEN.
  destruct (ld8_ok m (24 + 1)) as [x Ex]; [lia|]. eapply total_opt; [exact Ex|].
  destruct (Z.ltb_spec (zlen m) (24 + 4)); [by apply total_ret|].
  eapply total_opt; [apply ldn_ok; unfold WLAN_SA_QUERY_TR_ID_LEN; lia|].
  eapply total_bind; [by apply after_get|]. intros p.
  assert (Hp : ∀ c, match p with Some l' => own st a l' R any c | None => after c end → after c)
    by (intros c; destruct p; [apply own_after_at|done]).
  case_if; [eapply total_weaken; [by apply sa_query_resp_total|exact Hp|done]|].
  case_if; [by apply total_ret|]. destruct p as [l'|]; [|by apply total_ret].
  apply (total_weaken (own st a l' R any) _ _ (λ _, own st a l' R any)); [|done|intros u c; apply own_after_at].
  unfold ap_sta_stop_sa_query. go ltac:(by apply any_keep).
Qed.

Lemma timer_total : R !! a = None →
  total (S:=S) (own st a l R any) (ap_handle_timer l) (λ _, after).
Proof.
  intros HR. unfold ap_handle_timer.
  eapply total_bind; [apply own_get_keep|]. intros v. apply total_pure. intros _.
  case_if; [by apply free_after|].
  apply total_skip; [unfold timer_idle; go_any fail|]. intros [next skip_poll].
  apply total_skip; [unfold timer_polled; go_any fail|]. intros next'.
  case_if; [apply total_after, total_notify|].
  apply total_skip; [unfold timer_send; go_any fail|]. intros _. unfold timer_switch.
  eapply total_bind; [apply own_get_keep|]. intros w. apply total_pure. intros _. cbv zeta.
  case_if; [apply total_after; go_any fail|].
  case_if; [apply total_after; go_any fail|].
  case_if; [|apply total_after; go_any fail].
  go_any ltac:(by apply free_after).
Qed.

Lemma session_timer_total : R !! a = None →
  total (S:=S) (own st a l R any) (ap_handle_session_timer l) (λ _, after).
Proof.
  intros HR. unfold ap_handle_session_timer.
  eapply total_bind; [apply own_get_keep|]. intros v. apply total_pure. intros _.
  case_if; [case_if; [by apply free_after|apply total_after; go_any fail]|].
  go_any ltac:(by apply free_after).
Qed.

End Answer.
