(* ===== verification/MlmeCount.v ===== *)
(** * hostapd's stations: the counters through authentication and association

    The functions of [StaMlme.v] change the marks of a station and the counters of
    the interface together, or neither. *)

From Stdlib Require Import ZArith Lia.
From S2P Require Import Prelude CMem CMonad Chain CSteps NatTable ApData Station StationProps.
From S2P Require Import Elements StaMlme.
Import Hapd Elements Mlme.

(** The counters count before, and after whatever is returned. *)
Definition counts {S} `{HasHapd S} {A} (m : M S A) : Prop := ends all_counted m (λ _, all_counted).

Create HintDb counts.

Section Counts.
  Context `{Env} {S : Type} `{HasHapd S} `{StaSize}.

Lemma counts_keeps {A} (m : M S A) : keeps all_counted m → counts m.
Proof. apply ends_keeps. Qed.

Lemma counts_bind {A B} (m : M S A) (k : A → M S B) :
  counts m → (∀ a, counts (k a)) → counts (m ≫= k).
Proof. apply ends_bind. Qed.

Lemma counts_exit {A} c : counts (S:=S) (exit (A:=A) c).
Proof. by intros s _. Qed.

Lemma counts_ask {A} (f : nat → A) : counts (S:=S) (ask f).
Proof. intros s Hs. by apply counted_sys. Qed.

Lemma authorized_counts l x : counts (S:=S) (ap_sta_set_authorized l x).
Proof. apply counts_keeps, authorized_all. Qed.
Lemma get_sta_counts a : counts (S:=S) (ap_get_sta a).
Proof. apply counts_keeps, get_sta_all. Qed.
Lemma sta_add_counts a : counts (S:=S) (ap_sta_add a).
Proof. apply counts_keeps, sta_add_all. Qed.
Lemma free_counts l : counts (S:=S) (ap_free_sta l).
Proof. apply free_sta_counted. Qed.
Lemma bind_vlan_counts l : counts (S:=S) (ap_sta_bind_vlan l).
Proof. apply counts_keeps. unfold ap_sta_bind_vlan. kp. Qed.
Lemma finish_counts l x : counts (S:=S) (finish_assoc l x).
Proof.
  apply counts_keeps. unfold finish_assoc. kp; try apply authorized_all. unfold ap_sta_bind_vlan. kp.
Qed.
Lemma renew_counts l : counts (S:=S) (renew_entry l).
Proof. apply counts_keeps. unfold renew_entry. kp; apply authorized_all. Qed.

Lemma protection_counts l : counts (S:=S) (update_protection l).
Proof.
  intros s Hs. destruct (heap_of (get_hapd s) !! l) as [n|] eqn:E.
  - pose proof (protection_ends (S:=S) l (λ k, mark k (node_val n)) s) as Hp.
    destruct (update_protection l s); try done.
    destruct Hp as (b & Hc & _); [split; [done|by exists n]|done].
  - assert (Hg : ∀ B (k : sta_info → M S B), (sta_get l ≫= k) s = Crash).
    { intros B k. unfold mbind, M_bind, sta_get, tab_deref, deref.
      change (tab_heap (get_stas s)) with (heap_of (get_hapd s)). by rewrite E. }
    unfold update_protection. rewrite gets_step. destruct (mode_g (iface (get_hapd s))).
    + unfold mbind at 1, M_bind at 1, sta_upd, tab_assign, assign. cbn [mbind option_bind].
      change (tab_heap (get_stas s)) with (heap_of (get_hapd s)). by rewrite E.
    + unfold skip. rewrite mret_bind. by rewrite Hg.
Qed.

End Counts.

#[export] Hint Resolve authorized_counts get_sta_counts sta_add_counts free_counts finish_counts
  renew_counts protection_counts counts_exit counts_ask : counts.

(** Walks through a function. *)
Ltac ct :=
  repeat lazymatch goal with
  | |- counts (mbind _ _) => apply counts_bind; [|intros ?]
  | |- counts (match ?x with _ => _ end) => destruct x
  | |- counts (let _ := _ in _) => cbv zeta
  | |- counts (stored _) => apply counts_ask
  | |- counts (stored_bytes _) => apply counts_ask
  | |- counts _ => solve [auto with counts | apply counts_keeps; kp]
  end.

Section Functions.
  Context `{Env} {S : Type} `{HasHapd S} `{StaSize}.

Lemma shared_key_counts l t c w : counts (S:=S) (auth_shared_key l t c w).
Proof. unfold auth_shared_key. ct. Qed.
Lemma auth_reply_counts d b g t r i : counts (S:=S) (send_auth_reply d b g t r i).
Proof. unfold send_auth_reply. ct. Qed.
Lemma radius_counts l r : counts (S:=S) (ieee802_11_set_radius_info l r).
Proof. unfold ieee802_11_set_radius_info. ct. Qed.
Lemma aid_counts l : counts (S:=S) (hostapd_get_aid l).
Proof. unfold hostapd_get_aid. ct. Qed.
Lemma elem_counts m e n : counts (S:=S) (elem m e n).
Proof. unfold elem. ct. Qed.
Lemma ssid_counts i : counts (S:=S) (check_ssid i).
Proof. unfold check_ssid. ct. Qed.
Lemma wmm_counts l i : counts (S:=S) (check_wmm l i).
Proof. unfold check_wmm. ct. Qed.
Lemma ext_capab_counts l i : counts (S:=S) (check_ext_capab l i).
Proof. unfold check_ext_capab. ct. Qed.
Lemma copy_rates_counts l r x : counts (S:=S) (copy_supp_rates l r x).
Proof. unfold copy_supp_rates. ct. Qed.
Lemma multi_ap_counts l i : counts (S:=S) (check_multi_ap l i).
Proof. unfold check_multi_ap. ct. Qed.
Lemma sa_query_counts a x i : counts (S:=S) (send_sa_query a x i).
Proof. unfold send_sa_query. ct. Qed.
Lemma sa_timeout_counts l : counts (S:=S) (ap_check_sa_query_timeout l).
Proof. unfold ap_check_sa_query_timeout. ct. Qed.
Lemma keep_counts l c r p : counts (S:=S) (keep_capabilities l c r p).
Proof. unfold keep_capabilities, ap_copy_sta_supp_op_classes. ct. Qed.
Lemma associated_counts l r : counts (S:=S) (add_associated_sta l r).
Proof. unfold add_associated_sta, stale_entry. ct. Qed.
Lemma comeback_counts : counts (S:=S) hostapd_eid_assoc_comeback_time.
Proof. unfold hostapd_eid_assoc_comeback_time. ct. Qed.
Lemma send_deauth_counts a r : counts (S:=S) (send_deauth a r).
Proof. unfold send_deauth. ct. Qed.
Lemma eapol_counts l : counts (S:=S) (ieee802_1x_free_station l).
Proof. unfold ieee802_1x_free_station. ct. Qed.
Lemma remove_counts l : counts (S:=S) (ap_sta_remove l).
Proof. unfold ap_sta_remove. ct. Qed.
Lemma restart_counts a : counts (S:=S) (restart_timer a).
Proof. unfold restart_timer. ct. Qed.
Lemma await_disassoc_counts l r : counts (S:=S) (await_disassoc l r).
Proof. unfold await_disassoc. ct. Qed.
Lemma await_deauth_counts l r : counts (S:=S) (await_deauth l r).
Proof. unfold await_deauth. ct. Qed.
Lemma stop_sa_counts l : counts (S:=S) (ap_sta_stop_sa_query l).
Proof. unfold ap_sta_stop_sa_query. ct. Qed.

End Functions.

#[export] Hint Resolve shared_key_counts auth_reply_counts radius_counts aid_counts elem_counts
  ssid_counts wmm_counts ext_capab_counts copy_rates_counts multi_ap_counts sa_query_counts
  sa_timeout_counts keep_counts associated_counts comeback_counts send_deauth_counts eapol_counts
  remove_counts restart_counts await_disassoc_counts await_deauth_counts stop_sa_counts : counts.

Section Functions2.
  Context `{Env} {S : Type} `{HasHapd S} `{StaSize}.

Lemma sa_timer_counts l : counts (S:=S) (ap_sa_query_timer l).
Proof. unfold ap_sa_query_timer, ieee802_11_send_sa_query_req. ct. Qed.
Lemma sa_resp_counts a i : counts (S:=S) (ieee802_11_send_sa_query_resp a i).
Proof. unfold ieee802_11_send_sa_query_resp. ct. Qed.
Lemma wpa_counts l r : counts (S:=S) (check_wpa l r).
Proof. pose proof sa_timer_counts. unfold check_wpa. ct. Qed.
Lemma and_then_counts (m k : M S Z) : counts m → counts k → counts (and_then m k).
Proof. intros Hm Hk. unfold and_then. ct; auto. Qed.
Lemma assoc_ies_counts l m p n r : counts (S:=S) (check_assoc_ies l m p n r).
Proof.
  pose proof wpa_counts. unfold check_assoc_ies, check_security. ct; repeat (apply and_then_counts; [ct|]); ct.
  apply and_then_counts; ct.
Qed.
Lemma assoc_resp_counts p a x r : counts (S:=S) (send_assoc_resp p a x r).
Proof. unfold send_assoc_resp. ct. Qed.
Lemma disassoc_cb_timeout_counts l : counts (S:=S) (ap_sta_disassoc_cb_timeout l).
Proof. unfold ap_sta_disassoc_cb_timeout. ct. Qed.
Lemma deauth_cb_timeout_counts l : counts (S:=S) (ap_sta_deauth_cb_timeout l).
Proof. unfold ap_sta_deauth_cb_timeout. ct. Qed.
Lemma timer_counts l : counts (S:=S) (ap_handle_timer l).
Proof.
  unfold ap_handle_timer, timer_idle, timer_polled, timer_send, timer_switch.
  ct; apply counts_keeps, sta_upd_all; intros v k; unfold idle_cause; by case_match.
Qed.
Lemma session_timer_counts l : counts (S:=S) (ap_handle_session_timer l).
Proof. unfold ap_handle_session_timer. ct. Qed.
Lemma sa_action_counts m a : counts (S:=S) (ieee802_11_sa_query_action m a).
Proof. pose proof sa_resp_counts. unfold ieee802_11_sa_query_action. ct. Qed.

End Functions2.

#[export] Hint Resolve sa_timer_counts sa_resp_counts wpa_counts assoc_ies_counts assoc_resp_counts
  disassoc_cb_timeout_counts deauth_cb_timeout_counts timer_counts session_timer_counts
  sa_action_counts : counts.

Section Functions3.
  Context `{Env} {S : Type} `{HasHapd S} `{StaSize}.

Lemma deauth_cb_counts l : counts (S:=S) (ap_sta_deauth_cb l).
Proof. unfold ap_sta_deauth_cb. ct. Qed.
Lemma disassoc_cb_counts l : counts (S:=S) (ap_sta_disassoc_cb l).
Proof. unfold ap_sta_disassoc_cb. ct. Qed.
Lemma disassociate_counts l r : counts (S:=S) (ap_sta_disassociate l r).
Proof. unfold ap_sta_disassociate. ct. Qed.
Lemma deauthenticate_counts l r : counts (S:=S) (ap_sta_deauthenticate l r).
Proof. pose proof disassociate_counts. unfold ap_sta_deauthenticate. ct. Qed.
Lemma disconnect_counts p a r : counts (S:=S) (ap_sta_disconnect p a r).
Proof. unfold ap_sta_disconnect. ct. Qed.

End Functions3.

#[export] Hint Resolve deauth_cb_counts disassoc_cb_counts disassociate_counts
  deauthenticate_counts disconnect_counts : counts.
