(* ===== verification/Mgmt.v ===== *)
(** * hostapd: what it does with the frames of stations

    The handlers of [src/hostapd-2.8/src/ap/ieee802_11.c] for the management frames
    that stations send, and for the driver's reports that a frame was sent.  Each
    of them first asks the controller interface ([lookupSenderSTA]) whether the
    station is in the state in which the frame is allowed, and tells it about
    authentications, associations and their ends: the status of the station
    changes, and a thread that reports the frame to the controller is started.

    As in [Station.v] the build is the one of the repository's [.config], with one
    BSS; other parts of hostapd (driver, access lists, RADIUS, WPA, EAPOL, radio
    measurements, WMM) are calls that are recorded as events.  A frame is an object
    of exactly its length. *)

From Stdlib Require Import ZArith Lia.
From S2P Require Import Prelude CMem CStruct CMonad OpenFlow Chain Agent NatTable.
From S2P Require Import ApData Station ApState ApAgent Elements StaMlme.

Module Mgmt.
Import Hapd Elements Mlme.

Definition WLAN_EID_CHALLENGE : Z := 16.
Definition WLAN_EID_NEIGHBOR_REPORT : Z := 52.
Definition WLAN_ACTION_PUBLIC : Z := 4.
Definition WLAN_ACTION_RADIO_MEASUREMENT : Z := 5.
Definition WLAN_ACTION_HT : Z := 7.
Definition WLAN_ACTION_PROTECTED_DUAL : Z := 9.
Definition WLAN_ACTION_WMM : Z := 17.
Definition WLAN_ACTION_VENDOR_SPECIFIC : Z := 127.
Definition WLAN_RRM_RADIO_MEASUREMENT_REQUEST : Z := 0.
Definition WLAN_EID_MEASURE_REQUEST : Z := 38.
Definition MEASURE_TYPE_BEACON : Z := 5.

(** Members of [struct ieee80211_mgmt]: the third address and the sequence
    control; [u.auth] and the capability and listen interval of a request. *)
Definition mgmt_bssid (mgmt : bytes) : option bytes := ldn mgmt 16 6.
Definition mgmt_seq_ctrl (mgmt : bytes) : option Z := le16_at mgmt 22.
Definition auth_variable : Z := IEEE80211_HDRLEN + 6.

Definition is_broadcast_ether_addr (a : bytes) : bool := foldr Z.land (-1) a =? 0xff.
Definition is_multicast_ether_addr (a : bytes) : option bool :=
  b ← ld8 a 0; Some (negb (Z.land b 1 =? 0)).

(** A retransmission of the frame that was handled last. *)
Definition repeated (fc seq_ctrl stype : Z) (s : sta_info) : bool :=
  negb (Z.land fc WLAN_FC_RETRY =? 0) && negb (last_seq_ctrl s =? WLAN_INVALID_MGMT_SEQ)
  && (last_seq_ctrl s =? seq_ctrl) && (last_subtype s =? stype).

(** [challenge]: the 128 bytes of the challenge element, [None] for a null pointer. *)
Definition challenge_in (mgmt : bytes) : option (option bytes) :=
  if zlen mgmt <? auth_variable + 2 + WLAN_AUTH_CHALLENGE_LEN then Some None else
  id ← ld8 mgmt auth_variable;
  len ← ld8 mgmt (auth_variable + 1);
  if (id =? WLAN_EID_CHALLENGE) && (len =? WLAN_AUTH_CHALLENGE_LEN)
  then Some <$> ldn mgmt (auth_variable + 2) WLAN_AUTH_CHALLENGE_LEN
  else Some None.

Definition robust_action_frame (category : Z) : bool :=
  negb (category =? WLAN_ACTION_PUBLIC) && negb (category =? WLAN_ACTION_HT).

Section Handlers.
  Context `{Platform} `{Env} `{StaSize}.
  Abbreviation AM := (M ap_state).

(** [info = lookupSenderSTA(a); if (!info || info->status != need) return;]. *)
Definition permitted (a : bytes) (need : STAStatus) : AM (option loc) :=
  info ← lookupSenderSTA a;
  match info with
  | None => mret None
  | Some i =>
      e ← node_read (A:=infoSTA) (Some i);
      mret (if decide (status e = need) then Some i else None)
  end.

(** The lines that start [process_sta_msg] in a thread: the copy of the frame,
    and the result of [pthread_create]. *)
Definition report_frame (mgmt : bytes) (sta : option loc) : AM Z :=
  handle ← calloc (3 * sizeof_ptr);
  _ ← opt! handle;
  copy ← calloc (zlen mgmt);
  _ ← opt! copy;
  rc ← ask env_thread;
  (if rc =? 0 then modify (λ s, set_threads (ap_threads s ++ [ProcessStaMsg mgmt sta]) s)
   else skip);;
  mret rc.

(** *** Authentication *)

(** What is decided about an authentication before the controller interface is
    asked: an answer, nothing yet, or the result of the access list. *)
Inductive verdict := Refuse (resp : Z) (ies : bytes) | Pending | Allow (res : Z).

Definition auth_checks (sa : bytes) (auth_alg auth_transaction : Z) : AM verdict :=
  h ← gets ap_hapd;
  if tkip_countermeasures h then mret (Refuse WLAN_STATUS_UNSPECIFIED_FAILURE []) else
  if negb ((negb (Z.land (auth_algs (conf h)) WPA_AUTH_ALG_OPEN =? 0)
              && (auth_alg =? WLAN_AUTH_OPEN))
           || (negb (Z.land (auth_algs (conf h)) WPA_AUTH_ALG_SHARED =? 0)
               && (auth_alg =? WLAN_AUTH_SHARED_KEY)))
  then mret (Refuse WLAN_STATUS_NOT_SUPPORTED_AUTH_ALG []) else
  if negb ((auth_transaction =? 1) || (auth_alg =? WLAN_AUTH_SAE)
           || ((auth_alg =? WLAN_AUTH_SHARED_KEY) && (auth_transaction =? 3)))
  then mret (Refuse WLAN_STATUS_UNKNOWN_AUTH_TRANSACTION []) else
  if memcmp6 sa (own_addr h) then mret (Refuse WLAN_STATUS_UNSPECIFIED_FAILURE []) else
  other ← (if no_auth_if_seen_on (bss (conf h))
           then hostapd_call "sta_track_seen_on" sa else mret 0);
  if negb (other =? 0) then
    bssid ← stored_bytes "other->own_addr";
    channel ← stored_bytes "op_class, channel, phytype";
    mret (Refuse WLAN_STATUS_REJECTED_WITH_SUGGESTED_BSS_TRANSITION
            ([WLAN_EID_NEIGHBOR_REPORT; 13] ++ fixed 6 bssid ++ [0; 0; 0; 0] ++ fixed 3 channel))
  else
    res ← hostapd_call "ieee802_11_allowed_address" sa;
    mret (if res =? HOSTAPD_ACL_REJECT then Refuse WLAN_STATUS_UNSPECIFIED_FAILURE []
          else if res =? HOSTAPD_ACL_PENDING then Pending else Allow res).

(** From the label [fail] on. *)
Definition auth_reply (sta : option loc) (sa bssid : bytes) (auth_alg auth_transaction resp : Z)
    (ies : bytes) : AM unit :=
  reply_res ← send_auth_reply sa bssid auth_alg ((auth_transaction + 1) mod 65536) resp ies;
  match sta with
  | None => skip
  | Some l =>
      s ← sta_get l;
      if added_unassoc s && (negb (resp =? WLAN_STATUS_SUCCESS)
                             || negb (reply_res =? WLAN_STATUS_SUCCESS)) then
        notify "hostapd_drv_sta_remove" (addr s);;
        sta_upd l (set_added_unassoc false)
      else skip
  end.

(** The [switch] over the algorithms: the status code and the elements of the
    reply. *)
Definition auth_switch (mgmt : bytes) (info l : loc) (auth_alg auth_transaction : Z)
    (challenge : option bytes) (iswep : bool) : AM (Z * bytes) :=
  s ← sta_get l;
  if auth_alg =? WLAN_AUTH_OPEN then
    sta_upd l (add_flag WLAN_STA_AUTH);;
    notify "WPA_AUTH" (addr s);;
    sta_upd l (set_auth_alg WLAN_AUTH_OPEN);;
    changeStatus (Some info) AUTHENTICATED;;
    rc ← report_frame mgmt None;
    if negb (rc =? 0) then exit (-1) else
    notify "mlme_authenticate_indication" (addr s);;
    mret (WLAN_STATUS_SUCCESS, [])
  else if auth_alg =? WLAN_AUTH_SHARED_KEY then
    resp ← auth_shared_key l auth_transaction challenge iswep;
    (if (resp =? 0) && (auth_transaction =? 3) then
       changeStatus (Some info) AUTHENTICATED;;
       _ ← report_frame mgmt None;
       skip
     else skip);;
    sta_upd l (set_auth_alg WLAN_AUTH_SHARED_KEY);;
    notify "mlme_authenticate_indication" (addr s);;
    s ← sta_get l;
    mret (resp, match Hapd.challenge (mlme s) with
                | Some c => if auth_transaction =? 1
                            then [WLAN_EID_CHALLENGE; WLAN_AUTH_CHALLENGE_LEN] ++ c else []
                | None => []
                end)
  else mret (WLAN_STATUS_SUCCESS, []).

(** The station's record is there: keys and driver, then the [switch]. *)
Definition auth_station (mgmt : bytes) (info l : loc) (res auth_alg auth_transaction fc seq_ctrl : Z)
    (challenge : option bytes) : AM (Z * bytes) :=
  sta_upd l (set_last_seq_ctrl seq_ctrl);;
  sta_upd l (set_last_subtype WLAN_FC_STYPE_AUTH);;
  r ← ieee802_11_set_radius_info l res;
  if negb (r =? 0) then mret (WLAN_STATUS_UNSPECIFIED_FAILURE, []) else
  ok ← renew_entry l;
  if negb ok then mret (WLAN_STATUS_AP_UNABLE_TO_HANDLE_NEW_STA, []) else
  auth_switch mgmt info l auth_alg auth_transaction challenge
    (negb (Z.land fc WLAN_FC_ISWEP =? 0)).

(** The station that sends the frame: known, new, or [None] to ignore the frame. *)
Definition auth_sender (sa : bytes) (fc seq_ctrl : Z) : AM (option (option loc)) :=
  sta ← ap_get_sta sa;
  match sta with
  | Some l =>
      sta_upd l (clear_flag WLAN_STA_PENDING_FILS_ERP);;
      sta_upd l (upd_mlme (set_ft_over_ds false));;
      s ← sta_get l;
      mret (if repeated fc seq_ctrl WLAN_FC_STYPE_AUTH s then None else Some (Some l))
  | None => l ← ap_sta_add sa; mret (Some l)
  end.

Definition handle_auth (mgmt : bytes) : AM unit :=
  if zlen mgmt <? auth_variable then skip else
  auth_alg ← opt! mgmt_auth_alg mgmt;
  auth_transaction ← opt! le16_at mgmt 26;
  fc ← opt! frame_control mgmt;
  seq_ctrl ← opt! mgmt_seq_ctrl mgmt;
  challenge ← opt! challenge_in mgmt;
  sa ← opt! mgmt_sa mgmt;
  bssid ← opt! mgmt_bssid mgmt;
  v ← auth_checks sa auth_alg auth_transaction;
  match v with
  | Pending => skip
  | Refuse resp ies => auth_reply None sa bssid auth_alg auth_transaction resp ies
  | Allow res =>
      info ← permitted sa SELECTED;
      match info with
      | None => skip
      | Some info =>
          sta ← auth_sender sa fc seq_ctrl;
          match sta with
          | None => skip
          | Some None =>
              auth_reply None sa bssid auth_alg auth_transaction
                WLAN_STATUS_AP_UNABLE_TO_HANDLE_NEW_STA []
          | Some (Some l) =>
              '(resp, ies) ← auth_station mgmt info l res auth_alg auth_transaction fc seq_ctrl
                               challenge;
              auth_reply (Some l) sa bssid auth_alg auth_transaction resp ies
          end
      end
  end.

(** *** Association *)

(** Who asks to be associated: the station at [l], nobody who is answered, or
    somebody who is refused at once. *)
Inductive entry := Enter (l : loc) | Ignore | Reject (sta : option loc) (resp : Z).

(** A station that has not authenticated: only 802.11ad networks go on. *)
Definition assoc_unauthenticated (sta : option loc) (sa : bytes) : AM entry :=
  h ← gets ap_hapd;
  if negb (mode_ad (iface h)) then
    send_deauth sa WLAN_REASON_CLASS2_FRAME_FROM_NONAUTH_STA;;
    mret Ignore
  else
    acl_res ← hostapd_call "ieee802_11_allowed_address" sa;
    if acl_res =? HOSTAPD_ACL_REJECT then mret (Reject sta WLAN_STATUS_UNSPECIFIED_FAILURE)
    else if acl_res =? HOSTAPD_ACL_PENDING then mret Ignore else
    sta ← ap_sta_add sa;
    match sta with
    | None => mret (Reject None WLAN_STATUS_AP_UNABLE_TO_HANDLE_NEW_STA)
    | Some l =>
        r ← ieee802_11_set_radius_info l acl_res;
        if negb (r =? 0) then mret (Reject (Some l) WLAN_STATUS_UNSPECIFIED_FAILURE) else
        sta_upd l (add_flag WLAN_STA_AUTH);;
        notify "WPA_AUTH" sa;;
        sta_upd l (set_auth_alg WLAN_AUTH_OPEN);;
        mret (Enter l)
    end.

Definition assoc_sender (sa : bytes) : AM entry :=
  sta ← ap_get_sta sa;
  match sta with
  | Some l =>
      s ← sta_get l;
      if has_flag WLAN_STA_AUTH s then mret (Enter l) else assoc_unauthenticated (Some l) sa
  | None => assoc_unauthenticated None sa
  end.

(** The checks, up to the association identifier: the status code. *)
Definition assoc_checks (mgmt : bytes) (l : loc) (pos capab_info listen_interval : Z)
    (reassoc : bool) : AM Z :=
  h ← gets ap_hapd;
  if tkip_countermeasures h then mret WLAN_STATUS_UNSPECIFIED_FAILURE else
  if max_listen_interval (bss (conf h)) <? listen_interval
  then mret WLAN_STATUS_ASSOC_DENIED_LISTEN_INT_TOO_LARGE else
  sta_upd l (set_capability capab_info);;
  resp ← check_assoc_ies l mgmt pos (zlen mgmt - pos) reassoc;
  if negb (resp =? WLAN_STATUS_SUCCESS) then mret resp else
  r ← hostapd_get_aid l;
  mret (if r <? 0 then WLAN_STATUS_AP_UNABLE_TO_HANDLE_NEW_STA else WLAN_STATUS_SUCCESS).

(** A station that has passed the checks. *)
Definition assoc_accept (mgmt : bytes) (info l : loc) (listen_interval : Z) : AM unit :=
  sta_upd l (set_listen_interval listen_interval);;
  update_protection l;;
  sta_upd l (add_flag WLAN_STA_ASSOC_REQ_OK);;
  changeStatus (Some info) ASSOCIATED;;
  _ ← report_frame mgmt (Some l);
  sta_upd l (set_timeout_next STA_NULLFUNC);;
  sta_upd l (set_pending_wds_enable false).

(** From the label [fail] on. *)
Definition assoc_reply (sta : option loc) (sa : bytes) (resp : Z) (reassoc : bool) : AM unit :=
  resp ← (match sta with
          | Some l =>
              if resp =? WLAN_STATUS_SUCCESS then
                r ← add_associated_sta l reassoc;
                mret (if r =? 0 then resp else WLAN_STATUS_AP_UNABLE_TO_HANDLE_NEW_STA)
              else mret resp
          | None => mret resp
          end);
  reply_res ← send_assoc_resp sta sa resp reassoc;
  match sta with
  | None => skip
  | Some l =>
      s ← sta_get l;
      if (negb (reply_res =? WLAN_STATUS_SUCCESS) && (resp =? WLAN_STATUS_SUCCESS))
         || added_unassoc s then
        notify "hostapd_drv_sta_remove" (addr s);;
        sta_upd l (set_added_unassoc false)
      else skip
  end.

(** The length of the fixed part of the request. *)
Definition assoc_fixed (reassoc : bool) : Z := if reassoc then 10 else 4.

(** [handle_assoc] from the station on. *)
Definition assoc_station (mgmt sa : bytes) (info l : loc) (reassoc : bool) : AM unit :=
  fc ← opt! frame_control mgmt;
  seq_ctrl ← opt! mgmt_seq_ctrl mgmt;
  capab_info ← opt! le16_at mgmt IEEE80211_HDRLEN;
  listen_interval ← opt! le16_at mgmt (IEEE80211_HDRLEN + 2);
  let stype := if reassoc then WLAN_FC_STYPE_REASSOC_REQ else Hapd.WLAN_FC_STYPE_ASSOC_REQ in
  s ← sta_get l;
  if repeated fc seq_ctrl stype s then skip else
  sta_upd l (set_last_seq_ctrl seq_ctrl);;
  sta_upd l (set_last_subtype stype);;
  resp ← assoc_checks mgmt l (IEEE80211_HDRLEN + assoc_fixed reassoc) capab_info listen_interval
           reassoc;
  (if resp =? WLAN_STATUS_SUCCESS then assoc_accept mgmt info l listen_interval else skip);;
  assoc_reply (Some l) sa resp reassoc.

Definition handle_assoc (mgmt : bytes) (reassoc : bool) : AM unit :=
  if zlen mgmt <? IEEE80211_HDRLEN + assoc_fixed reassoc then skip else
  sa ← opt! mgmt_sa mgmt;
  info ← permitted sa AUTHENTICATED;
  match info with
  | None => skip
  | Some info =>
      e ← assoc_sender sa;
      match e with
      | Ignore => skip
      | Reject sta resp => assoc_reply sta sa resp reassoc
      | Enter l => assoc_station mgmt sa info l reassoc
      end
  end.

(** *** The end of an association *)

(** The timer that tells the controller of a station that does not come back. *)
Definition disassoc_timer (l : loc) : AM unit :=
  s ← sta_get l;
  if (timeout_next s =? STA_NULLFUNC) || (timeout_next s =? STA_DISASSOC) then
    sta_upd l (set_timeout_next STA_DEAUTH);;
    restart_timer (addr s);;
    buf ← calloc ETH_ALEN;
    _ ← opt! buf;
    notify "eloop_register_timeout notify_controller_disassoc" (addr s)
  else skip.

(** [handle_disassoc] for the station at [l]. *)
Definition disassoc_station (mgmt : bytes) (info l : loc) : AM unit :=
  ap_sta_set_authorized l false;;
  sta_upd l (set_last_seq_ctrl WLAN_INVALID_MGMT_SEQ);;
  sta_upd l (clear_flag (Z.lor WLAN_STA_ASSOC WLAN_STA_ASSOC_REQ_OK));;
  s ← sta_get l;
  notify "WPA_DISASSOC" (addr s);;
  e ← node_read (A:=infoSTA) (Some info);
  (if decide (status e = ASSOCIATED) then
     changeStatus (Some info) AUTHENTICATED;;
     _ ← report_frame mgmt None;
     skip
   else skip);;
  sta_upd l (set_acct_terminate_cause RADIUS_ACCT_TERMINATE_CAUSE_USER_REQUEST);;
  notify "ieee802_1x_notify_port_enabled 0" (addr s);;
  notify "accounting_sta_stop" (addr s);;
  ieee802_1x_free_station l;;
  (if negb (Hapd.ipaddr s =? 0)
   then notify "hostapd_drv_br_delete_ip_neigh" (addr s) else skip);;
  notify "ap_sta_ip6addr_del" (addr s);;
  notify "hostapd_drv_sta_remove" (addr s);;
  sta_upd l (set_added_unassoc false);;
  disassoc_timer l;;
  notify "mlme_disassociate_indication" (addr s);;
  h ← gets ap_hapd;
  if mode_ad (iface h) then
    sta_upd l (clear_flag WLAN_STA_AUTH);;
    notify "WPA_DEAUTH" (addr s);;
    ap_free_sta l
  else skip.

Definition handle_disassoc (mgmt : bytes) : AM unit :=
  sa ← opt! mgmt_sa mgmt;
  info ← permitted sa ASSOCIATED;
  match info with
  | None => skip
  | Some info =>
      if zlen mgmt <? IEEE80211_HDRLEN + 2 then skip else
      sta ← ap_get_sta sa;
      match sta with
      | None => skip
      | Some l => disassoc_station mgmt info l
      end
  end.

(** [handle_deauth] for the station at [l]. *)
Definition deauth_station (mgmt : bytes) (info l : loc) : AM unit :=
  ap_sta_set_authorized l false;;
  sta_upd l (set_last_seq_ctrl WLAN_INVALID_MGMT_SEQ);;
  sta_upd l (clear_flag (Z.lor WLAN_STA_AUTH (Z.lor WLAN_STA_ASSOC WLAN_STA_ASSOC_REQ_OK)));;
  s ← sta_get l;
  notify "WPA_DEAUTH" (addr s);;
  changeStatus (Some info) NOT_AUTHENTICATED;;
  _ ← report_frame mgmt None;
  notify "mlme_deauthenticate_indication" (addr s);;
  sta_upd l (set_acct_terminate_cause RADIUS_ACCT_TERMINATE_CAUSE_USER_REQUEST);;
  notify "ieee802_1x_notify_port_enabled 0" (addr s);;
  ap_free_sta l.

Definition handle_deauth (mgmt : bytes) : AM unit :=
  sa ← opt! mgmt_sa mgmt;
  info ← permitted sa ASSOCIATED;
  match info with
  | None => skip
  | Some info =>
      if zlen mgmt <? IEEE80211_HDRLEN + 2 then skip else
      sta ← ap_get_sta sa;
      match sta with
      | None => skip
      | Some l => deauth_station mgmt info l
      end
  end.

(** *** Beacons and actions *)

(** The result of the parser is not used. *)
Definition handle_beacon (mgmt : bytes) : AM unit :=
  if zlen mgmt <? IEEE80211_HDRLEN + 12 then skip else
  _ ← opt! ieee802_11_parse_elems mgmt (IEEE80211_HDRLEN + 12) (zlen mgmt - (IEEE80211_HDRLEN + 12));
  sa ← opt! mgmt_sa mgmt;
  notify "ap_list_process_beacon" sa.

(** An action of an unknown category is returned to its sender, unless it was
    sent to many or is itself a returned one. *)
Definition return_action (mgmt sa : bytes) (category : Z) : AM Z :=
  da ← opt! mgmt_da mgmt;
  many ← opt! is_multicast_ether_addr da;
  from_many ← opt! is_multicast_ether_addr sa;
  if negb many && (Z.land category 0x80 =? 0) && negb from_many then
    resp ← calloc (zlen mgmt);
    match resp with
    | None => mret 0
    | Some _ =>
        h ← gets ap_hapd;
        resp ← opt! stn mgmt 4 sa;
        resp ← opt! stn resp 10 (own_addr h);
        resp ← opt! stn resp 16 (own_addr h);
        resp ← opt! stn resp IEEE80211_HDRLEN [Z.lor category 0x80];
        notify "hostapd_drv_send_mlme" resp;;
        mret 1
    end
  else mret 1.

(** The [switch] over the categories: the result, or [None] for an action that
    nobody has handled. *)
Definition action_switch (mgmt sa : bytes) (category : Z) : AM (option Z) :=
  h ← gets ap_hapd;
  if category =? WLAN_ACTION_WMM then
    notify "hostapd_wmm_action" sa;; mret (Some 1)
  else if category =? WLAN_ACTION_SA_QUERY then
    ieee802_11_sa_query_action mgmt sa;; mret (Some 1)
  else if (category =? WLAN_ACTION_PUBLIC) || (category =? WLAN_ACTION_PROTECTED_DUAL) then
    (if public_action_cb h then notify "public_action_cb" sa else skip);;
    (if public_action_cb2 h then notify "public_action_cb2" sa else skip);;
    mret (if public_action_cb h || public_action_cb2 h then Some 1 else None)
  else if category =? WLAN_ACTION_VENDOR_SPECIFIC then
    if vendor_action_cb h then
      r ← hostapd_call "vendor_action_cb" sa;
      mret (if r =? 0 then Some 1 else None)
    else mret None
  else if category =? WLAN_ACTION_RADIO_MEASUREMENT then
    notify "hostapd_handle_radio_measurement" sa;; mret (Some 1)
  else mret None.

(** [handle_action] for the station at [sta], which may be null for public
    actions. *)
Definition action_station (mgmt sa : bytes) (sta : option loc) (category : Z) : AM Z :=
  fc ← opt! frame_control mgmt;
  seq_ctrl ← opt! mgmt_seq_ctrl mgmt;
  s ← (match sta with Some l => s ← sta_get l; mret (Some s) | None => mret (@None sta_info) end);
  let flag f := match s with Some s => has_flag f s | None => false end in
  if negb (category =? WLAN_ACTION_PUBLIC) && negb (flag WLAN_STA_ASSOC) then mret 0 else
  if flag WLAN_STA_MFP && (Z.land fc WLAN_FC_ISWEP =? 0) && robust_action_frame category
  then mret 0 else
  if match s with Some s => repeated fc seq_ctrl WLAN_FC_STYPE_ACTION s | None => false end
  then mret 1 else
  (match sta with
   | Some l => sta_upd l (set_last_seq_ctrl seq_ctrl);;
               sta_upd l (set_last_subtype WLAN_FC_STYPE_ACTION)
   | None => skip
   end);;
  r ← action_switch mgmt sa category;
  match r with
  | Some r => mret r
  | None => return_action mgmt sa category
  end.

Definition handle_action (mgmt : bytes) : AM Z :=
  sa ← opt! mgmt_sa mgmt;
  info ← permitted sa ASSOCIATED;
  match info with
  | None => mret 0
  | Some _ =>
      if zlen mgmt <? IEEE80211_HDRLEN + 2 + 1 then mret 0 else
      category ← opt! ld8 mgmt IEEE80211_HDRLEN;
      sta ← ap_get_sta sa;
      action_station mgmt sa sta category
  end.

(** *** All management frames *)

Definition ieee802_11_mgmt (mgmt : bytes) : AM Z :=
  if zlen mgmt <? 24 then mret 0 else
  fc ← opt! frame_control mgmt;
  let stype := WLAN_FC_GET_STYPE fc in
  if stype =? WLAN_FC_STYPE_BEACON then handle_beacon mgmt;; mret 1 else
  h ← gets ap_hapd;
  bssid ← opt! mgmt_bssid mgmt;
  if negb (is_broadcast_ether_addr bssid) && negb (memcmp6 bssid (own_addr h)) then mret 0 else
  sa ← opt! mgmt_sa mgmt;
  if stype =? Mlme.WLAN_FC_STYPE_PROBE_REQ then
    _ ← report_frame mgmt None;
    notify "handle_probe_req" sa;;
    mret 1
  else
  da ← opt! mgmt_da mgmt;
  if (negb (is_broadcast_ether_addr da) || negb (stype =? WLAN_FC_STYPE_ACTION))
     && negb (memcmp6 da (own_addr h)) then mret 0 else
  (if negb (track_sta_max_num (iconf h) =? 0) then notify "sta_track_add" sa else skip);;
  if stype =? Mlme.WLAN_FC_STYPE_AUTH then handle_auth mgmt;; mret 1
  else if stype =? Hapd.WLAN_FC_STYPE_ASSOC_REQ then handle_assoc mgmt false;; mret 1
  else if stype =? Mlme.WLAN_FC_STYPE_REASSOC_REQ then handle_assoc mgmt true;; mret 1
  else if stype =? Mlme.WLAN_FC_STYPE_DISASSOC then handle_disassoc mgmt;; mret 1
  else if stype =? Mlme.WLAN_FC_STYPE_DEAUTH then handle_deauth mgmt;; mret 1
  else if stype =? WLAN_FC_STYPE_ACTION then handle_action mgmt
  else mret 0.

(** *** Reports that a frame was sent *)

(** The station a frame was sent to, if the interface has it in the state [need]. *)
Definition addressee (a : bytes) (need : STAStatus) : AM (option loc) :=
  info ← permitted a need;
  match info with
  | None => mret None
  | Some _ => ap_get_sta a
  end.

(** The members of [u.auth] are read before the length is checked. *)
Definition handle_auth_cb (mgmt : bytes) (ok : bool) : AM unit :=
  da ← opt! mgmt_da mgmt;
  sta ← addressee da AUTHENTICATED;
  match sta with
  | None => skip
  | Some l =>
      auth_alg ← opt! mgmt_auth_alg mgmt;
      auth_transaction ← opt! le16_at mgmt 26;
      status_code ← opt! le16_at mgmt 28;
      s ← sta_get l;
      if ok && (auth_variable <=? zlen mgmt) && (status_code =? WLAN_STATUS_SUCCESS)
         && (((auth_alg =? WLAN_AUTH_OPEN) && (auth_transaction =? 2))
             || ((auth_alg =? WLAN_AUTH_SHARED_KEY) && (auth_transaction =? 4))) then
        sta_upd l (add_flag WLAN_STA_AUTH);;
        if added_unassoc s then notify "hostapd_set_sta_flags" (addr s) else skip
      else if negb (status_code =? WLAN_STATUS_SUCCESS) && added_unassoc s then
        notify "hostapd_drv_sta_remove" (addr s);;
        sta_upd l (set_added_unassoc false)
      else skip
  end.

Definition handle_assoc_cb (mgmt : bytes) (reassoc ok : bool) : AM unit :=
  da ← opt! mgmt_da mgmt;
  sta ← addressee da ASSOCIATED;
  match sta with
  | None => skip
  | Some l =>
      s ← sta_get l;
      if zlen mgmt <? IEEE80211_HDRLEN + 6 then notify "hostapd_drv_sta_remove" (addr s) else
      status ← opt! le16_at mgmt (IEEE80211_HDRLEN + 2);
      if negb ok then
        sta_upd l (clear_flag WLAN_STA_ASSOC_REQ_OK);;
        if status =? WLAN_STATUS_SUCCESS
        then notify "hostapd_drv_sta_remove" (addr s) else skip
      else if negb (status =? WLAN_STATUS_SUCCESS) then skip
      else finish_assoc l (if reassoc then "mlme_reassociate_indication"
                           else "mlme_associate_indication")
  end.

Definition handle_deauth_cb (mgmt : bytes) : AM unit :=
  da ← opt! mgmt_da mgmt;
  many ← opt! is_multicast_ether_addr da;
  if many : bool then skip else
  sta ← addressee da NOT_AUTHENTICATED;
  match sta with
  | None => skip
  | Some l => ap_sta_deauth_cb l
  end.

Definition handle_disassoc_cb (mgmt : bytes) : AM unit :=
  da ← opt! mgmt_da mgmt;
  many ← opt! is_multicast_ether_addr da;
  if many : bool then skip else
  sta ← addressee da AUTHENTICATED;
  match sta with
  | None => skip
  | Some l => ap_sta_disassoc_cb l
  end.

(** The interface is asked about the sender, the table about the receiver. *)
Definition handle_action_cb (mgmt : bytes) : AM unit :=
  da ← opt! mgmt_da mgmt;
  many ← opt! is_multicast_ether_addr da;
  if many : bool then skip else
  sa ← opt! mgmt_sa mgmt;
  info ← permitted sa ASSOCIATED;
  match info with
  | None => skip
  | Some _ =>
      sta ← ap_get_sta da;
      match sta with
      | None => skip
      | Some _ =>
          if zlen mgmt <? 24 + 5 + 5 then skip else
          category ← opt! ld8 mgmt 24;
          action ← opt! ld8 mgmt 25;
          eid ← opt! ld8 mgmt 29;
          len ← opt! ld8 mgmt 30;
          type ← opt! ld8 mgmt 33;
          if (category =? WLAN_ACTION_RADIO_MEASUREMENT)
             && (action =? WLAN_RRM_RADIO_MEASUREMENT_REQUEST)
             && (eid =? WLAN_EID_MEASURE_REQUEST) && (3 <=? len) && (type =? MEASURE_TYPE_BEACON)
          then notify "hostapd_rrm_beacon_req_tx_status" da else skip
      end
  end.

Definition ieee802_11_mgmt_cb (mgmt : bytes) (stype : Z) (ok : bool) : AM unit :=
  if stype =? Mlme.WLAN_FC_STYPE_AUTH then handle_auth_cb mgmt ok
  else if stype =? WLAN_FC_STYPE_ASSOC_RESP then handle_assoc_cb mgmt false ok
  else if stype =? WLAN_FC_STYPE_REASSOC_RESP then handle_assoc_cb mgmt true ok
  else if stype =? WLAN_FC_STYPE_PROBE_RESP then skip
  else if stype =? Mlme.WLAN_FC_STYPE_DEAUTH then handle_deauth_cb mgmt
  else if stype =? Mlme.WLAN_FC_STYPE_DISASSOC then handle_disassoc_cb mgmt
  else if stype =? WLAN_FC_STYPE_ACTION then handle_action_cb mgmt
  else skip.

(** Reports about data frames. *)
Definition hostapd_tx_status (a : bytes) (ack : bool) : AM unit :=
  sta ← addressee a ASSOCIATED;
  match sta with
  | None => skip
  | Some l =>
      s ← sta_get l;
      if negb (has_flag WLAN_STA_ASSOC s) then skip else
      (if has_flag WLAN_STA_PENDING_POLL s && ack
       then sta_upd l (clear_flag WLAN_STA_PENDING_POLL) else skip);;
      notify "ieee802_1x_tx_status" (addr s)
  end.

Definition hostapd_eapol_tx_status (dst : bytes) : AM unit :=
  sta ← addressee dst ASSOCIATED;
  match sta with
  | None => skip
  | Some l =>
      s ← sta_get l;
      if negb (has_flag WLAN_STA_ASSOC s) then skip
      else notify "ieee802_1x_eapol_tx_status" (addr s)
  end.

Definition hostapd_client_poll_ok (a : bytes) : AM unit :=
  sta ← ap_get_sta a;
  match sta with
  | None => skip
  | Some l =>
      s ← sta_get l;
      if has_flag WLAN_STA_PENDING_POLL s
      then sta_upd l (clear_flag WLAN_STA_PENDING_POLL) else skip
  end.

(** *** Data of a station that the driver does not know *)

(** Frames with four addresses from a station that is, or is about to be,
    associated. *)
Definition enable_wds (l : loc) (wds : bool) : AM unit :=
  s ← sta_get l;
  h ← gets ap_hapd;
  if wds_sta (bss (conf h)) =? 0 then skip else
  if negb (has_flag WLAN_STA_ASSOC s) && has_flag WLAN_STA_ASSOC_REQ_OK s then
    sta_upd l (set_pending_wds_enable true)
  else if wds && negb (has_flag WLAN_STA_WDS s) then
    sta_upd l (add_flag WLAN_STA_WDS);;
    r ← hostapd_call "hostapd_set_wds_sta 1" (addr s);
    if r =? 0 then notify "hostapd_set_wds_encryption" (addr s) else skip
  else skip.

Definition ieee802_11_rx_from_unknown (src : bytes) (wds : bool) : AM unit :=
  info ← permitted src ASSOCIATED;
  match info with
  | None => skip
  | Some _ =>
      sta ← ap_get_sta src;
      s ← (match sta with
           | Some l => s ← sta_get l; mret (Some (l, s))
           | None => mret (@None (loc * sta_info))
           end);
      match s with
      | Some (l, s) =>
          if has_flag WLAN_STA_ASSOC s || (has_flag WLAN_STA_ASSOC_REQ_OK s && wds)
          then enable_wds l wds
          else
            many ← opt! is_multicast_ether_addr src;
            if (many : bool) || has_flag WLAN_STA_ASSOC_REQ_OK s then skip
            else if has_flag WLAN_STA_AUTH s
            then notify "hostapd_drv_sta_disassoc" src else notify "hostapd_drv_sta_deauth" src
      | None =>
          many ← opt! is_multicast_ether_addr src;
          if many : bool then skip else notify "hostapd_drv_sta_deauth" src
      end
  end.

End Handlers.
End Mgmt.
