(* ===== verification/Eapol.v ===== *)
(** * hostapd: EAPOL frames of stations

    [ieee802_1x_receive] of [src/hostapd-2.8/src/ap/ieee802_1x.c] and the functions
    of that file it calls.  Like the handlers of [Mgmt.v] it first asks the
    controller interface whether the station is associated.  The WPA and EAPOL state
    machines are calls that are recorded as events; the counters that are members of
    the EAPOL state machine are not modelled.  The build has no WPS. *)

From Stdlib Require Import ZArith Lia.
From S2P Require Import Prelude CMem CStruct CMonad OpenFlow Chain Agent NatTable.
From S2P Require Import ApData Station ApState ApAgent Elements StaMlme Mgmt.

Module Eapol.
Import Hapd Mlme Mgmt.

Definition WLAN_STA_WPS : Z := BIT 12.
Definition WLAN_STA_MAYBE_WPS : Z := BIT 13.
Definition WPA_DRIVER_FLAGS_WIRED : Z := 0x00000010.

Definition IEEE802_1X_TYPE_EAP_PACKET : Z := 0.
Definition IEEE802_1X_TYPE_EAPOL_START : Z := 1.
Definition IEEE802_1X_TYPE_EAPOL_LOGOFF : Z := 2.
Definition IEEE802_1X_TYPE_EAPOL_KEY : Z := 3.
Definition EAPOL_KEY_TYPE_RSN : Z := 2.
Definition EAPOL_KEY_TYPE_WPA : Z := 254.
Definition EAP_CODE_RESPONSE : Z := 2.
Definition EAP_CODE_INITIATE : Z := 5.

Definition sizeof_ieee802_1x_hdr : Z := 4.
Definition sizeof_ieee802_1x_eapol_key : Z := 44.
Definition sizeof_eap_hdr : Z := 4.

Definition WPA_KEY_MGMT_PSK : Z := BIT 1.
Definition WPA_KEY_MGMT_FT_PSK : Z := BIT 6.
Definition WPA_KEY_MGMT_PSK_SHA256 : Z := BIT 8.
Definition WPA_KEY_MGMT_SAE : Z := BIT 10.
Definition WPA_KEY_MGMT_FT_SAE : Z := BIT 11.
Definition WPA_KEY_MGMT_OWE : Z := BIT 22.
Definition WPA_KEY_MGMT_DPP : Z := BIT 23.

Definition wpa_key_mgmt_wpa_psk (akm : Z) : bool :=
  negb (Z.land akm (Z.lor WPA_KEY_MGMT_PSK (Z.lor WPA_KEY_MGMT_FT_PSK
    (Z.lor WPA_KEY_MGMT_PSK_SHA256 (Z.lor WPA_KEY_MGMT_SAE WPA_KEY_MGMT_FT_SAE)))) =? 0).

Section Handlers.
  Context `{Platform} `{Env} `{StaSize}.
  Abbreviation AM := (M ap_state).

(** The two objects: a pointer and a time of two words; the header of a buffer
    of four words with the frame. *)
Definition ieee802_1x_save_eapol (l : loc) (buf : bytes) : AM unit :=
  s ← sta_get l;
  pending ← (if pending_eapol_rx s then mret true
             else p ← calloc (3 * sizeof_ptr); mret (bool_decide (is_Some p)));
  if negb pending then skip else
  copy ← calloc (4 * sizeof_ptr + zlen buf);
  sta_upd l (set_pending_eapol_rx (bool_decide (is_Some copy)));;
  if bool_decide (is_Some copy) then notify "os_get_reltime" (addr s) else skip.

(** Is a state machine there? *)
Definition ieee802_1x_alloc_eapol_sm (l : loc) : AM bool :=
  s ← sta_get l;
  (if wpa_sm (mlme s) then notify "wpa_auth_sta_get_pmksa" (addr s) else skip);;
  r ← hostapd_call "eapol_auth_alloc" (addr s);
  mret (negb (r =? 0)).

(** [handle_eap] on the [len] bytes at [off] of the frame. *)
Definition handle_eap (l : loc) (buf : bytes) (off len : Z) : AM unit :=
  if len <? sizeof_eap_hdr then skip else
  eap_len ← opt! be_at 2 buf (off + 2);
  if (eap_len <? sizeof_eap_hdr) || (len <? eap_len) then skip else
  code ← opt! ld8 buf off;
  s ← sta_get l;
  if code =? EAP_CODE_RESPONSE then notify "handle_eap_response" (addr s)
  else if code =? EAP_CODE_INITIATE then notify "handle_eap_initiate" (addr s)
  else skip.

(** The [switch] over the type of the frame. *)
Definition eapol_switch (l : loc) (buf : bytes) (type datalen : Z) : AM unit :=
  s ← sta_get l;
  if type =? IEEE802_1X_TYPE_EAP_PACKET then handle_eap l buf sizeof_ieee802_1x_hdr datalen
  else if type =? IEEE802_1X_TYPE_EAPOL_START then
    pmksa ← hostapd_call "wpa_auth_sta_get_pmksa" (addr s);
    (if pmksa =? 0 then skip else notify "wpa_auth_sta_clear_pmksa" (addr s));;
    notify "eap_server_clear_identity" (addr s);;
    notify "WPA_REAUTH_EAPOL" (addr s)
  else if type =? IEEE802_1X_TYPE_EAPOL_LOGOFF then
    sta_upd l (set_acct_terminate_cause RADIUS_ACCT_TERMINATE_CAUSE_USER_REQUEST);;
    notify "accounting_sta_stop" (addr s);;
    notify "eap_server_clear_identity" (addr s)
  else skip.

(** A frame that is not for the WPA state machine. *)
Definition eapol_frame (l : loc) (buf : bytes) (type datalen : Z) : AM unit :=
  h ← gets ap_hapd;
  s ← sta_get l;
  if (ieee802_1x (conf h) =? 0) && (osen (conf h) =? 0)
     && negb (has_flag (Z.lor WLAN_STA_WPS WLAN_STA_MAYBE_WPS) s) then skip else
  key_mgmt ← hostapd_call "wpa_auth_sta_key_mgmt" (addr s);
  if negb (key_mgmt =? -1)
     && (wpa_key_mgmt_wpa_psk key_mgmt || (key_mgmt =? WPA_KEY_MGMT_OWE)
         || (key_mgmt =? WPA_KEY_MGMT_DPP)) then skip else
  sm ← (if eapol_sm s then mret true
        else sm ← ieee802_1x_alloc_eapol_sm l; sta_upd l (set_eapol_sm sm);; mret sm);
  if negb sm then skip else
  eapol_switch l buf type datalen;;
  notify "eapol_auth_step" (addr s).

(** [ieee802_1x_receive] from the length of the frame on. *)
Definition eapol_station (l : loc) (buf : bytes) : AM unit :=
  if zlen buf <? sizeof_ieee802_1x_hdr then skip else
  type ← opt! ld8 buf 1;
  datalen ← opt! be_at 2 buf 2;
  if zlen buf - sizeof_ieee802_1x_hdr <? datalen then skip else
  key_type ← opt! (if (sizeof_ieee802_1x_eapol_key <=? datalen)
                      && (type =? IEEE802_1X_TYPE_EAPOL_KEY)
                   then ld8 buf sizeof_ieee802_1x_hdr else Some 0);
  if (key_type =? EAPOL_KEY_TYPE_WPA) || (key_type =? EAPOL_KEY_TYPE_RSN)
  then s ← sta_get l; notify "wpa_receive" (addr s)
  else eapol_frame l buf type datalen.

Definition ieee802_1x_receive (sa buf : bytes) : AM unit :=
  info ← permitted sa ASSOCIATED;
  match info with
  | None => skip
  | Some _ =>
      h ← gets ap_hapd;
      if (ieee802_1x (conf h) =? 0) && (wpa (conf h) =? 0) && (osen (conf h) =? 0)
      then skip else
      sta ← ap_get_sta sa;
      match sta with
      | None => skip
      | Some l =>
          s ← sta_get l;
          if negb (has_flag (Z.lor WLAN_STA_ASSOC WLAN_STA_PREAUTH) s)
             && (Z.land (drv_flags (iface h)) WPA_DRIVER_FLAGS_WIRED =? 0) then
            if has_flag WLAN_STA_AUTH s then ieee802_1x_save_eapol l buf else skip
          else eapol_station l buf
      end
  end.

End Handlers.
End Eapol.
