(* ===== verification/MgmtCount.v ===== *)
(** * hostapd's frame handlers: the counters

    The handlers of [Mgmt.v] and [Eapol.v] keep the counters of the interface in step with the
    marks of the stations. *)

From Stdlib Require Import ZArith Lia.
From S2P Require Import Prelude CMem CStruct CMonad Chain CSteps Agent NatTable.
From S2P Require Import ApData Station StationProps ApState ApAgent Elements StaMlme MlmeCount Mgmt Eapol.
Import Hapd Elements Mlme Mgmt Eapol.

Section Interface.
  Context `{Platform} `{Env} `{StaSize}.

(** What does not concern hostapd's data. *)
Definition aside {A} (m : M ap_state A) : Prop :=
  ∀ s, match m s with Ret _ s' => ap_hapd s' = ap_hapd s | _ => True end.

Lemma counts_aside {A} (m : M ap_state A) : aside m → counts m.
Proof.
  intros Hm s Hs. specialize (Hm s). destruct (m s); try done. unfold all_counted in *.
  change (counted (ap_hapd s0)). by rewrite Hm.
Qed.

Lemma aside_bind {A B} (m : M ap_state A) (k : A → M ap_state B) :
  aside m → (∀ a, aside (k a)) → aside (m ≫= k).
Proof.
  intros Hm Hk s. specialize (Hm s). unfold mbind, M_bind. destruct (m s) as [a s'| | |]; try done.
  specialize (Hk a s'). destruct (k a s'); try done. congruence.
Qed.

Lemma aside_opt {A} (o : option A) : aside (opt! o).
Proof. intros s. by destruct o. Qed.
Lemma aside_lock : aside (lock (A:=infoSTA)).
Proof. intros s. unfold lock. by destruct (get_mutex s). Qed.
Lemma aside_search stop p : aside (tab_search (get_tab (A:=infoSTA)) stop p).
Proof. intros s. unfold tab_search. 
  by destruct (Chain.walk (size (tab_heap (get_tab s))) (tab_heap (get_tab s)) stop p). Qed.
Lemma aside_head i : aside (tab_head (get_tab (A:=infoSTA)) i).
Proof. intros s. unfold tab_head. apply aside_opt. Qed.
Lemma aside_push i e : aside (tab_push (get_tab (A:=infoSTA)) set_tab i e).
Proof. intros s. unfold tab_push. by destruct (push (get_tab s) i e) as [[]|]. Qed.
Lemma aside_read p : aside (node_read (A:=infoSTA) p).
Proof. apply aside_bind; [apply aside_opt|]. intros l s. unfold tab_deref. apply aside_opt. Qed.
Lemma aside_write p f : aside (node_write (A:=infoSTA) p f).
Proof. intros s. unfold node_write, tab_assign. by destruct (l ← p; assign (get_tab s) l f). Qed.

Lemma lookup_aside a : aside (lookupSenderSTA a).
Proof.
  repeat first [apply aside_lock|apply aside_opt|apply aside_head|apply aside_search|done
               |apply aside_bind; [|intros ?]].
Qed.
Lemma status_aside i v : aside (changeStatus i v).
Proof.
  repeat first [apply aside_lock|apply aside_write|done|apply aside_bind; [|intros ?]].
Qed.

Lemma lookup_counts a : counts (lookupSenderSTA a).
Proof. apply counts_aside, lookup_aside. Qed.
Lemma status_counts i v : counts (changeStatus i v).
Proof. apply counts_aside, status_aside. Qed.
Lemma read_counts p : counts (node_read (A:=infoSTA) p).
Proof. apply counts_aside, aside_read. Qed.
Lemma threads_counts f : counts (modify (λ s, set_threads (f s) s)).
Proof. by apply counts_aside. Qed.

End Interface.

#[export] Hint Resolve lookup_counts status_counts read_counts threads_counts : counts.

Section Handlers.
  Context `{Platform} `{Env} `{StaSize}.

Lemma permitted_counts a n : counts (permitted a n).
Proof. unfold permitted. ct. Qed.
Lemma report_counts m p : counts (report_frame m p).
Proof. unfold report_frame. ct. Qed.

End Handlers.

#[export] Hint Resolve permitted_counts report_counts : counts.

Section Frames.
  Context `{Platform} `{Env} `{StaSize}.

Lemma addressee_counts a n : counts (addressee a n).
Proof. unfold addressee. ct. Qed.
Lemma beacon_counts m : counts (handle_beacon m).
Proof. unfold handle_beacon. ct. Qed.
Lemma auth_counts m : counts (handle_auth m).
Proof.
  unfold handle_auth, auth_checks, auth_sender, auth_station, auth_switch, auth_reply. ct.
Qed.
Lemma assoc_counts m r : counts (handle_assoc m r).
Proof.
  unfold handle_assoc, assoc_sender, assoc_unauthenticated, assoc_station, assoc_checks, assoc_accept,
    assoc_reply. ct.
Qed.
Lemma disassoc_counts m : counts (handle_disassoc m).
Proof. unfold handle_disassoc, disassoc_station, disassoc_timer. ct. Qed.
Lemma deauth_counts m : counts (handle_deauth m).
Proof. unfold handle_deauth, deauth_station. ct. Qed.
Lemma action_counts m : counts (handle_action m).
Proof. unfold handle_action, action_station, action_switch, return_action. ct. Qed.

End Frames.

#[export] Hint Resolve addressee_counts beacon_counts auth_counts assoc_counts disassoc_counts
  deauth_counts action_counts : counts.

Section All.
  Context `{Platform} `{Env} `{StaSize}.

Lemma mgmt_counts m : counts (ieee802_11_mgmt m).
Proof. unfold ieee802_11_mgmt. ct. Qed.
Lemma mgmt_cb_counts m t ok : counts (ieee802_11_mgmt_cb m t ok).
Proof.
  unfold ieee802_11_mgmt_cb, handle_auth_cb, handle_assoc_cb, handle_deauth_cb, handle_disassoc_cb,
    handle_action_cb. ct.
Qed.
Lemma tx_counts a x : counts (hostapd_tx_status a x).
Proof. unfold hostapd_tx_status. ct. Qed.
Lemma eapol_tx_counts a : counts (hostapd_eapol_tx_status a).
Proof. unfold hostapd_eapol_tx_status. ct. Qed.
Lemma poll_counts a : counts (hostapd_client_poll_ok a).
Proof. unfold hostapd_client_poll_ok. ct. Qed.
Lemma unknown_counts a w : counts (ieee802_11_rx_from_unknown a w).
Proof. unfold ieee802_11_rx_from_unknown, enable_wds. ct. Qed.
Lemma eapol_rx_counts a b : counts (ieee802_1x_receive a b).
Proof.
  unfold ieee802_1x_receive, eapol_station, eapol_frame, eapol_switch, handle_eap,
    ieee802_1x_alloc_eapol_sm, ieee802_1x_save_eapol. ct.
Qed.

Lemma add_counts a : counts (addSTA a).
Proof.
  unfold addSTA. ct; (apply counts_aside; first [apply aside_lock|apply aside_push|done]).
Qed.
Lemma select_counts oh : counts (wlan_add_sta oh).
Proof. pose proof add_counts. unfold wlan_add_sta. ct. Qed.
Lemma remove_sta_counts oh : counts (wlan_remove_sta oh).
Proof. unfold wlan_remove_sta. ct. apply remove_STA_counted. Qed.
Lemma notify_counts a : counts (notify_controller_disassoc a).
Proof. unfold notify_controller_disassoc, pthread_create. ct. Qed.

End All.

#[export] Hint Resolve mgmt_counts mgmt_cb_counts tx_counts eapol_tx_counts poll_counts unknown_counts eapol_rx_counts
  select_counts remove_sta_counts notify_counts : counts.
