(* ===== verification/MgmtProps.v ===== *)
(** * hostapd's frame handlers: the two lists of stations

    How the handlers of [Mgmt.v] treat hostapd's own list of stations and the list
    of the controller interface: authentication, association, disassociation and
    deauthentication, whatever the rest of the system answers, and what they lead to
    when nothing goes wrong. *)

From Stdlib Require Import ZArith Lia.
From S2P Require Import Prelude CMem CStruct CMonad OpenFlow Chain CSteps Agent NatTable.
From S2P Require Import ApData Station StationProps StationMap ApState ApAgent ApStaProps.
From S2P Require Import Elements ElemProps StaMlme MlmeProps MlmeCount Mgmt.
Import Hapd Elements Mlme Mgmt.

Section Runs.
  Context `{Platform} `{Env} `{StaSize}.
  Abbreviation AM := (M ap_state).

(** ** Executions

    [f] returns, unless a thread could not be started (the code exits) or an
    allocation that the code does not check failed (it crashes). *)
Definition runs {A} (P : ap_state → Prop) (f : AM A) (Q : A → ap_state → Prop) : Prop :=
  ∀ s, P s → match f s with
             | Ret a s' => Q a s'
             | Exit c _ => c = -1 ∧ ∃ t, env_thread t ≠ 0
             | Crash => ∃ t n, env_calloc t n = false
             | Hang => False
             end.

Lemma runs_ret {A} P (a : A) (Q : A → ap_state → Prop) : (∀ s, P s → Q a s) → runs P (mret a) Q.
Proof. intros HQ s Hs. by apply HQ. Qed.

Lemma runs_bind {A B} P (m : AM A) Q (k : A → AM B) R :
  runs P m Q → (∀ a, runs (Q a) (k a) R) → runs P (m ≫= k) R.
Proof.
  intros Hm Hk s Hs. specialize (Hm s Hs). unfold mbind, M_bind. destruct (m s); try done. by apply Hk.
Qed.

Lemma runs_weaken {A} (P P' : ap_state → Prop) (m : AM A) (Q Q' : A → ap_state → Prop) :
  runs P m Q → (∀ s, P' s → P s) → (∀ a s, Q a s → Q' a s) → runs P' m Q'.
Proof.
  intros Hm HP HQ s Hs. specialize (Hm s (HP s Hs)). destruct (m s); auto.
Qed.

Lemma runs_pure {A} (P : ap_state → Prop) (X : Prop) (m : AM A) Q :
  (X → runs P m Q) → runs (λ s, X ∧ P s) m Q.
Proof. intros Hm s [HX Hs]. by apply Hm. Qed.

Lemma runs_ex {A X} (P : X → ap_state → Prop) (m : AM A) Q :
  (∀ x, runs (P x) m Q) → runs (λ s, ∃ x, P x s) m Q.
Proof. intros Hm s [x Hx]. by apply (Hm x). Qed.

Lemma runs_opt {A B} P (o : option A) a (k : A → AM B) Q :
  o = Some a → runs P (k a) Q → runs P (opt! o ≫= k) Q.
Proof. by intros ->. Qed.

(** ** The state

    The interface's list has the buckets [bs] and is the map [mi]; the threads that
    wait to run are [th]; hostapd's own table has the property [P].  The rest is
    that of [x]. *)
Record ap_at (x : ap_state) (bs : list (list (loc * infoSTA))) (mi : gmap bytes infoSTA)
    (th : list thread) (P : core → Prop) (s : ap_state) : Prop := {
  aa_rep : sta_rep (ap_stas s) bs mi;
  aa_mutex : ap_mutex s = false;
  aa_num : ap_num_sta s = Z.of_nat (size mi);
  aa_threads : ap_threads s = th;
  aa_core : P (core_of (ap_hapd s));
  aa_heads : zlen (tab_heads (ap_stas s)) = zlen (tab_heads (ap_stas x));
  aa_rest : ∃ t n h w, s = set_threads th (set_ap_num_sta n (set_tab (A:=infoSTA) t
    (set_hapd h (set_sys w x))));
  aa_addr : map_Forall (λ k e, address e = k) mi;
}.

(** A function of hostapd's. *)
Lemma runs_total {A} x bs mi th P (f : AM A) Q :
  total P f Q → runs (ap_at x bs mi th P) f (λ a, ap_at x bs mi th (Q a)).
Proof.
  intros Hf s [Hr Hm Hn Ht Hc Hh Hx Ha]. destruct (Hf s Hc) as (a & s' & -> & Hc' & h & w & ->).
  constructor; try done. destruct Hx as (t & n & h' & w' & ->). exists t, n, h, w. by destruct x.
Qed.

Lemma runs_call {A B} x bs mi th P (f : AM A) Q (k : A → AM B) R :
  total P f Q → (∀ a, runs (ap_at x bs mi th (Q a)) (k a) R) → runs (ap_at x bs mi th P) (f ≫= k) R.
Proof. intros Hf Hk. eapply runs_bind; [by apply runs_total|done]. Qed.

Lemma runs_core {A} x bs mi th (X : Prop) P (m : AM A) Q :
  (X → runs (ap_at x bs mi th P) m Q) → runs (ap_at x bs mi th (λ c, X ∧ P c)) m Q.
Proof. intros Hm s [? ? ? ? [HX Hc] ? ? ?]. by apply Hm. Qed.

Lemma runs_core_ex {A X} x bs mi th (P : X → core → Prop) (m : AM A) Q :
  (∀ y, runs (ap_at x bs mi th (P y)) m Q) → runs (ap_at x bs mi th (λ c, ∃ y, P y c)) m Q.
Proof. intros Hm s [? ? ? ? [y Hc] ? ? ?]. by apply (Hm y). Qed.

Lemma ap_at_weaken x bs mi th (P P' : core → Prop) s :
  ap_at x bs mi th P s → (∀ c, P c → P' c) → ap_at x bs mi th P' s.
Proof. intros [] HP. constructor; auto. Qed.

(** Memory that is used without a check. *)
Lemma runs_alloc {B} x bs mi th P n (k : AM B) Q :
  runs (ap_at x bs mi th P) k Q → runs (ap_at x bs mi th P) (b ← calloc n; _ ← opt! b; k) Q.
Proof.
  intros Hk. eapply runs_call; [apply total_calloc|]. intros r. apply runs_core. intros [t ->].
  destruct (env_calloc t n) eqn:E; [exact Hk|]. intros s _. by exists t, n.
Qed.

(** *** The controller interface *)

Lemma addr_ok_at x bs mi th P s a : ap_at x bs mi th P s → addr_ok x a → addr_ok s a.
Proof. intros Hs [L (i & Hi & Hb)]. constructor; [done|]. exists i. by rewrite (aa_heads _ _ _ _ _ _ Hs). Qed.

(** The station of the interface at [i] is [e], which is in the state [need]. *)
Definition listed (bs : list (list (loc * infoSTA))) (mi : gmap bytes infoSTA) (a : bytes)
    (need : STAStatus) (i : loc) (e : infoSTA) : Prop :=
  mi !! a = Some e ∧ status e = need ∧ sta_key e = a ∧ (i, e) ∈ concat bs.

Lemma runs_lookup x bs mi th P a :
  addr_ok x a →
  runs (ap_at x bs mi th P) (lookupSenderSTA a) (λ p s,
    match p with
    | Some i => ∃ e, listed bs mi a (status e) i e
    | None => mi !! a = None
    end ∧ ap_at x bs mi th P s).
Proof.
  intros Ha s Hs. pose proof (addr_ok_at _ _ _ _ _ _ _ Hs Ha) as Ha'.
  rewrite <- (bind_mret (lookupSenderSTA a)).
  edestruct (lookup_rep mret s mi bs a) as (p & E & Hp);
    [exact (aa_rep _ _ _ _ _ _ Hs)|exact (aa_mutex _ _ _ _ _ _ Hs)|exact Ha'|].
  rewrite E. clear E. destruct (mi !! a) as [e|] eqn:Em.
  - destruct Hp as (i & -> & Hk & Hin). split; [|done]. by exists e.
  - by subst p.
Qed.

Lemma runs_read x bs mi th P a need i e :
  listed bs mi a need i e →
  runs (ap_at x bs mi th P) (node_read (A:=infoSTA) (Some i)) (λ r s, r = e ∧ ap_at x bs mi th P s).
Proof.
  intros (_ & _ & _ & Hin) s Hs. rewrite <- (bind_mret (node_read (Some i))).
  by rewrite (node_read_ok (A:=infoSTA) _ s i e)
    by (eapply rep_deref; [apply (aa_rep _ _ _ _ _ _ Hs)|exact Hin]).
Qed.

Lemma runs_permitted x bs mi th P a need :
  addr_ok x a →
  runs (ap_at x bs mi th P) (permitted a need) (λ p s,
    match p with
    | Some i => ∃ e, listed bs mi a need i e
    | None => ∀ e, mi !! a = Some e → status e ≠ need
    end ∧ ap_at x bs mi th P s).
Proof.
  intros Ha. unfold permitted. eapply runs_bind; [by apply runs_lookup|]. intros [i|]; apply runs_pure.
  - intros [e Hl]. eapply runs_bind; [by eapply runs_read|]. intros e'. apply runs_pure. intros ->.
    apply runs_ret. intros s Hs. split; [|done]. destruct Hl as (Hm & _ & Hk & Hin).
    case_decide as Ed; [by exists e|]. intros e' He'. congruence.
  - intros Hm. apply runs_ret. intros s Hs. split; [|done]. intros e He. congruence.
Qed.

(** A station that is not in the list yet. *)
Lemma runs_push x bs mi th P a :
  addr_ok x a → mi !! a = None →
  runs (ap_at x bs mi th P)
    (b ← opt! ldn a 0 ETH_ALEN;
     lock (A:=infoSTA);;
     modify (λ s, set_ap_num_sta (ap_num_sta s + 1) s);;
     i ← opt! HASH_FUNC b;
     l ← tab_push (get_tab (A:=infoSTA)) set_tab i (new_infoSTA b);
     unlock (A:=infoSTA);;
     mret (Some l))
    (λ p s, ∃ i bs' e, p = Some i ∧ listed bs' (<[a := e]> mi) a (status e) i e ∧
       ap_at x bs' (<[a := e]> mi) th P s).
Proof.
  intros Ha Hm s Hs. pose proof (addr_ok_at _ _ _ _ _ _ _ Hs Ha) as [La (i & Hi & Hb)].
  destruct Hs as [Hr Hmx Hn Ht Hc Hh Hx Hadr].
  rewrite (opt_step _ a).
  2: { rewrite ldn_ok by (unfold ETH_ALEN, zlen; lia). f_equal. simpl. by apply take6. }
  assert (Ek : sta_key (new_infoSTA a) = a) by (unfold sta_key; simpl; by apply take6).
  assert (Eh : sta_bucket (sta_key (new_infoSTA a)) = i)
    by (rewrite Ek; unfold sta_bucket; by rewrite Hi).
  destruct (map_push sta_key id sta_bucket (ap_stas s) bs mi (new_infoSTA a) Hr)
    as (l & t & bs' & Ep & Hlen & Hin & R'); [by rewrite Eh|by rewrite Ek|].
  rewrite Eh in Ep. rewrite Ek in R'.
  cbind (lock_free (A:=infoSTA) s Hmx). rewrite modify_step, (opt_step _ _ _ _ Hi).
  unfold tab_push. erewrite bind_Ret; [|cbn; rewrite Ep; reflexivity].
  unfold unlock. rewrite modify_step. cbn. exists l, bs', (new_infoSTA a).
  split_and!; [done|split_and!; [by rewrite lookup_insert_eq|done..]|].
  constructor; cbn; try done.
  - rewrite map_size_insert_None by done. lia.
  - by rewrite Hlen.
  - destruct Hx as (t' & n & h & w & ->). exists t, (n + 1), h, w. cbn in Hmx. unfold set_threads, set_ap_num_sta. cbn. by rewrite Hmx.
  - by apply map_Forall_insert_2.
Qed.

Lemma runs_addSTA x bs mi th P a st :
  addr_ok x a → (∀ c, P c → c_set c = st) → mi !! a = None →
  runs (ap_at x bs mi th P) (addSTA a) (λ p s,
    match p with
    | Some i => ∃ bs' e, listed bs' (<[a := e]> mi) a (status e) i e ∧
        Z.of_nat (size (<[a := e]> mi)) ≤ st_max st ∧ ap_at x bs' (<[a := e]> mi) th P s
    | None => (st_max st ≤ Z.of_nat (size mi) ∨ ∃ t n, env_calloc t n = false) ∧ ap_at x bs mi th P s
    end).
Proof.
  intros Ha HP Hm. unfold addSTA. eapply runs_bind; [by apply runs_lookup|]. intros [i|]; apply runs_pure.
  { intros [e (He & _)]. congruence. }
  intros _ s Hs. pose proof Hs as [_ _ Hn _ Hc _ _ _]. rewrite !gets_step.
  change (max_num_sta (conf (ap_hapd s))) with (st_max (c_set (core_of (ap_hapd s)))).
  rewrite (HP _ Hc), Hn. destruct (Z.leb_spec (st_max st) (Z.of_nat (size mi))); [by split; [left|]|].
  clear Hn Hc. revert s Hs. refine (runs_call x bs mi th P _ _ _ _ (total_calloc P infoSTA_size) _).
  intros r. apply runs_core. intros [t ->]. destruct (env_calloc t infoSTA_size) eqn:Et.
  - eapply runs_weaken; [by apply runs_push|done|]. intros p s (i & bs' & e & -> & Hl & Hs).
    exists bs', e. split_and!; [done| |done]. rewrite map_size_insert_None by done. lia.
  - apply runs_ret. intros s Hs. split; [|done]. right. by exists t, infoSTA_size.
Qed.

Lemma runs_changeStatus x bs mi th P a need i e st' :
  listed bs mi a need i e →
  runs (ap_at x bs mi th P) (changeStatus (Some i) st') (λ _ s,
    ∃ bs' e', (status e' = st' ∧ (i, e') ∈ concat bs' ∧ sta_key e' = a) ∧
      ap_at x bs' (<[a := e']> mi) th P s).
Proof.
  intros (Hm & Hst & Hk & Hin) s Hs. unfold changeStatus.
  set (f := λ e, _). edestruct (locked_write_rep mret s mi bs i e f) as (t & bs' & E & Hh & Hin' & R' & Hsz).
  { apply (aa_rep _ _ _ _ _ _ Hs). } { apply (aa_mutex _ _ _ _ _ _ Hs). } { done. }
  { intros e0. unfold f. by destruct st'. }
  rewrite bind_mret in E. rewrite E. cbn. rewrite Hk in R', Hsz. exists bs', (f e).
  assert (Ek : sta_key (f e) = a) by (unfold f, sta_key in *; by destruct st').
  split; [split_and!; [unfold f; by destruct st'|done|done]|].
  destruct Hs as [Hr Hmx Hn Ht Hc Hhd Hx Hadr]. constructor; cbn; try done.
  - by rewrite Hsz.
  - congruence.
  - destruct Hx as (t' & n & h & w & ->). exists t, n, h, w. by destruct x.
  - apply map_Forall_insert_2; [|done]. specialize (Hadr a e Hm). unfold f. by destruct st'.
Qed.

Lemma runs_start x bs mi th P t rc :
  runs (ap_at x bs mi th P)
    (if rc =? 0 then modify (λ s, set_threads (ap_threads s ++ [t]) s) else skip)
    (λ _, ap_at x bs mi (if rc =? 0 then th ++ [t] else th) P).
Proof.
  destruct (rc =? 0); [|by apply runs_ret]. intros s [Hr Hm Hn Ht Hc Hh Hx Ha].
  constructor; cbn; try done; [by rewrite Ht|].
  destruct Hx as (t' & n & h & w & ->). cbn. by exists t', n, h, w.
Qed.

Lemma runs_report x bs mi th P mgmt sta :
  runs (ap_at x bs mi th P) (report_frame mgmt sta) (λ rc s,
    (∃ t, rc = env_thread t) ∧
    ap_at x bs mi (if rc =? 0 then th ++ [ProcessStaMsg mgmt sta] else th) P s).
Proof.
  unfold report_frame. do 2 apply runs_alloc.
  eapply runs_call; [apply total_ask|]. intros rc. apply runs_core. intros Hrc.
  eapply runs_bind; [apply runs_start|]. intros []. by apply runs_ret.
Qed.

(** ** Handlers

    Where a handler leaves the state: of the stations in the interface's list only
    [a] has changed; when all goes well ([X]), it has the status [need] and the
    threads [ts] have been started. *)
Definition settled (x : ap_state) (a : bytes) (mi : gmap bytes infoSTA) (th : list thread) (X : Prop)
    (need : STAStatus) (ts : list thread) (P : core → Prop) (s : ap_state) : Prop :=
  ∃ bs' mi' th', ap_at x bs' mi' th' P s ∧ (delete a mi' = delete a mi ∧ size mi' = size mi) ∧
    (X → th' = th ++ ts ∧ ∃ e', mi' = <[a := e']> mi ∧ status e' = need).

Lemma settled_frame {A} x a mi th X need ts P (f : AM A) Q :
  (∀ bs' mi' th', runs (ap_at x bs' mi' th' P) f (λ r, ap_at x bs' mi' th' (Q r))) →
  runs (settled x a mi th X need ts P) f (λ r, settled x a mi th X need ts (Q r)).
Proof.
  intros Hf s (bs' & mi' & th' & Hs & Hd). specialize (Hf bs' mi' th' s Hs).
  destruct (f s); [|done..]. by exists bs', mi', th'.
Qed.

Lemma settled_last {A} x a mi th X need ts P (f : AM A) Q :
  total P f Q → runs (settled x a mi th X need ts P) f (λ r, settled x a mi th X need ts (Q r)).
Proof. intros Hf. apply settled_frame. intros bs' mi' th'. by apply runs_total. Qed.

Lemma settled_call {A B} x a mi th X need ts P (f : AM A) Q (k : A → AM B) R :
  total P f Q → (∀ r, runs (settled x a mi th X need ts (Q r)) (k r) R) →
  runs (settled x a mi th X need ts P) (f ≫= k) R.
Proof. intros Hf Hk. eapply runs_bind; [by apply settled_last|done]. Qed.

Lemma settled_core {A} x a mi th X need ts (Y : Prop) P (m : AM A) Q :
  (Y → runs (settled x a mi th X need ts P) m Q) →
  runs (settled x a mi th X need ts (λ c, Y ∧ P c)) m Q.
Proof.
  intros Hm s (bs' & mi' & th' & [? ? ? ? [HY Hc] ? ? ?] & Hd). apply Hm; [done|].
  by exists bs', mi', th'.
Qed.

Lemma settled_weaken x a mi th X need ts (P P' : core → Prop) s :
  settled x a mi th X need ts P s → (∀ c, P c → P' c) → settled x a mi th X need ts P' s.
Proof.
  intros (bs' & mi' & th' & Hs & Hd) HP. exists bs', mi', th'. split; [|done]. by eapply ap_at_weaken.
Qed.

(** Nothing was done, as things did not go well. *)
Lemma settled_same x a mi th (X : Prop) need ts P bs s :
  ap_at x bs mi th P s → ¬ X → settled x a mi th X need ts P s.
Proof. intros Hs HX. by exists bs, mi, th. Qed.

(** The status changes and the frame is reported. *)
Lemma runs_told {B} x bs mi th (X : Prop) P a old i e need mgmt sta (k : Z → AM B) Q :
  listed bs mi a old i e → (X → ∀ t, env_thread t = 0) →
  (∀ rc, (∃ t, rc = env_thread t) →
     runs (settled x a mi th X need [ProcessStaMsg mgmt sta] P) (k rc) Q) →
  runs (ap_at x bs mi th P) (changeStatus (Some i) need;; rc ← report_frame mgmt sta; k rc) Q.
Proof.
  intros Hl HX Hk. eapply runs_bind; [by eapply runs_changeStatus|]. intros [].
  apply runs_ex. intros bs'. apply runs_ex. intros e'. apply runs_pure. intros (Hst & _ & _).
  eapply runs_bind; [apply runs_report|]. intros rc. apply runs_pure. intros Hrc. pose proof Hrc as [t ->].
  eapply runs_weaken; [by apply Hk| |done]. intros s Hs. eexists _, _, _. split; [exact Hs|].
  split; [split; [by rewrite delete_insert_eq|apply map_size_insert_Some; by exists e; destruct Hl]|].
  intros Hx. rewrite HX by done. eauto.
Qed.

Lemma runs_tell x bs mi th (X : Prop) P a old i e need mgmt sta :
  listed bs mi a old i e → (X → ∀ t, env_thread t = 0) →
  runs (ap_at x bs mi th P) (changeStatus (Some i) need;; _ ← report_frame mgmt sta; skip)
    (λ _, settled x a mi th X need [ProcessStaMsg mgmt sta] P).
Proof. intros Hl HX. eapply runs_told; [done..|]. intros rc _. by apply runs_ret. Qed.

End Runs.

(** ** Members of frames *)

Lemma le16_some m off : 0 ≤ off → off + 2 ≤ zlen m → ∃ v, le16_at m off = Some v.
Proof. intros H1 H2. unfold le16_at. rewrite ldn_ok by lia. by eexists. Qed.

Lemma ldn_some m off n : 0 ≤ off → 0 ≤ n → off + n ≤ zlen m → ∃ v, ldn m off n = Some v.
Proof. intros. rewrite ldn_ok by lia. by eexists. Qed.

Lemma ldn_mac m off a : bytes_ok m → ldn m off 6 = Some a → mac_ok a.
Proof.
  intros Hm Ha. split; [|by eapply ldn_bytes_ok].
  apply ldn_Some in Ha as (_ & _ & _ & Hz & _). unfold zlen in Hz. lia.
Qed.

Lemma challenge_some m : 30 ≤ zlen m → ∃ c, challenge_in m = Some c.
Proof.
  intros Hm. unfold challenge_in, auth_variable, IEEE80211_HDRLEN, WLAN_AUTH_CHALLENGE_LEN.
  destruct (Z.ltb_spec (zlen m) (24 + 6 + 2 + 128)); [by eexists|].
  destruct (ld8_ok m (24 + 6)) as [i ->]; [lia|]. cbn.
  destruct (ld8_ok m (24 + 6 + 1)) as [n ->]; [lia|]. cbn. case_if; [|by eexists].
  destruct (ldn_some m (24 + 6 + 2) 128) as [d ->]; [lia..|]. by eexists.
Qed.

(** Reads a member that is there. *)
Ltac member H := let v := fresh "v" in let E := fresh "E" in
  destruct H as [v E]; [try lia..|]; eapply runs_opt; [exact E|].

(** ** Authentication *)

(** Of the stations only [a] was changed; when all goes well it is there and has
    the property [F]. *)
Definition comes_to (st : settings) (a : bytes) (R : gmap bytes sta_info) (X : Prop)
    (F : sta_info → Prop) (c : core) : Prop :=
  after st a R c ∧ (X → ∃ l, own st a l R F c).

Lemma own_comes st a l R (X : Prop) (F : sta_info → Prop) c :
  own st a l R (λ v, X → F v) c → comes_to st a R X F c.
Proof.
  intros Ho. split; [by eapply own_after|]. intros HX. exists l. eapply own_weaken; [exact Ho|]. auto.
Qed.

Lemma stations_comes st a m (X : Prop) F c : ¬ X → stations m st c → comes_to st a (delete a m) X F c.
Proof. intros HX Hs. split; [by exists m|done]. Qed.

Section Auth.
  Context `{Platform} `{Env} `{StaSize}.
  Context (x : ap_state) (st : settings) (a : bytes) (l : loc) (R : gmap bytes sta_info).
  Context (bs : list (list (loc * infoSTA))) (mi : gmap bytes infoSTA) (th : list thread).
  Context (X : Prop) (HX : X → friendly ∧ ∀ t, env_thread t = 0).
  Abbreviation any := (λ _ : sta_info, True).

(** When all goes well the station is authenticated. *)
Abbreviation authd := (λ v, X → bit 0 v = true).

Lemma authd_closed ns : 0 ∉ ns → closed ns authd.
Proof. intros Hn v w A Hv HX'. rewrite (al_bits _ _ _ A) by done. auto. Qed.

Lemma auth_reply_total F sta b d g t resp ies :
  closed [] F → sta = Some l →
  total (S:=ap_state) (own st a l R F) (auth_reply sta b d g t resp ies) (λ _, own st a l R F).
Proof.
  intros HF ->. unfold auth_reply. apply total_skip; [|intros r; go ltac:(al HF)].
  eapply total_weaken; [apply send_auth_reply_total|done|]. by intros r c [].
Qed.

Lemma auth_switch_runs mgmt info e alg t ch w :
  listed bs mi a SELECTED info e → (X → alg = WLAN_AUTH_OPEN) →
  runs (ap_at x bs mi th (own st a l R any)) (auth_switch mgmt info l alg t ch w) (λ r s,
    (X → r.1 = 0) ∧
    settled x a mi th X AUTHENTICATED [ProcessStaMsg mgmt None] (own st a l R authd) s).
Proof.
  intros Hl Ha. unfold auth_switch. eapply runs_call; [apply own_get_keep|]. intros v.
  apply runs_core. intros _. destruct (Z.eqb_spec alg WLAN_AUTH_OPEN) as [_|Hne].
  - eapply runs_call; [apply (own_upd _ _ _ _ _ (λ v, bit 0 v = true)); [done|done|]|].
    { intros u _ W _. split; [by apply wf_upd|]. rewrite bit_add. apply orb_true_r. }
    intros []. eapply runs_call; [apply total_notify|]. intros [].
    eapply runs_call; [apply own_keep; [done|done|intros u W; by apply wf_upd|done]|]. intros [].
    eapply runs_told; [exact Hl|by intros HX'; destruct (HX HX')|]. intros rc [t' ->].
    destruct (Z.eqb_spec (env_thread t') 0); cbn [negb]; [|intros s _; cbn; eauto].
    eapply settled_call; [apply total_notify|]. intros []. apply runs_ret. intros s Hs. split; [done|].
    eapply settled_weaken; [exact Hs|]. intros c Hc. by eapply own_weaken.
  - assert (HX' : ¬ X) by auto.
    assert (Hsame : ∀ s, ap_at x bs mi th (own st a l R any) s →
      settled x a mi th X AUTHENTICATED [ProcessStaMsg mgmt None] (own st a l R any) s)
      by (intros s Hs; by eapply settled_same).
    assert (Hend : ∀ s, settled x a mi th X AUTHENTICATED [ProcessStaMsg mgmt None] (own st a l R any) s →
      settled x a mi th X AUTHENTICATED [ProcessStaMsg mgmt None] (own st a l R authd) s)
      by (intros s Hs; eapply settled_weaken; [exact Hs|]; intros c Ho; by eapply own_weaken).
    case_if; [|apply runs_ret; intros s Hs; split; [done|auto]].
    eapply runs_call; [apply auth_shared_key_total, any_closed|]. intros resp.
    eapply runs_bind.
    { case_if; [by eapply (runs_tell x _ _ _ X)|by apply (runs_ret _ ())]. }
    intros []. cbn beta. eapply settled_call; [by apply any_keep|]. intros [].
    eapply settled_call; [apply total_notify|]. intros [].
    eapply settled_call; [apply any_get|]. intros u. apply runs_ret.
    intros s Hs. split; [done|auto].
Qed.

Lemma auth_station_runs mgmt info e res alg t fc seq ch :
  listed bs mi a SELECTED info e → (X → alg = WLAN_AUTH_OPEN) →
  runs (ap_at x bs mi th (own st a l R any)) (auth_station mgmt info l res alg t fc seq ch) (λ r s,
    (X → r.1 = 0) ∧
    settled x a mi th X AUTHENTICATED [ProcessStaMsg mgmt None] (own st a l R authd) s).
Proof.
  intros Hl Ha. unfold auth_station.
  do 2 (eapply runs_call; [by apply any_keep|]; intros []).
  eapply runs_call; [apply radius_info_total, any_closed|]. intros r. apply runs_core. intros Hr.
  assert (Hbad : ∀ y : Z * bytes, ¬ X → runs (ap_at x bs mi th (own st a l R any)) (mret y) (λ r s,
    (X → r.1 = 0) ∧
    settled x a mi th X AUTHENTICATED [ProcessStaMsg mgmt None] (own st a l R authd) s)).
  { intros y HX'. apply runs_ret. intros s Hs. split; [done|].
    eapply settled_same; [|done]. eapply ap_at_weaken; [exact Hs|]. intros c Ho. by eapply own_weaken. }
  destruct (Z.eqb_spec r 0) as [_|Hne]; cbn [negb].
  2:{ apply Hbad. intros HX'. by apply Hne, Hr, HX. }
  eapply runs_call; [by apply (renew_total st a l R any)|]. intros ok. apply runs_core. intros Hok.
  destruct ok; cbn [negb].
  - eapply runs_weaken; [by apply (auth_switch_runs mgmt info e)| |done]. intros s Hs.
    eapply ap_at_weaken; [exact Hs|]. intros c Ho. by eapply own_weaken.
  - eapply runs_weaken; [apply Hbad| |done].
    + intros HX'. destruct (Hok eq_refl) as [t' Ht]. destruct (HX HX') as [[] _]. by rewrite fr_unassoc in Ht.
    + intros s Hs. eapply ap_at_weaken; [exact Hs|]. intros c Ho. by eapply own_weaken.
Qed.

Lemma auth_sender_total m fc seq :
  mac_ok a → (X → Z.land fc WLAN_FC_RETRY = 0) →
  (X → friendly ∧ Z.of_nat (size (delete a m)) < st_max st) →
  total (S:=ap_state) (stations m st) (auth_sender a fc seq) (λ r c,
    match r with
    | Some (Some l') => own st a l' (delete a m) any c
    | Some None => ¬ X ∧ stations m st c
    | None => ¬ X ∧ after st a (delete a m) c
    end).
Proof.
  intros Ha Hfc Hroom. unfold auth_sender. eapply total_bind; [by apply get_sta_total|]. intros [l'|].
  - apply total_ex. intros v. apply total_pure. intros Hv.
    eapply (total_bind _ _ (λ _, own st a l' (delete a m) any)).
    { eapply total_weaken; [by apply any_keep|intros c Ho; by eapply own_weaken|done]. }
    intros []. apply total_skip; [by apply any_keep|]. intros []. apply total_skip; [apply any_get|].
    intros w. apply total_ret. intros c Ho. destruct (repeated _ _ _ _) eqn:E; [|done].
    split; [|by eapply own_after]. intros HX'. unfold repeated in E. by rewrite Hfc in E.
  - apply total_pure. intros Hm. eapply total_bind; [by apply add_sta_total|]. intros [l'|].
    + apply total_ret. intros c Ho. rewrite delete_id by done. by eapply own_weaken.
    + apply total_ret. intros c [Hr Hs]. split; [|done]. intros HX'.
      destruct (Hroom HX') as [[] Hlt]. rewrite delete_id in Hlt by done.
      destruct Hr as [?|[(t & n & E)|[t E]]]; [lia|congruence|]. specialize (fr_id t). lia.
Qed.

End Auth.

Section HandleAuth.
  Context `{Platform} `{Env} `{StaSize}.
  Context (x : ap_state) (st : settings) (a : bytes) (m : gmap bytes sta_info).
  Context (bs : list (list (loc * infoSTA))) (mi : gmap bytes infoSTA) (th : list thread).
  Context (X : Prop) (HX : X → friendly ∧ ∀ t, env_thread t = 0).

(** An open authentication that the network has nothing against. *)
Record auth_agreed (alg t fc : Z) : Prop := {
  ag_tkip : st_tkip st = false;
  ag_algs : Z.land (st_auth_algs st) WPA_AUTH_ALG_OPEN ≠ 0;
  ag_alg : alg = WLAN_AUTH_OPEN;
  ag_transaction : t = 1;
  ag_own : memcmp6 a (st_own st) = false;
  ag_seen : no_auth_if_seen_on (st_bss st) = false;
  ag_retry : Z.land fc WLAN_FC_RETRY = 0;
}.

Lemma ap_gets :
  total (S:=ap_state) (stations m st) (gets ap_hapd) (λ h c, settings_of h = st ∧ stations m st c).
Proof.
  eapply total_weaken; [exact (stations_gets (S:=ap_state) st m)|done|]. by intros h c [[? _] ?].
Qed.

Lemma auth_checks_total alg t fc : (X → auth_agreed alg t fc) →
  total (S:=ap_state) (stations m st) (auth_checks a alg t) (λ r c,
    (X → ∃ res, r = Allow res) ∧ stations m st c).
Proof.
  intros Hag. unfold auth_checks. eapply total_bind; [apply ap_gets|].
  intros h. apply total_pure. intros Hst.
  assert (Hbad : ∀ r, ¬ X → total (S:=ap_state) (stations m st) (mret r) (λ r c,
    (X → ∃ res, r = Allow res) ∧ stations m st c)) by (intros r HX'; by apply total_ret).
  change (tkip_countermeasures h) with (st_tkip (settings_of h)).
  change (auth_algs (conf h)) with (st_auth_algs (settings_of h)).
  change (own_addr h) with (st_own (settings_of h)).
  change (bss (conf h)) with (st_bss (settings_of h)). rewrite Hst.
  destruct (st_tkip st) eqn:Et.
  { apply Hbad. intros HX'. destruct (Hag HX'). congruence. }
  match goal with |- total _ (if ?b then _ else _) _ => destruct b eqn:Eb end.
  { apply Hbad. intros HX'. destruct (Hag HX') as [_ Hal -> _ _ _ _].
    apply Z.eqb_neq in Hal. by rewrite Hal in Eb. }
  match goal with |- total _ (if ?b then _ else _) _ => destruct b eqn:Eb' end.
  { apply Hbad. intros HX'. by destruct (Hag HX') as [_ _ _ -> _ _ _]. }
  destruct (memcmp6 a (st_own st)) eqn:Eo.
  { apply Hbad. intros HX'. destruct (Hag HX'). congruence. }
  eapply (total_bind _ _ (λ r c, (X → r = 0) ∧ stations m st c)).
  { destruct (no_auth_if_seen_on (st_bss st)) eqn:Es; [|by apply total_ret].
    eapply total_weaken; [apply any_call|done|]. intros r c Hc. split; [|done]. intros HX'.
    destruct (Hag HX'). congruence. }
  intros other. apply total_pure. intros Ho. destruct (Z.eqb_spec other 0) as [_|Hne]; cbn [negb].
  - eapply total_bind; [apply total_call|]. intros res. apply total_pure. intros [t' ->].
    apply total_ret. intros c Hc. split; [|done]. intros HX'. destruct (HX HX') as [[] _].
    rewrite fr_acl. by eexists.
  - do 2 (apply total_skip; [apply any_ask|]; intros ?). apply Hbad. auto.
Qed.

Abbreviation done_with mgmt := (settled x a mi th X AUTHENTICATED [ProcessStaMsg mgmt None]
  (comes_to st a (delete a m) X (λ v, bit 0 v = true))).

Lemma nothing_done need ts F s : ¬ X → ap_at x bs mi th (stations m st) s →
  settled x a mi th X need ts (comes_to st a (delete a m) X F) s.
Proof.
  intros HX' Hs. eapply settled_same; [|done]. eapply ap_at_weaken; [exact Hs|].
  intros c. by apply stations_comes.
Qed.

(** A refusal before there is a station. *)
Lemma auth_refusal mgmt b d g t resp ies : ¬ X →
  runs (ap_at x bs mi th (stations m st)) (auth_reply None b d g t resp ies) (λ _, done_with mgmt).
Proof.
  intros HX'. unfold auth_reply. eapply runs_call; [apply send_auth_reply_total|]. intros r.
  apply runs_core. intros _. apply runs_ret. intros s. by apply nothing_done.
Qed.

Lemma handle_auth_runs mgmt :
  bytes_ok mgmt → 24 ≤ zlen mgmt → mgmt_sa mgmt = Some a → addr_ok x a →
  (X → 30 ≤ zlen mgmt ∧ (∃ e, mi !! a = Some e ∧ status e = SELECTED) ∧
     Z.of_nat (size (delete a m)) < st_max st ∧
     ∀ alg t fc, mgmt_auth_alg mgmt = Some alg → le16_at mgmt 26 = Some t →
       frame_control mgmt = Some fc → auth_agreed alg t fc) →
  runs (ap_at x bs mi th (stations m st)) (handle_auth mgmt) (λ _, done_with mgmt).
Proof.
  intros Hb Hz Hsa Ha Hgood. unfold handle_auth, auth_variable, IEEE80211_HDRLEN.
  assert (Hmac : mac_ok a) by (by eapply ldn_mac).
  destruct (Z.ltb_spec (zlen mgmt) (24 + 6)).
  { apply runs_ret. intros s. apply nothing_done. intros HX'. destruct (Hgood HX'). lia. }
  member (le16_some mgmt 24). rename v into alg, E into Ealg.
  member (le16_some mgmt 26). rename v into t, E into Et.
  member (le16_some mgmt 0). rename v into fc, E into Efc.
  member (le16_some mgmt 22). rename v into seq, E into Eseq.
  member (challenge_some mgmt). rename v into ch, E into Ech.
  eapply runs_opt; [exact Hsa|]. member (ldn_some mgmt 16 6). rename v into bssid, E into Ebssid.
  assert (Hag : X → auth_agreed alg t fc) by (intros HX'; by apply (Hgood HX')).
  eapply runs_call; [by apply (auth_checks_total alg t fc)|]. intros v. apply runs_core. intros Hv.
  destruct v as [resp ies| |res].
  { apply auth_refusal. intros HX'. by destruct (Hv HX'). }
  { apply runs_ret. intros s. apply nothing_done. intros HX'. by destruct (Hv HX'). }
  eapply runs_bind; [by apply runs_permitted|]. intros [info|]; apply runs_pure.
  2:{ intros Hno. apply runs_ret. intros s. apply nothing_done. intros HX'.
      destruct (Hgood HX') as (_ & (e & He & Hs) & _). by apply (Hno e). }
  intros [e Hl]. eapply runs_call.
  { apply (auth_sender_total st a X m fc seq); [done|by intros HX'; destruct (Hag HX')|].
    intros HX'. split; [apply HX, HX'|apply (Hgood HX')]. }
  intros [[l|]|].
  - eapply runs_bind; [apply (auth_station_runs _ _ _ _ _ _ _ _ X HX mgmt info e); [done|]|].
    { intros HX'. by destruct (Hag HX'). }
    intros [resp ies]. apply runs_pure. intros Hresp.
    eapply runs_weaken; [apply settled_last, (auth_reply_total st a l); [|done]|done|].
    { by apply authd_closed, not_elem_of_nil. }
    intros u s Hs. eapply settled_weaken; [exact Hs|]. intros c. apply own_comes.
  - apply runs_core. intros HX'. by apply auth_refusal.
  - apply runs_core. intros HX'. apply runs_ret. intros s Hs. eapply settled_same; [|done].
    eapply ap_at_weaken; [exact Hs|]. by intros c Hc.
Qed.

End HandleAuth.

(** ** Association *)

(** The station is authenticated and, if [fresh], not associated. *)
Definition ready (fresh : bool) (v : sta_info) : Prop :=
  bit 0 v = true ∧ (fresh = true → bit 1 v = false).

Lemma ready_closed fresh ns : 0 ∉ ns → 1 ∉ ns → closed ns (ready fresh).
Proof. intros H0 H1 v w A [Hv Hf]. unfold ready. by rewrite !(al_bits _ _ _ A). Qed.

Section Assoc.
  Context `{Platform} `{Env} `{StaSize}.
  Context (x : ap_state) (st : settings) (a : bytes) (R : gmap bytes sta_info).
  Context (bs : list (list (loc * infoSTA))) (mi : gmap bytes infoSTA) (th : list thread).
  Context (X : Prop) (HX : X → friendly ∧ ∀ t, env_thread t = 0).
  Context (fresh : bool) (cap interval : Z) (els : list element).
  Abbreviation any := (λ _ : sta_info, True).

Lemma implied_closed ns F : closed ns F → closed ns (λ v, X → F v).
Proof. intros HF v w A Hv HX'. by eapply HF; [|apply Hv]. Qed.

Lemma assoc_reply_total F l sa resp re : closed [] F →
  total (S:=ap_state) (own st a l R F) (assoc_reply (Some l) sa resp re) (λ _, own st a l R F).
Proof.
  intros HF. unfold assoc_reply. apply total_skip.
  { case_if; [|by apply total_ret]. apply total_skip; [|intros r; by apply total_ret].
    eapply total_weaken; [by apply add_associated_total|done|]. by intros r c []. }
  intros resp'. apply total_skip; [|intros r; go ltac:(al HF)].
  eapply total_weaken; [apply send_assoc_resp_total|done|]; [cbn; apply any_get|by intros r c []].
Qed.

Lemma assoc_refusal_total P sa resp re :
  total (S:=ap_state) P (assoc_reply None sa resp re) (λ _, P).
Proof.
  unfold assoc_reply. rewrite mret_bind. apply total_skip; [|intros r; by apply total_ret].
  eapply total_weaken; [by apply send_assoc_resp_total|done|]. by intros r c [].
Qed.

(** What the request asks for. *)
Record asked (v : sta_info) : Prop := {
  as_auth : ready fresh v;
  as_capability : capability v = cap;
  as_rates : rates_of els v;
  as_aid : 1 ≤ aid v;
}.

Lemma asked_closed ns : 0 ∉ ns → 1 ∉ ns → closed ns asked.
Proof.
  intros H0' H1' v w A []. pose proof A as [? ? ? ? ? ? ? _].
  constructor; [by eapply ready_closed|congruence|by eapply rates_closed|lia].
Qed.

(** A request that the network has nothing against. *)
Record assoc_agreed (rest : bytes) : Prop := {
  cg_tkip : st_tkip st = false;
  cg_ad : st_ad st = false;
  cg_interval : interval ≤ max_listen_interval (st_bss st);
  cg_elements : rest = encode_all els;
  cg_mic : Forall (λ el, el_id el ≠ WLAN_EID_MIC) els;
  cg_accept : acceptable st els;
  cg_room : Z.of_nat (size R) < 2007;
}.

Lemma assoc_checks_total l pre rest reassoc :
  bytes_ok rest → (X → assoc_agreed rest) →
  total (S:=ap_state) (own st a l R (λ v, X → ready fresh v))
    (assoc_checks (pre ++ rest) l (zlen pre) cap interval reassoc) (λ r c,
    (X → r = 0) ∧ own st a l R (λ v, X → asked v) c).
Proof.
  intros Hb Hag. unfold assoc_checks.
  eapply total_bind; [exact (own_gets (S:=ap_state) _ _ _ _ _)|]. intros h. apply total_pure. intros Hst.
  change (tkip_countermeasures h) with (st_tkip (settings_of h)).
  change (bss (conf h)) with (st_bss (settings_of h)). rewrite Hst.
  set (F0 := λ v, X → ready fresh v ∧ capability v = cap).
  assert (Hno : ∀ r F, ¬ X → total (S:=ap_state) (own st a l R F) (mret r) (λ r c,
    (X → r = 0) ∧ own st a l R (λ v, X → asked v) c)).
  { intros r F HX'. apply total_ret. intros c Hc. split; [done|]. by eapply own_weaken. }
  destruct (st_tkip st) eqn:Et; [apply Hno; intros HX'; destruct (Hag HX'); congruence|].
  destruct (Z.ltb_spec (max_listen_interval (st_bss st)) interval) as [Hlt|_].
  { apply Hno. intros HX'. destruct (Hag HX'). lia. }
  eapply total_bind; [apply (own_upd _ _ _ _ _ F0); [done|done|]|].
  { intros v _ W Hv. split; [by apply wf_upd|]. intros HX'. by specialize (Hv HX'). }
  intros []. eapply total_bind.
  { replace (zlen (pre ++ rest) - zlen pre) with (zlen rest) by (rewrite zlen_app; lia).
    rewrite <- (app_nil_r rest) at 1. apply (check_assoc_ies_total st a l R F0 pre rest []); [| |done].
    - intros v w A Hv HX'. destruct (Hv HX') as [Hv0 Hc]. rewrite (al_capability _ _ _ A).
      split; [|done]. by eapply ready_closed; [..|exact A|exact Hv0]; apply (bool_decide_unpack _).
    - done. }
  intros resp. apply total_ex. intros els'. apply total_ex. intros failed.
  apply total_pure. intros Hp. apply total_pure. intros Hresp.
  assert (Hels : X → els' = els ∧ failed = false).
  { intros HX'. destruct (Hag HX').
    destruct (parsed_unique rest els' els [] failed Hp) as [-> Hf]; [by rewrite app_nil_r|by left|done|].
    by destruct failed. }
  destruct (Z.eqb_spec resp WLAN_STATUS_SUCCESS) as [->|Hne]; cbn [negb].
  2:{ apply Hno. intros HX'. destruct (Hels HX') as [-> ->]. destruct (Hag HX'). by apply Hne, Hresp. }
  eapply total_bind; [apply get_aid_total; intros v i [? ?]; done|]. intros r.
  apply total_pure. intros [Hr Hsz]. apply total_ret. intros c Ho.
  assert (Er : X → r = 0) by (intros HX'; destruct (Hag HX'); auto).
  split; [intros HX'; by rewrite Er|].
  eapply own_weaken; [exact Ho|]. intros v _ _ [[Hv Hrates] Haid] HX'. destruct (Hv HX').
  destruct (Hels HX') as [-> _]. destruct (Hag HX'). constructor; auto.
Qed.

(** The station that passed the checks. *)
Definition accepted_sta (v : sta_info) : Prop := asked v ∧ listen_interval v = interval.

Lemma accepted_closed ns : 0 ∉ ns → 1 ∉ ns → closed ns accepted_sta.
Proof.
  intros Hn0 Hn1 v w A [Hv Hi]. split; [by eapply asked_closed|]. by rewrite (al_interval _ _ _ A).
Qed.

Lemma assoc_accept_runs mgmt info e l :
  listed bs mi a AUTHENTICATED info e →
  runs (ap_at x bs mi th (own st a l R (λ v, X → asked v))) (assoc_accept mgmt info l interval)
    (λ _, settled x a mi th X ASSOCIATED [ProcessStaMsg mgmt (Some l)]
       (own st a l R (λ v, X → accepted_sta v))).
Proof.
  intros Hl. unfold assoc_accept. set (F := λ v, X → accepted_sta v).
  assert (HF : ∀ ns, 0 ∉ ns → 1 ∉ ns → closed ns F) by (intros; by apply implied_closed, accepted_closed).
  assert (HF0 : closed [] F) by (apply HF; apply not_elem_of_nil).
  eapply runs_call; [apply (own_upd _ _ _ _ _ (λ v, F v ∧ 0 ≤ supported_rates_len v ≤ 32)); [done|done|]|].
  { intros v _ W Hv. split; [by apply wf_upd|]. split; [|by destruct W].
    intros HX'. specialize (Hv HX'). split; [|done]. destruct Hv. by constructor. }
  intros []. eapply runs_call; [apply protection_total; [|by intros v []]|].
  { intros v w A [Fv Hn]. rewrite (al_len _ _ _ A). split; [|done]. by eapply HF; [..|exact A|exact Fv]; apply (bool_decide_unpack _). }
  intros []. eapply (runs_call _ _ _ _ _ _ (λ _, own st a l R F)).
  { apply own_upd; [done|done|]. intros v _ W [Fv _]. split; [by apply wf_upd|].
    eapply (HF [15]); [by apply (bool_decide_unpack _)..|apply (alike_add _ 15); [done|in_bits]|done]. }
  intros []. eapply runs_told; [exact Hl|by intros HX'; destruct (HX HX')|]. intros rc _.
  eapply settled_call; [al HF0|]. intros []. apply settled_last. al HF0.
Qed.

(** *** Who asks *)

Definition entered (r : entry) (c : core) : Prop :=
  match r with
  | Enter l => own st a l R (λ v, X → ready fresh v) c
  | Ignore | Reject None _ => ¬ X ∧ after st a R c
  | Reject (Some l) _ => ¬ X ∧ own st a l R any c
  end.

(** The station at [sta], or none. *)
Definition found_at (sta : option loc) (c : core) : Prop :=
  match sta with Some l => own st a l R any c | None => R !! a = None ∧ stations R st c end.

Lemma found_after sta c : found_at sta c → after st a R c.
Proof.
  destruct sta; [apply own_after|]. intros [Ha Hs]. exists R. split; [by apply delete_id|done].
Qed.

Lemma add_at_total sta : mac_ok a →
  total (S:=ap_state) (found_at sta) (ap_sta_add a) (λ p c,
    match p with Some l => own st a l R any c | None => after st a R c end).
Proof.
  intros Ha. destruct sta as [l|].
  - unfold ap_sta_add. eapply total_bind; [by apply get_again|]. intros p. apply total_pure. intros ->.
    by apply total_ret.
  - apply total_pure. intros HR. eapply total_weaken; [by apply add_sta_total|done|].
    intros [l|] c; [intros Ho; by eapply own_weaken|]. intros [_ Hs].
    exists R. split; [by apply delete_id|done].
Qed.

Lemma unauthenticated_total sta : mac_ok a → ¬ X →
  total (S:=ap_state) (found_at sta) (assoc_unauthenticated sta a) entered.
Proof.
  intros Ha HX'. unfold assoc_unauthenticated. apply total_skip; [apply any_gets|]. intros h. case_if.
  { apply total_skip; [apply send_deauth_total|]. intros []. apply total_ret. intros c Hc.
    split; [done|by eapply found_after]. }
  apply total_skip; [apply any_call|]. intros res. case_if.
  { apply total_ret. intros c Hc. destruct sta as [l|]; [done|]. split; [done|by eapply found_after]. }
  case_if; [apply total_ret; intros c Hc; split; [done|by eapply found_after]|].
  eapply total_bind; [by apply add_at_total|]. intros [l|]; [|by apply total_ret].
  eapply total_bind; [apply radius_info_total, any_closed|]. intros r. apply total_pure. intros _.
  case_if; [by apply total_ret|].
  apply total_skip; [by apply any_keep|]. intros []. apply total_skip; [apply total_notify|]. intros [].
  apply total_skip; [by apply any_keep|]. intros []. apply total_ret. intros c Ho. by eapply own_weaken.
Qed.

Lemma assoc_sender_total m : mac_ok a → R = delete a m →
  (X → ∃ v, m !! a = Some v ∧ ready fresh v) →
  total (S:=ap_state) (stations m st) (assoc_sender a) entered.
Proof.
  intros Ha HR Hv. pose proof (get_sta_total (S:=ap_state) st m a Ha) as Hg. rewrite <- HR in Hg.
  unfold assoc_sender. eapply total_bind; [exact Hg|]. intros [l|].
  - apply total_ex. intros v. apply total_pure. intros Em.
    eapply total_bind; [apply own_get_keep|]. intros w. apply total_pure. intros (<- & _ & _).
    change WLAN_STA_AUTH with (BIT 0). rewrite has_flag_bit by done. destruct (bit 0 v) eqn:Eb.
    + apply total_ret. intros c Ho. eapply own_weaken; [exact Ho|]. intros w _ _ <- HX'.
      destruct (Hv HX') as (v' & Ev & Eb'). congruence.
    + eapply total_weaken; [apply (unauthenticated_total (Some l)); [done|]| |done].
      * intros HX'. destruct (Hv HX') as (v' & Ev & [Eb' _]). congruence.
      * intros c Ho. by eapply own_weaken.
  - apply total_pure. intros Em.
    eapply total_weaken; [apply (unauthenticated_total None); [done|]| |done].
    + intros HX'. destruct (Hv HX') as (v' & Ev & _). congruence.
    + intros c Hs. unfold found_at. by rewrite HR, lookup_delete_eq, delete_id.
Qed.

(** The request [mgmt] is not repeated, and agreed to. *)
Definition request (mgmt : bytes) (reassoc : bool) : Prop :=
  (∀ fc, frame_control mgmt = Some fc → Z.land fc WLAN_FC_RETRY = 0) ∧
  assoc_agreed (drop (Z.to_nat (24 + assoc_fixed reassoc)) mgmt).

Lemma assoc_station_runs mgmt info e l reassoc :
  listed bs mi a AUTHENTICATED info e → bytes_ok mgmt → 24 + assoc_fixed reassoc ≤ zlen mgmt →
  le16_at mgmt 24 = Some cap → le16_at mgmt 26 = Some interval → (X → request mgmt reassoc) →
  runs (ap_at x bs mi th (own st a l R (λ v, X → ready fresh v)))
    (assoc_station mgmt a info l reassoc)
    (λ _, settled x a mi th X ASSOCIATED [ProcessStaMsg mgmt (Some l)]
       (own st a l R (λ v, X → accepted_sta v))).
Proof.
  intros Hl Hb Hz Ecap Eli Hrq. unfold assoc_station, IEEE80211_HDRLEN.
  assert (Hfix : 4 ≤ assoc_fixed reassoc) by (by destruct reassoc).
  assert (Hsame : ∀ F s, ¬ X → ap_at x bs mi th (own st a l R F) s →
    settled x a mi th X ASSOCIATED [ProcessStaMsg mgmt (Some l)] (own st a l R (λ v, X → accepted_sta v)) s).
  { intros F s HX' Hs. eapply settled_same; [|done]. eapply ap_at_weaken; [exact Hs|].
    intros c Ho. by eapply own_weaken. }
  assert (Hbit : closed [] (λ v, X → ready fresh v)) 
    by (apply implied_closed, ready_closed; apply not_elem_of_nil).
  member (le16_some mgmt 0). rename v into fc, E into Efc.
  member (le16_some mgmt 22). rename v into seq, E into Eseq.
  eapply runs_opt; [exact Ecap|]. eapply runs_opt; [exact Eli|]. cbv zeta.
  eapply runs_call; [apply any_get|]. intros s0. destruct (repeated _ _ _ _) eqn:Er.
  { apply runs_ret. intros s. apply Hsame. intros HX'. destruct (Hrq HX') as [Hfc _].
    unfold repeated in Er. by rewrite Hfc in Er. }
  do 2 (eapply runs_call; [al Hbit|]; intros []).
  set (pos := 24 + assoc_fixed reassoc) in *. set (pre := take (Z.to_nat pos) mgmt).
  set (rest := drop (Z.to_nat pos) mgmt) in *.
  assert (Epre : zlen pre = pos) by (unfold pre, zlen in *; rewrite length_take; lia).
  assert (Hch : total (S:=ap_state) (own st a l R (λ v, X → ready fresh v))
    (assoc_checks mgmt l pos cap interval reassoc) (λ r c,
    (X → r = 0) ∧ own st a l R (λ v, X → asked v) c)).
  { rewrite <- Epre, <- (take_drop (Z.to_nat pos) mgmt) at 1.
    apply assoc_checks_total; [by apply Forall_drop|by intros HX'; apply (Hrq HX')]. }
  eapply runs_call; [exact Hch|].
  intros resp. apply runs_core. intros Hresp.
  eapply runs_bind.
  { destruct (Z.eqb_spec resp WLAN_STATUS_SUCCESS) as [_|Hne]; [by eapply assoc_accept_runs|].
    apply runs_ret. intros s. apply Hsame. auto. }
  intros []. apply settled_last, assoc_reply_total, implied_closed, accepted_closed; apply not_elem_of_nil.
Qed.

End Assoc.

Section HandleAssoc.
  Context `{Platform} `{Env} `{StaSize}.
  Context (x : ap_state) (st : settings) (a : bytes) (m : gmap bytes sta_info).
  Context (bs : list (list (loc * infoSTA))) (mi : gmap bytes infoSTA) (th : list thread).
  Context (X : Prop) (HX : X → friendly ∧ ∀ t, env_thread t = 0).

(** The station at [l] has the property [F], and is what the thread was given. *)
Definition associated_as (mgmt : bytes) (F : sta_info → Prop) (s : ap_state) : Prop :=
  ∃ l, settled x a mi th X ASSOCIATED [ProcessStaMsg mgmt (Some l)]
    (λ c, after st a (delete a m) c ∧ (X → own st a l (delete a m) F c)) s.

Lemma handle_assoc_runs mgmt reassoc fresh cap interval els :
  bytes_ok mgmt → mgmt_sa mgmt = Some a → addr_ok x a → 24 + assoc_fixed reassoc ≤ zlen mgmt →
  le16_at mgmt 24 = Some cap → le16_at mgmt 26 = Some interval →
  (X → request st (delete a m) interval els mgmt reassoc ∧
     (∃ e, mi !! a = Some e ∧ status e = AUTHENTICATED) ∧ ∃ v, m !! a = Some v ∧ ready fresh v) →
  runs (ap_at x bs mi th (stations m st)) (handle_assoc mgmt reassoc)
    (λ _, associated_as mgmt (accepted_sta fresh cap interval els)).
Proof.
  intros Hb Hsa Ha Hz Ecap Eli Hgood. unfold handle_assoc, IEEE80211_HDRLEN.
  assert (Hmac : mac_ok a) by (by eapply ldn_mac).
  assert (Hsame : ∀ P s, ¬ X → (∀ c, P c → after st a (delete a m) c) → ap_at x bs mi th P s →
    associated_as mgmt (accepted_sta fresh cap interval els) s).
  { intros P s HX' HP Hs. exists 1%positive. eapply settled_same; [|done]. eapply ap_at_weaken; [exact Hs|].
    intros c Hc. split; [by apply HP|done]. }
  destruct (Z.ltb_spec (zlen mgmt) (24 + assoc_fixed reassoc)); [lia|].
  eapply runs_opt; [exact Hsa|]. eapply runs_bind; [by apply runs_permitted|].
  intros [info|]; apply runs_pure.
  2:{ intros Hno. apply runs_ret. intros s. apply Hsame; [|intros c Hc; by exists m].
      intros HX'. destruct (Hgood HX') as (_ & (e & He & Hs) & _). by apply (Hno e). }
  intros [e Hl]. eapply runs_call.
  { apply (assoc_sender_total st a (delete a m) X fresh m); [done|done|]. intros HX'. apply (Hgood HX'). }
  intros [l| |[l|] resp].
  - eapply runs_weaken; [eapply (assoc_station_runs _ _ _ _ _ _ _ X HX fresh cap interval els); try done| |].
    { intros HX'. apply (Hgood HX'). } { done. }
    intros u s Hs. exists l. eapply settled_weaken; [exact Hs|]. intros c Ho.
    split; [by eapply own_after|]. intros HX'. eapply own_weaken; [exact Ho|]. auto.
  - apply runs_core. intros HX'. apply runs_ret. intros s. by apply Hsame.
  - apply runs_core. intros HX'.
    eapply runs_weaken; [apply runs_total, assoc_reply_total, any_closed|done|].
    intros u s. apply Hsame; [done|]. intros c. apply own_after.
  - apply runs_core. intros HX'. eapply runs_weaken; [apply runs_total, assoc_refusal_total|done|].
    intros u s. by apply Hsame.
Qed.

End HandleAssoc.

(** ** The end of an association *)

Section Leave.
  Context `{Platform} `{Env} `{StaSize}.
  Context (x : ap_state) (st : settings) (a : bytes) (l : loc) (R : gmap bytes sta_info).
  Context (bs : list (list (loc * infoSTA))) (mi : gmap bytes infoSTA) (th : list thread).
  Context (X : Prop) (HX : X → ∀ t, env_thread t = 0).
  Abbreviation any := (λ _ : sta_info, True).

Lemma disassoc_timer_runs bs' mi' th' :
  runs (ap_at x bs' mi' th' (own st a l R any)) (disassoc_timer l)
    (λ _, ap_at x bs' mi' th' (own st a l R any)).
Proof.
  unfold disassoc_timer. eapply runs_call; [apply any_get|]. intros v. case_if; [|by apply runs_ret].
  eapply runs_call; [by apply any_keep|]. intros []. eapply runs_call; [apply restart_timer_total|].
  intros []. apply runs_alloc, runs_total, total_notify.
Qed.

Lemma deauth_station_runs mgmt info e :
  listed bs mi a ASSOCIATED info e →
  runs (ap_at x bs mi th (own st a l R any)) (deauth_station mgmt info l)
    (λ _, settled x a mi th X NOT_AUTHENTICATED [ProcessStaMsg mgmt None] (stations R st)).
Proof.
  intros Hl. unfold deauth_station.
  eapply runs_call; [apply authorized_any|]. intros [].
  do 2 (eapply runs_call; [by apply any_keep|]; intros []).
  eapply runs_call; [apply any_get|]. intros v. eapply runs_call; [apply total_notify|]. intros [].
  eapply runs_told; [exact Hl|done|]. intros rc _.
  eapply settled_call; [apply total_notify|]. intros [].
  eapply settled_call; [by apply any_keep|]. intros [].
  eapply settled_call; [apply total_notify|]. intros []. apply settled_last, free_total.
Qed.

Lemma disassoc_station_runs mgmt info e :
  listed bs mi a ASSOCIATED info e → R !! a = None →
  runs (ap_at x bs mi th (own st a l R any)) (disassoc_station mgmt info l)
    (λ _, settled x a mi th X AUTHENTICATED [ProcessStaMsg mgmt None] (after st a R)).
Proof.
  intros Hl HR. unfold disassoc_station.
  eapply runs_call; [apply authorized_any|]. intros [].
  do 2 (eapply runs_call; [by apply any_keep|]; intros []).
  eapply runs_call; [apply any_get|]. intros v. eapply runs_call; [apply total_notify|]. intros [].
  eapply runs_bind; [by eapply runs_read|]. intros e'. apply runs_pure. intros ->.
  rewrite decide_True by apply Hl. eapply runs_bind; [by eapply (runs_tell x _ _ _ X)|]. intros [].
  eapply settled_call; [by apply any_keep|]. intros [].
  do 2 (eapply settled_call; [apply total_notify|]; intros []).
  eapply settled_call; [apply free_eapol_total, any_closed|]. intros [].
  eapply settled_call; [case_if; [apply total_notify|by apply total_ret]|]. intros [].
  do 2 (eapply settled_call; [apply total_notify|]; intros []).
  eapply settled_call; [by apply any_keep|]. intros [].
  eapply runs_bind; [apply settled_frame; intros; apply disassoc_timer_runs|]. intros [].
  eapply settled_call; [apply total_notify|]. intros [].
  eapply settled_call; [apply any_gets|]. intros h. case_if.
  - eapply settled_call; [by apply any_keep|]. intros [].
    eapply settled_call; [apply total_notify|]. intros []. by apply settled_last, free_after.
  - apply runs_ret. intros s Hs. eapply settled_weaken; [exact Hs|]. intros c. apply own_after.
Qed.

End Leave.
