(* ===== verification/FrameProps.v ===== *)
(** * hostapd's frame handlers: what they do to the stations

    Every management or EAPOL frame, every report that a frame was sent, every timer
    and every order of the controller keeps both lists of stations in order; the
    lemmas for the case that all goes well are here too, and are put together in
    [StaLife.v]. *)

From Stdlib Require Import ZArith Lia.
From S2P Require Import Prelude CMem CStruct CMonad OpenFlow Chain CSteps Agent NatTable.
From S2P Require Import ApData Station StationProps StationMap ApState ApAgent ApStaProps.
From S2P Require Import Elements ElemProps StaMlme MlmeProps MlmeCount Mgmt Eapol MgmtCount MgmtProps.
Import Hapd Elements Mlme Mgmt Eapol.

Section Frames.
  Context `{Platform} `{Env} `{StaSize}.
  Context (x : ap_state) (st : settings) (a : bytes) (m : gmap bytes sta_info).
  Context (bs : list (list (loc * infoSTA))) (mi : gmap bytes infoSTA) (th : list thread).
  Context (Hmac : mac_ok a) (Haddr : addr_ok x a).
  Abbreviation any := (λ _ : sta_info, True).
  Abbreviation AM := (M ap_state).
  Abbreviation start := (ap_at x bs mi th (stations m st)).

(** Of the stations in both lists only [a] has changed; the interface's list has
    not grown beyond its limit. *)
Definition touched (s : ap_state) : Prop :=
  ∃ bs' mi' th', ap_at x bs' mi' th' (after st a (delete a m)) s ∧ delete a mi' = delete a mi ∧
    (Z.of_nat (size mi) ≤ st_max st → Z.of_nat (size mi') ≤ st_max st).

Lemma settled_touched X need ts P s :
  settled x a mi th X need ts P s → (∀ c, P c → after st a (delete a m) c) → touched s.
Proof.
  intros (bs' & mi' & th' & Hs & [Hd Hz] & _) HP. exists bs', mi', th'. rewrite Hz.
  split; [|done]. by eapply ap_at_weaken.
Qed.

Lemma at_touched P s : ap_at x bs mi th P s → (∀ c, P c → after st a (delete a m) c) → touched s.
Proof. intros Hs HP. exists bs, mi, th. split; [|done]. by eapply ap_at_weaken. Qed.

Lemma stations_after c : stations m st c → after st a (delete a m) c.
Proof. by exists m. Qed.

Lemma untouched s : start s → touched s.
Proof. intros Hs. eapply at_touched; [exact Hs|apply stations_after]. Qed.

Lemma ignored {B} (b : B) : runs start (mret b) (λ _, touched).
Proof. apply runs_ret. intros s. apply untouched. Qed.

(** A frame that is ignored unless the station is in the state [need]. *)
Lemma runs_gate {B} need (some : loc → AM B) (none : AM B) Q :
  (∀ i e, listed bs mi a need i e → runs start (some i) Q) →
  ((∀ e, mi !! a = Some e → status e ≠ need) → runs start none Q) →
  runs start (info ← permitted a need; match info with Some i => some i | None => none end) Q.
Proof.
  intros Hsome Hnone. eapply runs_bind; [by apply runs_permitted|]. intros [i|]; apply runs_pure; [|done].
  intros [e Hl]. by eapply Hsome.
Qed.

(** hostapd's station, if there is one. *)
Lemma runs_sta {B} (k : option loc → AM B) Q :
  (∀ l v, m !! a = Some v →
     runs (ap_at x bs mi th (own st a l (delete a m) (eq v))) (k (Some l)) Q) →
  (m !! a = None → runs start (k None) Q) →
  runs start (sta ← ap_get_sta a; k sta) Q.
Proof.
  intros Hsome Hnone. eapply runs_call; [by apply get_sta_total|]. intros [l|].
  - apply runs_core_ex. intros v. apply runs_core. auto.
  - apply runs_core. auto.
Qed.

Lemma runs_any {B} l v (f : AM B) Q :
  runs (ap_at x bs mi th (own st a l (delete a m) any)) f Q →
  runs (ap_at x bs mi th (own st a l (delete a m) (eq v))) f Q.
Proof.
  intros Hf. eapply runs_weaken; [exact Hf| |done]. intros s Hs. eapply ap_at_weaken; [exact Hs|].
  intros c Ho. by eapply own_weaken.
Qed.

Lemma runs_addressee {B} need (k : option loc → AM B) Q :
  (∀ l v, m !! a = Some v → (∃ e, mi !! a = Some e ∧ status e = need) →
     runs (ap_at x bs mi th (own st a l (delete a m) (eq v))) (k (Some l)) Q) →
  runs start (k None) Q →
  runs start (sta ← addressee a need; k sta) Q.
Proof.
  intros Hsome Hnone. unfold addressee.
  intros s Hs. rewrite bind_assoc. revert s Hs. refine (runs_bind start _ _ _ _ _ _); [by apply runs_permitted|].
  intros [i|]; apply runs_pure.
  - intros [e Hl]. apply runs_sta; [|by intros _]. intros l v Hv. apply Hsome; [done|].
    exists e. by destruct Hl as (? & ? & _).
  - intros _. by rewrite mret_bind.
Qed.

(** *** Leaving *)

Lemma handle_deauth_runs (X : Prop) mgmt :
  (X → ∀ t, env_thread t = 0) → mgmt_sa mgmt = Some a →
  (X → 26 ≤ zlen mgmt ∧ (∃ e, mi !! a = Some e ∧ status e = ASSOCIATED) ∧ is_Some (m !! a)) →
  runs start (handle_deauth mgmt)
    (λ _, settled x a mi th X NOT_AUTHENTICATED [ProcessStaMsg mgmt None]
       (λ c, after st a (delete a m) c ∧ (X → stations (delete a m) st c))).
Proof.
  intros HX Hsa Hgood. unfold handle_deauth. eapply runs_opt; [exact Hsa|].
  assert (Hno : ¬ X → runs start skip (λ _, settled x a mi th X NOT_AUTHENTICATED [ProcessStaMsg mgmt None]
       (λ c, after st a (delete a m) c ∧ (X → stations (delete a m) st c)))).
  { intros HX'. apply runs_ret. intros s Hs. eapply settled_same; [|done].
    eapply ap_at_weaken; [exact Hs|]. intros c Hc. split; [by apply stations_after|done]. }
  apply runs_gate.
  2:{ intros Hn. apply Hno. intros HX'. destruct (Hgood HX') as (_ & (e & He & Hs) & _). by apply (Hn e). }
  intros i e Hl. unfold IEEE80211_HDRLEN. destruct (Z.ltb_spec (zlen mgmt) (24 + 2)).
  { apply Hno. intros HX'. destruct (Hgood HX'). lia. }
  apply runs_sta.
  - intros l v Hv. apply runs_any. eapply runs_weaken; [by apply (deauth_station_runs x st a l (delete a m) bs mi th X HX mgmt i e)|done|].
    intros u s Hs. eapply settled_weaken; [exact Hs|]. intros c Hc. split; [|done].
    exists (delete a m). split; [by rewrite delete_delete_eq|done].
  - intros Hn. apply Hno. intros HX'. destruct (Hgood HX') as (_ & _ & [v Hv]). congruence.
Qed.

Lemma handle_disassoc_runs mgmt :
  mgmt_sa mgmt = Some a → runs start (handle_disassoc mgmt) (λ _, touched).
Proof.
  intros Hsa. unfold handle_disassoc. eapply runs_opt; [exact Hsa|]. apply runs_gate.
  2:{ intros _. apply ignored. }
  intros i e Hl. cbn beta. case_if; [apply ignored|]. apply runs_sta.
  2:{ intros _. apply ignored. }
  intros l v _. apply runs_any.
  eapply runs_weaken; [eapply (disassoc_station_runs x st a l _ _ _ _ False); [done|exact Hl|]|done|].
  { apply lookup_delete_eq. }
  intros u s Hs. eapply settled_touched; [exact Hs|]. by intros c Hc.
Qed.

(** *** Actions *)

Lemma multicast_some b : 1 ≤ zlen b → ∃ r, is_multicast_ether_addr b = Some r.
Proof.
  intros Hb. unfold is_multicast_ether_addr. destruct (ld8_ok b 0) as [y ->]; [lia|]. by eexists.
Qed.

Lemma mac_zlen b : mac_ok b → zlen b = 6.
Proof. intros [L _]. unfold zlen. lia. Qed.

Lemma after_gets :
  total (S:=ap_state) (after st a (delete a m)) (gets ap_hapd)
    (λ h c, settings_of h = st ∧ after st a (delete a m) c).
Proof.
  intros s Hs. eexists _, s. split; [reflexivity|]. split; [split; [|done]|apply reached_refl].
  by destruct Hs as (? & _ & ? & [_ _ _ _ _ _ Hst]).
Qed.

Lemma return_action_total mgmt category :
  25 ≤ zlen mgmt → zlen (st_own st) = 6 →
  total (S:=ap_state) (after st a (delete a m)) (return_action mgmt a category)
    (λ _, after st a (delete a m)).
Proof.
  intros Hz Ho. pose proof (mac_zlen a Hmac) as Hsa. unfold return_action.
  destruct (ldn_some mgmt 4 6) as [da Eda]; [lia..|]. eapply total_opt; [exact Eda|].
  apply ldn_Some in Eda as (_ & _ & _ & Hda & _).
  destruct (multicast_some da) as [many Em]; [lia|]. eapply total_opt; [exact Em|].
  destruct (multicast_some a) as [many' Em']; [lia|]. eapply total_opt; [exact Em'|].
  case_if; [|by apply total_ret]. apply total_skip; [apply any_calloc|]. intros [buf|]; [|by apply total_ret].
  eapply total_bind; [apply after_gets|]. intros h. apply total_pure. intros Hst.
  change (own_addr h) with (st_own (settings_of h)). rewrite Hst.
  destruct (stn_ok mgmt 4 a) as [r1 E1]; [lia..|]. eapply total_opt; [exact E1|]. apply stn_zlen in E1.
  destruct (stn_ok r1 10 (st_own st)) as [r2 E2]; [lia..|]. eapply total_opt; [exact E2|]. apply stn_zlen in E2.
  destruct (stn_ok r2 16 (st_own st)) as [r3 E3]; [lia..|]. eapply total_opt; [exact E3|]. apply stn_zlen in E3.
  destruct (stn_ok r3 IEEE80211_HDRLEN [Z.lor category 0x80]) as [r4 E4];
    [done|unfold IEEE80211_HDRLEN; change (zlen [_]) with 1; lia|]. eapply total_opt; [exact E4|].
  apply total_skip; [apply total_notify|]. intros []. by apply total_ret.
Qed.

Lemma action_switch_total mgmt category : 26 ≤ zlen mgmt →
  total (S:=ap_state) (after st a (delete a m)) (action_switch mgmt a category)
    (λ _, after st a (delete a m)).
Proof.
  intros Hz. unfold action_switch. go fail.
  apply total_skip; [by apply sa_query_action_total|]. intros []. by apply total_ret.
Qed.

Lemma action_station_total mgmt sta category :
  27 ≤ zlen mgmt → zlen (st_own st) = 6 →
  total (S:=ap_state) (found_at st a (delete a m) sta) (action_station mgmt a sta category)
    (λ _, after st a (delete a m)).
Proof.
  intros Hz Ho. unfold action_station.
  destruct (le16_some mgmt 0) as [fc Efc]; [lia..|]. eapply total_opt; [exact Efc|].
  destruct (le16_some mgmt 22) as [seq Eseq]; [lia..|]. eapply total_opt; [exact Eseq|].
  apply total_skip.
  { destruct sta as [l|]; [|by apply total_ret]. apply total_skip; [apply any_get|]. intros v. by apply total_ret. }
  intros s. cbv zeta.
  assert (Hret : ∀ r : Z, total (S:=ap_state) (found_at st a (delete a m) sta) (mret r)
    (λ _, after st a (delete a m))).
  { intros r. apply total_ret. intros c Hc. by eapply found_after. }
  do 3 (case_if; [apply Hret|]). apply total_skip.
  { destruct sta as [l|]; [|by apply total_ret]. apply total_skip; [by apply any_keep|].
    intros []. by apply any_keep. }
  intros []. eapply total_bind.
  { eapply total_weaken; [apply action_switch_total; lia|apply found_after|done]. }
  intros [r|]; [by apply total_ret|]. apply return_action_total; [lia|done].
Qed.

Lemma handle_action_runs mgmt : zlen (st_own st) = 6 →
  mgmt_sa mgmt = Some a → runs start (handle_action mgmt) (λ _, touched).
Proof.
  intros Ho Hsa. unfold handle_action. eapply runs_opt; [exact Hsa|]. apply runs_gate.
  2:{ intros _. apply ignored. }
  intros i e Hl. unfold IEEE80211_HDRLEN. destruct (Z.ltb_spec (zlen mgmt) (24 + 2 + 1)); [apply ignored|].
  destruct (ld8_ok mgmt 24) as [cat Ec]; [lia|]. eapply runs_opt; [exact Ec|].
  assert (Hend : ∀ sta, runs (ap_at x bs mi th (found_at st a (delete a m) sta))
    (action_station mgmt a sta cat) (λ _, touched)).
  { intros sta. eapply runs_weaken; [apply runs_total, action_station_total; [lia|done]|done|].
    intros r s Hs. eapply at_touched; [exact Hs|]. by intros c Hc. }
  apply runs_sta.
  - intros l v _. apply runs_any. apply (Hend (Some l)).
  - intros Hn. eapply runs_weaken; [apply (Hend None)| |done]. intros s Hs. eapply ap_at_weaken; [exact Hs|].
    intros c Hc. unfold found_at. by rewrite lookup_delete_eq, delete_id.
Qed.

(** *** All frames *)

Lemma handle_beacon_total P mgmt : bytes_ok mgmt →
  total (S:=ap_state) P (handle_beacon mgmt) (λ _, P).
Proof.
  intros Hb. unfold handle_beacon, IEEE80211_HDRLEN. change (24 + 12) with 36.
  destruct (Z.ltb_spec (zlen mgmt) 36); [by apply total_ret|].
  destruct (parse_elems_ok (take 36 mgmt) (drop 36 mgmt) []) as (els & e & failed & Ep & _).
  { by apply Forall_drop. }
  rewrite app_nil_r, take_drop in Ep.
  replace (zlen (take 36 mgmt)) with 36 in Ep by (unfold zlen in *; rewrite length_take; lia).
  replace (zlen (drop 36 mgmt)) with (zlen mgmt - 36) in Ep by (unfold zlen in *; rewrite length_drop; lia).
  eapply total_opt; [exact Ep|]. destruct (ldn_some mgmt 10 6) as [sa Esa]; [lia..|].
  eapply total_opt; [exact Esa|]. apply total_notify.
Qed.

Lemma then_runs {A B} P (f : AM A) (b : B) Q : runs P f (λ _, Q) → runs P (f;; mret b) (λ _, Q).
Proof. intros Hf. eapply runs_bind; [exact Hf|]. intros u. by apply runs_ret. Qed.

Lemma mgmt_handlers mgmt : bytes_ok mgmt → 24 ≤ zlen mgmt → mgmt_sa mgmt = Some a →
  runs start (handle_auth mgmt) (λ _, touched) ∧
  (∀ re, runs start (handle_assoc mgmt re) (λ _, touched)) ∧
  runs start (handle_deauth mgmt) (λ _, touched).
Proof.
  intros Hb Hz Hsa. split_and!.
  - eapply runs_weaken; [by apply (handle_auth_runs x st a m bs mi th False)|done|].
    intros u s Hs. eapply settled_touched; [exact Hs|]. by intros c [? _].
  - intros re. destruct (Z.ltb_spec (zlen mgmt) (24 + assoc_fixed re)) as [Hlt|Hge].
    { unfold handle_assoc, IEEE80211_HDRLEN. apply Z.ltb_lt in Hlt. rewrite Hlt. apply ignored. }
    assert (4 ≤ assoc_fixed re) by (by destruct re).
    destruct (le16_some mgmt 24) as [cap Ecap]; [lia..|]. destruct (le16_some mgmt 26) as [li Eli]; [lia..|].
    eapply runs_weaken; [by apply (handle_assoc_runs x st a m bs mi th False ltac:(done) mgmt re false cap li [])|done|].
    intros u s [l Hs]. eapply settled_touched; [exact Hs|]. by intros c [? _].
  - eapply runs_weaken; [by apply (handle_deauth_runs False)|done|].
    intros u s Hs. eapply settled_touched; [exact Hs|]. by intros c [? _].
Qed.

Lemma mgmt_runs mgmt : zlen (st_own st) = 6 → bytes_ok mgmt →
  (24 ≤ zlen mgmt → mgmt_sa mgmt = Some a) → runs start (ieee802_11_mgmt mgmt) (λ _, touched).
Proof.
  intros Ho Hb Hsa. unfold ieee802_11_mgmt. destruct (Z.ltb_spec (zlen mgmt) 24); [apply ignored|].
  specialize (Hsa ltac:(done)). destruct (mgmt_handlers mgmt) as (Hauth & Hassoc & Hdeauth); [done..|].
  member (le16_some mgmt 0). rename v into fc, E into Efc. cbv zeta. case_if.
  { apply then_runs. eapply runs_weaken; [apply runs_total; by apply handle_beacon_total|done|].
    intros u s. apply untouched. }
  eapply runs_call; [apply any_gets|]. intros h. member (ldn_some mgmt 16 6). case_if; [apply ignored|].
  eapply runs_opt; [exact Hsa|]. case_if.
  { eapply runs_bind; [apply runs_report|]. intros rc. apply runs_pure. intros _.
    eapply runs_call; [apply total_notify|]. intros []. apply runs_ret. intros s Hs.
    eexists _, _, _. split; [|done]. eapply ap_at_weaken; [exact Hs|apply stations_after]. }
  member (ldn_some mgmt 4 6). case_if; [apply ignored|].
  eapply runs_call; [case_if; [apply total_notify|by apply total_ret]|]. intros [].
  case_if; [by apply then_runs|]. do 2 (case_if; [by apply then_runs|]).
  case_if; [by apply then_runs, handle_disassoc_runs|]. case_if; [by apply then_runs|].
  case_if; [by apply handle_action_runs|apply ignored].
Qed.

(** *** Reports *)

(** Something done to the station a frame was sent to. *)
Lemma addressee_touched need (f : loc → AM unit) :
  (∀ l, total (own st a l (delete a m) any) (f l) (λ _, after st a (delete a m))) →
  runs start (sta ← addressee a need; match sta with None => skip | Some l => f l end) (λ _, touched).
Proof.
  intros Hf. apply runs_addressee; [|apply ignored]. intros l v _ _. apply runs_any.
  eapply runs_weaken; [apply runs_total, Hf|done|]. intros u s Hs. eapply at_touched; [exact Hs|].
  by intros c Hc.
Qed.

Lemma auth_cb_safe mgmt ok : 30 ≤ zlen mgmt → mgmt_da mgmt = Some a →
  runs start (handle_auth_cb mgmt ok) (λ _, touched).
Proof.
  intros Hz Hda. unfold handle_auth_cb. eapply runs_opt; [exact Hda|]. apply addressee_touched.
  intros l. apply total_after.
  destruct (le16_some mgmt 24) as [alg Ea]; [lia..|]. eapply total_opt; [exact Ea|].
  destruct (le16_some mgmt 26) as [t Et]; [lia..|]. eapply total_opt; [exact Et|].
  destruct (le16_some mgmt 28) as [sc Es]; [lia..|]. eapply total_opt; [exact Es|].
  go ltac:(by apply any_keep).
Qed.

Lemma assoc_cb_safe mgmt re ok : mgmt_da mgmt = Some a →
  runs start (handle_assoc_cb mgmt re ok) (λ _, touched).
Proof.
  intros Hda. unfold handle_assoc_cb. eapply runs_opt; [exact Hda|]. apply addressee_touched.
  intros l. apply total_after. apply total_skip; [apply any_get|]. intros v. unfold IEEE80211_HDRLEN.
  destruct (Z.ltb_spec (zlen mgmt) (24 + 6)); [apply total_notify|].
  destruct (le16_some mgmt (24 + 2)) as [sc Es]; [lia..|]. eapply total_opt; [exact Es|].
  go ltac:(by apply any_keep);
    (eapply total_weaken; [apply finish_total|done|]; intros u c Ho; eapply own_weaken; [exact Ho|done]).
Qed.

Lemma leave_cb_safe mgmt : mgmt_da mgmt = Some a →
  runs start (handle_deauth_cb mgmt) (λ _, touched) ∧
  runs start (handle_disassoc_cb mgmt) (λ _, touched).
Proof.
  intros Hda. unfold handle_deauth_cb, handle_disassoc_cb.
  destruct (multicast_some a) as [many Em]; [rewrite mac_zlen by done; lia|].
  split; (eapply runs_opt; [exact Hda|]; eapply runs_opt; [exact Em|]; case_if; [apply ignored|]);
    apply addressee_touched; intros l; apply total_after; [apply deauth_cb_total|apply disassoc_cb_total].
Qed.

(** The interface is asked about the sender. *)
Lemma action_cb_safe mgmt sa : mgmt_da mgmt = Some a → mgmt_sa mgmt = Some sa → addr_ok x sa →
  runs start (handle_action_cb mgmt) (λ _, touched).
Proof.
  intros Hda Hsa Hok. unfold handle_action_cb.
  destruct (multicast_some a) as [many Em]; [rewrite mac_zlen by done; lia|].
  eapply runs_opt; [exact Hda|]. eapply runs_opt; [exact Em|]. case_if; [apply ignored|].
  eapply runs_opt; [exact Hsa|]. eapply runs_bind; [by apply runs_permitted|].
  intros [i|]; apply runs_pure; intros _; [|apply ignored].
  apply runs_sta; [|intros _; apply ignored]. intros l v _. apply runs_any.
  apply (runs_weaken (ap_at x bs mi th (own st a l (delete a m) any)) _ _
    (λ _, ap_at x bs mi th (own st a l (delete a m) any))); [|done|].
  2:{ intros u s Hs. eapply at_touched; [exact Hs|]. intros c. apply own_after. }
  destruct (Z.ltb_spec (zlen mgmt) (24 + 5 + 5)); [by apply runs_ret|].
  member (ld8_ok mgmt 24). member (ld8_ok mgmt 25). member (ld8_ok mgmt 29). member (ld8_ok mgmt 30).
  member (ld8_ok mgmt 33). case_if; [apply runs_total, total_notify|by apply runs_ret].
Qed.

Lemma mgmt_cb_safe mgmt stype ok sa :
  mgmt_da mgmt = Some a → mgmt_sa mgmt = Some sa → addr_ok x sa →
  (stype = Mlme.WLAN_FC_STYPE_AUTH → 30 ≤ zlen mgmt) →
  runs start (ieee802_11_mgmt_cb mgmt stype ok) (λ _, touched).
Proof.
  intros Hda Hsa Hok Hz. destruct (leave_cb_safe mgmt Hda) as [Hc1 Hc2]. unfold ieee802_11_mgmt_cb.
  destruct (Z.eqb_spec stype Mlme.WLAN_FC_STYPE_AUTH); [apply auth_cb_safe; auto|].
  do 2 (case_if; [by apply assoc_cb_safe|]). case_if; [apply ignored|]. do 2 (case_if; [done|]).
  case_if; [by eapply action_cb_safe|apply ignored].
Qed.

Lemma data_safe :
  (∀ ack, runs start (hostapd_tx_status a ack) (λ _, touched)) ∧
  runs start (hostapd_eapol_tx_status a) (λ _, touched) ∧
  runs start (hostapd_client_poll_ok a) (λ _, touched).
Proof.
  split_and!; [intros ack| |].
  - apply addressee_touched. intros l. apply total_after. go ltac:(by apply any_keep).
  - apply addressee_touched. intros l. apply total_after. go fail.
  - apply runs_sta; [|intros _; apply ignored]. intros l v _. apply runs_any.
    eapply runs_weaken; [apply runs_total|done|].
    2:{ intros u s Hs. eapply at_touched; [exact Hs|]. intros c. apply (own_after _ _ l _ any). }
    go ltac:(by apply any_keep).
Qed.

Lemma unknown_safe wds : runs start (ieee802_11_rx_from_unknown a wds) (λ _, touched).
Proof.
  unfold ieee802_11_rx_from_unknown. destruct (multicast_some a) as [many Em]; [rewrite mac_zlen by done; lia|].
  apply runs_gate; [|intros _; apply ignored]. intros i e _. apply runs_sta.
  - intros l v _. apply runs_any.
    eapply (runs_weaken _ _ _ (λ _, ap_at x bs mi th (own st a l (delete a m) any))); [apply runs_total|done|].
    2:{ intros u s Hs. eapply at_touched; [exact Hs|]. intros c. apply own_after. }
    apply (total_bind _ _ (λ r c, (∃ w, r = Some (l, w)) ∧ own st a l (delete a m) any c)).
    { apply total_skip; [apply any_get|]. intros w. apply total_ret. intros c Hc. split; [by exists w|done]. }
    intros r. apply total_pure. intros [w ->]. case_if.
    { unfold enable_wds. go ltac:(by apply any_keep). }
    eapply total_opt; [exact Em|]. go fail.
  - intros _. rewrite mret_bind. eapply runs_opt; [exact Em|]. case_if; [apply ignored|].
    eapply runs_weaken; [apply runs_total, total_notify|done|]. intros u s. apply untouched.
Qed.

(** Something done to the station, if it is still there. *)
Lemma station_touched (f : loc → AM unit) :
  (∀ l, total (own st a l (delete a m) any) (f l) (λ _, after st a (delete a m))) →
  runs start (sta ← ap_get_sta a; match sta with None => skip | Some l => f l end) (λ _, touched).
Proof.
  intros Hf. apply runs_sta; [|intros _; apply ignored]. intros l v _. apply runs_any.
  eapply runs_weaken; [apply runs_total, Hf|done|]. intros u s Hs. eapply at_touched; [exact Hs|].
  by intros c Hc.
Qed.

(** *** EAPOL frames *)

Lemma be16_ok buf off : 0 ≤ off → off + 1 < zlen buf → ∃ v, be_at 2 buf off = Some v.
Proof.
  intros ? ?. unfold be_at. destruct (ldn_some buf off 2) as [d E]; [lia..|]. change (Z.of_nat 2) with 2. rewrite E. by eexists.
Qed.

Lemma handle_eap_total l buf off len : 0 ≤ off → off + len ≤ zlen buf →
  total (own st a l (delete a m) any) (handle_eap l buf off len) (λ _, own st a l (delete a m) any).
Proof.
  intros Ho Hl. unfold handle_eap, sizeof_eap_hdr. destruct (Z.ltb_spec len 4); [by apply total_ret|].
  destruct (be16_ok buf (off + 2)) as [n E]; [lia..|]. eapply total_opt; [exact E|].
  case_if; [by apply total_ret|]. destruct (ld8_ok buf off) as [code Ec]; [lia..|].
  eapply total_opt; [exact Ec|]. go fail.
Qed.

Lemma eapol_station_total l buf :
  total (own st a l (delete a m) any) (eapol_station l buf) (λ _, own st a l (delete a m) any).
Proof.
  unfold eapol_station. change sizeof_ieee802_1x_hdr with 4. change sizeof_ieee802_1x_eapol_key with 44.
  destruct (Z.ltb_spec (zlen buf) 4); [by apply total_ret|].
  destruct (ld8_ok buf 1) as [type Et]; [lia..|]. eapply total_opt; [exact Et|].
  destruct (be16_ok buf 2) as [n En]; [lia..|]. eapply total_opt; [exact En|].
  destruct (Z.ltb_spec (zlen buf - 4) n); [by apply total_ret|].
  assert (∃ k, (if (44 <=? n) && (type =? IEEE802_1X_TYPE_EAPOL_KEY) then ld8 buf 4 else Some 0) = Some k)
    as [k Ek].
  { destruct (Z.leb_spec 44 n); [|by eexists]. simpl. case_match; [|by eexists]. apply ld8_ok; lia. }
  eapply total_opt; [exact Ek|]. case_if; [go fail|].
  unfold eapol_frame, ieee802_1x_alloc_eapol_sm, eapol_switch. go ltac:(by apply any_keep).
  all: apply handle_eap_total; change sizeof_ieee802_1x_hdr with 4; lia.
Qed.

Lemma eapol_safe buf : runs start (ieee802_1x_receive a buf) (λ _, touched).
Proof.
  apply runs_gate; [|intros _; apply ignored]. intros i e _.
  eapply runs_call; [apply any_gets|]. intros h. case_if; [apply ignored|].
  apply station_touched. intros l. apply total_after. go fail; [|apply eapol_station_total].
  unfold ieee802_1x_save_eapol. go ltac:(by apply any_keep).
Qed.

(** *** The controller's messages *)

Lemma stations_set c : stations m st c → c_set c = st.
Proof. by intros [? []]. Qed.

Lemma select_runs oh : station_of oh = Some a →
  runs start (wlan_add_sta oh) (λ _ s, ∃ bs' mi', ap_at x bs' mi' th (stations m st) s ∧
    (delete a mi' = delete a mi ∧ (Z.of_nat (size mi) ≤ st_max st → Z.of_nat (size mi') ≤ st_max st)) ∧
    (is_Some (mi !! a) ∨ Z.of_nat (size mi) < st_max st → (∀ t n, env_calloc t n = true) →
     ∃ e, mi' = <[a := e]> mi ∧ status e = SELECTED)).
Proof.
  intros Hoh. unfold wlan_add_sta. eapply runs_opt; [exact Hoh|].
  eapply runs_bind; [by apply runs_lookup|]. intros [i|]; apply runs_pure.
  - intros [e Hl]. rewrite mret_bind. eapply runs_weaken; [by eapply runs_changeStatus|done|].
    intros u s (bs' & e' & (Hst & _ & _) & Hs). exists bs', (<[a := e']> mi). split; [done|].
    rewrite delete_insert_eq, map_size_insert_Some by (exists e; by destruct Hl). eauto.
  - intros Hm. eapply runs_bind; [by apply (runs_addSTA _ _ _ _ _ _ st), Hm; [|apply stations_set]|].
    intros [i|].
    + apply runs_ex. intros bs'. apply runs_ex. intros e. apply runs_pure. intros Hl. apply runs_pure. intros Hsz.
      eapply runs_weaken; [by eapply runs_changeStatus|done|].
      intros u s (bs'' & e' & (Hst & _ & _) & Hs). rewrite insert_insert_eq in Hs.
      exists bs'', (<[a := e']> mi). split; [done|].
      rewrite map_size_insert_None in Hsz |- * by done. rewrite delete_insert_eq. eauto.
    + apply runs_pure. intros Hno. apply runs_ret. intros s Hs. exists bs, mi. split_and!; [done..|].
      intros Hroom Hal. exfalso. destruct Hno as [?|(t & n & ?)]; [|congruence].
      destruct Hroom as [[e ?]|?]; [congruence|lia].
Qed.

(** The interface's entry has changed, hostapd's list is [m]. *)
Lemma entry_touched bs' e e' th' P s :
  mi !! a = Some e → ap_at x bs' (<[a := e']> mi) th' P s →
  (∀ c, P c → after st a (delete a m) c) → touched s.
Proof.
  intros He Hs HP. exists bs', (<[a := e']> mi), th'.
  rewrite delete_insert_eq, map_size_insert_Some by eauto. split; [|done]. by eapply ap_at_weaken.
Qed.

Lemma remove_runs oh : station_of oh = Some a →
  runs start (wlan_remove_sta oh) (λ _, touched).
Proof.
  intros Hoh. unfold wlan_remove_sta. eapply runs_opt; [exact Hoh|].
  eapply runs_bind; [by apply runs_lookup|]. intros [i|]; apply runs_pure; [|intros _; apply ignored].
  intros [e Hl]. eapply runs_bind; [by eapply runs_changeStatus|]. intros [].
  apply runs_ex. intros bs'. apply runs_ex. intros e'. apply runs_pure. intros (Hst & Hin & Hk).
  assert (Hl' : listed bs' (<[a := e']> mi) a (status e') i e')
    by (unfold listed; by rewrite lookup_insert_eq).
  eapply runs_bind; [by eapply runs_read|]. intros e''. apply runs_pure. intros -> s Hs.
  assert (Ha : address e' = a) by (apply (aa_addr _ _ _ _ _ _ Hs); by rewrite lookup_insert_eq).
  revert s Hs. refine (runs_weaken _ _ _ _ _ (runs_total x bs' _ th _ _ _ (remove_STA_total st m e' _)) _ _).
  { by rewrite Ha. } { done. }
  intros u s Hs. eapply entry_touched; [apply Hl|exact Hs|]. intros c Hc. rewrite Ha in Hc.
  exists (delete a m). by rewrite delete_delete_eq.
Qed.

Lemma notify_runs : runs start (notify_controller_disassoc a) (λ _, touched).
Proof.
  unfold notify_controller_disassoc. eapply runs_bind; [by apply runs_lookup|].
  intros [i|]; apply runs_pure; [|intros _; apply ignored]. intros [e Hl].
  eapply runs_bind; [by eapply runs_read|]. intros e'. apply runs_pure. intros ->.
  destruct (status e) eqn:Est; try apply ignored.
  eapply runs_bind; [by eapply runs_changeStatus|]. intros [].
  apply runs_ex. intros bs'. apply runs_ex. intros e'. apply runs_pure. intros _.
  unfold pthread_create. eapply runs_call; [apply any_ask|]. intros rc.
  eapply runs_weaken; [apply runs_start|done|]. intros u s Hs.
  eapply entry_touched; [apply Hl|exact Hs|apply stations_after].
Qed.

(** *** When all goes well *)

(** A frame of the type [stype] from [a] for this network, not a repetition. *)
Record frame_for (stype : Z) (mgmt : bytes) : Prop := {
  ff_bytes : bytes_ok mgmt;
  ff_len : 24 ≤ zlen mgmt;
  ff_type : ∃ fc, frame_control mgmt = Some fc ∧ WLAN_FC_GET_STYPE fc = stype ∧
    Z.land fc WLAN_FC_RETRY = 0;
  ff_da : mgmt_da mgmt = Some (st_own st);
  ff_bssid : mgmt_bssid mgmt = Some (st_own st);
  ff_sa : mgmt_sa mgmt = Some a;
}.

(** Such a frame gets to its handler. *)
Lemma runs_dispatch stype mgmt (f : AM unit) Q :
  frame_for stype mgmt →
  (stype, f) ∈ [(Mlme.WLAN_FC_STYPE_AUTH, handle_auth mgmt);
                (Hapd.WLAN_FC_STYPE_ASSOC_REQ, handle_assoc mgmt false);
                (Mlme.WLAN_FC_STYPE_DEAUTH, handle_deauth mgmt)] →
  runs start f (λ _, Q) → runs start (ieee802_11_mgmt mgmt) (λ _, Q).
Proof.
  intros [Hb Hz (fc & Efc & Est & _) Hda Hbs Hsa] Hin Hf. unfold ieee802_11_mgmt.
  destruct (Z.ltb_spec (zlen mgmt) 24); [lia|]. eapply runs_opt; [exact Efc|]. rewrite Est. cbv zeta.
  assert (Hown : memcmp6 (st_own st) (st_own st) = true) by (by apply bool_decide_eq_true_2).
  assert (Hst : (stype =? WLAN_FC_STYPE_BEACON) = false ∧ (stype =? Mlme.WLAN_FC_STYPE_PROBE_REQ) = false).
  { rewrite !elem_of_cons, elem_of_nil in Hin. by destruct Hin as [[= -> _]|[[= -> _]|[[= -> _]|[]]]]. }
  destruct Hst as [-> E2]. eapply runs_call; [apply ap_gets|]. intros h. apply runs_core. intros Hset.
  change (own_addr h) with (st_own (settings_of h)). rewrite Hset.
  eapply runs_opt; [exact Hbs|]. rewrite Hown, andb_false_r. eapply runs_opt; [exact Hsa|]. rewrite E2.
  eapply runs_opt; [exact Hda|]. rewrite Hown, andb_false_r.
  eapply runs_call; [case_if; [apply total_notify|by apply total_ret]|]. intros [].
  rewrite !elem_of_cons, elem_of_nil in Hin.
  destruct Hin as [[= -> ->]|[[= -> ->]|[[= -> ->]|[]]]]; by apply then_runs.
Qed.

End Frames.

Section Live.
  Context `{Platform} `{Env} `{StaSize}.
  Context (x : ap_state) (st : settings) (a : bytes) (R : gmap bytes sta_info) (l : loc).
  Context (bs : list (list (loc * infoSTA))) (mi : gmap bytes infoSTA) (th : list thread).
  Context (Hmac : mac_ok a) (Haddr : addr_ok x a).

Lemma addressee_own F need :
  runs (ap_at x bs mi th (own st a l R F)) (addressee a need) (λ p s,
    (p = Some l ∨ p = None ∧ ∀ e, mi !! a = Some e → status e ≠ need) ∧
    ap_at x bs mi th (own st a l R F) s).
Proof.
  unfold addressee. eapply runs_bind; [by apply runs_permitted|]. intros [i|]; apply runs_pure.
  - intros _. eapply runs_weaken; [apply runs_total, get_again; done|done|].
    intros p s [? ? ? ? [-> ?] ? ? ?]. split; [by left|by constructor].
  - intros Hno. apply runs_ret. intros s Hs. split; [by right|done].
Qed.

(** The report about an authentication changes nothing that matters. *)
Lemma auth_cb_live F mgmt ok : 30 ≤ zlen mgmt → mgmt_da mgmt = Some a →
  closed [] F → (∀ v, F v → F (add_flag WLAN_STA_AUTH v)) →
  runs (ap_at x bs mi th (own st a l R F)) (handle_auth_cb mgmt ok)
    (λ _, ap_at x bs mi th (own st a l R F)).
Proof.
  intros Hz Hda HF HF'. unfold handle_auth_cb. eapply runs_opt; [exact Hda|].
  eapply runs_bind; [apply addressee_own|]. intros p. apply runs_pure.
  intros [->|[-> _]]; [|by apply runs_ret].
  member (le16_some mgmt 24). member (le16_some mgmt 26). member (le16_some mgmt 28).
  apply runs_total. go ltac:(first [al HF|apply own_keep; [done|done|intros u W; by apply wf_upd|exact HF']]).
Qed.

(** The report that a positive answer was received makes the station associated. *)
Lemma assoc_cb_live F mgmt reassoc : 30 ≤ zlen mgmt → mgmt_da mgmt = Some a →
  le16_at mgmt 26 = Some WLAN_STATUS_SUCCESS → (∃ e, mi !! a = Some e ∧ status e = ASSOCIATED) →
  runs (ap_at x bs mi th (own st a l R F)) (handle_assoc_cb mgmt reassoc true)
    (λ _, ap_at x bs mi th (own st a l R (λ w, ∃ v, F v ∧ joined st v w))).
Proof.
  intros Hz Hda Hsc (e & He & Hst). unfold handle_assoc_cb, IEEE80211_HDRLEN.
  eapply runs_opt; [exact Hda|].
  eapply runs_bind; [apply addressee_own|]. intros p. apply runs_pure.
  intros [->|[-> Hno]]; [|by destruct (Hno e)]. eapply runs_call; [apply any_get|]. intros v.
  destruct (Z.ltb_spec (zlen mgmt) (24 + 6)); [lia|]. eapply runs_opt; [exact Hsc|].
  apply runs_total, finish_total.
Qed.

(** A report that the answer was lost, or that it was negative, leaves the station
    as it is but for one flag. *)
Lemma assoc_cb_lost F mgmt reassoc : 30 ≤ zlen mgmt → mgmt_da mgmt = Some a → closed [15] F →
  runs (ap_at x bs mi th (own st a l R F)) (handle_assoc_cb mgmt reassoc false)
    (λ _, ap_at x bs mi th (own st a l R F)).
Proof.
  intros Hz Hda HF. unfold handle_assoc_cb, IEEE80211_HDRLEN. eapply runs_opt; [exact Hda|].
  eapply runs_bind; [apply addressee_own|]. intros p. apply runs_pure.
  intros [->|[-> _]]; [|by apply runs_ret]. eapply runs_call; [apply any_get|]. intros v.
  destruct (Z.ltb_spec (zlen mgmt) (24 + 6)); [apply runs_total, total_notify|].
  member (le16_some mgmt (24 + 2)). apply runs_total. cbn [negb]. go ltac:(al HF).
Qed.

End Live.

(** ** Whatever happens *)

Inductive timer := Inactivity | Session | SaQuery | AwaitDeauth | AwaitDisassoc.

(** What reaches the access point: frames, reports that a frame was sent, timers,
    and the controller's messages that select or remove a station. *)
Inductive input :=
| Frame (mgmt : bytes)
| Sent (mgmt : bytes) (stype : Z) (ok : bool)
| DataSent (a : bytes) (ack : bool)
| EapolSent (a : bytes)
| PollOk (a : bytes)
| FromUnknown (a : bytes) (wds : bool)
| Eapol (a buf : bytes)
| Expires (t : timer) (a : bytes)
| Absent (a : bytes)
| Select (oh : bytes)
| Remove (oh : bytes).

(** The station it is about. *)
Definition names (i : input) : option bytes :=
  match i with
  | Frame mgmt => mgmt_sa mgmt
  | Sent mgmt _ _ => mgmt_da mgmt
  | DataSent a _ | EapolSent a | PollOk a | FromUnknown a _ | Eapol a _ | Expires _ a | Absent a => Some a
  | Select oh | Remove oh => station_of oh
  end.

Section Inputs.
  Context `{Platform} `{Env} `{StaSize}.
  Abbreviation AM := (M ap_state).

(** The timers of a station are cancelled with it, so one that expires belongs to
    a station of the table. *)
Definition on_timer (t : timer) (l : loc) : AM unit :=
  match t with
  | Inactivity => ap_handle_timer l
  | Session => ap_handle_session_timer l
  | SaQuery => ap_sa_query_timer l
  | AwaitDeauth => ap_sta_deauth_cb_timeout l
  | AwaitDisassoc => ap_sta_disassoc_cb_timeout l
  end.

Definition on_input (i : input) : AM unit :=
  match i with
  | Frame mgmt => _ ← ieee802_11_mgmt mgmt; skip
  | Sent mgmt stype ok => ieee802_11_mgmt_cb mgmt stype ok
  | DataSent a ack => hostapd_tx_status a ack
  | EapolSent a => hostapd_eapol_tx_status a
  | PollOk a => hostapd_client_poll_ok a
  | FromUnknown a wds => ieee802_11_rx_from_unknown a wds
  | Eapol a buf => ieee802_1x_receive a buf
  | Expires t a =>
      sta ← ap_get_sta a;
      match sta with None => skip | Some l => on_timer t l end
  | Absent a => notify_controller_disassoc a
  | Select oh => wlan_add_sta oh
  | Remove oh => wlan_remove_sta oh
  end.

Fixpoint on_inputs (ins : list input) : AM unit :=
  match ins with
  | [] => skip
  | i :: ins => on_input i;; on_inputs ins
  end.

(** Addresses whose fourth byte is an index of the interface's table, and reports
    about frames that are as long as their type demands. *)
Definition input_ok (s : ap_state) (i : input) : Prop :=
  match i with
  | Frame mgmt => bytes_ok mgmt ∧ ∀ a, mgmt_sa mgmt = Some a → addr_ok s a
  | Sent mgmt stype _ =>
      bytes_ok mgmt ∧ (if stype =? Mlme.WLAN_FC_STYPE_AUTH then 30 else 24) ≤ zlen mgmt ∧
      ∀ a, mgmt_sa mgmt = Some a ∨ mgmt_da mgmt = Some a → addr_ok s a
  | DataSent a _ | EapolSent a | PollOk a | FromUnknown a _ | Eapol a _ | Expires _ a | Absent a =>
      bytes_ok a ∧ addr_ok s a
  | Select oh | Remove oh => ∃ a, station_of oh = Some a ∧ bytes_ok a ∧ addr_ok s a
  end.

(** The interface's list is [mi], hostapd's own list is [m], and both are in
    order. *)
Record ap_ok (s : ap_state) (mi : gmap bytes infoSTA) (m : gmap bytes sta_info) : Prop := {
  ok_stas : sta_inv s mi;
  ok_addr : map_Forall (λ k e, address e = k) mi;
  ok_hapd : hapd_ok (ap_hapd s) m;
  ok_own : zlen (own_addr (ap_hapd s)) = 6;
}.

Abbreviation settings_at s := (settings_of (ap_hapd s)).

Lemma ok_at s mi m : ap_ok s mi m →
  ∃ bs, ap_at s bs mi (ap_threads s) (stations m (settings_at s)) s.
Proof.
  intros [[[bs Hr] Hmx Hn Hle] Ha [Hs Hc] _]. exists bs. constructor; try done.
  exists (ap_stas s), (ap_num_sta s), (ap_hapd s), (ap_sys s). by destruct s.
Qed.

Lemma at_ok s0 bs mi th m s :
  ap_at s0 bs mi th (stations m (settings_at s0)) s → Z.of_nat (size mi) ≤ st_max (settings_at s0) →
  counted (ap_hapd s) → zlen (own_addr (ap_hapd s0)) = 6 → ap_ok s mi m.
Proof.
  intros [Hr Hmx Hn Ht Hc Hh Hx Ha] Hle Hcnt Ho. pose proof (stations_settings _ _ _ Hc) as Est.
  constructor; [constructor|..]; try done.
  - by exists bs.
  - change (max_sta s) with (st_max (settings_at s)). by rewrite Est.
  - constructor; [by rewrite Est|done].
  - change (own_addr (ap_hapd s)) with (st_own (settings_at s)). by rewrite Est.
Qed.

Lemma timer_touched t st a l R : R !! a = None →
  total (S:=ap_state) (own st a l R (λ _, True)) (on_timer t l) (λ _, after st a R).
Proof.
  intros HR. destruct t; unfold on_timer.
  - by apply timer_total.
  - by apply session_timer_total.
  - by apply total_after, sa_query_timer_total, any_closed.
  - by apply total_after, deauth_cb_timeout_total, any_closed.
  - by apply total_after, disassoc_cb_timeout_total, any_closed.
Qed.

Lemma input_touched x bs mi th st m i a :
  input_ok x i → names i = Some a → zlen (st_own st) = 6 →
  runs (ap_at x bs mi th (stations m st)) (on_input i) (λ _, touched x st a m mi).
Proof.
  intros Hok Hn Ho.
  assert (Hmac : bytes_ok a → addr_ok x a → mac_ok a) by (intros ? []; by split).
  destruct i as [mgmt|mgmt stype ok|b ack|b|b|b wds|b buf|t b|b|oh|oh]; cbn [names input_ok on_input] in *.
  - destruct Hok as [Hb Hadr]. specialize (Hadr a Hn).
    eapply runs_bind; [eapply mgmt_runs; [by eapply ldn_mac|done|done|done|by intros _]|].
    intros r. by apply runs_ret.
  - destruct Hok as (Hb & Hz & Hadr).
    assert (24 ≤ zlen mgmt) by (destruct (stype =? Mlme.WLAN_FC_STYPE_AUTH); lia).
    destruct (ldn_some mgmt 10 6) as [sa Hsa]; [lia..|].
    assert (mac_ok a) by (by eapply ldn_mac).
    eapply (mgmt_cb_safe x st a m bs mi th); [done|by auto|done|exact Hsa|by auto|].
    intros ->. by rewrite Z.eqb_refl in Hz.
  - injection Hn as ->. destruct Hok. by eapply data_safe; auto.
  - injection Hn as ->. destruct Hok. by eapply data_safe; auto.
  - injection Hn as ->. destruct Hok. by eapply data_safe; auto.
  - injection Hn as ->. destruct Hok. by eapply unknown_safe; auto.
  - injection Hn as ->. destruct Hok. by eapply eapol_safe; auto.
  - injection Hn as ->. destruct Hok. eapply station_touched; auto. intros l.
    apply timer_touched, lookup_delete_eq.
  - injection Hn as ->. destruct Hok. by eapply notify_runs; auto.
  - destruct Hok as (a' & E & ? & ?). simplify_eq.
    eapply runs_weaken; [by eapply select_runs; auto|done|].
    intros u s (bs' & mi' & Hs & [Hd Hz] & _). exists bs', mi', th. split; [|done].
    eapply ap_at_weaken; [exact Hs|apply stations_after].
  - destruct Hok as (a' & E & ? & ?). simplify_eq. by eapply remove_runs; auto.
Qed.

Lemma input_counts i : counts (on_input i).
Proof. destruct i as [mgmt| | | | | | |t a| | |]; cbn [on_input]; [..|]; ct. destruct t; cbn; ct. Qed.

Lemma delete_others {V} (m m' : gmap bytes V) a b :
  delete a m' = delete a m → a ≠ b → m' !! b = m !! b.
Proof. intros E Hne. by rewrite <- (lookup_delete_ne m' a), E, lookup_delete_ne. Qed.

Lemma input_ok_heads s s' i :
  zlen (tab_heads (ap_stas s')) = zlen (tab_heads (ap_stas s)) → input_ok s i → input_ok s' i.
Proof.
  intros E. assert (Ha : ∀ a, addr_ok s a → addr_ok s' a).
  { intros a [L (k & Hk & Hb)]. constructor; [done|]. exists k. by rewrite E. }
  destruct i; cbn [input_ok]; try (by intros [? ?]; auto); try (by intros (? & ? & ?); auto);
    intros (? & ? & ? & ?); eauto.
Qed.

(** Frames too short to name anybody. *)
Lemma unnamed i s : input_ok s i → names i = None → on_input i s = Ret () s.
Proof.
  destruct i as [mgmt|mgmt stype ok| | | | | | | |oh|oh]; cbn [names input_ok on_input]; try done.
  - intros _ E. unfold mgmt_sa in E. rewrite ldn_None in E.
    unfold ieee802_11_mgmt. destruct (Z.ltb_spec (zlen mgmt) 24); [done|lia].
  - intros (_ & Hz & _) E. unfold mgmt_da in E. rewrite ldn_None in E.
    destruct (stype =? Mlme.WLAN_FC_STYPE_AUTH); lia.
  - intros (a & E & _) E'. congruence.
  - intros (a & E & _) E'. congruence.
Qed.

Lemma input_step s mi m i :
  ap_ok s mi m → input_ok s i →
  match on_input i s with
  | Ret _ s' => ∃ mi' m', ap_ok s' mi' m' ∧
      zlen (tab_heads (ap_stas s')) = zlen (tab_heads (ap_stas s)) ∧
      ∀ a, names i ≠ Some a → mi' !! a = mi !! a ∧ m' !! a = m !! a
  | Exit c _ => c = -1 ∧ ∃ t, env_thread t ≠ 0
  | Crash => ∃ t n, env_calloc t n = false
  | Hang => False
  end.
Proof.
  intros Hok Hi. destruct (names i) as [a|] eqn:En; [|rewrite unnamed by done; by exists mi, m].
  destruct (ok_at s mi m Hok) as [bs Hat]. pose proof Hok as [[_ _ _ Hle] _ [_ Hcnt] Ho].
  pose proof (input_touched s bs mi _ (settings_at s) m i a Hi En Ho s Hat) as Hr.
  pose proof (input_counts i s Hcnt) as Hc. destruct (on_input i s) as [u s'| | |]; try done.
  destruct Hr as (bs' & mi' & th' & [? ? ? ? (m' & Hm' & Hs') Hh ? ?] & Hd & Hsz).
  exists mi', m'. split_and!; [|done|].
  - by eapply (at_ok s bs' mi' th'); [constructor|auto|..].
  - intros b Hne. split; (eapply delete_others; [eassumption|congruence]).
Qed.


End Inputs.
