(* ===== verification/StaLife.v ===== *)
(** * The life of a station at the access point

    A station that the controller has selected gets in: its authentication and its
    association are accepted, both are reported to the controller, and the station
    is associated in hostapd's list and in the interface's.  A station that leaves
    is gone.  Frames of a station that is not in the state in which they are
    allowed change nothing. *)

From Stdlib Require Import ZArith Lia.
From S2P Require Import Prelude CMem CStruct CMonad OpenFlow Chain CSteps Agent NatTable.
From S2P Require Import ApData Station StationProps StationMap ApState ApNat ApNatProps ApAgent ApStaProps.
From S2P Require Import Elements ElemProps StaMlme MlmeProps MlmeCount Mgmt Eapol MgmtCount MgmtProps FrameProps.
Import Hapd Elements Mlme Mgmt Eapol.

(** An open network that has nothing against the station [a]. *)
Record open_to (st : settings) (a : bytes) : Prop := {
  op_open : open_network st;
  op_algs : Z.land (st_auth_algs st) WPA_AUTH_ALG_OPEN ≠ 0;
  op_tkip : st_tkip st = false;
  op_ad : st_ad st = false;
  op_own : memcmp6 a (st_own st) = false;
  op_seen : no_auth_if_seen_on (st_bss st) = false;
}.

(** The station's request for open authentication. *)
Record auth_request (st : settings) (a mgmt : bytes) : Prop := {
  ar_frame : frame_for st a Mlme.WLAN_FC_STYPE_AUTH mgmt;
  ar_len : 30 ≤ zlen mgmt;
  ar_alg : mgmt_auth_alg mgmt = Some WLAN_AUTH_OPEN;
  ar_transaction : le16_at mgmt 26 = Some 1;
}.

(** Its request to be associated, with the elements [els]. *)
Record assoc_request (st : settings) (a : bytes) (cap interval : Z) (els : list element)
    (mgmt : bytes) : Prop := {
  sr_frame : frame_for st a Hapd.WLAN_FC_STYPE_ASSOC_REQ mgmt;
  sr_len : 28 ≤ zlen mgmt;
  sr_cap : le16_at mgmt 24 = Some cap;
  sr_interval : le16_at mgmt 26 = Some interval;
  sr_elements : drop 28 mgmt = encode_all els;
  sr_mic : Forall (λ el, el_id el ≠ WLAN_EID_MIC) els;
  sr_accept : acceptable st els;
  sr_max : interval ≤ max_listen_interval (st_bss st);
}.

(** The answers, as the driver hands them back when they were received. *)
Record auth_answer (a mgmt : bytes) : Prop := {
  aw_len : 30 ≤ zlen mgmt;
  aw_da : mgmt_da mgmt = Some a;
}.
Record assoc_answer (a mgmt : bytes) : Prop := {
  bw_len : 30 ≤ zlen mgmt;
  bw_da : mgmt_da mgmt = Some a;
  bw_status : le16_at mgmt 26 = Some WLAN_STATUS_SUCCESS;
}.

(** A member of the network. *)
Record member_sta (cap interval : Z) (els : list element) (v : sta_info) : Prop := {
  mb_authenticated : bit 0 v = true;
  mb_associated : bit 1 v = true;
  mb_authorized : bit 5 v = true;
  mb_aid : 1 ≤ aid v ≤ 2007;
  mb_capability : capability v = cap;
  mb_interval : listen_interval v = interval;
  mb_rates : rates_of els v;
}.

(** One list of inputs after another. *)
Lemma inputs_app `{Platform} `{Env} `{StaSize} P ins1 ins2 (Q R : unit → ap_state → Prop) :
  runs P (on_inputs ins1) Q → runs (Q ()) (on_inputs ins2) R → runs P (on_inputs (ins1 ++ ins2)) R.
Proof.
  intros Hf Hk s Hs. specialize (Hf s Hs). clear Hs. revert s Hf.
  induction ins1 as [|i ins1 IH]; intros s; cbn [on_inputs app]; [by apply Hk|].
  unfold mbind, M_bind. destruct (on_input i s); [apply IH|done..].
Qed.

Section Join.
  Context `{Platform} `{Env} `{StaSize}.
  Context (x : ap_state) (st : settings) (a : bytes) (Hmac : mac_ok a) (Haddr : addr_ok x a).
  Context (Hopen : open_to st a) (Hfr : friendly) (Hth : ∀ t, env_thread t = 0).

Lemma join_auth bs mi th m e mgmt :
  auth_request st a mgmt → status e = SELECTED → Z.of_nat (size (delete a m)) < st_max st →
  runs (ap_at x bs (<[a := e]> mi) th (stations m st)) (on_input (Frame mgmt)) (λ _ s,
    ∃ bs' e' l, status e' = AUTHENTICATED ∧
      ap_at x bs' (<[a := e']> mi) (th ++ [ProcessStaMsg mgmt None])
        (own st a l (delete a m) (λ v, bit 0 v = true)) s).
Proof.
  intros [Hf Hz Halg Ht] Hst Hroom. pose proof Hf as [Hb _ (fc & Efc & _ & Hre) _ _ Hsa].
  eapply runs_bind.
  { eapply (runs_dispatch x st a m _ _ th _ mgmt (handle_auth mgmt)); [done..|exact Hf|left|].
    apply (handle_auth_runs x st a m bs _ th True); [done|done|apply Hf|done|done|].
    intros _. split_and!; [done| |done|].
    - exists e. by rewrite lookup_insert_eq.
    - intros alg t fc' E1 E2 E3. destruct Hopen. constructor; congruence. }
  intros r. apply runs_ret. intros s (bs' & mi' & th' & Hs & _ & Hx).
  destruct (Hx I) as (-> & e' & -> & He'). rewrite insert_insert_eq in Hs.
  destruct Hs as [? ? ? ? [_ Hl] ? ? ?]. destruct (Hl I) as [l Ho]. exists bs', e', l. split; [done|].
  by constructor.
Qed.

Lemma join_assoc bs mi th R l e fresh cap interval els mgmt :
  assoc_request st a cap interval els mgmt → status e = AUTHENTICATED → Z.of_nat (size R) < 2007 →
  runs (ap_at x bs (<[a := e]> mi) th (own st a l R (ready fresh))) (on_input (Frame mgmt)) (λ _ s,
    ∃ bs' e' l', status e' = ASSOCIATED ∧
      ap_at x bs' (<[a := e']> mi) (th ++ [ProcessStaMsg mgmt (Some l')])
        (own st a l' R (accepted_sta fresh cap interval els)) s).
Proof.
  intros [Hf Hz Hcap Hli Hel Hmic Hacc Hmax] Hst Hroom.
  pose proof Hf as [Hb _ (fc & Efc & _ & Hre) _ _ Hsa]. intros s0 Hs0.
  destruct (aa_core _ _ _ _ _ _ Hs0) as (? & v & Sh & _ & _ & HR & Fv).
  assert (ED : delete a (<[a := v]> R) = R) by (by apply delete_insert_id).
  assert (Hs1 : ap_at x bs (<[a := e]> mi) th (stations (<[a := v]> R) st) s0)
    by (destruct Hs0; constructor; eauto; by eexists).
  revert s0 Hs1 Hs0 Sh. intros s0 Hs1 _ _. revert s0 Hs1.
  refine (runs_bind _ _ _ _ _ _ _).
  { eapply (runs_dispatch x st a _ _ _ th _ mgmt (handle_assoc mgmt false)); [done..|exact Hf| |].
    { right. left. }
    apply (handle_assoc_runs x st a (<[a := v]> R) bs _ th True) with (fresh := fresh) (els := els); try done.
    intros _. rewrite ED. split_and!.
    - split; [intros fc' E; congruence|]. destruct Hopen. by constructor.
    - exists e. by rewrite lookup_insert_eq.
    - exists v. by rewrite lookup_insert_eq. }
  intros r. apply runs_ret. intros s [l' (bs' & mi' & th' & Hs & _ & Hx)].
  destruct (Hx I) as (-> & e' & -> & He'). rewrite insert_insert_eq in Hs. rewrite ED in Hs.
  destruct Hs as [? ? ? ? [_ Hl] ? ? ?]. exists bs', e', l'. split; [done|]. constructor; auto.
Qed.

Lemma insert_size (mi : gmap bytes infoSTA) e e' : size (<[a := e]> mi) = size (<[a := e']> mi).
Proof.
  destruct (mi !! a) as [e0|] eqn:E; [by rewrite !map_size_insert_Some by (by exists e0)|].
  by rewrite !map_size_insert_None.
Qed.

(** The controller selects the station, and it authenticates. *)
Lemma select_auth_runs bs mi th m oh auth reply :
  Z.of_nat (size mi) ≤ st_max st → is_Some (mi !! a) ∨ Z.of_nat (size mi) < st_max st →
  Z.of_nat (size (delete a m)) < st_max st →
  station_of oh = Some a → auth_request st a auth → auth_answer a reply →
  runs (ap_at x bs mi th (stations m st))
    (on_inputs [Select oh; Frame auth; Sent reply Mlme.WLAN_FC_STYPE_AUTH true]) (λ _ s,
    ∃ bs' e l, (Z.of_nat (size (<[a := e]> mi)) ≤ st_max st ∧ status e = AUTHENTICATED) ∧
      ap_at x bs' (<[a := e]> mi) (th ++ [ProcessStaMsg auth None])
        (own st a l (delete a m) (λ v, bit 0 v = true)) s).
Proof.
  intros Hle Hroomi Hroom Hoh Hauth [Hz1 Hda1]. cbn [on_inputs].
  eapply runs_bind; [by eapply (select_runs x st a m bs mi th)|]. intros [].
  apply runs_ex. intros bs1. apply runs_ex. intros mi1 s0 (Hs0 & [_ Hsz] & Hsel).
  destruct (Hsel Hroomi (fr_alloc Hfr)) as (e1 & -> & He1). specialize (Hsz Hle). clear Hsel.
  revert s0 Hs0. refine (runs_bind _ _ _ _ _ _ _); [by apply join_auth|].
  intros []. apply runs_ex. intros bs2. apply runs_ex. intros e2. apply runs_ex. intros l.
  apply runs_pure. intros He2. eapply runs_bind.
  { apply (auth_cb_live x st a); [done..| |].
    - intros v w A Hv. rewrite (al_bits _ _ _ A); [done|apply not_elem_of_nil].
    - intros v Hv. by rewrite bit_add, Hv. }
  intros []. apply runs_ret. intros s Hs. exists bs2, e2, l. by rewrite (insert_size _ _ e1).
Qed.

(** Then it is associated. *)
Lemma assoc_runs bs mi th R l e cap interval els assoc answer :
  status e = AUTHENTICATED → Z.of_nat (size R) < 2007 →
  assoc_request st a cap interval els assoc → assoc_answer a answer →
  runs (ap_at x bs (<[a := e]> mi) th (own st a l R (λ v, bit 0 v = true)))
    (on_inputs [Frame assoc; Sent answer WLAN_FC_STYPE_ASSOC_RESP true]) (λ _ s,
    ∃ bs' e' l', status e' = ASSOCIATED ∧
      ap_at x bs' (<[a := e']> mi) (th ++ [ProcessStaMsg assoc (Some l')])
        (own st a l' R (λ w, ∃ v, accepted_sta false cap interval els v ∧ joined st v w)) s).
Proof.
  intros He Hroom Hassoc [Hz2 Hda2 Hsc]. cbn [on_inputs]. eapply runs_bind.
  { eapply runs_weaken; [by eapply (join_assoc bs mi th R l e false cap interval els)| |done].
    intros s Hs. eapply ap_at_weaken; [exact Hs|]. intros c Ho. by eapply own_weaken. }
  intros []. apply runs_ex. intros bs3. apply runs_ex. intros e3. apply runs_ex. intros l'.
  apply runs_pure. intros He3. eapply runs_bind.
  { apply (assoc_cb_live x st a); [done..|]. exists e3. by rewrite lookup_insert_eq. }
  intros []. apply runs_ret. intros s Hs. by exists bs3, e3, l'.
Qed.

Lemma join_runs bs mi th m oh auth reply assoc answer cap interval els :
  Z.of_nat (size mi) ≤ st_max st → is_Some (mi !! a) ∨ Z.of_nat (size mi) < st_max st →
  Z.of_nat (size (delete a m)) < Z.min (st_max st) 2007 →
  station_of oh = Some a → auth_request st a auth → auth_answer a reply →
  assoc_request st a cap interval els assoc → assoc_answer a answer →
  runs (ap_at x bs mi th (stations m st))
    (on_inputs ([Select oh; Frame auth; Sent reply Mlme.WLAN_FC_STYPE_AUTH true] ++
      [Frame assoc; Sent answer WLAN_FC_STYPE_ASSOC_RESP true])) (λ _ s,
    ∃ bs' e l, (Z.of_nat (size (<[a := e]> mi)) ≤ st_max st ∧ status e = ASSOCIATED) ∧
      ap_at x bs' (<[a := e]> mi) ((th ++ [ProcessStaMsg auth None]) ++ [ProcessStaMsg assoc (Some l)])
        (own st a l (delete a m) (λ w, ∃ v, accepted_sta false cap interval els v ∧ joined st v w)) s).
Proof.
  intros Hle Hroomi Hroom Hoh Hauth Hreply Hassoc Hanswer.
  eapply inputs_app; [apply (select_auth_runs bs mi th m oh auth reply); (done || lia)|].
  apply runs_ex. intros bs2. apply runs_ex. intros e2. apply runs_ex. intros l.
  apply runs_pure. intros [Hsz He2].
  eapply runs_weaken; [apply (assoc_runs bs2 mi (th ++ [ProcessStaMsg auth None]) (delete a m) l e2 cap interval els
    assoc answer); (done || lia)|done|].
  intros u s (bs3 & e3 & l' & He3 & Hs). exists bs3, e3, l'. by rewrite (insert_size _ _ e2).
Qed.

End Join.

Section Life.
  Context `{Platform} `{Env} `{StaSize}.
  Abbreviation AM := (M ap_state).

Lemma inputs_counts ins : counts (on_inputs ins).
Proof.
  induction ins as [|i ins IH]; cbn [on_inputs]; [ct|]. apply counts_bind; [apply input_counts|done].
Qed.

(** An execution in which nothing can fail ends. *)
Lemma runs_end {A} P (f : AM A) Q s :
  (∀ t n, env_calloc t n = true) → (∀ t, env_thread t = 0) → runs P f Q → P s →
  ∃ r s', f s = Ret r s' ∧ Q r s'.
Proof.
  intros Hal Hth Hf Hs. specialize (Hf s Hs). destruct (f s) as [r s'| | |].
  - by exists r, s'.
  - destruct Hf as (t & n & E). by rewrite Hal in E.
  - destruct Hf as (_ & t & E). by rewrite Hth in E.
  - done.
Qed.

(** What an execution leaves for the station [a]. *)
Lemma own_ok s mi m ins s' bs mi' th a l F :
  ap_ok s mi m → on_inputs ins s = Ret () s' →
  ap_at s bs mi' th (own (settings_of (ap_hapd s)) a l (delete a m) F) s' →
  Z.of_nat (size mi') ≤ st_max (settings_of (ap_hapd s)) →
  ∃ w, F w ∧ sta_wf w ∧ ap_ok s' mi' (<[a := w]> m) ∧ deref (sta_hash (ap_hapd s')) l = Some w.
Proof.
  intros Hok E Hs' Hsz.
  destruct (own_facts _ _ _ _ _ _ (aa_core _ _ _ _ _ _ Hs')) as (bs0 & w & HF & W & _ & _ & _ & _ & Sh & Hd).
  rewrite insert_delete_eq in Sh. exists w. split_and!; [done..| |done].
  eapply (at_ok s bs mi' th); [destruct Hs'; constructor; try done; by eexists|done| |by destruct Hok].
  exact (ends_run s s' _ () (inputs_counts _) (ho_counted _ _ (ok_hapd _ _ _ Hok)) E).
Qed.

Lemma joined_member cap interval els st v w :
  open_network st → sta_wf w → accepted_sta false cap interval els v → joined st v w →
  member_sta cap interval els w.
Proof.
  intros Ho [] [[[]] Hi] [A B1 B5]. pose proof A as [_ Ei Ec El Er En _ Hbit].
  constructor; auto; [|lia|congruence|congruence|].
  - rewrite Hbit; [done|]. by apply (bool_decide_unpack _).
  - by eapply rates_closed.
Qed.

(** C8. A selected station gets in: in an open network with room for it, when the
    controller selects the station and the station then asks for authentication and
    for association with the network's name and rates, and both answers reach it,
    it ends up authenticated, associated and authorized, with an association
    identifier of its own and the capabilities, interval and rates of its request;
    the interface's list says associated; all other stations are as they were.  The
    controller is told of the authentication and of the association, in this order
    and nothing else, and the second report points to the station. *)
Theorem selected_station_joins s mi m a oh auth reply assoc answer cap interval els :
  ap_ok s mi m → friendly → (∀ t, env_thread t = 0) →
  let st := settings_of (ap_hapd s) in
  bytes_ok a → addr_ok s a → open_to st a →
  is_Some (mi !! a) ∨ Z.of_nat (size mi) < st_max st →
  Z.of_nat (size (delete a m)) < Z.min (st_max st) 2007 →
  station_of oh = Some a → auth_request st a auth → auth_answer a reply →
  assoc_request st a cap interval els assoc → assoc_answer a answer →
  ∃ s' e v l,
    on_inputs [Select oh; Frame auth; Sent reply Mlme.WLAN_FC_STYPE_AUTH true; Frame assoc;
      Sent answer WLAN_FC_STYPE_ASSOC_RESP true] s = Ret () s' ∧
    ap_ok s' (<[a := e]> mi) (<[a := v]> m) ∧ status e = ASSOCIATED ∧
    member_sta cap interval els v ∧
    ap_threads s' = ap_threads s ++ [ProcessStaMsg auth None; ProcessStaMsg assoc (Some l)] ∧
    deref (sta_hash (ap_hapd s')) l = Some v.
Proof.
  intros Hok Hfr Hth st Hb Haddr Hopen Hroomi Hroom Hoh Hauth Hreply Hassoc Hanswer.
  assert (Hmac : mac_ok a) by (destruct Haddr; by split).
  destruct (ok_at s mi m Hok) as [bs Hat]. set (th := ap_threads s) in *.
  assert (Hle : Z.of_nat (size mi) ≤ st_max st) by (by destruct Hok as [[] _ _ _]).
  pose proof (join_runs s st a Hmac Haddr Hopen Hfr Hth bs mi th m oh auth reply assoc answer cap interval
    els Hle Hroomi Hroom Hoh Hauth Hreply Hassoc Hanswer) as Hrun.
  destruct (runs_end _ _ _ s (fr_alloc Hfr) Hth Hrun Hat) as ([] & s' & E & bs' & e & l & [Hsz He] & Hs').
  destruct (own_ok s mi m _ s' bs' _ _ a l _ Hok E Hs' Hsz) as (w & (v & Hv & Hj) & W & Hok' & Hd).
  exists s', e, w, l. split_and!; try done.
  - by eapply joined_member; [apply Hopen| | |].
  - rewrite (aa_threads _ _ _ _ _ _ Hs'). by rewrite <- app_assoc.
Qed.

(** The identifier of a station that is gone is free. *)
Lemma identifier_free ws ws' m a v :
  aids_ok ws m 0 → aids_ok ws' (delete a m) 0 → m !! a = Some v → 1 ≤ aid v ≤ 2007 →
  taken ws' (aid v) = false.
Proof.
  intros Hw Hw' Hv Hr. destruct (taken ws' (aid v)) eqn:E; [|done]. exfalso.
  apply (ai_taken _ _ _ Hw') in E as [?|(b & w & Hb & Ha)]; [lia| |lia].
  apply lookup_delete_Some in Hb as [Hne Hb]. apply Hne.
  by apply (ai_distinct _ _ _ Hw a b v w); [..|lia|].
Qed.

Lemma ok_aids s mi m : ap_ok s mi m → aids_ok (sta_aid (ap_hapd s)) m 0.
Proof. intros [_ _ [[bs []] _] _]. done. Qed.

(** C19. A station that leaves is gone: a deauthentication frame of an associated
    station removes it from hostapd's table and list, frees its association
    identifier, leaves the other stations and the counters right, sets the
    interface's status back, and starts exactly one report to the controller. *)
Theorem leaving_station_is_gone s mi m a e v mgmt :
  ap_ok s mi m → (∀ t n, env_calloc t n = true) → (∀ t, env_thread t = 0) →
  bytes_ok a → addr_ok s a → mi !! a = Some e → status e = ASSOCIATED → m !! a = Some v →
  frame_for (settings_of (ap_hapd s)) a Mlme.WLAN_FC_STYPE_DEAUTH mgmt → 26 ≤ zlen mgmt →
  ∃ s' e', on_inputs [Frame mgmt] s = Ret () s' ∧ ap_ok s' (<[a := e']> mi) (delete a m) ∧
    status e' = NOT_AUTHENTICATED ∧ ap_threads s' = ap_threads s ++ [ProcessStaMsg mgmt None] ∧
    (1 ≤ aid v → taken (sta_aid (ap_hapd s')) (aid v) = false).
Proof.
  intros Hok Hal Hth Hb Haddr He Hst Hv Hf Hz. assert (Hmac : mac_ok a) by (destruct Haddr; by split).
  destruct (ok_at s mi m Hok) as [bs Hat]. set (st := settings_of (ap_hapd s)) in *.
  assert (Hrun : runs (ap_at s bs mi (ap_threads s) (stations m st)) (on_inputs [Frame mgmt])
    (λ _, settled s a mi (ap_threads s) True NOT_AUTHENTICATED [ProcessStaMsg mgmt None]
       (λ c, after st a (delete a m) c ∧ (True → stations (delete a m) st c)))).
  { cbn [on_inputs on_input]. do 2 apply then_runs.
    eapply (runs_dispatch s st a m bs mi _ _ mgmt (handle_deauth mgmt)); [done..|exact Hf| |].
    { do 2 right. left. }
    apply handle_deauth_runs; try done; [apply Hf|]. intros _. split_and!; [done|by exists e|by exists v]. }
  destruct (runs_end _ _ _ s Hal Hth Hrun Hat) as ([] & s' & E & bs' & mi' & th' & Hs' & [_ Hsz] & Hx).
  destruct (Hx I) as (-> & e' & -> & He'). destruct Hs' as [? ? ? Hth' [_ Hs'] ? ? ?].
  assert (Hok' : ap_ok s' (<[a := e']> mi) (delete a m)).
  { eapply (at_ok s bs' _ (ap_threads s ++ [ProcessStaMsg mgmt None])); [by constructor; auto|..].
    - rewrite Hsz. by destruct Hok as [[] _ _ _].
    - exact (ends_run s s' _ () (inputs_counts _) (ho_counted _ _ (ok_hapd _ _ _ Hok)) E).
    - by destruct Hok. }
  exists s', e'. split_and!; try done. intros Hp.
  apply (identifier_free _ _ m a v (ok_aids _ _ _ Hok) (ok_aids _ _ _ Hok') Hv).
  destruct (ok_hapd _ _ _ Hok) as [[? [_ _ Wf _ _ _ _]] _]. destruct (Wf a v Hv). lia.
Qed.

End Life.

(** ** Frames out of state *)

(** The state in which the interface lets a frame through. *)
Definition required (stype : Z) : option STAStatus :=
  if stype =? Mlme.WLAN_FC_STYPE_AUTH then Some SELECTED
  else if (stype =? Hapd.WLAN_FC_STYPE_ASSOC_REQ) || (stype =? Mlme.WLAN_FC_STYPE_REASSOC_REQ)
  then Some AUTHENTICATED
  else if (stype =? Mlme.WLAN_FC_STYPE_DISASSOC) || (stype =? Mlme.WLAN_FC_STYPE_DEAUTH)
          || (stype =? WLAN_FC_STYPE_ACTION)
  then Some ASSOCIATED else None.

(** The same for the report that a frame was sent, and for every input. *)
Definition required_sent (stype : Z) : option STAStatus :=
  if (stype =? Mlme.WLAN_FC_STYPE_AUTH) || (stype =? Mlme.WLAN_FC_STYPE_DISASSOC)
  then Some AUTHENTICATED
  else if (stype =? WLAN_FC_STYPE_ASSOC_RESP) || (stype =? WLAN_FC_STYPE_REASSOC_RESP)
  then Some ASSOCIATED
  else if stype =? Mlme.WLAN_FC_STYPE_DEAUTH then Some NOT_AUTHENTICATED else None.

Definition required_for (i : input) : option STAStatus :=
  match i with
  | Frame mgmt => fc ← frame_control mgmt; required (WLAN_FC_GET_STYPE fc)
  | Sent _ stype _ => required_sent stype
  | DataSent _ _ | EapolSent _ | FromUnknown _ _ | Eapol _ _ => Some ASSOCIATED
  | _ => None
  end.

Section Gate.
  Context `{Platform} `{Env} `{StaSize}.
  Context (s : ap_state).
  Abbreviation AM := (M ap_state).

(** From [s], whatever the clock and the events, nothing but these changes. *)
Definition quiet {A} (f : AM A) : Prop :=
  ∀ w, ∃ r w', f (set_sys w s) = Ret r (set_sys w' s).

Lemma quiet_bind {A B} (f : AM A) (k : A → AM B) : quiet f → (∀ r, quiet (k r)) → quiet (f ≫= k).
Proof.
  intros Hf Hk w. destruct (Hf w) as (r & w' & E). unfold mbind, M_bind. rewrite E. apply Hk.
Qed.

Lemma quiet_ret {A} (r : A) : quiet (mret r).
Proof. intros w. by eexists _, _. Qed.
Lemma quiet_gets {A} (f : ap_state → A) : quiet (gets f).
Proof. intros w. by eexists _, _. Qed.
Lemma quiet_ask {A} (f : nat → A) : quiet (ask f).
Proof. intros w. by eexists _, _. Qed.
Lemma quiet_calloc n : quiet (calloc n).
Proof. intros w. unfold calloc. by eexists _, _. Qed.
Lemma quiet_call f b : quiet (hostapd_call f b).
Proof. intros w. by eexists _, _. Qed.
Lemma quiet_notify f b : quiet (notify f b).
Proof. intros w. by eexists _, _. Qed.
Lemma quiet_opt {A B} (o : option A) v (k : A → AM B) : o = Some v → quiet (k v) → quiet (opt! o ≫= k).
Proof. by intros ->. Qed.

Context (mi : gmap bytes infoSTA) (a : bytes) (need : STAStatus).
Context (Hinv : sta_inv s mi) (Haddr : addr_ok s a) (Hno : ∀ e, mi !! a = Some e → status e ≠ need).

Lemma gate_shut w : permitted a need (set_sys w s) = Ret None (set_sys w s).
Proof.
  destruct Hinv as [[bs Hr] Hmx _ _].
  unfold permitted. edestruct (lookup_rep (B:=option loc)) as (p & E & Hp);
    [exact (Hr : sta_rep (ap_stas (set_sys w s)) bs mi)|exact Hmx| |erewrite E].
  { destruct Haddr. by constructor. }
  clear E. destruct (mi !! a) as [e|] eqn:Em; [|by subst].
  destruct Hp as (i & -> & _ & Hin).
  rewrite (node_read_ok (A:=infoSTA) _ _ i e) by (eapply rep_deref; [apply Hr|exact Hin]).
  by rewrite decide_False by (by apply Hno).
Qed.

Lemma quiet_gate {B} (some : loc → AM B) (none : AM B) :
  quiet none →
  quiet (info ← permitted a need; match info with Some i => some i | None => none end).
Proof. intros Hn w. unfold mbind, M_bind. rewrite gate_shut. apply Hn. Qed.

Lemma quiet_addressee {B} (some : loc → AM B) (none : AM B) :
  quiet none →
  quiet (sta ← addressee a need; match sta with Some l => some l | None => none end).
Proof. intros Hn w. unfold addressee, mbind, M_bind. rewrite gate_shut. apply Hn. Qed.

(** Walks through a function that only asks and tells. *)
Ltac qt :=
  repeat lazymatch goal with
  | |- quiet (mbind _ (notify _ _)) => apply quiet_bind; [apply quiet_notify|intros ?]
  | |- quiet (mbind _ (hostapd_call _ _)) => apply quiet_bind; [apply quiet_call|intros ?]
  | |- quiet (mbind _ (stored_bytes _)) => apply quiet_bind; [apply quiet_ask|intros ?]
  | |- quiet (mbind _ (calloc _)) => apply quiet_bind; [apply quiet_calloc|intros ?]
  | |- quiet (mbind _ (gets _)) => apply quiet_bind; [apply quiet_gets|intros ?]
  | |- quiet (mbind _ (match _ with _ => _ end)) => apply quiet_bind; [|intros ?]
  | |- quiet (mbind _ (mbind _ _)) => apply quiet_bind; [|intros ?]
  | |- quiet (match ?x with _ => _ end) => destruct x
  | |- quiet (let _ := _ in _) => cbv zeta
  | |- quiet (hostapd_call _ _) => apply quiet_call
  | |- quiet (notify _ _) => apply quiet_notify
  | |- quiet (mret _) => apply quiet_ret
  | |- quiet skip => apply quiet_ret
  end.

Ltac load H := let v := fresh "v" in let E := fresh "E" in
  destruct H as [v E]; [try lia..|]; eapply quiet_opt; [exact E|].

Lemma quiet_auth mgmt : need = SELECTED → mgmt_sa mgmt = Some a → quiet (handle_auth mgmt).
Proof.
  intros En Hsa. unfold handle_auth, auth_variable, IEEE80211_HDRLEN. rewrite <- En.
  destruct (Z.ltb_spec (zlen mgmt) (24 + 6)); [apply quiet_ret|].
  load (le16_some mgmt 24). load (le16_some mgmt 26). load (le16_some mgmt 0). load (le16_some mgmt 22).
  load (challenge_some mgmt). eapply quiet_opt; [exact Hsa|]. load (ldn_some mgmt 16 6).
  assert (Href : ∀ b d g t resp ies, quiet (auth_reply None b d g t resp ies))
    by (intros; unfold auth_reply, send_auth_reply; qt).
  apply quiet_bind; [unfold auth_checks; qt|]. intros [resp ies| |res]; [apply Href|apply quiet_ret|].
  apply quiet_gate, quiet_ret.
Qed.

Lemma quiet_others mgmt : mgmt_sa mgmt = Some a →
  (need = AUTHENTICATED → ∀ re, quiet (handle_assoc mgmt re)) ∧
  (need = ASSOCIATED → quiet (handle_disassoc mgmt) ∧ quiet (handle_deauth mgmt) ∧
     quiet (handle_action mgmt)).
Proof.
  intros Hsa. split; [intros En re|intros En; split_and!];
    unfold handle_assoc, handle_disassoc, handle_deauth, handle_action; rewrite <- En;
    try case_if; try apply quiet_ret; (eapply quiet_opt; [exact Hsa|]); apply quiet_gate, quiet_ret.
Qed.

Lemma quiet_mgmt mgmt fc :
  mgmt_sa mgmt = Some a → frame_control mgmt = Some fc →
  required (WLAN_FC_GET_STYPE fc) = Some need → quiet (ieee802_11_mgmt mgmt).
Proof.
  intros Hsa Hfc Hreq. unfold ieee802_11_mgmt. destruct (Z.ltb_spec (zlen mgmt) 24); [apply quiet_ret|].
  eapply quiet_opt; [exact Hfc|]. set (stype := WLAN_FC_GET_STYPE fc) in *. cbv zeta.
  assert (Hthen : ∀ f : AM unit, quiet f → quiet (f;; mret 1))
    by (intros f Hf; apply quiet_bind; [done|intros ?; apply quiet_ret]).
  assert (Hst : (stype =? WLAN_FC_STYPE_BEACON) = false ∧ (stype =? Mlme.WLAN_FC_STYPE_PROBE_REQ) = false).
  { clearbody stype. destruct (Z.eqb_spec stype WLAN_FC_STYPE_BEACON) as [->|]; [done|].
    destruct (Z.eqb_spec stype Mlme.WLAN_FC_STYPE_PROBE_REQ) as [->|]; [done|done]. }
  destruct Hst as [-> ->]. destruct (quiet_others mgmt Hsa) as [Hassoc Hleave].
  apply quiet_bind; [apply quiet_gets|]. intros h. load (ldn_some mgmt 16 6). case_if; [apply quiet_ret|].
  eapply quiet_opt; [exact Hsa|]. load (ldn_some mgmt 4 6). case_if; [apply quiet_ret|].
  apply quiet_bind; [qt|]. intros []. unfold required in Hreq.
  destruct (stype =? Mlme.WLAN_FC_STYPE_AUTH). { injection Hreq as Hreq. by apply Hthen, quiet_auth. }
  destruct (stype =? Hapd.WLAN_FC_STYPE_ASSOC_REQ). { injection Hreq as Hreq. by apply Hthen, Hassoc. }
  destruct (stype =? Mlme.WLAN_FC_STYPE_REASSOC_REQ). { injection Hreq as Hreq. by apply Hthen, Hassoc. }
  destruct (stype =? Mlme.WLAN_FC_STYPE_DISASSOC). { injection Hreq as Hreq. by apply Hthen, Hleave. }
  destruct (stype =? Mlme.WLAN_FC_STYPE_DEAUTH). { injection Hreq as Hreq. by apply Hthen, Hleave. }
  destruct (stype =? WLAN_FC_STYPE_ACTION). { injection Hreq as Hreq. by apply Hleave. }
  apply quiet_ret.
Qed.

Lemma quiet_cb mgmt stype ok :
  mgmt_da mgmt = Some a → required_sent stype = Some need → quiet (ieee802_11_mgmt_cb mgmt stype ok).
Proof.
  intros Hda Hreq. destruct (multicast_some a) as [many Em]; [destruct Haddr as [L _]; unfold zlen in *; lia|].
  unfold ieee802_11_mgmt_cb, handle_auth_cb, handle_assoc_cb, handle_deauth_cb, handle_disassoc_cb.
  unfold required_sent in Hreq.
  destruct (Z.eqb_spec stype Mlme.WLAN_FC_STYPE_AUTH) as [->|].
  { injection Hreq as En. rewrite En. eapply quiet_opt; [exact Hda|]. apply quiet_addressee, quiet_ret. }
  destruct (Z.eqb_spec stype Mlme.WLAN_FC_STYPE_DISASSOC) as [->|].
  { injection Hreq as En. cbn. rewrite En. eapply quiet_opt; [exact Hda|]. eapply quiet_opt; [exact Em|].
    case_if; [apply quiet_ret|]. apply quiet_addressee, quiet_ret. }
  cbn [orb] in Hreq.
  destruct (stype =? WLAN_FC_STYPE_ASSOC_RESP).
  { injection Hreq as En. rewrite En. eapply quiet_opt; [exact Hda|]. apply quiet_addressee, quiet_ret. }
  destruct (stype =? WLAN_FC_STYPE_REASSOC_RESP).
  { injection Hreq as En. rewrite En. eapply quiet_opt; [exact Hda|]. apply quiet_addressee, quiet_ret. }
  destruct (Z.eqb_spec stype Mlme.WLAN_FC_STYPE_DEAUTH) as [->|]; [|done].
  injection Hreq as En. cbn. rewrite En. eapply quiet_opt; [exact Hda|]. eapply quiet_opt; [exact Em|].
  case_if; [apply quiet_ret|]. apply quiet_addressee, quiet_ret.
Qed.

Lemma quiet_input i : names i = Some a → required_for i = Some need → quiet (on_input i).
Proof.
  destruct i as [mgmt|mgmt stype ok|b ack|b|b|b wds|b buf|t b|b|oh|oh]; cbn [names required_for on_input];
    intros Hn Hreq; try done; try (injection Hn as ->; injection Hreq as En).
  - apply bind_Some in Hreq as (fc & Hfc & Hreq).
    apply quiet_bind; [by eapply quiet_mgmt|intros _; apply quiet_ret].
  - by apply quiet_cb.
  - unfold hostapd_tx_status. rewrite En. apply quiet_addressee, quiet_ret.
  - unfold hostapd_eapol_tx_status. rewrite En. apply quiet_addressee, quiet_ret.
  - unfold ieee802_11_rx_from_unknown. rewrite En. apply quiet_gate, quiet_ret.
  - unfold ieee802_1x_receive. rewrite En. apply quiet_gate, quiet_ret.
Qed.

End Gate.

Section Gated.
  Context `{Platform} `{Env} `{StaSize}.

Lemma quiet_run {A} s (f : M ap_state A) : quiet s f → ∃ r w, f s = Ret r (set_sys w s).
Proof. intros Hf. destruct (Hf (ap_sys s)) as (r & w & E). exists r, w. by destruct s. Qed.

(** C14. Frames out of state change nothing.  A frame, or a report that one was
    sent, that is about a station the controller interface does not know or does not
    have in the one state in which it lets it through (selected for an
    authentication; authenticated for a request to associate and for the report of
    the answer to an authentication; associated for a disassociation, a
    deauthentication, an action, an EAPOL frame, data, and the report of the answer to
    a request) leaves every list, table, counter and thread of the access point as it
    is, whatever the environment answers; all that can come of it is something that
    is sent or asked. *)
Theorem frames_out_of_state s mi i a need :
  sta_inv s mi → addr_ok s a → names i = Some a → required_for i = Some need →
  (∀ e, mi !! a = Some e → status e ≠ need) →
  ∃ w, on_input i s = Ret () (set_sys w s).
Proof.
  intros Hinv Haddr Hn Hreq Hno. destruct (quiet_run s (on_input i)) as ([] & w & E); [|by exists w].
  by eapply quiet_input.
Qed.

Lemma lost_runs x st a bs mi th m e v fresh cap interval els assoc answer :
  mac_ok a → addr_ok x a → open_to st a → friendly → (∀ t, env_thread t = 0) →
  mi !! a = Some e → status e = AUTHENTICATED → m !! a = Some v → ready fresh v →
  Z.of_nat (size (delete a m)) < 2007 → assoc_request st a cap interval els assoc →
  30 ≤ zlen answer → mgmt_da answer = Some a →
  runs (ap_at x bs mi th (stations m st))
    (on_inputs [Frame assoc; Sent answer WLAN_FC_STYPE_ASSOC_RESP false]) (λ _ s,
    ∃ bs' e' l th', status e' = ASSOCIATED ∧
      ap_at x bs' (<[a := e']> mi) th' (own st a l (delete a m) (accepted_sta fresh cap interval els)) s).
Proof.
  intros Hmac Haddr Hopen Hfr Hth He Hst Hv Hr Hroom Hassoc Hz Hda s Hs. cbn [on_inputs].
  destruct (aa_core _ _ _ _ _ _ Hs) as [bs0 Sh].
  assert (∃ l, own st a l (delete a m) (ready fresh) (core_of (ap_hapd s))) as [l Ho].
  { edestruct (get_sta_at (S:=ap_state) s bs0 m st a Hmac) as (p & _ & Hp); [exact Sh|].
    destruct p as [l|]; [|congruence]. destruct Hp as (v' & Hv' & Hin & Ha). exists l, bs0, v'.
    rewrite insert_delete_id, lookup_delete_eq by done. split_and!; try done. congruence. }
  assert (Hs1 : ap_at x bs (<[a := e]> mi) th (own st a l (delete a m) (ready fresh)) s)
    by (rewrite insert_id by done; destruct Hs; by constructor).
  clear dependent bs0 Hs. revert s Ho Hs1. intros s _ Hs1. revert s Hs1. refine (runs_bind _ _ _ _ _ _ _).
  { by apply (join_assoc x st a Haddr Hopen Hfr Hth bs mi th _ l e fresh cap interval els). }
  intros []. apply runs_ex. intros bs1. apply runs_ex. intros e1. apply runs_ex. intros l1.
  apply runs_pure. intros He1. eapply runs_bind.
  { apply (assoc_cb_lost x st a); [done..|]. apply accepted_closed; by apply (bool_decide_unpack _). }
  intros []. apply runs_ret. intros s Hs. by eexists bs1, e1, l1, _.
Qed.

(** C33. A lost answer shuts the station out: when the answer to a request that was
    accepted does not reach the station, hostapd does not associate it, but the
    interface's status stays ASSOCIATED; from then on every request of the station
    to authenticate or to associate is ignored. *)
Theorem lost_answer_shuts_out s mi m a e v cap interval els assoc answer :
  ap_ok s mi m → friendly → (∀ t, env_thread t = 0) →
  let st := settings_of (ap_hapd s) in
  bytes_ok a → addr_ok s a → open_to st a →
  mi !! a = Some e → status e = AUTHENTICATED → m !! a = Some v → bit 0 v = true →
  Z.of_nat (size (delete a m)) < 2007 → assoc_request st a cap interval els assoc →
  30 ≤ zlen answer → mgmt_da answer = Some a →
  ∃ s' e' v', on_inputs [Frame assoc; Sent answer WLAN_FC_STYPE_ASSOC_RESP false] s = Ret () s' ∧
    ap_ok s' (<[a := e']> mi) (<[a := v']> m) ∧ status e' = ASSOCIATED ∧ (bit 1 v = false → bit 1 v' = false) ∧
    ∀ mgmt fc, mgmt_sa mgmt = Some a → frame_control mgmt = Some fc →
      WLAN_FC_GET_STYPE fc ∈ [Mlme.WLAN_FC_STYPE_AUTH; Hapd.WLAN_FC_STYPE_ASSOC_REQ;
        Mlme.WLAN_FC_STYPE_REASSOC_REQ] →
      ∃ r w, ieee802_11_mgmt mgmt s' = Ret r (set_sys w s').
Proof.
  intros Hok Hfr Hth st Hb Haddr Hopen He Hst Hv Hb0 Hroom Hassoc Hz Hda.
  assert (Hmac : mac_ok a) by (destruct Haddr; by split).
  assert (Hready : ready (negb (bit 1 v)) v) by (split; [done|by destruct (bit 1 v)]).
  destruct (ok_at s mi m Hok) as [bs Hat].
  pose proof (lost_runs s st a bs mi (ap_threads s) m e v _ cap interval els assoc answer Hmac Haddr Hopen
    Hfr Hth He Hst Hv Hready Hroom Hassoc Hz Hda) as Hrun.
  destruct (runs_end _ _ _ s (fr_alloc Hfr) Hth Hrun Hat) as ([] & s' & E & bs' & e' & l & th' & He' & Hs').
  destruct (own_ok s mi m _ s' bs' _ _ a l _ Hok E Hs') as (w & [[[_ Hb1]] _] & _ & Hok' & _).
  { rewrite map_size_insert_Some by (by exists e). by destruct Hok as [[] _ _ _]. }
  exists s', e', w. split_and!; [done..|by intros Hv1; apply Hb1; rewrite Hv1|]. intros mgmt fc Hsa Hfc Hin.
  assert (∃ need, required (WLAN_FC_GET_STYPE fc) = Some need ∧ ASSOCIATED ≠ need) as (need & Hreq & Hne).
  { rewrite !elem_of_cons, elem_of_nil in Hin. by destruct Hin as [->|[->|[->|[]]]]; eexists. }
  eapply quiet_run, (quiet_mgmt s' (<[a := e']> mi) a need); [by destruct Hok'| | |done..].
  - by eapply addr_ok_at.
  - intros e0. rewrite lookup_insert_eq. intros [= <-]. by rewrite He'.
Qed.

End Gated.

(** ** Witnesses *)

(** An open 802.11g network, and answers with which nothing goes wrong. *)
Definition life_env : Env := {|
  env_calloc := @env_calloc ap_env; env_send := @env_send ap_env; env_recv := @env_recv ap_env;
  env_select := @env_select ap_env; env_socket := @env_socket ap_env; env_fcntl := @env_fcntl ap_env;
  env_setsockopt := @env_setsockopt ap_env; env_connect := @env_connect ap_env;
  env_errno := @env_errno ap_env; env_so_error := @env_so_error ap_env;
  env_permaddr := @env_permaddr ap_env; env_rand := @env_rand ap_env; env_stack := @env_stack ap_env;
  env_verdict := @env_verdict ap_env; env_thread := @env_thread ap_env;
  env_system := @env_system ap_env; env_bytes := @env_bytes ap_env;
  env_call _ f := if decide (f = "ieee802_11_allowed_address") then 1 else 0 |}.
Definition life_start : ap_state := set_hapd (hs_hapd hapd_start) ap_start.

Lemma life_friendly : @friendly life_env.
Proof. by constructor. Qed.

Lemma life_start_ok : ap_ok life_start ∅ ∅.
Proof.
  constructor; [| |exact hapd_start_ok|done].
  - destruct ap_start_sta. by constructor.
  - apply map_Forall_empty.
Qed.

Lemma life_addr : addr_ok life_start sta9.
Proof. destruct start_addr. by constructor. Qed.

Definition own9 : bytes := [2; 0; 0; 0; 0; 1].
Definition life_els : list element := [El 0 [104; 111; 109; 101]; El 1 [2; 4; 11; 22]].
Definition life_select : bytes := replicate 16 0 ++ sta9 ++ [0; 0].
Definition life_auth : bytes := [0xb0; 0; 0; 0] ++ own9 ++ sta9 ++ own9 ++ [16; 0; 0; 0; 1; 0; 0; 0].
Definition life_reply : bytes := [0xb0; 0; 0; 0] ++ sta9 ++ own9 ++ own9 ++ [0; 0; 0; 0; 2; 0; 0; 0].
Definition life_assoc : bytes :=
  [0; 0; 0; 0] ++ own9 ++ sta9 ++ own9 ++ [32; 0; 1; 4; 10; 0] ++ encode_all life_els.
Definition life_answer : bytes :=
  [0x10; 0; 0; 0] ++ sta9 ++ own9 ++ own9 ++ [0; 0; 1; 4; 0; 0; 1; 0xc0].
Definition life_leave : bytes := [0xc0; 0; 0; 0] ++ own9 ++ sta9 ++ own9 ++ [48; 0; 3; 0].

Abbreviation home := (settings_of (hs_hapd hapd_start)).

Lemma life_open : open_to home sta9.
Proof. by constructor. Qed.

Lemma life_frames :
  auth_request home sta9 life_auth ∧ auth_answer sta9 life_reply ∧
  assoc_request home sta9 1025 10 life_els life_assoc ∧ assoc_answer sta9 life_answer ∧
  frame_for home sta9 Mlme.WLAN_FC_STYPE_DEAUTH life_leave.
Proof.
  split_and!; repeat constructor; try done; try (by eexists); try (by apply (bool_decide_unpack _)).
Qed.

#[local] Existing Instances lp64_le life_env.
#[local] Instance life_size : StaSize := 1000.

(** The state after a list of inputs. *)
Definition life_after (ins : list input) : ap_state :=
  match on_inputs ins life_start with Ret _ s => s | _ => life_start end.

Lemma selected_station_joins_witness :
  ∃ s' e v l,
    on_inputs [Select life_select; Frame life_auth; Sent life_reply Mlme.WLAN_FC_STYPE_AUTH true;
      Frame life_assoc; Sent life_answer WLAN_FC_STYPE_ASSOC_RESP true] life_start = Ret () s' ∧
    ap_ok s' (<[sta9 := e]> ∅) (<[sta9 := v]> ∅) ∧ status e = ASSOCIATED ∧
    member_sta 1025 10 life_els v ∧
    ap_threads s' = [] ++ [ProcessStaMsg life_auth None; ProcessStaMsg life_assoc (Some l)] ∧
    deref (sta_hash (ap_hapd s')) l = Some v.
Proof.
  destruct life_frames as (Hauth & Hreply & Hassoc & Hanswer & _).
  apply (selected_station_joins life_start ∅ ∅ sta9 life_select life_auth life_reply life_assoc life_answer
    1025 10 life_els); try done.
  - apply life_start_ok.
  - by apply (bool_decide_unpack _).
  - apply life_addr.
  - right. by rewrite map_size_empty.
Defined.

Definition life_inputs : list input :=
  [Select life_select; Frame life_auth; Sent life_reply Mlme.WLAN_FC_STYPE_AUTH true; Frame life_assoc;
   Sent life_answer WLAN_FC_STYPE_ASSOC_RESP true; DataSent sta9 true; Expires Inactivity sta9;
   Frame life_leave; Expires SaQuery sta9; Absent sta9; Remove life_select].

Lemma life_known a : a = sta9 ∨ a = own9 → addr_ok life_start a.
Proof.
  intros [->| ->]; [apply life_addr|]. constructor; [done|]. exists 0. split; [done|]. by vm_compute.
Qed.

Lemma life_inputs_ok : Forall (input_ok life_start) life_inputs.
Proof.
  assert (Hb : bytes_ok sta9) by (by apply (bool_decide_unpack _)).
  assert (Hs : addr_ok life_start sta9) by apply life_addr.
  assert (Hf : ∀ f a, ldn f 10 6 = Some a ∨ ldn f 4 6 = Some a →
    ldn f 10 6 ∈ [Some sta9; Some own9] → ldn f 4 6 ∈ [Some sta9; Some own9] → addr_ok life_start a).
  { intros f a Ha. rewrite !elem_of_cons, !elem_of_nil. intros H1 H2. apply life_known.
    destruct Ha as [Ha|Ha]; [rewrite Ha in H1; destruct H1 as [[= ->]|[[= ->]|[]]]
                            |rewrite Ha in H2; destruct H2 as [[= ->]|[[= ->]|[]]]]; auto. }
  assert (Hframe : ∀ f, bytes_ok f → ldn f 10 6 ∈ [Some sta9; Some own9] →
    ldn f 4 6 ∈ [Some sta9; Some own9] → input_ok life_start (Frame f)).
  { intros f Hf0 H1 H2. split; [done|]. intros a Ha. by apply (Hf f); [left|..]. }
  assert (Hsent : ∀ f t ok, bytes_ok f → 30 ≤ zlen f → ldn f 10 6 ∈ [Some sta9; Some own9] →
    ldn f 4 6 ∈ [Some sta9; Some own9] → input_ok life_start (Sent f t ok)).
  { intros f t ok Hf0 Hz H1 H2. split; [done|]. split; [case_if; lia|]. intros a Ha. by apply (Hf f). }
  assert (Hof : station_of life_select = Some sta9) by (by vm_compute).
  unfold life_inputs. repeat first [apply Forall_nil_2|apply Forall_cons_2];
    lazymatch goal with
    | |- input_ok _ (Frame _) => apply Hframe; by apply (bool_decide_unpack _)
    | |- input_ok _ (Sent _ _ _) => apply Hsent; by apply (bool_decide_unpack _)
    | |- input_ok _ (Select _) => by exists sta9
    | |- input_ok _ (Remove _) => by exists sta9
    | |- _ => by split
    end.
Qed.


(** The states of a station that has been selected and authenticated, and of one
    that has joined. *)
Definition life_enter : list input :=
  [Select life_select; Frame life_auth; Sent life_reply Mlme.WLAN_FC_STYPE_AUTH true].
Definition life_joins : list input :=
  [Frame life_assoc; Sent life_answer WLAN_FC_STYPE_ASSOC_RESP true].

Lemma life_state ins need F :
  (∀ bs, runs (ap_at life_start bs ∅ [] (stations ∅ home)) (on_inputs ins) (λ _ s,
     ∃ bs' e l th, (Z.of_nat (size (<[sta9 := e]> ∅ : gmap bytes infoSTA)) ≤ 255 ∧ status e = need) ∧
       ap_at life_start bs' (<[sta9 := e]> ∅) th (own home sta9 l (delete sta9 ∅) F) s)) →
  ∃ e v, ap_ok (life_after ins) (<[sta9 := e]> ∅) (<[sta9 := v]> ∅) ∧ status e = need ∧ F v ∧
    settings_of (ap_hapd (life_after ins)) = home ∧ addr_ok (life_after ins) sta9.
Proof.
  intros Hrun. destruct (ok_at _ _ _ life_start_ok) as [bs Hat].
  destruct (runs_end _ _ _ life_start (fr_alloc life_friendly) (λ _, eq_refl) (Hrun bs) Hat)
    as ([] & s & E & bs' & e & l & th & [Hsz He] & Hs).
  destruct (own_ok _ _ _ _ _ _ _ _ _ _ _ life_start_ok E Hs Hsz) as (v & Fv & _ & Hok & _).
  unfold life_after. rewrite E. exists e, v. split_and!; [done..| |].
  - by destruct (own_stations _ _ _ _ _ _ (aa_core _ _ _ _ _ _ Hs)) as (w & _ & Hw%stations_settings).
  - eapply addr_ok_at; [exact Hs|apply life_addr].
Qed.

Lemma life_entered : ∃ e v, ap_ok (life_after life_enter) (<[sta9 := e]> ∅) (<[sta9 := v]> ∅) ∧
  status e = AUTHENTICATED ∧ bit 0 v = true ∧
  settings_of (ap_hapd (life_after life_enter)) = home ∧ addr_ok (life_after life_enter) sta9.
Proof.
  destruct life_frames as (Hauth & Hreply & _).
  apply life_state. intros bs. eapply runs_weaken; [|done|].
  - apply (select_auth_runs life_start home sta9 ltac:(by split; [|apply (bool_decide_unpack _)])
      life_addr life_open life_friendly (λ _, eq_refl) bs ∅ [] ∅ life_select life_auth life_reply); try done.
    right. by vm_compute.
  - intros u s (bs' & e & l & He & Hs). by eexists bs', e, l, _.
Qed.

Lemma life_joined : ∃ e v,
  ap_ok (life_after (life_enter ++ life_joins)) (<[sta9 := e]> ∅) (<[sta9 := v]> ∅) ∧
  status e = ASSOCIATED ∧ (∃ w, accepted_sta false 1025 10 life_els w ∧ joined home w v) ∧
  settings_of (ap_hapd (life_after (life_enter ++ life_joins))) = home ∧
  addr_ok (life_after (life_enter ++ life_joins)) sta9.
Proof.
  destruct life_frames as (Hauth & Hreply & Hassoc & Hanswer & _).
  apply life_state. intros bs. eapply runs_weaken; [|done|].
  - apply (join_runs life_start home sta9 ltac:(by split; [|apply (bool_decide_unpack _)])
      life_addr life_open life_friendly (λ _, eq_refl) bs ∅ [] ∅ life_select life_auth life_reply
      life_assoc life_answer 1025 10 life_els); try done.
    right. by vm_compute.
  - intros u s (bs' & e & l & He & Hs). by eexists bs', e, l, _.
Qed.

Lemma leaving_station_is_gone_witness :
  ∃ s' e', on_inputs [Frame life_leave] (life_after (life_enter ++ life_joins)) = Ret () s' ∧
    status e' = NOT_AUTHENTICATED ∧ ap_ok s' (<[sta9 := e']> ∅) ∅.
Proof.
  destruct life_frames as (_ & _ & _ & _ & Hleave).
  generalize life_joined. generalize (life_after (life_enter ++ life_joins)).
  intros s (e & v & Hok & He & _ & Hst & Ha).
  destruct (leaving_station_is_gone _ _ _ sta9 e v life_leave Hok (fr_alloc life_friendly) (λ _, eq_refl))
    as (s' & e' & E & Hok' & He' & _); [by apply (bool_decide_unpack _)|exact Ha|by rewrite lookup_insert_eq
    |done|by rewrite lookup_insert_eq|by rewrite Hst|done|].
  exists s', e'. rewrite insert_insert_eq, delete_insert_eq in Hok'. by split_and!.
Defined.

Lemma lost_answer_shuts_out_witness :
  ∃ s', on_inputs [Frame life_assoc; Sent life_answer WLAN_FC_STYPE_ASSOC_RESP false]
      (life_after life_enter) = Ret () s' ∧
    (∃ r w, ieee802_11_mgmt life_auth s' = Ret r (set_sys w s')) ∧
    ∃ r w, ieee802_11_mgmt life_assoc s' = Ret r (set_sys w s').
Proof.
  destruct life_frames as (_ & _ & Hassoc & Hanswer & _).
  generalize life_entered. generalize (life_after life_enter). intros s (e & v & Hok & He & Hv & Hst & Ha).
  destruct (lost_answer_shuts_out _ _ _ sta9 e v 1025 10 life_els life_assoc life_answer Hok life_friendly
    (λ _, eq_refl)) as (s' & e' & v' & E & _ & _ & _ & Hquiet); rewrite ?Hst; try done.
  - by apply (bool_decide_unpack _).
  - exists s'. split_and!; [done|..]; (eapply Hquiet; [done|done|by apply (bool_decide_unpack _)]).
Defined.

Lemma frames_out_of_state_witness :
  (∃ w, on_input (Frame life_assoc) life_start = Ret () (set_sys w life_start)) ∧
  (∃ w, on_input (Eapol sta9 [2; 1; 0; 0]) life_start = Ret () (set_sys w life_start)).
Proof.
  split.
  - apply (frames_out_of_state life_start ∅ (Frame life_assoc) sta9 AUTHENTICATED); try done;
      [apply life_start_ok|apply life_addr].
  - apply (frames_out_of_state life_start ∅ (Eapol sta9 [2; 1; 0; 0]) sta9 ASSOCIATED); try done;
      [apply life_start_ok|apply life_addr].
Defined.
