(* ===== verification/Handover.v ===== *)
(** * A handover from one hostapd to the other

    The station is taken out of the table of the old access point's hostapd and put
    into the new one's, with its parameters: the theorem of this file runs the
    controller's decision, the two messages it sends, and the code that the two
    access points execute on them. *)

From Stdlib Require Import ZArith Lia.
From S2P Require Import Prelude CMem Java FlMessages FlController FlProps FlHandover FlPorts.
Import Fl Ctl.
From S2P Require Import CStruct CMonad OpenFlow Chain CSteps Agent NatTable.
From S2P Require Import ApData Station StationProps StationMap ApState ApNat ApNatProps ApAgent ApStaProps.
From S2P Require Import FlWire System Elements ElemProps StaMlme MlmeProps MlmeCount Mgmt MgmtCount MgmtProps.
From S2P Require Import FrameProps StaLife.

Section Hostapd.
  Context `{Platform} `{Env} `{Hapd.StaSize}.
  Context (arp : nat → option (list (bytes * bytes))) (ifs : nat → list (bytes * (Z * Z * Z * Z))).

(** What hostapd does leaves the interface's list in order. *)
Lemma hostapd_step {A} s mi m (f : M ap_state A) Q :
  ap_ok s mi m → total (stations m (settings_of (ap_hapd s))) f (λ _, Q) → counts f →
  ∃ r s', f s = Ret r s' ∧ Q (core_of (ap_hapd s')) ∧
    ∀ m', stations m' (settings_of (ap_hapd s)) (core_of (ap_hapd s')) → ap_ok s' mi m'.
Proof.
  intros Hok Hf Hc. destruct (ok_at s mi m Hok) as [bs Hat].
  pose proof Hok as [[_ _ _ Hle] _ [Hs Hcnt] Ho]. destruct (Hf s Hs) as (r & s' & E & HQ & _).
  exists r, s'. split_and!; [done..|]. intros m' Hm'.
  pose proof (runs_total s bs mi (ap_threads s) _ f _ Hf s Hat) as Hr. rewrite E in Hr.
  eapply (at_ok s bs mi (ap_threads s)); [|done| |done].
  - destruct Hr as [? ? ? ? _ ? ? ?]. by constructor.
  - exact (ends_run s s' f r Hc Hcnt E).
Qed.

(** The interface's list has changed, hostapd's has not. *)
Lemma frame_ok s mi m s' a e :
  ap_ok s mi m → sta_inv s' (<[a := e]> mi) → sta_frame s s' → address e = a →
  ap_ok s' (<[a := e]> mi) m.
Proof.
  intros [_ Ha Hh Ho] Hi (_ & _ & Eh & _ & _) He.
  constructor; [done| |by rewrite Eh|by rewrite Eh]. by apply map_Forall_insert_2.
Qed.

(** The old access point takes the station out. *)
Lemma station_taken_out s mi m e sta rest :
  ap_ok s mi m → bytes_ok sta → addr_ok s sta → mi !! sta = Some e →
  ∃ s', ap_process_controller_msg arp ifs (remove_octets sta ++ rest) s = Ret () s' ∧
    ap_ok s' (<[sta := removed e]> mi) (delete sta m).
Proof.
  intros Hok Hb Haddr He. assert (Ha : address e = sta) by (by apply (ok_addr _ _ _ Hok)).
  destruct (remove_read arp ifs s mi e sta rest (ok_stas _ _ _ Hok) Haddr He) as (s1 & -> & Hi & Hf).
  pose proof (frame_ok s mi m s1 sta (removed e) Hok Hi Hf Ha) as Hok1.
  assert (Hmac : mac_ok (address (removed e))) by (cbn; rewrite Ha; by destruct Haddr; split).
  destruct (hostapd_step s1 _ m (Hapd.remove_STA (removed e)) _ Hok1
    (remove_STA_total _ m (removed e) Hmac) (remove_STA_counted _))
    as ([] & s' & E & HQ & Hm').
  exists s'. split; [done|]. apply Hm'. cbn in HQ. by rewrite Ha in HQ.
Qed.

(** The new access point's hostapd admits it. *)
Lemma station_admitted s mi m e :
  ap_ok s mi m → info_ok e → accepted (settings_of (ap_hapd s)) e = true →
  is_Some (m !! address e) ∨ Z.of_nat (size m) < st_max (settings_of (ap_hapd s)) →
  (∀ t n, env_calloc t n = true) → (∀ t, 0 ≤ env_call t "accounting_sta_get_id") →
  (∀ t, env_call t "hostapd_sta_add" = 0) →
  ∃ s' v, Hapd.add_STA e s = Ret () s' ∧ ap_ok s' mi (<[address e := v]> m) ∧
    admitted (settings_of (ap_hapd s)) e v.
Proof.
  intros Hok Hi Hacc Hroom Hca Hid Hdrv.
  destruct (hostapd_step s mi m (Hapd.add_STA e) _ Hok (add_STA_total _ m e Hi) (add_STA_counted e))
    as ([] & s' & E & [[_ Hbad]|(_ & v & Hv & Had)] & Hm').
  - exfalso. destruct Hbad as [?|(Hm & [?|[(t & n & ?)|[t ?]]])]; [congruence| |congruence|].
    + destruct Hroom as [[x Hx]|?]; [congruence|lia].
    + specialize (Hid t). lia.
  - exists s', v. split_and!; auto. destruct Had as [?|[_ [t Ht]]]; [done|]. by rewrite Hdrv in Ht.
Qed.

End Hostapd.

(** The entry of another access point is not touched by an association. *)
Lemma base_info_assoc `{JavaEnv} w st sta ap c i cand :
  STAAPList c !! (toHexString sta, toHexString ap) = Some i → toHexString ap ≠ ap_mac cand →
  base_info (handleAssocReq w (reported st sta ap) c).2 (toHexString sta) cand
  = base_info c (toHexString sta) cand.
Proof.
  intros Ei Hne. rewrite (assoc_entry w st sta ap c i) by done. unfold base_info. cbn.
  by rewrite lookup_insert_ne by congruence.
Qed.

(** The old access point is told to let the station go. *)
Lemma remove_sent `{JavaEnv} w d c cand i t ip :
  let sta := toHexString (rs_sta d) in
  STAAPRSSIList c !! sta = Some cand → STAAPList c !! (sta, toHexString (rs_ap d)) = Some i →
  rs_rssi d < ap_rssi cand → toHexString (rs_ap d) ≠ ap_mac cand →
  (∀ n, write_fails n = false) → remote_ip (sw (base_info c sta cand)) = inr t →
  toIPv4Address t = inr ip →
  (w, remove_sta (rs_sta d)) ∈ written (handleAPRSSI w d c).2.
Proof.
  intros sta Ec Ei Hr Hne Hw Et Eip. rewrite (ap_rssi_handover w d c cand i) by done.
  rewrite (send_handover_spec _ _ _ _ _ t ip) by done. rewrite Hw. cbn [snd].
  apply in_written; [done|]. rewrite !elem_of_app. left. right. by left.
Qed.

Section EndToEnd.
  Context `{Platform} `{Hapd.StaSize} `{JavaEnv}.
  Context (old_env new_env : Env).
  Context (arp : nat → option (list (bytes * bytes))) (ifs : nat → list (bytes * (Z * Z * Z * Z))).

(** C2. A handover moves the station from one hostapd to the other.  The old access
    point has reported the association of the station with hostapd's parameters; when
    another access point hears it better, the controller sends REMOVE_STA to the old
    access point and UPDATE_STA_ADD to the new one.  What their code does with these
    octets ends with the station gone from the old hostapd's table, list and
    identifiers, and no longer authenticated at its interface; and with the station
    authenticated and associated, in an open network authorized, in the new
    hostapd's table, with the capabilities, listen interval and rates it had before.
    All other stations of both are as they were. *)
Theorem handover_end_to_end w w' st sta ap c i cand d t ip s0 mi0 m0 e0 s mi m e rest0 rest :
  let c1 := (handleAssocReq w (reported st sta ap) c).2 in
  let new := sw (base_info c (toHexString sta) cand) in
  STAAPList c !! (toHexString sta, toHexString ap) = Some i → Ctl.qosinfo i = 0 →
  STAAPRSSIList c !! toHexString sta = Some cand →
  rs_sta d = sta → rs_ap d = ap → rs_rssi d < ap_rssi cand → toHexString ap ≠ ap_mac cand →
  (∀ n, write_fails n = false) → remote_ip new = inr t → toIPv4Address t = inr ip →
  bytes_ok sta → sta_ranges st →
  ap_ok s0 mi0 m0 → addr_ok s0 sta → mi0 !! sta = Some e0 → m0 !! sta = Some st →
  ap_ok s mi m → addr_ok s sta → mi !! sta = Some e → length (supported_rates e) = 32%nat →
  accepted (settings_of (ap_hapd s)) (set_auth_alg (Ctl.auth_alg i mod 65536) e) = true →
  is_Some (m !! sta) ∨ Z.of_nat (size m) < st_max (settings_of (ap_hapd s)) →
  @friendly new_env →
  ∃ rem upd octets0 octets s0' s' e' v,
    (w', rem) ∈ written (handleAPRSSI w' d c1).2 ∧ (new, upd) ∈ written (handleAPRSSI w' d c1).2 ∧
    Fl.encode rem = inr octets0 ∧ Fl.encode upd = inr octets ∧
    @ap_process_controller_msg _ old_env _ arp ifs (octets0 ++ rest0) s0 = Ret () s0' ∧
    ap_ok s0' (<[sta := removed e0]> mi0) (delete sta m0) ∧
    @ap_process_controller_msg _ new_env _ arp ifs (octets ++ rest) s = Ret () s' ∧
    ap_ok s' (<[sta := e']> mi) (<[sta := v]> m) ∧ status e' = ApData.ASSOCIATED ∧
    bit 0 v = true ∧ bit 1 v = true ∧ (open_network (settings_of (ap_hapd s)) → bit 5 v = true) ∧
    Hapd.capability v = Hapd.capability st ∧ Hapd.listen_interval v = Hapd.listen_interval st ∧
    Hapd.supported_rates_len v = Hapd.supported_rates_len st ∧
    (let n := Z.to_nat (Hapd.supported_rates_len st) in
     take n (Hapd.supported_rates v) = take n (Hapd.supported_rates st)).
Proof.
  intros c1 new Ei Hq Ec Esta Eap Hr Hne Hw Et Eip Hb Hrg Hok0 Ha0 He0 Hst Hok Ha He Hl Hacc Hroom Hfr.
  destruct (ok_hapd _ _ _ Hok0) as [[? [_ _ Wf _ _ _ _]] _]. destruct (Wf _ _ Hst) as [_ _ Lst _ Hlen].
  assert (En : sw (base_info c1 (toHexString sta) cand) = new)
    by (unfold new, c1; f_equal; by eapply base_info_assoc).
  destruct (handover_carries_parameters arp ifs w w' st sta ap c i cand d t ip s mi e rest)
    as (upd & octets & e' & s1 & Hupd & Eupd & Hs & Hi & Hf & Hst' & Hadr & Halg & _ & Hcap & Hint & Hrl
        & Hrates & _ & Hl'); try done; [by rewrite <- En in Et|by destruct Hok|].
  fold c1 in Hupd. rewrite En in Hupd.
  assert (Ae : address e' = sta) by (rewrite Hadr; by apply (ok_addr _ _ _ Hok)).
  assert (Eacc : accepted (settings_of (ap_hapd s1)) e' = true).
  { destruct Hf as (_ & _ & Eh & _). rewrite Eh. unfold accepted in *. by rewrite Halg. }
  assert (Hi' : info_ok e')
    by (constructor; [rewrite Ae; by destruct Ha; split|done|by rewrite Hrl]).
  destruct (station_taken_out (H0:=old_env) arp ifs s0 mi0 m0 e0 sta rest0 Hok0 Hb Ha0 He0)
    as (s0' & E0 & Hok0').
  pose proof (frame_ok s mi m s1 sta e' Hok Hi Hf Ae) as Hok1.
  destruct Hf as (_ & _ & Eh & _).
  destruct (station_admitted (H0:=new_env) s1 _ m e' Hok1 Hi' Eacc) as (s' & v & E & Hok' & [[] ? ? ?]);
    [by rewrite Ae, Eh|apply Hfr..|].
  exists (remove_sta sta), upd, (remove_octets sta), octets, s0', s', e', v.
  rewrite Ae in Hok'. rewrite Eh in *.
  split_and!; try done; try congruence.
  - rewrite <- Esta. eapply remove_sent; rewrite ?Esta, ?Eap; try done.
    + unfold c1. by rewrite (assoc_entry w st sta ap c i).
    + unfold c1. rewrite (assoc_entry w st sta ap c i) by done. apply lookup_insert_eq.
    + by rewrite En.
  - by apply encode_remove; destruct Ha.
  - cbv zeta in Hrates |- *. rewrite <- Hrates. rewrite pr_len, Hrl in pr_rates. exact pr_rates.
Qed.

End EndToEnd.

(** ** Witness *)

#[local] Existing Instances lp64_le life_env life_size.

(** The second access point has heard the station and has the same network. *)
Definition second_ap : ap_state := Hapd.set_hapd (hs_hapd hapd_start) ap_known.

Lemma second_ok : ap_ok second_ap {[sta9 := ApStaProps.known_sta]} ∅ ∧ addr_ok second_ap sta9.
Proof.
  destruct ap_known_sta as [[] []]. split; [|by constructor].
  constructor; [by constructor| |exact hapd_start_ok|done]. by apply map_Forall_singleton.
Qed.

Lemma handover_end_to_end_witness :
  ∃ octets0 octets s0' s' e e' v,
    ap_process_controller_msg (λ _, None) (λ _, []) (octets0 ++ [])
      (life_after (life_enter ++ life_joins)) = Ret () s0' ∧
    ap_ok s0' {[sta9 := e]} ∅ ∧
    ap_process_controller_msg (λ _, None) (λ _, []) (octets ++ []) second_ap = Ret () s' ∧
    ap_ok s' {[sta9 := e']} {[sta9 := v]} ∧ bit 1 v = true ∧ Hapd.capability v = 1025.
Proof.
  generalize life_joined. generalize (life_after (life_enter ++ life_joins)).
  intros s (e0 & v0 & Hok0 & _ & (w0 & Hw0 & Hj) & _ & Ha0).
  destruct (ok_hapd _ _ _ Hok0) as [[? [_ _ Wf _ _ _ _]] _].
  destruct (joined_member 1025 10 life_els _ w0 v0 (op_open _ _ life_open) (Wf sta9 v0 (lookup_insert_eq _ _ _)) Hw0 Hj).
  destruct second_ok as [Hok Ha].
  destruct (@handover_end_to_end lp64_le life_size calm_env life_env life_env (λ _, None) (λ _, []) 1 1
    v0 sta9 ap1 sta9_at_ap1
    (Info (toHexString sta9) (toHexString ap1) (Some Ctl.AUTHENTICATED) true 1 0 0 0 0 None 0 0)
    (AP (toHexString ap2) (-50) false 2) (WlanRSSI (WlanHeader 16) sta9 ap1 (-70))
    [49; 48; 46; 48; 46; 48; 46; 50] 167772162 s (<[sta9 := e0]> ∅) (<[sta9 := v0]> ∅) e0
    second_ap {[sta9 := ApStaProps.known_sta]} ∅ ApStaProps.known_sta [] [])
    as (? & ? & octets0 & octets & s0' & s' & e' & v & _ & _ & _ & _ & E0 & Hok0' & E & Hok' & _ & _
        & Hb & _ & Hc & _).
  all: try done.
  - by apply (bool_decide_unpack _).
  - constructor; lia.
  - right. by vm_compute.
  - rewrite insert_insert_eq, delete_insert_eq in Hok0' by done.
    rewrite insert_singleton_eq, insert_empty in Hok'.
    exists octets0, octets, s0', s', (removed e0), e', v. split_and!; try done. lia.
Defined.
